(* ===== verification/_CoqProject ===== *)
-Q . S2P
Prelude.v
KLib.v
Mmu.v
Paging.v
BootPaging.v
Alloc.v
Utils.v
UserPaging.v
AddrSpace.v
Memmap.v
Fault.v
Format.v
Console.v
UserMem.v
Keyboard.v
Devices.v
Cpu.v
Pci.v
Ahci.v
Tarfs.v
Mount.v
Loader.v
LoadSegment.v
Fork.v
InitProc.v
Threads.v
Boot.v
Start.v
Process.v
ProcInv.v
Syscall.v
Interrupts.v
UserMode.v
Shell.v
Programs.v
