(* ===== verification/Prelude.v ===== *)
(** * A model of the SBU teaching kernel

    ** The program

    The repository is a small x86-64 operating system: a kernel ([sys/],
    [include/sys/]), a C library ([libc/]), the start code of programs ([crt/]) and
    the programs themselves ([bin/]).  The loader enters [boot] in [sys/main.c], which
    sets up the segment table, reads the loader's memory map, builds the page list and
    the kernel's page tables, installs the interrupt table, programs the interrupt
    controller and the timer, mounts the archive that is linked into the kernel,
    allocates the process queues and starts two kernel threads.  The second thread
    loads [bin/sbush] from the archive and enters it in user mode.  Programs reach the
    kernel through interrupt 128; page faults, keys and the timer enter it through
    their own gates.

    ** Files

    Shared:
    - [Prelude]: machine integers as [Z] with explicit reduction ([u8] to [u64],
      [s32]), byte memory ([mem], [rd8] to [wr64]) and its lemmas, [zdiv].
    - [KLib]: [sys/lib_ops_for_kern.c], [sys/memory.c]; [cstr] says that memory holds a
      C string.
    - [Utils]: [sys/k_utils.c] (itoa, stoi, oct2dec, rounding).

    Memory:
    - [Mmu]: the processor's four-level page walk ([walk]), from its manual.
    - [Paging]: [sys/paging.c]; the kernel state [kst] is memory, the C globals
      ([gvar]) and cr3.  [BootPaging]: the tables that [set_free_list] builds.
      [Alloc]: the allocator afterwards, with the class [PageSource] that its clients
      are proved against.
    - [UserPaging], [Memmap], [Fault]: [sys/user_paging.c] and [include/sys/fault.h].
      [AddrSpace]: the finite maps that page tables represent, the abstract state of
      the refinement.  [UserMem]: kernel accesses through the current page tables.

    Devices and processor:
    - [Format], [Console]: [sys/kprintf.c], [sys/putch.c].  [Keyboard]:
      [sys/keyboard.c].  [Devices]: [sys/pic.c], [sys/timer.c].
    - [Cpu]: modules [Gdt] ([sys/gdt.c]) and [Idt] ([sys/idt.c]).  [Interrupts]: the
      entry points of [sys/idt.s] on a machine with registers and a stack, and the
      dispatch of [isr_handler] and [irq_handler].  [UserMode]:
      [sys/swtch_to_ring3.c].
    - [Pci], [Ahci]: [sys/pci.c].

    Files, processes, threads:
    - [Tarfs]: [sys/walk_tarfs.c], [sys/tarfs_ops.c].  [Mount]: what [init_tarfs]
      builds.
    - [Loader]: [load_segment], [fork_process], [exec] of [sys/process.c] and
      [init_usr_pcb] of [sys/pcb_init.c], with the structures as bytes;
      [LoadSegment], [Fork], [InitProc] prove what they do.
    - [Threads]: [sys/pcb_init.c], [sys/process_helpers.c], [sys/scheduler.c],
      [sys/sysinit.c], [sys/dispatch.s], [sys/kernel_switch_ops.c].
    - [Boot]: [sys/main.c], the composition of the kernel's parts.  [Start]: the run
      from [boot] through the thread switch and [init_entry] into the shell.
    - [Process]: the process table with the rest of [sys/process.c]; tasks are records,
      [curr_upcb] is a reference that may alias a queue slot, and an access outside one
      of the arrays of 64 elements has no result.  [ProcInv]: the table as a transition
      system.
    - [Syscall]: [sys/syscall.c], [libc/syscalls.c].

    User side:
    - [Shell]: [libc/] and [bin/sbush/sbush.c] as trees of system calls.
      [Programs]: [crt/crt1.c] and the other programs.

    ** How code is modelled

    A function is a Rocq function with its statements in the order of the source.
    State is passed explicitly; code that can fail to return, or that reads through a
    pointer that is not mapped, yields an [option].  Kernel pointers are virtual
    addresses; [kphys] gives the physical byte that the kernel's mapping assigns to
    them.  Devices, the compiler's choices (addresses of objects and literals) and the
    processor are parameters: classes such as [PortDev], [LongPort] and [HbaPort] for
    devices with instances that follow their data sheets, records such as
    [tarfs_layout] and [image] for addresses.

    ** Theorems

    - From power-on to the shell: [boot_enters_shell] runs [boot], the first [yield],
      the switch and [init_entry] on one machine, up to the entry into [bin/sbush];
      of its parts, [boot_starts_kernel] composes paging, the archive,
      the queues, the keyboard's reset of the shared counter and the threads;
      [init_usr_pcb_starts_program] and [load_segment_loads_program] create the first
      process down to the bytes that the hardware translates; [jmp_usrmode_enters_ring3]
      enters it.
    - Memory: the boot mapping, freshness of every kernel allocation, and page faults
      as a refinement of insertion into a finite map ([page_faults_refine]);
      [page_fault_resumes] runs a fault from the gate to the return, and says what it
      does to the frames and the write permission of every other page.
    - Files: mounting, opening and reading give the bytes of the archive.
    - Processes: an invariant of the process table over all sequences of operations
      (the guards of the steps are those of [pstep]), the scheduler's policy against
      its specification, exit, fork.
    - Input and output: formatting refines a printf specification, the console stays
      on the screen, [gets] returns the typed line.
    - System calls, shell and programs: numbers and arguments reach the kernel,
      commands start their programs, [echo] prints its argument.
    - Library: round trips and specifications of the string and number routines, and
      the equivalence of the two copy routines where it holds.
    - Behaviour that the code should not have is stated as what it does
      (for instance [system_call_moves_registers], [cow_fault_maps_elsewhere]).

    ** Fuel

    A loop that is not structural takes a [fuel] argument and gives [None] when it is
    used up.  Theorems about such code ask for a number of steps that is computed from
    the input (the length of a string, the number of members of the archive or of
    entries of the memory map, 64 for scans of the process queue), and show that the
    function returns.  The largest loops are bounded by constants of the code: 24576
    page descriptors, 49 page tables.  Code that need not return is shown to give
    [None] for every fuel (for instance [scan_diverges], [port_rebase_sets_up]).

    ** Not modelled

    - [sys/page_alloc.c] and the second half of [sys/user_paging.c] are commented out or
      disabled by [#if 0]; [sys/fs.c] is a comment and [sys/pit.c] is empty.
    - The structures of [include/sys/ahci.h] that no code uses, and prototypes.
    - What follows the switch of stacks in [load_krsp]: the compiler's epilogue and the
      pops and the jump in [sys/process.c] run on the other stack, so in the process
      table [load_krsp] and the jump are events.
    - The stacks of C functions.  In particular [tlb_flush] also stores its argument at
      [8(%rsp)], a word of its caller's frame, and changes [rax], neither of which it
      tells the compiler.
    - What an access outside an array of [sys/process.c] does to its neighbours.
    - Where theorems list the messages of [kprintf], a message is its format and
      arguments; the bytes it puts on the screen are those of [Console].
    - Interrupts arrive where the code waits for them ([gets]) or between operations
      of the process table, not between single instructions of the kernel.
    - The processor's caches, including the TLB, are taken to be coherent. *)

From stdpp Require Import base gmap list numbers.
From Stdlib Require Import ZArith Lia.

#[global] Open Scope Z_scope.

#[global] Arguments Z.testbit : simpl never.
#[global] Arguments Z.lor : simpl never.
#[global] Arguments Z.land : simpl never.
#[global] Arguments Z.shiftl : simpl never.
#[global] Arguments Z.shiftr : simpl never.
#[global] Arguments Z.pow : simpl never.
#[global] Arguments Z.modulo : simpl never.
#[global] Arguments Z.div : simpl never.
#[global] Arguments Z.mul : simpl never.
#[global] Arguments Z.add : simpl never.
#[global] Arguments Z.sub : simpl never.
#[global] Arguments Z.of_nat : simpl never.

(** ** Machine integers

    A C object of width [w] is a [Z]; every arithmetic operation of the source
    is followed by the reduction that the object's type performs. *)

Definition u8 (x : Z) : Z := x mod 2 ^ 8.
Definition u16 (x : Z) : Z := x mod 2 ^ 16.
Definition u32 (x : Z) : Z := x mod 2 ^ 32.
Definition u64 (x : Z) : Z := x mod 2 ^ 64.

(** Blocks of [n] bytes at [p] and [k] bytes at [q] that do not overlap. *)
Definition apart (p n q k : Z) : Prop := p + n <= q \/ q + k <= p.

(** Two's complement reading of the low 32 bits ([int]). *)
Definition s32 (x : Z) : Z := (x + 2 ^ 31) mod 2 ^ 32 - 2 ^ 31.

Create HintDb words.

Lemma u64_small x : 0 <= x < 2 ^ 64 -> u64 x = x.
Proof. intros. unfold u64. apply Z.mod_small; lia. Qed.

Lemma u32_small x : 0 <= x < 2 ^ 32 -> u32 x = x.
Proof. intros. unfold u32. apply Z.mod_small; lia. Qed.

Lemma u16_small x : 0 <= x < 2 ^ 16 -> u16 x = x.
Proof. intros. unfold u16. apply Z.mod_small; lia. Qed.

Lemma u8_small x : 0 <= x < 2 ^ 8 -> u8 x = x.
Proof. intros. unfold u8. apply Z.mod_small; lia. Qed.

Lemma s32_small x : - 2 ^ 31 <= x < 2 ^ 31 -> s32 x = x.
Proof. intros. unfold s32. rewrite Z.mod_small; lia. Qed.

Lemma u64_range x : 0 <= u64 x < 2 ^ 64.
Proof. unfold u64. apply Z.mod_pos_bound. lia. Qed.

Lemma u64_idem x : u64 (u64 x) = u64 x.
Proof. unfold u64. apply Z.mod_mod. lia. Qed.

(** Solves side conditions of the width lemmas. *)
Ltac words :=
  repeat first
    [ rewrite u64_small by lia | rewrite u32_small by lia
    | rewrite u16_small by lia | rewrite u8_small by lia
    | rewrite s32_small by lia ].

(** Linear arithmetic with division and remainder by constants. *)
Ltac zdiv :=
  repeat match goal with |- context [2 ^ Z.pos ?k] =>
    let v := eval vm_compute in (2 ^ Z.pos k) in change (2 ^ Z.pos k) with v end;
  Z.to_euclidean_division_equations; lia.

(** ** Bits of 2-power-aligned numbers *)

Lemma land_ones_mod x n : 0 <= n -> Z.land x (2 ^ n - 1) = x mod 2 ^ n.
Proof.
  intros. rewrite <- Z.land_ones by lia. f_equal. rewrite Z.ones_equiv. lia.
Qed.

Lemma shiftr_land_ones x k n :
  0 <= k -> 0 <= n -> Z.land (Z.shiftr x k) (2 ^ n - 1) = (x / 2 ^ k) mod 2 ^ n.
Proof. intros. rewrite land_ones_mod, Z.shiftr_div_pow2 by lia. done. Qed.

(** Oring a small number into an aligned one is an addition. *)
Lemma land_aligned x y n :
  0 <= n -> x mod 2 ^ n = 0 -> 0 <= y < 2 ^ n -> Z.land x y = 0.
Proof.
  intros Hn Hx Hy. apply Z.bits_inj'. intros j Hj.
  rewrite Z.land_spec, Z.bits_0.
  destruct (decide (j < n)) as [Hlt|Hge].
  - rewrite <- (Z.mod_pow2_bits_low x n j) by lia.
    rewrite Hx, Z.bits_0. done.
  - rewrite <- (Z.mod_small y (2 ^ n)) by lia.
    rewrite Z.mod_pow2_bits_high by lia. apply andb_false_r.
Qed.

Lemma lor_aligned x y n :
  0 <= n -> x mod 2 ^ n = 0 -> 0 <= y < 2 ^ n -> Z.lor x y = x + y.
Proof.
  intros. rewrite Z.add_nocarry_lxor, Z.lxor_lor by eauto using land_aligned. done.
Qed.

(** ** Byte memory

    Memory is a finite map from addresses to byte values; an address that was
    never written reads as zero. *)

Abbreviation mem := (gmap Z Z).

Definition rd8 (m : mem) (a : Z) : Z := default 0 (m !! a) mod 256.
Definition wr8 (m : mem) (a v : Z) : mem := <[a := v mod 256]> m.

(** [n]-byte little-endian load and store. *)
Fixpoint rdn (n : nat) (m : mem) (a : Z) : Z :=
  match n with
  | O => 0
  | S n' => rd8 m a + 256 * rdn n' m (a + 1)
  end.

Fixpoint wrn (n : nat) (m : mem) (a v : Z) : mem :=
  match n with
  | O => m
  | S n' => wrn n' (wr8 m a v) (a + 1) (v / 256)
  end.

Definition rd16 := rdn 2.
Definition rd32 := rdn 4.
Definition rd64 := rdn 8.
Definition wr16 := wrn 2.
Definition wr32 := wrn 4.
Definition wr64 := wrn 8.

Lemma rd8_range m a : 0 <= rd8 m a < 256.
Proof. unfold rd8. apply Z.mod_pos_bound. lia. Qed.

Lemma rd8_wr8_eq m a v : rd8 (wr8 m a v) a = v mod 256.
Proof.
  unfold rd8, wr8. rewrite lookup_insert_eq. simpl. apply Z.mod_mod. lia.
Qed.

Lemma rd8_wr8_ne m a b v : a <> b -> rd8 (wr8 m a v) b = rd8 m b.
Proof. intros. unfold rd8, wr8. rewrite lookup_insert_ne; done. Qed.

Lemma rd8_wrn_ne n m a v b :
  b < a \/ a + Z.of_nat n <= b -> rd8 (wrn n m a v) b = rd8 m b.
Proof.
  revert m a v. induction n as [|n IH]; intros m a v Hb; simpl; [done|].
  rewrite IH by lia. apply rd8_wr8_ne. lia.
Qed.

Lemma rdn_ext n m m' a :
  (forall i, a <= i < a + Z.of_nat n -> rd8 m' i = rd8 m i) ->
  rdn n m' a = rdn n m a.
Proof.
  revert a. induction n as [|n IH]; intros a H; simpl; [done|].
  rewrite (H a) by lia. rewrite IH; [done|]. intros. apply H. lia.
Qed.

Lemma rdn_wrn_ne k n m a v b :
  b + Z.of_nat k <= a \/ a + Z.of_nat n <= b ->
  rdn k (wrn n m a v) b = rdn k m b.
Proof. intros. apply rdn_ext. intros. apply rd8_wrn_ne. lia. Qed.

Lemma rdn_wrn_eq n m a v : rdn n (wrn n m a v) a = v mod 256 ^ Z.of_nat n.
Proof.
  revert m a v. induction n as [|n IH]; intros m a v.
  - simpl. rewrite Z.mod_1_r. done.
  - cbn [rdn wrn]. rewrite IH, rd8_wrn_ne, rd8_wr8_eq by lia.
    rewrite Nat2Z.inj_succ, Z.pow_succ_r by lia.
    rewrite Z.rem_mul_r by lia. done.
Qed.

Lemma rdn_range n m a : 0 <= rdn n m a < 256 ^ Z.of_nat n.
Proof.
  revert a. induction n as [|n IH]; intros a; cbn [rdn]; [simpl; lia|].
  rewrite Nat2Z.inj_succ, Z.pow_succ_r by lia.
  pose proof (rd8_range m a). specialize (IH (a + 1)). lia.
Qed.

Lemma rd64_range m a : 0 <= rd64 m a < 2 ^ 64.
Proof. apply (rdn_range 8). Qed.

Lemma rd32_range m a : 0 <= rd32 m a < 2 ^ 32.
Proof. apply (rdn_range 4). Qed.

Lemma rd64_wr64_eq m a v : rd64 (wr64 m a v) a = u64 v.
Proof. apply (rdn_wrn_eq 8). Qed.

Lemma rd64_wr64_ne m a v b :
  b + 8 <= a \/ a + 8 <= b -> rd64 (wr64 m a v) b = rd64 m b.
Proof. intros. apply rdn_wrn_ne. lia. Qed.

Lemma rd64_wr32_ne m a v b :
  b + 8 <= a \/ a + 4 <= b -> rd64 (wr32 m a v) b = rd64 m b.
Proof. intros. apply rdn_wrn_ne. lia. Qed.

Lemma rd32_wr32_eq m a v : rd32 (wr32 m a v) a = u32 v.
Proof. apply (rdn_wrn_eq 4). Qed.

Lemma rd32_wr32_ne m a v b :
  b + 4 <= a \/ a + 4 <= b -> rd32 (wr32 m a v) b = rd32 m b.
Proof. intros. apply rdn_wrn_ne. lia. Qed.

Lemma rd32_wr64_ne m a v b :
  b + 4 <= a \/ a + 8 <= b -> rd32 (wr64 m a v) b = rd32 m b.
Proof. intros. apply (rdn_wrn_ne 4 8). lia. Qed.

Lemma rd64_wr8_ne m a v b :
  b + 8 <= a \/ a + 1 <= b -> rd64 (wr8 m a v) b = rd64 m b.
Proof. intros. apply (rdn_wrn_ne 8 1). lia. Qed.

Lemma rd8_wr64_ne m a v b : b < a \/ a + 8 <= b -> rd8 (wr64 m a v) b = rd8 m b.
Proof. intros. apply rd8_wrn_ne. lia. Qed.

Lemma rd8_wr32_ne m a v b : b < a \/ a + 4 <= b -> rd8 (wr32 m a v) b = rd8 m b.
Proof. intros. apply rd8_wrn_ne. lia. Qed.

Lemma rd8_wrn_0 n m a b : a <= b < a + Z.of_nat n -> rd8 (wrn n m a 0) b = 0.
Proof.
  revert m a. induction n as [|n IH]; intros m a Hb; cbn [wrn]; [lia|].
  destruct (decide (b = a)) as [->|]; [|apply IH; lia].
  rewrite rd8_wrn_ne, rd8_wr8_eq by lia. done.
Qed.

Lemma rd8_wr32_0 m a b : a <= b < a + 4 -> rd8 (wr32 m a 0) b = 0.
Proof. intros. apply (rd8_wrn_0 4). lia. Qed.

Lemma rd16_wr16_eq m a v : rd16 (wr16 m a v) a = u16 v.
Proof. apply (rdn_wrn_eq 2). Qed.

Lemma rd16_wr16_ne m a v b :
  b + 2 <= a \/ a + 2 <= b -> rd16 (wr16 m a v) b = rd16 m b.
Proof. intros. apply rdn_wrn_ne. lia. Qed.

Lemma rd8_wr16_ne m a v b : b < a \/ a + 2 <= b -> rd8 (wr16 m a v) b = rd8 m b.
Proof. intros. apply rd8_wrn_ne. lia. Qed.

Lemma rd8_wr16_low m a v : rd8 (wr16 m a v) a = v mod 256.
Proof.
  unfold wr16. cbn [wrn]. rewrite rd8_wr8_ne, rd8_wr8_eq by lia. done.
Qed.

Lemma rd16_ext m m' a :
  (forall i, a <= i < a + 2 -> rd8 m' i = rd8 m i) -> rd16 m' a = rd16 m a.
Proof. intros. apply rdn_ext. intros. apply H. lia. Qed.

(** A load depends only on the bytes it covers. *)
Lemma rd64_ext m m' a :
  (forall i, a <= i < a + 8 -> rd8 m' i = rd8 m i) -> rd64 m' a = rd64 m a.
Proof. intros. apply rdn_ext. intros. apply H. lia. Qed.

Lemma rd32_ext m m' a :
  (forall i, a <= i < a + 4 -> rd8 m' i = rd8 m i) -> rd32 m' a = rd32 m a.
Proof. intros. apply rdn_ext. intros. apply H. lia. Qed.

Lemma rdn_zero n m a :
  (forall i, a <= i < a + Z.of_nat n -> rd8 m i = 0) -> rdn n m a = 0.
Proof.
  revert a. induction n as [|n IH]; intros a H; cbn [rdn]; [done|].
  rewrite H, IH by (lia || intros; apply H; lia). done.
Qed.

Lemma rd64_zero m a : (forall i, a <= i < a + 8 -> rd8 m i = 0) -> rd64 m a = 0.
Proof. intros H. apply (rdn_zero 8). intros. apply H. lia. Qed.

(** Copying a word copies its bytes. *)
Lemma rd8_wrn_rdn n m a m' b x :
  a <= x < a + Z.of_nat n -> rd8 (wrn n m a (rdn n m' b)) x = rd8 m' (b + (x - a)).
Proof.
  revert m a b. induction n as [|n IH]; intros m a b Hx; [lia|]. cbn [wrn rdn].
  pose proof (rd8_range m' b) as Hb.
  replace ((rd8 m' b + 256 * rdn n m' (b + 1)) / 256) with (rdn n m' (b + 1)).
  2:{ rewrite (Z.mul_comm 256), Z.div_add, Z.div_small by lia. lia. }
  destruct (decide (x = a)) as [->|Hne].
  - rewrite rd8_wrn_ne, rd8_wr8_eq by lia. rewrite (Z.mul_comm 256), Z.mod_add, Z.mod_small by lia.
    f_equal. lia.
  - rewrite IH by lia. f_equal. lia.
Qed.

Lemma rd8_wr64_rd64 m a m' b x :
  a <= x < a + 8 -> rd8 (wr64 m a (rd64 m' b)) x = rd8 m' (b + (x - a)).
Proof. intros. apply (rd8_wrn_rdn 8). lia. Qed.

Lemma rd32_bytes m a :
  rd32 m a = rd8 m a + 256 * (rd8 m (a + 1) + 256 * (rd8 m (a + 2) + 256 * rd8 m (a + 3))).
Proof.
  unfold rd32. cbn [rdn]. replace (a + 1 + 1 + 1) with (a + 3) by lia.
  replace (a + 1 + 1) with (a + 2) by lia. lia.
Qed.

#[global] Opaque rd16 rd32 rd64 wr16 wr32 wr64.
