(* ===== verification/KLib.v ===== *)
(** * Kernel string and block routines

    [sys/lib_ops_for_kern.c] and [sys/memory.c].  Pointers are addresses of the
    byte memory of [Prelude]; a [char] is its byte value, and the routines that
    scan for a terminator take a fuel that bounds the scan ([None] when the
    bound is hit before the scan ends). *)

From stdpp Require Import base gmap list numbers.
From Stdlib Require Import ZArith Lia.
From S2P Require Import Prelude.

(** ** Block operations *)

Fixpoint memset_loop (n : nat) (m : mem) (p c : Z) : mem :=
  match n with
  | O => m
  | S n' => memset_loop n' (wr8 m p c) (p + 1) c
  end.

(** [memset(b, c, len)]: [len] is an [int], the loop runs while it is positive. *)
Definition memset (m : mem) (b c len : Z) : mem :=
  memset_loop (Z.to_nat len) m b c.

Fixpoint cpy_loop (n : nat) (m : mem) (cdest csrc i : Z) : mem :=
  match n with
  | O => m
  | S n' => cpy_loop n' (wr8 m (cdest + i) (rd8 m (csrc + i))) cdest csrc (i + 1)
  end.

(** [kmemcpy(dest, src, n)], ascending byte copy. *)
Definition kmemcpy (m : mem) (dest src n : Z) : mem :=
  cpy_loop (Z.to_nat n) m dest src 0.

(** The variable-length array [temp] of [kmemmove]. *)
Fixpoint read_temp (n : nat) (m : mem) (p : Z) : list Z :=
  match n with
  | O => []
  | S n' => rd8 m p :: read_temp n' m (p + 1)
  end.

Fixpoint write_temp (m : mem) (p : Z) (temp : list Z) : mem :=
  match temp with
  | [] => m
  | c :: temp' => write_temp (wr8 m p c) (p + 1) temp'
  end.

Definition kmemmove (m : mem) (dest src n : Z) : mem :=
  write_temp m dest (read_temp (Z.to_nat n) m src).

(** ** String operations *)

(** [while (str[i++] != '\0');] followed by [return i]. *)
Fixpoint kstrlen_loop (fuel : nat) (m : mem) (str i : Z) : option Z :=
  match fuel with
  | O => None
  | S f =>
      if rd8 m (str + i) =? 0 then Some (i + 1)
      else kstrlen_loop f m str (i + 1)
  end.

Definition kstrlen (fuel : nat) (m : mem) (str : Z) : option Z :=
  if rd8 m str =? 0 then Some 0 else kstrlen_loop fuel m str 0.

Fixpoint kstrcmp (fuel : nat) (m : mem) (str1 str2 : Z) : option Z :=
  match fuel with
  | O => None
  | S f =>
      let c1 := rd8 m str1 in
      let c2 := rd8 m str2 in
      if c1 =? c2 then
        if c1 =? 0 then Some 0 else kstrcmp f m (str1 + 1) (str2 + 1)
      else Some (c1 - c2)
  end.

(** The loop counter [i] of [kstrncmp] is initialised and never incremented, so
    the test [i < n] is [0 < n] in every iteration. *)
Fixpoint kstrncmp (fuel : nat) (m : mem) (str1 str2 n : Z) : option Z :=
  match fuel with
  | O => None
  | S f =>
      let i := 0 in
      let c1 := rd8 m str1 in
      let c2 := rd8 m str2 in
      if (c1 =? c2) && (i <? n) then
        if c1 =? 0 then Some 0 else kstrncmp f m (str1 + 1) (str2 + 1) n
      else Some (c1 - c2)
  end.

Fixpoint kstrcpy (fuel : nat) (m : mem) (dst src : Z) : option mem :=
  match fuel with
  | O => None
  | S f =>
      if rd8 m src =? 0 then Some (wr8 m dst 0)
      else kstrcpy f (wr8 m dst (rd8 m src)) (dst + 1) (src + 1)
  end.

(** The [for] loop of [kstrncpy]; returns the memory and the final [dst]. *)
Fixpoint kstrncpy_loop (n : nat) (m : mem) (dst src : Z) : mem * Z :=
  match n with
  | O => (m, dst)
  | S n' =>
      let m := wr8 m dst (rd8 m src) in
      let dst := dst + 1 in
      let src := src + 1 in
      if rd8 m src =? 0 then (m, dst) else kstrncpy_loop n' m dst src
  end.

Definition kstrncpy (m : mem) (dst src n : Z) : mem :=
  let '(m, dst) := kstrncpy_loop (Z.to_nat n) m dst src in
  wr8 m dst 0.

(** [for (i = 0; i < len2; i++) str1[len1 + i] = str2[i];] *)
Fixpoint kstrcat_loop (n : nat) (m : mem) (str1 str2 len1 i : Z) : mem :=
  match n with
  | O => m
  | S n' =>
      kstrcat_loop n' (wr8 m (str1 + (len1 + i)) (rd8 m (str2 + i)))
        str1 str2 len1 (i + 1)
  end.

Definition kstrcat (fuel : nat) (m : mem) (str1 str2 : Z) : option (Z * mem) :=
  match kstrlen fuel m str1, kstrlen fuel m str2 with
  | Some len1, Some len2 =>
      let m := kstrcat_loop (Z.to_nat len2) m str1 str2 len1 0 in
      Some (str1, wr8 m (str1 + (len1 + len2)) 0)
  | _, _ => None
  end.

(** ** Tokenizer

    [kstrtok] keeps a static [_buffer] and the global [check]. *)

Record tok_state := mk_tok { _buffer : Z; check : Z }.

Inductive tok_scan :=
| TokNext (m : mem) (ret : Z) (st : tok_state)
| TokReturn (ret : Z) (m : mem) (st : tok_state)
| TokFuel.

(** The inner loop over [delim]: [d] walks the delimiter string. *)
Fixpoint tok_inner (fuel : nat) (m : mem) (b d ret : Z) (st : tok_state) : tok_scan :=
  match fuel with
  | O => TokFuel
  | S f =>
      if rd8 m d =? 0 then TokNext m ret st
      else if rd8 m b =? rd8 m d then
        let m := wr8 m b 0 in
        let st := mk_tok (b + 1) (check st) in
        if b =? ret then tok_inner f m b (d + 1) (ret + 1) st
        else TokReturn ret m (mk_tok (_buffer st) ret)
      else tok_inner f m b (d + 1) ret st
  end.

(** The outer loop over the buffer. *)
Fixpoint tok_outer (fuel : nat) (m : mem) (b delim ret : Z) (st : tok_state) : tok_scan :=
  match fuel with
  | O => TokFuel
  | S f =>
      if rd8 m b =? 0 then TokReturn ret m (mk_tok (_buffer st) ret)
      else
        match tok_inner (S f) m b delim ret st with
        | TokNext m ret st => tok_outer f m (b + 1) delim ret st
        | r => r
        end
  end.

(** [kstrtok(str, delim)]; [NULL] is [0].  The result is the returned pointer,
    the memory and the statics. *)
Definition kstrtok (fuel : nat) (m : mem) (st : tok_state) (str delim : Z)
    : option (Z * mem * tok_state) :=
  let st := if str =? 0 then st else mk_tok str (check st) in
  if rd8 m (_buffer st) =? 0 then Some (0, m, st)
  else
    match kstrcmp fuel m (check st) (_buffer st) with
    | None => None
    | Some r =>
        if r =? 0 then Some (0, m, st)
        else
          match tok_outer fuel m (_buffer st) delim (_buffer st) st with
          | TokReturn ret m st => Some (ret, m, st)
          | _ => None
          end
    end.

(** ** C strings in memory *)

(** [cstr m p s]: the bytes [s], none of them zero, followed by a zero. *)
Fixpoint cstr (m : mem) (p : Z) (s : list Z) : Prop :=
  match s with
  | [] => rd8 m p = 0
  | c :: s' => rd8 m p = c /\ c <> 0 /\ cstr m (p + 1) s'
  end.

#[export] Instance cstr_dec m p s : Decision (cstr m p s).
Proof. revert p. induction s as [|c s IH]; intros p; simpl; apply _. Defined.

Notation slen s := (Z.of_nat (length s)).

Lemma cstr_ext m m' p s :
  (forall a, p <= a <= p + slen s -> rd8 m' a = rd8 m a) ->
  cstr m p s -> cstr m' p s.
Proof.
  revert p. induction s as [|c s IH]; intros p H Hs; simpl in *.
  - rewrite H by lia. done.
  - destruct Hs as (? & ? & ?). rewrite H by lia. split_and!; [done..|].
    apply IH; [|done]. intros. apply H. lia.
Qed.

Lemma cstr_wr8 m p s a v :
  a < p \/ p + slen s < a -> cstr m p s -> cstr (wr8 m a v) p s.
Proof. intros Ha. apply cstr_ext. intros. apply rd8_wr8_ne. lia. Qed.

Lemma cstr_copy m m' p q s :
  (forall k, 0 <= k <= slen s -> rd8 m' (q + k) = rd8 m (p + k)) -> cstr m p s -> cstr m' q s.
Proof.
  revert p q. induction s as [|c s IH]; intros p q H Hs; simpl in *.
  - rewrite <- (Z.add_0_r q), H, Z.add_0_r by lia. done.
  - destruct Hs as (? & ? & Hs). pose proof (H 0 ltac:(lia)) as Hz. rewrite !Z.add_0_r in Hz. rewrite Hz.
    split_and!; [done..|]. apply (IH (p + 1)); [|done]. intros k Hk. rewrite <- !Z.add_assoc. apply H. lia.
Qed.

Lemma cstr_end m p s : cstr m p s -> rd8 m (p + slen s) = 0.
Proof.
  revert p. induction s as [|c s IH]; intros p Hs; simpl in *.
  - rewrite <- Hs. f_equal. lia.
  - destruct Hs as (_ & _ & Hs). apply IH in Hs. rewrite <- Hs. f_equal. lia.
Qed.

Lemma cstr_lookup m p s i c :
  cstr m p s -> s !! i = Some c -> rd8 m (p + Z.of_nat i) = c /\ c <> 0.
Proof.
  revert p i. induction s as [|d s IH]; intros p i Hs Hi; [done|].
  destruct Hs as (Hd & ? & Hs). destruct i as [|i]; simpl in Hi.
  - injection Hi as ->. replace (p + Z.of_nat 0) with p by lia. done.
  - destruct (IH _ _ Hs Hi). split; [|done].
    replace (p + Z.of_nat (S i)) with (p + 1 + Z.of_nat i) by lia. done.
Qed.

(** A string is determined by the memory. *)
Lemma cstr_inj m p s1 s2 : cstr m p s1 -> cstr m p s2 -> s1 = s2.
Proof.
  revert p s2. induction s1 as [|c s1 IH]; intros p [|d s2]; simpl; intros H1 H2.
  - done.
  - destruct H2 as (? & ? & _). congruence.
  - destruct H1 as (? & ? & _). congruence.
  - destruct H1 as (<- & ? & H1), H2 as (<- & ? & H2). f_equal. eauto.
Qed.

Lemma cstr_app m p s1 s2 :
  cstr m p (s1 ++ s2) <->
  (forall i c, s1 !! i = Some c -> rd8 m (p + Z.of_nat i) = c /\ c <> 0)
  /\ cstr m (p + slen s1) s2.
Proof.
  revert p. induction s1 as [|c s1 IH]; intros p; simpl.
  - replace (p + Z.of_nat 0) with p by lia. split; [|by intros [_ ?]].
    intros ?. split; [|done]. intros i c Hi. done.
  - rewrite IH. replace (p + 1 + slen s1) with (p + Z.of_nat (S (length s1))) by lia.
    split.
    + intros (? & ? & Hl & ?). split; [|done]. intros [|i] d Hi; simpl in Hi.
      * injection Hi as ->. replace (p + Z.of_nat 0) with p by lia. done.
      * replace (p + Z.of_nat (S i)) with (p + 1 + Z.of_nat i) by lia. auto.
    + intros [Hl ?]. destruct (Hl 0%nat c eq_refl) as [H0 ?].
      replace (p + Z.of_nat 0) with p in H0 by lia. split_and!; [done..| |done].
      intros i d Hi. destruct (Hl (S i) d Hi).
      replace (p + Z.of_nat (S i)) with (p + 1 + Z.of_nat i) in * by lia. done.
Qed.

Lemma cstr_intro m p s :
  (forall i c, s !! i = Some c -> rd8 m (p + Z.of_nat i) = c /\ c <> 0) ->
  rd8 m (p + slen s) = 0 -> cstr m p s.
Proof. intros Hs He. rewrite <- (app_nil_r s). apply cstr_app. done. Qed.

(** ** Block operations: lemmas *)

Lemma rd8_memset_loop n m b c a :
  rd8 (memset_loop n m b c) a =
    if decide (b <= a < b + Z.of_nat n) then u8 c else rd8 m a.
Proof.
  revert m b. induction n as [|n IH]; intros m b; cbn [memset_loop].
  - rewrite decide_False by lia. done.
  - rewrite IH. destruct (decide (a = b)) as [->|Hne].
    + rewrite decide_False, decide_True, rd8_wr8_eq by lia. done.
    + rewrite rd8_wr8_ne by done. do 2 case_decide; lia || done.
Qed.

Lemma rd8_memset m b c len a :
  rd8 (memset m b c len) a =
    if decide (b <= a < b + len) then u8 c else rd8 m a.
Proof. unfold memset. rewrite rd8_memset_loop. do 2 case_decide; lia || done. Qed.

Lemma rd8_write_temp m p l a :
  rd8 (write_temp m p l) a =
    match (if decide (p <= a) then l !! Z.to_nat (a - p) else None) with
    | Some c => u8 c
    | None => rd8 m a
    end.
Proof.
  revert m p. induction l as [|c l IH]; intros m p; simpl.
  - case_decide; done.
  - rewrite IH. destruct (decide (a = p)) as [->|Hne].
    + rewrite decide_False, decide_True by lia.
      replace (p - p) with 0 by lia. simpl. rewrite rd8_wr8_eq. done.
    + rewrite rd8_wr8_ne by done. destruct (decide (p <= a)).
      * rewrite decide_True by lia.
        replace (Z.to_nat (a - p)) with (S (Z.to_nat (a - (p + 1)))) by lia. done.
      * rewrite decide_False by lia. done.
Qed.

Lemma rd8_write_temp_ne m p l a :
  a < p \/ p + slen l <= a -> rd8 (write_temp m p l) a = rd8 m a.
Proof.
  intros Ha. rewrite rd8_write_temp. case_decide as Hd; [|reflexivity].
  rewrite lookup_ge_None_2 by lia. reflexivity.
Qed.

Lemma read_temp_lookup n m p i :
  (i < n)%nat -> read_temp n m p !! i = Some (rd8 m (p + Z.of_nat i)).
Proof.
  revert p i. induction n as [|n IH]; intros p [|i] Hi; simpl; try lia.
  - do 2 f_equal. lia.
  - rewrite IH by lia. do 2 f_equal. lia.
Qed.

Lemma length_read_temp n m p : length (read_temp n m p) = n.
Proof. revert p. induction n; intros p; simpl; auto. Qed.

Lemma cpy_loop_spec n m d s i a :
  0 <= i -> d <= s \/ s + i + Z.of_nat n <= d ->
  rd8 (cpy_loop n m d s i) a =
    if decide (d + i <= a < d + i + Z.of_nat n) then rd8 m (s + (a - d))
    else rd8 m a.
Proof.
  revert m i. induction n as [|n IH]; intros m i Hi Hov; cbn [cpy_loop].
  - rewrite decide_False by lia. done.
  - rewrite IH by lia. destruct (decide (a = d + i)) as [->|Hne].
    + rewrite decide_False, decide_True by lia. rewrite rd8_wr8_eq.
      rewrite Z.mod_small by apply rd8_range. f_equal. lia.
    + rewrite (rd8_wr8_ne _ (d + i) a) by done.
      do 2 case_decide; try lia.
      apply rd8_wr8_ne. lia.
Qed.

(** ** String operations: specifications *)

(** What [strcmp] promises on two strings: zero on equal strings, otherwise the
    difference of the first bytes that differ (the terminator included). *)
Fixpoint strcmp_spec (s1 s2 : list Z) : Z :=
  match s1, s2 with
  | [], [] => 0
  | [], d :: _ => 0 - d
  | c :: _, [] => c
  | c :: s1', d :: s2' => if c =? d then strcmp_spec s1' s2' else c - d
  end.

Lemma strcmp_spec_0 s1 s2 :
  Forall (fun c => c <> 0) s1 -> Forall (fun c => c <> 0) s2 ->
  strcmp_spec s1 s2 = 0 <-> s1 = s2.
Proof.
  revert s2. induction s1 as [|c s1 IH]; intros [|d s2] H1 H2; simpl.
  - done.
  - inversion H2; subst. split; [lia|done].
  - inversion H1; subst. split; [lia|done].
  - inversion H1; inversion H2; subst. destruct (Z.eqb_spec c d) as [->|].
    + rewrite IH by done. split; [by intros ->|by intros [= ->]].
    + split; [lia|]. intros [= ? ?]. lia.
Qed.

Lemma cstr_nonzero m p s : cstr m p s -> Forall (fun c => c <> 0) s.
Proof.
  revert p. induction s as [|c s IH]; intros p Hs; constructor; destruct Hs as (?&?&?); eauto.
Qed.

Lemma kstrlen_loop_spec fuel m p s i :
  cstr m (p + i) s -> (length s < fuel)%nat ->
  kstrlen_loop fuel m p i = Some (i + slen s + 1).
Proof.
  revert i fuel. induction s as [|c s IH]; intros i [|f] Hs Hf; simpl in *; try lia.
  - rewrite Hs. simpl. do 2 f_equal; lia.
  - destruct Hs as (-> & Hc & Hs). apply Z.eqb_neq in Hc. rewrite Hc.
    rewrite (IH (i + 1)); [f_equal; lia| |lia].
    replace (p + (i + 1)) with (p + i + 1) by lia. done.
Qed.

Lemma kstrcmp_spec fuel m p q s1 s2 :
  cstr m p s1 -> cstr m q s2 -> (length s1 < fuel)%nat ->
  kstrcmp fuel m p q = Some (strcmp_spec s1 s2).
Proof.
  revert p q s2 fuel.
  induction s1 as [|c s1 IH]; intros p q [|d s2] [|f] H1 H2 Hf;
    simpl in *; try lia.
  - rewrite H1, H2. done.
  - destruct H2 as (-> & Hd & _). rewrite H1. rewrite (proj2 (Z.eqb_neq 0 d)) by lia. done.
  - destruct H1 as (-> & Hc & _). rewrite H2. rewrite (proj2 (Z.eqb_neq c 0)) by lia.
    f_equal. lia.
  - destruct H1 as (-> & Hc & H1), H2 as (-> & Hd & H2).
    destruct (Z.eqb_spec c d) as [->|]; [|done].
    rewrite (proj2 (Z.eqb_neq d 0)) by lia. apply IH; [done..|lia].
Qed.

Lemma kstrncmp_pos fuel m p q n :
  0 < n -> kstrncmp fuel m p q n = kstrcmp fuel m p q.
Proof.
  intros Hn. revert p q. induction fuel as [|f IH]; intros p q; simpl; [done|].
  rewrite (proj2 (Z.ltb_lt 0 n)) by lia. rewrite andb_true_r.
  destruct (_ =? _); [|done]. destruct (_ =? _); [done|apply IH].
Qed.

(** [kstrcpy] writes the string at [dst] and nothing else, whatever is there,
    provided the destination block does not start inside the source string. *)
Lemma kstrcpy_spec fuel m dst src s :
  cstr m src s -> (length s < fuel)%nat ->
  dst < src \/ src + slen s < dst ->
  exists m', kstrcpy fuel m dst src = Some m'
    /\ cstr m' dst s
    /\ (forall a, a < dst \/ dst + slen s < a -> rd8 m' a = rd8 m a).
Proof.
  revert m dst src fuel.
  induction s as [|c s IH]; intros m dst src [|f] Hs Hf Hov; simpl in *; try lia.
  - rewrite Hs. simpl. eexists. split_and!; [done|by rewrite rd8_wr8_eq|].
    intros. apply rd8_wr8_ne. lia.
  - destruct Hs as (Hc & Hc0 & Hs). rewrite Hc.
    rewrite (proj2 (Z.eqb_neq c 0)) by lia.
    destruct (IH (wr8 m dst c) (dst + 1) (src + 1) f) as (m' & He & Hd & Hfr).
    { apply cstr_wr8; [lia|done]. }
    { lia. } { lia. }
    exists m'. split_and!; [done| |done|done|].
    + rewrite Hfr by lia. rewrite rd8_wr8_eq, <- Hc. apply Z.mod_small, rd8_range.
    + intros a Ha. rewrite Hfr by lia. apply rd8_wr8_ne. lia.
Qed.

Lemma kstrncpy_loop_spec n m dst src c s :
  cstr m src (c :: s) -> (0 < n)%nat ->
  dst + Z.of_nat n <= src \/ src + slen (c :: s) < dst ->
  exists m', kstrncpy_loop n m dst src
      = (m', dst + Z.of_nat (Nat.min n (length (c :: s))))
    /\ (forall i d, take n (c :: s) !! i = Some d -> rd8 m' (dst + Z.of_nat i) = d)
    /\ (forall a, a < dst \/ dst + Z.of_nat n <= a -> rd8 m' a = rd8 m a).
Proof.
  revert n m dst src c. induction s as [|d s IH]; intros [|n] m dst src c Hs Hn Hov;
    simpl in Hs; try lia; destruct Hs as (Hc & Hc0 & Hs); cbn [kstrncpy_loop].
  - rewrite rd8_wr8_ne, Hs by (simpl in Hov; lia). simpl. eexists. split_and!.
    + f_equal. lia.
    + intros [|i] e Hi; [|destruct n; done]. simpl in Hi. injection Hi as ->.
      rewrite Z.add_0_r, rd8_wr8_eq, Hc. rewrite <- Hc. apply Z.mod_small, rd8_range.
    + intros. apply rd8_wr8_ne. lia.
  - destruct Hs as (Hd & Hd0 & Hs). simpl in Hov.
    rewrite rd8_wr8_ne, Hd by lia. rewrite (proj2 (Z.eqb_neq d 0)) by lia.
    destruct (decide (n = 0%nat)) as [->|Hn0].
    + cbn [kstrncpy_loop]. eexists. split_and!.
      * f_equal.
      * intros [|i] e Hi; [|done]. simpl in Hi. injection Hi as ->.
        rewrite Z.add_0_r, rd8_wr8_eq, Hc. rewrite <- Hc. apply Z.mod_small, rd8_range.
      * intros. apply rd8_wr8_ne. lia.
    + destruct (IH n (wr8 m dst (rd8 m src)) (dst + 1) (src + 1) d)
        as (m' & He & Hv & Hfr); [|lia|simpl; lia|].
      { apply (cstr_wr8 _ _ (d :: s)); [simpl; lia|]. simpl. done. }
      exists m'. split_and!.
      * rewrite He. f_equal. simpl. lia.
      * intros [|i] e Hi; simpl in Hi.
        -- injection Hi as ->. rewrite Z.add_0_r, Hfr, rd8_wr8_eq, Hc by lia.
           rewrite <- Hc. apply Z.mod_small, rd8_range.
        -- replace (dst + Z.of_nat (S i)) with (dst + 1 + Z.of_nat i) by lia. auto.
      * intros a Ha. rewrite Hfr by lia. apply rd8_wr8_ne. lia.
Qed.

Lemma kstrlen_spec fuel m p s :
  cstr m p s -> (length s < fuel)%nat ->
  kstrlen fuel m p = Some (if decide (s = []) then 0 else slen s + 1).
Proof.
  intros Hs Hf. unfold kstrlen. destruct s as [|c s].
  - simpl in Hs. rewrite Hs. done.
  - assert (Hc : rd8 m p <> 0) by (destruct Hs as (-> & ? & _); done).
    apply Z.eqb_neq in Hc. rewrite Hc, decide_False by done.
    rewrite (kstrlen_loop_spec _ _ _ (c :: s)); [f_equal; lia| |done].
    rewrite Z.add_0_r. done.
Qed.

Lemma kstrlen_0 fuel m p : rd8 m p = 0 -> kstrlen fuel m p = Some 0.
Proof. intros H. unfold kstrlen. rewrite H. done. Qed.

Lemma kstrcat_loop_frame n m p q len1 i a :
  0 <= i -> a < p + (len1 + i) -> rd8 (kstrcat_loop n m p q len1 i) a = rd8 m a.
Proof.
  revert m i. induction n as [|n IH]; intros m i Hi Ha; cbn [kstrcat_loop]; [done|].
  rewrite IH by lia. apply rd8_wr8_ne. lia.
Qed.

(** *** Tokenizer lemmas: a one-character delimiter string [[d]] at [dl]. *)

Lemma tok_inner_skip f m b dl d ret st :
  cstr m dl [d] -> rd8 m b <> d ->
  tok_inner (S (S f)) m b dl ret st = TokNext m ret st.
Proof.
  intros (Hd & Hd0 & He) Hb. simpl in He. cbn [tok_inner].
  rewrite Hd, (proj2 (Z.eqb_neq d 0)), (proj2 (Z.eqb_neq _ d)) by lia.
  rewrite He. done.
Qed.

Lemma tok_inner_hit f m b dl d ret st :
  cstr m dl [d] -> rd8 m b = d -> b <> ret ->
  tok_inner (S f) m b dl ret st = TokReturn ret (wr8 m b 0) (mk_tok (b + 1) ret).
Proof.
  intros (Hd & Hd0 & He) Hb Hne. cbn [tok_inner].
  rewrite Hd, Hb, (proj2 (Z.eqb_neq d 0)), Z.eqb_refl by lia.
  rewrite (proj2 (Z.eqb_neq b ret)) by lia. done.
Qed.

Lemma tok_outer_split fuel m b dl d ret st t rest :
  cstr m b (t ++ d :: rest) -> cstr m dl [d] -> d ∉ t ->
  (length t + 2 <= fuel)%nat -> ret <= b -> (t = [] -> ret < b) ->
  tok_outer fuel m b dl ret st =
    TokReturn ret (wr8 m (b + slen t) 0) (mk_tok (b + slen t + 1) ret).
Proof.
  intros Hs Hdl. revert b fuel Hs. induction t as [|c t IH];
    intros b [|[|fuel]] Hs Hin Hf Hret Hnil; try (simpl in Hf; lia).
  - destruct Hs as (Hb & Hd0 & _). cbn [tok_outer].
    rewrite (proj2 (Z.eqb_neq _ 0)) by lia.
    rewrite (tok_inner_hit _ _ _ _ d) by (done || specialize (Hnil eq_refl); lia).
    simpl. rewrite !Z.add_0_r. done.
  - destruct Hs as (Hb & Hc0 & Hs). cbn [tok_outer].
    apply not_elem_of_cons in Hin as [Hcd Hin].
    rewrite (proj2 (Z.eqb_neq _ 0)) by lia.
    rewrite (tok_inner_skip _ _ _ _ d) by (done || congruence).
    change (tok_outer (S fuel) m (b + 1) dl ret st =
      TokReturn ret (wr8 m (b + slen (c :: t)) 0) (mk_tok (b + slen (c :: t) + 1) ret)).
    rewrite IH; [|done|done|simpl in Hf; lia|lia|lia].
    replace (b + 1 + slen t) with (b + slen (c :: t)) by (simpl; lia). done.
Qed.

Lemma tok_outer_last fuel m b dl d ret st s :
  cstr m b s -> cstr m dl [d] -> d ∉ s -> (length s + 1 <= fuel)%nat ->
  tok_outer (S fuel) m b dl ret st = TokReturn ret m (mk_tok (_buffer st) ret).
Proof.
  intros Hs Hdl. revert b fuel Hs. induction s as [|c s IH]; intros b [|fuel] Hs Hin Hf;
    try (simpl in Hf; lia).
  - cbn [tok_outer]. simpl in Hs. rewrite Hs. done.
  - destruct Hs as (Hb & Hc0 & Hs). cbn [tok_outer].
    apply not_elem_of_cons in Hin as [Hcd Hin].
    rewrite (proj2 (Z.eqb_neq _ 0)) by lia.
    rewrite (tok_inner_skip _ _ _ _ d) by (done || congruence).
    apply IH; [done..|simpl in Hf; lia].
Qed.

(** ** Properties *)

(** [kstrcmp] on two C strings terminates and returns zero exactly when the
    strings are equal, and otherwise the difference of the first bytes at which
    they differ. *)
Theorem kstrcmp_decides_equality m p q s1 s2 fuel :
  cstr m p s1 -> cstr m q s2 -> (length s1 < fuel)%nat ->
  exists r, kstrcmp fuel m p q = Some r /\ r = strcmp_spec s1 s2
    /\ (r = 0 <-> s1 = s2).
Proof.
  intros H1 H2 Hf. eexists. split_and!; [by apply kstrcmp_spec|done|].
  apply strcmp_spec_0; eauto using cstr_nonzero.
Qed.

(** Memory of the witnesses: "ab" at 100, "abc" at 200, "/" at 300, "bin/ls" at
    400 and "-1" at 500. *)
Definition demo_mem : mem :=
  write_temp (write_temp (write_temp (write_temp (write_temp ∅
    100 [97; 98; 0]) 200 [97; 98; 99; 0]) 300 [47; 0])
    400 [98; 105; 110; 47; 108; 115; 0]) 500 [45; 49; 0].

Lemma kstrcmp_decides_equality_witness :
  exists r, kstrcmp 10 demo_mem 100 200 = Some r
    /\ r = strcmp_spec [97; 98] [97; 98; 99] /\ (r = 0 <-> [97; 98] = [97; 98; 99]).
Proof.
  apply (kstrcmp_decides_equality demo_mem 100 200); [vm_compute; auto..|simpl; lia].
  all: repeat split; discriminate.
Defined.

(** [kstrlen] of a non-empty string is one more than its length (the
    terminator is counted), and zero only for the empty string. *)
Theorem kstrlen_counts_terminator m p s fuel :
  cstr m p s -> (length s < fuel)%nat ->
  kstrlen fuel m p = Some (if decide (s = []) then 0 else slen s + 1).
Proof. apply kstrlen_spec. Qed.

Lemma kstrlen_counts_terminator_witness : kstrlen 10 demo_mem 200 = Some 4.
Proof.
  apply (kstrlen_counts_terminator demo_mem 200 [97; 98; 99] 10);
    [vm_compute; repeat split; discriminate|simpl; lia].
Defined.

(** [kstrcat] onto a non-empty string leaves that string unchanged: the
    appended bytes land behind its terminator. *)
Theorem kstrcat_keeps_nonempty m p q c s1 s2 fuel :
  cstr m p (c :: s1) -> cstr m q s2 ->
  (length (c :: s1) < fuel)%nat -> (length s2 < fuel)%nat ->
  exists m', kstrcat fuel m p q = Some (p, m') /\ cstr m' p (c :: s1).
Proof.
  intros H1 H2 Hf1 Hf2. unfold kstrcat.
  rewrite (kstrlen_spec _ _ _ _ H1 Hf1), (kstrlen_spec _ _ _ _ H2 Hf2).
  destruct (decide (c :: s1 = [])) as [|_]; [done|]. eexists. split; [done|].
  apply cstr_wr8; [case_decide; lia|].
  eapply cstr_ext; [|exact H1]. intros a Ha. apply kstrcat_loop_frame; lia.
Qed.

Lemma kstrcat_keeps_nonempty_witness :
  exists m', kstrcat 10 demo_mem 100 200 = Some (100, m') /\ cstr m' 100 [97; 98].
Proof.
  apply (kstrcat_keeps_nonempty demo_mem 100 200 97 [98] [97; 98; 99] 10);
    [vm_compute; repeat split; discriminate..|simpl; lia|simpl; lia].
Defined.

(** [kstrcpy] terminates on every C string; afterwards the destination holds
    the string, and no byte outside the copied block has changed. *)
Theorem kstrcpy_copies m dst src s fuel :
  cstr m src s -> (length s < fuel)%nat -> dst < src \/ src + slen s < dst ->
  exists m', kstrcpy fuel m dst src = Some m' /\ cstr m' dst s
    /\ forall a, a < dst \/ dst + slen s < a -> rd8 m' a = rd8 m a.
Proof. apply kstrcpy_spec. Qed.

Lemma kstrcpy_copies_witness :
  exists m', kstrcpy 10 demo_mem 600 200 = Some m' /\ cstr m' 600 [97; 98; 99]
    /\ forall a, a < 600 \/ 600 + 3 < a -> rd8 m' a = rd8 demo_mem a.
Proof.
  apply (kstrcpy_copies demo_mem 600 200 [97; 98; 99] 10);
    [vm_compute; repeat split; discriminate|simpl; lia|right; simpl; lia].
Defined.

Lemma kstrncpy_spec m dst src c s n :
  cstr m src (c :: s) -> 0 < n -> dst + n < src \/ src + slen (c :: s) < dst ->
  cstr (kstrncpy m dst src n) dst (take (Z.to_nat n) (c :: s))
  /\ forall a, a < dst \/ dst + n < a -> rd8 (kstrncpy m dst src n) a = rd8 m a.
Proof.
  intros Hs Hn Hov. unfold kstrncpy.
  destruct (kstrncpy_loop_spec (Z.to_nat n) m dst src c s) as (m' & -> & Hv & Hfr);
    [done|lia|simpl in *; lia|].
  assert (Hlen : length (take (Z.to_nat n) (c :: s)) = Nat.min (Z.to_nat n) (length (c :: s)))
    by apply length_take.
  split.
  - apply cstr_intro; rewrite ?Hlen; [|apply rd8_wr8_eq].
    intros i d Hi. assert (Hlt := lookup_lt_Some _ _ _ Hi).
    rewrite rd8_wr8_ne by (rewrite Hlen in Hlt; lia). split; [by apply Hv|].
    apply lookup_take_Some in Hi as [Hi _]. eapply cstr_lookup in Hs; [|done].
    tauto.
  - intros a Ha. rewrite rd8_wr8_ne by lia. apply Hfr. lia.
Qed.

(** [kstrncpy] of a non-empty string with a positive bound leaves the first
    [n] characters of the source at the destination, terminated, and writes at
    most [n + 1] bytes. *)
Theorem kstrncpy_truncates m dst src c s n :
  cstr m src (c :: s) -> 0 < n -> dst + n < src \/ src + slen (c :: s) < dst ->
  cstr (kstrncpy m dst src n) dst (take (Z.to_nat n) (c :: s))
  /\ forall a, a < dst \/ dst + n < a -> rd8 (kstrncpy m dst src n) a = rd8 m a.
Proof. apply kstrncpy_spec. Qed.

Lemma kstrncpy_truncates_witness :
  cstr (kstrncpy demo_mem 600 200 2) 600 [97; 98]
  /\ forall a, a < 600 \/ 600 + 2 < a -> rd8 (kstrncpy demo_mem 600 200 2) a = rd8 demo_mem a.
Proof.
  apply (kstrncpy_truncates demo_mem 600 200 97 [98; 99] 2);
    [vm_compute; repeat split; discriminate|lia|simpl; lia].
Defined.

Lemma kmemmove_spec m dest src n a :
  rd8 (kmemmove m dest src n) a =
    if decide (dest <= a < dest + n) then rd8 m (src + (a - dest)) else rd8 m a.
Proof.
  unfold kmemmove. rewrite rd8_write_temp. case_decide as Hle.
  - destruct (decide (a < dest + n)) as [Hlt|Hge].
    + rewrite decide_True by lia. rewrite read_temp_lookup by lia.
      unfold u8. rewrite Z.mod_small by apply rd8_range. f_equal. lia.
    + rewrite decide_False by lia. rewrite lookup_ge_None_2; [done|].
      rewrite length_read_temp. lia.
  - rewrite decide_False by lia. done.
Qed.

(** The loop of [memcpy] when it runs into its own output: from byte [i] on, byte [a]
    is the one [d - s] before it, so the bytes between [s] and [d] repeat. *)
Lemma cpy_loop_overlap n m d s i a :
  0 <= i -> s < d -> (forall b, d <= b < d + i -> rd8 m b = rd8 m (s + (b - s) mod (d - s))) ->
  d <= a < d + i + Z.of_nat n -> rd8 (cpy_loop n m d s i) a = rd8 m (s + (a - s) mod (d - s)).
Proof.
  revert m i. induction n as [|n IH]; intros m i Hi Hsd Hm Ha; cbn [cpy_loop]; [apply Hm; lia|].
  pose proof (Z.mod_pos_bound (a - s) (d - s)).
  rewrite IH; [apply rd8_wr8_ne; lia|lia|lia| |lia].
  intros b Hb. pose proof (Z.mod_pos_bound (b - s) (d - s)). rewrite (rd8_wr8_ne _ _ (s + _)) by lia.
  destruct (decide (b = d + i)) as [->|]; [|rewrite rd8_wr8_ne by lia; apply Hm; lia].
  rewrite rd8_wr8_eq, Z.mod_small by apply rd8_range.
  replace ((d + i - s) mod (d - s)) with (i mod (d - s))
    by (replace (d + i - s) with (i + 1 * (d - s)) by lia; rewrite Z_mod_plus_full; reflexivity).
  destruct (decide (s + i < d)); [rewrite Z.mod_small by lia; reflexivity|].
  rewrite Hm by lia. do 3 f_equal. lia.
Qed.

(** C30: [kmemcpy] is equivalent to the reference copy through a temporary array,
    [kmemmove], whenever the destination does not start inside the source; when it
    does, [kmemcpy] instead repeats the bytes between the two starting points
    throughout the destination.  [kmemmove] copies correctly whatever the overlap. *)
Theorem kmemcpy_matches_kmemmove m dest src n :
  0 <= n < 2 ^ 31 ->
  (forall a, rd8 (kmemmove m dest src n) a =
    if decide (dest <= a < dest + n) then rd8 m (src + (a - dest)) else rd8 m a) /\
  (~ src < dest < src + n -> forall a, rd8 (kmemcpy m dest src n) a = rd8 (kmemmove m dest src n) a) /\
  (src < dest < src + n -> forall a, dest <= a < dest + n ->
    rd8 (kmemcpy m dest src n) a = rd8 m (src + (a - src) mod (dest - src))).
Proof.
  intros Hn. split; [apply kmemmove_spec|]. unfold kmemcpy. split.
  - intros Hov a. rewrite kmemmove_spec. destruct (decide (n = 0)) as [->|].
    + cbn. rewrite decide_False by lia. reflexivity.
    + rewrite cpy_loop_spec by lia. rewrite Z.add_0_r, Z2Nat.id by lia. reflexivity.
  - intros Hov a Ha. apply cpy_loop_overlap; [lia|lia|lia|]. rewrite Z2Nat.id; lia.
Qed.

(** Three bytes copied one place up: [memmove] moves them, [memcpy] repeats the first. *)
Lemma kmemcpy_matches_kmemmove_witness :
  rd8 (kmemmove demo_mem 201 200 3) 203 = 99 /\ rd8 (kmemcpy demo_mem 201 200 3) 203 = 97.
Proof.
  destruct (kmemcpy_matches_kmemmove demo_mem 201 200 3 ltac:(lia)) as (H1 & _ & H3).
  split; [rewrite H1; vm_compute; reflexivity|]. rewrite H3 by lia. vm_compute. reflexivity.
Defined.

Lemma kstrtok_split_spec m st p dl d c t rest sc fuel :
  p <> 0 -> cstr m p ((c :: t) ++ d :: rest) -> cstr m dl [d] -> d ∉ c :: t ->
  cstr m (check st) sc -> sc <> (c :: t) ++ d :: rest ->
  (length sc < fuel)%nat -> (length t + 3 <= fuel)%nat ->
  exists m', kstrtok fuel m st p dl
      = Some (p, m', mk_tok (p + slen (c :: t) + 1) p)
    /\ cstr m' p (c :: t) /\ cstr m' (p + slen (c :: t) + 1) rest
    /\ forall a, a <> p + slen (c :: t) -> rd8 m' a = rd8 m a.
Proof.
  intros Hp Hs Hdl Hin Hsc Hne Hf1 Hf2. unfold kstrtok.
  rewrite (proj2 (Z.eqb_neq p 0)) by done. cbn [_buffer check].
  assert (Hc : rd8 m p <> 0) by (destruct Hs as (-> & ? & _); done).
  rewrite (proj2 (Z.eqb_neq _ 0)) by done.
  rewrite (kstrcmp_spec _ _ _ _ sc _ Hsc Hs Hf1).
  rewrite (proj2 (Z.eqb_neq _ 0)).
  2:{ rewrite strcmp_spec_0; eauto using cstr_nonzero. }
  rewrite (tok_outer_split _ _ _ _ d _ _ (c :: t) rest);
    [|done..|simpl; lia|lia|done].
  apply cstr_app in Hs as [Hlo (_ & _ & Hrest)].
  eexists. split_and!; [done| | |].
  - apply cstr_intro; [|apply rd8_wr8_eq].
    intros i e Hi. rewrite rd8_wr8_ne; [by apply Hlo|].
    apply lookup_lt_Some in Hi. lia.
  - apply cstr_wr8; [left; lia|done].
  - intros a Ha. apply rd8_wr8_ne. congruence.
Qed.

(** C29: [kstrtok] on a buffer that holds a token, the delimiter and a rest
    returns the token's address, terminates the token in place, leaves the rest
    intact behind it and continues there on the next call. *)
Theorem kstrtok_splits m st p dl d c t rest sc fuel :
  p <> 0 -> cstr m p ((c :: t) ++ d :: rest) -> cstr m dl [d] -> d ∉ c :: t ->
  cstr m (check st) sc -> sc <> (c :: t) ++ d :: rest ->
  (length sc < fuel)%nat -> (length t + 3 <= fuel)%nat ->
  exists m', kstrtok fuel m st p dl
      = Some (p, m', mk_tok (p + slen (c :: t) + 1) p)
    /\ cstr m' p (c :: t) /\ cstr m' (p + slen (c :: t) + 1) rest
    /\ forall a, a <> p + slen (c :: t) -> rd8 m' a = rd8 m a.
Proof. apply kstrtok_split_spec. Qed.

Lemma kstrtok_splits_witness :
  exists m', kstrtok 20 demo_mem (mk_tok 0 500) 400 300
      = Some (400, m', mk_tok 404 400)
    /\ cstr m' 400 [98; 105; 110] /\ cstr m' 404 [108; 115]
    /\ forall a, a <> 403 -> rd8 m' a = rd8 demo_mem a.
Proof.
  apply (kstrtok_splits demo_mem (mk_tok 0 500) 400 300 47 98 [105; 110] [108; 115] [45; 49] 20);
    [lia|vm_compute; repeat split; discriminate..| | |done|simpl; lia|simpl; lia].
  - apply (bool_decide_unpack _). vm_compute. done.
  - vm_compute; repeat split; discriminate.
Defined.
