(* ===== verification/Mmu.v ===== *)
(** * x86-64 address translation

    The architectural four-level page walk over physical memory.  It is the
    specification against which the tables that the kernel writes are judged:
    [sys/paging.c] and [sys/user_paging.c] only ever build tables, the hardware
    reads them. *)

From stdpp Require Import base gmap list numbers.
From Stdlib Require Import ZArith Lia.
From S2P Require Import Prelude.

(** Architectural constants: a table is one 4 KiB frame of 512 entries. *)
Definition frame_size : Z := 4096.

Definition pte_present (e : Z) : bool := Z.testbit e 0.
Definition pte_write (e : Z) : bool := Z.testbit e 1.
Definition pte_user (e : Z) : bool := Z.testbit e 2.
Definition pte_large (e : Z) : bool := Z.testbit e 7.

(** Bits 51..12 of an entry: the frame it points to. *)
Definition pte_frame (e : Z) : Z := (e / 4096) mod 2 ^ 40 * 4096.

(** The nine-bit index that [va] selects in the table of level [l]
    (4 = PML4, 3 = PDPT, 2 = PD, 1 = PT). *)
Definition va_index (l va : Z) : Z := va / 2 ^ (12 + 9 * (l - 1)) mod 512.

Record translation := mk_tr { tr_phys : Z; tr_write : bool; tr_user : bool }.

Definition entry (m : mem) (table idx : Z) : Z := rd64 m (table + 8 * idx).

(** The walk from the table [cr3] points to; [None] is a not-present fault.  A
    set page-size bit ends the walk at level 3 (1 GiB) or level 2 (2 MiB). *)
Definition walk (m : mem) (cr3 va : Z) : option translation :=
  let e4 := entry m (pte_frame cr3) (va_index 4 va) in
  if negb (pte_present e4) then None else
  let e3 := entry m (pte_frame e4) (va_index 3 va) in
  if negb (pte_present e3) then None else
  if pte_large e3 then
    Some (mk_tr (pte_frame e3 / 2 ^ 30 * 2 ^ 30 + va mod 2 ^ 30)
            (pte_write e4 && pte_write e3) (pte_user e4 && pte_user e3)) else
  let e2 := entry m (pte_frame e3) (va_index 2 va) in
  if negb (pte_present e2) then None else
  if pte_large e2 then
    Some (mk_tr (pte_frame e2 / 2 ^ 21 * 2 ^ 21 + va mod 2 ^ 21)
            (pte_write e4 && pte_write e3 && pte_write e2)
            (pte_user e4 && pte_user e3 && pte_user e2)) else
  let e1 := entry m (pte_frame e2) (va_index 1 va) in
  if negb (pte_present e1) then None else
  Some (mk_tr (pte_frame e1 + va mod 4096)
          (pte_write e4 && pte_write e3 && pte_write e2 && pte_write e1)
          (pte_user e4 && pte_user e3 && pte_user e2 && pte_user e1)).

(** ** Entries of the form [frame + flags] *)

Lemma pte_frame_add f fl :
  0 <= f < 2 ^ 52 -> f mod 4096 = 0 -> 0 <= fl < 4096 -> pte_frame (f + fl) = f.
Proof.
  intros Hf Ha Hfl. unfold pte_frame.
  apply Z.div_exact in Ha; [|lia].
  rewrite Ha. rewrite (Z.mul_comm 4096), Z.div_add_l by lia.
  rewrite (Z.div_small fl) by lia. rewrite Z.add_0_r, Z.mod_small; [lia|].
  split; [apply Z.div_pos; lia|]. apply Z.div_lt_upper_bound; lia.
Qed.

Lemma testbit_flags f fl i :
  f mod 4096 = 0 -> 0 <= fl < 4096 -> 0 <= i < 12 ->
  Z.testbit (f + fl) i = Z.testbit fl i.
Proof.
  intros Hf Hfl Hi.
  rewrite <- (Z.mod_pow2_bits_low (f + fl) 12 i) by lia.
  rewrite <- (Z.mod_pow2_bits_low fl 12 i) by lia.
  f_equal. change (2 ^ 12) with 4096.
  rewrite Z.add_mod, Hf, Z.add_0_l by lia. apply Z.mod_mod. lia.
Qed.

(** Flags with the present bit and without the page-size bit. *)
Definition table_flags (fl : Z) : Prop :=
  0 <= fl < 4096 /\ Z.testbit fl 0 = true /\ Z.testbit fl 7 = false.

#[export] Instance table_flags_dec fl : Decision (table_flags fl).
Proof. unfold table_flags. apply _. Defined.

Lemma va_index_range l va : 0 <= va_index l va < 512.
Proof. unfold va_index. apply Z.mod_pos_bound. lia. Qed.

(** A walk through four tables whose selected entries have the usual form. *)
Lemma walk_4k m cr3 va t3 t2 t1 f fl4 fl3 fl2 fl1 :
  entry m (pte_frame cr3) (va_index 4 va) = t3 + fl4 ->
  entry m t3 (va_index 3 va) = t2 + fl3 ->
  entry m t2 (va_index 2 va) = t1 + fl2 ->
  entry m t1 (va_index 1 va) = f + fl1 ->
  Forall (fun t => 0 <= t < 2 ^ 52 /\ t mod 4096 = 0) [t3; t2; t1; f] ->
  Forall table_flags [fl4; fl3; fl2] -> 0 <= fl1 < 4096 -> Z.testbit fl1 0 = true ->
  walk m cr3 va =
    Some (mk_tr (f + va mod 4096)
      (Z.testbit fl4 1 && Z.testbit fl3 1 && Z.testbit fl2 1 && Z.testbit fl1 1)
      (Z.testbit fl4 2 && Z.testbit fl3 2 && Z.testbit fl2 2 && Z.testbit fl1 2)).
Proof.
  intros E4 E3 E2 E1 Ht Hfl H1 Hp.
  decompose_Forall_hyps. unfold table_flags in *. destruct_and!.
  unfold walk, pte_present, pte_write, pte_user, pte_large.
  rewrite E4, pte_frame_add, E3, pte_frame_add, E2, pte_frame_add, E1, pte_frame_add by done.
  rewrite !testbit_flags by (done || lia).
  repeat match goal with H : Z.testbit _ _ = _ |- _ => rewrite H; clear H end.
  done.
Qed.
