(* ===== verification/Paging.v ===== *)
(** * Kernel paging: the page list, the boot page tables, [kmalloc]

    [sys/paging.c] with the constants of [include/sys/page_alloc.h].  The state
    is physical memory, the C globals and the [%cr3] register.  A kernel access
    to virtual address [va] reaches the physical byte [kphys va]: the boot
    loader maps low addresses to themselves and [VIRT_BASE + p] to [p], and the
    tables built here keep the second mapping (theorem
    [boot_maps_kernel_memory]). *)

From stdpp Require Import base gmap list numbers.
From Stdlib Require Import ZArith Lia.
From S2P Require Import Prelude KLib Mmu.

Definition PAGE_SIZE : Z := 0x1000.
Definition NUMBER_OF_PAGES : Z := 24576.
Definition NUM_PT : Z := 47.
Definition VIRT_BASE : Z := 0xFFFFFFFF80000000.
Definition KERN_PERM_BITS : Z := 0x3.
Definition USR_PERM_BITS : Z := 0x7.
Definition COW_PERM_BITS : Z := 0x5.
Definition START_PADDR_FOR_USRS : Z := 0x5000000.
Definition START_VADDR_FOR_USRS : Z := 0x000000008eee70000.
Definition TABLE_SIZE : Z := 512.
Definition BASE_ADDR : Z := 0x0.
Definition PT_OFF : Z := 12.
Definition PD_OFF : Z := 21.
Definition PDP_OFF : Z := 30.
Definition PML_OFF : Z := 39.
Definition PDESC_PG_INC : Z := 0x100.
Definition PADDING : Z := 0x1FF.

Inductive pd_status_t := FREE | IN_USE.

Definition pd_status_val (v : pd_status_t) : Z :=
  match v with FREE => 0 | IN_USE => 1 end.

(** [sizeof(struct page_desc)]: a one-bit field padded to the pointer's
    alignment, then [next] at offset 8. *)
Definition SIZEOF_PAGE_DESC : Z := 16.
Definition OFF_next : Z := 8.

(** The C globals of [paging.c], [user_paging.c] and the fields of [mem_data]. *)
Inductive gvar :=
| pdesc | _pdesc | virt_to_phy_flag | freelist
| virt_base | init_virt_base | end_addr | counter | flag | end_base_addr
| global_pdp | global_pml4 | global_pd
| pml4_shared | pdp_shared | pd_shared | pt_shared | kpt
| physbase | physfree
| virt_base_for_user | usr_phys_addr | user_addr
| usr_pml | usr_pdp | usr_pd | usr_pt | dif_ctxt | pml_same_ctxt.

#[export] Instance gvar_eq_dec : EqDecision gvar.
Proof. solve_decision. Defined.

Record kst := mk_kst { kmem : mem; gl : gvar -> Z; cr3 : Z }.

Definition gput (s : kst) (x : gvar) (v : Z) : kst :=
  mk_kst (kmem s) (fun y => if decide (x = y) then v else gl s y) (cr3 s).

Definition with_mem (s : kst) (m : mem) : kst := mk_kst m (gl s) (cr3 s).

Declare Scope kst_scope.
Delimit Scope kst_scope with kst.
Notation "s ⟦ x ⟧" := (gl s x) (at level 1, left associativity, format "s ⟦ x ⟧") : kst_scope.
Notation "s ⟦ x ↦ v ⟧" := (gput s x v)
  (at level 1, left associativity, v at level 200, format "s ⟦ x  ↦  v ⟧") : kst_scope.
Open Scope kst_scope.

(** Physical byte that a kernel access to [va] reaches. *)
Definition kphys (va : Z) : Z := if VIRT_BASE <=? va then va - VIRT_BASE else va.

Definition kld64 (s : kst) (va : Z) : Z := rd64 (kmem s) (kphys va).
Definition kst64 (s : kst) (va v : Z) : kst :=
  with_mem s (wr64 (kmem s) (kphys va) v).
Definition kst32 (s : kst) (va v : Z) : kst :=
  with_mem s (wr32 (kmem s) (kphys va) v).

(** Address of element [i] of a [uint64_t] array. *)
Definition elt (p i : Z) : Z := u64 (p + 8 * i).

(** [*(p + i) = v; *(p + i) |= perm;] *)
Definition put_entry (s : kst) (p i v perm : Z) : kst :=
  let s := kst64 s (elt p i) v in
  kst64 s (elt p i) (Z.lor (kld64 s (elt p i)) perm).

(** ** Page descriptors *)

(** [p->pd_free = v]: a one-bit field in the low bit of the first byte. *)
Definition set_pd_free (s : kst) (p : Z) (v : pd_status_t) : kst :=
  with_mem s (wr8 (kmem s) (kphys p)
    (Z.lor (Z.land (rd8 (kmem s) (kphys p)) 0xFE) (pd_status_val v))).

Definition get_next (s : kst) (p : Z) : Z := kld64 s (u64 (p + OFF_next)).
Definition set_next (s : kst) (p v : Z) : kst := kst64 s (u64 (p + OFF_next)) v.

(** [freelist[counter++] = 0;]  [freelist] points to 32-bit cells, [counter] is
    an [int]. *)
Definition freelist_take (s : kst) : kst :=
  let s := kst32 s (u64 (s⟦freelist⟧ + 4 * s⟦counter⟧)) 0 in
  s⟦counter ↦ s32 (s⟦counter⟧ + 1)⟧.

(** ** Table offsets *)

Definition get_pt_offset (_virt_base : Z) : Z := Z.land (Z.shiftr _virt_base PT_OFF) PADDING.
Definition get_pd_offset (_virt_base : Z) : Z := Z.land (Z.shiftr _virt_base PD_OFF) PADDING.
Definition get_pdp_offset (_virt_base : Z) : Z := Z.land (Z.shiftr _virt_base PDP_OFF) PADDING.
Definition get_pml4_offset (_virt_base : Z) : Z := Z.land (Z.shiftr _virt_base PML_OFF) PADDING.

(** ** Page allocation *)

Definition load_cr3 (s : kst) (lcr3 : Z) : kst :=
  let s := s⟦pml4_shared ↦ lcr3⟧ in
  mk_kst (kmem s) (gl s) lcr3.

Definition page_alloc (s : kst) : Z * kst :=
  let s := if s⟦virt_to_phy_flag⟧ =? 0
           then s⟦_pdesc ↦ s⟦pdesc⟧⟧⟦virt_to_phy_flag ↦ 1⟧ else s in
  let s := s⟦pdesc ↦ u64 (s⟦_pdesc⟧ + VIRT_BASE)⟧ in
  let head := s⟦pdesc⟧ in
  let s := set_pd_free s (s⟦pdesc⟧) IN_USE in
  let s := set_next s (s⟦pdesc⟧) (u64 (s⟦_pdesc⟧ + VIRT_BASE + PAGE_SIZE)) in
  let s := s⟦pdesc ↦ get_next s (s⟦pdesc⟧)⟧ in
  let s := s⟦_pdesc ↦ u64 (s⟦_pdesc⟧ + PDESC_PG_INC * SIZEOF_PAGE_DESC)⟧ in
  let s := freelist_take s in
  let s := with_mem s (memset (kmem s) (kphys head) 0 PAGE_SIZE) in
  (head, s).

(** [while (pages-- > 0) trav = page_alloc();] *)
Fixpoint page_alloc_loop (pages : nat) (s : kst) : kst :=
  match pages with
  | O => s
  | S n => let '(_, s) := page_alloc s in page_alloc_loop n s
  end.

Definition kmalloc (s : kst) (sz : Z) : Z * kst :=
  let pages := u32 (sz / PAGE_SIZE) in
  let modulo := u32 (sz mod PAGE_SIZE) in
  let pages := if 0 <? modulo then u32 (pages + 1) else pages in
  let '(head, s) := page_alloc s in
  let pages := u32 (pages - 1) in
  let s := page_alloc_loop (Z.to_nat pages) s in
  (head, s).

Definition get_page (s : kst) : Z * kst :=
  let head := s⟦pdesc⟧ in
  let s := set_pd_free s (s⟦pdesc⟧) IN_USE in
  let s := s⟦pdesc ↦ get_next s (s⟦pdesc⟧)⟧ in
  let s := freelist_take s in
  (head, s).

Definition __get_page (s : kst) : Z * kst := get_page s.

(** ** Boot page tables *)

(** The common table-filling loop: [n] iterations of
    [pt[get_pt_offset(virt)] = phys; pt[...] |= KERN_PERM_BITS;] with both
    addresses advanced by a page. *)
Fixpoint fill_table (n : nat) (s : kst) (pt virt phys : Z) : kst * Z * Z :=
  match n with
  | O => (s, virt, phys)
  | S n' =>
      let s := put_entry s pt (get_pt_offset virt) phys KERN_PERM_BITS in
      fill_table n' s pt (u64 (virt + PAGE_SIZE)) (u64 (phys + PAGE_SIZE))
  end.

(** The three upper-level entries for the table [pt] at [virt]. *)
Definition link_tables (s : kst) (pml pdp pd pt pml_off pdp_off pd_off : Z) : kst :=
  let s := put_entry s pd pd_off pt KERN_PERM_BITS in
  let s := put_entry s pdp pdp_off pd KERN_PERM_BITS in
  put_entry s pml pml_off pdp KERN_PERM_BITS.

Definition set_end_addr (s : kst) (pt : Z) : kst :=
  let s := if s⟦flag⟧ =? 0
           then s⟦end_base_addr ↦ s⟦end_addr⟧⟧⟦flag ↦ 1⟧ else s in
  let pml := s⟦global_pml4⟧ in
  let _virt_base := u64 (s⟦init_virt_base⟧ + s⟦end_base_addr⟧) in
  let pdp := s⟦global_pdp⟧ in
  let pd := s⟦global_pd⟧ in
  let pml_off := get_pml4_offset _virt_base in
  let pdp_off := get_pdp_offset _virt_base in
  let pd_off := get_pd_offset _virt_base in
  let '(s, _, e) :=
    fill_table (Z.to_nat TABLE_SIZE) s pt _virt_base (s⟦end_base_addr⟧) in
  let s := s⟦end_base_addr ↦ e⟧ in
  let s := link_tables s pml pdp pd pt pml_off pdp_off pd_off in
  let s := s⟦pml4_shared ↦ pml⟧⟦pdp_shared ↦ pdp⟧⟦pd_shared ↦ pd⟧ in
  let '(p, s) := __get_page s in
  s⟦pt_shared ↦ p⟧.

(** [while (base_addr <= physbase - PAGE_SIZE)] of [set_initial_addr]; [None]
    when the fuel is too small for the loop to end. *)
Fixpoint initial_loop (fuel : nat) (s : kst) (pt virt base : Z) : option kst :=
  match fuel with
  | O => None
  | S f =>
      if base <=? u64 (s⟦physbase⟧ - PAGE_SIZE) then
        let s := put_entry s pt (get_pt_offset virt) base KERN_PERM_BITS in
        initial_loop f s pt (u64 (virt + PAGE_SIZE)) (u64 (base + PAGE_SIZE))
      else Some s
  end.

Definition set_initial_addr (s : kst) (pt : Z) : option kst :=
  let pml := s⟦global_pml4⟧ in
  let _virt_base := s⟦init_virt_base⟧ in
  let pml_off := get_pml4_offset _virt_base in
  let pdp_off := get_pdp_offset _virt_base in
  let pd_off := get_pd_offset _virt_base in
  let pdp := s⟦global_pdp⟧ in
  let pd := s⟦global_pd⟧ in
  match initial_loop (S (Z.to_nat (s⟦physbase⟧ / PAGE_SIZE))) s pt _virt_base BASE_ADDR with
  | None => None
  | Some s => Some (link_tables s pml pdp pd pt pml_off pdp_off pd_off)
  end.

(** [for (; count < NUM_PT; count++) pt_max[count] = __get_page();] *)
Fixpoint get_pages (n : nat) (s : kst) : list Z * kst :=
  match n with
  | O => ([], s)
  | S n' =>
      let '(p, s) := __get_page s in
      let '(ps, s) := get_pages n' s in
      (p :: ps, s)
  end.

(** [for (; count_end < NUM_PT; count_end++) set_end_addr(pt_max[count_end]);] *)
Definition set_end_addrs (s : kst) (pt_max : list Z) : kst :=
  fold_left set_end_addr pt_max s.

Definition set_kpage_tables (s : kst) (pml4 : Z) : option (Z * kst) :=
  let base_addr := s⟦physbase⟧ in
  let pml := pml4 in
  let _virt_base := s⟦virt_base⟧ in
  let pml_off := get_pml4_offset _virt_base in
  let pdp_off := get_pdp_offset _virt_base in
  let pd_off := get_pd_offset _virt_base in
  let '(pdp, s) := __get_page s in
  let '(pd, s) := __get_page s in
  let '(pt, s) := __get_page s in
  let '(pt_init_addr, s) := __get_page s in
  let '(pt_max, s) := get_pages (Z.to_nat NUM_PT) s in
  let s := s⟦global_pml4 ↦ pml⟧⟦global_pdp ↦ pdp⟧⟦global_pd ↦ pd⟧⟦kpt ↦ pt⟧ in
  match set_initial_addr s pt_init_addr with
  | None => None
  | Some s =>
      let s := s⟦end_addr ↦ u64 (s⟦physbase⟧ + TABLE_SIZE * PAGE_SIZE)⟧ in
      let s := set_end_addrs s pt_max in
      let '(s, _, _) := fill_table (Z.to_nat TABLE_SIZE) s pt _virt_base base_addr in
      let s := link_tables s pml pdp pd (s⟦kpt⟧) pml_off pdp_off pd_off in
      Some (pml4, s)
  end.

Definition set_kernel_pages (s : kst) : option (Z * kst) :=
  let '(pml4, s) := __get_page s in
  let s := s⟦virt_base ↦ u64 (s⟦virt_base⟧ + s⟦physbase⟧)⟧ in
  set_kpage_tables s pml4.

Definition set_pml4 (s : kst) : option kst :=
  match set_kernel_pages s with
  | None => None
  | Some (base_addr, s) => Some (load_cr3 s base_addr)
  end.

(** The loop of [set_pages] with [n] iterations left before the last one. *)
Fixpoint set_pages_loop (n : nat) (s : kst) : kst :=
  match n with
  | O => set_next s (s⟦pdesc⟧) 0
  | S n' =>
      let s := set_next s (s⟦pdesc⟧) (u64 (s⟦pdesc⟧ + PDESC_PG_INC * SIZEOF_PAGE_DESC)) in
      let s := set_pd_free s (s⟦pdesc⟧) FREE in
      let s := s⟦pdesc ↦ get_next s (s⟦pdesc⟧)⟧ in
      set_pages_loop n' s
  end.

Definition set_pages (s : kst) (page_addr : Z) : kst :=
  let head := page_addr in
  let s := s⟦pdesc ↦ page_addr⟧ in
  let s := set_pages_loop (Z.to_nat (NUMBER_OF_PAGES - 1)) s in
  s⟦pdesc ↦ head⟧.

(** [for (i = 0; i < NUMBER_OF_PAGES; i++) { *freelist = 1; freelist += 0x1; }] *)
Fixpoint free_list_loop (n : nat) (s : kst) : kst :=
  match n with
  | O => s
  | S n' =>
      let s := kst32 s (s⟦freelist⟧) 1 in
      free_list_loop n' (s⟦freelist ↦ u64 (s⟦freelist⟧ + 4)⟧)
  end.

Definition set_free_list (s : kst) : option kst :=
  let s := s⟦freelist ↦ s⟦physfree⟧⟧ in
  let address := s⟦freelist⟧ in
  let s := free_list_loop (Z.to_nat NUMBER_OF_PAGES) s in
  let s := set_pages s (s⟦freelist⟧) in
  match set_pml4 s with
  | None => None
  | Some s =>
      let s := s⟦freelist ↦ address⟧ in
      let s := s⟦pml4_shared ↦ u64 (s⟦pml4_shared⟧ + VIRT_BASE)⟧ in
      let s := s⟦pdp_shared ↦ u64 (s⟦pdp_shared⟧ + VIRT_BASE)⟧ in
      let s := s⟦pd_shared ↦ u64 (s⟦pd_shared⟧ + VIRT_BASE)⟧ in
      Some (s⟦freelist ↦ u64 (s⟦init_virt_base⟧ + s⟦freelist⟧)⟧)
  end.

(** The globals as the loader starts the kernel: initialised globals have their
    initialisers, the others are zero; [start] has set [mem_data]. *)
Definition boot_globals (phys_base phys_free : Z) (x : gvar) : Z :=
  match x with
  | virt_base | init_virt_base | virt_base_for_user => VIRT_BASE
  | physbase => phys_base
  | physfree => phys_free
  | usr_phys_addr => START_PADDR_FOR_USRS
  | user_addr => START_VADDR_FOR_USRS
  | dif_ctxt => 1
  | _ => 0
  end.

Definition boot_state (m : mem) (phys_base phys_free lcr3 : Z) : kst :=
  mk_kst m (boot_globals phys_base phys_free) lcr3.

(** ** Reading a state after updates *)

Create HintDb kst.

Lemma gl_gput_eq s x v : (s⟦x ↦ v⟧)⟦x⟧ = v.
Proof. unfold gput. simpl. rewrite decide_True; done. Qed.
Lemma gl_gput_ne s x y v : x <> y -> (s⟦x ↦ v⟧)⟦y⟧ = s⟦y⟧.
Proof. intros. unfold gput. simpl. rewrite decide_False; done. Qed.
Lemma kmem_gput s x v : kmem (s⟦x ↦ v⟧) = kmem s.
Proof. done. Qed.
Lemma cr3_gput s x v : cr3 (s⟦x ↦ v⟧) = cr3 s.
Proof. done. Qed.
Lemma kmem_with_mem s m : kmem (with_mem s m) = m.
Proof. done. Qed.
Lemma gl_with_mem s m x : (with_mem s m)⟦x⟧ = s⟦x⟧.
Proof. done. Qed.
Lemma cr3_with_mem s m : cr3 (with_mem s m) = cr3 s.
Proof. done. Qed.
Lemma with_mem_with_mem s m m' : with_mem (with_mem s m) m' = with_mem s m'.
Proof. done. Qed.

Lemma gl_load_cr3 s v x : (load_cr3 s v)⟦x⟧ = (s⟦pml4_shared ↦ v⟧)⟦x⟧.
Proof. done. Qed.
Lemma kmem_load_cr3 s v : kmem (load_cr3 s v) = kmem s.
Proof. done. Qed.
Lemma cr3_load_cr3 s v : cr3 (load_cr3 s v) = v.
Proof. done. Qed.

#[export] Hint Rewrite gl_load_cr3 kmem_load_cr3 cr3_load_cr3 gl_gput_eq kmem_gput cr3_gput kmem_with_mem gl_with_mem
  cr3_with_mem with_mem_with_mem : kst.
#[export] Hint Rewrite gl_gput_ne using discriminate : kst.

Ltac kst_simpl := autorewrite with kst.
Ltac kst_simpl_in H := autorewrite with kst in H.

#[global] Opaque gput with_mem load_cr3.

(** ** Kernel pages *)

(** A page of kernel memory named by its low (boot) or its high address. *)
Definition kpage (p : Z) : Prop :=
  p mod 4096 = 0 /\
  (0 <= p /\ p + 4096 <= VIRT_BASE \/ VIRT_BASE <= p /\ p + 4096 <= 2 ^ 64).

Lemma kphys_off p o :
  kpage p -> 0 <= o < 4096 -> kphys (u64 (p + o)) = kphys p + o.
Proof.
  unfold kpage, kphys, VIRT_BASE. intros [_ Hp] Ho.
  rewrite u64_small by lia. do 2 (case Z.leb_spec; intros); lia.
Qed.

Lemma kphys_low a : a < VIRT_BASE -> kphys a = a.
Proof. unfold kphys. intros. case Z.leb_spec; lia. Qed.

Lemma kphys_high a : 0 <= a -> kphys (VIRT_BASE + a) = a.
Proof. unfold kphys. intros. case Z.leb_spec; lia. Qed.

Lemma kpage_low p : p mod 4096 = 0 -> 0 <= p -> p + 4096 <= VIRT_BASE -> kpage p.
Proof. unfold kpage. lia. Qed.

(** The two stores of a table update, as a function on memory. *)
Definition entry_mem (m : mem) (a v perm : Z) : mem :=
  let m := wr64 m a v in wr64 m a (Z.lor (rd64 m a) perm).

Lemma put_entry_eq s p i v perm :
  kpage p -> 0 <= i < 512 ->
  put_entry s p i v perm =
    with_mem s (entry_mem (kmem s) (kphys p + 8 * i) v perm).
Proof.
  intros Hp Hi. unfold put_entry, kst64, kld64, elt, entry_mem.
  rewrite kphys_off by (done || lia). kst_simpl. done.
Qed.

Lemma rd64_entry_mem m a v perm :
  0 <= v < 2 ^ 63 -> v mod 4096 = 0 -> 0 <= perm < 4096 ->
  rd64 (entry_mem m a v perm) a = v + perm.
Proof.
  intros Hv Ha Hp. unfold entry_mem.
  rewrite !rd64_wr64_eq, (u64_small v) by lia.
  rewrite (lor_aligned v perm 12) by (done || lia). apply u64_small. lia.
Qed.

Lemma rd8_entry_mem_ne m a v perm b :
  b < a \/ a + 8 <= b -> rd8 (entry_mem m a v perm) b = rd8 m b.
Proof. intros. unfold entry_mem. rewrite !rd8_wr64_ne by lia. done. Qed.

Lemma rd64_entry_mem_ne m a v perm b :
  b + 8 <= a \/ a + 8 <= b -> rd64 (entry_mem m a v perm) b = rd64 m b.
Proof. intros. apply rd64_ext. intros. apply rd8_entry_mem_ne. lia. Qed.

Fixpoint fill_mem (n : nat) (m : mem) (a phys : Z) : mem :=
  match n with
  | O => m
  | S n' => fill_mem n' (entry_mem m a phys KERN_PERM_BITS) (a + 8) (phys + PAGE_SIZE)
  end.

Lemma rd8_fill_mem_ne n m a phys b :
  b < a \/ a + 8 * Z.of_nat n <= b -> rd8 (fill_mem n m a phys) b = rd8 m b.
Proof.
  revert m a phys. induction n as [|n IH]; intros m a phys Hb; cbn [fill_mem]; [done|].
  rewrite IH by lia. apply rd8_entry_mem_ne. lia.
Qed.

Lemma rd64_fill_mem n m a phys j :
  0 <= phys -> phys + PAGE_SIZE * Z.of_nat n < 2 ^ 62 -> phys mod 4096 = 0 ->
  0 <= j < Z.of_nat n ->
  rd64 (fill_mem n m a phys) (a + 8 * j) = phys + PAGE_SIZE * j + KERN_PERM_BITS.
Proof.
  unfold PAGE_SIZE, KERN_PERM_BITS. revert m a phys j.
  induction n as [|n IH]; intros m a phys j Hp Hb Ha Hj; [lia|]. cbn [fill_mem].
  destruct (decide (j = 0)) as [->|Hj0].
  - replace (a + 8 * 0) with a by lia.
    etrans; [apply rd64_ext; intros; apply rd8_fill_mem_ne; lia|].
    rewrite rd64_entry_mem; unfold KERN_PERM_BITS; lia.
  - unfold PAGE_SIZE. replace (a + 8 * j) with (a + 8 + 8 * (j - 1)) by lia.
    rewrite IH; [lia|lia|lia| |lia].
    rewrite Z.add_mod, Ha by lia. done.
Qed.

Lemma get_pt_offset_eq va : get_pt_offset va = va / 4096 mod 512.
Proof. apply (shiftr_land_ones va 12 9); lia. Qed.
Lemma get_pd_offset_eq va : get_pd_offset va = va / 2097152 mod 512.
Proof. apply (shiftr_land_ones va 21 9); lia. Qed.
Lemma get_pdp_offset_eq va : get_pdp_offset va = va / 1073741824 mod 512.
Proof. apply (shiftr_land_ones va 30 9); lia. Qed.
Lemma get_pml4_offset_eq va : get_pml4_offset va = va / 549755813888 mod 512.
Proof. apply (shiftr_land_ones va 39 9); lia. Qed.

Lemma fill_table_eq n s pt virt phys :
  kpage pt -> virt mod 4096 = 0 -> 0 <= virt ->
  virt / 4096 mod 512 + Z.of_nat n <= 512 ->
  virt + 4096 * Z.of_nat n < 2 ^ 64 -> 0 <= phys -> phys + 4096 * Z.of_nat n < 2 ^ 64 ->
  fill_table n s pt virt phys =
    (with_mem s (fill_mem n (kmem s) (kphys pt + 8 * (virt / 4096 mod 512)) phys),
     virt + 4096 * Z.of_nat n, phys + 4096 * Z.of_nat n).
Proof.
  intros Hpt. revert s virt phys. induction n as [|n IH]; intros s virt phys Ha Hv Ho Hv2 Hp Hp2.
  - cbn [fill_table fill_mem]. f_equal; [f_equal|lia]; [by destruct s|lia].
  - cbn [fill_table fill_mem]. rewrite get_pt_offset_eq.
    pose proof (Z.mod_pos_bound (virt / 4096) 512 ltac:(lia)).
    rewrite put_entry_eq by (done || lia).
    unfold PAGE_SIZE. rewrite !u64_small by lia.
    assert (Hq : (virt + 4096) / 4096 = virt / 4096 + 1).
    { replace (virt + 4096) with (virt + 1 * 4096) by lia. apply Z.div_add. lia. }
    destruct (decide (n = 0%nat)) as [->|Hn].
    { cbn [fill_table fill_mem]. repeat f_equal; lia. }
    assert (Hm : (virt + 4096) / 4096 mod 512 = virt / 4096 mod 512 + 1).
    { rewrite Hq, Z.add_mod, (Z.mod_small 1), Z.mod_small by lia. done. }
    rewrite IH; [|rewrite Z.add_mod, Ha by lia; done|lia|lia|lia|lia|lia].
    kst_simpl. rewrite Hm. unfold PAGE_SIZE.
    replace (kphys pt + 8 * (virt / 4096 mod 512 + 1))
      with (kphys pt + 8 * (virt / 4096 mod 512) + 8) by lia.
    replace (virt + 4096 * Z.of_nat (S n)) with (virt + 4096 + 4096 * Z.of_nat n) by lia.
    replace (phys + 4096 * Z.of_nat (S n)) with (phys + 4096 + 4096 * Z.of_nat n) by lia.
    done.
Qed.

(** [kmalloc(0)] takes one page and then, its page count having wrapped, another
    2^32 - 1. *)
Theorem kmalloc_zero_runs_on s :
  kmalloc s 0 =
    (let '(head, s1) := page_alloc s in (head, page_alloc_loop (Z.to_nat (2 ^ 32 - 1)) s1)).
Proof.
  unfold kmalloc.
  replace (Z.to_nat _) with (Z.to_nat (2 ^ 32 - 1)) by reflexivity.
  destruct (page_alloc s). reflexivity.
Qed.
