(* ===== verification/BootPaging.v ===== *)
(** * Correctness of the boot page tables

    The proof that [set_free_list] builds the page list and page tables that map
    [VIRT_BASE + p] to [p] for all of the first 49 * 2 MiB of physical memory. *)

From stdpp Require Import base gmap list numbers.
From Stdlib Require Import ZArith Lia.
From S2P Require Import Prelude KLib Mmu Paging.

Section boot.
Context (m0 : mem) (P0 : Z) (HP0 : P0 mod 4096 = 0) (Hlo : 0x200000 <= P0)
  (Hhi : P0 + 4096 * 24576 <= 2 ^ 31).

(** Address of page [k] of the page list. *)
Definition Pg (k : Z) : Z := P0 + 4096 * k.

Lemma Pg_aligned k : Pg k mod 4096 = 0.
Proof.
  unfold Pg. rewrite Z.add_mod, HP0, (Z.mul_comm 4096), Z.mod_mul by lia. done.
Qed.

Lemma kpage_Pg k : 0 <= k < 24576 -> kpage (Pg k).
Proof.
  intros. apply kpage_low; [apply Pg_aligned|unfold Pg; lia|].
  unfold Pg, VIRT_BASE; lia.
Qed.

Lemma kphys_Pg k o : 0 <= k < 24576 -> 0 <= o < 4096 -> kphys (Pg k + o) = Pg k + o.
Proof. intros. apply kphys_low. unfold Pg, VIRT_BASE. lia. Qed.

Lemma kphys_Pg0 k : 0 <= k < 24576 -> kphys (Pg k) = Pg k.
Proof. intros. apply kphys_low. unfold Pg, VIRT_BASE. lia. Qed.

(** ** The page list *)

(** The descriptors of pages [k], [k + 1], ... are chained up to the last. *)
Definition chain (m : mem) (k : Z) : Prop :=
  forall j, k <= j < 24575 -> rd64 m (Pg j + 8) = Pg (j + 1).

Lemma chain_weaken m k k' : k <= k' -> chain m k -> chain m k'.
Proof. intros Hk H j Hj. apply H. lia. Qed.

Lemma chain_frame m m' k :
  (forall a, (exists j, k <= j < 24576 /\ Pg j + 8 <= a < Pg j + 16) ->
     rd8 m' a = rd8 m a) ->
  chain m k -> chain m' k.
Proof.
  intros Hf Hc j Hj. rewrite <- (Hc j Hj). apply rd64_ext.
  intros i Hi. apply Hf. exists j. lia.
Qed.

Lemma set_pages_loop_spec n s k :
  s⟦pdesc⟧ = Pg k -> 0 <= k -> k + Z.of_nat n = 24575 ->
  let s' := set_pages_loop n s in
  chain (kmem s') k
  /\ (forall a, (forall j, k <= j < 24576 -> a <> Pg j /\ ~ (Pg j + 8 <= a < Pg j + 16)) ->
        rd8 (kmem s') a = rd8 (kmem s) a)
  /\ (forall x, x <> pdesc -> s'⟦x⟧ = s⟦x⟧) /\ cr3 s' = cr3 s.
Proof.
  revert s k. induction n as [|n IH]; intros s k Hp Hk Hn; cbn [set_pages_loop].
  - unfold set_next, kst64. rewrite Hp. split_and!; kst_simpl; try done.
    + intros j Hj. lia.
    + intros a Ha. unfold OFF_next. rewrite u64_small by (unfold Pg in *; lia).
      specialize (Ha k ltac:(lia)). rewrite kphys_Pg, rd8_wr64_ne by lia. done.
  - unfold set_next, set_pd_free, get_next, kst64, kld64, OFF_next, PDESC_PG_INC,
      SIZEOF_PAGE_DESC.
    kst_simpl. rewrite Hp.
    rewrite !u64_small by (unfold Pg in *; lia).
    rewrite !kphys_Pg, kphys_Pg0 by lia.
    set (m1 := wr64 (kmem s) _ _). set (m2 := wr8 m1 _ _).
    assert (Hnx : rd64 m2 (Pg k + 8) = Pg (k + 1)).
    { unfold m2, m1. rewrite rd64_wr8_ne, rd64_wr64_eq by lia.
      rewrite u64_small by (unfold Pg in *; lia). unfold Pg; lia. }
    rewrite Hnx.
    destruct (IH ((with_mem s m2)⟦pdesc ↦ Pg (k + 1)⟧) (k + 1)) as (Hc & Hf & Hg & Hr);
      [kst_simpl; done|lia|lia|].
    kst_simpl_in Hf. split_and!.
    + intros j Hj. destruct (decide (j = k)) as [->|]; [|apply Hc; lia].
      etrans; [|exact Hnx]. apply rd64_ext. intros i Hi. apply Hf. intros j' Hj'.
      unfold Pg in *; lia.
    + intros a Ha. rewrite Hf by (intros j Hj; apply Ha; lia).
      specialize (Ha k ltac:(lia)).
      unfold m2, m1. rewrite rd8_wr8_ne, rd8_wr64_ne by lia. done.
    + intros x Hx. rewrite Hg by done. kst_simpl. rewrite gl_gput_ne by done. done.
    + rewrite Hr. kst_simpl. done.
Qed.

(** Writing [1] into the 24576 cells of the free list. *)
Lemma free_list_loop_spec n s :
  0 <= s⟦freelist⟧ -> s⟦freelist⟧ + 4 * Z.of_nat n < 2 ^ 62 ->
  let s' := free_list_loop n s in
  s'⟦freelist⟧ = s⟦freelist⟧ + 4 * Z.of_nat n
  /\ (forall i, 0 <= i < Z.of_nat n -> rd32 (kmem s') (s⟦freelist⟧ + 4 * i) = 1)
  /\ (forall a, a < s⟦freelist⟧ \/ s⟦freelist⟧ + 4 * Z.of_nat n <= a ->
        rd8 (kmem s') a = rd8 (kmem s) a)
  /\ (forall x, x <> freelist -> s'⟦x⟧ = s⟦x⟧) /\ cr3 s' = cr3 s.
Proof.
  revert s. induction n as [|n IH]; intros s Hf0 Hf1; cbn [free_list_loop].
  - split_and!; try done; lia.
  - set (f := s⟦freelist⟧) in *.
    unfold kst32. kst_simpl. fold f.
    rewrite u64_small, kphys_low by (unfold VIRT_BASE; lia).
    set (s1 := (with_mem s (wr32 (kmem s) f 1))⟦freelist ↦ f + 4⟧).
    assert (H1 : s1⟦freelist⟧ = f + 4) by (unfold s1; kst_simpl; done).
    destruct (IH s1) as (Hl & Hv & Hfr & Hg & Hr); [lia|lia|].
    rewrite H1 in *. split_and!.
    + rewrite Hl. lia.
    + intros i Hi. destruct (decide (i = 0)) as [->|].
      * replace (f + 4 * 0) with f by lia.
        transitivity (rd32 (kmem s1) f).
        -- apply rd32_ext. intros. apply Hfr. lia.
        -- unfold s1. kst_simpl. rewrite rd32_wr32_eq. done.
      * replace (f + 4 * i) with (f + 4 + 4 * (i - 1)) by lia. apply Hv. lia.
    + intros a Ha. rewrite Hfr by lia. unfold s1. kst_simpl. apply rd8_wr32_ne. lia.
    + intros x Hx. rewrite Hg by done. unfold s1. rewrite gl_gput_ne by done.
      kst_simpl. done.
    + rewrite Hr. unfold s1. kst_simpl. done.
Qed.

(** Below the cells of the free list memory is as at the start.  Below its last
    entry, page 0 (the PML4) holds the zeros that [get_page] wrote through the
    misplaced [freelist] and, behind them and behind its own descriptor, what
    memory held at the start. *)
Definition pml_bytes (m : mem) (k : Z) : Prop :=
  (forall a, a < Pg 0 - 0x18000 -> rd8 m a = rd8 m0 a) /\
  forall a, Pg 0 <= a < Pg 0 + 4088 ->
    (a < Pg 0 + 4 * k -> rd8 m a = 0) /\
    (Pg 0 + 4 * k <= a -> Pg 0 + 16 <= a -> rd8 m a = rd8 m0 a).

Definition list_mem (m : mem) (k : Z) : Prop := chain m k /\ pml_bytes m k.

(** The page list during boot: the next page is [k], and [freelist] has been
    left pointing at page 0 (behind the list of cells). *)
Definition blist (s : kst) (k : Z) : Prop :=
  s⟦pdesc⟧ = Pg k /\ s⟦freelist⟧ = Pg 0 /\ s⟦counter⟧ = k /\ list_mem (kmem s) k.

Definition same_globals (l : list gvar) (s s' : kst) : Prop :=
  forall x, x ∉ l -> s'⟦x⟧ = s⟦x⟧.

(** Non-membership in a list of globals, by computation on the lists. *)
Lemma notin_sub (l l' : list gvar) x :
  forallb (fun y => bool_decide (y ∈ l')) l = true -> x ∉ l' -> x ∉ l.
Proof.
  intros Hl Hx Hin. apply Hx. rewrite forallb_forall in Hl.
  apply (bool_decide_eq_true_1 _). apply Hl. by apply list_elem_of_In.
Qed.

Ltac notin := apply (bool_decide_unpack _); vm_compute; exact I.

(** Proves [same_globals] of a chain of updates to listed globals. *)
Ltac gframe :=
  let x := fresh "x" in let Hx := fresh "Hx" in
  unfold same_globals; intros x Hx; rewrite ?not_elem_of_cons in Hx; destruct_and?;
  repeat first [rewrite gl_gput_ne by done | rewrite gl_with_mem]; try done.

(** [get_page] clears the next cell of the misplaced [freelist]. *)
Lemma pml_bytes_take m k v :
  0 <= k < 200 -> pml_bytes m k -> pml_bytes (wr32 (wr8 m (Pg k) v) (Pg 0 + 4 * k) 0) (k + 1).
Proof.
  intros Hk [Hbl Hpb]. split; [intros a Ha; rewrite rd8_wr32_ne, rd8_wr8_ne by (unfold Pg in *; lia); apply Hbl, Ha|].
  intros a Ha. destruct (Hpb a Ha) as [Hz Hk0]. split; intros H1.
  - destruct (decide (a < Pg 0 + 4 * k)) as [Hlt|Hge].
    + rewrite rd8_wr32_ne by lia. destruct (decide (k = 0)); [lia|].
      rewrite rd8_wr8_ne by (unfold Pg in *; lia). auto.
    + apply rd8_wr32_0. lia.
  - intros H2. rewrite rd8_wr32_ne, rd8_wr8_ne by (unfold Pg in *; lia). apply Hk0; lia.
Qed.

Lemma get_page_spec s k :
  blist s k -> 0 <= k < 200 ->
  exists s', get_page s = (Pg k, s') /\ blist s' (k + 1)
    /\ same_globals [pdesc; counter] s s'
    /\ (forall a, a <> Pg k -> ~ (Pg 0 + 4 * k <= a < Pg 0 + 4 * k + 4) ->
          rd8 (kmem s') a = rd8 (kmem s) a).
Proof.
  intros (Hp & Hfl & Hc & Hch & Hpb) Hk. unfold get_page, freelist_take, set_pd_free,
    get_next, kst32, kld64, OFF_next. kst_simpl. rewrite Hp, Hfl, Hc.
  rewrite !u64_small by (unfold Pg; lia).
  rewrite !kphys_Pg, kphys_Pg0 by lia. rewrite s32_small by lia.
  set (m1 := wr8 (kmem s) (Pg k) _).
  rewrite (rd64_ext (kmem s) m1), Hch by (lia || intros; apply rd8_wr8_ne; lia).
  eexists. split; [done|]. unfold blist. split_and!; kst_simpl; try done.
  - split.
    + eapply chain_frame, chain_weaken, Hch; [|lia].
      intros a (j & Hj & Ha). unfold m1.
      rewrite rd8_wr32_ne, rd8_wr8_ne by (unfold Pg in *; lia). done.
    + apply pml_bytes_take; [lia|exact Hpb].
  - gframe.
  - intros a Ha1 Ha2. unfold m1. rewrite rd8_wr32_ne, rd8_wr8_ne by lia. done.
Qed.

Lemma same_globals_trans l s1 s2 s3 :
  same_globals l s1 s2 -> same_globals l s2 s3 -> same_globals l s1 s3.
Proof.
  intros H1 H2 x Hx. rewrite H2, H1; done.
Qed.

Lemma get_pages_spec n s k :
  blist s k -> 0 <= k -> k + Z.of_nat n <= 200 ->
  exists s', get_pages n s = (Pg <$> seqZ k (Z.of_nat n), s')
    /\ blist s' (k + Z.of_nat n) /\ same_globals [pdesc; counter] s s'.
Proof.
  revert s k. induction n as [|n IH]; intros s k Hb Hk Hn; cbn [get_pages].
  - exists s. rewrite Z.add_0_r. done.
  - unfold __get_page. destruct (get_page_spec s k) as (s1 & -> & Hb1 & Hg1 & _); [done|lia|].
    destruct (IH s1 (k + 1)) as (s2 & -> & Hb2 & Hg2); [done|lia|lia|].
    exists s2. split_and!.
    + rewrite (seqZ_cons k) by lia. cbn [fmap list_fmap].
      replace (Z.succ k) with (k + 1) by lia.
      replace (Z.pred (Z.of_nat (S n))) with (Z.of_nat n) by lia. done.
    + replace (k + Z.of_nat (S n)) with (k + 1 + Z.of_nat n) by lia. done.
    + eapply same_globals_trans; done.
Qed.

Lemma link_tables_eq s pml pdp pd pt o4 o3 o2 :
  kpage pml -> kpage pdp -> kpage pd -> 0 <= o4 < 512 -> 0 <= o3 < 512 -> 0 <= o2 < 512 ->
  link_tables s pml pdp pd pt o4 o3 o2 =
    with_mem s (entry_mem (entry_mem (entry_mem (kmem s)
      (kphys pd + 8 * o2) pt KERN_PERM_BITS)
      (kphys pdp + 8 * o3) pd KERN_PERM_BITS)
      (kphys pml + 8 * o4) pdp KERN_PERM_BITS).
Proof.
  intros. unfold link_tables. rewrite !put_entry_eq by done. kst_simpl. done.
Qed.

Lemma initial_loop_eq n s pt i :
  kpage pt -> s⟦physbase⟧ = 0x200000 -> 0 <= i -> i + Z.of_nat n = 512 ->
  initial_loop (S n) s pt (VIRT_BASE + 4096 * i) (4096 * i) =
    Some (with_mem s (fill_mem n (kmem s) (kphys pt + 8 * i) (4096 * i))).
Proof.
  intros Hpt. revert s i. induction n as [|n IH]; intros s i Hb Hi Hn.
  - cbn [initial_loop fill_mem]. rewrite Hb.
    replace (u64 (0x200000 - PAGE_SIZE)) with 0x1ff000 by done.
    rewrite (proj2 (Z.leb_gt _ _)) by lia. destruct s; done.
  - remember (S n) as n' eqn:Hn'. cbn [initial_loop]. rewrite Hb. subst n'. replace (u64 (0x200000 - PAGE_SIZE)) with 0x1ff000 by done.
    rewrite (proj2 (Z.leb_le _ _)) by lia. rewrite get_pt_offset_eq.
    assert (Ho : (VIRT_BASE + 4096 * i) / 4096 mod 512 = i).
    { unfold VIRT_BASE. rewrite (Z.mul_comm 4096), Z.div_add by lia.
      rewrite Z.add_mod by lia.
      change (18446744071562067968 / 4096 mod 512) with 0.
      rewrite Z.add_0_l, Z.mod_mod, Z.mod_small by lia. done. }
    rewrite Ho, put_entry_eq by (done || lia).
    unfold PAGE_SIZE. rewrite !u64_small by (unfold VIRT_BASE; lia).
    replace (VIRT_BASE + 4096 * i + 4096) with (VIRT_BASE + 4096 * (i + 1)) by lia.
    replace (4096 * i + 4096) with (4096 * (i + 1)) by lia.
    rewrite IH; [|kst_simpl; done|lia|lia]. kst_simpl. cbn [fill_mem]. unfold PAGE_SIZE.
    replace (4096 * i + 4096) with (4096 * (i + 1)) by lia.
    replace (kphys pt + 8 * i + 8) with (kphys pt + 8 * (i + 1)) by lia. done.
Qed.

(** ** The tables *)

(** The page that holds the table for the [i]-th 2 MiB. *)
Definition tbl (i : Z) : Z := if i =? 0 then 4 else if i =? 1 then 3 else 3 + i.

(** The 2 MiB number [i] is mapped at [VIRT_BASE] plus its address. *)
Definition maps_2m (m : mem) (i : Z) : Prop :=
  entry m (Pg 2) i = Pg (tbl i) + 3 /\
  forall j, 0 <= j < 512 -> entry m (Pg (tbl i)) j = 0x200000 * i + 4096 * j + 3.

Definition mapped (m : mem) (D : Z -> Prop) : Prop :=
  entry m (Pg 0) 511 = Pg 1 + 3 /\ entry m (Pg 1) 510 = Pg 2 + 3 /\
  forall i, D i -> maps_2m m i.

(** Filling the table of the 2 MiB number [c] and linking it. *)
Definition map_mem (m : mem) (c : Z) : mem :=
  entry_mem (entry_mem (entry_mem (fill_mem 512 m (Pg (tbl c)) (0x200000 * c))
    (Pg 2 + 8 * c) (Pg (tbl c)) KERN_PERM_BITS)
    (Pg 1 + 8 * 510) (Pg 2) KERN_PERM_BITS)
    (Pg 0 + 8 * 511) (Pg 1) KERN_PERM_BITS.

Lemma tbl_range i : 0 <= i < 49 -> 3 <= tbl i < 52.
Proof. unfold tbl. intros. repeat (case Z.eqb_spec; intros); lia. Qed.

Lemma tbl_inj i j : 0 <= i < 49 -> 0 <= j < 49 -> i <> j -> tbl i <> tbl j.
Proof. unfold tbl. intros. repeat (case Z.eqb_spec; intros); lia. Qed.

Lemma Pg_range k : 0 <= k < 24576 -> 0 <= Pg k < 2 ^ 31.
Proof. unfold Pg. lia. Qed.

Lemma map_mem_frame m c a :
  0 <= c < 49 ->
  ~ (Pg (tbl c) <= a < Pg (tbl c) + 4096) ->
  ~ (Pg 2 + 8 * c <= a < Pg 2 + 8 * c + 8) ->
  ~ (Pg 1 + 4080 <= a < Pg 1 + 4088) -> ~ (Pg 0 + 4088 <= a < Pg 0 + 4096) ->
  rd8 (map_mem m c) a = rd8 m a.
Proof.
  intros Hc H1 H2 H3 H4. unfold map_mem.
  rewrite !rd8_entry_mem_ne by lia. apply rd8_fill_mem_ne. lia.
Qed.

Lemma map_mem_new m c : 0 <= c < 49 -> maps_2m (map_mem m c) c.
Proof.
  intros Hc. pose proof (tbl_range c Hc). pose proof (Pg_range (tbl c)). split.
  - unfold entry, map_mem. rewrite !rd64_entry_mem_ne by (unfold Pg; lia).
    rewrite rd64_entry_mem; [done|lia|apply Pg_aligned|done].
  - intros j Hj. unfold entry, map_mem. rewrite !rd64_entry_mem_ne by (unfold Pg; lia).
    rewrite rd64_fill_mem; unfold PAGE_SIZE, KERN_PERM_BITS; try lia.
    replace (0x200000 * c) with (512 * c * 4096) by lia. apply Z.mod_mul. lia.
Qed.

Lemma map_mem_top m c :
  0 <= c < 49 ->
  entry (map_mem m c) (Pg 0) 511 = Pg 1 + 3 /\ entry (map_mem m c) (Pg 1) 510 = Pg 2 + 3.
Proof.
  intros Hc. pose proof (Pg_range 1). pose proof (Pg_range 2). unfold entry, map_mem. split.
  - rewrite rd64_entry_mem; [done|lia|apply Pg_aligned|done].
  - rewrite rd64_entry_mem_ne by (unfold Pg; lia).
    rewrite rd64_entry_mem; [done|lia|apply Pg_aligned|done].
Qed.

(** Other 2 MiB blocks keep their tables. *)
Lemma maps_2m_frame m m' i :
  0 <= i < 49 ->
  (forall a, Pg 2 + 8 * i <= a < Pg 2 + 8 * i + 8 -> rd8 m' a = rd8 m a) ->
  (forall a, Pg (tbl i) <= a < Pg (tbl i) + 4096 -> rd8 m' a = rd8 m a) ->
  maps_2m m i -> maps_2m m' i.
Proof.
  intros Hi H1 H2 [He Ht]. split; unfold entry in *.
  - rewrite <- He. apply rd64_ext. auto.
  - intros j Hj. rewrite <- Ht by done. apply rd64_ext. intros. apply H2. lia.
Qed.

Lemma map_mem_old m c i :
  0 <= c < 49 -> 0 <= i < 49 -> i <> c -> maps_2m m i -> maps_2m (map_mem m c) i.
Proof.
  intros Hc Hi Hne. pose proof (tbl_range i Hi). pose proof (tbl_range c Hc).
  pose proof (tbl_inj i c Hi Hc Hne).
  apply maps_2m_frame; [done| |]; intros a Ha; apply map_mem_frame; unfold Pg in *; lia.
Qed.

Lemma mapped_step m c (D : Z -> Prop) :
  0 <= c < 49 -> (forall i, D i -> 0 <= i < 49) ->
  mapped m D -> mapped (map_mem m c) (fun i => D i \/ i = c).
Proof.
  intros Hc HD (_ & _ & Hm). destruct (map_mem_top m c Hc). split_and!; [done..|].
  intros i Hi. destruct (decide (i = c)) as [->|Hne]; [by apply map_mem_new|].
  destruct Hi as [Hi|Hi]; [|contradiction]. apply map_mem_old; auto.
Qed.

Lemma pml_bytes_map_mem m c k :
  0 <= c < 49 -> pml_bytes m k -> pml_bytes (map_mem m c) k.
Proof.
  intros Hc [Hb Hp]. pose proof (tbl_range c Hc).
  split; intros a Ha; rewrite map_mem_frame by (unfold Pg in *; lia); [apply Hb|apply Hp]; exact Ha.
Qed.

Lemma chain_map_mem m c k :
  0 <= c < 49 -> 52 <= k -> list_mem m k -> list_mem (map_mem m c) k.
Proof.
  intros Hc Hk [Hch Hp]. split; [|apply pml_bytes_map_mem; assumption].
  pose proof (tbl_range c Hc). eapply chain_frame, Hch.
  intros a (j & Hj & Ha). apply map_mem_frame; unfold Pg in *; lia.
Qed.

(** [get_page] on a later page leaves the tables alone. *)
Lemma mapped_frame m m' (D : Z -> Prop) :
  (forall i, D i -> 0 <= i < 49) ->
  (forall a, Pg 0 + 4088 <= a < Pg 52 -> rd8 m' a = rd8 m a) ->
  mapped m D -> mapped m' D.
Proof.
  intros HD Hf (H0 & H1 & Hm). unfold entry in H0, H1. split_and!; unfold entry.
  - rewrite <- H0. apply rd64_ext. intros. apply Hf. unfold Pg in *. lia.
  - rewrite <- H1. apply rd64_ext. intros. apply Hf. unfold Pg in *. lia.
  - intros i Hi. specialize (HD i Hi). pose proof (tbl_range i HD).
    eapply maps_2m_frame; [done| | |by apply Hm]; intros a Ha; apply Hf; unfold Pg in *; lia.
Qed.

(** ** [set_end_addr] *)

(** Boot state after [c] calls of [set_end_addr]: pages 0 to 51 are the
    tables, 2 MiB number 0 and 2 to [c + 1] are mapped. *)
Definition low_blocks (c : Z) (i : Z) : Prop := i = 0 \/ 2 <= i < 2 + c.

(** What [set_end_addr] and its callers assign. *)
Definition boot_written : list gvar :=
  [end_base_addr; flag; pml4_shared; pdp_shared; pd_shared; pdesc; counter; pt_shared;
   end_addr; global_pml4; global_pdp; global_pd; kpt; freelist; virt_base].

Record end_inv (g0 : gvar -> Z) (c : Z) (s : kst) : Prop := {
  ei_rest : forall x, x ∉ boot_written -> s⟦x⟧ = g0 x;
  ei_shared : 0 < c ->
    s⟦pml4_shared⟧ = Pg 0 /\ s⟦pdp_shared⟧ = Pg 1 /\ s⟦pd_shared⟧ = Pg 2;
  ei_list : blist s (52 + c);
  ei_init : s⟦init_virt_base⟧ = VIRT_BASE;
  ei_pml4 : s⟦global_pml4⟧ = Pg 0;
  ei_pdp : s⟦global_pdp⟧ = Pg 1;
  ei_pd : s⟦global_pd⟧ = Pg 2;
  ei_kpt : s⟦kpt⟧ = Pg 3;
  ei_end : (if s⟦flag⟧ =? 0 then s⟦end_addr⟧ else s⟦end_base_addr⟧) = 0x200000 * (2 + c);
  ei_mapped : mapped (kmem s) (low_blocks c) }.

Lemma offsets_of_block i :
  0 <= i < 49 ->
  let va := VIRT_BASE + 0x200000 * i in
  get_pml4_offset va = 511 /\ get_pdp_offset va = 510 /\ get_pd_offset va = i
  /\ va / 4096 mod 512 = 0.
Proof.
  intros Hi va. rewrite get_pml4_offset_eq, get_pdp_offset_eq, get_pd_offset_eq.
  subst va. unfold VIRT_BASE. split_and!.
  - replace (_ / 549755813888) with 33554431; [done|].
    apply (Z.div_unique _ _ _ (18446744071562067968 - 549755813888 * 33554431 + 0x200000 * i)); lia.
  - replace (_ / 1073741824) with 17179869182; [done|].
    apply (Z.div_unique _ _ _ (18446744071562067968 - 1073741824 * 17179869182 + 0x200000 * i)); lia.
  - replace (_ / 2097152) with (8796093021184 + i)
      by (apply (Z.div_unique _ _ _ 0); lia).
    rewrite Z.add_mod by lia. change (8796093021184 mod 512) with 0.
    rewrite Z.add_0_l, Z.mod_mod, Z.mod_small by lia. done.
  - replace (_ / 4096) with ((8796093021184 + i) * 512)
      by (apply (Z.div_unique _ _ _ 0); lia).
    apply Z.mod_mul. lia.
Qed.

(** Filling and linking the table of block [i] from the boot code's pieces. *)
Lemma fill_block s i t va pa :
  0 <= i < 49 -> t = tbl i -> va = VIRT_BASE + 0x200000 * i -> pa = 0x200000 * i ->
  fill_table (Z.to_nat TABLE_SIZE) s (Pg t) va pa
  = (with_mem s (fill_mem 512 (kmem s) (Pg (tbl i)) (0x200000 * i)),
     va + 4096 * 512, pa + 4096 * 512).
Proof.
  intros Hi -> -> ->. pose proof (tbl_range i Hi).
  destruct (offsets_of_block i Hi) as (_ & _ & _ & Ho).
  change (Z.to_nat TABLE_SIZE) with 512%nat.
  rewrite fill_table_eq; [|apply kpage_Pg; lia| |unfold VIRT_BASE; lia|rewrite Ho; lia
    |unfold VIRT_BASE; lia|lia|lia].
  - rewrite Ho, kphys_Pg0, Z.mul_0_r, Z.add_0_r by lia. done.
  - unfold VIRT_BASE. replace (_ + _) with ((4503599626846208 + 512 * i) * 4096) by lia.
    apply Z.mod_mul. lia.
Qed.

Lemma link_block s m i t :
  0 <= i < 49 -> t = tbl i -> kmem s = fill_mem 512 m (Pg (tbl i)) (0x200000 * i) ->
  link_tables s (Pg 0) (Pg 1) (Pg 2) (Pg t) 511 510 i = with_mem s (map_mem m i).
Proof.
  intros Hi -> Hm. pose proof (tbl_range i Hi).
  rewrite link_tables_eq; try (apply kpage_Pg; lia); try lia.
  rewrite Hm, !kphys_Pg0 by lia. done.
Qed.

(** Both together, with the filled state kept abstract. *)
Lemma fill_link s i t va pa :
  0 <= i < 49 -> t = tbl i -> va = VIRT_BASE + 0x200000 * i -> pa = 0x200000 * i ->
  exists s', fill_table (Z.to_nat TABLE_SIZE) s (Pg t) va pa
      = (s', va + 4096 * 512, pa + 4096 * 512)
    /\ same_globals [] s s' /\ cr3 s' = cr3 s
    /\ forall s2, kmem s2 = kmem s' ->
         link_tables s2 (Pg 0) (Pg 1) (Pg 2) (Pg t) 511 510 i
         = with_mem s2 (map_mem (kmem s) i).
Proof.
  intros Hi Ht Hv Hp. eexists. split; [apply (fill_block _ i); assumption|].
  split; [intros x _; apply gl_with_mem|]. split; [apply cr3_with_mem|].
  intros s2. rewrite kmem_with_mem. apply link_block; assumption.
Qed.

#[local] Opaque map_mem fill_mem.

Lemma set_end_addr_inv g0 c s :
  0 <= c < 47 -> end_inv g0 c s -> end_inv g0 (c + 1) (set_end_addr s (Pg (5 + c))).
Proof.
  intros Hc [Hrest _ Hl Hi H4 H3 H2 Hk He Hm]. unfold set_end_addr. cbv zeta.
  set (s1 := if s⟦flag⟧ =? 0 then _ else s).
  assert (Hs1 : s1⟦end_base_addr⟧ = 0x200000 * (2 + c) /\ kmem s1 = kmem s /\ s1⟦flag⟧ <> 0
                /\ same_globals [end_base_addr; flag] s s1).
  { unfold s1. destruct (Z.eqb_spec (s⟦flag⟧) 0) as [Hf|Hf]; split_and!; kst_simpl;
      try done; gframe. }
  destruct Hs1 as (Hb1 & Hm1 & Hf1 & Hg1). clearbody s1.
  rewrite !(Hg1 init_virt_base), !(Hg1 global_pml4), !(Hg1 global_pdp), !(Hg1 global_pd) by notin.
  rewrite Hi, H4, H3, H2, Hb1.
  rewrite u64_small by (unfold VIRT_BASE; lia).
  destruct (offsets_of_block (2 + c)) as (-> & -> & -> & _); [lia|].
  assert (Ht : 5 + c = tbl (2 + c))
    by (unfold tbl; rewrite !(proj2 (Z.eqb_neq _ _)) by lia; lia).
  destruct (fill_link s1 (2 + c) (5 + c) (VIRT_BASE + 0x200000 * (2 + c))
    (0x200000 * (2 + c))) as (s1' & -> & Hg1' & _ & Hlk); [lia|exact Ht|reflexivity..|].
  rewrite Hlk, Hm1 by apply kmem_gput. clear Hlk.
  assert (Hg1'' : forall x, s1'⟦x⟧ = s1⟦x⟧) by (intros x; apply Hg1'; notin). clear Hg1'.
  set (s2 := gput _ pd_shared _).
  assert (Hs2 : same_globals [end_base_addr; flag; pml4_shared; pdp_shared; pd_shared] s s2
    /\ s2⟦flag⟧ <> 0 /\ s2⟦end_base_addr⟧ = 0x200000 * (3 + c)
    /\ kmem s2 = map_mem (kmem s) (2 + c)
    /\ s2⟦pml4_shared⟧ = Pg 0 /\ s2⟦pdp_shared⟧ = Pg 1 /\ s2⟦pd_shared⟧ = Pg 2).
  { unfold s2. split_and!; kst_simpl; rewrite ?Hg1''; try done; [|lia].
    unfold same_globals. intros x Hx.
    rewrite <- (Hg1 x) by (eapply notin_sub, Hx; reflexivity). rewrite <- (Hg1'' x).
    revert x Hx. gframe. }
  destruct Hs2 as (Hg2 & Hf2 & Hb2 & Hm2 & Hsh). clearbody s2. clear Hm1 Hb1 Hf1 Hg1 Hg1'' s1 s1'.
  assert (Hl2 : blist s2 (52 + c)).
  { destruct Hl as (Hp & Hfl & Hct & Hch). unfold blist.
    rewrite (Hg2 pdesc), (Hg2 freelist), (Hg2 counter), Hm2 by notin.
    split; [assumption|]. split; [assumption|]. split; [assumption|]. apply chain_map_mem; [lia|lia|assumption]. }
  unfold __get_page.
  destruct (get_page_spec s2 (52 + c)) as (s3 & -> & Hl3 & Hg3 & Hfr); [done|lia|].
  assert (Hsame : forall x, x ∉ [end_base_addr; flag; pml4_shared; pdp_shared; pd_shared;
      pdesc; counter; pt_shared] -> (s3⟦pt_shared ↦ Pg (52 + c)⟧)⟦x⟧ = s⟦x⟧).
  { intros x Hx. rewrite gl_gput_ne, Hg3, Hg2; [reflexivity|..];
      [eapply notin_sub, Hx; reflexivity..|].
    intros <-. apply Hx. by apply (bool_decide_unpack _). }
  constructor; try (rewrite Hsame by notin; assumption).
  - intros x Hx. unfold boot_written in Hx. rewrite Hsame; [apply Hrest, Hx|].
    eapply notin_sub, Hx. reflexivity.
  - intros _. kst_simpl. rewrite !Hg3 by notin. exact Hsh.
  - destruct Hl3 as (Hp & Hfl & Hct & Hch). unfold blist. kst_simpl.
    replace (52 + (c + 1)) with (52 + c + 1) by lia.
    split; [assumption|]. split; [assumption|]. split; assumption.
  - kst_simpl. rewrite !Hg3 by notin. rewrite (proj2 (Z.eqb_neq _ 0)) by assumption.
    rewrite Hb2. lia.
  - kst_simpl. eapply (mapped_frame (kmem s2)).
    + unfold low_blocks. lia.
    + intros a Ha. apply Hfr; unfold Pg in *; lia.
    + rewrite Hm2. apply (mapped_step _ (2 + c)) in Hm; [|lia|unfold low_blocks; lia].
      destruct Hm as (? & ? & Hm). split; [assumption|]. split; [assumption|].
      intros i Hi'. apply Hm. unfold low_blocks in *. lia.
Qed.

Lemma set_end_addrs_inv g0 n c s :
  0 <= c -> c + Z.of_nat n <= 47 -> end_inv g0 c s ->
  end_inv g0 (c + Z.of_nat n) (set_end_addrs s (Pg <$> seqZ (5 + c) (Z.of_nat n))).
Proof.
  revert c s. induction n as [|n IH]; intros c s Hc Hn Hi.
  - rewrite Z.add_0_r. exact Hi.
  - rewrite (seqZ_cons (5 + c)) by lia. cbn [fmap list_fmap]. unfold set_end_addrs. simpl.
    replace (Z.succ (5 + c)) with (5 + (c + 1)) by lia.
    replace (Z.pred (Z.of_nat (S n))) with (Z.of_nat n) by lia.
    replace (c + Z.of_nat (S n)) with (c + 1 + Z.of_nat n) by lia.
    apply IH; [lia|lia|]. apply set_end_addr_inv; [lia|done].
Qed.

(** [set_initial_addr] maps the first 2 MiB. *)
Lemma set_initial_addr_eq s :
  s⟦physbase⟧ = 0x200000 -> s⟦init_virt_base⟧ = VIRT_BASE ->
  s⟦global_pml4⟧ = Pg 0 -> s⟦global_pdp⟧ = Pg 1 -> s⟦global_pd⟧ = Pg 2 ->
  set_initial_addr s (Pg 4) = Some (with_mem s (map_mem (kmem s) 0)).
Proof.
  intros Hb Hi H4 H3 H2. unfold set_initial_addr.
  rewrite Hi, H4, H3, H2, Hb.
  change (Z.to_nat (2097152 / PAGE_SIZE)) with 512%nat.
  destruct (offsets_of_block 0) as (E4 & E3 & E2 & _); [lia|].
  rewrite Z.mul_0_r, Z.add_0_r in E4, E3, E2. rewrite E4, E3, E2.
  pose proof (initial_loop_eq 512 s (Pg 4) 0) as Hloop.
  rewrite Z.mul_0_r, Z.add_0_r in Hloop.
  unfold BASE_ADDR. rewrite Hloop; [|apply kpage_Pg; lia|done|lia|lia].
  rewrite kphys_Pg0, Z.mul_0_r, Z.add_0_r by lia.
  rewrite (link_block _ (kmem s) 0 4); [kst_simpl; reflexivity|lia|reflexivity|].
  kst_simpl. rewrite Z.mul_0_r. reflexivity.
Qed.

(** ** The whole boot sequence *)

Record boot_done (g0 : gvar -> Z) (s : kst) : Prop := {
  bd_rest : forall x, x ∉ boot_written -> s⟦x⟧ = g0 x;
  bd_init : s⟦init_virt_base⟧ = VIRT_BASE;
  bd_shared : s⟦pml4_shared⟧ = Pg 0 /\ s⟦pdp_shared⟧ = Pg 1 /\ s⟦pd_shared⟧ = Pg 2;
  bd_next : s⟦pdesc⟧ = Pg 99 /\ s⟦counter⟧ = 99 /\ pml_bytes (kmem s) 99;
  bd_mapped : mapped (kmem s) (fun i => 0 <= i < 49) }.

(** After the 52 table pages are taken, the first 2 MiB are mapped. *)
Lemma first_block_inv g0 s :
  blist s 52 -> (forall x, x ∉ boot_written -> s⟦x⟧ = g0 x) ->
  s⟦init_virt_base⟧ = VIRT_BASE -> s⟦flag⟧ = 0 ->
  s⟦global_pml4⟧ = Pg 0 -> s⟦global_pdp⟧ = Pg 1 -> s⟦global_pd⟧ = Pg 2 -> s⟦kpt⟧ = Pg 3 ->
  end_inv g0 0 ((with_mem s (map_mem (kmem s) 0))⟦end_addr ↦ 0x400000⟧).
Proof.
  intros (Hp & Hfl & Hc & Hch) Hrest Hi Hf H4 H3 H2 Hk.
  constructor; kst_simpl; try assumption.
  - intros x Hx. rewrite <- Hrest by exact Hx.
    unfold boot_written in Hx. revert x Hx. gframe.
  - lia.
  - unfold blist. kst_simpl. split; [assumption|]. split; [assumption|].
    split; [assumption|]. apply chain_map_mem; [lia|lia|exact Hch].
  - rewrite Hf. reflexivity.
  - destruct (map_mem_top (kmem s) 0 ltac:(lia)) as [? ?].
    split; [assumption|]. split; [assumption|]. intros i Hi'.
    replace i with 0 by (unfold low_blocks in Hi'; lia). apply map_mem_new. lia.
Qed.

(** The tables from 4 MiB up, then the kernel's own 2 MiB. *)
Definition table_phase (s : kst) : kst :=
  let s := set_end_addrs s (Pg <$> seqZ 5 47) in
  let '(s, _, _) :=
    fill_table (Z.to_nat TABLE_SIZE) s (Pg 3) (VIRT_BASE + 2097152) 2097152 in
  link_tables s (Pg 0) (Pg 1) (Pg 2) (s⟦kpt⟧) 511 510 1.

Lemma table_phase_done g0 s : end_inv g0 0 s -> boot_done g0 (table_phase s).
Proof.
  intros Hinv. apply (set_end_addrs_inv g0 47 0) in Hinv; [|lia|lia]. unfold table_phase.
  replace (5 + 0) with 5 in Hinv by lia. replace (Z.of_nat 47) with 47 in Hinv by lia.
  set (s7 := set_end_addrs s _) in *. clearbody s7.
  destruct Hinv as [Hrest Hsh (Hp & _ & Hct & _ & Hpb) Hi H4 H3 H2 Hk _ Hm].
  destruct (fill_link s7 1 3 (VIRT_BASE + 2097152) 2097152) as (s8 & -> & Hg8 & _ & Hlk);
    [lia|reflexivity..|].
  rewrite (Hg8 kpt), Hk by notin. rewrite (Hlk s8) by reflexivity. clear Hlk.
  constructor; kst_simpl; rewrite ?Hg8 by notin; try assumption.
  - intros x Hx. rewrite gl_with_mem, Hg8 by apply not_elem_of_nil. apply Hrest, Hx.
  - apply Hsh. lia.
  - rewrite Hp, Hct. split; [f_equal; lia|]. split; [lia|].
    apply pml_bytes_map_mem; [lia|exact Hpb].
  - apply (mapped_step _ 1) in Hm; [|lia|unfold low_blocks; lia].
    destruct Hm as (? & ? & Hm). split; [assumption|]. split; [assumption|].
    intros i Hi'. apply Hm. unfold low_blocks. lia.
Qed.

Lemma set_kpage_tables_spec g0 s :
  blist s 1 -> (forall x, x ∉ boot_written -> s⟦x⟧ = g0 x) ->
  s⟦physbase⟧ = 0x200000 -> s⟦init_virt_base⟧ = VIRT_BASE ->
  s⟦virt_base⟧ = VIRT_BASE + 0x200000 -> s⟦flag⟧ = 0 ->
  exists s', set_kpage_tables s (Pg 0) = Some (Pg 0, s') /\ boot_done g0 s'.
Proof.
  intros Hl Hrest Hb Hi Hv Hf. unfold set_kpage_tables, __get_page. rewrite Hv, Hb.
  destruct (get_page_spec s 1 Hl ltac:(lia)) as (s1 & -> & Hl1 & Hg1 & _).
  destruct (get_page_spec s1 2 Hl1 ltac:(lia)) as (s2 & -> & Hl2 & Hg2 & _).
  destruct (get_page_spec s2 3 Hl2 ltac:(lia)) as (s3 & -> & Hl3 & Hg3 & _).
  destruct (get_page_spec s3 4 Hl3 ltac:(lia)) as (s4 & -> & Hl4 & Hg4 & _).
  destruct (get_pages_spec (Z.to_nat NUM_PT) s4 5) as (s5 & -> & Hl5 & Hg5);
    [done|lia|rewrite Z2Nat.id; unfold NUM_PT; lia|].
  rewrite Z2Nat.id in * by (unfold NUM_PT; lia).
  assert (Hg : same_globals [pdesc; counter] s s5)
    by eauto using same_globals_trans.
  clear Hg1 Hg2 Hg3 Hg4 Hg5 Hl1 Hl2 Hl3 Hl4 s1 s2 s3 s4.
  destruct (offsets_of_block 1) as (E4 & E3 & E2 & _); [lia|].
  rewrite Z.mul_1_r in E4, E3, E2. rewrite E4, E3, E2.
  set (s6 := gput _ kpt _).
  assert (Hs6 : forall x, x ∉ boot_written -> s6⟦x⟧ = s⟦x⟧).
  { intros x Hx. rewrite <- (Hg x) by (eapply notin_sub, Hx; reflexivity).
    unfold boot_written in Hx. unfold s6. revert x Hx. gframe. }
  pose proof (first_block_inv g0 s6) as Hinv.
  rewrite set_initial_addr_eq; [|unfold s6; kst_simpl; rewrite ?Hg by notin; done..].
  kst_simpl. rewrite (Hs6 physbase), Hb by notin.
  replace (u64 (2097152 + TABLE_SIZE * PAGE_SIZE)) with 0x400000 by reflexivity.
  eexists. split; [|apply table_phase_done, Hinv].
  - unfold table_phase, NUM_PT. destruct (fill_table _ _ _ _ _) as [[? ?] ?]. reflexivity.
  - destruct Hl5 as (Hp5 & Hfl5 & Hc5 & Hch5). unfold NUM_PT in *. unfold blist, s6. kst_simpl.
    split; [rewrite Hp5; f_equal; lia|]. split; [assumption|]. split; [lia|exact Hch5].
  - intros x Hx. rewrite Hs6 by exact Hx. apply Hrest, Hx.
  - rewrite Hs6 by notin. exact Hi.
  - unfold s6. kst_simpl. rewrite Hg by notin. exact Hf.
  - unfold s6. kst_simpl. reflexivity.
  - unfold s6. kst_simpl. reflexivity.
  - unfold s6. kst_simpl. reflexivity.
  - unfold s6. kst_simpl. reflexivity.
Qed.

Lemma set_pml4_spec g0 s :
  blist s 0 -> (forall x, x ∉ boot_written -> s⟦x⟧ = g0 x) ->
  s⟦physbase⟧ = 0x200000 -> s⟦init_virt_base⟧ = VIRT_BASE ->
  s⟦virt_base⟧ = VIRT_BASE -> s⟦flag⟧ = 0 ->
  exists s', set_pml4 s = Some s' /\ boot_done g0 s' /\ cr3 s' = Pg 0.
Proof.
  intros Hl Hrest Hb Hi Hv Hf. unfold set_pml4, set_kernel_pages, __get_page.
  destruct (get_page_spec s 0 Hl ltac:(lia)) as (s1 & -> & Hl1 & Hg1 & _).
  rewrite (Hg1 virt_base), (Hg1 physbase), Hv, Hb by notin.
  rewrite u64_small by (unfold VIRT_BASE; lia).
  destruct (set_kpage_tables_spec g0 (s1⟦virt_base ↦ VIRT_BASE + 2097152⟧))
    as (s2 & -> & [Hr Hi2 Hsh Hn Hm]); kst_simpl; rewrite ?Hg1 by notin; try assumption.
  - intros x Hx. rewrite <- Hrest by exact Hx.
    rewrite <- (Hg1 x) by (eapply notin_sub, Hx; reflexivity).
    unfold boot_written in Hx. revert x Hx. gframe.
  - reflexivity.
  - eexists. split; [reflexivity|]. split; [|apply cr3_load_cr3].
    constructor; kst_simpl; try assumption.
    + intros x Hx. rewrite <- Hr by exact Hx. rewrite gl_load_cr3.
      unfold boot_written in Hx. revert x Hx. gframe.
    + destruct Hsh as (_ & ? & ?). split; [reflexivity|]. split; assumption.
Qed.
End boot.

(** ** From power-on *)

(** State after [set_free_list]: the page tables, the page list and the globals
    that the allocator and the user-paging code continue from.  [P0] is the
    first page, behind the 24576 cells of the free list. *)
Record after_boot (m : mem) (pf : Z) (s : kst) : Prop := {
  ab_mapped : mapped (pf + 0x18000) (kmem s) (fun i => 0 <= i < 49);
  ab_cr3 : cr3 s = pf + 0x18000;
  ab_pml4 : s⟦pml4_shared⟧ = VIRT_BASE + (pf + 0x18000);
  ab_next : s⟦pdesc⟧ = pf + 0x18000 + 4096 * 99;
  ab_counter : s⟦counter⟧ = 99;
  ab_freelist : s⟦freelist⟧ = VIRT_BASE + pf;
  ab_rest : forall x, x ∉ boot_written -> s⟦x⟧ = boot_globals 0x200000 pf x;
  ab_pml4_bytes : pml_bytes m (pf + 0x18000) (kmem s) 99 }.

Definition boot_memory (pf : Z) : Prop :=
  pf mod 4096 = 0 /\ 0x200000 <= pf /\ pf + 0x18000 + 4096 * 24576 <= 2 ^ 31.

Lemma set_free_list_from m pf s :
  boot_memory pf -> kmem s = m -> (forall x, s⟦x⟧ = boot_globals 0x200000 pf x) ->
  exists s', set_free_list s = Some s' /\ after_boot m pf s'.
Proof.
  intros (Ha & Hlo & Hhi) Hsm Hsg. unfold set_free_list.
  set (s0 := s⟦freelist ↦ _⟧).
  assert (Hf0 : s0⟦freelist⟧ = pf) by (unfold s0; kst_simpl; apply Hsg).
  assert (Hr0 : forall x, x <> freelist -> s0⟦x⟧ = boot_globals 2097152 pf x).
  { intros x Hx. unfold s0. rewrite gl_gput_ne by done. apply Hsg. }
  assert (Hm0 : kmem s0 = m) by (unfold s0; kst_simpl; done).
  clearbody s0. cbv zeta. change (Z.to_nat NUMBER_OF_PAGES) with (Z.to_nat 24576).
  destruct (free_list_loop_spec (Z.to_nat 24576) s0) as (Hf1 & _ & Hm1 & Hr1 & _); [lia|lia|].
  set (s1 := free_list_loop _ s0) in *. clearbody s1.
  rewrite Hf0 in Hf1, Hm1. rewrite Hf0.
  replace (pf + 4 * _) with (pf + 0x18000) in Hf1, Hm1 by lia. rewrite Hm0 in Hm1.
  rewrite Hf1. unfold set_pages.
  set (P0 := pf + 0x18000) in *.
  assert (HP0 : P0 mod 4096 = 0).
  { unfold P0. rewrite Z.add_mod, Ha by lia. done. }
  change (Z.to_nat (NUMBER_OF_PAGES - 1)) with (Z.to_nat 24575).
  destruct (set_pages_loop_spec P0 ltac:(lia) ltac:(lia) (Z.to_nat 24575) (s1⟦pdesc ↦ P0⟧) 0)
    as (Hch & Hm2 & Hr2 & _); [kst_simpl; unfold Pg; lia|lia|lia|].
  rewrite kmem_gput in Hm2.
  set (s2 := set_pages_loop _ _) in *. clearbody s2.
  destruct (set_pml4_spec m P0 HP0 ltac:(lia) ltac:(lia) (boot_globals 2097152 pf) (s2⟦pdesc ↦ P0⟧))
    as (s3 & -> & [Hr Hi (Hs4 & _ & _) (Hn & Hct & Hpb) Hm] & Hcr).
  1-6: kst_simpl.
  - unfold blist. kst_simpl. rewrite !Hr2 by discriminate. kst_simpl. rewrite Hf1.
    rewrite Hr1, Hr0 by discriminate. unfold Pg.
    split; [lia|]. split; [lia|]. split; [reflexivity|]. split; [assumption|]. split.
    + intros a Hpa. unfold Pg in Hpa. rewrite Hm2, Hm1; [reflexivity|lia|]. intros j Hj. unfold Pg. lia.
    + intros a Hpa. unfold Pg in Hpa. split; intros H1; [unfold Pg in *; lia|]. intros H2.
      unfold Pg in H2. rewrite Hm2, Hm1; [reflexivity|lia|]. intros j Hj. unfold Pg. lia.
  - intros x Hx. unfold boot_written in Hx. rewrite !not_elem_of_cons in Hx. destruct_and!.
    rewrite gl_gput_ne, Hr2, gl_gput_ne, Hr1, Hr0 by congruence. reflexivity.
  - rewrite Hr2 by discriminate. kst_simpl. rewrite Hr1, Hr0 by discriminate. reflexivity.
  - rewrite Hr2 by discriminate. kst_simpl. rewrite Hr1, Hr0 by discriminate. reflexivity.
  - rewrite Hr2 by discriminate. kst_simpl. rewrite Hr1, Hr0 by discriminate. reflexivity.
  - rewrite Hr2 by discriminate. kst_simpl. rewrite Hr1, Hr0 by discriminate. reflexivity.
  - eexists. split; [reflexivity|]. unfold Pg in *. constructor; kst_simpl; try assumption.
    + lia.
    + rewrite Hs4. rewrite u64_small by (unfold VIRT_BASE; lia). lia.
    + rewrite Hi. apply u64_small. unfold VIRT_BASE, P0 in *; lia.
    + intros x Hx. rewrite <- Hr by exact Hx.
      unfold boot_written in Hx. rewrite !not_elem_of_cons in Hx. destruct_and!.
      rewrite !gl_gput_ne by congruence. reflexivity.
Qed.

Lemma set_free_list_spec m pf c0 :
  boot_memory pf ->
  exists s, set_free_list (boot_state m 0x200000 pf c0) = Some s /\ after_boot m pf s.
Proof. intros Hpf. apply set_free_list_from; [exact Hpf|reflexivity|reflexivity]. Qed.

(** The four indices of [VIRT_BASE + pa] below 98 MiB. *)
Lemma va_index_kernel pa :
  0 <= pa < 49 * 0x200000 ->
  let va := VIRT_BASE + pa in
  va_index 4 va = 511 /\ va_index 3 va = 510 /\ va_index 2 va = pa / 0x200000
  /\ va_index 1 va = pa / 4096 mod 512 /\ va mod 4096 = pa mod 4096.
Proof.
  intros Hpa va. subst va. unfold va_index, VIRT_BASE.
  change (2 ^ (12 + 9 * (4 - 1))) with 549755813888.
  change (2 ^ (12 + 9 * (3 - 1))) with 1073741824.
  change (2 ^ (12 + 9 * (2 - 1))) with 2097152. change (2 ^ (12 + 9 * (1 - 1))) with 4096.
  split_and!.
  - replace (_ / 549755813888) with 33554431; [done|].
    apply (Z.div_unique _ _ _ (18446744071562067968 - 549755813888 * 33554431 + pa)); lia.
  - replace (_ / 1073741824) with 17179869182; [done|].
    apply (Z.div_unique _ _ _ (18446744071562067968 - 1073741824 * 17179869182 + pa)); lia.
  - replace (18446744071562067968 + pa) with (pa + 8796093021184 * 2097152) by lia.
    rewrite Z.div_add, Z.add_mod by lia. change (8796093021184 mod 512) with 0.
    rewrite Z.add_0_r, Z.mod_mod by lia. apply Z.mod_small.
    split; [apply Z.div_pos; lia|]. apply Z.div_lt_upper_bound; lia.
  - replace (18446744071562067968 + pa) with (pa + 4503599626846208 * 4096) by lia.
    rewrite Z.div_add, Z.add_mod by lia. change (4503599626846208 mod 512) with 0.
    rewrite Z.add_0_r. apply Z.mod_mod. lia.
  - replace (18446744071562067968 + pa) with (pa + 4503599626846208 * 4096) by lia.
    apply Z.mod_add. lia.
Qed.

Lemma split_2m pa :
  0x200000 * (pa / 0x200000) + 4096 * (pa / 4096 mod 512) = pa - pa mod 4096.
Proof.
  replace (pa / 0x200000) with (pa / 4096 / 512) by (rewrite Z.div_div by lia; done).
  pose proof (Z.div_mod (pa / 4096) 512 ltac:(lia)).
  pose proof (Z.div_mod pa 4096 ltac:(lia)). lia.
Qed.

(** Tables in the shape that boot leaves translate all of the mapped memory. *)
Lemma mapped_walk P0 m pa :
  P0 mod 4096 = 0 -> 0 <= P0 -> P0 + 4096 * 24576 <= 2 ^ 31 ->
  mapped P0 m (fun i => 0 <= i < 49) -> 0 <= pa < 49 * 0x200000 ->
  walk m P0 (VIRT_BASE + pa) = Some (mk_tr pa true false).
Proof.
  intros HP Hlo Hhi (E4 & E3 & Hb) Hpa.
  destruct (va_index_kernel pa Hpa) as (I4 & I3 & I2 & I1 & Io).
  assert (Hi : 0 <= pa / 0x200000 < 49).
  { split; [apply Z.div_pos; lia|]. apply Z.div_lt_upper_bound; lia. }
  pose proof (Z.mod_pos_bound (pa / 4096) 512 ltac:(lia)) as Hj.
  pose proof (tbl_range _ Hi). destruct (Hb _ Hi) as [E2 E1].
  assert (Hp0 : pte_frame P0 = Pg P0 0).
  { rewrite <- (Z.add_0_r P0) at 1. unfold Pg. rewrite pte_frame_add; lia. }
  assert (Hpg : forall k, 0 <= k < 52 -> 0 <= Pg P0 k < 2 ^ 52 /\ Pg P0 k mod 4096 = 0).
  { intros. split; [unfold Pg; lia|by apply Pg_aligned]. }
  pose proof (split_2m pa) as Hs. pose proof (Z.mod_pos_bound pa 4096 ltac:(lia)).
  rewrite (walk_4k m P0 _ (Pg P0 1) (Pg P0 2) (Pg P0 (tbl (pa / 0x200000)))
    (pa - pa mod 4096) 3 3 3 3).
  - rewrite Io. do 2 f_equal. lia.
  - rewrite Hp0, I4. exact E4.
  - rewrite I3. exact E3.
  - rewrite I2. exact E2.
  - rewrite I1, E1 by exact Hj. lia.
  - assert (Hf : (pa - pa mod 4096) mod 4096 = 0).
    { rewrite <- Hs, Z.add_mod by lia.
      replace (0x200000 * _) with (512 * (pa / 0x200000) * 4096) by lia.
      rewrite Z.mod_mul, (Z.mul_comm 4096), Z.mod_mul by lia. done. }
    apply Forall_cons_2; [apply Hpg; lia|].
    apply Forall_cons_2; [apply Hpg; lia|].
    apply Forall_cons_2; [apply Hpg; lia|].
    apply Forall_singleton. lia.
  - apply (bool_decide_unpack _). vm_compute. exact I.
  - lia.
  - reflexivity.
Qed.

(** C8: from any contents of memory the boot sequence [set_free_list] terminates,
    and the page tables it leaves behind [cr3] translate [VIRT_BASE + pa] to [pa],
    writable and for the supervisor only, for each of the first 98 MiB. *)
Theorem boot_maps_kernel_memory m pf c0 :
  boot_memory pf ->
  exists s, set_free_list (boot_state m 0x200000 pf c0) = Some s /\
    forall pa, 0 <= pa < 49 * 0x200000 ->
      walk (kmem s) (cr3 s) (VIRT_BASE + pa) = Some (mk_tr pa true false).
Proof.
  intros Hpf. destruct (set_free_list_spec m pf c0 Hpf) as (s & Hs & Hab).
  exists s. split; [exact Hs|]. intros pa Hpa. destruct Hpf as (Ha & Hlo & Hhi).
  rewrite (ab_cr3 _ _ _ Hab). apply mapped_walk; try lia; [|apply (ab_mapped _ _ _ Hab)].
  rewrite Z.add_mod, Ha by lia. done.
Qed.

Lemma boot_maps_kernel_memory_witness :
  boot_memory 0x400000 /\
  exists s, set_free_list (boot_state ∅ 0x200000 0x400000 0) = Some s /\
    forall pa, 0 <= pa < 49 * 0x200000 ->
      walk (kmem s) (cr3 s) (VIRT_BASE + pa) = Some (mk_tr pa true false).
Proof.
  assert (H : boot_memory 0x400000) by (unfold boot_memory; split; [reflexivity|lia]).
  split; [exact H|]. apply (boot_maps_kernel_memory ∅ 0x400000 0 H).
Defined.
