(* ===== verification/Alloc.v ===== *)
(** * The kernel page allocator after boot

    [page_alloc] and [kmalloc] of [sys/paging.c] from the state that
    [set_free_list] leaves.  [PageSource] is the contract that the clients of
    the allocator (user paging, the process code) are verified against;
    [page_source_boot] discharges it. *)

From stdpp Require Import base gmap list numbers.
From Stdlib Require Import ZArith Lia.
From S2P Require Import Prelude KLib Mmu Paging BootPaging.

(** Physical memory that the boot tables map: 49 tables of 2 MiB. *)
Definition KWIN : Z := 49 * 0x200000.

(** The globals that belong to the allocator. *)
Definition alloc_globals : list gvar :=
  [pdesc; _pdesc; virt_to_phy_flag; freelist; counter].

(** What a page source promises: [ready np s] means that the page at physical
    address [np] is handed out next; [own] is the allocator's bookkeeping. *)
Class PageSource (ready : Z -> kst -> Prop) (own : Z -> Prop) : Prop := {
  ps_next : forall np s, ready np s -> np mod 4096 = 0 /\ 0x200000 <= np;
  ps_own : forall np s a, ready np s -> own a -> 0x200000 <= a < np;
  ps_frame : forall np s s',
    ready np s -> (forall x, x ∈ alloc_globals -> s'⟦x⟧ = s⟦x⟧) -> ready np s';
  ps_alloc : forall np s, ready np s -> np + 4096 <= KWIN ->
    exists s', page_alloc s = (VIRT_BASE + np, s') /\ ready (np + 4096) s'
      /\ cr3 s' = cr3 s /\ same_globals alloc_globals s s'
      /\ (forall a, np <= a < np + 4096 -> rd8 (kmem s') a = 0)
      /\ (forall a, ~ own a -> ~ (np <= a < np + 4096) -> rd8 (kmem s') a = rd8 (kmem s) a) }.

(** The physical address of the page that the next [page_alloc] returns. *)
Definition next_phys (s : kst) : Z :=
  if s⟦virt_to_phy_flag⟧ =? 0 then s⟦pdesc⟧ else s⟦_pdesc⟧.

(** The allocator is about to hand out page [k] of the list behind [pf].  The
    cell counter starts equal to [k] and is later reset by the keyboard driver,
    which shares the symbol. *)
Record alloc_at (pf k : Z) (s : kst) : Prop := {
  aa_next : next_phys s = Pg (pf + 0x18000) k;
  aa_counter : 0 <= s⟦counter⟧ <= k;
  aa_freelist : s⟦freelist⟧ = VIRT_BASE + pf }.

(** The cells of the free list: the bookkeeping that [page_alloc] writes. *)
Definition freelist_cells (pf a : Z) : Prop := pf <= a < pf + 0x18000.

Lemma after_boot_alloc m pf s : after_boot m pf s -> alloc_at pf 99 s.
Proof.
  intros [_ _ _ Hn Hc Hf Hr _]. constructor; [|lia|assumption]. unfold next_phys.
  rewrite Hr; [exact Hn|]. apply (bool_decide_unpack _); vm_compute; exact I.
Qed.

Lemma page_alloc_step pf k s :
  boot_memory pf -> alloc_at pf k s -> 0 <= k -> Pg (pf + 0x18000) k + 4096 <= KWIN ->
  exists s', page_alloc s = (VIRT_BASE + Pg (pf + 0x18000) k, s')
    /\ alloc_at pf (k + 1) s' /\ cr3 s' = cr3 s /\ same_globals alloc_globals s s'
    /\ (forall a, Pg (pf + 0x18000) k <= a < Pg (pf + 0x18000) k + 4096 ->
          rd8 (kmem s') a = 0)
    /\ (forall a, ~ (pf + 4 * s⟦counter⟧ <= a < pf + 4 * s⟦counter⟧ + 4) ->
          ~ (Pg (pf + 0x18000) k <= a < Pg (pf + 0x18000) k + 4096) ->
          rd8 (kmem s') a = rd8 (kmem s) a).
Proof.
  intros (Ha & Hlo & Hhi) [Hn Hc Hf] Hk Hw. unfold page_alloc.
  set (s1 := if s⟦virt_to_phy_flag⟧ =? 0 then _ else s).
  assert (H1 : s1⟦_pdesc⟧ = Pg (pf + 0x18000) k /\ s1⟦virt_to_phy_flag⟧ <> 0
    /\ kmem s1 = kmem s /\ cr3 s1 = cr3 s /\ same_globals alloc_globals s s1
    /\ s1⟦counter⟧ = s⟦counter⟧ /\ s1⟦freelist⟧ = s⟦freelist⟧).
  { unfold s1, next_phys in *. destruct (Z.eqb_spec (s⟦virt_to_phy_flag⟧) 0);
      split_and!; kst_simpl; try done.
    intros x Hx. unfold alloc_globals in Hx. rewrite !not_elem_of_cons in Hx.
    destruct_and!. rewrite !gl_gput_ne by congruence. done. }
  destruct H1 as (Hp1 & Hfl1 & Hm1 & Hr1 & Hg1 & Hc1 & Hf1). clearbody s1.
  rewrite Hf in Hf1. clear Hf Hn. set (c := s⟦counter⟧) in *.
  set (p := Pg (pf + 0x18000) k) in *.
  assert (Hp : 0x200000 <= p < KWIN /\ p mod 4096 = 0 /\ pf + 4 * c + 4 <= p).
  { unfold p, KWIN, Pg in *. split; [lia|]. split; [|lia].
    apply Pg_aligned. rewrite Z.add_mod, Ha by lia. done. }
  cbv zeta. unfold set_pd_free, set_next, get_next, freelist_take, kst64, kst32, kld64,
    OFF_next, PAGE_SIZE, PDESC_PG_INC, SIZEOF_PAGE_DESC.
  kst_simpl. rewrite Hp1, Hc1, Hf1, Hm1.
  assert (HV : VIRT_BASE = 18446744071562067968) by done.
  assert (HK : KWIN = 102760448) by done.
  unfold Pg in *. rewrite !u64_small by lia.
  rewrite !(Z.add_comm p VIRT_BASE), <- !Z.add_assoc, !kphys_high by lia.
  rewrite s32_small by lia.
  set (m1 := wr8 _ _ _). set (m2 := wr64 m1 _ _). set (m3 := wr32 m2 _ _).
  assert (Hz : forall a, rd8 (memset m3 p 0 4096) a
    = if decide (p <= a < p + 4096) then 0 else rd8 m3 a) by (intros; apply rd8_memset).
  revert Hz. generalize (memset m3 p 0 4096). intros m4 Hz.
  eexists. split; [reflexivity|]. split_and!; kst_simpl.
  - constructor; unfold next_phys; kst_simpl.
    + rewrite (proj2 (Z.eqb_neq _ 0)) by done. unfold Pg, p. lia.
    + lia.
    + done.
  - done.
  - intros x Hx. rewrite <- (Hg1 x Hx). unfold alloc_globals in Hx.
    rewrite !not_elem_of_cons in Hx. destruct_and!.
    repeat first [rewrite gl_gput_ne by congruence | rewrite gl_with_mem]. done.
  - intros a Ha'. rewrite Hz, decide_True by lia. done.
  - intros a Ha1 Ha2. rewrite Hz, decide_False by lia. unfold m3, m2, m1.
    rewrite rd8_wr32_ne, rd8_wr64_ne, rd8_wr8_ne by lia. done.
Qed.

#[export] Instance page_source_boot pf `(Hpf : boot_memory pf) :
  PageSource (fun np s => exists k, 0 <= k /\ np = Pg (pf + 0x18000) k /\ alloc_at pf k s)
    (freelist_cells pf).
Proof.
  pose proof Hpf as (Ha & Hlo & Hhi). split.
  - intros np s (k & Hk & -> & _). split; [|unfold Pg; lia].
    apply Pg_aligned. rewrite Z.add_mod, Ha by lia. done.
  - intros np s a (k & Hk & -> & _) Hown. unfold freelist_cells, Pg in *. lia.
  - intros np s s' (k & Hk & -> & [Hn Hc Hf]) Hg. exists k. split; [done|]. split; [done|].
    unfold next_phys in *.
    constructor; unfold next_phys; rewrite !Hg; try done; unfold alloc_globals; set_solver.
  - intros np s (k & Hk & -> & Hat) Hw.
    destruct (page_alloc_step pf k s Hpf Hat Hk Hw) as (s' & -> & Hat' & Hr & Hg & Hz & Hfr).
    exists s'. split; [done|]. split; [|split; [done|split; [done|split; [done|]]]].
    + exists (k + 1). split; [lia|]. split; [unfold Pg; lia|done].
    + intros a Hown Hp. apply Hfr; [|done]. destruct Hat as [_ Hc _].
      unfold freelist_cells, KWIN, Pg in *. lia.
Qed.

(** ** Several pages *)

(** A sequence of [kmalloc] calls: the blocks returned and the final state. *)
Fixpoint kmallocs (s : kst) (szs : list Z) : list (Z * Z) * kst :=
  match szs with
  | [] => ([], s)
  | sz :: szs =>
      let '(p, s) := kmalloc s sz in
      let '(bs, s) := kmallocs s szs in
      ((p, sz) :: bs, s)
  end.

Definition disjoint_blocks (b1 b2 : Z * Z) : Prop :=
  b1.1 + b1.2 <= b2.1 \/ b2.1 + b2.2 <= b1.1.

(** The number of pages [kmalloc] takes. *)
Definition kmalloc_pages (sz : Z) : Z := (sz + 4095) / 4096.

Fixpoint total_pages (szs : list Z) : Z :=
  match szs with [] => 0 | sz :: szs => kmalloc_pages sz + total_pages szs end.

(** Where consecutive blocks lie when the next free page is at [np]. *)
Fixpoint layout (np : Z) (szs : list Z) : list (Z * Z) :=
  match szs with
  | [] => []
  | sz :: szs => (VIRT_BASE + np, sz) :: layout (np + 4096 * kmalloc_pages sz) szs
  end.

Lemma kmalloc_pages_bound sz : 0 < sz -> sz <= 4096 * kmalloc_pages sz.
Proof.
  unfold kmalloc_pages. pose proof (Z.div_mod (sz + 4095) 4096 ltac:(lia)).
  pose proof (Z.mod_pos_bound (sz + 4095) 4096 ltac:(lia)). lia.
Qed.

Lemma total_pages_pos szs : Forall (fun sz => 0 < sz < 2 ^ 32) szs -> 0 <= total_pages szs.
Proof.
  induction 1 as [|sz szs Hsz _ IH]; cbn [total_pages]; [lia|].
  pose proof (kmalloc_pages_bound sz). lia.
Qed.

Lemma layout_sizes szs np : (layout np szs).*2 = szs.
Proof. revert np. induction szs; intros np; simpl; [done|]. f_equal. auto. Qed.

Lemma layout_inside szs np hi :
  Forall (fun sz => 0 < sz < 2 ^ 32) szs -> np + 4096 * total_pages szs <= hi ->
  np mod 4096 = 0 ->
  Forall (fun '(p, sz) => exists pa, p = VIRT_BASE + pa /\ pa mod 4096 = 0
    /\ np <= pa /\ pa + sz <= hi) (layout np szs).
Proof.
  intros Hszs. revert np. induction Hszs as [|sz szs Hsz Hszs IH]; intros np Hhi Ha; [constructor|].
  cbn [layout total_pages] in *. pose proof (kmalloc_pages_bound sz).
  pose proof (total_pages_pos szs Hszs). constructor.
  - exists np. split_and!; lia || done.
  - eapply list.Forall_impl; [apply IH; [lia|]|].
    + rewrite Z.add_mod, Ha, (Z.mul_comm 4096), Z.mod_mul by lia. done.
    + intros [p sz'] (pa & ? & ? & ? & ?). exists pa. split_and!; lia || done.
Qed.

Lemma layout_disjoint szs np :
  Forall (fun sz => 0 < sz < 2 ^ 32) szs -> np mod 4096 = 0 ->
  ForallOrdPairs disjoint_blocks (layout np szs).
Proof.
  intros Hszs. revert np. induction Hszs as [|sz szs Hsz Hszs IH]; intros np Ha; [constructor|].
  cbn [layout]. pose proof (kmalloc_pages_bound sz).
  assert (Ha' : (np + 4096 * kmalloc_pages sz) mod 4096 = 0).
  { rewrite Z.add_mod, Ha, (Z.mul_comm 4096), Z.mod_mul by lia. done. }
  constructor; [|by apply IH].
  eapply list.Forall_impl; [apply (layout_inside szs _ _ Hszs (Z.le_refl _) Ha')|].
  intros [p sz'] (pa & -> & _ & ? & _). left. simpl. lia.
Qed.

Section client.
Context (ready : Z -> kst -> Prop) (own : Z -> Prop) `{HPS : !PageSource ready own}.

(** [n] more pages follow the last one. *)
Lemma page_alloc_loop_spec n np s :
  ready np s -> np + 4096 * Z.of_nat n <= KWIN ->
  exists s', page_alloc_loop n s = s' /\ ready (np + 4096 * Z.of_nat n) s'
    /\ cr3 s' = cr3 s /\ same_globals alloc_globals s s'
    /\ (forall a, np <= a < np + 4096 * Z.of_nat n -> rd8 (kmem s') a = 0)
    /\ (forall a, ~ own a -> ~ (np <= a < np + 4096 * Z.of_nat n) ->
          rd8 (kmem s') a = rd8 (kmem s) a).
Proof.
  revert np s. induction n as [|n IH]; intros np s Hr Hw; cbn [page_alloc_loop].
  - exists s. rewrite Z.mul_0_r, Z.add_0_r. split_and!; try done; lia.
  - destruct (ps_alloc np s Hr) as (s1 & -> & Hr1 & Hc1 & Hg1 & Hz1 & Hf1); [lia|].
    destruct (IH (np + 4096) s1 Hr1) as (s2 & <- & Hr2 & Hc2 & Hg2 & Hz2 & Hf2); [lia|].
    eexists. split; [done|]. pose proof (ps_own (np + 4096) s1).
    replace (np + 4096 * Z.of_nat (S n)) with (np + 4096 + 4096 * Z.of_nat n) by lia.
    split_and!; [done|congruence|eapply same_globals_trans; done|..].
    + intros a Ha. destruct (decide (np + 4096 <= a)); [apply Hz2; lia|].
      rewrite Hf2; [apply Hz1; lia| |lia].
      intros Ho. pose proof (ps_own _ _ _ Hr Ho). lia.
    + intros a Ho Ha. rewrite Hf2 by (done || lia). apply Hf1; [done|lia].
Qed.

Lemma kmalloc_pages_eq sz :
  0 < sz < 2 ^ 32 ->
  (if 0 <? u32 (sz mod PAGE_SIZE) then u32 (u32 (sz / PAGE_SIZE) + 1)
   else u32 (sz / PAGE_SIZE)) = kmalloc_pages sz
  /\ 0 < kmalloc_pages sz < 2 ^ 21.
Proof.
  intros Hsz. unfold kmalloc_pages, PAGE_SIZE.
  pose proof (Z.div_mod sz 4096 ltac:(lia)) as Hd.
  pose proof (Z.mod_pos_bound sz 4096 ltac:(lia)) as Hm.
  assert (0 <= sz / 4096 < 2 ^ 20).
  { split; [apply Z.div_pos; lia|]. apply Z.div_lt_upper_bound; lia. }
  rewrite (u32_small (sz mod 4096)), (u32_small (sz / 4096)), u32_small by lia.
  case Z.ltb_spec; intros Hlt.
  - rewrite <- (Z.div_unique (sz + 4095) 4096 (sz / 4096 + 1) (sz mod 4096 - 1)) by lia. lia.
  - rewrite <- (Z.div_unique (sz + 4095) 4096 (sz / 4096) 4095) by lia.
    split; [done|]. lia.
Qed.

Lemma kmalloc_spec sz np s :
  ready np s -> 0 < sz < 2 ^ 32 -> np + 4096 * kmalloc_pages sz <= KWIN ->
  exists s', kmalloc s sz = (VIRT_BASE + np, s')
    /\ ready (np + 4096 * kmalloc_pages sz) s'
    /\ cr3 s' = cr3 s /\ same_globals alloc_globals s s'
    /\ (forall a, np <= a < np + 4096 * kmalloc_pages sz -> rd8 (kmem s') a = 0)
    /\ (forall a, ~ own a -> ~ (np <= a < np + 4096 * kmalloc_pages sz) ->
          rd8 (kmem s') a = rd8 (kmem s) a).
Proof.
  intros Hr Hsz Hw. unfold kmalloc. destruct (kmalloc_pages_eq sz Hsz) as [-> Hn].
  set (n := kmalloc_pages sz) in *. clearbody n.
  destruct (ps_alloc np s Hr) as (s1 & -> & Hr1 & Hc1 & Hg1 & Hz1 & Hf1); [lia|].
  rewrite u32_small by lia.
  destruct (page_alloc_loop_spec (Z.to_nat (n - 1)) _ _ Hr1)
    as (s2 & -> & Hr2 & Hc2 & Hg2 & Hz2 & Hf2); [lia|].
  rewrite !Z2Nat.id in * by lia.
  replace (np + 4096 + 4096 * (n - 1)) with (np + 4096 * n) in * by lia.
  exists s2. split_and!; [done|done|congruence|eapply same_globals_trans; done|..].
  - intros a Ha. destruct (decide (np + 4096 <= a)); [apply Hz2; lia|].
    rewrite Hf2; [apply Hz1; lia| |lia].
    intros Ho. pose proof (ps_own _ _ _ Hr Ho). lia.
  - intros a Ho Ha. rewrite Hf2 by (done || lia). apply Hf1; [done|lia].
Qed.

Lemma kmallocs_spec szs np s :
  ready np s -> Forall (fun sz => 0 < sz < 2 ^ 32) szs ->
  np + 4096 * total_pages szs <= KWIN ->
  exists s', kmallocs s szs = (layout np szs, s')
    /\ ready (np + 4096 * total_pages szs) s'
    /\ cr3 s' = cr3 s /\ same_globals alloc_globals s s'
    /\ (forall a, np <= a < np + 4096 * total_pages szs -> rd8 (kmem s') a = 0)
    /\ (forall a, ~ own a -> ~ (np <= a < np + 4096 * total_pages szs) ->
          rd8 (kmem s') a = rd8 (kmem s) a).
Proof.
  revert np s. induction szs as [|sz szs IH]; intros np s Hr Hsz Hw;
    cbn [kmallocs layout total_pages] in *.
  - exists s. rewrite Z.mul_0_r, Z.add_0_r. split_and!; try done; lia.
  - apply Forall_cons_1 in Hsz as [Hsz Hszs].
    destruct (kmalloc_pages_eq sz Hsz) as [_ Hn]. pose proof (total_pages_pos szs Hszs).
    destruct (kmalloc_spec sz np s Hr Hsz) as (s1 & -> & Hr1 & Hc1 & Hg1 & Hz1 & Hf1); [lia|].
    destruct (IH _ _ Hr1 Hszs) as (s2 & -> & Hr2 & Hc2 & Hg2 & Hz2 & Hf2); [lia|].
    set (n := kmalloc_pages sz) in *. clearbody n. set (t := total_pages szs) in *. clearbody t.
    replace (np + 4096 * n + 4096 * t) with (np + 4096 * (n + t)) in * by lia.
    exists s2. split_and!; [done|done|congruence|eapply same_globals_trans; done|..].
    + intros a Ha. destruct (decide (np + 4096 * n <= a)); [apply Hz2; lia|].
      rewrite Hf2; [apply Hz1; lia| |lia].
      intros Ho. pose proof (ps_own _ _ _ Hr Ho). lia.
    + intros a Ho Ha. rewrite Hf2 by (done || lia). apply Hf1; [done|lia].
Qed.
End client.

Definition boot_ready (pf np : Z) (s : kst) : Prop :=
  exists k, 0 <= k /\ np = Pg (pf + 0x18000) k /\ alloc_at pf k s.

Lemma boot_ready_99 m pf c0 :
  boot_memory pf ->
  exists s, set_free_list (boot_state m 0x200000 pf c0) = Some s /\ after_boot m pf s
    /\ boot_ready pf (pf + 0x18000 + 4096 * 99) s.
Proof.
  intros Hpf. destruct (set_free_list_spec m pf c0 Hpf) as (s & Hs & Hab).
  exists s. split; [exact Hs|]. split; [exact Hab|]. exists 99. split; [lia|].
  split; [reflexivity|]. by eapply after_boot_alloc.
Qed.

(** The kernel mapping survives as long as its tables do: the last entry of the
    PML4 and the pages behind it. *)
Lemma after_boot_walk_upper m pf s s' pa :
  boot_memory pf -> after_boot m pf s -> cr3 s' = cr3 s ->
  (forall a, pf + 0x18000 + 4088 <= a < pf + 0x18000 + 4096 * 99 ->
     rd8 (kmem s') a = rd8 (kmem s) a) ->
  0 <= pa < KWIN -> walk (kmem s') (cr3 s') (VIRT_BASE + pa) = Some (mk_tr pa true false).
Proof.
  intros (Ha & Hlo & Hhi) Hab Hc Hf Hpa. rewrite Hc, (ab_cr3 _ _ _ Hab).
  apply mapped_walk; try lia; [rewrite Z.add_mod, Ha by lia; done|..|unfold KWIN in *; lia].
  eapply mapped_frame, (ab_mapped _ _ _ Hab); try lia.
  intros a Hra. apply Hf. unfold Pg in *. lia.
Qed.

(** C9: after boot, any sequence of [kmalloc] calls whose pages fit below 98 MiB
    returns blocks that do not overlap, each page aligned, filled with zeros and
    mapped by the page tables to its own physical bytes; no call overwrites the
    tables. *)
Theorem kmalloc_blocks_fresh m pf c0 (szs : list Z) :
  boot_memory pf -> Forall (fun sz => 0 < sz < 2 ^ 32) szs ->
  pf + 0x18000 + 4096 * (99 + total_pages szs) <= KWIN ->
  exists s0 bs s, set_free_list (boot_state m 0x200000 pf c0) = Some s0
    /\ kmallocs s0 szs = (bs, s) /\ bs.*2 = szs
    /\ ForallOrdPairs disjoint_blocks bs
    /\ Forall (fun '(p, sz) => p mod 4096 = 0 /\
         forall i, 0 <= i < sz ->
           rd8 (kmem s) (kphys (p + i)) = 0 /\
           walk (kmem s) (cr3 s) (p + i) = Some (mk_tr (kphys (p + i)) true false)) bs.
Proof.
  intros Hpf Hsz Hw. destruct (boot_ready_99 m pf c0 Hpf) as (s0 & Hs0 & Hab & Hrd).
  pose proof (page_source_boot pf Hpf) as HPS.
  destruct (kmallocs_spec _ _ szs _ s0 Hrd Hsz) as (s & Hk & _ & Hc & _ & Hz & Hf); [lia|].
  set (np := pf + 0x18000 + 4096 * 99) in *. pose proof Hpf as Hbm. destruct Hpf as (Ha & Hlo & Hhi).
  assert (Hnp : np mod 4096 = 0).
  { unfold np. rewrite Z.add_mod, (Z.add_mod pf), Ha by lia. done. }
  exists s0, (layout np szs), s. split; [done|]. split; [done|]. split; [apply layout_sizes|].
  split; [apply layout_disjoint; done|].
  eapply list.Forall_impl; [apply (layout_inside szs np (np + 4096 * total_pages szs));
    [done|lia|done]|].
  intros [p sz] (pa & -> & Hal & Hpa & Hsz0). split.
  - rewrite Z.add_mod, Hal by lia. done.
  - intros i Hi. rewrite <- Z.add_assoc, kphys_high by lia. split; [apply Hz; lia|].
    apply (after_boot_walk_upper m pf s0); [exact Hbm|exact Hab|exact Hc| |lia].
    intros a Hra. apply Hf; [unfold freelist_cells; lia|lia].
Qed.

Lemma kmalloc_blocks_fresh_witness :
  (boot_memory 0x400000 /\ Forall (fun sz => 0 < sz < 2 ^ 32) [4400; 281600; 72]
   /\ 0x400000 + 0x18000 + 4096 * (99 + total_pages [4400; 281600; 72]) <= KWIN) /\
  exists s0 bs s, set_free_list (boot_state ∅ 0x200000 0x400000 0) = Some s0
    /\ kmallocs s0 [4400; 281600; 72] = (bs, s) /\ bs.*2 = [4400; 281600; 72]
    /\ ForallOrdPairs disjoint_blocks bs
    /\ Forall (fun '(p, sz) => p mod 4096 = 0 /\
         forall i, 0 <= i < sz ->
           rd8 (kmem s) (kphys (p + i)) = 0 /\
           walk (kmem s) (cr3 s) (p + i) = Some (mk_tr (kphys (p + i)) true false)) bs.
Proof.
  assert (H1 : boot_memory 0x400000) by (unfold boot_memory; split; [reflexivity|lia]).
  assert (H2 : Forall (fun sz => 0 < sz < 2 ^ 32) [4400; 281600; 72])
    by (apply (bool_decide_unpack _); vm_compute; exact I).
  assert (H3 : 0x400000 + 0x18000 + 4096 * (99 + total_pages [4400; 281600; 72]) <= KWIN)
    by (vm_compute; discriminate).
  split; [split; [exact H1|split; [exact H2|exact H3]]|].
  apply (kmalloc_blocks_fresh ∅ 0x400000 0 [4400; 281600; 72] H1 H2 H3).
Defined.
