(* ===== verification/Utils.v ===== *)
(** * Number conversion and rounding

    [sys/k_utils.c] ([itoa], [stoi], [power], [oct2dec]) and the rounding macros
    of [include/utils.h].  The file system reads the octal size field of an
    archive header through [oct2dec(stoi(field))]. *)

From stdpp Require Import base gmap list numbers.
From Stdlib Require Import ZArith Lia.
From Stdlib Require Ascii String.
From S2P Require Import Prelude KLib.
Import (notations) String.

(** ** Rounding macros *)

Definition ROUNDDOWN (a n : Z) : Z := let __a := u64 a in u64 (__a - __a mod n).
Definition ROUNDUP (a n : Z) : Z := let __n := u64 n in ROUNDDOWN (u64 (a + __n - 1)) __n.

(** [x & ~(PAGE_SIZE - 1)] on a 64-bit [x]. *)
Definition ALIGN_DOWN (x : Z) : Z := Z.land (u64 x) (2 ^ 64 - 4096).

(** ** Conversions *)

(** The characters of [itoa]'s digit table, indexed by [35 + digit]. *)
Definition itoa_table : list Z :=
  (fun c => Z.of_N (Ascii.N_of_ascii c)) <$> String.list_ascii_of_string
    "zyxwvutsrqponmlkjihgfedcba9876543210123456789abcdefghijklmnopqrstuvwxyz"%string.

Definition itoa_digit (d : Z) : Z := default 0 (itoa_table !! Z.to_nat (35 + d)).

(** The [do ... while (value)] loop; [None] when the fuel is too small. *)
Fixpoint itoa_loop (fuel : nat) (m : mem) (ptr value base : Z) : option (mem * Z) :=
  match fuel with
  | O => None
  | S f =>
      let m := wr8 m ptr (itoa_digit (Z.rem value base)) in
      let ptr := ptr + 1 in
      let value := Z.quot value base in
      if value =? 0 then Some (m, ptr) else itoa_loop f m ptr value base
  end.

(** The loop that inverts the digits. *)
Fixpoint itoa_rev (fuel : nat) (m : mem) (low ptr : Z) : option mem :=
  match fuel with
  | O => None
  | S f =>
      if low <? ptr then
        let tmp := rd8 m low in
        let m := wr8 m low (rd8 m ptr) in
        let m := wr8 m ptr tmp in
        itoa_rev f m (low + 1) (ptr - 1)
      else Some m
  end.

(** An [int] has at most 32 digits in any base, so 32 rounds of the first loop
    and 17 of the second are enough. *)
Definition itoa (m : mem) (value str base : Z) : option (Z * mem) :=
  if (base <? 2) || (36 <? base) then Some (str, wr8 m str 0)
  else
    let '(m, ptr) := if (value <? 0) && (base =? 10) then (wr8 m str 45, str + 1) else (m, str) in
    let low := ptr in
    match itoa_loop 32 m ptr value base with
    | None => None
    | Some (m, ptr) =>
        let m := wr8 m ptr 0 in
        match itoa_rev 17 m low (ptr - 1) with
        | None => None
        | Some m => Some (str, m)
        end
    end.

(** [j] runs to 12 at most. *)
Fixpoint stoi_loop (n : nat) (m : mem) (str i : Z) : Z :=
  match n with
  | O => i
  | S n' =>
      let c := rd8 m str in
      if (48 <=? c) && (c <=? 57) then stoi_loop n' m (str + 1) (u64 (u64 (i * 10) + (c - 48)))
      else i
  end.

Definition stoi (m : mem) (str : Z) : Z := stoi_loop 12 m str 0.

(** [pow] counts down to zero. *)
Fixpoint power (base : Z) (pow : nat) : Z :=
  match pow with
  | O => 1
  | S pow => u64 (base * power base pow)
  end.

Fixpoint oct_loop (fuel : nat) (oct dec : Z) (pow : nat) : option Z :=
  if oct =? 0 then Some dec
  else
    match fuel with
    | O => None
    | S f => oct_loop f (oct / 10) (u64 (dec + u64 (oct mod 10 * power 8 pow))) (S pow)
    end.

(** A 64-bit number has at most 20 decimal digits. *)
Definition oct2dec (oct : Z) : option Z := oct_loop 20 oct 0 0.

(** ** Rounding *)

Lemma ROUNDDOWN_eq a n : 0 <= a < 2 ^ 64 -> 0 < n -> ROUNDDOWN a n = a - a mod n.
Proof.
  intros Ha Hn. unfold ROUNDDOWN. rewrite (u64_small a) by lia.
  pose proof (Z.mod_pos_bound a n Hn). pose proof (Z.mod_le a n).
  apply u64_small. lia.
Qed.

Lemma ROUNDUP_eq a n :
  0 <= a -> 0 < n < 2 ^ 64 -> a + n - 1 < 2 ^ 64 -> ROUNDUP a n = (a + n - 1) / n * n.
Proof.
  intros Ha Hn Hb. unfold ROUNDUP. rewrite (u64_small n), u64_small by lia.
  rewrite ROUNDDOWN_eq by lia. rewrite Z.mod_eq by lia. ring.
Qed.

(** ** Digits *)

(** Digits of [n] in base [b], least significant first; at least one digit. *)
Fixpoint digits (fuel : nat) (n b : Z) : list Z :=
  match fuel with
  | O => []
  | S f => n mod b :: if n / b =? 0 then [] else digits f (n / b) b
  end.

(** The number that a most-significant-first digit list denotes. *)
Definition of_digits (b : Z) (ds : list Z) : Z := fold_left (fun a d => b * a + d) ds 0.

Definition digit_char (d : Z) : Z := if d <? 10 then 48 + d else 87 + d.

Lemma of_digits_snoc b ds d : of_digits b (ds ++ [d]) = b * of_digits b ds + d.
Proof. unfold of_digits. rewrite fold_left_app. done. Qed.

Lemma digits_enough f n b :
  2 <= b -> 0 <= n < b ^ Z.of_nat (S f) -> n / b < b ^ Z.of_nat f.
Proof.
  intros Hb Hn. apply Z.div_lt_upper_bound; [lia|].
  rewrite Nat2Z.inj_succ, Z.pow_succ_r in Hn by lia. lia.
Qed.

Lemma of_digits_digits fuel n b :
  2 <= b -> 0 <= n < b ^ Z.of_nat fuel -> of_digits b (reverse (digits fuel n b)) = n.
Proof.
  intros Hb. revert n. induction fuel as [|f IH]; intros n Hn.
  - simpl in Hn. change (b ^ Z.of_nat 0) with 1 in Hn. simpl. unfold of_digits. simpl. lia.
  - cbn [digits]. rewrite reverse_cons, of_digits_snoc.
    pose proof (Z.div_mod n b ltac:(lia)). pose proof (Z.div_pos n b).
    pose proof (digits_enough f n b Hb Hn).
    case Z.eqb_spec; intros Hq; [unfold of_digits; simpl; lia|]. rewrite IH by lia. lia.
Qed.

Lemma digits_range fuel n b :
  2 <= b -> Forall (fun d => 0 <= d < b) (digits fuel n b).
Proof.
  intros Hb. revert n. induction fuel as [|f IH]; intros n; cbn [digits]; constructor.
  - apply Z.mod_pos_bound. lia.
  - case Z.eqb; [constructor|apply IH].
Qed.

Lemma itoa_digit_char d :
  -36 < d < 36 -> itoa_digit d = digit_char (Z.abs d) /\ 48 <= digit_char (Z.abs d) <= 122.
Proof.
  intros Hd. split.
  - assert (H : forallb (fun d => itoa_digit d =? digit_char (Z.abs d)) (seqZ (-35) 71) = true)
      by (vm_compute; reflexivity).
    rewrite forallb_forall in H. apply Z.eqb_eq, H, list_elem_of_In, elem_of_seqZ. lia.
  - unfold digit_char. case Z.ltb_spec; lia.
Qed.

Lemma rem_quot_neg v b :
  0 < b -> Z.rem v b = Z.sgn v * (Z.abs v mod b) /\ Z.quot v b = Z.sgn v * (Z.abs v / b).
Proof.
  intros Hb. destruct (Z.lt_trichotomy v 0) as [Hv|[->|Hv]].
  - remember (- v) as n eqn:Hn. replace v with (- n) by lia.
    rewrite Z.rem_opp_l, Z.quot_opp_l, Z.rem_mod_nonneg, Z.quot_div_nonneg by lia.
    rewrite Z.sgn_neg, Z.abs_opp, Z.abs_eq by lia. lia.
  - rewrite Z.rem_0_l, Z.quot_0_l by lia. done.
  - rewrite Z.abs_eq, Z.sgn_pos, Z.rem_mod_nonneg, Z.quot_div_nonneg by lia. lia.
Qed.

(** ** [itoa] *)

(** The bytes [l] lie at [p]. *)
Definition seg (m : mem) (p : Z) (l : list Z) : Prop :=
  forall i c, l !! i = Some c -> rd8 m (p + Z.of_nat i) = c.

Lemma seg_cons m p c l : seg m p (c :: l) <-> rd8 m p = c /\ seg m (p + 1) l.
Proof.
  split.
  - intros H. split.
    + specialize (H 0%nat c eq_refl). by rewrite Z.add_0_r in H.
    + intros i d Hi. rewrite <- (H (S i) d Hi). f_equal. lia.
  - intros [H0 H] [|i] d Hi; simpl in Hi.
    + injection Hi as <-. by rewrite Z.add_0_r.
    + rewrite <- (H i d Hi). f_equal. lia.
Qed.

Lemma seg_app m p l1 l2 : seg m p (l1 ++ l2) <-> seg m p l1 /\ seg m (p + slen l1) l2.
Proof.
  revert p. induction l1 as [|c l1 IH]; intros p; simpl.
  - rewrite Z.add_0_r. split; [|tauto]. intros H. split; [|done]. intros i d Hi. done.
  - rewrite !seg_cons, IH. replace (p + 1 + slen l1) with (p + Z.of_nat (S (length l1))) by lia.
    tauto.
Qed.

Lemma seg_ext m m' p l :
  (forall a, p <= a < p + slen l -> rd8 m' a = rd8 m a) -> seg m p l -> seg m' p l.
Proof.
  intros Hf H i c Hi. rewrite Hf; [auto|]. apply lookup_lt_Some in Hi. lia.
Qed.

Lemma digits_length fuel n b : (length (digits fuel n b) <= fuel)%nat.
Proof.
  revert n. induction fuel as [|f IH]; intros n; cbn [digits length]; [lia|].
  case Z.eqb; simpl; [lia|]. specialize (IH (n / b)). lia.
Qed.

(** More fuel than digits changes nothing. *)
Lemma digits_fuel f1 f2 n b :
  2 <= b -> 0 <= n < b ^ Z.of_nat f2 -> (0 < f2 <= f1)%nat -> digits f1 n b = digits f2 n b.
Proof.
  intros Hb. revert f1 n. induction f2 as [|f2 IH]; intros [|f1] n Hn Hf; try lia.
  cbn [digits]. f_equal. case Z.eqb_spec; intros Hz; [done|].
  pose proof (digits_enough f2 n b Hb Hn). pose proof (Z.div_pos n b).
  apply IH; [lia|]. destruct f2; [|lia]. change (b ^ Z.of_nat 0) with 1 in *. lia.
Qed.

Lemma itoa_loop_spec fuel m p v b :
  2 <= b <= 36 -> Z.abs v < b ^ Z.of_nat fuel -> (0 < fuel)%nat ->
  exists m', itoa_loop fuel m p v b = Some (m', p + slen (digits fuel (Z.abs v) b))
    /\ seg m' p (digit_char <$> digits fuel (Z.abs v) b)
    /\ forall a, a < p \/ p + slen (digits fuel (Z.abs v) b) <= a -> rd8 m' a = rd8 m a.
Proof.
  intros Hb. revert m p v. induction fuel as [|f IH]; intros m p v Hv Hf; [lia|].
  destruct (rem_quot_neg v b) as [Hr Hq]; [lia|]. cbn [itoa_loop]. cbv zeta.
  pose proof (Z.mod_pos_bound (Z.abs v) b ltac:(lia)) as Hm.
  destruct (itoa_digit_char (Z.rem v b)) as [Hd Hc]; [rewrite Hr; nia|].
  rewrite Hd. assert (Habs : Z.abs (Z.rem v b) = Z.abs v mod b).
  { rewrite Hr. destruct (Z.lt_trichotomy v 0) as [?|[->|?]]; [|done|];
      [rewrite Z.sgn_neg by lia|rewrite Z.sgn_pos by lia]; lia. }
  rewrite Habs in *. set (d := Z.abs v mod b) in *. rewrite Hq. cbn [digits]. fold d.
  assert (Habq : Z.abs (Z.sgn v * (Z.abs v / b)) = Z.abs v / b
    /\ (Z.sgn v * (Z.abs v / b) = 0 <-> Z.abs v / b = 0)).
  { pose proof (Z.div_pos (Z.abs v) b). destruct (Z.lt_trichotomy v 0) as [?|[->|?]]; [|done|];
      [rewrite Z.sgn_neg by lia|rewrite Z.sgn_pos by lia]; lia. }
  destruct Habq as [Habq Hz0].
  set (m1 := wr8 m p (digit_char d)).
  assert (H1 : rd8 m1 p = digit_char d)
    by (unfold m1; rewrite rd8_wr8_eq; apply Z.mod_small; lia).
  destruct (Z.eqb_spec (Z.abs v / b) 0) as [Hz|Hz].
  - rewrite (proj2 (Z.eqb_eq _ 0)) by tauto. exists m1. split; [done|]. split.
    + cbn [fmap list_fmap]. apply seg_cons. split; [done|]. intros i c Hi. done.
    + intros a Ha. simpl in Ha. apply rd8_wr8_ne. lia.
  - rewrite (proj2 (Z.eqb_neq _ 0)) by tauto.
    assert (Hlt : Z.abs v / b < b ^ Z.of_nat f) by (apply digits_enough; lia).
    destruct (IH m1 (p + 1) (Z.sgn v * (Z.abs v / b))) as (m' & -> & Hs & Hfr);
      rewrite ?Habq; [done| |].
    { destruct f; [|lia]. change (b ^ Z.of_nat 0) with 1 in Hlt.
      pose proof (Z.div_pos (Z.abs v) b). lia. }
    rewrite Habq in *. exists m'. cbn [length]. split; [do 2 f_equal; lia|]. split.
    + cbn [fmap list_fmap]. apply seg_cons. split; [|done]. rewrite Hfr by lia. done.
    + intros a Ha. rewrite Hfr by lia. apply rd8_wr8_ne. lia.
Qed.

Lemma itoa_rev_spec fuel m p l :
  seg m p l -> (length l < 2 * fuel)%nat -> Forall (fun c => 0 <= c < 256) l ->
  exists m', itoa_rev fuel m p (p + slen l - 1) = Some m'
    /\ seg m' p (reverse l)
    /\ forall a, a < p \/ p + slen l <= a -> rd8 m' a = rd8 m a.
Proof.
  revert m p l. induction fuel as [|f IH]; intros m p l Hs Hl Hc; [lia|]. cbn [itoa_rev].
  destruct l as [|c l]; [|destruct l as [|e l _] using rev_ind].
  - rewrite (proj2 (Z.ltb_ge _ _)) by (simpl; lia). exists m. done.
  - rewrite (proj2 (Z.ltb_ge _ _)) by (simpl; lia). exists m. done.
  - rewrite (proj2 (Z.ltb_lt _ _)) by (rewrite length_cons, length_app; simpl; lia).
    rewrite length_cons, length_app in *. simpl length in *.
    replace (p + Z.of_nat (S (length l + 1)) - 1) with (p + 1 + slen l) by lia.
    apply seg_cons in Hs as [H0 Hs]. apply seg_app in Hs as [Hs He].
    apply seg_cons in He as [He _]. rewrite H0, He.
    apply Forall_cons_1 in Hc as [Hc0 Hc]. apply Forall_app in Hc as [Hc He0].
    apply Forall_cons_1 in He0 as [He0 _].
    set (m1 := wr8 (wr8 m p e) (p + 1 + slen l) c).
    destruct (IH m1 (p + 1) l) as (m' & Hr & Hs' & Hf); [|lia|done|].
    { eapply seg_ext, Hs. intros a Ha. unfold m1. rewrite !rd8_wr8_ne by lia. done. }
    replace (p + 1 + slen l - 1) with (p + 1 + slen l - 1) in Hr by lia.
    exists m'. split; [done|]. rewrite reverse_cons, reverse_snoc. split.
    + cbn [app]. apply seg_cons. split.
      * rewrite Hf by lia. unfold m1. rewrite rd8_wr8_ne, rd8_wr8_eq by lia.
        apply Z.mod_small. lia.
      * apply seg_app. split; [done|]. rewrite length_reverse. apply seg_cons.
        split; [|intros i d Hi; done]. rewrite Hf by lia. unfold m1.
        rewrite rd8_wr8_eq. apply Z.mod_small. lia.
    + intros a Ha. rewrite Hf by lia. unfold m1. rewrite !rd8_wr8_ne by lia. done.
Qed.

(** The sign that [itoa] writes. *)
Definition itoa_sign (value base : Z) : list Z :=
  if (value <? 0) && (base =? 10) then [45] else [].

Lemma digit_chars_bytes b ds :
  b <= 36 -> Forall (fun d => 0 <= d < b) ds ->
  Forall (fun c => 0 <= c < 256 /\ c <> 0) (digit_char <$> ds).
Proof.
  intros Hb Hds. apply Forall_fmap. eapply list.Forall_impl; [exact Hds|].
  intros d Hd. unfold compose, digit_char. cbn beta in Hd |- *; case Z.ltb_spec; lia.
Qed.

Lemma seg_cstr m p l :
  seg m p l -> Forall (fun c => 0 <= c < 256 /\ c <> 0) l -> rd8 m (p + slen l) = 0 ->
  cstr m p l.
Proof.
  intros Hs Hl He. apply cstr_intro; [|done]. intros i c Hi. split; [by apply Hs|].
  rewrite Forall_lookup in Hl. apply (Hl i c Hi).
Qed.

Lemma itoa_spec m str v b :
  - 2 ^ 31 <= v < 2 ^ 31 -> 2 <= b <= 36 ->
  let ds := reverse (digits 32 (Z.abs v) b) in
  let s := itoa_sign v b ++ (digit_char <$> ds) in
  exists m', itoa m v str b = Some (str, m') /\ cstr m' str s
    /\ forall a, a < str \/ str + slen s < a -> rd8 m' a = rd8 m a.
Proof.
  intros Hv Hb ds s. unfold itoa.
  rewrite (proj2 (Z.ltb_ge b 2)), (proj2 (Z.ltb_ge 36 b)) by lia. cbn [orb].
  set (sg := itoa_sign v b) in *.
  assert (Hsg : exists m0, (if (v <? 0) && (b =? 10) then (wr8 m str 45, str + 1) else (m, str))
      = (m0, str + slen sg) /\ seg m0 str sg
      /\ (forall a, a < str \/ str + slen sg <= a -> rd8 m0 a = rd8 m a)
      /\ Forall (fun c => 0 <= c < 256 /\ c <> 0) sg).
  { unfold sg, itoa_sign. destruct ((v <? 0) && (b =? 10)).
    - exists (wr8 m str 45). split_and!; [done| | |by repeat constructor].
      + apply seg_cons. split; [by rewrite rd8_wr8_eq|]. intros i c Hi. done.
      + intros a Ha. simpl in Ha. apply rd8_wr8_ne. lia.
    - exists m. rewrite Z.add_0_r. split_and!; [done| |done|constructor].
      intros i c Hi. done. }
  destruct Hsg as (m0 & -> & Hs0 & Hf0 & Hb0).
  set (n := Z.abs v) in *. set (L := slen (digits 32 n b)).
  destruct (itoa_loop_spec 32 m0 (str + slen sg) v b Hb) as (m1 & -> & Hs1 & Hf1); [|lia|].
  { fold n. apply Z.le_lt_trans with (2 ^ 31); [lia|].
    apply Z.lt_le_trans with (2 ^ Z.of_nat 32); [lia|]. apply Z.pow_le_mono_l. lia. }
  fold n in Hs1, Hf1 |- *. fold L in Hf1 |- *. set (m2 := wr8 m1 (str + slen sg + L) 0).
  pose proof (digits_range 32 n b ltac:(lia)) as Hdr.
  pose proof (digit_chars_bytes b _ ltac:(lia) Hdr) as Hcb.
  destruct (itoa_rev_spec 17 m2 (str + slen sg) (digit_char <$> digits 32 n b))
    as (m3 & Hr & Hs3 & Hf3).
  { eapply seg_ext, Hs1. rewrite length_fmap. fold L. intros a Ha.
    apply rd8_wr8_ne. lia. }
  { rewrite length_fmap. pose proof (digits_length 32 n b). lia. }
  { eapply list.Forall_impl; [exact Hcb|]. intros c Hc. simpl in Hc. lia. }
  rewrite length_fmap in Hr, Hf3. fold L in Hr, Hf3. rewrite Hr. exists m3. split; [done|].
  assert (Hls : slen s = slen sg + L).
  { unfold s, ds. rewrite length_app, length_fmap, length_reverse. unfold L. lia. }
  split.
  - apply seg_cstr.
    + unfold s. apply seg_app. split.
      * eapply seg_ext, Hs0. intros a Ha. rewrite Hf3 by lia. unfold m2.
        rewrite rd8_wr8_ne by lia. apply Hf1. lia.
      * unfold ds. rewrite fmap_reverse. done.
    + unfold s, ds. rewrite fmap_reverse. apply Forall_app. split; [done|].
      apply Forall_reverse. done.
    + rewrite Hls, Hf3, Z.add_assoc by lia. unfold m2. rewrite rd8_wr8_eq. done.
  - intros a Ha. rewrite Hf3 by lia. unfold m2. rewrite rd8_wr8_ne by lia.
    rewrite Hf1 by lia. apply Hf0. lia.
Qed.

(** ** [stoi] and [oct2dec] *)

Definition dec_chars (ds : list Z) : list Z := (fun d => 48 + d) <$> ds.

Lemma stoi_loop_spec n m p ds i :
  seg m p (dec_chars ds) -> Forall (fun d => 0 <= d < 10) ds -> (length ds <= n)%nat ->
  (length ds = n \/ ~ (48 <= rd8 m (p + slen ds) <= 57)) ->
  0 <= i -> (i + 1) * 10 ^ slen ds < 2 ^ 64 ->
  stoi_loop n m p i = fold_left (fun a d => 10 * a + d) ds i.
Proof.
  revert p ds i. induction n as [|n IH]; intros p [|d ds] i Hs Hds Hn He Hi Hb;
    cbn [stoi_loop fold_left]; [done|simpl in Hn; lia|..].
  - destruct He as [He|He]; [done|]. simpl in He. rewrite Z.add_0_r in He.
    destruct (Z.leb_spec 48 (rd8 m p)), (Z.leb_spec (rd8 m p) 57); simpl; lia.
  - apply seg_cons in Hs as [H0 Hs]. apply Forall_cons_1 in Hds as [Hd Hds]. rewrite H0.
    rewrite (proj2 (Z.leb_le _ _)), (proj2 (Z.leb_le _ _)) by lia. cbn [andb].
    simpl length in *. rewrite Nat2Z.inj_succ, Z.pow_succ_r in Hb by lia.
    pose proof (Z.pow_pos_nonneg 10 (slen ds) ltac:(lia) ltac:(lia)).
    rewrite (u64_small (i * 10)), u64_small by nia.
    replace (i * 10 + (48 + d - 48)) with (10 * i + d) by lia.
    apply IH; [done|done|lia| |lia|nia].
    destruct He as [He|He]; [left; lia|right].
    replace (p + 1 + slen ds) with (p + Z.of_nat (S (length ds))) by lia. done.
Qed.

Lemma stoi_spec m p ds :
  seg m p (dec_chars ds) -> Forall (fun d => 0 <= d < 10) ds -> (length ds <= 12)%nat ->
  length ds = 12%nat \/ ~ (48 <= rd8 m (p + slen ds) <= 57) ->
  stoi m p = of_digits 10 ds.
Proof.
  intros Hs Hds Hn He. apply stoi_loop_spec; try done.
  assert (10 ^ slen ds <= 10 ^ 12) by (apply Z.pow_le_mono_r; lia). lia.
Qed.

Lemma power_eq b n : 0 <= b -> b ^ Z.of_nat n < 2 ^ 64 -> power b n = b ^ Z.of_nat n.
Proof.
  intros Hb. induction n as [|n IH]; intros Hn; [done|]. cbn [power].
  rewrite Nat2Z.inj_succ, Z.pow_succ_r in * by lia.
  destruct (decide (b = 0)) as [->|Hb0]; [rewrite Z.mul_0_l; done|].
  pose proof (Z.pow_pos_nonneg b (Z.of_nat n) ltac:(lia) ltac:(lia)).
  rewrite IH by nia. apply u64_small. nia.
Qed.

Lemma of_digits_bound b ds :
  2 <= b -> Forall (fun d => 0 <= d < b) ds -> 0 <= of_digits b ds < b ^ slen ds.
Proof.
  intros Hb. induction ds as [|d ds IH] using rev_ind; intros Hds.
  - change (b ^ slen []) with 1. unfold of_digits. simpl. lia.
  - apply Forall_app in Hds as [Hds Hd]. apply Forall_cons_1 in Hd as [Hd _].
    rewrite of_digits_snoc, length_app. simpl length.
    replace (Z.of_nat (length ds + 1)) with (Z.succ (slen ds)) by lia.
    rewrite Z.pow_succ_r by lia. specialize (IH Hds). nia.
Qed.

Lemma of_digits_zero b ds :
  2 <= b -> Forall (fun d => 0 <= d) ds -> of_digits b ds = 0 -> Forall (eq 0) ds.
Proof.
  intros Hb. induction ds as [|d ds IH] using rev_ind; intros Hds Hz; [constructor|].
  apply Forall_app in Hds as [Hds Hd]. apply Forall_cons_1 in Hd as [Hd _].
  rewrite of_digits_snoc in Hz.
  assert (0 <= of_digits b ds).
  { clear -Hb Hds. induction ds as [|d ds IH] using rev_ind; [done|].
    apply Forall_app in Hds as [Hds Hd]. apply Forall_cons_1 in Hd as [Hd _].
    rewrite of_digits_snoc. specialize (IH Hds). nia. }
  apply Forall_app. split; [apply IH; [done|nia]|]. constructor; [nia|constructor].
Qed.

Lemma of_digits_all_zero b ds : Forall (eq 0) ds -> of_digits b ds = 0.
Proof.
  induction ds as [|d ds IH] using rev_ind; intros Hds; [done|].
  apply Forall_app in Hds as [Hds Hd]. apply Forall_cons_1 in Hd as [Hd _].
  rewrite of_digits_snoc, IH by done. lia.
Qed.

Lemma oct_loop_spec fuel ds dec pow :
  Forall (fun d => 0 <= d < 8) ds -> (length ds <= fuel)%nat -> 0 <= dec < 8 ^ Z.of_nat pow ->
  (length ds + pow <= 21)%nat ->
  oct_loop fuel (of_digits 10 ds) dec pow = Some (dec + 8 ^ Z.of_nat pow * of_digits 8 ds).
Proof.
  revert fuel dec pow. induction ds as [|d ds IH] using rev_ind; intros fuel dec pow Hds Hf Hd Hp.
  - destruct fuel; simpl; rewrite Z.mul_0_r, Z.add_0_r; done.
  - pose proof Hds as Hall.
    apply Forall_app in Hds as [Hds Hd']. apply Forall_cons_1 in Hd' as [Hd' _].
    rewrite length_app in *. simpl length in *.
    assert (Hz : of_digits 10 (ds ++ [d]) = 0 -> of_digits 8 (ds ++ [d]) = 0).
    { intros Hz. apply of_digits_all_zero, (of_digits_zero 10); [lia| |done].
      eapply list.Forall_impl; [exact Hall|]. simpl. lia. }
    destruct fuel as [|f]; [lia|]. cbn [oct_loop].
    case Z.eqb_spec; intros He; [rewrite Hz by done; f_equal; lia|].
    rewrite !of_digits_snoc.
    replace (10 * of_digits 10 ds + d) with (d + of_digits 10 ds * 10) by lia.
    rewrite Z.mod_add, Z.div_add, (Z.mod_small d), (Z.div_small d) by lia.
    assert (H8 : 8 ^ Z.of_nat pow <= 8 ^ 20) by (apply Z.pow_le_mono_r; lia).
    rewrite power_eq by lia. rewrite (u64_small (d * _)), u64_small by nia.
    rewrite Z.add_0_l, IH; [|done|lia|..|lia].
    + rewrite Nat2Z.inj_succ, Z.pow_succ_r by lia. f_equal. nia.
    + rewrite Nat2Z.inj_succ, Z.pow_succ_r by lia. nia.
Qed.

(** ** Properties *)

(** For every [int] and every base from 2 to 36, [itoa] returns its buffer
    holding a minus sign (only for a negative number in base ten) followed by the
    digits of the absolute value, most significant first, and writes nothing
    beyond the terminating NUL. *)
Theorem itoa_renders m str value base :
  - 2 ^ 31 <= value < 2 ^ 31 -> 2 <= base <= 36 ->
  exists ds m', itoa m value str base = Some (str, m')
    /\ Forall (fun d => 0 <= d < base) ds /\ of_digits base ds = Z.abs value
    /\ cstr m' str (itoa_sign value base ++ (digit_char <$> ds))
    /\ forall a, a < str \/ str + slen (itoa_sign value base ++ ds) < a -> rd8 m' a = rd8 m a.
Proof.
  intros Hv Hb. destruct (itoa_spec m str value base Hv Hb) as (m' & Hi & Hc & Hf).
  exists (reverse (digits 32 (Z.abs value) base)), m'. split_and!; try done.
  - apply Forall_reverse, digits_range. lia.
  - apply of_digits_digits; [lia|]. split; [lia|].
    apply Z.lt_le_trans with (2 ^ Z.of_nat 32); [lia|]. apply Z.pow_le_mono_l. lia.
  - rewrite length_app in Hf |- *. rewrite length_fmap in Hf. done.
Qed.

Lemma itoa_renders_witness :
  exists ds m', itoa ∅ (-255) 100 16 = Some (100, m')
    /\ Forall (fun d => 0 <= d < 16) ds /\ of_digits 16 ds = Z.abs (-255)
    /\ cstr m' 100 (itoa_sign (-255) 16 ++ (digit_char <$> ds))
    /\ forall a, a < 100 \/ 100 + slen (itoa_sign (-255) 16 ++ ds) < a -> rd8 m' a = rd8 ∅ a.
Proof. apply (itoa_renders ∅ 100 (-255) 16); lia. Defined.

(** C27: [stoi] reads back every non-negative [int] that [itoa] prints in base ten. *)
Theorem itoa_stoi_roundtrip m str value :
  0 <= value < 2 ^ 31 ->
  exists m', itoa m value str 10 = Some (str, m') /\ stoi m' str = value.
Proof.
  intros Hv. destruct (itoa_spec m str value 10) as (m' & Hi & Hc & _); [lia|lia|].
  rewrite Z.abs_eq in Hc by lia.
  unfold itoa_sign in Hc. rewrite (proj2 (Z.ltb_ge value 0)) in Hc by lia.
  cbn [andb app] in Hc. exists m'. split; [done|].
  set (ds := digits 32 value 10) in *. pose proof (digits_range 32 value 10 ltac:(lia)) as Hr.
  assert (Hlen : (length ds <= 12)%nat).
  { assert (Hs : ds = digits 12 value 10) by (apply digits_fuel; simpl; lia).
    rewrite Hs. apply digits_length. }
  assert (Hch : digit_char <$> reverse ds = dec_chars (reverse ds)).
  { apply list_fmap_ext. intros i d Hd. unfold digit_char.
    rewrite (proj2 (Z.ltb_lt _ _)); [done|].
    apply Forall_reverse in Hr. rewrite Forall_lookup in Hr. apply (Hr i d Hd). }
  rewrite (stoi_spec m' str (reverse ds)).
  - apply of_digits_digits; simpl; lia.
  - rewrite <- Hch. intros i c Hi'. by eapply cstr_lookup.
  - by apply Forall_reverse.
  - rewrite length_reverse. done.
  - right. apply cstr_end in Hc. rewrite length_fmap in Hc. rewrite Hc. lia.
Qed.

Lemma itoa_stoi_roundtrip_witness :
  exists m', itoa ∅ 40960 100 10 = Some (100, m') /\ stoi m' 100 = 40960.
Proof. apply (itoa_stoi_roundtrip ∅ 100 40960); lia. Defined.

Lemma octal_field m p ds :
  seg m p (dec_chars ds) -> Forall (fun d => 0 <= d < 8) ds -> (length ds <= 12)%nat ->
  length ds = 12%nat \/ ~ (48 <= rd8 m (p + slen ds) <= 57) ->
  oct2dec (stoi m p) = Some (of_digits 8 ds).
Proof.
  intros Hs Hds Hn He. rewrite (stoi_spec m p ds); [|done| |done|done].
  - unfold oct2dec. rewrite oct_loop_spec; [|done|lia|simpl; lia|lia].
    simpl. f_equal. lia.
  - eapply list.Forall_impl; [exact Hds|]. simpl. lia.
Qed.

(** C28: [oct2dec(stoi(field))] is the number that a field of up to twelve octal
    digits denotes (the field is full or ends at a byte that is no digit); this
    is how the kernel reads the size of every archive member. *)
Theorem octal_field_decodes m p ds :
  seg m p (dec_chars ds) -> Forall (fun d => 0 <= d < 8) ds -> (length ds <= 12)%nat ->
  length ds = 12%nat \/ ~ (48 <= rd8 m (p + slen ds) <= 57) ->
  oct2dec (stoi m p) = Some (of_digits 8 ds).
Proof. apply octal_field. Qed.

Lemma octal_field_decodes_witness :
  oct2dec (stoi (wr8 (wr8 (wr8 ∅ 100 49) 101 55) 102 48) 100) = Some (of_digits 8 [1; 7; 0]).
Proof.
  apply octal_field_decodes.
  - intros [|[|[|i]]] c Hi; simpl in Hi; try discriminate; injection Hi as <-;
      vm_compute; reflexivity.
  - repeat constructor; lia.
  - simpl. lia.
  - right. vm_compute. intuition discriminate.
Defined.
