(* ===== verification/UserPaging.v ===== *)
(** * User address spaces

    [sys/user_paging.c]: the pool of user frames, the walk-or-allocate helpers
    [get_pdp], [get_pd] and [get_pt], [add_user_page] and [memmap] with all of
    its cases.  The message that [increment_pml] prints is not modelled. *)

From stdpp Require Import base gmap list numbers.
From Stdlib Require Import ZArith Lia.
From S2P Require Import Prelude KLib Mmu Paging BootPaging Alloc Utils.

Definition PML_SAME_CTXT : Z := 0x0.
Definition PML_INC : Z := 0x0000008000000000.
Definition PML_MAX_INC : Z := 0x0000FF8000000000.

(** The cases of [memmap], by value of its [flags] argument. *)
Inductive map_kind :=
| ACCESSED_NOT_PRESENT | SET_COW_RW | RW_TO_COW | NEW_PAGE | GROWS_DOWN | CONTEXT_SWITCH.

(** The [switch]: every other value takes the default case. *)
Definition map_kind_of (flags : Z) : map_kind :=
  if flags =? 0 then ACCESSED_NOT_PRESENT
  else if flags =? 1 then SET_COW_RW
  else if flags =? 2 then RW_TO_COW
  else if flags =? 3 then NEW_PAGE
  else if flags =? 5 then GROWS_DOWN
  else CONTEXT_SWITCH.

(** [mov pt, %cr3] behind an [invlpg]; the instructions on [%cr0] set bits that are
    set already.  The first instruction stores [rdi] at [8(%rsp)], on the C stack,
    and [rax] is overwritten: neither is part of the state. *)
Definition tlb_flush (s : kst) (pt : Z) : kst := mk_kst (kmem s) (gl s) pt.

Definition get_user_virt_addr (s : kst) (mapped : Z) : Z * kst :=
  let buf_addr := s⟦user_addr⟧ in
  if mapped =? 0 then
    let s :=
      if u64 (s⟦user_addr⟧ + PAGE_SIZE) <? u64 (s⟦physbase⟧ + s⟦virt_base_for_user⟧)
      then s⟦user_addr ↦ u64 (s⟦user_addr⟧ + PAGE_SIZE)⟧
      else s⟦user_addr ↦ START_VADDR_FOR_USRS⟧ in
    (buf_addr, s)
  else (u64 (buf_addr - PAGE_SIZE), s).

Definition get_user_phys_addr (s : kst) (mapped : Z) : Z * kst :=
  let buf_addr := s⟦usr_phys_addr⟧ in
  if mapped =? 0 then
    let s :=
      if u64 (s⟦usr_phys_addr⟧ + PAGE_SIZE) <? 0x6000000
      then s⟦usr_phys_addr ↦ u64 (s⟦usr_phys_addr⟧ + PAGE_SIZE)⟧
      else s⟦usr_phys_addr ↦ START_PADDR_FOR_USRS⟧ in
    (buf_addr, s)
  else (u64 (buf_addr - PAGE_SIZE), s).

Definition increment_pml (s : kst) : Z * kst :=
  let s := s⟦pml_same_ctxt ↦ u64 (s⟦pml_same_ctxt⟧ + PML_INC)⟧ in
  let s := if s⟦pml_same_ctxt⟧ =? PML_MAX_INC then s⟦pml_same_ctxt ↦ PML_SAME_CTXT⟧ else s in
  (s⟦pml_same_ctxt⟧, s).

Definition add_user_page (s : kst) (virt pdp pd ptu perm : Z) : kst :=
  let pml_off := get_pml4_offset virt in
  let pdp_off := get_pdp_offset virt in
  let pd_off := get_pd_offset virt in
  let pt_off := get_pt_offset virt in
  let '(local_phys_addr, s) := get_user_phys_addr s 0 in
  let pml := s⟦pml4_shared⟧ in
  let s := put_entry s ptu pt_off local_phys_addr perm in
  let s := s⟦usr_pt ↦ ptu⟧ in
  let s := put_entry s pd pd_off (u64 (ptu - s⟦virt_base_for_user⟧)) perm in
  let s := s⟦usr_pd ↦ pd⟧ in
  let s := put_entry s pdp pdp_off (u64 (pd - s⟦virt_base_for_user⟧)) perm in
  let s := s⟦usr_pdp ↦ pdp⟧ in
  let s := put_entry s pml pml_off (u64 (pdp - s⟦virt_base_for_user⟧)) perm in
  s⟦usr_pml ↦ pml⟧⟦pml4_shared ↦ pml⟧.

Definition set_new_kpts (s : kst) (ptk virt pdp pd pml phys_addr : Z) : kst :=
  let pml_off := get_pml4_offset virt in
  let pdp_off := get_pdp_offset virt in
  let pd_off := get_pd_offset virt in
  let '(s, _, _) := fill_table (Z.to_nat TABLE_SIZE) s ptk virt phys_addr in
  let s := put_entry s pd pd_off (u64 (ptk - s⟦virt_base_for_user⟧)) KERN_PERM_BITS in
  let s := s⟦pd_shared ↦ pd⟧ in
  let s := put_entry s pdp pdp_off (u64 (pd - s⟦virt_base_for_user⟧)) KERN_PERM_BITS in
  let s := s⟦pdp_shared ↦ pdp⟧ in
  let s := put_entry s pml pml_off (u64 (pdp - s⟦virt_base_for_user⟧)) KERN_PERM_BITS in
  s⟦pml4_shared ↦ pml⟧.

(** The tests [(e && 0x1) == 0x1] are true when [e] is not zero. *)
Definition get_pt (s : kst) (addr pd_lkup : Z) : Z * kst :=
  let e := kld64 s (elt pd_lkup (get_pd_offset addr)) in
  if negb (e =? 0) then (u64 (e + VIRT_BASE), s) else page_alloc s.

Definition get_pd (s : kst) (addr pdp_lkup : Z) : Z * kst :=
  let e := kld64 s (elt pdp_lkup (get_pdp_offset addr)) in
  if negb (e =? 0) then (u64 (e + VIRT_BASE), s) else page_alloc s.

Definition get_pdp (s : kst) (addr pml_lkup : Z) : Z * kst :=
  let e := kld64 s (elt pml_lkup (get_pml4_offset addr)) in
  if negb (e =? 0) then (u64 (e + VIRT_BASE), s) else page_alloc s.

(** [p[i] = v; p[i] = (p[i] >> 12) << 12; p[i] |= perm;] *)
Definition put_frame (s : kst) (p i v perm : Z) : kst :=
  let s := kst64 s (elt p i) v in
  let s := kst64 s (elt p i) (u64 (Z.shiftl (Z.shiftr (kld64 s (elt p i)) 12) 12)) in
  kst64 s (elt p i) (Z.lor (kld64 s (elt p i)) perm).

Definition set_kernel_page_user (s : kst) (addr : Z) : kst :=
  let addr := u64 (Z.shiftl (Z.shiftr addr 12) 12) in
  let pml := s⟦pml4_shared⟧ in
  let '(p, s) := get_pdp s addr pml in
  let pdp := ROUNDDOWN p PAGE_SIZE in
  let '(p, s) := get_pd s addr pdp in
  let pd := ROUNDDOWN p PAGE_SIZE in
  let '(p, s) := get_pt s addr pd in
  let pt := ROUNDDOWN p PAGE_SIZE in
  let phys_addr := kld64 s (elt pt (get_pt_offset addr)) in
  let s := put_entry s pt (get_pt_offset addr) phys_addr USR_PERM_BITS in
  let s := put_frame s pd (get_pd_offset addr) (u64 (pt - s⟦virt_base_for_user⟧)) USR_PERM_BITS in
  let s := put_frame s pdp (get_pdp_offset addr) (u64 (pd - s⟦virt_base_for_user⟧)) USR_PERM_BITS in
  let s := put_frame s pml (get_pml4_offset addr) (u64 (pml - s⟦virt_base_for_user⟧)) USR_PERM_BITS in
  tlb_flush s (u64 (s⟦pml4_shared⟧ - s⟦virt_base_for_user⟧)).

Definition change_permissions (s : kst) (addr perm : Z) : kst :=
  let pt_off := get_pt_offset addr in
  let pml := s⟦pml4_shared⟧ in
  let '(p, s) := get_pdp s addr pml in
  let pdp := ROUNDDOWN p PAGE_SIZE in
  let '(p, s) := get_pd s addr pdp in
  let pd := ROUNDDOWN p PAGE_SIZE in
  let '(p, s) := get_pt s addr pd in
  let pt := ROUNDDOWN p PAGE_SIZE in
  let s := kst64 s (elt pt pt_off)
    (Z.lor (u64 (Z.shiftl (Z.shiftr (kld64 s (elt pt pt_off)) 12) 12)) perm) in
  let s := s⟦usr_pt ↦ pt⟧ in
  let s := kst64 s (elt pd (get_pd_offset addr)) (u64 (pt - s⟦virt_base_for_user⟧)) in
  let s := kst64 s (elt pdp (get_pdp_offset addr)) (u64 (pd - s⟦virt_base_for_user⟧)) in
  let s := kst64 s (elt pml (get_pml4_offset addr)) (u64 (pdp - s⟦virt_base_for_user⟧)) in
  s⟦usr_pd ↦ pd⟧⟦usr_pdp ↦ pdp⟧⟦usr_pml ↦ pml⟧.

(** [while (pages--) { add_user_page(f(addr), ...); if (pages) addr += PAGE_SIZE; }] *)
Fixpoint map_loop (pages : nat) (s : kst) (f : Z -> Z) (addr pdp pd ptu perm : Z) : Z * kst :=
  match pages with
  | O => (addr, s)
  | S n =>
      let s := add_user_page s (f addr) pdp pd ptu perm in
      let addr := match n with O => addr | S _ => u64 (addr + PAGE_SIZE) end in
      map_loop n s f addr pdp pd ptu perm
  end.

(** The three look-ups that most cases start with. *)
Definition user_tables (s : kst) (addr : Z) : Z * Z * Z * kst :=
  let '(p, s) := get_pdp s addr (s⟦pml4_shared⟧) in
  let pdp := ROUNDDOWN p PAGE_SIZE in
  let s := s⟦usr_pdp ↦ pdp⟧ in
  let '(p, s) := get_pd s addr pdp in
  let pd := ROUNDDOWN p PAGE_SIZE in
  let s := s⟦usr_pd ↦ pd⟧ in
  let '(p, s) := get_pt s addr pd in
  let ptu := ROUNDDOWN p PAGE_SIZE in
  (pdp, pd, ptu, s⟦usr_pt ↦ ptu⟧).

(** [while (i < pages) { change_permissions(...); i++; }] *)
Fixpoint cow_loop (n : nat) (s : kst) (addr i prot : Z) : kst :=
  match n with
  | O => s
  | S n' =>
      let s := change_permissions s (ROUNDDOWN (u64 (addr + i * PAGE_SIZE)) PAGE_SIZE) prot in
      cow_loop n' s addr (i + 1) prot
  end.

(** [int pages = length / PAGE_SIZE; if (length % PAGE_SIZE) pages++;] *)
Definition map_pages (length : Z) : Z :=
  let pages := s32 (length / PAGE_SIZE) in
  let modulo := s32 (length mod PAGE_SIZE) in
  if modulo =? 0 then pages else s32 (pages + 1).

(** [memmap]; the result is the returned address.  A negative number of pages
    (a length of 8 TiB) is treated as zero. *)
Definition memmap (s : kst) (addr length prot flags : Z) : Z * kst :=
  let base_addr := s⟦physbase⟧ in
  let kern_end := u64 (s⟦physbase⟧ + TABLE_SIZE * PAGE_SIZE) in
  let kern_extra := u64 (s⟦physbase⟧ + 2 * TABLE_SIZE * PAGE_SIZE) in
  let init_addr := 0 in
  let virt_base_addr := u64 (VIRT_BASE + base_addr) in
  let virt_kern_end := u64 (VIRT_BASE + kern_end) in
  let virt_kern_extra := u64 (VIRT_BASE + kern_extra) in
  let virt_init_addr := VIRT_BASE in
  let pages := Z.to_nat (map_pages length) in
  let '(addr, s) :=
    match map_kind_of flags with
    | ACCESSED_NOT_PRESENT =>
        let '(pdp, pd, ptu, s) := user_tables s addr in
        map_loop pages s (fun a => ROUNDDOWN a PAGE_SIZE) addr pdp pd ptu prot
    | SET_COW_RW =>
        let '(addr, s) := get_user_virt_addr s 0 in
        let '(pdp, pd, ptu, s) := user_tables s addr in
        (addr, add_user_page s (ROUNDDOWN addr PAGE_SIZE) pdp pd ptu prot)
    | RW_TO_COW => (addr, cow_loop pages s addr 0 prot)
    | NEW_PAGE =>
        let '(addr, s) :=
          if s⟦dif_ctxt⟧ =? 0 then
            let '(v, s) := get_user_virt_addr s 0 in
            let '(i, s) := increment_pml s in
            (u64 (v + i), s)
          else get_user_virt_addr s 0 in
        let '(pdp, pd, ptu, s) := user_tables s addr in
        map_loop pages s (fun a => a) addr pdp pd ptu USR_PERM_BITS
    | GROWS_DOWN =>
        let '(addr, s) := get_user_virt_addr s 0 in
        let '(pdp, pd, ptu, s) := user_tables s addr in
        map_loop pages s (fun a => u64 (a - PAGE_SIZE)) addr pdp pd ptu USR_PERM_BITS
    | CONTEXT_SWITCH =>
        let '(init_ptk, s) := page_alloc s in
        let '(ptkern, s) := page_alloc s in
        let '(ptk1, s) := page_alloc s in
        let '(ptk2, s) := page_alloc s in
        let '(ptu, s) := page_alloc s in
        let '(pd, s) := page_alloc s in
        let '(pdp, s) := page_alloc s in
        let '(pml, s) := page_alloc s in
        let '(addr, s) := get_user_virt_addr s 0 in
        let s := set_new_kpts s init_ptk virt_init_addr pdp pd pml init_addr in
        let s := set_new_kpts s ptkern virt_base_addr pdp pd pml base_addr in
        let s := set_new_kpts s ptk1 virt_kern_end pdp pd pml kern_end in
        let s := set_new_kpts s ptk2 virt_kern_extra pdp pd pml kern_extra in
        map_loop pages s (fun a => a) addr pdp pd ptu USR_PERM_BITS
    end in
  (addr, tlb_flush s (u64 (s⟦pml4_shared⟧ - VIRT_BASE))).

(** ** The pool of user frames *)

(** [n] calls of [get_user_phys_addr(0)]. *)
Fixpoint take_frames (n : nat) (s : kst) : list Z * kst :=
  match n with
  | O => ([], s)
  | S n' =>
      let '(f, s) := get_user_phys_addr s 0 in
      let '(fs, s) := take_frames n' s in
      (f :: fs, s)
  end.

(** Frame number [i] of the pool, counted around. *)
Definition pool_frame (i : Z) : Z := START_PADDR_FOR_USRS + 4096 * (i mod 4096).

Lemma get_user_phys_addr_pool s i :
  0 <= i -> s⟦usr_phys_addr⟧ = pool_frame i ->
  exists s', get_user_phys_addr s 0 = (pool_frame i, s') /\ s'⟦usr_phys_addr⟧ = pool_frame (i + 1).
Proof.
  intros Hi Hf. unfold get_user_phys_addr. cbn [Z.eqb]. rewrite Hf.
  pose proof (Z.mod_pos_bound i 4096 ltac:(lia)) as Hm. unfold pool_frame in *.
  unfold START_PADDR_FOR_USRS, PAGE_SIZE in *. rewrite u64_small by lia.
  eexists. split; [reflexivity|]. rewrite (Z.add_mod i 1), (Z.mod_small 1) by lia.
  case Z.ltb_spec; intros Hlt; kst_simpl.
  - rewrite (Z.mod_small (i mod 4096 + 1)) by lia. lia.
  - replace (i mod 4096) with 4095 by lia. reflexivity.
Qed.

Lemma take_frames_pool n s i :
  0 <= i -> s⟦usr_phys_addr⟧ = pool_frame i ->
  (take_frames n s).1 = pool_frame <$> seqZ i (Z.of_nat n).
Proof.
  revert s i. induction n as [|n IH]; intros s i Hi Hf; [done|].
  cbn [take_frames]. destruct (get_user_phys_addr_pool s i Hi Hf) as (s' & -> & Hf').
  specialize (IH s' (i + 1) ltac:(lia) Hf'). destruct (take_frames n s') as [fs s2].
  simpl in IH |- *. rewrite (seqZ_cons i) by lia. cbn [fmap list_fmap].
  replace (Z.succ i) with (i + 1) by lia.
  replace (Z.pred (Z.of_nat (S n))) with (Z.of_nat n) by lia. rewrite IH. done.
Qed.

(** C38: from its initial value the pool hands out the 4096 frames from
    0x5000000 to 0x5fff000 in order and then starts over with the first:
    nothing records which are free. *)
Theorem user_frames_cycle s n :
  s⟦usr_phys_addr⟧ = START_PADDR_FOR_USRS ->
  (take_frames n s).1 = (fun i => 0x5000000 + 4096 * (i mod 4096)) <$> seqZ 0 (Z.of_nat n).
Proof. intros Hf. rewrite (take_frames_pool n s 0); [done|lia|exact Hf]. Qed.

Lemma user_frames_cycle_witness :
  (take_frames 3 (boot_state ∅ 0x200000 0x400000 0)).1
  = (fun i => 0x5000000 + 4096 * (i mod 4096)) <$> seqZ 0 (Z.of_nat 3).
Proof. apply (user_frames_cycle (boot_state ∅ 0x200000 0x400000 0) 3). reflexivity. Defined.

(** ** Entries that the permission changes leave behind *)

(** [page_alloc] changes only the allocator's globals. *)
Lemma gl_page_alloc s x : x ∉ alloc_globals -> (page_alloc s).2⟦x⟧ = s⟦x⟧.
Proof.
  intros Hx. unfold alloc_globals in Hx. rewrite !not_elem_of_cons in Hx. destruct_and!.
  unfold page_alloc, freelist_take, set_next, set_pd_free, kst64, kst32. cbn [snd].
  destruct (s⟦virt_to_phy_flag⟧ =? 0);
    repeat first [rewrite gl_gput_ne by congruence | rewrite gl_with_mem]; reflexivity.
Qed.

(** The look-ups change nothing else either. *)
Lemma gl_get_table s x e :
  x ∉ alloc_globals ->
  (if negb (e =? 0) then (u64 (e + VIRT_BASE), s) else page_alloc s).2⟦x⟧ = s⟦x⟧.
Proof. intros Hx. case (e =? 0); [apply gl_page_alloc, Hx|reflexivity]. Qed.
