(* ===== verification/AddrSpace.v ===== *)
(** * User address spaces as finite maps

    The abstract state of a user address space is the set of its tables (one
    for each level and address prefix) and the map from virtual page numbers to
    leaf entries.  [uinv] relates it to memory; [uinv_walk] shows that the
    hardware translates exactly the pages of the map, and [memmap_fault_refines]
    that mapping a page on a fault is an insertion into it. *)

From stdpp Require Import base gmap list numbers.
From Stdlib Require Import ZArith Lia.
From S2P Require Import Prelude KLib Mmu Paging BootPaging Alloc Utils UserPaging.

(** Prefix of the table of level [l] that page number [v] goes through. *)
Definition vkey (l v : Z) : Z := v / 512 ^ l.
Definition vidx (l v : Z) : Z := vkey (l - 1) v mod 512.

(** Permission bits of user entries: read-only ([COW_PERM_BITS]) or not. *)
Definition uflag (fl : Z) : Prop := fl = 5 \/ fl = 7.

Lemma uflag_table fl : uflag fl -> table_flags fl /\ Z.testbit fl 2 = true.
Proof.
  intros [->| ->]; (split; [apply (bool_decide_unpack _); vm_compute; exact I|reflexivity]).
Qed.

Lemma vkey_split l v : 1 <= l -> vkey (l - 1) v = 512 * vkey l v + vidx l v.
Proof.
  intros Hl. unfold vidx, vkey.
  replace (512 ^ l) with (512 ^ (l - 1) * 512)
    by (rewrite Z.mul_comm, <- Z.pow_succ_r by lia; f_equal; lia).
  rewrite <- Z.div_div by lia. apply Z.div_mod. lia.
Qed.

Lemma vidx_range l v : 0 <= vidx l v < 512.
Proof. apply Z.mod_pos_bound. lia. Qed.

Lemma vkey_parent l v : 0 <= l -> vkey l v / 512 = vkey (l + 1) v.
Proof.
  intros Hl. unfold vkey. rewrite Z.div_div, Z.pow_add_r by lia. done.
Qed.

(** The architectural indices are those of the page number. *)
Lemma va_index_vidx l va : 1 <= l <= 4 -> va_index l va = vidx l (va / 4096).
Proof.
  intros Hl. unfold va_index, vidx, vkey. f_equal.
  rewrite Z.div_div, Z.pow_add_r, Z.pow_mul_r by lia. done.
Qed.

Section space.
Context (own : Z -> Prop) (P lo : Z).
Context (HP : P mod 4096 = 0) (HP0 : 0 <= P) (HPlo : P + 4096 <= lo).
Context (Hown : forall a, own a -> a < P).

(** A page that holds a user table. *)
Record table_page (np t : Z) : Prop := {
  tp_aligned : t mod 4096 = 0;
  tp_low : lo <= t;
  tp_high : t + 4096 <= np }.

Record uinv (np : Z) (m : mem) (T : gmap (Z * Z) Z) (L : gmap Z Z) : Prop := {
  ui_root : T !! (4, 0) = Some P;
  ui_lo : lo <= np <= KWIN;
  ui_ok : forall k t, T !! k = Some t -> k <> (4, 0) -> table_page np t;
  ui_inj : forall k1 k2 t, T !! k1 = Some t -> T !! k2 = Some t -> k1 = k2;
  ui_dir : forall l p t i, T !! (l, p) = Some t -> 2 <= l <= 4 -> 0 <= i < 512 ->
    (l = 4 -> i < 256) ->
    match T !! (l - 1, 512 * p + i) with
    | Some t' => exists fl, uflag fl /\ entry m t i = t' + fl
    | None => entry m t i = 0
    end;
  ui_leaf : forall p t i, T !! (1, p) = Some t -> 0 <= i < 512 ->
    entry m t i = default 0 (L !! (512 * p + i));
  ui_leaf_ok : forall v e, L !! v = Some e -> exists f fl, e = f + fl /\ uflag fl /\
    f mod 4096 = 0 /\ 0x5000000 <= f < 0x6000000;
  ui_parent : forall l p t, T !! (l, p) = Some t -> 1 <= l < 4 ->
    is_Some (T !! (l + 1, p / 512));
  ui_lparent : forall v e, L !! v = Some e -> is_Some (T !! (1, v / 512)) }.

Lemma uinv_page np m T L k t :
  uinv np m T L -> T !! k = Some t -> t mod 4096 = 0 /\ P <= t /\ t + 4096 <= np.
Proof.
  intros Hi Hk. pose proof (ui_lo _ _ _ _ Hi). destruct (decide (k = (4, 0))) as [->|Hne].
  - rewrite (ui_root _ _ _ _ Hi) in Hk. injection Hk as <-. lia.
  - destruct (ui_ok _ _ _ _ Hi k t Hk Hne). lia.
Qed.

(** An address space without any page. *)
Lemma uinv_empty np m :
  lo <= np <= KWIN -> (forall a, P <= a < P + 2048 -> rd8 m a = 0) -> uinv np m {[(4, 0) := P]} ∅.
Proof.
  intros Hn Hz. constructor.
  - apply lookup_singleton_eq.
  - exact Hn.
  - intros k t Hk Hne. apply lookup_singleton_Some in Hk as [<- _]. destruct (Hne eq_refl).
  - intros k1 k2 t H1 H2. apply lookup_singleton_Some in H1 as [<- _].
    apply lookup_singleton_Some in H2 as [<- _]. reflexivity.
  - intros l p t i HT Hl Hi Hi4. apply lookup_singleton_Some in HT as [[= <- <-] <-].
    rewrite lookup_singleton_ne by (intros [=]). unfold entry. apply rd64_zero.
    specialize (Hi4 eq_refl). intros a Hra. apply Hz. lia.
  - intros p t i HT. apply lookup_singleton_Some in HT as [[=] _].
  - intros v e HL. rewrite lookup_empty in HL. discriminate.
  - intros l p t HT Hl. apply lookup_singleton_Some in HT as [[= <- _] _]. lia.
  - intros v e HL. rewrite lookup_empty in HL. discriminate.
Qed.

(** Page number of a user address. *)
Definition user_vpn (v : Z) : Prop := 0 <= v < 2 ^ 35.

Lemma user_vpn_top v : user_vpn v -> vkey 4 v = 0 /\ vidx 4 v < 256.
Proof.
  unfold user_vpn, vidx, vkey. intros Hv. change (512 ^ 4) with (2 ^ 36).
  change (512 ^ (4 - 1)) with (2 ^ 27). rewrite Z.div_small by lia. split; [done|].
  assert (v / 2 ^ 27 < 256) by (apply Z.div_lt_upper_bound; lia).
  pose proof (Z.div_pos v (2 ^ 27)). rewrite Z.mod_small; lia.
Qed.

(** What the walk sees in the directory of level [l] on the path of [v]. *)
Lemma uinv_dir np m T L l v t :
  uinv np m T L -> user_vpn v -> 2 <= l <= 4 -> T !! (l, vkey l v) = Some t ->
  match T !! (l - 1, vkey (l - 1) v) with
  | Some t' => exists fl, uflag fl /\ entry m t (vidx l v) = t' + fl
  | None => entry m t (vidx l v) = 0
  end.
Proof.
  intros Hi Hv Hl Ht. rewrite (vkey_split l v) by lia.
  apply (ui_dir _ _ _ _ Hi); [done|done|apply vidx_range|].
  intros ->. apply user_vpn_top, Hv.
Qed.

(** Without a table there is no leaf below it. *)
Lemma uinv_no_leaf np m T L l v :
  uinv np m T L -> 1 <= l < 4 -> T !! (l, vkey l v) = None -> L !! v = None.
Proof.
  intros Hi Hl HT. destruct (L !! v) as [e|] eqn:HL; [|done]. exfalso.
  destruct (ui_lparent _ _ _ _ Hi v e HL) as [t1 H1].
  assert (Hk1 : v / 512 = vkey 1 v) by done. rewrite Hk1 in H1.
  destruct (ui_parent _ _ _ _ Hi _ _ _ H1) as [t2 H2]; [lia|].
  rewrite vkey_parent in H2 by lia. change (1 + 1) with 2 in H2.
  destruct (ui_parent _ _ _ _ Hi _ _ _ H2) as [t3 H3]; [lia|].
  rewrite vkey_parent in H3 by lia. change (2 + 1) with 3 in H3.
  assert (l = 1 \/ l = 2 \/ l = 3) as [->|[->| ->]] by lia; congruence.
Qed.

Lemma pte_frame_table t fl : t mod 4096 = 0 -> 0 <= t <= KWIN -> uflag fl -> pte_frame (t + fl) = t.
Proof. intros Ha Ht Hf. apply pte_frame_add; [unfold KWIN in *; lia|done|]. unfold uflag in *; lia. Qed.

Lemma entry_present t fl :
  t mod 4096 = 0 -> uflag fl ->
  pte_present (t + fl) = true /\ pte_large (t + fl) = false /\ pte_user (t + fl) = true.
Proof.
  intros Ha Hf. destruct (uflag_table fl Hf) as [(Hr & H0 & H7) H2].
  unfold pte_present, pte_large, pte_user. rewrite !testbit_flags by (done || lia). done.
Qed.

(** The hardware translates exactly the pages of [L], to their frames and with
    user access. *)
Lemma uinv_walk np m T L va :
  uinv np m T L -> 0 <= va < 2 ^ 47 ->
  (fun tr => (tr_phys tr, tr_user tr)) <$> walk m P va =
  (fun e => (pte_frame e + va mod 4096, true)) <$> L !! (va / 4096).
Proof.
  intros Hi Hva. set (v := va / 4096).
  assert (Hv : user_vpn v).
  { unfold user_vpn, v. split; [apply Z.div_pos; lia|]. apply Z.div_lt_upper_bound; lia. }
  pose proof (ui_lo _ _ _ _ Hi) as Hlo.
  assert (HPf : pte_frame P = P).
  { rewrite <- (Z.add_0_r P) at 1. apply pte_frame_add; unfold KWIN in *; lia. }
  destruct (user_vpn_top v Hv) as [Hk4 _].
  assert (H4 : T !! (4, vkey 4 v) = Some P) by (rewrite Hk4; apply Hi).
  unfold walk. rewrite HPf, !va_index_vidx by lia. fold v.
  pose proof (uinv_dir np m T L 4 v P Hi Hv ltac:(lia) H4) as E4.
  change (4 - 1) with 3 in E4. destruct (T !! (3, vkey 3 v)) as [t3|] eqn:H3.
  2: { rewrite E4. rewrite (uinv_no_leaf np m T L 3 v) by (done || lia). done. }
  destruct E4 as (f4 & Hf4 & ->). destruct (uinv_page _ _ _ _ _ _ Hi H3) as (Ha3 & Hb3 & Hc3).
  destruct (entry_present t3 f4 Ha3 Hf4) as (-> & _ & ->).
  rewrite pte_frame_table by (done || lia). cbn [negb].
  pose proof (uinv_dir np m T L 3 v t3 Hi Hv ltac:(lia) H3) as E3.
  change (3 - 1) with 2 in E3. destruct (T !! (2, vkey 2 v)) as [t2|] eqn:H2.
  2: { rewrite E3. rewrite (uinv_no_leaf np m T L 2 v) by (done || lia). done. }
  destruct E3 as (f3 & Hf3 & ->). destruct (uinv_page _ _ _ _ _ _ Hi H2) as (Ha2 & Hb2 & Hc2).
  destruct (entry_present t2 f3 Ha2 Hf3) as (-> & -> & ->).
  rewrite pte_frame_table by (done || lia). cbn [negb].
  pose proof (uinv_dir np m T L 2 v t2 Hi Hv ltac:(lia) H2) as E2.
  change (2 - 1) with 1 in E2. destruct (T !! (1, vkey 1 v)) as [t1|] eqn:H1.
  2: { rewrite E2. rewrite (uinv_no_leaf np m T L 1 v) by (done || lia). done. }
  destruct E2 as (f2 & Hf2 & ->). destruct (uinv_page _ _ _ _ _ _ Hi H1) as (Ha1 & Hb1 & Hc1).
  destruct (entry_present t1 f2 Ha1 Hf2) as (-> & -> & ->).
  rewrite pte_frame_table by (done || lia). cbn [negb].
  rewrite (ui_leaf _ _ _ _ Hi _ _ _ H1) by apply vidx_range.
  replace (512 * vkey 1 v + vidx 1 v) with v
    by (rewrite <- vkey_split by lia; unfold vkey; simpl; by rewrite Z.div_1_r).
  destruct (L !! v) as [e|] eqn:HL; [|done].
  destruct (ui_leaf_ok _ _ _ _ Hi v e HL) as (f & fl & -> & Hfl & Haf & _). simpl default.
  destruct (entry_present f fl Haf Hfl) as (-> & _ & ->). done.
Qed.

(** The tables above a leaf. *)
Lemma uinv_tables np m T L v e :
  uinv np m T L -> L !! v = Some e ->
  exists t3 t2 t1, T !! (3, vkey 3 v) = Some t3 /\ T !! (2, vkey 2 v) = Some t2 /\ T !! (1, vkey 1 v) = Some t1.
Proof.
  intros Hi HL. destruct (ui_lparent _ _ _ _ Hi v e HL) as [t1 H1].
  assert (Hk1 : v / 512 = vkey 1 v) by reflexivity. rewrite Hk1 in H1.
  destruct (ui_parent _ _ _ _ Hi _ _ _ H1) as [t2 H2]; [lia|].
  rewrite vkey_parent in H2 by lia. change (1 + 1) with 2 in H2.
  destruct (ui_parent _ _ _ _ Hi _ _ _ H2) as [t3 H3]; [lia|].
  rewrite vkey_parent in H3 by lia. exists t3, t2, t1. split; [exact H3|]. split; [exact H2|exact H1].
Qed.

(** A page is writable when the leaf and the three directory entries above it
    are. *)
Lemma walk_tables np m T L va e t3 t2 t1 :
  let v := va / 4096 in
  uinv np m T L -> 0 <= va < 2 ^ 47 -> L !! v = Some e ->
  T !! (3, vkey 3 v) = Some t3 -> T !! (2, vkey 2 v) = Some t2 -> T !! (1, vkey 1 v) = Some t1 ->
  walk m P va = Some (mk_tr (pte_frame e + va mod 4096)
    (pte_write (entry m P (vidx 4 v)) && pte_write (entry m t3 (vidx 3 v)) && pte_write (entry m t2 (vidx 2 v))
     && pte_write e) true).
Proof.
  intros v Hi Hva HL H3 H2 H1.
  assert (Hv : user_vpn v).
  { unfold user_vpn, v. split; [apply Z.div_pos; lia|]. apply Z.div_lt_upper_bound; lia. }
  pose proof (ui_lo _ _ _ _ Hi) as Hlo.
  assert (HPf : pte_frame P = P).
  { rewrite <- (Z.add_0_r P) at 1. apply pte_frame_add; unfold KWIN in *; lia. }
  destruct (user_vpn_top v Hv) as [Hk4 _].
  assert (H4 : T !! (4, vkey 4 v) = Some P) by (rewrite Hk4; apply Hi).
  destruct (uinv_page _ _ _ _ _ _ Hi H3) as (Ha3 & Hb3 & Hc3).
  destruct (uinv_page _ _ _ _ _ _ Hi H2) as (Ha2 & Hb2 & Hc2).
  destruct (uinv_page _ _ _ _ _ _ Hi H1) as (Ha1 & Hb1 & Hc1).
  assert (Hdir : forall l t t', 2 <= l <= 4 -> T !! (l, vkey l v) = Some t -> T !! (l - 1, vkey (l - 1) v) = Some t' ->
    t' mod 4096 = 0 -> 0 <= t' <= KWIN ->
    pte_present (entry m t (vidx l v)) = true /\ pte_large (entry m t (vidx l v)) = false /\
    pte_user (entry m t (vidx l v)) = true /\ pte_frame (entry m t (vidx l v)) = t').
  { intros l t t' Hl Ht Ht' Ha Hb. pose proof (uinv_dir np m T L l v t Hi Hv Hl Ht) as E. rewrite Ht' in E.
    destruct E as (fl & Hfl & ->). destruct (entry_present t' fl Ha Hfl) as (E1 & E2 & E3).
    split; [exact E1|]. split; [exact E2|]. split; [exact E3|]. apply pte_frame_table; assumption. }
  destruct (Hdir 4 P t3 ltac:(lia) H4 H3 Ha3 ltac:(lia)) as (A4 & _ & C4 & D4).
  destruct (Hdir 3 t3 t2 ltac:(lia) H3 H2 Ha2 ltac:(lia)) as (A3 & B3 & C3 & D3).
  destruct (Hdir 2 t2 t1 ltac:(lia) H2 H1 Ha1 ltac:(lia)) as (A2 & B2 & C2 & D2).
  assert (E1 : entry m t1 (vidx 1 v) = e).
  { rewrite (ui_leaf _ _ _ _ Hi _ _ _ H1) by apply vidx_range.
    replace (512 * vkey 1 v + vidx 1 v) with v
      by (rewrite <- vkey_split by lia; unfold vkey; simpl; by rewrite Z.div_1_r).
    rewrite HL. reflexivity. }
  destruct (ui_leaf_ok _ _ _ _ Hi v e HL) as (f & fl & Ee & Hfl & Haf & _).
  destruct (entry_present f fl Haf Hfl) as (A1 & _ & C1). rewrite <- Ee in A1, C1.
  unfold walk. rewrite HPf, !va_index_vidx by lia. fold v.
  rewrite A4, D4, A3, B3, D3, A2, B2, D2, E1, A1, C4, C3, C2, C1. reflexivity.
Qed.

(** A page whose own entry is read-only is read-only. *)
Lemma walk_read_only np m T L va e :
  uinv np m T L -> 0 <= va < 2 ^ 47 -> L !! (va / 4096) = Some e -> pte_write e = false ->
  walk m P va = Some (mk_tr (pte_frame e + va mod 4096) false true).
Proof.
  intros Hi Hva HL He. destruct (uinv_tables np m T L _ e Hi HL) as (t3 & t2 & t1 & H3 & H2 & H1).
  rewrite (walk_tables np m T L va e t3 t2 t1 Hi Hva HL H3 H2 H1), He, andb_false_r. reflexivity.
Qed.

Lemma walk_absent np m T L va :
  uinv np m T L -> 0 <= va < 2 ^ 47 -> L !! (va / 4096) = None -> walk m P va = None.
Proof.
  intros Hi Hva HL. pose proof (uinv_walk np m T L va Hi Hva) as E. rewrite HL in E.
  destruct (walk m P va); [discriminate|reflexivity].
Qed.

(** Two memories with the same tables translate alike. *)
Lemma walk_same_tables np m m' T L va :
  uinv np m T L -> uinv np m' T L -> 0 <= va < 2 ^ 47 ->
  (forall k t i, T !! k = Some t -> 0 <= i < 512 -> (k = (4, 0) -> i < 256) -> entry m' t i = entry m t i) ->
  walk m' P va = walk m P va.
Proof.
  intros Hi Hi' Hva He. destruct (L !! (va / 4096)) as [e|] eqn:HL.
  - destruct (uinv_tables np m T L _ e Hi HL) as (t3 & t2 & t1 & H3 & H2 & H1).
    rewrite (walk_tables np m T L va e t3 t2 t1 Hi Hva HL H3 H2 H1).
    rewrite (walk_tables np m' T L va e t3 t2 t1 Hi' Hva HL H3 H2 H1).
    assert (Hv : user_vpn (va / 4096)).
    { unfold user_vpn. split; [apply Z.div_pos; lia|]. apply Z.div_lt_upper_bound; lia. }
    destruct (user_vpn_top _ Hv) as [_ H256].
    rewrite (He _ _ _ (ui_root _ _ _ _ Hi) (vidx_range 4 _)) by (intros _; exact H256).
    rewrite (He _ _ _ H3 (vidx_range 3 _)), (He _ _ _ H2 (vidx_range 2 _)) by (intros [=]). reflexivity.
  - rewrite (walk_absent np m T L va Hi Hva HL). apply (walk_absent np m' T L va Hi' Hva HL).
Qed.

(** What mapping the page of [va] with the bits [perm] means for the address [va']
    of another page: it is translated as before, to the same frame and with user
    access; outside the 512 GiB of [va] it is writable as before; inside them,
    where the two addresses share directory entries, it keeps the right to write
    if [perm] has it, and loses it if not. *)
Definition kept_page (perm va : Z) (m m' : mem) (va' : Z) : Prop :=
  match walk m P va', walk m' P va' with
  | None, None => True
  | Some tr, Some tr' =>
      tr_phys tr' = tr_phys tr /\ tr_user tr' = tr_user tr /\
      (if decide (va' / 2 ^ 39 = va / 2 ^ 39)
       then if Z.testbit perm 1 then tr_write tr = true -> tr_write tr' = true else tr_write tr' = false
       else tr_write tr' = tr_write tr)
  | _, _ => False
  end.

(** ** Adding a page *)

(** The tables after the path of [v] has been completed with [tt]. *)
Definition path_tabs (T : gmap (Z * Z) Z) (v : Z) (tt : Z -> Z) : gmap (Z * Z) Z :=
  <[(1, vkey 1 v) := tt 1]> (<[(2, vkey 2 v) := tt 2]> (<[(3, vkey 3 v) := tt 3]> T)).

Lemma path_tabs_lookup T v tt l p :
  path_tabs T v tt !! (l, p) =
    if decide (1 <= l <= 3 /\ p = vkey l v) then Some (tt l) else T !! (l, p).
Proof.
  unfold path_tabs. case_decide as Hd.
  - destruct Hd as [Hl ->].
    assert (l = 1 \/ l = 2 \/ l = 3) as [->|[->| ->]] by lia; by simplify_map_eq.
  - rewrite !lookup_insert_ne; [done|..]; intros [=]; subst; apply Hd; lia.
Qed.

(** A table on the path is the one that was there, or a fresh zeroed page. *)
Definition path_ok (np np' : Z) (m : mem) (T : gmap (Z * Z) Z) (v : Z) (tt : Z -> Z) : Prop :=
  forall l, 1 <= l <= 3 ->
    T !! (l, vkey l v) = Some (tt l) \/
    (T !! (l, vkey l v) = None /\ np <= tt l /\ table_page np' (tt l) /\
     forall i, 0 <= i < 512 -> entry m (tt l) i = 0).

Section add.
Context (np np' : Z) (m m2 m' : mem) (T : gmap (Z * Z) Z) (L : gmap Z Z) (v : Z) (tt : Z -> Z).
Context (frame perm : Z).
Context (Hi : uinv np m T L) (Hv : user_vpn v) (Hperm : uflag perm).
Context (Hnp : np <= np' <= KWIN) (Htt4 : tt 4 = P).
Context (Hpath : path_ok np np' m2 T v tt).
Context (Hdist : forall l l', 1 <= l <= 4 -> 1 <= l' <= 4 -> tt l = tt l' -> l = l').
Context (Hold : forall k t i, T !! k = Some t -> 0 <= i < 512 -> entry m2 t i = entry m t i).
Context (Hnew : forall l, 1 <= l <= 4 ->
  entry m' (tt l) (vidx l v) = (if l =? 1 then frame else tt (l - 1)) + perm).
Context (Hrest : forall k t i, path_tabs T v tt !! k = Some t -> 0 <= i < 512 ->
  (forall l, 1 <= l <= 4 -> t = tt l -> i <> vidx l v) -> entry m' t i = entry m2 t i).

Lemma path_tt l : 1 <= l <= 4 -> path_tabs T v tt !! (l, vkey l v) = Some (tt l).
Proof.
  intros Hl. rewrite path_tabs_lookup. case_decide as Hd; [done|].
  assert (l = 4) as -> by lia. destruct (user_vpn_top v Hv) as [-> _].
  rewrite Htt4. apply Hi.
Qed.

Lemma path_page k t :
  path_tabs T v tt !! k = Some t -> k <> (4, 0) -> table_page np' t.
Proof.
  destruct k as [l p]. rewrite path_tabs_lookup. intros Ht Hk.
  assert (Hok : T !! (l, p) = Some t -> table_page np' t).
  { intros HT. destruct (ui_ok _ _ _ _ Hi _ _ HT Hk). split; lia. }
  case_decide as Hd; [|auto]. destruct Hd as [Hl ->]. injection Ht as <-.
  destruct (Hpath l Hl) as [HT|(_ & _ & Htp & _)]; auto.
Qed.

Lemma path_inj k1 k2 t :
  path_tabs T v tt !! k1 = Some t -> path_tabs T v tt !! k2 = Some t -> k1 = k2.
Proof.
  destruct k1 as [l1 p1], k2 as [l2 p2]. rewrite !path_tabs_lookup. intros H1 H2.
  assert (Hone : forall l l' p', 1 <= l <= 3 -> ~ (1 <= l' <= 3 /\ p' = vkey l' v) ->
    T !! (l', p') = Some (tt l) -> False).
  { intros l l' p' Hl Hn HT. destruct (Hpath l Hl) as [HT'|(_ & Hge & _)].
    - pose proof (ui_inj _ _ _ _ Hi _ _ _ HT HT') as [= -> ->]. apply Hn. lia.
    - destruct (uinv_page _ _ _ _ _ _ Hi HT). lia. }
  destruct (decide (1 <= l1 <= 3 /\ p1 = vkey l1 v)) as [[Hl1 E1]|D1],
    (decide (1 <= l2 <= 3 /\ p2 = vkey l2 v)) as [[Hl2 E2]|D2].
  - assert (l1 = l2) as -> by (apply Hdist; [lia|lia|congruence]). congruence.
  - injection H1 as <-. destruct (Hone l1 l2 p2 Hl1 D2 H2).
  - injection H2 as <-. destruct (Hone l2 l1 p1 Hl2 D1 H1).
  - exact (ui_inj _ _ _ _ Hi _ _ _ H1 H2).
Qed.

(** An entry that is not on the path of [v] is as before. *)
Lemma path_off l p t i :
  path_tabs T v tt !! (l, p) = Some t -> 1 <= l <= 4 -> 0 <= i < 512 ->
  512 * p + i <> vkey (l - 1) v -> entry m' t i = entry m2 t i.
Proof.
  intros Ht Hl Hii Hne. apply (Hrest (l, p)); [done|done|].
  intros l' Hl' -> ->. pose proof (path_inj _ _ _ Ht (path_tt l' Hl')) as [= -> ->].
  apply Hne. rewrite (vkey_split l' v) by lia. done.
Qed.

(** Old tables keep their entries; fresh tables are empty. *)
Lemma path_entry_old l p t i :
  path_tabs T v tt !! (l, p) = Some t -> 1 <= l <= 4 -> 0 <= i < 512 ->
  (T !! (l, p) = Some t /\ entry m2 t i = entry m t i) \/
  (T !! (l, p) = None /\ l <> 4 /\ entry m2 t i = 0).
Proof.
  rewrite path_tabs_lookup. intros Ht Hl Hii. case_decide as Hd.
  - destruct Hd as [Hl3 ->]. injection Ht as <-.
    destruct (Hpath l Hl3) as [HT|(HT & _ & _ & Hz)]; [left; eauto|right].
    split_and!; [done|lia|auto].
  - left. eauto.
Qed.

Lemma path_on l p t i :
  path_tabs T v tt !! (l, p) = Some t -> 1 <= l <= 4 -> 0 <= i < 512 ->
  512 * p + i = vkey (l - 1) v -> t = tt l /\ i = vidx l v.
Proof.
  intros Ht Hl Hii E. rewrite (vkey_split l v) in E by lia. pose proof (vidx_range l v).
  assert (p = vkey l v) as -> by lia. rewrite path_tt in Ht by lia.
  injection Ht as <-. split; [reflexivity|lia].
Qed.

Lemma path_mono k : is_Some (T !! k) -> is_Some (path_tabs T v tt !! k).
Proof.
  destruct k as [l p]. rewrite path_tabs_lookup. intros H. case_decide; [eexists; reflexivity|exact H].
Qed.

Lemma path_parent l p t :
  path_tabs T v tt !! (l, p) = Some t -> 1 <= l < 4 ->
  is_Some (path_tabs T v tt !! (l + 1, p / 512)).
Proof.
  rewrite path_tabs_lookup. intros Ht Hl.
  destruct (decide (1 <= l <= 3 /\ p = vkey l v)) as [[_ ->]|Hd].
  - rewrite vkey_parent, path_tt by lia. eexists; reflexivity.
  - apply path_mono, (ui_parent _ _ _ _ Hi _ _ _ Ht Hl).
Qed.

Lemma path_dir l p t i :
  path_tabs T v tt !! (l, p) = Some t -> 2 <= l <= 4 -> 0 <= i < 512 -> (l = 4 -> i < 256) ->
  match path_tabs T v tt !! (l - 1, 512 * p + i) with
  | Some t' => exists fl, uflag fl /\ entry m' t i = t' + fl
  | None => entry m' t i = 0
  end.
Proof.
  intros Ht Hl Hii H256. destruct (decide (512 * p + i = vkey (l - 1) v)) as [E|E].
  - destruct (path_on l p t i Ht ltac:(lia) Hii E) as [-> ->].
    rewrite E, path_tt by lia. exists perm. split; [exact Hperm|].
    rewrite Hnew by lia. rewrite (proj2 (Z.eqb_neq l 1)) by lia. reflexivity.
  - rewrite (path_off l p t i Ht ltac:(lia) Hii E), path_tabs_lookup.
    rewrite decide_False by (intros [_ E']; exact (E E')).
    destruct (path_entry_old l p t i Ht ltac:(lia) Hii) as [[HT ->]|(HT & Hl4 & ->)].
    + apply (ui_dir _ _ _ _ Hi); assumption.
    + destruct (T !! (l - 1, 512 * p + i)) as [t'|] eqn:Hc; [|reflexivity].
      destruct (ui_parent _ _ _ _ Hi _ _ _ Hc) as [t'' Hp]; [lia|].
      replace (l - 1 + 1) with l in Hp by lia.
      rewrite (Z.mul_comm 512), Z.div_add_l, (Z.div_small i), Z.add_0_r in Hp by lia.
      congruence.
Qed.

Lemma path_leaf p t i :
  path_tabs T v tt !! (1, p) = Some t -> 0 <= i < 512 ->
  entry m' t i = default 0 (<[v := frame + perm]> L !! (512 * p + i)).
Proof.
  intros Ht Hii. assert (Hv0 : vkey (1 - 1) v = v) by (unfold vkey; apply Z.div_1_r).
  destruct (decide (512 * p + i = v)) as [E|E].
  - destruct (path_on 1 p t i Ht ltac:(lia) Hii) as [-> ->]; [rewrite Hv0; exact E|].
    rewrite E, lookup_insert_eq, Hnew by lia. reflexivity.
  - rewrite lookup_insert_ne by (intros E'; exact (E (eq_sym E'))).
    rewrite (path_off 1 p t i Ht) by (rewrite ?Hv0; lia || assumption).
    destruct (path_entry_old 1 p t i Ht ltac:(lia) Hii) as [[HT ->]|(HT & _ & ->)].
    + apply (ui_leaf _ _ _ _ Hi); assumption.
    + destruct (L !! (512 * p + i)) as [e|] eqn:Hc; [|reflexivity].
      destruct (ui_lparent _ _ _ _ Hi _ _ Hc) as [t'' Hp].
      rewrite (Z.mul_comm 512), Z.div_add_l, (Z.div_small i), Z.add_0_r in Hp by lia.
      congruence.
Qed.

(** Mapping the page [v] to [frame] is an insertion into the abstract map. *)
Lemma uinv_add :
  frame mod 4096 = 0 -> 0x5000000 <= frame < 0x6000000 ->
  uinv np' m' (path_tabs T v tt) (<[v := frame + perm]> L).
Proof.
  intros Hfa Hfr. pose proof (ui_lo _ _ _ _ Hi) as Hlo. constructor.
  - rewrite path_tabs_lookup, decide_False by lia. apply Hi.
  - lia.
  - exact path_page.
  - exact path_inj.
  - exact path_dir.
  - exact path_leaf.
  - intros v' e. rewrite lookup_insert_Some. intros [[<- <-]|[_ HL]].
    + exists frame, perm. split; [reflexivity|]. split; [exact Hperm|]. split; assumption.
    + exact (ui_leaf_ok _ _ _ _ Hi v' e HL).
  - exact path_parent.
  - intros v' e. rewrite lookup_insert_Some. intros [[<- _]|[_ HL]].
    + exists (tt 1). exact (path_tt 1 ltac:(lia)).
    + apply path_mono, (ui_lparent _ _ _ _ Hi v' e HL).
Qed.

(** The write bit of an entry above another page. *)
Lemma path_write l t v' :
  1 <= l <= 4 -> T !! (l, vkey l v') = Some t -> frame mod 4096 = 0 ->
  pte_write (entry m' t (vidx l v')) =
    if decide (vkey (l - 1) v' = vkey (l - 1) v) then Z.testbit perm 1 else pte_write (entry m t (vidx l v')).
Proof.
  intros Hl Ht Hf. pose proof (vidx_range l v') as Hx.
  assert (Ht' : path_tabs T v tt !! (l, vkey l v') = Some t).
  { rewrite path_tabs_lookup. case_decide as Hd; [|exact Ht]. destruct Hd as [Hl3 E]. rewrite E in Ht.
    destruct (Hpath l Hl3) as [HT|(HT & _)]; congruence. }
  pose proof (vkey_split l v' ltac:(lia)) as Hs. case_decide as Hd.
  - destruct (path_on l _ t (vidx l v') Ht' Hl Hx ltac:(lia)) as [-> ->].
    rewrite Hnew by exact Hl. unfold pte_write. apply testbit_flags; [|destruct Hperm; lia|lia].
    destruct (Z.eqb_spec l 1); [exact Hf|]. apply (path_page (l - 1, vkey (l - 1) v)).
    + apply path_tt. lia.
    + intros [=]. lia.
  - rewrite (path_off l _ t (vidx l v') Ht' Hl Hx) by lia. rewrite (Hold _ _ _ Ht Hx). reflexivity.
Qed.

Lemma vkey_ne l v' : 0 <= l -> vkey (l + 1) v' <> vkey (l + 1) v -> vkey l v' <> vkey l v.
Proof. intros Hl Hn E. apply Hn. rewrite <- !vkey_parent by exact Hl. rewrite E. reflexivity. Qed.

Lemma add_others va va' :
  va / 4096 = v -> 0 <= va' < 2 ^ 47 -> va' / 4096 <> v ->
  frame mod 4096 = 0 -> 0x5000000 <= frame < 0x6000000 -> kept_page perm va m m' va'.
Proof.
  intros Hva Hva' Hne Hfa Hfr. pose proof (uinv_add Hfa Hfr) as Hi'. set (v' := va' / 4096) in *.
  assert (HL' : <[v := frame + perm]> L !! v' = L !! v') by (apply lookup_insert_ne; congruence).
  unfold kept_page. destruct (L !! v') as [e|] eqn:HL.
  2: { rewrite (walk_absent np m T L va' Hi Hva' HL), (walk_absent np' m' _ _ va' Hi' Hva' HL'). exact I. }
  destruct (uinv_tables np m T L v' e Hi HL) as (t3 & t2 & t1 & H3 & H2 & H1).
  assert (Hin : forall l t, 1 <= l <= 3 -> T !! (l, vkey l v') = Some t ->
    path_tabs T v tt !! (l, vkey l v') = Some t).
  { intros l t Hl Ht. rewrite path_tabs_lookup. case_decide as Hd; [|exact Ht]. destruct Hd as [Hl3 E].
    rewrite E in Ht. destruct (Hpath l Hl3) as [HT|(HT & _)]; congruence. }
  rewrite (walk_tables np m T L va' e t3 t2 t1 Hi Hva' HL H3 H2 H1).
  rewrite (walk_tables np' m' _ _ va' e t3 t2 t1 Hi' Hva' HL' (Hin 3 t3 ltac:(lia) H3) (Hin 2 t2 ltac:(lia) H2)
    (Hin 1 t1 ltac:(lia) H1)).
  cbn [tr_phys tr_user tr_write]. split; [reflexivity|]. split; [reflexivity|]. fold v'.
  assert (Hv' : user_vpn v').
  { unfold user_vpn, v'. split; [apply Z.div_pos; lia|]. apply Z.div_lt_upper_bound; lia. }
  assert (H4 : T !! (4, vkey 4 v') = Some P) by (destruct (user_vpn_top v' Hv') as [-> _]; apply Hi).
  rewrite (path_write 4 P v' ltac:(lia) H4 Hfa), (path_write 3 t3 v' ltac:(lia) H3 Hfa),
    (path_write 2 t2 v' ltac:(lia) H2 Hfa).
  change (4 - 1) with 3. change (3 - 1) with 2. change (2 - 1) with 1.
  assert (E39 : forall x, x / 2 ^ 39 = vkey 3 (x / 4096))
    by (intros x; unfold vkey; rewrite Z.div_div by lia; reflexivity).
  rewrite !E39, Hva. fold v'. clear E39.
  destruct (decide (vkey 3 v' = vkey 3 v)) as [E3|E3].
  - destruct (Z.testbit perm 1); [|reflexivity]. do 2 case_decide; cbn [andb];
      rewrite ?andb_true_iff; tauto.
  - rewrite !decide_False by (apply (vkey_ne 1), (vkey_ne 2), E3 || apply (vkey_ne 2), E3; lia). reflexivity.
Qed.
End add.
End space.
