(* ===== verification/Memmap.v ===== *)
(** * [memmap] on a fault refines insertion into the abstract map

    From a state whose user tables represent the map [L], looking up or
    allocating the three tables of an address and [add_user_page] lead to a
    state that represents [L] with the page inserted; the kernel half of the
    address space is untouched. *)

From stdpp Require Import base gmap list numbers.
From Stdlib Require Import ZArith Lia.
From S2P Require Import Prelude KLib Mmu Paging BootPaging Alloc Utils UserPaging AddrSpace.

(** The common body of [get_pdp], [get_pd] and [get_pt]. *)
Definition lookup_or_alloc (s : kst) (lk i : Z) : Z * kst :=
  let e := kld64 s (elt lk i) in
  if negb (e =? 0) then (u64 (e + VIRT_BASE), s) else page_alloc s.

Lemma offsets_vidx va :
  get_pml4_offset va = vidx 4 (va / 4096) /\ get_pdp_offset va = vidx 3 (va / 4096)
  /\ get_pd_offset va = vidx 2 (va / 4096) /\ get_pt_offset va = vidx 1 (va / 4096).
Proof.
  rewrite get_pml4_offset_eq, get_pdp_offset_eq, get_pd_offset_eq, get_pt_offset_eq.
  rewrite <- !va_index_vidx by lia. unfold va_index. done.
Qed.

Lemma ROUNDDOWN_page va : 0 <= va < 2 ^ 64 -> ROUNDDOWN va PAGE_SIZE / 4096 = va / 4096.
Proof.
  intros Hva. rewrite ROUNDDOWN_eq by (unfold PAGE_SIZE; lia). unfold PAGE_SIZE.
  rewrite Z.mod_eq by lia. replace (va - (va - 4096 * (va / 4096))) with (va / 4096 * 4096) by lia.
  apply Z.div_mul. lia.
Qed.

Lemma kpage_high t : t mod 4096 = 0 -> 0 <= t -> t + 4096 <= KWIN -> kpage (VIRT_BASE + t).
Proof.
  intros Ha H0 Hk. unfold kpage, KWIN, VIRT_BASE in *. split; [|lia].
  rewrite Z.add_mod, Ha by lia. done.
Qed.

Lemma kld64_high s t i :
  t mod 4096 = 0 -> 0 <= t -> t + 4096 <= KWIN -> 0 <= i < 512 ->
  kld64 s (elt (VIRT_BASE + t) i) = entry (kmem s) t i.
Proof.
  intros. unfold kld64, elt, entry. rewrite kphys_off by (lia || apply kpage_high; assumption).
  rewrite kphys_high by lia. done.
Qed.

Lemma ROUNDDOWN_table t fl :
  t mod 4096 = 0 -> 0 <= t -> t + 4096 <= KWIN -> 0 <= fl < 4096 ->
  ROUNDDOWN (u64 (t + fl + VIRT_BASE)) PAGE_SIZE = VIRT_BASE + t.
Proof.
  intros Ha H0 Hk Hf. unfold KWIN, VIRT_BASE, PAGE_SIZE in *.
  rewrite u64_small, ROUNDDOWN_eq by lia.
  apply Z.div_exact in Ha; [|lia].
  replace ((t + fl + 18446744071562067968) mod 4096) with fl; [lia|].
  symmetry. replace (t + fl + 18446744071562067968)
    with (fl + (t / 4096 + 4503599626846208) * 4096) by lia.
  rewrite Z.mod_add by lia. apply Z.mod_small. lia.
Qed.

Ltac notin_globals := apply (bool_decide_unpack _); vm_compute; exact I.

Section fault.
Context (ready : Z -> kst -> Prop) (own : Z -> Prop) `{HPS : !PageSource ready own}.
Context (P lo : Z) (HP : P mod 4096 = 0) (HP0 : 0 <= P) (HPlo : P + 4096 <= lo).
Context (Hown : forall a, own a -> a < P).

(** The scratch globals that the look-ups assign. *)
Definition lookup_globals : list gvar := alloc_globals ++ [usr_pdp; usr_pd; usr_pt].

(** [s'] is reached from [s] by allocating the pages from [np] to [np']. *)
Record adv (np : Z) (s : kst) (np' : Z) (s' : kst) : Prop := {
  adv_ready : ready np' s';
  adv_le : np <= np';
  adv_cr3 : cr3 s' = cr3 s;
  adv_glob : same_globals lookup_globals s s';
  adv_zero : forall a, np <= a < np' -> rd8 (kmem s') a = 0;
  adv_same : forall a, ~ own a -> a < np -> rd8 (kmem s') a = rd8 (kmem s) a;
  adv_high : forall a, ~ own a -> np' <= a -> rd8 (kmem s') a = rd8 (kmem s) a }.

Lemma adv_refl np s : ready np s -> adv np s np s.
Proof. intros H. constructor; try done; lia. Qed.

Lemma adv_gput np s np' s' x v :
  adv np s np' s' -> x ∈ [usr_pdp; usr_pd; usr_pt] -> adv np s np' (s'⟦x ↦ v⟧).
Proof.
  intros [Hr Hl Hc Hg Hz Hs Hh] Hx. constructor; kst_simpl; try assumption.
  - eapply ps_frame; [exact Hr|]. intros y Hy. apply gl_gput_ne. intros ->.
    revert y Hx Hy. intros y. unfold alloc_globals. rewrite !elem_of_cons, elem_of_nil.
    intuition congruence.
  - intros y Hy. rewrite gl_gput_ne; [apply Hg, Hy|]. intros ->. apply Hy.
    unfold lookup_globals. apply elem_of_app. right. exact Hx.
Qed.

(** A table of [T], or one allocated since [np]. *)
Definition at_level (T : gmap (Z * Z) Z) (v np np1 l t : Z) : Prop :=
  T !! (l, vkey l v) = Some t \/
  (T !! (l, vkey l v) = None /\ l <> 4 /\ np <= t /\ t + 4096 <= np1 /\ t mod 4096 = 0).

(** The entry on the path tells whether the next table exists. *)
Lemma at_level_entry np s np1 s1 T L v l t :
  uinv P lo np (kmem s) T L -> user_vpn v -> adv np s np1 s1 -> 2 <= l <= 4 ->
  at_level T v np np1 l t ->
  match T !! (l - 1, vkey (l - 1) v) with
  | Some t' => exists fl, uflag fl /\ entry (kmem s1) t (vidx l v) = t' + fl
  | None => entry (kmem s1) t (vidx l v) = 0
  end.
Proof.
  intros Hi Hv Ha Hl Hat. pose proof (vidx_range l v) as Hx.
  assert (Hp : forall k t, T !! k = Some t -> t mod 4096 = 0 /\ P <= t /\ t + 4096 <= np)
    by (intros; eapply uinv_page; eauto).
  destruct Hat as [HT|(HT & Hl4 & Hge & Hle & Hal)].
  - destruct (Hp _ _ HT) as (_ & Hlo & Hhi).
    replace (entry (kmem s1) t (vidx l v)) with (entry (kmem s) t (vidx l v)).
    + eapply uinv_dir; eauto.
    + unfold entry. symmetry. apply rd64_ext. intros a Hra. apply (adv_same _ _ _ _ Ha); [|lia].
      intros Ho. specialize (Hown a Ho). lia.
  - destruct (T !! (l - 1, vkey (l - 1) v)) as [t'|] eqn:Hc.
    + exfalso. destruct (ui_parent _ _ _ _ _ _ Hi _ _ _ Hc) as [t'' Hpar]; [lia|].
      rewrite vkey_parent in Hpar by lia. replace (l - 1 + 1) with l in Hpar by lia. congruence.
    + unfold entry. apply rd64_zero. intros a Hra. apply (adv_zero _ _ _ _ Ha). lia.
Qed.

Lemma lookup_step np s np1 s1 T L v l t :
  uinv P lo np (kmem s) T L -> user_vpn v -> adv np s np1 s1 -> 2 <= l <= 4 ->
  at_level T v np np1 l t -> np1 + 4096 <= KWIN ->
  exists p np2 s2 t', lookup_or_alloc s1 (VIRT_BASE + t) (vidx l v) = (p, s2)
    /\ ROUNDDOWN p PAGE_SIZE = VIRT_BASE + t' /\ adv np s np2 s2 /\ np1 <= np2 <= np1 + 4096
    /\ at_level T v np1 np2 (l - 1) t'.
Proof.
  intros Hi Hv Ha Hl Hat Hw. pose proof (vidx_range l v) as Hx.
  pose proof (at_level_entry _ _ _ _ _ _ _ _ _ Hi Hv Ha Hl Hat) as He.
  pose proof (ui_lo _ _ _ _ _ _ Hi) as Hlo. pose proof (adv_le _ _ _ _ Ha) as Hle.
  assert (Ht : t mod 4096 = 0 /\ P <= t /\ t + 4096 <= np1).
  { destruct Hat as [HT|(_ & _ & ? & ? & ?)]; [|lia].
    assert (t mod 4096 = 0 /\ P <= t /\ t + 4096 <= np) by (eapply uinv_page; eauto). lia. }
  destruct Ht as (Hta & Htl & Hth). unfold lookup_or_alloc.
  rewrite kld64_high by (assumption || lia).
  destruct (T !! (l - 1, vkey (l - 1) v)) as [t'|] eqn:Hc.
  - destruct He as (fl & Hfl & ->).
    assert (Hp : t' mod 4096 = 0 /\ P <= t' /\ t' + 4096 <= np) by (eapply uinv_page; eauto).
    destruct Hp as (Hpa & Hpl & Hph).
    assert (0 < fl < 4096) by (unfold uflag in Hfl; lia).
    rewrite (proj2 (Z.eqb_neq _ 0)) by lia. cbn [negb].
    eexists _, np1, s1, t'. split; [reflexivity|]. split; [apply ROUNDDOWN_table; lia|].
    split; [exact Ha|]. split; [lia|]. left. exact Hc.
  - rewrite He. cbn [negb Z.eqb].
    destruct (ps_alloc np1 s1 (adv_ready _ _ _ _ Ha) Hw) as (s2 & -> & Hr2 & Hc2 & Hg2 & Hz2 & Hf2).
    destruct (ps_next np1 s1 (adv_ready _ _ _ _ Ha)) as [Hna Hnl].
    eexists _, (np1 + 4096), s2, np1. split; [reflexivity|].
    split; [|split; [|split; [lia|right; split; [exact Hc|lia]]]].
    + replace (VIRT_BASE + np1) with (u64 (np1 + 0 + VIRT_BASE)) at 1
        by (rewrite u64_small; unfold VIRT_BASE, KWIN in *; lia).
      apply ROUNDDOWN_table; lia.
    + destruct Ha as [Hr1 _ Hc1 Hg1 Hz1 Hs1 Hh1]. constructor; [assumption|lia|congruence|..].
      * intros x Hx'. rewrite Hg2, Hg1; [reflexivity|exact Hx'|].
        intros Hin. apply Hx'. unfold lookup_globals. apply elem_of_app. left. exact Hin.
      * intros a Hra. destruct (decide (np1 <= a)); [apply Hz2; lia|].
        rewrite Hf2; [apply Hz1; lia| |lia]. intros Ho. specialize (Hown a Ho). lia.
      * intros a Ho Hra. rewrite Hf2 by (assumption || lia). apply Hs1; [exact Ho|lia].
      * intros a Ho Hra. rewrite Hf2 by (assumption || lia). apply Hh1; [exact Ho|lia].
Qed.

Lemma at_level_weaken T v a b a' b' l t :
  at_level T v a b l t -> a' <= a -> b <= b' -> at_level T v a' b' l t.
Proof. intros [H|(H & H4 & H1 & H2 & H3)] Ha Hb; [left; exact H|right]. split; [exact H|lia]. Qed.

(** The three tables on the path of [va]. *)
Lemma user_tables_spec np s T L va :
  uinv P lo np (kmem s) T L -> ready np s -> s⟦pml4_shared⟧ = VIRT_BASE + P ->
  0 <= va < 2 ^ 47 -> np + 3 * 4096 <= KWIN ->
  exists t3 t2 t1 np1 np2 np3 s',
    user_tables s va = (VIRT_BASE + t3, VIRT_BASE + t2, VIRT_BASE + t1, s')
    /\ adv np s np3 s' /\ np <= np1 <= np2 /\ np2 <= np3 <= np + 3 * 4096
    /\ at_level T (va / 4096) np np1 3 t3 /\ at_level T (va / 4096) np1 np2 2 t2
    /\ at_level T (va / 4096) np2 np3 1 t1.
Proof.
  intros Hi Hr H4 Hva Hw. set (v := va / 4096).
  assert (Hv : user_vpn v).
  { unfold user_vpn, v. split; [apply Z.div_pos; lia|]. apply Z.div_lt_upper_bound; lia. }
  destruct (offsets_vidx va) as (O4 & O3 & O2 & _). fold v in O4, O3, O2.
  assert (Hat4 : at_level T v np np 4 P).
  { left. destruct (user_vpn_top v Hv) as [-> _]. apply (ui_root _ _ _ _ _ _ Hi). }
  unfold user_tables, get_pdp, get_pd, get_pt. rewrite H4, O4, O3, O2.
  destruct (lookup_step np s np s T L v 4 P Hi Hv (adv_refl np s Hr) ltac:(lia) Hat4 ltac:(lia))
    as (p3 & np1 & s1 & t3 & E3 & R3 & A3 & Hn1 & At3).
  unfold lookup_or_alloc in E3. rewrite E3, R3.
  set (s1' := s1⟦usr_pdp ↦ VIRT_BASE + t3⟧).
  assert (A3' : adv np s np1 s1') by (apply adv_gput; [exact A3|]; set_solver).
  change (4 - 1) with 3 in At3.
  destruct (lookup_step np s np1 s1' T L v 3 t3 Hi Hv A3' ltac:(lia) At3 ltac:(lia))
    as (p2 & np2 & s2 & t2 & E2 & R2 & A2 & Hn2 & At2).
  unfold lookup_or_alloc in E2. rewrite E2, R2.
  set (s2' := s2⟦usr_pd ↦ VIRT_BASE + t2⟧).
  assert (A2' : adv np s np2 s2') by (apply adv_gput; [exact A2|]; set_solver).
  change (3 - 1) with 2 in At2. pose proof (adv_le _ _ _ _ A3) as Hle1.
  destruct (lookup_step np s np2 s2' T L v 2 t2 Hi Hv A2' ltac:(lia)
    (at_level_weaken _ _ _ _ _ _ _ _ At2 Hle1 (Z.le_refl _)) ltac:(lia))
    as (p1 & np3 & s3 & t1 & E1 & R1 & A1 & Hn3 & At1).
  unfold lookup_or_alloc in E1. rewrite E1, R1.
  exists t3, t2, t1, np1, np2, np3, (s3⟦usr_pt ↦ VIRT_BASE + t1⟧).
  split; [reflexivity|]. split; [apply adv_gput; [exact A1|]; set_solver|].
  split; [lia|]. split; [lia|]. split; [exact At3|]. split; [exact At2|exact At1].
Qed.

(** What [add_user_page] assigns. *)
Definition page_globals : list gvar := [usr_phys_addr; usr_pt; usr_pd; usr_pdp; usr_pml; pml4_shared].

Lemma alloc_not_page x : x ∈ alloc_globals -> x ∉ page_globals.
Proof.
  assert (H : forallb (fun y => bool_decide (y ∉ page_globals)) alloc_globals = true)
    by (vm_compute; reflexivity).
  rewrite forallb_forall in H. intros Hx. apply (bool_decide_eq_true_1 _), H.
  by apply list_elem_of_In.
Qed.

(** The frame behind [f] in the pool. *)
Definition next_frame (f : Z) : Z := if f + 4096 <? 0x6000000 then f + 4096 else 0x5000000.

Definition user_frame (f : Z) : Prop := f mod 4096 = 0 /\ 0x5000000 <= f < 0x6000000.

Lemma next_frame_user f : user_frame f -> user_frame (next_frame f).
Proof.
  unfold user_frame, next_frame. intros [Ha Hr]. case Z.ltb_spec; intros; [|split; [reflexivity|lia]].
  rewrite Z.add_mod, Ha by lia. split; [reflexivity|lia].
Qed.

(** The four entries, as one function on memory. *)
Definition path_mem (m : mem) (v t3 t2 t1 frame perm : Z) : mem :=
  entry_mem (entry_mem (entry_mem (entry_mem m
    (t1 + 8 * vidx 1 v) frame perm) (t2 + 8 * vidx 2 v) t1 perm)
    (t3 + 8 * vidx 3 v) t2 perm) (P + 8 * vidx 4 v) t3 perm.

Definition table_frame (t : Z) : Prop := t mod 4096 = 0 /\ 0 <= t /\ t + 4096 <= KWIN.

Lemma add_user_page_spec s va t3 t2 t1 perm :
  table_frame P -> table_frame t3 -> table_frame t2 -> table_frame t1 ->
  s⟦pml4_shared⟧ = VIRT_BASE + P -> s⟦virt_base_for_user⟧ = VIRT_BASE ->
  user_frame (s⟦usr_phys_addr⟧) ->
  exists s', add_user_page s va (VIRT_BASE + t3) (VIRT_BASE + t2) (VIRT_BASE + t1) perm = s'
    /\ kmem s' = path_mem (kmem s) (va / 4096) t3 t2 t1 (s⟦usr_phys_addr⟧) perm
    /\ cr3 s' = cr3 s /\ same_globals page_globals s s'
    /\ s'⟦pml4_shared⟧ = VIRT_BASE + P /\ s'⟦usr_phys_addr⟧ = next_frame (s⟦usr_phys_addr⟧).
Proof.
  intros HPt (Ha3 & H30 & H3k) (Ha2 & H20 & H2k) (Ha1 & H10 & H1k) H4 Hvb [Hfa Hfr].
  destruct HPt as (_ & _ & HPk). destruct (offsets_vidx va) as (O4 & O3 & O2 & O1).
  assert (HV : VIRT_BASE = 18446744071562067968) by reflexivity.
  assert (HK : KWIN = 102760448) by reflexivity.
  unfold add_user_page, get_user_phys_addr. rewrite O4, O3, O2, O1. cbn [Z.eqb].
  rewrite u64_small by (unfold PAGE_SIZE; lia). unfold PAGE_SIZE.
  set (f := s⟦usr_phys_addr⟧) in *. set (v := va / 4096).
  set (s0 := if f + 4096 <? 100663296 then _ else _).
  assert (Hs0 : kmem s0 = kmem s /\ cr3 s0 = cr3 s /\ same_globals [usr_phys_addr] s s0
    /\ s0⟦usr_phys_addr⟧ = next_frame f).
  { unfold s0, next_frame. destruct (f + 4096 <? 100663296); kst_simpl;
      (split; [reflexivity|]; split; [reflexivity|]; split; [|reflexivity]);
      intros x Hx; apply gl_gput_ne; intros <-; apply Hx; apply list_elem_of_here. }
  destruct Hs0 as (Hm0 & Hc0 & Hg0 & Hf0). clearbody s0.
  assert (H4' : s0⟦pml4_shared⟧ = VIRT_BASE + P)
    by (rewrite Hg0; [exact H4|apply (bool_decide_unpack _); vm_compute; exact I]).
  assert (Hvb' : s0⟦virt_base_for_user⟧ = VIRT_BASE)
    by (rewrite Hg0; [exact Hvb|apply (bool_decide_unpack _); vm_compute; exact I]).
  pose proof (vidx_range 1 v). pose proof (vidx_range 2 v). pose proof (vidx_range 3 v).
  pose proof (vidx_range 4 v). rewrite H4'.
  rewrite !put_entry_eq; try assumption; try (apply kpage_high; lia).
  kst_simpl. rewrite !kphys_high by lia. rewrite Hm0, Hvb'.
  rewrite !u64_small by lia.
  replace (VIRT_BASE + t1 - VIRT_BASE) with t1 by lia.
  replace (VIRT_BASE + t2 - VIRT_BASE) with t2 by lia.
  replace (VIRT_BASE + t3 - VIRT_BASE) with t3 by lia.
  eexists. split; [reflexivity|]. kst_simpl. split; [reflexivity|]. split; [exact Hc0|].
  split; [|split; [reflexivity|exact Hf0]].
  intros x Hx. unfold page_globals in Hx. rewrite !not_elem_of_cons in Hx. destruct_and!.
  repeat first [rewrite gl_gput_ne by congruence | rewrite gl_with_mem].
  apply Hg0. rewrite list_elem_of_singleton. assumption.
Qed.

(** The tables on the path as a function of the level. *)
Definition path_fun (t3 t2 t1 l : Z) : Z :=
  if l =? 4 then P else if l =? 3 then t3 else if l =? 2 then t2 else t1.

Lemma level_cases l : 1 <= l <= 4 -> l = 1 \/ l = 2 \/ l = 3 \/ l = 4.
Proof. lia. Qed.

Section path_mem.
Context (m : mem) (v t3 t2 t1 frame perm : Z).
Context (HPt : table_frame P) (H3 : table_frame t3) (H2 : table_frame t2) (H1 : table_frame t1).
Context (Hd : P <> t3 /\ P <> t2 /\ P <> t1 /\ t3 <> t2 /\ t3 <> t1 /\ t2 <> t1).
Context (Hfr : user_frame frame) (Hperm : uflag perm).

Lemma pages_apart a b : table_frame a -> table_frame b -> a <> b -> a + 4096 <= b \/ b + 4096 <= a.
Proof.
  intros (Ha & _ & _) (Hb & _ & _) Hne.
  apply Z.div_exact in Ha; [|lia]. apply Z.div_exact in Hb; [|lia]. lia.
Qed.

Lemma entry_entry_mem m' t i v' pm :
  0 <= v' < 2 ^ 63 -> v' mod 4096 = 0 -> 0 <= pm < 4096 ->
  entry (entry_mem m' (t + 8 * i) v' pm) t i = v' + pm.
Proof. intros. unfold entry. apply rd64_entry_mem; assumption. Qed.

Lemma entry_entry_mem_ne m' t i v' pm t' i' :
  table_frame t -> table_frame t' -> 0 <= i < 512 -> 0 <= i' < 512 -> (t = t' -> i <> i') ->
  entry (entry_mem m' (t + 8 * i) v' pm) t' i' = entry m' t' i'.
Proof.
  intros Ht Ht' Hi Hi' Hne. unfold entry. apply rd64_entry_mem_ne.
  destruct (decide (t = t')) as [->|Hn]; [specialize (Hne eq_refl); lia|].
  destruct (pages_apart t t' Ht Ht' Hn); lia.
Qed.

Lemma path_mem_new l :
  1 <= l <= 4 ->
  entry (path_mem m v t3 t2 t1 frame perm) (path_fun t3 t2 t1 l) (vidx l v)
  = (if l =? 1 then frame else path_fun t3 t2 t1 (l - 1)) + perm.
Proof.
  intros Hl. destruct Hd as (D1 & D2 & D3 & D4 & D5 & D6). unfold path_mem.
  pose proof (vidx_range 1 v). pose proof (vidx_range 2 v). pose proof (vidx_range 3 v).
  pose proof (vidx_range 4 v).
  assert (Hsm : forall t, table_frame t -> 0 <= t < 2 ^ 63 /\ t mod 4096 = 0)
    by (unfold table_frame, KWIN; intros; lia).
  assert (0 <= perm < 4096) by (unfold uflag in Hperm; lia). destruct Hfr as [Hfa Hfb].
  destruct (level_cases l Hl) as [->|[->|[->| ->]]]; unfold path_fun; cbn [Z.eqb Pos.eqb Z.sub Z.add Z.opp Z.pos_sub Pos.pred_double];
    rewrite ?entry_entry_mem_ne by (assumption || (intros; congruence));
    apply entry_entry_mem; try lia; try (apply Hsm; assumption).
Qed.

Lemma path_mem_rest t i :
  table_frame t -> 0 <= i < 512 ->
  (forall l, 1 <= l <= 4 -> t = path_fun t3 t2 t1 l -> i <> vidx l v) ->
  entry (path_mem m v t3 t2 t1 frame perm) t i = entry m t i.
Proof.
  intros Ht Hi Hn. unfold path_mem.
  pose proof (vidx_range 1 v). pose proof (vidx_range 2 v). pose proof (vidx_range 3 v).
  pose proof (vidx_range 4 v).
  rewrite !entry_entry_mem_ne; try assumption; try reflexivity; intros <- E; symmetry in E;
    revert E; [apply (Hn 1)|apply (Hn 2)|apply (Hn 3)|apply (Hn 4)]; reflexivity || lia.
Qed.

Lemma path_mem_frame a :
  ~ (t3 <= a < t3 + 4096) -> ~ (t2 <= a < t2 + 4096) -> ~ (t1 <= a < t1 + 4096) ->
  ~ (P + 8 * vidx 4 v <= a < P + 8 * vidx 4 v + 8) ->
  rd8 (path_mem m v t3 t2 t1 frame perm) a = rd8 m a.
Proof.
  intros. unfold path_mem.
  pose proof (vidx_range 1 v). pose proof (vidx_range 2 v). pose proof (vidx_range 3 v).
  rewrite !rd8_entry_mem_ne by lia. reflexivity.
Qed.
End path_mem.

(** ** The address space of a running process *)

Record uspace (np : Z) (s : kst) (T : gmap (Z * Z) Z) (L : gmap Z Z) : Prop := {
  us_ready : ready np s;
  us_pml4 : s⟦pml4_shared⟧ = VIRT_BASE + P;
  us_virt : s⟦virt_base_for_user⟧ = VIRT_BASE;
  us_cr3 : cr3 s = P;
  us_frame : user_frame (s⟦usr_phys_addr⟧);
  us_inv : uinv P lo np (kmem s) T L }.

(** Memory below [lo] that user mappings leave alone: everything but the
    allocator's own cells and the lower half of the PML4. *)
Definition kernel_same (s s' : kst) : Prop :=
  forall a, a < lo -> ~ own a -> ~ (P <= a < P + 2048) -> rd8 (kmem s') a = rd8 (kmem s) a.

(** [a] is in no user table; of the PML4 only the lower half is the user's. *)
Definition outside (T : gmap (Z * Z) Z) (a : Z) : Prop :=
  forall k t, T !! k = Some t -> ~ (t <= a < t + (if decide (k = (4, 0)) then 2048 else 4096)).

(** Memory that a step from [np] to [np'] leaves alone, and that stays free of
    tables. *)
Definition data_same (np np' : Z) (T T' : gmap (Z * Z) Z) (s s' : kst) : Prop :=
  forall a, a < np \/ np' <= a -> ~ own a -> outside T a ->
    rd8 (kmem s') a = rd8 (kmem s) a /\ outside T' a.

Lemma outside_kernel np m T L a :
  uinv P lo np m T L -> a < lo -> ~ (P <= a < P + 2048) -> outside T a.
Proof.
  intros Hi Ha HPa k t Hk. case_decide as Hd.
  - subst k. rewrite (ui_root _ _ _ _ _ _ Hi) in Hk. injection Hk as <-. exact HPa.
  - destruct (ui_ok _ _ _ _ _ _ Hi _ _ Hk Hd). lia.
Qed.

Lemma outside_high np m T L a : uinv P lo np m T L -> np <= a -> outside T a.
Proof.
  intros Hi Ha k t Hk.
  assert (t mod 4096 = 0 /\ P <= t /\ t + 4096 <= np) by (eapply uinv_page; eauto).
  case_decide; lia.
Qed.

Lemma at_level_outside T v np np1 l t a :
  at_level T v np np1 l t -> l <> 4 -> outside T a -> a < np \/ np1 <= a -> ~ (t <= a < t + 4096).
Proof.
  intros [H|(_ & _ & Hge & Hle & _)] Hl Ho Ha; [|lia].
  specialize (Ho _ _ H). rewrite decide_False in Ho by congruence. exact Ho.
Qed.

Lemma at_level_page T L v np np1 l t m :
  uinv P lo np m T L -> 1 <= l <= 3 -> np <= np1 -> at_level T v np np1 l t ->
  table_page lo np1 t.
Proof.
  intros Hi Hl Hn [HT|(_ & _ & Hge & Hle & Ha)].
  - destruct (ui_ok _ _ _ _ _ _ Hi _ _ HT) as [? ? ?]; [intros [=]; lia|]. split; lia.
  - pose proof (ui_lo _ _ _ _ _ _ Hi). split; lia.
Qed.

Lemma at_level_ne T L v np np1 np2 l l' t t' m :
  uinv P lo np m T L -> np <= np1 -> l <> l' ->
  at_level T v np np1 l t -> at_level T v np1 np2 l' t' -> t <> t'.
Proof.
  intros Hi Hn Hl [H|(_ & _ & Hge & Hle & _)] [H'|(_ & _ & Hge' & Hle' & _)] <-.
  - pose proof (ui_inj _ _ _ _ _ _ Hi _ _ _ H H') as [=]. contradiction.
  - assert (t mod 4096 = 0 /\ P <= t /\ t + 4096 <= np) by (eapply uinv_page; eauto). lia.
  - assert (t mod 4096 = 0 /\ P <= t /\ t + 4096 <= np) by (eapply uinv_page; eauto). lia.
  - lia.
Qed.

(** The tables that the look-ups return, in the form that [uinv_add] asks for. *)
Lemma path_ok_at T v np np1 np2 np3 s s' L t3 t2 t1 :
  uinv P lo np (kmem s) T L -> adv np s np3 s' -> np <= np1 <= np2 -> np2 <= np3 ->
  at_level T v np np1 3 t3 -> at_level T v np1 np2 2 t2 -> at_level T v np2 np3 1 t1 ->
  path_ok lo np np3 (kmem s') T v (path_fun t3 t2 t1).
Proof.
  intros Hi Ha Hn12 Hn3 A3 A2 A1.
  assert (Hone : forall l t a b, 1 <= l <= 3 -> np <= a -> b <= np3 -> at_level T v a b l t ->
    T !! (l, vkey l v) = Some t \/
    (T !! (l, vkey l v) = None /\ np <= t /\ table_page lo np3 t /\
     forall i, 0 <= i < 512 -> entry (kmem s') t i = 0)).
  { intros l t a b Hl Hna Hb [HT|(HT & _ & Hge & Hle & Hal)]; [left; exact HT|right].
    pose proof (ui_lo _ _ _ _ _ _ Hi).
    split; [exact HT|]. split; [lia|]. split; [split; lia|]. intros i Hii.
    unfold entry. apply rd64_zero. intros x Hx. apply (adv_zero _ _ _ _ Ha). lia. }
  intros l Hl. assert (l = 1 \/ l = 2 \/ l = 3) as [->|[->| ->]] by lia.
  - apply (Hone 1 t1 np2 np3); [lia|lia|lia|exact A1].
  - apply (Hone 2 t2 np1 np2); [lia|lia|lia|exact A2].
  - apply (Hone 3 t3 np np1); [lia|lia|lia|exact A3].
Qed.

Lemma table_page_frame np t : np <= KWIN -> table_page lo np t -> table_frame t.
Proof. intros Hk [Ha Hl Hh]. unfold table_frame. lia. Qed.

(** The walk through a freshly written path. *)
Lemma path_mem_walk m va t3 t2 t1 frame perm :
  table_frame P -> table_frame t3 -> table_frame t2 -> table_frame t1 ->
  P <> t3 /\ P <> t2 /\ P <> t1 /\ t3 <> t2 /\ t3 <> t1 /\ t2 <> t1 ->
  user_frame frame -> uflag perm ->
  walk (path_mem m (va / 4096) t3 t2 t1 frame perm) P va
  = Some (mk_tr (frame + va mod 4096) (Z.testbit perm 1) true).
Proof.
  intros HPt H3 H2 H1 Hd Hf Hp. set (v := va / 4096).
  pose proof (path_mem_new m v t3 t2 t1 frame perm HPt H3 H2 H1 Hd Hf Hp) as Hn.
  assert (HPf : pte_frame P = P).
  { destruct HPt as (? & ? & ?). rewrite <- (Z.add_0_r P) at 1.
    apply pte_frame_add; unfold KWIN in *; lia. }
  destruct (uflag_table perm Hp) as [Hfl Hu]. pose proof Hfl as (Hfr & Hpr & _).
  rewrite (walk_4k _ P va t3 t2 t1 frame perm perm perm perm).
  - rewrite Hu. f_equal. f_equal. destruct (Z.testbit perm 1); reflexivity.
  - rewrite HPf, va_index_vidx by lia. exact (Hn 4 ltac:(lia)).
  - rewrite va_index_vidx by lia. exact (Hn 3 ltac:(lia)).
  - rewrite va_index_vidx by lia. exact (Hn 2 ltac:(lia)).
  - rewrite va_index_vidx by lia. exact (Hn 1 ltac:(lia)).
  - assert (Ht : forall t, table_frame t -> 0 <= t < 2 ^ 52 /\ t mod 4096 = 0)
      by (unfold table_frame, KWIN; intros; lia).
    apply Forall_cons_2; [apply Ht; assumption|]. apply Forall_cons_2; [apply Ht; assumption|].
    apply Forall_cons_2; [apply Ht; assumption|]. apply Forall_singleton.
    destruct Hf as [Ha Hb]. split; [lia|exact Ha].
  - apply Forall_cons_2; [exact Hfl|]. apply Forall_cons_2; [exact Hfl|].
    apply Forall_singleton. exact Hfl.
  - exact Hfr.
  - exact Hpr.
Qed.

Lemma path_fun_inj t3 t2 t1 l l' :
  P <> t3 /\ P <> t2 /\ P <> t1 /\ t3 <> t2 /\ t3 <> t1 /\ t2 <> t1 ->
  1 <= l <= 4 -> 1 <= l' <= 4 -> path_fun t3 t2 t1 l = path_fun t3 t2 t1 l' -> l = l'.
Proof.
  intros Hd Hl Hl'. unfold path_fun.
  destruct (level_cases l Hl) as [->|[->|[->| ->]]], (level_cases l' Hl') as [->|[->|[->| ->]]];
    cbn [Z.eqb Pos.eqb]; lia.
Qed.

(** Looking up the tables of [va] and adding its page. *)
Lemma user_page_spec np s T L va perm :
  uspace np s T L -> 0 <= va < 2 ^ 47 -> uflag perm -> np + 3 * 4096 <= KWIN ->
  exists t3 t2 t1 s1, user_tables s va = (VIRT_BASE + t3, VIRT_BASE + t2, VIRT_BASE + t1, s1)
    /\ forall va', va' / 4096 = va / 4096 ->
    exists np' s' T',
      add_user_page s1 va' (VIRT_BASE + t3) (VIRT_BASE + t2) (VIRT_BASE + t1) perm = s'
      /\ uspace np' s' T' (<[va / 4096 := s⟦usr_phys_addr⟧ + perm]> L)
      /\ np <= np' <= np + 3 * 4096 /\ data_same np np' T T' s s'
      /\ same_globals (lookup_globals ++ page_globals) s s'
      /\ s'⟦usr_phys_addr⟧ = next_frame (s⟦usr_phys_addr⟧)
      /\ walk (kmem s') P va
         = Some (mk_tr (s⟦usr_phys_addr⟧ + va mod 4096) (Z.testbit perm 1) true)
      /\ forall va', 0 <= va' < 2 ^ 47 -> va' / 4096 <> va / 4096 -> kept_page P perm va (kmem s) (kmem s') va'.
Proof.
  intros [Hr H4 Hvb Hc Hf Hi] Hva Hp Hw.
  destruct (user_tables_spec np s T L va Hi Hr H4 Hva Hw)
    as (t3 & t2 & t1 & np1 & np2 & np3 & s1 & E & Ha & Hn & Hn3 & A3 & A2 & A1).
  exists t3, t2, t1, s1. split; [exact E|]. intros va' Hv'. clear E.
  pose proof (ui_lo _ _ _ _ _ _ Hi) as Hlo. set (v := va / 4096) in *.
  assert (Hv : user_vpn v).
  { unfold user_vpn, v. split; [apply Z.div_pos; lia|]. apply Z.div_lt_upper_bound; lia. }
  assert (A2w : at_level T v np np2 2 t2) by (eapply at_level_weaken; [exact A2|lia|lia]).
  assert (A1w : at_level T v np np3 1 t1) by (eapply at_level_weaken; [exact A1|lia|lia]).
  assert (A3w : at_level T v np np2 3 t3) by (eapply at_level_weaken; [exact A3|lia|lia]).
  assert (P3 : table_page lo np3 t3).
  { eapply at_level_page; [exact Hi|..|eapply at_level_weaken; [exact A3|lia|]]; lia. }
  assert (P2 : table_page lo np3 t2).
  { eapply at_level_page; [exact Hi|..|eapply at_level_weaken; [exact A2w|lia|]]; lia. }
  assert (P1 : table_page lo np3 t1) by (eapply at_level_page; [exact Hi|..|exact A1w]; lia).
  assert (HPt : table_frame P) by (unfold table_frame; lia).
  pose proof (table_page_frame np3 t3 ltac:(lia) P3) as F3.
  pose proof (table_page_frame np3 t2 ltac:(lia) P2) as F2.
  pose proof (table_page_frame np3 t1 ltac:(lia) P1) as F1.
  assert (Hd : P <> t3 /\ P <> t2 /\ P <> t1 /\ t3 <> t2 /\ t3 <> t1 /\ t2 <> t1).
  { destruct P3, P2, P1. split; [lia|]. split; [lia|]. split; [lia|].
    split; [exact (at_level_ne T L v np np1 np2 3 2 t3 t2 _ Hi ltac:(lia) ltac:(lia) A3 A2)|].
    split; [exact (at_level_ne T L v np np2 np3 3 1 t3 t1 _ Hi ltac:(lia) ltac:(lia) A3w A1)|].
    exact (at_level_ne T L v np np2 np3 2 1 t2 t1 _ Hi ltac:(lia) ltac:(lia) A2w A1). }
  pose proof (adv_glob _ _ _ _ Ha) as Hg.
  destruct (add_user_page_spec s1 va' t3 t2 t1 perm HPt F3 F2 F1)
    as (s' & -> & Hm & Hc' & Hg' & H4' & Hnf); [rewrite Hg by notin_globals; assumption..|].
  rewrite Hv' in Hm. rewrite (Hg usr_phys_addr) in Hm, Hnf by notin_globals.
  exists np3, s', (path_tabs T v (path_fun t3 t2 t1)). split; [reflexivity|].
  assert (Hsame : forall a, ~ own a -> a < np -> rd8 (kmem s1) a = rd8 (kmem s) a)
    by apply (adv_same _ _ _ _ Ha).
  assert (Hk4 : vidx 4 v < 256) by (apply user_vpn_top, Hv). pose proof (vidx_range 4 v).
  assert (Hpath : path_ok lo np np3 (kmem s1) T v (path_fun t3 t2 t1))
    by (eapply path_ok_at; try eassumption; lia).
  assert (Hold : forall k t i, T !! k = Some t -> 0 <= i < 512 -> entry (kmem s1) t i = entry (kmem s) t i).
  { intros k t i Hk Hii. unfold entry. apply rd64_ext. intros a Hra.
    assert (t mod 4096 = 0 /\ P <= t /\ t + 4096 <= np) by (eapply uinv_page; eauto).
    apply Hsame; [intros Ho; specialize (Hown a Ho); lia|lia]. }
  assert (Hnew : forall l, 1 <= l <= 4 -> entry (kmem s') (path_fun t3 t2 t1 l) (vidx l v)
    = (if l =? 1 then s⟦usr_phys_addr⟧ else path_fun t3 t2 t1 (l - 1)) + perm).
  { intros l Hl. rewrite Hm. apply path_mem_new; assumption. }
  assert (Hrest : forall k t i, path_tabs T v (path_fun t3 t2 t1) !! k = Some t -> 0 <= i < 512 ->
    (forall l, 1 <= l <= 4 -> t = path_fun t3 t2 t1 l -> i <> vidx l v) -> entry (kmem s') t i = entry (kmem s1) t i).
  { intros k t i Hk Hii Hn'. rewrite Hm. apply path_mem_rest; try assumption.
    destruct (decide (k = (4, 0))) as [->|Hk0].
    - rewrite path_tabs_lookup, decide_False in Hk by lia.
      rewrite (ui_root _ _ _ _ _ _ Hi) in Hk. injection Hk as <-. exact HPt.
    - apply (table_page_frame np3); [lia|].
      eapply path_page; [exact Hi|..|exact Hk|exact Hk0]; [lia|exact Hpath]. }
  assert (Hdist : forall l l', 1 <= l <= 4 -> 1 <= l' <= 4 -> path_fun t3 t2 t1 l = path_fun t3 t2 t1 l' -> l = l')
    by (intros l l'; apply path_fun_inj, Hd).
  pose proof Hf as [Hfa Hfr].
  split; [|split; [lia|split; [|split; [|split; [exact Hnf|split]]]]].
  - constructor.
    + eapply ps_frame; [exact (adv_ready _ _ _ _ Ha)|]. intros x Hx. apply Hg'.
      revert Hx. apply alloc_not_page.
    + exact H4'.
    + rewrite Hg', Hg by notin_globals. exact Hvb.
    + rewrite Hc', (adv_cr3 _ _ _ _ Ha). exact Hc.
    + rewrite Hnf. apply next_frame_user, Hf.
    + apply (uinv_add P lo HP HPlo np np3 (kmem s) (kmem s1)); try assumption; [lia|reflexivity].
  - intros a Hra Ho HT. assert (A3n : at_level T v np np3 3 t3)
      by (eapply at_level_weaken; [exact A3|lia|lia]).
    assert (A2n : at_level T v np np3 2 t2) by (eapply at_level_weaken; [exact A2|lia|lia]).
    pose proof (at_level_outside _ _ _ _ _ _ a A3n ltac:(lia) HT Hra) as O3.
    pose proof (at_level_outside _ _ _ _ _ _ a A2n ltac:(lia) HT Hra) as O2.
    pose proof (at_level_outside _ _ _ _ _ _ a A1w ltac:(lia) HT Hra) as O1.
    pose proof (HT _ _ (ui_root _ _ _ _ _ _ Hi)) as O4. rewrite decide_True in O4 by reflexivity.
    split.
    + rewrite Hm, path_mem_frame by lia.
      destruct Hra; [apply Hsame|apply (adv_high _ _ _ _ Ha)]; assumption.
    + intros [l p] t. rewrite path_tabs_lookup. case_decide as Hd'; [|apply HT].
      destruct Hd' as [Hl ->]. intros [= <-]. rewrite decide_False by (intros [=]; lia).
      unfold path_fun. assert (l = 1 \/ l = 2 \/ l = 3) as [->|[->| ->]] by lia; assumption.
  - intros x Hx. rewrite Hg', Hg; [reflexivity|..]; intros Hin; apply Hx, elem_of_app; auto.
  - rewrite Hm. apply path_mem_walk; assumption.
  - intros va2 Hva2 Hne. eapply (add_others P lo HP HP0 HPlo np np3 (kmem s) (kmem s1)); try eassumption; [lia|reflexivity|reflexivity].
Qed.

Lemma uspace_flush np s T L :
  uspace np s T L -> uspace np (tlb_flush s (u64 (s⟦pml4_shared⟧ - VIRT_BASE))) T L.
Proof.
  intros [Hr H4 Hvb Hc Hf Hi]. rewrite H4. replace (VIRT_BASE + P - VIRT_BASE) with P by lia.
  pose proof (ui_lo _ _ _ _ _ _ Hi). rewrite u64_small by (unfold KWIN in *; lia).
  constructor; try assumption; [|reflexivity].
  eapply ps_frame; [exact Hr|]. reflexivity.
Qed.

(** What a mapping step may assign. *)
Definition map_globals : list gvar := lookup_globals ++ page_globals.
Definition addr_globals : list gvar := [user_addr; pml_same_ctxt].

(** What a step that maps one page guarantees. *)
Record maps_page (np : Z) (s : kst) (T : gmap (Z * Z) Z) (L : gmap Z Z) (va perm : Z) (s' : kst)
    : Prop := {
  mp_space : exists np' T', np <= np' <= np + 3 * 4096 /\
    uspace np' s' T' (<[va / 4096 := s⟦usr_phys_addr⟧ + perm]> L) /\ data_same np np' T T' s s';
  mp_next : s'⟦usr_phys_addr⟧ = next_frame (s⟦usr_phys_addr⟧);
  mp_glob : same_globals (map_globals ++ addr_globals) s s';
  mp_walk : walk (kmem s') (cr3 s') va
    = Some (mk_tr (s⟦usr_phys_addr⟧ + va mod 4096) (Z.testbit perm 1) true);
  mp_others : forall va', 0 <= va' < 2 ^ 47 -> va' / 4096 <> va / 4096 ->
    kept_page P perm va (kmem s) (kmem s') va' }.

Lemma data_kernel np np' s T L s' T' :
  uspace np s T L -> data_same np np' T T' s s' -> kernel_same s s'.
Proof.
  intros Hu Hd a Ha Ho HPa. pose proof (us_inv _ _ _ _ Hu) as Hi. apply Hd; [|exact Ho|].
  - pose proof (ui_lo _ _ _ _ _ _ Hi). lia.
  - eapply outside_kernel; eassumption.
Qed.

Lemma mp_kernel np s T L va perm s' :
  uspace np s T L -> maps_page np s T L va perm s' -> kernel_same s s'.
Proof. intros Hu [(np' & T' & _ & _ & Hd) _ _ _ _]. eapply data_kernel; eassumption. Qed.

(** The tables that are looked up depend on the 2 MiB region alone. *)
Lemma user_tables_region s va va' : va / 2 ^ 21 = va' / 2 ^ 21 -> user_tables s va = user_tables s va'.
Proof.
  intros H. unfold user_tables, get_pdp, get_pd, get_pt.
  rewrite !get_pml4_offset_eq, !get_pdp_offset_eq, !get_pd_offset_eq.
  change 1073741824 with (2 ^ 21 * 512). change 549755813888 with (2 ^ 21 * 2 ^ 18).
  change 2097152 with (2 ^ 21). rewrite <- !Z.div_div, H by lia. reflexivity.
Qed.

(** Looking up tables, adding one page and reloading [%cr3]: the common part of
    the cases of [memmap] for a single page. *)
Lemma map_one np s T L va va' perm :
  uspace np s T L -> va / 2 ^ 21 = va' / 2 ^ 21 -> 0 <= va' < 2 ^ 47 -> uflag perm ->
  np + 3 * 4096 <= KWIN ->
  exists t3 t2 t1 s1, user_tables s va = (t3, t2, t1, s1) /\
    forall va'', va'' / 4096 = va' / 4096 ->
    let s2 := add_user_page s1 va'' t3 t2 t1 perm in
    let s' := tlb_flush s2 (u64 (s2⟦pml4_shared⟧ - VIRT_BASE)) in
    maps_page np s T L va' perm s' /\ same_globals map_globals s s'.
Proof.
  intros Hu Hreg Hva Hp Hw. rewrite (user_tables_region s va va' Hreg).
  destruct (user_page_spec np s T L va' perm Hu Hva Hp Hw) as (t3 & t2 & t1 & s1 & E & Hadd).
  exists (VIRT_BASE + t3), (VIRT_BASE + t2), (VIRT_BASE + t1), s1. split; [exact E|].
  intros va'' Hv. cbv zeta.
  destruct (Hadd va'' Hv) as (np' & s' & T' & -> & Hu' & Hn & Hk & Hg & Hnf & Hwk & Hot).
  pose proof (uspace_flush _ _ _ _ Hu') as Hf. split; [constructor|].
  - exists np', T'. split; [exact Hn|]. split; [exact Hf|exact Hk].
  - exact Hnf.
  - intros x Hx. apply Hg. intros Hin. apply Hx, elem_of_app. left. exact Hin.
  - rewrite (us_cr3 _ _ _ _ Hf). exact Hwk.
  - exact Hot.
  - exact Hg.
Qed.

(** [memmap] of one page in the case of a not-present fault. *)
Lemma memmap_fault_spec np s T L va perm :
  uspace np s T L -> 0 <= va < 2 ^ 47 -> uflag perm -> np + 3 * 4096 <= KWIN ->
  exists s', memmap s va PAGE_SIZE perm 0 = (va, s') /\ maps_page np s T L va perm s'
    /\ same_globals map_globals s s'.
Proof.
  intros Hu Hva Hp Hw.
  destruct (map_one np s T L va va perm Hu eq_refl Hva Hp Hw) as (t3 & t2 & t1 & s1 & E & Hadd).
  unfold memmap. change (map_kind_of 0) with ACCESSED_NOT_PRESENT.
  change (Z.to_nat (map_pages PAGE_SIZE)) with 1%nat. cbv zeta iota. rewrite E.
  cbn [map_loop]. eexists. split; [reflexivity|]. apply Hadd, ROUNDDOWN_page. lia.
Qed.

(** Choosing an address changes nothing that a mapping depends on. *)
Lemma uspace_addr np s s0 T L :
  kmem s0 = kmem s -> cr3 s0 = cr3 s -> same_globals addr_globals s s0 ->
  uspace np s T L -> uspace np s0 T L.
Proof.
  intros Hm Hc Hg [Hr H4 Hvb H3 Hf Hi].
  constructor; rewrite ?Hm, ?Hc, ?Hg by notin_globals; try assumption.
  eapply ps_frame; [exact Hr|]. intros x Hx. apply Hg. revert Hx.
  unfold alloc_globals, addr_globals. rewrite !not_elem_of_cons, !elem_of_cons, !elem_of_nil.
  intuition congruence.
Qed.

Lemma maps_page_addr np s s0 T L va perm s' :
  kmem s0 = kmem s -> same_globals addr_globals s s0 ->
  maps_page np s0 T L va perm s' -> maps_page np s T L va perm s'.
Proof.
  intros Hm Hg [(np' & T' & Hn & Hu & Hd) Hnf Hgl Hw Hot].
  assert (Hf : s0⟦usr_phys_addr⟧ = s⟦usr_phys_addr⟧) by (apply Hg; notin_globals).
  rewrite Hf in *. rewrite Hm in Hot. constructor; [|exact Hnf| |exact Hw|exact Hot].
  - exists np', T'. split; [exact Hn|]. split; [exact Hu|]. unfold data_same in *.
    rewrite <- Hm. exact Hd.
  - intros x Hx. rewrite Hgl by exact Hx. apply Hg. intros Hin. apply Hx, elem_of_app. right. exact Hin.
Qed.

(** The context offset behind the current one. *)
Definition next_ctxt (s : kst) : Z := (increment_pml s).1.

(** The address that the cases without an address of the caller take. *)
Definition next_addr (s : kst) (flags : Z) : Z :=
  if (flags =? 3) && (s⟦dif_ctxt⟧ =? 0) then u64 (s⟦user_addr⟧ + next_ctxt s) else s⟦user_addr⟧.

Lemma get_user_virt_addr_eq s :
  s⟦virt_base_for_user⟧ = VIRT_BASE -> s⟦physbase⟧ = 0x200000 ->
  0 <= s⟦user_addr⟧ < 2 ^ 47 - 4096 ->
  get_user_virt_addr s 0 = (s⟦user_addr⟧, s⟦user_addr ↦ s⟦user_addr⟧ + 4096⟧).
Proof.
  intros Hvb Hb Hu. unfold get_user_virt_addr, PAGE_SIZE. cbn [Z.eqb]. rewrite Hvb, Hb.
  rewrite !u64_small by (unfold VIRT_BASE; lia).
  rewrite (proj2 (Z.ltb_lt _ _)) by (unfold VIRT_BASE; lia). reflexivity.
Qed.

Lemma increment_pml_eq s : exists v s', increment_pml s = (v, s') /\ v = next_ctxt s
  /\ kmem s' = kmem s /\ cr3 s' = cr3 s /\ same_globals [pml_same_ctxt] s s'
  /\ s'⟦pml_same_ctxt⟧ = next_ctxt s.
Proof.
  unfold next_ctxt, increment_pml. eexists _, _. split; [reflexivity|]. split; [reflexivity|].
  cbn [fst]. destruct (_ =? PML_MAX_INC); kst_simpl;
    (split; [reflexivity|]; split; [reflexivity|]; split; [|reflexivity]);
    intros x Hx; rewrite list_elem_of_singleton in Hx; rewrite ?gl_gput_ne by congruence; reflexivity.
Qed.

(** The cases that choose the next unused user address: [SET_COW_RW] with the
    caller's permissions, [NEW_PAGE] writable and, in a context of its own, in
    the next 512 GiB slot; [GROWS_DOWN] maps the page below the address, through
    the tables of the address itself. *)
Lemma memmap_next_addr_spec np s T L addr prot flags :
  uspace np s T L -> s⟦physbase⟧ = 0x200000 ->
  0 <= s⟦user_addr⟧ < 2 ^ 47 - 4096 -> s⟦user_addr⟧ mod 4096 = 0 ->
  (flags = 5 -> s⟦user_addr⟧ mod 2 ^ 21 <> 0) -> 0 <= next_addr s flags < 2 ^ 47 ->
  uflag prot -> flags = 1 \/ (flags = 3 \/ flags = 5) /\ prot = USR_PERM_BITS ->
  np + 3 * 4096 <= KWIN ->
  let va := if flags =? 5 then s⟦user_addr⟧ - 4096 else next_addr s flags in
  exists s', memmap s addr PAGE_SIZE prot flags = (next_addr s flags, s')
    /\ maps_page np s T L va prot s' /\ s'⟦user_addr⟧ = s⟦user_addr⟧ + 4096
    /\ (flags <> 3 -> s'⟦pml_same_ctxt⟧ = s⟦pml_same_ctxt⟧).
Proof.
  intros Hu Hb Hua Hal Hreg Hna Hp Hfl Hw va. pose proof (us_virt _ _ _ _ Hu) as Hvb.
  set (ua := s⟦user_addr⟧) in *. set (s0 := s⟦user_addr ↦ ua + 4096⟧).
  assert (Hg0 : get_user_virt_addr s 0 = (ua, s0)) by (apply get_user_virt_addr_eq; assumption).
  assert (Hs0 : same_globals addr_globals s s0).
  { intros x Hx. unfold addr_globals in Hx. rewrite !not_elem_of_cons in Hx. destruct_and!.
    unfold s0. apply gl_gput_ne. congruence. }
  pose proof (uspace_addr np s s0 T L eq_refl eq_refl Hs0 Hu) as Hu0.
  assert (HR : ROUNDDOWN ua PAGE_SIZE = ua) by (rewrite ROUNDDOWN_eq; unfold PAGE_SIZE; lia).
  assert (Hend : forall s0' s', kmem s0' = kmem s -> same_globals addr_globals s s0' ->
    s0'⟦user_addr⟧ = ua + 4096 -> maps_page np s0' T L va prot s' /\ same_globals map_globals s0' s' ->
    (flags <> 3 -> s0' = s0) ->
    maps_page np s T L va prot s' /\ s'⟦user_addr⟧ = ua + 4096
    /\ (flags <> 3 -> s'⟦pml_same_ctxt⟧ = s⟦pml_same_ctxt⟧)).
  { intros s0' s' Hm Hg Hua' [Hmp Hgm] Hs. split; [eapply maps_page_addr; eassumption|].
    split; [rewrite Hgm by notin_globals; exact Hua'|]. intros Hne. rewrite Hgm by notin_globals.
    rewrite (Hs Hne). unfold s0. kst_simpl. reflexivity. }
  assert (Hua0 : s0⟦user_addr⟧ = ua + 4096) by (unfold s0; kst_simpl; reflexivity).
  unfold memmap. destruct Hfl as [-> |[[-> | ->] ->]].
  - destruct (map_one np s0 T L ua ua prot Hu0 eq_refl ltac:(lia) Hp Hw) as (t3 & t2 & t1 & s1 & E & Hadd).
    change (map_kind_of 1) with SET_COW_RW. cbv zeta iota. rewrite Hg0, E, HR.
    eexists. split; [reflexivity|]. apply (Hend s0); [reflexivity|exact Hs0|exact Hua0| |reflexivity].
    apply Hadd. reflexivity.
  - change (map_kind_of 3) with NEW_PAGE. change (Z.to_nat (map_pages PAGE_SIZE)) with 1%nat.
    cbv zeta iota. unfold va, next_addr in *. cbn [Z.eqb Pos.eqb andb] in *. fold ua in Hna, Hend |- *.
    destruct (s⟦dif_ctxt⟧ =? 0).
    + rewrite Hg0. destruct (increment_pml_eq s0) as (v & s0' & Ei & -> & Hm & Hc & Hg & _).
      rewrite Ei. replace (next_ctxt s0) with (next_ctxt s) in *
        by (unfold next_ctxt, increment_pml, s0; kst_simpl;
            destruct (_ =? PML_MAX_INC); kst_simpl; reflexivity).
      assert (Hs0' : same_globals addr_globals s s0').
      { intros x Hx. rewrite Hg; [apply Hs0, Hx|]. intros Hin. apply Hx. unfold addr_globals.
        apply list_elem_of_singleton in Hin as ->. set_solver. }
      assert (Hm' : kmem s0' = kmem s) by (rewrite Hm; reflexivity).
      pose proof (uspace_addr np s s0' T L Hm' Hc Hs0' Hu) as Hu0'.
      destruct (map_one np s0' T L _ _ USR_PERM_BITS Hu0' eq_refl Hna Hp Hw)
        as (t3 & t2 & t1 & s1 & E & Hadd).
      cbv iota beta. rewrite E. cbn [map_loop]. eexists. split; [reflexivity|].
      apply (Hend s0'); [exact Hm'|exact Hs0'|rewrite Hg by notin_globals; exact Hua0| |congruence].
      apply Hadd. reflexivity.
    + rewrite Hg0.
      destruct (map_one np s0 T L ua ua USR_PERM_BITS Hu0 eq_refl ltac:(lia) Hp Hw)
        as (t3 & t2 & t1 & s1 & E & Hadd).
      rewrite E. cbn [map_loop]. eexists. split; [reflexivity|].
      apply (Hend s0); [reflexivity|exact Hs0|exact Hua0| |reflexivity]. apply Hadd. reflexivity.
  - change (map_kind_of 5) with GROWS_DOWN. change (Z.to_nat (map_pages PAGE_SIZE)) with 1%nat.
    cbv zeta iota. unfold next_addr in *. cbn [Z.eqb Pos.eqb andb] in *. rewrite Hg0.
    specialize (Hreg eq_refl).
    assert (Hr : ua / 2 ^ 21 = (ua - 4096) / 2 ^ 21) by zdiv.
    destruct (map_one np s0 T L ua (ua - 4096) USR_PERM_BITS Hu0 Hr ltac:(zdiv) Hp Hw)
      as (t3 & t2 & t1 & s1 & E & Hadd).
    rewrite E. cbn [map_loop].
    eexists. split; [reflexivity|]. apply (Hend s0); [reflexivity|exact Hs0|exact Hua0| |reflexivity].
    apply Hadd. unfold PAGE_SIZE. rewrite u64_small by zdiv. reflexivity.
Qed.
End fault.

(** ** Permission changes *)

Lemma u64_mod_4096 x : u64 x mod 4096 = x mod 4096.
Proof.
  unfold u64. change (2 ^ 64) with (4096 * 2 ^ 52). rewrite Z.rem_mul_r by lia.
  rewrite (Z.mul_comm 4096), Z.mod_add, Z.mod_mod by lia. done.
Qed.

Lemma ROUNDDOWN_aligned p : ROUNDDOWN p PAGE_SIZE mod 4096 = 0.
Proof.
  unfold ROUNDDOWN, PAGE_SIZE. rewrite u64_mod_4096, Zminus_mod_idemp_r, Z.sub_diag. done.
Qed.

Lemma rounded_frame p : u64 (ROUNDDOWN p PAGE_SIZE - VIRT_BASE) mod 4096 = 0.
Proof.
  rewrite u64_mod_4096, Zminus_mod, ROUNDDOWN_aligned by lia. reflexivity.
Qed.

Lemma aligned_not_present e : e mod 4096 = 0 -> pte_present e = false.
Proof.
  intros He. unfold pte_present. rewrite <- (Z.mod_pow2_bits_low e 12) by lia.
  change (2 ^ 12) with 4096. rewrite He. apply Z.bits_0.
Qed.

Lemma walk_no_pml4 m P va :
  table_frame P -> pte_present (entry m P (vidx 4 (va / 4096))) = false -> walk m P va = None.
Proof.
  intros (Ha & H0 & Hk) He. unfold walk.
  replace (pte_frame P) with P.
  - rewrite va_index_vidx, He by lia. reflexivity.
  - symmetry. rewrite <- (Z.add_0_r P) at 1. apply pte_frame_add; unfold KWIN in *; lia.
Qed.

(** The store of a PML4 entry through the kernel's address of the table. *)
Lemma entry_kst64 s P i v :
  table_frame P -> 0 <= i < 512 -> entry (kmem (kst64 s (elt (VIRT_BASE + P) i) v)) P i = u64 v.
Proof.
  intros (Ha & H0 & Hk) Hi. unfold kst64, elt, entry. kst_simpl.
  rewrite kphys_off by (lia || apply kpage_high; assumption).
  rewrite kphys_high by lia. apply rd64_wr64_eq.
Qed.

Lemma get_tables_globals s a lk x :
  x ∉ alloc_globals ->
  (get_pdp s a lk).2⟦x⟧ = s⟦x⟧ /\ (get_pd s a lk).2⟦x⟧ = s⟦x⟧ /\ (get_pt s a lk).2⟦x⟧ = s⟦x⟧.
Proof. intros Hx. split; [|split]; apply gl_get_table, Hx. Qed.

(** The last store of [change_permissions]. *)
Lemma change_permissions_pml4 s addr perm P :
  table_frame P -> s⟦pml4_shared⟧ = VIRT_BASE + P -> s⟦virt_base_for_user⟧ = VIRT_BASE ->
  entry (kmem (change_permissions s addr perm)) P (vidx 4 (addr / 4096)) mod 4096 = 0.
Proof.
  intros HP H4 Hvb. unfold change_permissions. rewrite H4.
  destruct (offsets_vidx addr) as (-> & _).
  assert (Hna : virt_base_for_user ∉ alloc_globals) by notin_globals.
  pose proof (get_tables_globals s addr (VIRT_BASE + P) _ Hna) as (G1 & _).
  destruct (get_pdp s addr (VIRT_BASE + P)) as [p1 s1]. cbn [snd] in G1.
  set (pdp := ROUNDDOWN p1 PAGE_SIZE).
  pose proof (get_tables_globals s1 addr pdp _ Hna) as (_ & G2 & _).
  destruct (get_pd s1 addr pdp) as [p2 s2]. cbn [snd] in G2.
  set (pd := ROUNDDOWN p2 PAGE_SIZE).
  pose proof (get_tables_globals s2 addr pd _ Hna) as (_ & _ & G3).
  destruct (get_pt s2 addr pd) as [p3 s3]. cbn [snd] in G3.
  kst_simpl. rewrite entry_kst64 by (exact HP || apply vidx_range).
  replace (gl _ virt_base_for_user) with VIRT_BASE.
  - rewrite u64_idem. apply rounded_frame.
  - unfold kst64. kst_simpl. congruence.
Qed.

(** C40: [change_permissions] (the copy-on-write case of [memmap]) rewrites the
    directory entries without any permission bit, so that afterwards the address
    whose permissions were to change is not mapped at all. *)
Theorem change_permissions_unmaps s addr perm P :
  table_frame P -> s⟦pml4_shared⟧ = VIRT_BASE + P -> s⟦virt_base_for_user⟧ = VIRT_BASE ->
  walk (kmem (change_permissions s addr perm)) P addr = None.
Proof.
  intros HP H4 Hvb. apply walk_no_pml4; [exact HP|].
  apply aligned_not_present, change_permissions_pml4; assumption.
Qed.

(** A state with an empty PML4 at 3 MiB and the allocator at 4 MiB. *)
Definition demo_kst : kst :=
  (boot_state ∅ 0x200000 0x400000 0x300000)⟦pml4_shared ↦ VIRT_BASE + 0x300000⟧
    ⟦pdesc ↦ 0x500000⟧⟦freelist ↦ VIRT_BASE + 0x400000⟧.

Lemma demo_pml4_table : table_frame 0x300000.
Proof. split; [reflexivity|]. unfold KWIN. lia. Qed.

(** The page at 0x8eee70000 is mapped before and not mapped after. *)
Definition mapped_kst : kst := (memmap demo_kst 0x8eee70000 PAGE_SIZE USR_PERM_BITS 0).2.

Lemma change_permissions_unmaps_witness :
  walk (kmem mapped_kst) 0x300000 0x8eee70000 = Some (mk_tr 0x5000000 true true) /\
  walk (kmem (change_permissions mapped_kst 0x8eee70000 COW_PERM_BITS)) 0x300000 0x8eee70000 = None.
Proof.
  split; [vm_compute; reflexivity|].
  apply (change_permissions_unmaps mapped_kst 0x8eee70000 COW_PERM_BITS 0x300000 demo_pml4_table);
    vm_compute; reflexivity.
Defined.

(** What [put_frame] leaves in the entry: the frame part of the value and the
    permission bits. *)
Lemma entry_put_frame s P i v perm :
  table_frame P -> 0 <= i < 512 -> 0 <= v < 2 ^ 63 -> v mod 4096 = 0 -> 0 <= perm < 4096 ->
  entry (kmem (put_frame s (VIRT_BASE + P) i v perm)) P i = v + perm.
Proof.
  intros HP Hi Hv Ha Hp. pose proof HP as (HPa & HP0 & HPk). unfold put_frame.
  rewrite entry_kst64, !kld64_high by assumption. rewrite entry_kst64, entry_kst64 by assumption.
  rewrite (u64_small v), Z.shiftr_div_pow2, Z.shiftl_mul_pow2 by lia.
  replace (v / 2 ^ 12 * 2 ^ 12) with v
    by (apply Z.div_exact in Ha; [|lia]; change (2 ^ 12) with 4096; lia).
  rewrite !(u64_small v), (lor_aligned v perm 12) by (lia || exact Ha). apply u64_small. lia.
Qed.

Lemma gl_put_frame s p i v perm x : (put_frame s p i v perm)⟦x⟧ = s⟦x⟧.
Proof. unfold put_frame, kst64. kst_simpl. reflexivity. Qed.

Lemma gl_put_entry s p i v perm x : (put_entry s p i v perm)⟦x⟧ = s⟦x⟧.
Proof. unfold put_entry, kst64. kst_simpl. reflexivity. Qed.

Lemma page_of_shift addr : 0 <= addr < 2 ^ 64 -> u64 (Z.shiftl (Z.shiftr addr 12) 12) / 4096 = addr / 4096.
Proof.
  intros Ha. rewrite Z.shiftr_div_pow2, Z.shiftl_mul_pow2 by lia. change (2 ^ 12) with 4096.
  pose proof (Z.div_mod addr 4096 ltac:(lia)). pose proof (Z.mod_pos_bound addr 4096 ltac:(lia)).
  rewrite u64_small by lia. apply Z.div_mul. lia.
Qed.

(** [set_kernel_page_user] writes the address of the PML4 itself, not of
    the page-directory-pointer table, into the PML4 entry of the address: after
    it the whole 512 GiB slot (the kernel's, when a kernel page faults) is
    translated through the PML4 as if that were its own lower table. *)
Theorem set_kernel_page_user_self_maps s addr P :
  table_frame P -> 0 <= addr < 2 ^ 64 ->
  s⟦pml4_shared⟧ = VIRT_BASE + P -> s⟦virt_base_for_user⟧ = VIRT_BASE ->
  entry (kmem (set_kernel_page_user s addr)) P (vidx 4 (addr / 4096)) = P + USR_PERM_BITS.
Proof.
  intros HP Ha H4 Hvb. unfold set_kernel_page_user. rewrite H4.
  set (a := u64 (Z.shiftl (Z.shiftr addr 12) 12)).
  assert (Hpa : a / 4096 = addr / 4096) by (apply page_of_shift; exact Ha).
  destruct (offsets_vidx a) as (-> & _). rewrite Hpa.
  assert (Hna : virt_base_for_user ∉ alloc_globals) by notin_globals.
  pose proof (get_tables_globals s a (VIRT_BASE + P) _ Hna) as (G1 & _).
  destruct (get_pdp s a (VIRT_BASE + P)) as [p1 s1]. cbn [snd] in G1.
  set (pdp := ROUNDDOWN p1 PAGE_SIZE).
  pose proof (get_tables_globals s1 a pdp _ Hna) as (_ & G2 & _).
  destruct (get_pd s1 a pdp) as [p2 s2]. cbn [snd] in G2. set (pd := ROUNDDOWN p2 PAGE_SIZE).
  pose proof (get_tables_globals s2 a pd _ Hna) as (_ & _ & G3).
  destruct (get_pt s2 a pd) as [p3 s3]. cbn [snd] in G3.
  cbn [tlb_flush kmem]. rewrite !gl_put_frame, gl_put_entry, G3, G2, G1, Hvb.
  replace (VIRT_BASE + P - VIRT_BASE) with P by lia. pose proof HP as (HPa & HP0 & HPk).
  unfold KWIN in HPk. rewrite (u64_small P) by lia.
  apply entry_put_frame; [exact HP|apply vidx_range|lia|exact HPa|unfold USR_PERM_BITS; lia].
Qed.

Lemma set_kernel_page_user_self_maps_witness :
  entry (kmem (set_kernel_page_user demo_kst (VIRT_BASE + 0x250000))) 0x300000
    (vidx 4 ((VIRT_BASE + 0x250000) / 4096)) = 0x300000 + USR_PERM_BITS.
Proof.
  apply (set_kernel_page_user_self_maps demo_kst (VIRT_BASE + 0x250000) 0x300000 demo_pml4_table);
    [vm_compute; intuition discriminate|reflexivity|reflexivity].
Defined.
