(* ===== verification/Fault.v ===== *)
(** * The page-fault handler

    [page_fault_handler] of [include/sys/fault.h] and the end-to-end statement
    about it: from power-on, any sequence of user-mode not-present faults leaves
    page tables that translate exactly the faulting pages and keep the kernel's
    own mapping. *)

From stdpp Require Import base gmap list numbers.
From Stdlib Require Import ZArith Lia.
From S2P Require Import Prelude KLib Mmu Paging BootPaging Alloc Utils UserPaging AddrSpace Memmap.

(** Calls of the handler that act on the process table, in order. *)
Inductive fault_event := EvShutdown | EvExit (status : Z).

(** The handler, with [addr] the faulting address from [%cr2] and [error_no]
    the error code of the trap frame.  The tests are consecutive [if]s.  In the
    case [0b010] the code passes table offsets where [get_pdp], [get_pd] and
    [get_pt] expect table addresses, so the loads are from addresses below 4096. *)
Definition page_fault_handler (s : kst) (addr error_no : Z) : kst * list fault_event :=
  let kernbase := u64 (VIRT_BASE + s⟦physbase⟧) in
  let kernfree := u64 (VIRT_BASE + s⟦physfree⟧) in
  let ev := if (kernbase <=? addr) && (addr <? kernfree) then [EvShutdown] else [] in
  let s := if (VIRT_BASE <? addr) && (error_no =? 0x7)
           then set_kernel_page_user s (ROUNDDOWN addr PAGE_SIZE) else s in
  let ev := if error_no =? 1 then ev ++ [EvShutdown] else ev in
  let s :=
    if error_no =? 2 then
      let ra := ROUNDDOWN addr PAGE_SIZE in
      let pml := s⟦pml4_shared⟧ in
      let '(pdp, s) := get_pdp s ra (get_pml4_offset ra) in
      let '(pd, s) := get_pd s ra (get_pdp_offset ra) in
      let '(pt, s) := get_pt s ra (get_pml4_offset ra) in
      let s := kst64 s (elt pt (get_pt_offset ra))
        (Z.lor (u64 (Z.shiftl (Z.shiftr (kld64 s (elt pt (get_pt_offset ra))) 12) 12))
           KERN_PERM_BITS) in
      let s := kst64 s (elt pd (get_pd_offset addr)) (u64 (pt - VIRT_BASE)) in
      let s := kst64 s (elt pdp (get_pdp_offset addr)) (u64 (pd - VIRT_BASE)) in
      let s := kst64 s (elt pml (get_pml4_offset addr)) (u64 (pdp - VIRT_BASE)) in
      let s := s⟦pdp_shared ↦ pdp⟧⟦pd_shared ↦ pd⟧⟦pt_shared ↦ pt⟧ in
      tlb_flush s (u64 (s⟦pml4_shared⟧ - VIRT_BASE))
    else s in
  let ev := if error_no =? 3 then ev ++ [EvShutdown] else ev in
  let s := if error_no =? 4
           then (memmap s addr PAGE_SIZE COW_PERM_BITS 0).2 else s in
  let ev := if error_no =? 5 then ev ++ [EvExit 1] else ev in
  let s := if error_no =? 6
           then (memmap s addr PAGE_SIZE USR_PERM_BITS 0).2 else s in
  let s := if error_no =? 7
           then (memmap s addr PAGE_SIZE USR_PERM_BITS 1).2 else s in
  (s, ev).

(** ** Sequences of not-present faults *)

(** A user-mode access to a page that is not present: a read (error code 4) or
    a write (6). *)
Definition np_fault (f : Z * Z) : Prop := 0 <= f.1 < 2 ^ 47 /\ (f.2 = 4 \/ f.2 = 6).

Definition fault_perm (err : Z) : Z := if err =? 4 then COW_PERM_BITS else USR_PERM_BITS.

(** Handling faults one after another. *)
Definition run_faults (s : kst) (fs : list (Z * Z)) : kst :=
  fold_left (fun s f => (page_fault_handler s f.1 f.2).1) fs s.

(** The specification: the abstract map and the next frame of the pool. *)
Definition fault_step (st : gmap Z Z * Z) (f : Z * Z) : gmap Z Z * Z :=
  (<[f.1 / 4096 := st.2 + fault_perm f.2]> st.1, next_frame st.2).

Definition fault_spec (fs : list (Z * Z)) : gmap Z Z * Z :=
  fold_left fault_step fs (∅, START_PADDR_FOR_USRS).

Lemma fault_perm_uflag err : uflag (fault_perm err).
Proof. unfold fault_perm, uflag. case (err =? 4); [left|right]; reflexivity. Qed.

(** A not-present fault is one call of [memmap]. *)
Lemma handler_np s f :
  np_fault f -> s⟦physbase⟧ = 0x200000 -> 0 <= s⟦physfree⟧ < 2 ^ 31 ->
  page_fault_handler s f.1 f.2
  = ((memmap s f.1 PAGE_SIZE (fault_perm f.2) 0).2, []).
Proof.
  destruct f as [addr err]. intros [Ha He] Hb Hf. cbn [fst snd] in *.
  unfold page_fault_handler. rewrite Hb.
  assert (HV : VIRT_BASE = 18446744071562067968) by reflexivity.
  rewrite !u64_small by lia.
  rewrite (proj2 (Z.leb_gt _ addr)), (proj2 (Z.ltb_ge VIRT_BASE addr)) by lia.
  destruct He as [-> | ->]; reflexivity.
Qed.

Section sequence.
Context (ready : Z -> kst -> Prop) (own : Z -> Prop) `{HPS : !PageSource ready own}.
Context (P lo : Z) (HP : P mod 4096 = 0) (HP0 : 0 <= P) (HPlo : P + 4096 <= lo).
Context (Hown : forall a, own a -> a < P).

Lemma run_faults_spec fs np s T L :
  uspace ready P lo np s T L -> Forall np_fault fs ->
  s⟦physbase⟧ = 0x200000 -> 0 <= s⟦physfree⟧ < 2 ^ 31 ->
  np + 3 * 4096 * Z.of_nat (length fs) <= KWIN ->
  exists np' T', uspace ready P lo np' (run_faults s fs) T'
      (fold_left fault_step fs (L, s⟦usr_phys_addr⟧)).1
    /\ kernel_same own P lo s (run_faults s fs).
Proof.
  intros Hu Hfs. revert np s T L Hu. induction Hfs as [|f fs Hf Hfs IH];
    intros np s T L Hu Hb Hpf Hw.
  - exists np, T. split; [exact Hu|]. intros a _ _ _. reflexivity.
  - simpl length in Hw. cbn [run_faults fold_left]. rewrite handler_np by assumption.
    destruct (memmap_fault_spec ready own P lo HP HP0 HPlo Hown np s T L f.1 (fault_perm f.2) Hu)
      as (s1 & E & Hmp & _); [apply Hf|apply fault_perm_uflag|lia|].
    assert (Hk1 : kernel_same own P lo s s1) by (eapply mp_kernel; eassumption).
    destruct Hmp as [(np1 & T1 & Hn1 & Hu1 & _) Hnf1 Hg1 _ _].
    assert (Hb1 : s1⟦physbase⟧ = s⟦physbase⟧) by (apply Hg1; notin_globals).
    assert (Hp1 : s1⟦physfree⟧ = s⟦physfree⟧) by (apply Hg1; notin_globals).
    rewrite E. cbn [fst snd]. rewrite <- Hb1 in Hb. rewrite <- Hp1 in Hpf.
    destruct (IH np1 s1 T1 _ Hu1 Hb Hpf) as (np' & T' & Hu' & Hk'); [lia|].
    exists np', T'. unfold fault_step at 2. cbn [fst snd]. rewrite Hnf1 in Hu'.
    split; [exact Hu'|]. intros a Ha Ho Hn. unfold run_faults in Hk'.
    rewrite Hk', Hk1 by assumption. reflexivity.
Qed.
End sequence.

(** ** From power-on *)

(** The PML4 page is all zero when the kernel starts. *)
Definition pml4_zero (m : mem) (pf : Z) : Prop :=
  forall a, pf + 0x18000 <= a < pf + 0x18000 + 4096 -> rd8 m a = 0.

Lemma boot_uspace m pf s :
  boot_memory pf -> pml4_zero m pf -> after_boot m pf s ->
  pf + 0x18000 + 4096 * 99 <= KWIN ->
  uspace (boot_ready pf) (pf + 0x18000) (pf + 0x18000 + 4096 * 99)
    (pf + 0x18000 + 4096 * 99) s {[(4, 0) := pf + 0x18000]} ∅.
Proof.
  intros Hpf Hz Hab Hk. pose proof Hpf as (Ha & Hlo & Hhi). set (P := pf + 0x18000) in *.
  constructor.
  - exists 99. split; [lia|]. split; [reflexivity|]. eapply after_boot_alloc, Hab.
  - apply (ab_pml4 _ _ _ Hab).
  - rewrite (ab_rest _ _ _ Hab) by notin_globals. reflexivity.
  - apply (ab_cr3 _ _ _ Hab).
  - rewrite (ab_rest _ _ _ Hab) by notin_globals. split; [reflexivity|].
    simpl. unfold START_PADDR_FOR_USRS. lia.
  - apply uinv_empty; [lia|]. intros a Hra.
    destruct (proj2 (ab_pml4_bytes _ _ _ Hab) a) as [H0 H1]; [unfold Pg; lia|]. unfold Pg in *.
    fold P in H0, H1. destruct (decide (a < P + 4096 * 0 + 4 * 99)); [apply H0; lia|].
    rewrite H1 by lia. apply Hz. lia.
Qed.

(** C7: end to end.  From power-on with RAM whose PML4 page is zero, after any
    sequence of user-mode not-present faults that the page allocator can serve,
    the hardware translates every lower-half address exactly as the abstract map
    of the faults says (each faulting page to the frame it was given, user
    accessible, every other page absent), and still translates the kernel's
    98 MiB window to itself. *)
Theorem page_faults_refine m pf c0 (fs : list (Z * Z)) :
  boot_memory pf -> pml4_zero m pf -> Forall np_fault fs ->
  pf + 0x18000 + 4096 * (99 + 3 * Z.of_nat (length fs)) <= KWIN ->
  exists s0, set_free_list (boot_state m 0x200000 pf c0) = Some s0 /\
    let s := run_faults s0 fs in
    (forall va, 0 <= va < 2 ^ 47 ->
       (fun tr => (tr_phys tr, tr_user tr)) <$> walk (kmem s) (cr3 s) va =
       (fun e => (pte_frame e + va mod 4096, true)) <$> (fault_spec fs).1 !! (va / 4096)) /\
    (forall pa, 0 <= pa < KWIN ->
       walk (kmem s) (cr3 s) (VIRT_BASE + pa) = Some (mk_tr pa true false)).
Proof.
  intros Hpf Hz Hfs Hw. destruct (boot_ready_99 m pf c0 Hpf) as (s0 & Hs0 & Hab & _).
  exists s0. split; [exact Hs0|]. cbv zeta. pose proof (page_source_boot pf Hpf) as HPS.
  pose proof Hpf as (Ha & Hlo & Hhi).
  assert (HP : (pf + 0x18000) mod 4096 = 0) by (rewrite Z.add_mod, Ha by lia; reflexivity).
  assert (Hr : forall x, x ∉ boot_written -> s0⟦x⟧ = boot_globals 0x200000 pf x)
    by apply (ab_rest _ _ _ Hab).
  pose proof (boot_uspace m pf s0 Hpf Hz Hab ltac:(lia)) as Hu.
  destruct (run_faults_spec (boot_ready pf) (freelist_cells pf) (pf + 0x18000)
    (pf + 0x18000 + 4096 * 99) HP ltac:(lia) ltac:(lia)
    ltac:(unfold freelist_cells; lia) fs _ s0 _ _ Hu Hfs) as (np' & T' & Hu' & Hk').
  { rewrite Hr by notin_globals. reflexivity. }
  { rewrite Hr by notin_globals. simpl. lia. }
  { lia. }
  rewrite (us_cr3 _ _ _ _ _ _ _ Hu'). split.
  - intros va Hva. replace (fault_spec fs) with (fold_left fault_step fs (∅, s0⟦usr_phys_addr⟧))
      by (rewrite Hr by notin_globals; reflexivity).
    eapply uinv_walk; [exact HP|..|exact (us_inv _ _ _ _ _ _ _ Hu')|exact Hva]; lia.
  - intros pa Hpa. rewrite <- (us_cr3 _ _ _ _ _ _ _ Hu').
    apply (after_boot_walk_upper m pf s0); try assumption.
    + rewrite (us_cr3 _ _ _ _ _ _ _ Hu'). symmetry. apply (ab_cr3 _ _ _ Hab).
    + intros a Hra. apply Hk'; [lia|unfold freelist_cells; lia|lia].
Qed.

Lemma page_faults_refine_witness :
  (boot_memory 0x400000 /\ pml4_zero ∅ 0x400000
   /\ Forall np_fault [(0x8eee70123, 6); (0x400000, 4)]
   /\ 0x400000 + 0x18000 + 4096 * (99 + 3 * 2) <= KWIN) /\
  exists s0, set_free_list (boot_state ∅ 0x200000 0x400000 0) = Some s0 /\
    let s := run_faults s0 [(0x8eee70123, 6); (0x400000, 4)] in
    (forall va, 0 <= va < 2 ^ 47 ->
       (fun tr => (tr_phys tr, tr_user tr)) <$> walk (kmem s) (cr3 s) va =
       (fun e => (pte_frame e + va mod 4096, true))
         <$> (fault_spec [(0x8eee70123, 6); (0x400000, 4)]).1 !! (va / 4096)) /\
    (forall pa, 0 <= pa < KWIN ->
       walk (kmem s) (cr3 s) (VIRT_BASE + pa) = Some (mk_tr pa true false)).
Proof.
  assert (H1 : boot_memory 0x400000) by (unfold boot_memory; split; [reflexivity|lia]).
  assert (H2 : pml4_zero ∅ 0x400000) by (intros a _; reflexivity).
  assert (H3 : Forall np_fault [(0x8eee70123, 6); (0x400000, 4)]).
  { repeat constructor; cbn [fst snd]; lia. }
  assert (H4 : 0x400000 + 0x18000 + 4096 * (99 + 3 * 2) <= KWIN) by (unfold KWIN; lia).
  split; [split; [exact H1|split; [exact H2|split; [exact H3|exact H4]]]|].
  apply (page_faults_refine ∅ 0x400000 0 _ H1 H2 H3 H4).
Defined.

(** C39: a user-mode write to a present read-only page (error code 7) is never
    granted.  Instead of copying the page, the handler maps a writable page at the
    next unused user address, which is another page; the faulting address is still
    translated to the same frame, read-only, so that the write faults again. *)
Theorem cow_fault_maps_elsewhere ready own P lo np s T L va e :
  PageSource ready own -> P mod 4096 = 0 -> 0 <= P -> P + 4096 <= lo ->
  (forall a, own a -> a < P) -> uspace ready P lo np s T L -> np + 3 * 4096 <= KWIN ->
  s⟦physbase⟧ = 0x200000 -> 0 <= s⟦physfree⟧ < 2 ^ 31 ->
  0 <= s⟦user_addr⟧ < 2 ^ 47 - 4096 -> s⟦user_addr⟧ mod 4096 = 0 -> 0 <= va < 2 ^ 47 ->
  L !! (va / 4096) = Some e -> pte_write e = false -> L !! (s⟦user_addr⟧ / 4096) = None ->
  exists s', page_fault_handler s va 7 = (s', [])
    /\ maps_page ready own P lo np s T L (s⟦user_addr⟧) USR_PERM_BITS s'
    /\ va / 4096 <> s⟦user_addr⟧ / 4096
    /\ walk (kmem s) (cr3 s) va = Some (mk_tr (pte_frame e + va mod 4096) false true)
    /\ walk (kmem s') (cr3 s') va = Some (mk_tr (pte_frame e + va mod 4096) false true).
Proof.
  intros HPS HP HP0 HPlo Hown Hu Hw Hb Hpf Hua Hal Hva HL He Hn.
  destruct (memmap_next_addr_spec ready own P lo HP HP0 HPlo Hown np s T L va USR_PERM_BITS 1)
    as (s' & E & Hm & _); try assumption;
    [discriminate|unfold next_addr; cbn [Z.eqb Pos.eqb andb]; lia|right; reflexivity|left; reflexivity|].
  change (next_addr s 1) with (s⟦user_addr⟧) in *. cbn [Z.eqb Pos.eqb] in Hm.
  assert (Hne : va / 4096 <> s⟦user_addr⟧ / 4096) by congruence.
  exists s'. split; [|split; [exact Hm|split; [exact Hne|split]]].
  - unfold page_fault_handler. rewrite Hb.
    assert (HV : VIRT_BASE = 18446744071562067968) by reflexivity.
    rewrite !u64_small by lia.
    rewrite (proj2 (Z.leb_gt _ va)), (proj2 (Z.ltb_ge VIRT_BASE va)) by lia.
    cbn [andb Z.eqb Pos.eqb]. rewrite E. reflexivity.
  - rewrite (us_cr3 _ _ _ _ _ _ _ Hu).
    apply (walk_read_only P lo HP HP0 HPlo np (kmem s) T L va e (us_inv _ _ _ _ _ _ _ Hu)); assumption.
  - destruct Hm as [(np' & T' & _ & Hu' & _) _ _ _ _]. rewrite (us_cr3 _ _ _ _ _ _ _ Hu').
    apply (walk_read_only P lo HP HP0 HPlo np' (kmem s') T' _ va e (us_inv _ _ _ _ _ _ _ Hu')); try assumption.
    rewrite lookup_insert_ne by congruence. exact HL.
Qed.

(** A page is read, and so mapped read-only, and then written. *)
Lemma cow_fault_maps_elsewhere_witness :
  exists s0 s s', set_free_list (boot_state ∅ 0x200000 0x400000 0) = Some s0
    /\ page_fault_handler s0 0x400123 4 = (s, []) /\ s⟦user_addr⟧ = 0x8eee70000
    /\ page_fault_handler s 0x400123 7 = (s', [])
    /\ walk (kmem s') (cr3 s') 0x8eee70000 = Some (mk_tr 0x5001000 true true)
    /\ walk (kmem s) (cr3 s) 0x400123 = Some (mk_tr 0x5000123 false true)
    /\ walk (kmem s') (cr3 s') 0x400123 = Some (mk_tr 0x5000123 false true).
Proof.
  assert (H1 : boot_memory 0x400000) by (unfold boot_memory; split; [reflexivity|lia]).
  assert (H2 : pml4_zero ∅ 0x400000) by (intros a _; reflexivity).
  destruct (boot_ready_99 ∅ 0x400000 0 H1) as (s0 & Hs & Hab & _).
  pose proof (boot_uspace ∅ 0x400000 s0 H1 H2 Hab ltac:(unfold KWIN; lia)) as Hu0.
  assert (Hr : forall x, x ∉ boot_written -> s0⟦x⟧ = boot_globals 0x200000 0x400000 x)
    by apply (ab_rest _ _ _ Hab).
  pose proof (page_source_boot 0x400000 H1) as HPS.
  destruct (memmap_fault_spec (boot_ready 0x400000) (freelist_cells 0x400000) (0x400000 + 0x18000)
    (0x400000 + 0x18000 + 4096 * 99) eq_refl ltac:(lia) ltac:(lia) ltac:(unfold freelist_cells; lia)
    _ s0 _ _ 0x400123 (fault_perm 4) Hu0 ltac:(lia) (fault_perm_uflag 4) ltac:(unfold KWIN; lia))
    as (s & E & [(np & T & Hn & Hu & _) Hnf _ _ _] & Hg).
  pose proof (handler_np s0 (0x400123, 4)) as Hh. cbn [fst snd] in Hh. rewrite E in Hh.
  assert (Hf0 : s0⟦usr_phys_addr⟧ = 0x5000000) by (rewrite Hr by notin_globals; reflexivity).
  assert (Hua : s⟦user_addr⟧ = 0x8eee70000) by (rewrite Hg, Hr by notin_globals; reflexivity).
  assert (Hb : s⟦physbase⟧ = 0x200000) by (rewrite Hg, Hr by notin_globals; reflexivity).
  assert (Hpf : s⟦physfree⟧ = 0x400000) by (rewrite Hg, Hr by notin_globals; reflexivity).
  rewrite Hf0 in Hu, Hnf. change (0x400123 / 4096) with 0x400 in Hu. change (fault_perm 4) with 5 in Hu.
  destruct (cow_fault_maps_elsewhere _ (freelist_cells 0x400000) (0x400000 + 0x18000)
    (0x400000 + 0x18000 + 4096 * 99) np s T _ 0x400123 0x5000005 HPS eq_refl ltac:(lia) ltac:(lia)
    ltac:(unfold freelist_cells; lia) Hu) as (s' & He & [_ _ _ Hwk _] & _ & W1 & W2);
    rewrite ?Hua, ?Hb, ?Hpf; try lia; try reflexivity; try (unfold KWIN; lia).
  exists s0, s, s'. split; [exact Hs|].
  split; [apply Hh; [split; [cbn; lia|left; reflexivity]|rewrite Hr by notin_globals; reflexivity
         |rewrite Hr by notin_globals; simpl; lia]|].
  split; [exact Hua|]. split; [exact He|].
  split; [rewrite Hua, Hnf in Hwk; exact Hwk|]. split; [exact W1|exact W2].
Defined.

(** A read fault takes the write permission of pages that were writable:
    the directory entries above the new read-only page are shared.  Here the
    page at 0x8eee70000, mapped by a write fault, is read-only after a read of
    the next page. *)
Theorem read_fault_revokes_write :
  let s1 := run_faults demo_kst [(0x8eee70000, 6)] in
  let s2 := run_faults demo_kst [(0x8eee70000, 6); (0x8eee71000, 4)] in
  walk (kmem s1) (cr3 s1) 0x8eee70000 = Some (mk_tr 0x5000000 true true) /\
  walk (kmem s2) (cr3 s2) 0x8eee70000 = Some (mk_tr 0x5000000 false true) /\
  walk (kmem s2) (cr3 s2) 0x8eee71000 = Some (mk_tr 0x5001000 false true).
Proof. vm_compute. split; [|split]; reflexivity. Qed.
