(* ===== verification/Format.v ===== *)
(** * Formatting for the console

    [vasprintf] of [sys/kprintf.c], and [render], the pure function on format
    strings that it implements ([vasprintf_refines]). *)

From stdpp Require Import base gmap list numbers.
From Stdlib Require Import ZArith Lia.
From Stdlib Require Ascii String.
From S2P Require Import Prelude KLib Utils.
Import (notations) String.

Definition hex_table : list Z :=
  (fun c => Z.of_N (Ascii.N_of_ascii c)) <$> String.list_ascii_of_string "0123456789abcdef"%string.

(** ["0123456789abcdef"[(value >> (j * 4)) & 0xF]] *)
Definition hex_char (value j : Z) : Z :=
  default 0 (hex_table !! Z.to_nat (Z.land (Z.shiftr value (j * 4)) 0xF)).

(** [while ( *s ) buf[ptr++] = *s++;] *)
Fixpoint vas_str (fuel : nat) (m : mem) (buf ptr s : Z) : option (mem * Z) :=
  match fuel with
  | O => None
  | S f =>
      if rd8 m s =? 0 then Some (m, ptr)
      else vas_str f (wr8 m (buf + ptr) (rd8 m s)) buf (ptr + 1) (s + 1)
  end.

(** [while (j-- > 0) { buf[ptr] = ...; ptr++; }] *)
Fixpoint vas_hex (j : nat) (m : mem) (buf ptr value : Z) : mem * Z :=
  match j with
  | O => (m, ptr)
  | S j => vas_hex j (wr8 m (buf + ptr) (hex_char value (Z.of_nat j))) buf (ptr + 1) value
  end.

(** The loop of [%d]; [n] is an [unsigned int]. *)
Fixpoint vas_dec (fuel : nat) (m : mem) (buf ptr value : Z) : option (mem * Z) :=
  match fuel with
  | O => None
  | S f =>
      if 0 <? value then
        let n := u32 (value / 10) in
        let r := value mod 10 in
        vas_dec f (wr8 m (buf + ptr) (r + 48)) buf (ptr + 1) n
      else Some (m, ptr)
  end.

(** One conversion, with [c] the character behind ['%']: the new memory, the new
    [ptr] and the arguments left.  [None] when an argument is missing. *)
Definition vas_conv (fuel : nat) (m : mem) (buf ptr c : Z) (args : list Z)
    : option (mem * Z * list Z) :=
  if c =? 115 then
    match args with
    | [] => None
    | s :: args =>
        match vas_str fuel m buf ptr s with
        | Some (m, ptr) => Some (m, ptr, args)
        | None => None
        end
    end
  else if c =? 99 then
    match args with
    | [] => None
    | v :: args => Some (wr8 m (buf + ptr) v, ptr + 1, args)
    end
  else if c =? 120 then
    match args with
    | [] => None
    | value :: args => let '(m, ptr) := vas_hex 8 m buf ptr (u64 value) in Some (m, ptr, args)
    end
  else if c =? 100 then
    match args with
    | [] => None
    | value :: args =>
        match vas_dec fuel m buf ptr (u64 value) with
        | Some (m, ptr) => Some (m, ptr, args)
        | None => None
        end
    end
  else if c =? 112 then
    match args with
    | [] => None
    | value :: args =>
        let m := wr8 m (buf + ptr) 48 in
        let ptr := ptr + 1 in
        let m := wr8 m (buf + ptr) 120 in
        let ptr := ptr + 1 in
        let '(m, ptr) := vas_hex 8 m buf ptr (u64 value) in Some (m, ptr, args)
    end
  else Some (wr8 m (buf + ptr) c, ptr + 1, args).

(** [for (; i < len_fmt && fmt[i]; i++)] *)
Fixpoint vas_loop (fuel : nat) (m : mem) (buf fmt len_fmt i ptr : Z) (args : list Z)
    : option (mem * Z) :=
  match fuel with
  | O => None
  | S f =>
      if (i <? len_fmt) && negb (rd8 m (fmt + i) =? 0) then
        if negb (rd8 m (fmt + i) =? 37) then
          vas_loop f (wr8 m (buf + ptr) (rd8 m (fmt + i))) buf fmt len_fmt (i + 1) (ptr + 1) args
        else
          let i := i + 1 in
          match vas_conv f m buf ptr (rd8 m (fmt + i)) args with
          | Some (m, ptr, args) => vas_loop f m buf fmt len_fmt (i + 1) ptr args
          | None => None
          end
      else Some (m, ptr)
  end.

Definition vasprintf (fuel : nat) (m : mem) (buf fmt : Z) (args : list Z) : option mem :=
  match kstrlen fuel m fmt with
  | None => None
  | Some len_fmt =>
      match vas_loop fuel m buf fmt len_fmt 0 0 args with
      | None => None
      | Some (m, ptr) => Some (wr8 m (buf + ptr) 0)
      end
  end.

(** ** The function it computes *)

(** An argument: a string for [%s], a number for the others. *)
Inductive varg := VStr (s : list Z) | VInt (v : Z).

(** The decimal digits of [%d], least significant first; nothing for zero. *)
Fixpoint dec_rev (fuel : nat) (v : Z) : list Z :=
  match fuel with
  | O => []
  | S f => if 0 <? v then (v mod 10 + 48) :: dec_rev f (u32 (v / 10)) else []
  end.

Definition hex8 (v : Z) : list Z := (fun j => hex_char (u64 v) j) <$> [7; 6; 5; 4; 3; 2; 1; 0].

Fixpoint render (fmt : list Z) (args : list varg) : list Z :=
  match fmt with
  | [] => []
  | c :: fmt =>
      if negb (c =? 37) then c :: render fmt args
      else
        match fmt with
        | [] => [0]
        | d :: fmt =>
            if d =? 115 then
              match args with VStr s :: args => s ++ render fmt args | _ => [] end
            else if d =? 99 then
              match args with VInt v :: args => (v mod 256) :: render fmt args | _ => [] end
            else if d =? 120 then
              match args with VInt v :: args => hex8 v ++ render fmt args | _ => [] end
            else if d =? 100 then
              match args with VInt v :: args => dec_rev 21 (u64 v) ++ render fmt args | _ => [] end
            else if d =? 112 then
              match args with VInt v :: args => 48 :: 120 :: hex8 v ++ render fmt args | _ => [] end
            else d :: render fmt args
        end
  end.

(** The arguments suit the conversions of the format. *)
Fixpoint args_fit (fmt : list Z) (args : list varg) : Prop :=
  match fmt with
  | [] => True
  | c :: fmt =>
      if negb (c =? 37) then args_fit fmt args
      else
        match fmt with
        | [] => True
        | d :: fmt =>
            if d =? 115 then match args with VStr _ :: args => args_fit fmt args | _ => False end
            else if (d =? 99) || (d =? 120) || (d =? 100) || (d =? 112) then
              match args with VInt _ :: args => args_fit fmt args | _ => False end
            else args_fit fmt args
        end
  end.

(** ** [vasprintf] refines [render] *)

(** Exactly the bytes [l] were written, at [p]. *)
Definition wrote (m m' : mem) (p : Z) (l : list Z) : Prop :=
  seg m' p l /\ forall a, ~ (p <= a < p + slen l) -> rd8 m' a = rd8 m a.

Lemma wrote_nil m p : wrote m m p [].
Proof. split; [|done]. intros i c Hi. done. Qed.

Lemma wrote_byte m p c : 0 <= c < 256 -> wrote m (wr8 m p c) p [c].
Proof.
  intros Hc. split.
  - apply seg_cons. split; [|intros i d Hi; done]. rewrite rd8_wr8_eq. apply Z.mod_small, Hc.
  - intros a Ha. simpl in Ha. apply rd8_wr8_ne. lia.
Qed.

Lemma wrote_app m m1 m2 p l1 l2 :
  wrote m m1 p l1 -> wrote m1 m2 (p + slen l1) l2 -> wrote m m2 p (l1 ++ l2).
Proof.
  intros [Hs1 Hf1] [Hs2 Hf2]. split.
  - apply seg_app. split; [|done]. eapply seg_ext, Hs1. intros a Ha. apply Hf2. lia.
  - intros a Ha. rewrite length_app in Ha. rewrite Hf2, Hf1 by lia. done.
Qed.

Lemma wrote_cons m m2 p c l :
  0 <= c < 256 -> wrote (wr8 m p c) m2 (p + 1) l -> wrote m m2 p (c :: l).
Proof. intros Hc H. apply (wrote_app m (wr8 m p c) m2 p [c] l); [by apply wrote_byte|done]. Qed.

Lemma cstr_bytes m p s : cstr m p s -> Forall (fun c => 0 <= c < 256) s.
Proof.
  revert p. induction s as [|c s IH]; intros p Hs; [constructor|]. destruct Hs as (Hc & _ & Hs).
  constructor; [|eauto]. rewrite <- Hc. apply rd8_range.
Qed.

Lemma vas_str_spec fuel m buf ptr s l :
  cstr m s l -> (length l < fuel)%nat ->
  s + slen l < buf + ptr \/ buf + ptr + slen l <= s ->
  exists m', vas_str fuel m buf ptr s = Some (m', ptr + slen l) /\ wrote m m' (buf + ptr) l.
Proof.
  revert m ptr s fuel. induction l as [|c l IH]; intros m ptr s [|f] Hs Hf Hd; simpl in Hf; try lia;
    cbn [vas_str].
  - simpl in Hs. rewrite Hs. exists m. rewrite Z.add_0_r. split; [done|apply wrote_nil].
  - pose proof (cstr_bytes _ _ _ Hs) as Hb. apply Forall_cons_1 in Hb as [Hb _].
    destruct Hs as (Hc & Hc0 & Hs). simpl length in *. rewrite Hc, (proj2 (Z.eqb_neq c 0)) by done.
    destruct (IH (wr8 m (buf + ptr) c) (ptr + 1) (s + 1) f) as (m' & -> & Hw).
    + apply cstr_wr8; [lia|done].
    + lia.
    + lia.
    + exists m'. split; [do 2 f_equal; lia|]. apply wrote_cons; [done|].
      rewrite <- Z.add_assoc. done.
Qed.

Lemma hex_char_byte v j : 0 <= hex_char v j < 256.
Proof.
  unfold hex_char.
  assert (H : Forall (fun c => 0 <= c < 256) hex_table)
    by (apply (bool_decide_unpack _); vm_compute; exact I).
  destruct (hex_table !! _) as [c|] eqn:E; simpl; [|lia].
  rewrite Forall_lookup in H. exact (H _ _ E).
Qed.

Lemma vas_hex_spec j m buf ptr v :
  exists m', vas_hex j m buf ptr v = (m', ptr + Z.of_nat j)
    /\ wrote m m' (buf + ptr) (hex_char v <$> reverse (seqZ 0 (Z.of_nat j))).
Proof.
  revert m ptr. induction j as [|j IH]; intros m ptr; cbn [vas_hex].
  - exists m. rewrite Z.add_0_r. split; [done|apply wrote_nil].
  - destruct (IH (wr8 m (buf + ptr) (hex_char v (Z.of_nat j))) (ptr + 1)) as (m' & -> & Hw).
    exists m'. split; [f_equal; lia|].
    replace (Z.of_nat (S j)) with (Z.of_nat j + 1) by lia.
    rewrite seqZ_app, reverse_app by lia. cbn [seqZ seq fmap list_fmap].
    change (seqZ (0 + Z.of_nat j) 1) with [Z.of_nat j].
    change (reverse [Z.of_nat j]) with [Z.of_nat j]. rewrite fmap_app.
    apply wrote_cons; [apply hex_char_byte|]. rewrite <- Z.add_assoc. done.
Qed.

Lemma vas_dec_spec n fuel m buf ptr v :
  0 <= v < 10 ^ Z.of_nat n -> (n < fuel)%nat ->
  exists m', vas_dec fuel m buf ptr v = Some (m', ptr + slen (dec_rev n v))
    /\ wrote m m' (buf + ptr) (dec_rev n v).
Proof.
  revert fuel m ptr v. induction n as [|n IH]; intros [|f] m ptr v Hv Hf; try lia;
    cbn [vas_dec dec_rev].
  - change (10 ^ Z.of_nat 0) with 1 in Hv. rewrite (proj2 (Z.ltb_ge 0 v)) by lia.
    exists m. rewrite Z.add_0_r. split; [done|apply wrote_nil].
  - case Z.ltb_spec; intros Hlt.
    + pose proof (digits_enough n v 10 ltac:(lia) Hv) as Hq.
      pose proof (Z.div_pos v 10). pose proof (Z.mod_pos_bound v 10 ltac:(lia)).
      assert (0 <= u32 (v / 10) <= v / 10).
      { unfold u32. split; [apply Z.mod_pos_bound; lia|apply Z.mod_le; lia]. }
      destruct (IH f (wr8 m (buf + ptr) (v mod 10 + 48)) (ptr + 1) (u32 (v / 10)))
        as (m' & -> & Hw); [lia|lia|].
      exists m'. cbn [length]. split; [do 2 f_equal; lia|].
      apply wrote_cons; [lia|]. rewrite <- Z.add_assoc. done.
    + exists m. rewrite Z.add_0_r. split; [done|apply wrote_nil].
Qed.

(** A C argument stands for an abstract one; strings lie outside the buffer. *)
Definition arg_ok (m : mem) (lo hi : Z) (a : Z) (v : varg) : Prop :=
  match v with
  | VStr s => cstr m a s /\ (a + slen s < lo \/ hi <= a)
  | VInt v => a = v
  end.

Lemma arg_ok_frame m m' lo hi a v :
  (forall b, ~ (lo <= b < hi) -> rd8 m' b = rd8 m b) -> arg_ok m lo hi a v -> arg_ok m' lo hi a v.
Proof.
  intros Hf. destruct v as [s|v]; [|done]. intros [Hs Hd]. split; [|done].
  eapply cstr_ext, Hs. intros b Hb. apply Hf. lia.
Qed.

(** One conversion writes what [render] puts in its place. *)
Definition conv_out (d : Z) (args : list varg) : list Z :=
  if d =? 115 then match args with VStr s :: _ => s | _ => [] end
  else if d =? 99 then match args with VInt v :: _ => [v mod 256] | _ => [] end
  else if d =? 120 then match args with VInt v :: _ => hex8 v | _ => [] end
  else if d =? 100 then match args with VInt v :: _ => dec_rev 21 (u64 v) | _ => [] end
  else if d =? 112 then match args with VInt v :: _ => 48 :: 120 :: hex8 v | _ => [] end
  else [d].

Definition takes_arg (d : Z) : bool :=
  (d =? 115) || ((d =? 99) || (d =? 120) || (d =? 100) || (d =? 112)).

Lemma vas_hex8 m buf ptr v :
  exists m', vas_hex 8 m buf ptr (u64 v) = (m', ptr + 8) /\ wrote m m' (buf + ptr) (hex8 v).
Proof. apply (vas_hex_spec 8 m buf ptr (u64 v)). Qed.

Lemma vas_conv_spec fuel m buf ptr hi d args vargs :
  0 <= d < 256 -> Forall2 (arg_ok m buf hi) args vargs ->
  (if d =? 115 then match vargs with VStr _ :: _ => True | _ => False end
   else if (d =? 99) || (d =? 120) || (d =? 100) || (d =? 112)
        then match vargs with VInt _ :: _ => True | _ => False end else True) ->
  0 <= ptr -> buf + ptr + slen (conv_out d vargs) <= hi ->
  (length (conv_out d vargs) + 22 <= fuel)%nat ->
  exists m', vas_conv fuel m buf ptr d args
      = Some (m', ptr + slen (conv_out d vargs), if takes_arg d then tail args else args)
    /\ wrote m m' (buf + ptr) (conv_out d vargs).
Proof.
  intros Hd Hargs Hfit Hptr Hhi Hfuel. unfold vas_conv, conv_out, takes_arg in *.
  destruct (d =? 115); cbn [orb].
  { destruct Hargs as [|a v args vargs Ha _]; [done|]. destruct v as [s|v]; [|done].
    destruct Ha as [Hs Hdj].
    destruct (vas_str_spec fuel m buf ptr a s Hs) as (m' & -> & Hw); [lia|lia|]. eauto. }
  destruct (d =? 99); cbn [orb] in *.
  { destruct Hargs as [|a v args vargs Ha _]; [done|]. destruct v as [s|v]; [done|].
    simpl in Ha. subst a. exists (wr8 m (buf + ptr) v). split; [done|].
    replace (wr8 m (buf + ptr) v) with (wr8 m (buf + ptr) (v mod 256))
      by (unfold wr8; rewrite Z.mod_mod by lia; done).
    apply wrote_byte, Z.mod_pos_bound. lia. }
  destruct (d =? 120); cbn [orb] in *.
  { destruct Hargs as [|a v args vargs Ha _]; [done|]. destruct v as [s|v]; [done|].
    simpl in Ha. subst a. destruct (vas_hex8 m buf ptr v) as (m' & -> & Hw). eauto. }
  destruct (d =? 100); cbn [orb] in *.
  { destruct Hargs as [|a v args vargs Ha _]; [done|]. destruct v as [s|v]; [done|].
    simpl in Ha. subst a. pose proof (u64_range v).
    destruct (vas_dec_spec 21 fuel m buf ptr (u64 v)) as (m' & -> & Hw); [lia|lia|]. eauto. }
  destruct (d =? 112); cbn [orb] in *.
  { destruct Hargs as [|a v args vargs Ha _]; [done|]. destruct v as [s|v]; [done|].
    simpl in Ha. subst a.
    destruct (vas_hex8 (wr8 (wr8 m (buf + ptr) 48) (buf + (ptr + 1)) 120) buf (ptr + 1 + 1) v)
      as (m' & -> & Hw). exists m'. split; [do 3 f_equal; simpl; lia|].
    apply wrote_cons; [lia|]. replace (buf + ptr + 1) with (buf + (ptr + 1)) by lia.
    apply wrote_cons; [lia|]. replace (buf + (ptr + 1) + 1) with (buf + (ptr + 1 + 1)) by lia.
    done. }
  exists (wr8 m (buf + ptr) d). split; [done|]. by apply wrote_byte.
Qed.

Lemma vas_conv_nul fuel m buf ptr args :
  vas_conv fuel m buf ptr 0 args = Some (wr8 m (buf + ptr) 0, ptr + 1, args).
Proof. reflexivity. Qed.

(** [render] and [args_fit], one step at a time. *)
Lemma render_conv d fmt vargs :
  args_fit (37 :: d :: fmt) vargs ->
  let vargs' := if takes_arg d then tail vargs else vargs in
  render (37 :: d :: fmt) vargs = conv_out d vargs ++ render fmt vargs'
  /\ args_fit fmt vargs'
  /\ (if d =? 115 then match vargs with VStr _ :: _ => True | _ => False end
      else if (d =? 99) || (d =? 120) || (d =? 100) || (d =? 112)
           then match vargs with VInt _ :: _ => True | _ => False end else True).
Proof.
  cbn [args_fit render]. change (negb (37 =? 37)) with false. cbn iota.
  unfold conv_out, takes_arg.
  destruct (d =? 115), (d =? 99), (d =? 120), (d =? 100), (d =? 112); cbn [orb];
    try (destruct vargs as [|[s|v] vargs]; [done|..]; try done); try done.
Qed.

Lemma vas_loop_spec fuel m buf fmtp len_fmt hi i ptr fmt args vargs :
  cstr m (fmtp + i) fmt -> fmtp + i + slen fmt < buf \/ hi <= fmtp + i ->
  i + slen fmt <= len_fmt <= i + slen fmt + 1 ->
  Forall2 (arg_ok m buf hi) args vargs -> args_fit fmt vargs ->
  0 <= ptr -> buf + ptr + slen (render fmt vargs) <= hi ->
  (length fmt + length (render fmt vargs) + 23 <= fuel)%nat ->
  exists m', vas_loop fuel m buf fmtp len_fmt i ptr args
      = Some (m', ptr + slen (render fmt vargs))
    /\ wrote m m' (buf + ptr) (render fmt vargs).
Proof.
  revert m i ptr fmt args vargs. induction fuel as [|f IH];
    intros m i ptr fmt args vargs Hs Hd Hlen Hargs Hfit Hptr Hhi Hf; [lia|]. cbn [vas_loop].
  destruct fmt as [|c fmt].
  { simpl in Hs. rewrite Hs, Z.eqb_refl, andb_false_r. exists m. cbn [render length]. rewrite Z.add_0_r.
    split; [done|apply wrote_nil]. }
  pose proof (cstr_bytes _ _ _ Hs) as Hb. apply Forall_cons_1 in Hb as [Hb Hb'].
  destruct Hs as (Hc & Hc0 & Hs). cbn [length] in *. rewrite Hc.
  rewrite (proj2 (Z.ltb_lt i len_fmt)), (proj2 (Z.eqb_neq c 0)) by (done || lia).
  cbn [andb negb]. destruct (Z.eqb_spec c 37) as [->|Hne]; cbn [negb].
  - destruct fmt as [|d fmt].
    + simpl in Hs. change (render [37] vargs) with [0] in *.
      rewrite Z.add_assoc, Hs. cbn [length] in *.
      rewrite vas_conv_nul. destruct f as [|f]; [lia|]. cbn [vas_loop].
      rewrite (proj2 (Z.ltb_ge (i + 1 + 1) len_fmt)) by lia. cbn [andb].
      exists (wr8 m (buf + ptr) 0). split; [done|]. apply wrote_byte. lia.
    + apply Forall_cons_1 in Hb' as [Hdb _]. destruct Hs as (Hd' & Hd0 & Hs).
      destruct (render_conv d fmt vargs Hfit) as (Hr & Hfit' & Hshape). rewrite Hr in *.
      rewrite length_app in *. cbn [length] in *. rewrite Z.add_assoc, Hd'.
      destruct (vas_conv_spec f m buf ptr hi d args vargs Hdb Hargs Hshape Hptr)
        as (m1 & -> & Hw1); [lia|lia|].
      assert (Hsame : forall b, ~ (buf <= b < hi) -> rd8 m1 b = rd8 m b).
      { intros b Hb'. apply (proj2 Hw1). lia. }
      destruct (IH m1 (i + 1 + 1) (ptr + slen (conv_out d vargs)) fmt
        (if takes_arg d then tail args else args) (if takes_arg d then tail vargs else vargs))
        as (m2 & -> & Hw2).
      * replace (fmtp + (i + 1 + 1)) with (fmtp + i + 1 + 1) by lia.
        eapply cstr_ext, Hs. intros b Hb'. apply Hsame. lia.
      * lia.
      * lia.
      * apply Forall2_impl with (arg_ok m buf hi); [intros; by eapply arg_ok_frame|].
        destruct (takes_arg d); [|done]. destruct Hargs; done.
      * done.
      * lia.
      * lia.
      * lia.
      * exists m2. split; [do 2 f_equal; lia|]. eapply wrote_app; [exact Hw1|].
        rewrite <- Z.add_assoc. done.
  - assert (Hr : render (c :: fmt) vargs = c :: render fmt vargs).
    { cbn [render]. rewrite (proj2 (Z.eqb_neq c 37)) by done. done. }
    assert (Hfit' : args_fit fmt vargs).
    { cbn [args_fit] in Hfit. rewrite (proj2 (Z.eqb_neq c 37)) in Hfit by done. done. }
    rewrite Hr in *. cbn [length] in *.
    assert (Hsame : forall b, ~ (buf <= b < hi) -> rd8 (wr8 m (buf + ptr) c) b = rd8 m b).
    { intros b Hb2. apply rd8_wr8_ne. lia. }
    destruct (IH (wr8 m (buf + ptr) c) (i + 1) (ptr + 1) fmt args vargs) as (m2 & -> & Hw2).
    + rewrite Z.add_assoc. eapply cstr_ext, Hs. intros b Hb2. apply Hsame. lia.
    + lia.
    + lia.
    + apply Forall2_impl with (arg_ok m buf hi); [|done]. intros. by eapply arg_ok_frame.
    + done.
    + lia.
    + lia.
    + lia.
    + exists m2. split; [do 2 f_equal; lia|]. apply wrote_cons; [done|].
      rewrite <- Z.add_assoc. done.
Qed.

(** ** Properties *)

Lemma vasprintf_spec fuel m buf fmtp hi fmt args vargs :
  cstr m fmtp fmt -> fmtp + slen fmt < buf \/ hi <= fmtp ->
  Forall2 (arg_ok m buf hi) args vargs -> args_fit fmt vargs ->
  buf + slen (render fmt vargs) + 1 <= hi ->
  (length fmt + length (render fmt vargs) + 23 <= fuel)%nat ->
  exists m', vasprintf fuel m buf fmtp args = Some m'
    /\ wrote m m' buf (render fmt vargs ++ [0]).
Proof.
  intros Hs Hd Hargs Hfit Hhi Hf. unfold vasprintf.
  rewrite (kstrlen_spec fuel m fmtp fmt Hs) by lia.
  destruct (vas_loop_spec fuel m buf fmtp (if decide (fmt = []) then 0 else slen fmt + 1) hi 0 0
    fmt args vargs) as (m' & -> & Hw); rewrite ?Z.add_0_r; try assumption; try lia.
  { case_decide as He; [rewrite He; simpl; lia|lia]. }
  exists (wr8 m' (buf + (0 + slen (render fmt vargs))) 0). split; [done|].
  rewrite Z.add_0_r in Hw. eapply wrote_app; [exact Hw|]. rewrite Z.add_0_l. apply wrote_byte. lia.
Qed.

(** C19: on a format with suitable arguments, whose strings lie outside the
    buffer, [vasprintf] terminates with [render fmt args] and a NUL in the buffer
    and changes nothing else. *)
Theorem vasprintf_refines fuel m buf fmtp hi fmt args vargs :
  cstr m fmtp fmt -> fmtp + slen fmt < buf \/ hi <= fmtp ->
  Forall2 (arg_ok m buf hi) args vargs -> args_fit fmt vargs ->
  buf + slen (render fmt vargs) + 1 <= hi ->
  (length fmt + length (render fmt vargs) + 23 <= fuel)%nat ->
  exists m', vasprintf fuel m buf fmtp args = Some m'
    /\ wrote m m' buf (render fmt vargs ++ [0]).
Proof. apply vasprintf_spec. Qed.

Definition fmt_mem : mem :=
  write_temp (write_temp ∅ 100 [112; 61; 37; 115; 33; 0]) 200 [108; 115; 0].

Lemma vasprintf_refines_witness :
  exists m', vasprintf 60 fmt_mem 1000 100 [200] = Some m'
    /\ wrote fmt_mem m' 1000 (render [112; 61; 37; 115; 33] [VStr [108; 115]] ++ [0]).
Proof.
  apply (vasprintf_refines 60 fmt_mem 1000 100 2000 [112; 61; 37; 115; 33] [200] [VStr [108; 115]]).
  - vm_compute. intuition discriminate.
  - left. simpl. lia.
  - constructor; [|constructor]. split; [vm_compute; intuition discriminate|left; simpl; lia].
  - vm_compute. exact I.
  - vm_compute. discriminate.
  - vm_compute. lia.
Defined.

Lemma dec_rev_digits n v :
  (0 < n)%nat -> 0 < v < 10 ^ Z.of_nat n -> v < 2 ^ 32 ->
  dec_rev n v = digit_char <$> digits n v 10.
Proof.
  revert v. induction n as [|n IH]; intros v Hn Hv H32; [lia|]. cbn [dec_rev digits fmap list_fmap].
  rewrite (proj2 (Z.ltb_lt 0 v)) by lia.
  pose proof (Z.mod_pos_bound v 10 ltac:(lia)). pose proof (Z.div_pos v 10).
  assert (v / 10 < 2 ^ 32) by (apply Z.div_lt_upper_bound; lia).
  pose proof (digits_enough n v 10 ltac:(lia) ltac:(lia)).
  f_equal; [unfold digit_char; rewrite (proj2 (Z.ltb_lt _ _)); lia|].
  rewrite u32_small by lia. case Z.eqb_spec; intros Hq.
  - rewrite Hq. destruct n; done.
  - destruct n as [|n]; [change (10 ^ Z.of_nat 0) with 1 in *; lia|]. apply IH; lia.
Qed.

(** The conversion [%d] prints the decimal digits of its argument least
    significant first ([itoa] of the same library reverses them), and prints
    nothing at all for zero. *)
Theorem percent_d_reversed v :
  0 < v < 2 ^ 32 ->
  render [37; 100] [VInt v] = digit_char <$> digits 21 v 10
  /\ of_digits 10 (reverse (digits 21 v 10)) = v
  /\ render [37; 100] [VInt 0] = [].
Proof.
  intros Hv. change (render [37; 100] [VInt v]) with (dec_rev 21 (u64 v) ++ []).
  rewrite app_nil_r, u64_small by lia. split; [apply dec_rev_digits; lia|].
  split; [apply of_digits_digits; lia|reflexivity].
Qed.

Lemma percent_d_reversed_witness :
  render [37; 100] [VInt 120] = digit_char <$> digits 21 120 10
  /\ of_digits 10 (reverse (digits 21 120 10)) = 120
  /\ render [37; 100] [VInt 0] = [].
Proof. apply (percent_d_reversed 120). lia. Defined.
