(* ===== verification/Console.v ===== *)
(** * The text console

    The screen functions of [sys/kprintf.c] and [sys/putch.c], and
    [clear_screen] of [sys/process.c]: a cursor [(x, y)] and 16-bit cells in video
    memory. *)

From stdpp Require Import base gmap list numbers.
From Stdlib Require Import ZArith Lia.
From S2P Require Import Prelude KLib Paging Utils Format.

Definition TABSPACE : Z := 4.
Definition HOR_BITS : Z := 80.
Definition VERT_BITS : Z := 24.
Definition TIMER_X : Z := 60.
Definition VIDEO_ADDR : Z := 0xFFFFFFFF800B8000.

(** The globals [x] and [y] and memory. *)
Record con := mk_con { cmem : mem; cx : Z; cy : Z }.

Definition placechar (m : mem) (c x y attr : Z) : mem :=
  let att := u32 (Z.shiftl attr 8) in
  let where_ := u64 (VIDEO_ADDR + 2 * (y * 80 + x)) in
  wr16 m (kphys where_) (Z.lor c att).

(** The wrap-around that every output function starts with. *)
Definition wrap_cursor (s : con) : con :=
  let s := if cx s =? HOR_BITS then mk_con (cmem s) 0 (cy s + 1) else s in
  if cy s =? VERT_BITS then mk_con (cmem s) 0 0 else s.

Definition newline (s : con) (c : Z) : con :=
  if c =? 10 then mk_con (cmem s) 0 (cy s + 1) else s.

(** Backspace, or the character and a step to the right. *)
Definition emit (s : con) (c : Z) : con :=
  if c =? 8 then
    if (cx s =? 0) && negb (cy s =? 0) then
      mk_con (placechar (cmem s) 32 (cx s) (cy s) 0x07) HOR_BITS (cy s - 1)
    else mk_con (placechar (cmem s) 32 (cx s) (cy s) 0x07) (cx s - 1) (cy s)
  else mk_con (placechar (cmem s) c (cx s) (cy s) 0x07) (cx s + 1) (cy s).

(** The body of the loop of [kprintf]. *)
Definition kprintf_char (s : con) (c : Z) : con := emit (newline (wrap_cursor s) c) c.

(** [while ( *c ) { ...; c++; }] *)
Fixpoint kprintf_loop (fuel : nat) (s : con) (c : Z) : option con :=
  match fuel with
  | O => None
  | S f =>
      let ch := rd8 (cmem s) c in
      if ch =? 0 then Some s else kprintf_loop f (kprintf_char s ch) (c + 1)
  end.

(** [kprintf]; [buf] is the address of the static buffer, [print_to_screen] the
    global switch. *)
Definition kprintf (fuel : nat) (print_to_screen buf : Z) (s : con) (fmt : Z) (args : list Z)
    : option con :=
  match vasprintf fuel (cmem s) buf fmt args with
  | None => None
  | Some m =>
      let s := mk_con m (cx s) (cy s) in
      if print_to_screen =? 0 then Some s else kprintf_loop fuel s buf
  end.

(** The loop of [print_timer], on its own coordinates. *)
Fixpoint timer_loop (fuel : nat) (m : mem) (c x_coord y_coord : Z) : option mem :=
  match fuel with
  | O => None
  | S f =>
      let ch := rd8 m c in
      if ch =? 0 then Some m
      else timer_loop f (placechar m ch x_coord y_coord 0x07) (c + 1) (x_coord + 1) y_coord
  end.

Definition print_timer (fuel : nat) (print_to_screen buf_timer : Z) (s : con) (fmt : Z)
    (args : list Z) : option con :=
  match vasprintf fuel (cmem s) buf_timer fmt args with
  | None => None
  | Some m =>
      if print_to_screen =? 0 then Some (mk_con m (cx s) (cy s))
      else
        match timer_loop fuel m buf_timer TIMER_X VERT_BITS with
        | None => None
        | Some m => Some (mk_con m (cx s) (cy s))
        end
  end.

(** The tab stop of [putc] and [putch]. *)
Definition tab (s : con) (c : Z) : con :=
  if c =? 9 then
    let d := cx s + TABSPACE - HOR_BITS in
    if d =? 0 then mk_con (cmem s) 4 (cy s + 1)
    else if d =? 1 then mk_con (cmem s) 3 (cy s + 1)
    else if d =? 2 then mk_con (cmem s) 2 (cy s + 1)
    else if d =? 3 then mk_con (cmem s) 1 (cy s + 1)
    else if d =? 4 then mk_con (cmem s) 0 (cy s + 1)
    else mk_con (cmem s) (cx s + TABSPACE) (cy s)
  else s.

Definition putch (s : con) (c : Z) : con := emit (tab (newline (wrap_cursor s) c) c) c.

(** [putc] takes a [char] and returns it; [placechar] gets its unsigned value. *)
Definition putc (s : con) (c : Z) : Z * con := (c, emit (tab (newline (wrap_cursor s) c) c) c).

(** [for (i = 0; i < HOR_BITS; i++) for (j = 0; j <= VERT_BITS; j++) placechar(' ', i, j, 0x7);] *)
Fixpoint clear_column (n : nat) (m : mem) (i j : Z) : mem :=
  match n with
  | O => m
  | S n => clear_column n (placechar m 32 i j 0x7) i (j + 1)
  end.

Fixpoint clear_columns (n : nat) (m : mem) (i : Z) : mem :=
  match n with
  | O => m
  | S n => clear_columns n (clear_column (Z.to_nat (VERT_BITS + 1)) m i 0) (i + 1)
  end.

Definition clear_screen (m : mem) : mem :=
  let m := clear_columns (Z.to_nat HOR_BITS) m 0 in
  placechar m 0 0 0 0x7.

(** ** Cells *)

Definition video : Z := 0xB8000.

(** The cell at column [x] of row [y]. *)
Definition cell (m : mem) (x y : Z) : Z := rd16 m (video + 2 * (y * 80 + x)).

Definition on_screen (x y : Z) : Prop := 0 <= x < 80 /\ 0 <= y < 25.

Lemma placechar_eq m c x y :
  on_screen x y -> 0 <= c < 256 ->
  placechar m c x y 0x07 = wr16 m (video + 2 * (y * 80 + x)) (c + 0x700).
Proof.
  unfold on_screen. intros Hxy Hc. unfold placechar, VIDEO_ADDR.
  rewrite (u64_small (_ + _)) by lia.
  replace (18446744071562821632 + 2 * (y * 80 + x)) with (VIRT_BASE + (video + 2 * (y * 80 + x)))
    by (unfold VIRT_BASE, video; lia).
  rewrite kphys_high by (unfold video; lia). f_equal.
  change (u32 (Z.shiftl 7 8)) with 0x700. rewrite Z.lor_comm.
  rewrite (lor_aligned 0x700 c 8) by (reflexivity || lia). lia.
Qed.

Lemma rd8_placechar m c x y a :
  on_screen x y -> 0 <= c < 256 -> ~ (video <= a < video + 4000) ->
  rd8 (placechar m c x y 0x07) a = rd8 m a.
Proof.
  intros Hxy Hc Ha. rewrite placechar_eq by assumption. unfold on_screen in Hxy.
  apply rd8_wr16_ne. lia.
Qed.

Lemma cell_placechar m c x y x' y' :
  on_screen x y -> on_screen x' y' -> 0 <= c < 256 ->
  cell (placechar m c x y 0x07) x' y' =
    if decide (x = x' /\ y = y') then c + 0x700 else cell m x' y'.
Proof.
  unfold on_screen, cell. intros Hxy Hxy' Hc. rewrite placechar_eq by (done || lia).
  case_decide as Hd.
  - destruct Hd as [-> ->]. rewrite rd16_wr16_eq. apply u16_small. lia.
  - apply rd16_wr16_ne. lia.
Qed.

(** ** The cursor stays on the screen *)

(** Row 24 is entered only by a line feed or a tab, and left at once. *)
Definition cursor_ok (x y : Z) : Prop := 0 <= x <= 80 /\ 0 <= y <= 24 /\ (y = 24 -> x <= 5).

Lemma wrap_cursor_ok s :
  cursor_ok (cx s) (cy s) ->
  0 <= cx (wrap_cursor s) < 80 /\ 0 <= cy (wrap_cursor s) < 24 /\ cmem (wrap_cursor s) = cmem s.
Proof.
  unfold cursor_ok, wrap_cursor, HOR_BITS, VERT_BITS. intros Hc.
  destruct (Z.eqb_spec (cx s) 80) as [H1|H1]; cbn [cx cy cmem];
    (case Z.eqb_spec; intros H2; cbn [cx cy cmem]; (split; [lia|]; split; [lia|reflexivity])).
Qed.

(** A step from a safe cursor: the new cursor is safe, and only video memory is
    written, unless the character is a backspace in the top left corner. *)
Definition safe_step (s s' : con) : Prop :=
  cursor_ok (cx s') (cy s') /\
  forall a, ~ (video <= a < video + 4000) -> rd8 (cmem s') a = rd8 (cmem s) a.

Lemma emit_safe s c :
  0 <= cx s < 80 -> 0 <= cy s <= 24 -> (cy s = 24 -> cx s <= 4) -> 0 <= c < 256 ->
  ~ (c = 8 /\ cx s = 0 /\ cy s = 0) -> ~ (c = 8 /\ cy s = 24) -> safe_step s (emit s c).
Proof.
  intros Hx Hy H24 Hc Hbs Hbs'. unfold safe_step, emit, cursor_ok, HOR_BITS.
  assert (Hos : on_screen (cx s) (cy s)) by (unfold on_screen; lia).
  case Z.eqb_spec; intros He.
  - subst c. destruct (Z.eqb_spec (cx s) 0) as [H0|H0], (Z.eqb_spec (cy s) 0) as [H1|H1];
      cbn [andb negb cx cy cmem]; (split; [lia|]); intros a Ha; apply rd8_placechar; done || lia.
  - cbn [cx cy cmem]. split; [lia|]. intros a Ha. apply rd8_placechar; done || lia.
Qed.

Lemma kprintf_char_safe s c :
  cursor_ok (cx s) (cy s) -> 0 <= c < 256 -> c <> 8 -> safe_step s (kprintf_char s c).
Proof.
  intros Hok Hc H8. destruct (wrap_cursor_ok s Hok) as (Hx & Hy & Hm).
  unfold kprintf_char.
  set (w := wrap_cursor s) in *. clearbody w. unfold safe_step. rewrite <- Hm.
  unfold newline. case Z.eqb_spec; intros Hn;
    [apply (emit_safe (mk_con (cmem w) 0 (cy w + 1)))|apply emit_safe];
    cbn [cx cy cmem]; lia.
Qed.

Lemma putch_safe s c :
  cursor_ok (cx s) (cy s) -> 0 <= c < 256 -> c <> 8 -> safe_step s (putch s c).
Proof.
  intros Hok Hc H8. destruct (wrap_cursor_ok s Hok) as (Hx & Hy & Hm). unfold putch.
  set (w := wrap_cursor s) in *. clearbody w. unfold safe_step. rewrite <- Hm.
  unfold newline, tab, TABSPACE, HOR_BITS. destruct (Z.eqb_spec c 10) as [->|Hn].
  - cbn [Z.eqb Pos.eqb]. apply (emit_safe (mk_con (cmem w) 0 (cy w + 1))); cbn [cx cy cmem]; lia.
  - case Z.eqb_spec; intros Ht; [|apply emit_safe; lia].
    repeat (case Z.eqb_spec; intros ?); 
      match goal with |- context [emit ?s0 c] => apply (emit_safe s0) end; cbn [cx cy cmem]; lia.
Qed.

Lemma safe_step_trans s1 s2 s3 : safe_step s1 s2 -> safe_step s2 s3 -> safe_step s1 s3.
Proof. intros [_ H1] [Hc H2]. split; [exact Hc|]. intros a Ha. rewrite H2, H1 by exact Ha. done. Qed.

(** A string that lies outside video memory survives output. *)
Lemma safe_step_cstr s s' c l :
  safe_step s s' -> c + slen l < video \/ video + 4000 <= c -> cstr (cmem s) c l ->
  cstr (cmem s') c l.
Proof. intros [_ Hf] Hd. apply cstr_ext. intros a Ha. apply Hf. lia. Qed.

(** ** Properties *)

(** C23: from a cursor on the screen, printing any string without backspaces
    terminates with the cursor on the screen, and writes nothing but the 4000
    bytes of video memory. *)
Theorem kprintf_confined fuel s c l :
  cursor_ok (cx s) (cy s) -> cstr (cmem s) c l -> 8 ∉ l ->
  c + slen l < video \/ video + 4000 <= c -> (length l < fuel)%nat ->
  exists s', kprintf_loop fuel s c = Some s' /\ safe_step s s'.
Proof.
  revert s c fuel. induction l as [|ch l IH]; intros s c [|f] Hok Hs H8 Hd Hf; simpl in Hf; try lia;
    cbn [kprintf_loop].
  - simpl in Hs. rewrite Hs. exists s. split; [done|]. split; [exact Hok|done].
  - destruct Hs as (Hc & Hc0 & Hs). rewrite Hc, (proj2 (Z.eqb_neq ch 0)) by exact Hc0.
    apply not_elem_of_cons in H8 as [Hne H8]. simpl length in Hd.
    pose proof (rd8_range (cmem s) c) as Hr. rewrite Hc in Hr.
    pose proof (kprintf_char_safe s ch Hok Hr ltac:(congruence)) as Hst.
    destruct (IH (kprintf_char s ch) (c + 1) f) as (s' & -> & Hs').
    + apply Hst.
    + eapply safe_step_cstr; [exact Hst|lia|exact Hs].
    + exact H8.
    + lia.
    + lia.
    + exists s'. split; [done|]. eapply safe_step_trans; [exact Hst|exact Hs'].
Qed.

Definition con_demo : con := mk_con (write_temp ∅ 100 [79; 107; 10; 0]) 0 0.

Lemma kprintf_confined_witness :
  exists s', kprintf_loop 10 con_demo 100 = Some s' /\ safe_step con_demo s'.
Proof.
  apply (kprintf_confined 10 con_demo 100 [79; 107; 10]).
  - unfold cursor_ok. simpl. lia.
  - vm_compute. intuition discriminate.
  - apply (bool_decide_unpack _). vm_compute. exact I.
  - left. unfold video. simpl. lia.
  - simpl. lia.
Defined.

Lemma kprintf_char_plain s c :
  0 <= cx s < 80 -> 0 <= cy s < 24 -> c <> 10 -> c <> 8 ->
  kprintf_char s c = mk_con (placechar (cmem s) c (cx s) (cy s) 0x07) (cx s + 1) (cy s).
Proof.
  intros Hx Hy H10 H8. unfold kprintf_char, wrap_cursor, HOR_BITS, VERT_BITS.
  rewrite (proj2 (Z.eqb_neq (cx s) 80)), (proj2 (Z.eqb_neq (cy s) 24)) by lia.
  unfold newline, emit. rewrite (proj2 (Z.eqb_neq c 10)), (proj2 (Z.eqb_neq c 8)) by assumption.
  reflexivity.
Qed.

Lemma on_screen_video x y : on_screen x y -> video <= video + 2 * (y * 80 + x) < video + 4000.
Proof. unfold on_screen. lia. Qed.

(** A string of plain characters that fits in the current line appears
    there, cell by cell with attribute 7, the cursor moves behind it and no other
    cell changes. *)
Theorem kprintf_prints_line fuel s c l :
  0 <= cx s -> cx s + slen l <= 80 -> 0 <= cy s < 24 -> cstr (cmem s) c l ->
  8 ∉ l -> 10 ∉ l -> c + slen l < video \/ video + 4000 <= c -> (length l < fuel)%nat ->
  exists s', kprintf_loop fuel s c = Some s' /\ cx s' = cx s + slen l /\ cy s' = cy s
    /\ (forall i ch, l !! i = Some ch -> cell (cmem s') (cx s + Z.of_nat i) (cy s) = ch + 0x700)
    /\ (forall x y, on_screen x y -> ~ (y = cy s /\ cx s <= x < cx s + slen l) ->
          cell (cmem s') x y = cell (cmem s) x y).
Proof.
  revert s c fuel. induction l as [|ch l IH]; intros s c [|f] Hx Hx2 Hy Hs H8 H10 Hd Hf;
    cbn [length] in *; try lia; cbn [kprintf_loop].
  - simpl in Hs. rewrite Hs. exists s. rewrite Z.add_0_r. split_and!; done.
  - destruct Hs as (Hc & Hc0 & Hs). rewrite Hc, (proj2 (Z.eqb_neq ch 0)) by exact Hc0.
    apply not_elem_of_cons in H8 as [Hne8 H8]. apply not_elem_of_cons in H10 as [Hne10 H10].
    pose proof (rd8_range (cmem s) c) as Hr. rewrite Hc in Hr.
    rewrite kprintf_char_plain by (lia || congruence).
    assert (Hos : on_screen (cx s) (cy s)) by (unfold on_screen; lia).
    set (s1 := mk_con _ _ _).
    destruct (IH s1 (c + 1) f) as (s' & -> & Hx' & Hy' & Hcell & Hrest); cbn [s1 cx cy cmem];
      try assumption; try lia.
    { eapply cstr_ext, Hs. intros a Ha. apply rd8_placechar; [exact Hos|exact Hr|lia]. }
    cbn [s1 cx cy cmem] in *. exists s'. split; [done|]. split; [lia|]. split; [done|]. split.
    + intros [|i] d Hi; simpl in Hi.
      * injection Hi as <-. rewrite Z.add_0_r, Hrest by (exact Hos || lia).
        rewrite cell_placechar by assumption. rewrite decide_True by done. done.
      * replace (cx s + Z.of_nat (S i)) with (cx s + 1 + Z.of_nat i) by lia. by apply Hcell.
    + intros x y Hxy Hn. rewrite Hrest by (exact Hxy || lia).
      rewrite cell_placechar by assumption. rewrite decide_False by lia. done.
Qed.

Lemma kprintf_prints_line_witness :
  exists s', kprintf_loop 10 (mk_con (write_temp ∅ 100 [79; 107; 0]) 5 3) 100 = Some s'
    /\ cx s' = 5 + 2 /\ cy s' = 3
    /\ (forall i ch, [79; 107] !! i = Some ch -> cell (cmem s') (5 + Z.of_nat i) 3 = ch + 0x700)
    /\ (forall x y, on_screen x y -> ~ (y = 3 /\ 5 <= x < 5 + 2) ->
          cell (cmem s') x y = cell (write_temp ∅ 100 [79; 107; 0]) x y).
Proof.
  apply (kprintf_prints_line 10 (mk_con (write_temp ∅ 100 [79; 107; 0]) 5 3) 100 [79; 107]);
    cbn [cx cy cmem].
  - lia.
  - simpl. lia.
  - lia.
  - vm_compute. intuition discriminate.
  - apply (bool_decide_unpack _). vm_compute. exact I.
  - apply (bool_decide_unpack _). vm_compute. exact I.
  - left. unfold video. simpl. lia.
  - simpl. lia.
Defined.

Lemma putch_bs_start s :
  cx s = 0 -> 0 < cy s < 24 -> cx (putch s 8) = 80 /\ cy (putch s 8) = cy s - 1.
Proof.
  destruct s as [m x y]. cbn [cx cy]. intros -> Hy.
  unfold putch, wrap_cursor, newline, tab, emit, HOR_BITS, VERT_BITS. cbn [Z.eqb Pos.eqb cx cy].
  rewrite (proj2 (Z.eqb_neq y 24)) by lia. cbn [Z.eqb Pos.eqb cx cy cmem].
  rewrite (proj2 (Z.eqb_neq y 0)) by lia. split; reflexivity.
Qed.

Lemma putch_bs_end s :
  cx s = 80 -> 0 <= cy s < 23 -> cx (putch s 8) = 80 /\ cy (putch s 8) = cy s.
Proof.
  destruct s as [m x y]. cbn [cx cy]. intros -> Hy.
  unfold putch, wrap_cursor, newline, tab, emit, HOR_BITS, VERT_BITS. cbn [Z.eqb Pos.eqb cx cy cmem].
  rewrite (proj2 (Z.eqb_neq (y + 1) 24)) by lia. cbn [Z.eqb Pos.eqb cx cy cmem].
  rewrite (proj2 (Z.eqb_neq (y + 1) 0)) by lia. cbn [andb negb cx cy]. lia.
Qed.

(** Backspaces cannot cross the start of a line: from column 0 of a lower
    row, any number of backspaces through [putch] leaves the cursor at the end of
    the row above, from where the next character goes back to column 0. *)
Theorem backspace_stuck_at_line_start n s :
  cx s = 0 -> 0 < cy s < 24 ->
  let s' := Nat.iter (S n) (fun s => putch s 8) s in cx s' = 80 /\ cy s' = cy s - 1.
Proof.
  intros Hx Hy. induction n as [|n IH].
  - exact (putch_bs_start s Hx Hy).
  - cbv zeta in IH. destruct IH as [IHx IHy].
    destruct (putch_bs_end _ IHx ltac:(lia)) as [H1 H2]. split; [exact H1|].
    etrans; [exact H2|exact IHy].
Qed.

Lemma backspace_stuck_at_line_start_witness :
  let s' := Nat.iter 4 (fun s => putch s 8) (mk_con ∅ 0 7) in cx s' = 80 /\ cy s' = 7 - 1.
Proof. apply (backspace_stuck_at_line_start 3 (mk_con ∅ 0 7)); simpl; lia. Defined.

(** A backspace in the top left corner moves the cursor to column -1, and
    the next character is written two bytes below video memory. *)
Theorem backspace_underflow m c :
  0 <= c < 256 -> c <> 8 -> c <> 9 -> c <> 10 ->
  let s1 := putch (mk_con m 0 0) 8 in
  cx s1 = -1 /\ cy s1 = 0 /\ rd8 (cmem (putch s1 c)) (video - 2) = c.
Proof.
  intros Hc H8 H9 H10. split; [reflexivity|]. split; [reflexivity|].
  unfold putch, newline, tab, emit.
  rewrite (proj2 (Z.eqb_neq c 8)), (proj2 (Z.eqb_neq c 9)), (proj2 (Z.eqb_neq c 10)) by assumption.
  cbn [Z.eqb Pos.eqb wrap_cursor cx cy cmem HOR_BITS VERT_BITS andb negb Z.sub Z.add Z.opp Pos.add].
  set (m1 := placechar m 32 0 0 7). unfold placechar.
  change (kphys (u64 (VIDEO_ADDR + 2 * (0 * 80 + -1)))) with (video - 2).
  change (u32 (Z.shiftl 7 8)) with 0x700. rewrite Z.lor_comm.
  rewrite (lor_aligned 0x700 c 8) by (reflexivity || lia).
  rewrite rd8_wr16_low. rewrite Z.add_comm. change 0x700 with (7 * 256).
  rewrite Z.mod_add, Z.mod_small by lia. done.
Qed.

Lemma backspace_underflow_witness :
  let s1 := putch (mk_con ∅ 0 0) 8 in
  cx s1 = -1 /\ cy s1 = 0 /\ rd8 (cmem (putch s1 65)) (video - 2) = 65.
Proof. apply (backspace_underflow ∅ 65); lia. Defined.

Lemma clear_column_spec n m i j :
  0 <= i < 80 -> 0 <= j -> j + Z.of_nat n <= 25 ->
  (forall x y, on_screen x y -> cell (clear_column n m i j) x y =
     if decide (x = i /\ j <= y < j + Z.of_nat n) then 0x720 else cell m x y)
  /\ (forall a, ~ (video <= a < video + 4000) -> rd8 (clear_column n m i j) a = rd8 m a).
Proof.
  intros Hi. revert m j. induction n as [|n IH]; intros m j Hj Hn; cbn [clear_column].
  - split; [|done]. intros x y _. rewrite decide_False by lia. done.
  - assert (Hos : on_screen i j) by (unfold on_screen; lia).
    destruct (IH (placechar m 32 i j 0x7) (j + 1)) as [Hc Hf]; [lia|lia|]. split.
    + intros x y Hxy. rewrite Hc, cell_placechar by (assumption || lia).
      repeat case_decide; (lia || reflexivity).
    + intros a Ha. rewrite Hf by exact Ha. apply rd8_placechar; [exact Hos|lia|exact Ha].
Qed.

Lemma clear_columns_spec n m i :
  0 <= i -> i + Z.of_nat n <= 80 ->
  (forall x y, on_screen x y -> cell (clear_columns n m i) x y =
     if decide (i <= x < i + Z.of_nat n) then 0x720 else cell m x y)
  /\ (forall a, ~ (video <= a < video + 4000) -> rd8 (clear_columns n m i) a = rd8 m a).
Proof.
  revert m i. induction n as [|n IH]; intros m i Hi Hn; cbn [clear_columns].
  - split; [|done]. intros x y _. rewrite decide_False by lia. done.
  - destruct (clear_column_spec (Z.to_nat (VERT_BITS + 1)) m i 0) as [Hc1 Hf1];
      [lia|lia|unfold VERT_BITS; lia|].
    destruct (IH (clear_column (Z.to_nat (VERT_BITS + 1)) m i 0) (i + 1)) as [Hc Hf]; [lia|lia|].
    split.
    + intros x y Hxy. rewrite Hc, Hc1 by exact Hxy. unfold on_screen, VERT_BITS in *.
      repeat case_decide; (lia || reflexivity).
    + intros a Ha. rewrite Hf, Hf1 by exact Ha. done.
Qed.

(** [clear_screen] leaves a blank in each of the 25 * 80 cells, a NUL
    character in the top left one, and touches nothing but video memory. *)
Theorem clear_screen_blanks m :
  (forall x y, on_screen x y ->
     cell (clear_screen m) x y = if decide (x = 0 /\ y = 0) then 0x700 else 0x720)
  /\ (forall a, ~ (video <= a < video + 4000) -> rd8 (clear_screen m) a = rd8 m a).
Proof.
  unfold clear_screen.
  destruct (clear_columns_spec (Z.to_nat HOR_BITS) m 0) as [Hc Hf]; [lia|unfold HOR_BITS; lia|].
  assert (Hos : on_screen 0 0) by (unfold on_screen; lia). split.
  - intros x y Hxy. rewrite cell_placechar, Hc by (assumption || lia).
    unfold on_screen, HOR_BITS in *. repeat case_decide; (lia || reflexivity).
  - intros a Ha. rewrite rd8_placechar by (assumption || lia). apply Hf, Ha.
Qed.
