(* ===== verification/UserMem.v ===== *)
(** * Kernel accesses to user memory

    The loader, [fork] and [exec] read and write user addresses from kernel
    code.  This file models such accesses byte by byte through the page tables
    and shows that on a range the tables map linearly they are the accesses of
    the kernel library to the physical bytes behind it. *)

From stdpp Require Import base gmap list numbers.
From Stdlib Require Import ZArith Lia.
From S2P Require Import Prelude KLib Mmu Paging BootPaging Alloc Utils UserPaging AddrSpace Memmap.

(** ** Memory accesses *)

(** The physical byte that the kernel reaches at [va]: the window above
    [VIRT_BASE] directly, everything else through the page tables; [None] is a
    page fault.  Nothing sets the write-protect bit of [%cr0], so the kernel's
    own stores need a present page and no more. *)
Definition vphys (s : kst) (va : Z) : option Z :=
  if VIRT_BASE <=? va then Some (va - VIRT_BASE)
  else tr_phys <$> walk (kmem s) (cr3 s) va.

Definition vld8 (s : kst) (va : Z) : option Z := rd8 (kmem s) <$> vphys s va.

Definition vst8 (s : kst) (va v : Z) : option kst :=
  p ← vphys s va; Some (with_mem s (wr8 (kmem s) p v)).

(** [n]-byte accesses; the bytes may lie on different pages. *)
Fixpoint vldn (n : nat) (s : kst) (va : Z) : option Z :=
  match n with
  | O => Some 0
  | S n => b ← vld8 s va; r ← vldn n s (u64 (va + 1)); Some (b + 256 * r)
  end.

Fixpoint vstn (n : nat) (s : kst) (va v : Z) : option kst :=
  match n with
  | O => Some s
  | S n => s ← vst8 s va v; vstn n s (u64 (va + 1)) (v / 256)
  end.

Definition vld64 := vldn 8.
Definition vst64 := vstn 8.

(** [kmemcpy], [memset] and [kstrcpy] when a pointer is a user address. *)
Fixpoint vcpy_loop (n : nat) (s : kst) (cdest csrc i : Z) : option kst :=
  match n with
  | O => Some s
  | S n =>
      b ← vld8 s (u64 (csrc + i));
      s ← vst8 s (u64 (cdest + i)) b;
      vcpy_loop n s cdest csrc (i + 1)
  end.

Definition vmemcpy (s : kst) (dest src n : Z) : option kst := vcpy_loop (Z.to_nat n) s dest src 0.

Fixpoint vset_loop (len : nat) (s : kst) (p c : Z) : option kst :=
  match len with
  | O => Some s
  | S len => s ← vst8 s p c; vset_loop len s (u64 (p + 1)) c
  end.

Definition vmemset (s : kst) (b c len : Z) : option kst := vset_loop (Z.to_nat (s32 len)) s b c.

Fixpoint vstrcpy (fuel : nat) (s : kst) (dst src : Z) : option kst :=
  match fuel with
  | O => None
  | S f =>
      b ← vld8 s src;
      if b =? 0 then vst8 s dst 0
      else s ← vst8 s dst b; vstrcpy f s (u64 (dst + 1)) (u64 (src + 1))
  end.

(** ** Linear ranges *)

(** The tables of [T] hold the same bytes. *)
Definition tables_same (T : gmap (Z * Z) Z) (m m' : mem) : Prop :=
  forall k t a, T !! k = Some t -> t <= a < t + 4096 -> rd8 m' a = rd8 m a.

(** No byte of [p, p + n) belongs to a table. *)
Definition off_tables (T : gmap (Z * Z) Z) (p n : Z) : Prop :=
  forall k t, T !! k = Some t -> p + n <= t \/ t + 4096 <= p.

(** The [n] bytes from [va] are the physical bytes from [p], and stay so as long
    as the tables do. *)
Definition vlin (T : gmap (Z * Z) Z) (s : kst) (va n p : Z) : Prop :=
  forall m', tables_same T (kmem s) m' ->
  forall i, 0 <= i < n -> vphys (with_mem s m') (va + i) = Some (p + i).

Lemma with_mem_kmem s : with_mem s (kmem s) = s.
Proof. destruct s. reflexivity. Qed.

Lemma tables_same_refl T m : tables_same T m m.
Proof. intros k t a _ _. reflexivity. Qed.

Lemma tables_same_trans T m m1 m2 : tables_same T m m1 -> tables_same T m1 m2 -> tables_same T m m2.
Proof. intros H1 H2 k t a Hk Ha. rewrite (H2 k t a), (H1 k t a) by assumption. reflexivity. Qed.

Lemma tables_same_wr8 T m p v : off_tables T p 1 -> tables_same T m (wr8 m p v).
Proof. intros Ho k t a Hk Ha. apply rd8_wr8_ne. specialize (Ho k t Hk). lia. Qed.

Lemma vlin_at T s va n p i : vlin T s va n p -> 0 <= i < n -> vphys s (va + i) = Some (p + i).
Proof. intros H Hi. rewrite <- (with_mem_kmem s) at 1. apply H; [apply tables_same_refl|exact Hi]. Qed.

Lemma vlin_mem T s va n p m' : vlin T s va n p -> tables_same T (kmem s) m' -> vlin T (with_mem s m') va n p.
Proof.
  intros H Ht m2 H2. kst_simpl. apply H. eapply tables_same_trans; [exact Ht|]. kst_simpl_in H2. exact H2.
Qed.

(** Translation depends on [%cr3] and the tables. *)
Lemma vlin_state T s s' va n p :
  vlin T s va n p -> cr3 s' = cr3 s -> tables_same T (kmem s) (kmem s') -> vlin T s' va n p.
Proof.
  intros H Hc Ht m' Hm' i Hi. rewrite <- (H m'); [|eapply tables_same_trans; eassumption|exact Hi].
  unfold vphys. cbn [with_mem kmem cr3]. rewrite Hc. reflexivity.
Qed.

Lemma vlin_sub T s va n p k n' :
  vlin T s va n p -> 0 <= k -> k + n' <= n -> vlin T s (va + k) n' (p + k).
Proof.
  intros H Hk Hn m' Ht i Hi. rewrite <- !Z.add_assoc. apply H; [exact Ht|lia].
Qed.

Lemma off_tables_sub T p n k n' : off_tables T p n -> 0 <= k -> k + n' <= n -> off_tables T (p + k) n'.
Proof. intros H Hk Hn j t Hj. specialize (H j t Hj). lia. Qed.

(** The kernel's window is linear whatever the tables say. *)
Lemma vlin_kernel T s va n : VIRT_BASE <= va -> vlin T s va n (va - VIRT_BASE).
Proof.
  intros Hv m' _ i Hi. unfold vphys. rewrite (proj2 (Z.leb_le _ _)) by lia. f_equal. lia.
Qed.

Lemma vlin_step T s va n p :
  vlin T s va (Z.succ n) p -> vlin T s (va + 1) n (p + 1).
Proof. intros H. apply (vlin_sub T s va (Z.succ n) p 1 n); [exact H|lia|lia]. Qed.

Ltac wrap_off := rewrite ?(u64_small (_ + _)) by lia.

Lemma vst8_lin T s va n p i v :
  vlin T s va n p -> 0 <= i < n -> vst8 s (va + i) v = Some (with_mem s (wr8 (kmem s) (p + i) v)).
Proof. intros H Hi. unfold vst8. rewrite (vlin_at T s va n p i H Hi). reflexivity. Qed.

Lemma vld8_lin T s va n p i :
  vlin T s va n p -> 0 <= i < n -> vld8 s (va + i) = Some (rd8 (kmem s) (p + i)).
Proof. intros H Hi. unfold vld8. rewrite (vlin_at T s va n p i H Hi). reflexivity. Qed.

Lemma vldn_lin T n s va p :
  vlin T s va (Z.of_nat n) p -> 0 <= va -> va + Z.of_nat n < 2 ^ 64 ->
  vldn n s va = Some (rdn n (kmem s) p).
Proof.
  revert va p. induction n as [|n IH]; intros va p H H0 Hb; cbn [vldn rdn]; [reflexivity|].
  pose proof (vld8_lin T s va _ p 0 H ltac:(lia)) as E. rewrite !Z.add_0_r in E. rewrite E. cbn [mbind option_bind].
  rewrite u64_small by lia. rewrite Nat2Z.inj_succ in H.
  rewrite (IH (va + 1) (p + 1)); [reflexivity|apply vlin_step, H|lia|lia].
Qed.

Lemma vstn_lin T n s va p v :
  vlin T s va (Z.of_nat n) p -> off_tables T p (Z.of_nat n) -> 0 <= va -> va + Z.of_nat n < 2 ^ 64 ->
  vstn n s va v = Some (with_mem s (wrn n (kmem s) p v)).
Proof.
  revert s va p v. induction n as [|n IH]; intros s va p v H Ho H0 Hb; cbn [vstn wrn].
  - rewrite with_mem_kmem. reflexivity.
  - pose proof (vst8_lin T s va _ p 0 v H ltac:(lia)) as E. rewrite !Z.add_0_r in E. rewrite E.
    cbn [mbind option_bind]. rewrite u64_small by lia. rewrite Nat2Z.inj_succ in H, Ho.
    rewrite (IH _ (va + 1) (p + 1)); [kst_simpl; reflexivity| |..|lia|lia].
    + apply vlin_mem; [apply vlin_step, H|]. apply tables_same_wr8.
      pose proof (off_tables_sub T p _ 0 1 Ho ltac:(lia) ltac:(lia)) as H1.
      rewrite Z.add_0_r in H1. exact H1.
    + apply (off_tables_sub T p (Z.succ (Z.of_nat n)) 1); [exact Ho|lia|lia].
Qed.

Lemma vcpy_lin T n s dst src pd ps i :
  vlin T s dst (i + Z.of_nat n) pd -> vlin T s src (i + Z.of_nat n) ps ->
  off_tables T pd (i + Z.of_nat n) -> 0 <= i -> 0 <= dst -> 0 <= src ->
  dst + i + Z.of_nat n <= 2 ^ 64 -> src + i + Z.of_nat n <= 2 ^ 64 ->
  vcpy_loop n s dst src i = Some (with_mem s (cpy_loop n (kmem s) pd ps i)).
Proof.
  revert s i. induction n as [|n IH]; intros s i Hd Hs Ho Hi H0 H1 Hb1 Hb2; cbn [vcpy_loop cpy_loop].
  - rewrite with_mem_kmem. reflexivity.
  - rewrite !u64_small by lia. rewrite (vld8_lin T s src _ ps i Hs) by lia. cbn [mbind option_bind].
    rewrite (vst8_lin T s dst _ pd i _ Hd) by lia. cbn [mbind option_bind].
    replace (i + Z.of_nat (S n)) with (i + 1 + Z.of_nat n) in * by lia.
    assert (Ht : tables_same T (kmem s) (wr8 (kmem s) (pd + i) (rd8 (kmem s) (ps + i)))).
    { apply tables_same_wr8. apply (off_tables_sub T pd (i + 1 + Z.of_nat n)); [exact Ho|lia|lia]. }
    rewrite IH; try lia; try (apply vlin_mem; assumption); [kst_simpl; reflexivity|exact Ho].
Qed.

Lemma vmemcpy_lin T s dst src pd ps n :
  vlin T s dst n pd -> vlin T s src n ps -> off_tables T pd n -> 0 <= n ->
  0 <= dst -> 0 <= src -> dst + n <= 2 ^ 64 -> src + n <= 2 ^ 64 ->
  vmemcpy s dst src n = Some (with_mem s (kmemcpy (kmem s) pd ps n)).
Proof.
  intros Hd Hs Ho Hn H0 H1 Hb1 Hb2. unfold vmemcpy, kmemcpy.
  apply (vcpy_lin T); rewrite ?Z.add_0_l, ?Z2Nat.id by lia; try assumption; lia.
Qed.

Lemma vset_lin T n s va p c :
  vlin T s va (Z.of_nat n) p -> off_tables T p (Z.of_nat n) -> 0 <= va -> va + Z.of_nat n < 2 ^ 64 ->
  vset_loop n s va c = Some (with_mem s (memset_loop n (kmem s) p c)).
Proof.
  revert s va p. induction n as [|n IH]; intros s va p H Ho H0 Hb; cbn [vset_loop memset_loop].
  - rewrite with_mem_kmem. reflexivity.
  - pose proof (vst8_lin T s va _ p 0 c H ltac:(lia)) as E. rewrite !Z.add_0_r in E. rewrite E.
    cbn [mbind option_bind]. rewrite u64_small by lia. rewrite Nat2Z.inj_succ in H, Ho.
    pose proof (off_tables_sub T p _ 0 1 Ho ltac:(lia) ltac:(lia)) as H1. rewrite Z.add_0_r in H1.
    rewrite (IH _ (va + 1) (p + 1)); [kst_simpl; reflexivity| |..|lia|lia].
    + apply vlin_mem; [apply vlin_step, H|]. apply tables_same_wr8, H1.
    + apply (off_tables_sub T p (Z.succ (Z.of_nat n)) 1); [exact Ho|lia|lia].
Qed.

Lemma vmemset_lin T s va p c n :
  vlin T s va n p -> off_tables T p n -> 0 <= n < 2 ^ 31 -> 0 <= va -> va + n < 2 ^ 64 ->
  vmemset s va c n = Some (with_mem s (memset (kmem s) p c n)).
Proof.
  intros H Ho Hn H0 Hb. unfold vmemset, memset. rewrite s32_small by lia.
  apply (vset_lin T); rewrite ?Z2Nat.id by lia; try assumption; lia.
Qed.

Lemma vld64_lin T s va p :
  vlin T s va 8 p -> 0 <= va -> va + 8 < 2 ^ 64 -> vld64 s va = Some (rd64 (kmem s) p).
Proof. intros. apply (vldn_lin T 8); assumption. Qed.

Lemma vst64_lin T s va p v :
  vlin T s va 8 p -> off_tables T p 8 -> 0 <= va -> va + 8 < 2 ^ 64 ->
  vst64 s va v = Some (with_mem s (wr64 (kmem s) p v)).
Proof. intros. apply (vstn_lin T 8); assumption. Qed.

Lemma vstrcpy_lin T fuel s dst src pd ps str :
  cstr (kmem s) ps str -> (length str < fuel)%nat ->
  vlin T s dst (slen str + 1) pd -> vlin T s src (slen str + 1) ps -> off_tables T pd (slen str + 1) ->
  0 <= dst -> 0 <= src -> dst + slen str + 1 < 2 ^ 64 -> src + slen str + 1 < 2 ^ 64 ->
  pd + slen str < ps \/ ps + slen str < pd ->
  vstrcpy fuel s dst src = with_mem s <$> kstrcpy fuel (kmem s) pd ps.
Proof.
  revert s dst src pd ps fuel. induction str as [|c str IH];
    intros s dst src pd ps [|f] Hs Hf Hd Hsr Ho H0 H1 Hb1 Hb2 Hov; try (simpl in Hf; lia);
    cbn [vstrcpy kstrcpy]; simpl in Hs; cbn [length] in *.
  - pose proof (vld8_lin T s src _ ps 0 Hsr ltac:(lia)) as E. rewrite !Z.add_0_r in E. rewrite E, Hs.
    pose proof (vst8_lin T s dst _ pd 0 0 Hd ltac:(lia)) as E'. rewrite !Z.add_0_r in E'.
    cbn [mbind option_bind Z.eqb]. rewrite E'. reflexivity.
  - destruct Hs as (Hc & Hc0 & Hs). rewrite Nat2Z.inj_succ in *.
    pose proof (vld8_lin T s src _ ps 0 Hsr ltac:(lia)) as E. rewrite !Z.add_0_r in E. rewrite E, Hc.
    cbn [mbind option_bind]. rewrite (proj2 (Z.eqb_neq c 0)) by exact Hc0.
    pose proof (vst8_lin T s dst _ pd 0 c Hd ltac:(lia)) as E'. rewrite !Z.add_0_r in E'.
    rewrite E'. cbn [mbind option_bind]. rewrite !u64_small by lia.
    replace (Z.succ (Z.of_nat (length str)) + 1) with (Z.succ (slen str + 1)) in * by lia.
    pose proof (off_tables_sub T pd _ 0 1 Ho ltac:(lia) ltac:(lia)) as Ho1. rewrite Z.add_0_r in Ho1.
    assert (Ht : tables_same T (kmem s) (wr8 (kmem s) pd c)) by (apply tables_same_wr8, Ho1).
    rewrite (IH _ _ _ (pd + 1) (ps + 1)); try lia.
    + kst_simpl. destruct (kstrcpy f _ _ _); reflexivity.
    + kst_simpl. eapply cstr_ext; [|exact Hs]. intros a Ha. apply rd8_wr8_ne. lia.
    + apply vlin_mem; [apply vlin_step, Hd|exact Ht].
    + apply vlin_mem; [apply vlin_step, Hsr|exact Ht].
    + apply (off_tables_sub T pd (Z.succ (slen str + 1)) 1); [exact Ho|lia|lia].
Qed.

(** ** Ranges of a user address space *)

(** [n] pages from page number [v] with consecutive writable frames from [f]. *)
Fixpoint map_range (n : nat) (L : gmap Z Z) (v f : Z) : gmap Z Z :=
  match n with
  | O => L
  | S n => map_range n (<[v := f + USR_PERM_BITS]> L) (v + 1) (f + 4096)
  end.

Lemma map_range_lookup n L v f w :
  map_range n L v f !! w =
    if decide (v <= w < v + Z.of_nat n) then Some (f + 4096 * (w - v) + USR_PERM_BITS) else L !! w.
Proof.
  revert L v f. induction n as [|n IH]; intros L v f; cbn [map_range].
  - rewrite decide_False by lia. reflexivity.
  - rewrite IH. destruct (decide (w = v)) as [->|Hne].
    + rewrite decide_False, decide_True, lookup_insert_eq by lia. f_equal. lia.
    + rewrite lookup_insert_ne by congruence.
      do 2 case_decide; try lia; [f_equal; lia|reflexivity].
Qed.

(** Frames of the map behind the [n] bytes from [va]: the bytes from [p]. *)
Definition ulin (L : gmap Z Z) (va n p : Z) : Prop :=
  forall i, 0 <= i < n -> exists e, L !! ((va + i) / 4096) = Some e /\
    pte_frame e + (va + i) mod 4096 = p + i.

Lemma map_range_ulin n L va f :
  f mod 4096 = 0 -> 0 <= f -> f + 4096 * Z.of_nat n <= 2 ^ 51 ->
  ulin (map_range n L (va / 4096) f) va (4096 * Z.of_nat n - va mod 4096) (f + va mod 4096).
Proof.
  intros Ha H0 Hb i Hi. rewrite map_range_lookup.
  assert (Hv : va / 4096 <= (va + i) / 4096 < va / 4096 + Z.of_nat n) by zdiv.
  rewrite decide_True by exact Hv. eexists. split; [reflexivity|].
  rewrite pte_frame_add; [zdiv|lia|zdiv|unfold USR_PERM_BITS; lia].
Qed.

Lemma ulin_insert L v e va n p :
  ulin L va n p -> (forall i, 0 <= i < n -> (va + i) / 4096 <> v) -> ulin (<[v := e]> L) va n p.
Proof.
  intros H Hv i Hi. destruct (H i Hi) as (e' & HL & Hp). exists e'. split; [|exact Hp].
  rewrite lookup_insert_ne; [exact HL|]. specialize (Hv i Hi). congruence.
Qed.

Lemma ulin_map_range k L w g va n p :
  ulin L va n p -> (forall i, 0 <= i < n -> (va + i) / 4096 < w \/ w + Z.of_nat k <= (va + i) / 4096) ->
  ulin (map_range k L w g) va n p.
Proof.
  intros H Hv i Hi. destruct (H i Hi) as (e' & HL & Hp). exists e'. split; [|exact Hp].
  rewrite map_range_lookup, decide_False by (specialize (Hv i Hi); lia). exact HL.
Qed.

(** A page inserted by one of the mapping steps. *)
Lemma ulin_page L v f :
  f mod 4096 = 0 -> 0 <= f < 2 ^ 51 -> ulin (<[v := f + USR_PERM_BITS]> L) (4096 * v) 4096 f.
Proof.
  intros Ha Hf i Hi. replace ((4096 * v + i) / 4096) with v by zdiv. rewrite lookup_insert_eq.
  eexists. split; [reflexivity|]. rewrite pte_frame_add; [zdiv|lia|exact Ha|unfold USR_PERM_BITS; lia].
Qed.

Lemma ulin_sub L va n p k n' : ulin L va n p -> 0 <= k -> k + n' <= n -> ulin L (va + k) n' (p + k).
Proof.
  intros H Hk Hn i Hi. destruct (H (k + i) ltac:(lia)) as (e & HL & Hp). exists e.
  rewrite <- !Z.add_assoc. split; assumption.
Qed.

Section client.
Context (ready : Z -> kst -> Prop) (own : Z -> Prop) `{HPS : !PageSource ready own}.
Context (P lo : Z) (HP : P mod 4096 = 0) (HP0 : 0 <= P) (HPlo : P + 4096 <= lo).
Context (Hown : forall a, own a -> a < P).

Abbreviation uspace := (uspace ready P lo).
Abbreviation data_same := (data_same own).

(** The invariant reads memory through the tables alone, and a few globals. *)
Lemma uspace_moved np s T L np' s' :
  uspace np s T L -> ready np' s' -> np <= np' <= KWIN -> cr3 s' = cr3 s ->
  (forall x, x ∈ [pml4_shared; virt_base_for_user; usr_phys_addr] -> s'⟦x⟧ = s⟦x⟧) -> tables_same T (kmem s) (kmem s') ->
  uspace np' s' T L.
Proof.
  intros [Hr H4 Hvb Hc Hf Hi] Hr' Hnp Hc' Hg Ht.
  assert (He : forall k t i, T !! k = Some t -> 0 <= i < 512 -> entry (kmem s') t i = entry (kmem s) t i).
  { intros k t i Hk Hii. unfold entry. apply rd64_ext. intros a Ha. apply (Ht k t); [exact Hk|lia]. }
  constructor; rewrite ?Hg by (repeat constructor); try assumption; [congruence|].
  destruct Hi. constructor; try assumption; [lia|..].
  - intros k t HT Hk. destruct (ui_ok k t HT Hk) as [H1 H2 H3]. constructor; [exact H1|exact H2|lia].
  - intros l p t i HT Hl Hii H44. rewrite (He _ _ _ HT Hii). apply (ui_dir l p); assumption.
  - intros p t i HT Hii. rewrite (He _ _ _ HT Hii). apply (ui_leaf p); assumption.
Qed.

Lemma uspace_mem np s T L m' :
  uspace np s T L -> tables_same T (kmem s) m' -> uspace np (with_mem s m') T L.
Proof.
  intros Hu Ht. pose proof (ui_lo _ _ _ _ _ _ (us_inv _ _ _ _ _ _ _ Hu)).
  eapply uspace_moved; [exact Hu|eapply ps_frame; [exact (us_ready _ _ _ _ _ _ _ Hu)|reflexivity]|lia|reflexivity| |exact Ht].
  intros x _. kst_simpl. reflexivity.
Qed.

Lemma uspace_vphys np s T L va :
  uspace np s T L -> 0 <= va < 2 ^ 47 ->
  vphys s va = (fun e => pte_frame e + va mod 4096) <$> L !! (va / 4096).
Proof.
  intros Hu Hva. unfold vphys. rewrite (proj2 (Z.leb_gt _ _)) by (unfold VIRT_BASE; lia).
  rewrite (us_cr3 _ _ _ _ _ _ _ Hu).
  pose proof (uinv_walk P lo HP HP0 HPlo _ _ _ _ va (us_inv _ _ _ _ _ _ _ Hu) Hva) as Hw.
  destruct (walk _ _ _), (L !! _); try discriminate; [|reflexivity].
  injection Hw as Hp _. cbn. rewrite Hp. reflexivity.
Qed.

(** Linear ranges of the abstract map are linear for the kernel's accesses. *)
Lemma ulin_vlin np s T L va n p :
  uspace np s T L -> ulin L va n p -> 0 <= va -> va + n <= 2 ^ 47 -> vlin T s va n p.
Proof.
  intros Hu Hl H0 Hb m' Ht i Hi.
  rewrite (uspace_vphys np _ T L) by (lia || apply uspace_mem; assumption).
  destruct (Hl i Hi) as (e & -> & Hp). cbn. rewrite Hp. reflexivity.
Qed.

(** User frames lie above the tables. *)
Lemma off_tables_user np s T L p n : uspace np s T L -> np <= p -> off_tables T p n.
Proof.
  intros Hu Hp k t Hk.
  assert (t mod 4096 = 0 /\ P <= t /\ t + 4096 <= np)
    by (eapply uinv_page; [..|exact (us_inv _ _ _ _ _ _ _ Hu)|exact Hk]; assumption). lia.
Qed.

Lemma outside_off_tables np s T L p n :
  uspace np s T L -> 0 < n -> (forall a, p <= a < p + n -> outside T a) ->
  ~ (P + 2048 <= p + n /\ p < P + 4096) ->
  off_tables T p n.
Proof.
  intros Hu Hn Ho HPn k t Hk. destruct (decide (k = (4, 0))) as [->|Hne].
  - rewrite (ui_root _ _ _ _ _ _ (us_inv _ _ _ _ _ _ _ Hu)) in Hk. injection Hk as <-.
    destruct (decide (p + n <= P)); [lia|]. destruct (decide (P + 4096 <= p)); [lia|]. exfalso.
    apply (Ho (Z.max p P) ltac:(lia) (4, 0) P (ui_root _ _ _ _ _ _ (us_inv _ _ _ _ _ _ _ Hu))).
    rewrite decide_True by reflexivity. lia.
  - destruct (decide (p + n <= t)); [lia|]. destruct (decide (t + 4096 <= p)); [lia|]. exfalso.
    apply (Ho (Z.max p t) ltac:(lia) k t Hk). rewrite decide_False by exact Hne. lia.
Qed.

Lemma data_same_trans np np1 np2 T T1 T2 s s1 s2 :
  np <= np1 -> np1 <= np2 -> data_same np np1 T T1 s s1 -> data_same np1 np2 T1 T2 s1 s2 ->
  data_same np np2 T T2 s s2.
Proof.
  intros Hn1 Hn2 H1 H2 a Ha Ho HT. destruct (H1 a) as [E1 O1]; [lia|assumption..|].
  destruct (H2 a) as [E2 O2]; [lia|assumption..|]. split; [congruence|exact O2].
Qed.
End client.
