(* ===== verification/Keyboard.v ===== *)
(** * The keyboard

    [sys/keyboard.c]: the scan-code tables, the interrupt handler and [gets].
    The symbols [counter] and [flag] are defined without initialiser both here
    and in [sys/paging.c], so the linker makes them one object; the handler
    counts in the low 16 bits of the allocator's [counter].  [gets] waits in a
    busy loop for the handler to set [check_nl]; the model delivers a list of
    scan codes as interrupts while it waits. *)

From stdpp Require Import base gmap list numbers.
From Stdlib Require Import ZArith Lia.
From Stdlib Require Ascii String.
From S2P Require Import Prelude KLib Paging BootPaging Alloc Utils Format Console Mmu UserPaging AddrSpace Memmap UserMem.
Import (notations) String.

Definition chars (s : String.string) : list Z :=
  (fun c => Z.of_N (Ascii.N_of_ascii c)) <$> String.list_ascii_of_string s.

(** From [Right shift] on the three tables agree. *)
Definition kbd_tail : list Z :=
  [0; 42; 0; 32; 0] ++ replicate 15 0 ++ [45; 0; 0; 0; 43] ++ replicate 49 0.

Definition kbdus : list Z :=
  [0; 27] ++ chars "1234567890-="%string ++ [8; 9] ++ chars "qwertyuiop[]"%string ++ [10; 0]
  ++ chars "asdfghjkl;'`"%string ++ [0] ++ chars "\zxcvbnm,./"%string ++ kbd_tail.

Definition kbdshift : list Z :=
  [0; 27] ++ chars "!@#$%^&*()_+"%string ++ [8; 9] ++ chars "QWERTYUIOP{}"%string ++ [10; 0]
  ++ chars "ASDFGHJKL:"%string ++ [34] ++ chars "~"%string ++ [0] ++ chars "|ZXCVBNM<>?"%string
  ++ kbd_tail.

Definition kbdcaps : list Z :=
  [0; 27] ++ chars "1234567890-="%string ++ [8; 9] ++ chars "QWERTYUIOP[]"%string ++ [10; 0]
  ++ chars "ASDFGHJKL;'`"%string ++ [0] ++ chars "\ZXCVBNM,./"%string ++ kbd_tail.

Inductive last_key_pressed := NO | CTRL | SHIFT | ALT | CAPS.

#[export] Instance last_key_pressed_eq_dec : EqDecision last_key_pressed.
Proof. solve_decision. Defined.

(** The kernel state, the console cursor and the globals of the driver;
    [outs] lists the bytes written to ports. *)
Record kbd := mk_kbd {
  kk : kst; kx : Z; ky : Z;
  kbd_buf : Z; gets_at : Z; lkp : last_key_pressed; check_nl : Z;
  outs : list (Z * Z) }.

Definition with_kk (k : kbd) (s : kst) : kbd :=
  mk_kbd s (kx k) (ky k) (kbd_buf k) (gets_at k) (lkp k) (check_nl k) (outs k).
Definition with_lkp (k : kbd) (l : last_key_pressed) : kbd :=
  mk_kbd (kk k) (kx k) (ky k) (kbd_buf k) (gets_at k) l (check_nl k) (outs k).
Definition with_nl (k : kbd) (v : Z) : kbd :=
  mk_kbd (kk k) (kx k) (ky k) (kbd_buf k) (gets_at k) (lkp k) v (outs k).
Definition with_buf (k : kbd) (v : Z) : kbd :=
  mk_kbd (kk k) (kx k) (ky k) v (gets_at k) (lkp k) (check_nl k) (outs k).
Definition outb (k : kbd) (port val : Z) : kbd :=
  mk_kbd (kk k) (kx k) (ky k) (kbd_buf k) (gets_at k) (lkp k) (check_nl k)
    (outs k ++ [(port, val)]).

(** [counter] as this file declares it: the low 16 bits of the shared object. *)
Definition counter16 (k : kbd) : Z := u16 ((kk k)⟦counter⟧).
Definition set_counter16 (k : kbd) (v : Z) : kbd :=
  let c := (kk k)⟦counter⟧ in
  with_kk k ((kk k)⟦counter ↦ c - u16 c + u16 v⟧).

(** [kbd_buf[i] = v;] *)
Definition buf_set (k : kbd) (i v : Z) : kbd :=
  with_kk k (with_mem (kk k) (wr8 (kmem (kk k)) (kphys (u64 (kbd_buf k + i))) v)).

(** Echo through [putch]. *)
Definition echo (k : kbd) (c : Z) : kbd :=
  let s := putch (mk_con (kmem (kk k)) (kx k) (ky k)) c in
  mk_kbd (with_mem (kk k) (cmem s)) (cx s) (cy s) (kbd_buf k) (gets_at k) (lkp k) (check_nl k)
    (outs k).

Definition init_kbd (k : kbd) : kbd :=
  let k := mk_kbd (kk k) (kx k) (ky k) (kbd_buf k) 0 NO (check_nl k) (outs k) in
  let k := set_counter16 k 0 in
  with_kk k ((kk k)⟦flag ↦ 1⟧).

Definition key_value (l : last_key_pressed) (scancode : Z) : Z :=
  let i := Z.to_nat scancode in
  match l with
  | NO | CTRL | ALT => default 0 (kbdus !! i)
  | SHIFT => default 0 (kbdshift !! i)
  | CAPS => default 0 (kbdcaps !! i)
  end.

(** The handler, with [scancode] the byte read from port 0x60.  [PIC_sendEOI(0)]
    writes one byte to the master controller. *)
Definition keyboard_handler (k : kbd) (scancode : Z) : kbd :=
  let k := outb k 0x20 0x20 in
  if negb (Z.land scancode 0x80 =? 0) then
    let scancode := u8 (scancode - 0x80) in
    if (scancode =? 157) || (scancode =? 170) || (scancode =? 184) then with_lkp k NO else k
  else if scancode =? 29 then with_lkp k CTRL
  else if (scancode =? 42) || (scancode =? 54) then with_lkp k SHIFT
  else if scancode =? 56 then with_lkp k ALT
  else if scancode =? 58 then with_lkp k CAPS
  else
    let value := key_value (lkp k) scancode in
    let k := with_lkp k NO in
    if value =? 10 then with_nl (buf_set k (counter16 k - 1) 0) 1
    else if value =? 8 then
      let k := echo k value in set_counter16 k (counter16 k - 1)
    else
      let k := buf_set k (counter16 k - 1) value in
      let k := echo k value in
      set_counter16 k (counter16 k + 1).

(** The wait of [gets] with the interrupts [codes]; [None] when they end before
    a line does, otherwise the state and the codes left. *)
Fixpoint gets_wait (k : kbd) (codes : list Z) : option (kbd * list Z) :=
  if negb (check_nl k =? 0) then Some (k, codes)
  else
    match codes with
    | [] => None
    | c :: codes => gets_wait (keyboard_handler k c) codes
    end.

(** [while (counter > 0) kbd_buf[--counter] = '\0';] *)
Fixpoint gets_clear (n : nat) (k : kbd) : kbd :=
  match n with
  | O => k
  | S n =>
      if 0 <? counter16 k then
        let k := set_counter16 k (counter16 k - 1) in
        gets_clear n (buf_set k (counter16 k) 0)
      else k
  end.

(** [gets(s)]; [s] is any address of the caller, a user buffer for [readfile]. *)
Definition gets (fuel : nat) (k : kbd) (s : Z) (codes : list Z) : option (Z * kbd * list Z) :=
  let '(p, ks) := kmalloc (kk k) PAGE_SIZE in
  let k := with_buf (with_kk k ks) p in
  let tmp_buf := s in
  let k := if (kk k)⟦flag⟧ =? 0 then k
           else let k := set_counter16 k 1 in with_kk k ((kk k)⟦flag ↦ 0⟧) in
  match gets_wait k codes with
  | None => None
  | Some (k, codes) =>
      match vstrcpy fuel (kk k) tmp_buf (kbd_buf k) with
      | None => None
      | Some ks =>
          let k := with_nl (with_kk k ks) 0 in
          let k := gets_clear (Z.to_nat (2 ^ 16)) k in
          let k := set_counter16 k 1 in
          Some (s, with_kk k ((kk k)⟦flag ↦ 1⟧), codes)
      end
  end.

(** ** The handler, key by key *)

(** No key changes the address space. *)
Lemma handler_cr3 k sc : cr3 (kk (keyboard_handler k sc)) = cr3 (kk k).
Proof.
  unfold keyboard_handler. repeat (cbv zeta; case_match; try reflexivity).
Qed.

Lemma gets_wait_cr3 codes k k' rest : gets_wait k codes = Some (k', rest) -> cr3 (kk k') = cr3 (kk k).
Proof.
  revert k. induction codes as [|c codes IH]; intros k; cbn [gets_wait]; (case_match; [intros [= <- _]; reflexivity|]).
  - discriminate.
  - intros E. rewrite (IH _ E). apply handler_cr3.
Qed.

Lemma release_bits sc :
  128 <= sc < 256 ->
  negb (Z.land sc 0x80 =? 0) = true /\
  (u8 (sc - 0x80) =? 157) || (u8 (sc - 0x80) =? 170) || (u8 (sc - 0x80) =? 184) = false.
Proof.
  intros Hsc.
  assert (H : forallb (fun sc => negb (Z.land sc 0x80 =? 0) &&
    negb ((u8 (sc - 0x80) =? 157) || (u8 (sc - 0x80) =? 170) || (u8 (sc - 0x80) =? 184)))
    (seqZ 128 128) = true) by (vm_compute; reflexivity).
  rewrite forallb_forall in H. specialize (H sc). rewrite andb_true_iff in H.
  destruct H as [H1 H2]; [apply list_elem_of_In, elem_of_seqZ; lia|].
  split; [exact H1|]. by apply negb_true_iff.
Qed.

(** Releasing a key has no effect: the handler subtracts the release bit
    before it compares with the release codes of the modifier keys, so the
    modifier is not cleared. *)
Theorem release_ignored k sc :
  128 <= sc < 256 -> keyboard_handler k sc = outb k 0x20 0x20.
Proof.
  intros Hsc. destruct (release_bits sc Hsc) as [H1 H2].
  unfold keyboard_handler. rewrite H1, H2. reflexivity.
Qed.

Definition kbd_demo : kbd :=
  mk_kbd ((boot_state ∅ 0x200000 0x400000 0)⟦pdesc ↦ 0x418000⟧⟦freelist ↦ VIRT_BASE + 0x400000⟧
          ⟦flag ↦ 1⟧) 0 0 0 0 NO 0 [].

Lemma release_ignored_witness : keyboard_handler kbd_demo 170 = outb kbd_demo 0x20 0x20.
Proof. apply (release_ignored kbd_demo 170). lia. Defined.

(** A key without modifier that stands for the character [c]. *)
Definition plain_key (sc c : Z) : Prop :=
  0 <= sc < 128 /\ sc ∉ [29; 42; 54; 56; 58] /\ default 0 (kbdus !! Z.to_nat sc) = c
  /\ c <> 0 /\ c <> 8 /\ c <> 10.

#[export] Instance plain_key_dec sc c : Decision (plain_key sc c).
Proof. unfold plain_key. apply _. Defined.

Lemma press_bits sc : 0 <= sc < 128 -> Z.land sc 0x80 =? 0 = true.
Proof.
  intros Hsc.
  assert (H : forallb (fun sc => Z.land sc 0x80 =? 0) (seqZ 0 128) = true)
    by (vm_compute; reflexivity).
  rewrite forallb_forall in H. apply H, list_elem_of_In, elem_of_seqZ. lia.
Qed.

Lemma handler_plain k sc c :
  lkp k = NO -> plain_key sc c ->
  keyboard_handler k sc =
    let k := with_lkp (outb k 0x20 0x20) NO in
    let k := buf_set k (counter16 k - 1) c in
    let k := echo k c in
    set_counter16 k (counter16 k + 1).
Proof.
  intros Hl (Hsc & Hni & Hc & H0 & H8 & H10). unfold keyboard_handler.
  rewrite (press_bits sc Hsc). cbn [negb]. rewrite !not_elem_of_cons in Hni. destruct_and!.
  rewrite (proj2 (Z.eqb_neq sc 29)), (proj2 (Z.eqb_neq sc 42)), (proj2 (Z.eqb_neq sc 54)),
    (proj2 (Z.eqb_neq sc 56)), (proj2 (Z.eqb_neq sc 58)) by assumption. cbn [orb].
  cbn [outb lkp]. rewrite Hl. cbn [key_value]. rewrite Hc.
  rewrite (proj2 (Z.eqb_neq c 10)), (proj2 (Z.eqb_neq c 8)) by assumption. reflexivity.
Qed.

Lemma handler_enter k :
  lkp k = NO ->
  keyboard_handler k 28 =
    let k := with_lkp (outb k 0x20 0x20) NO in with_nl (buf_set k (counter16 k - 1) 0) 1.
Proof.
  intros Hl. unfold keyboard_handler. cbn [outb lkp]. rewrite Hl. reflexivity.
Qed.

(** ** A line of input *)

Section line.
Context (g : gvar -> Z) (np : Z) (Hnp : video + 4000 <= np) (HnpK : np + 4096 <= KWIN).

(** [l] has been typed so far; [m] is the memory at the start of the line. *)
Record typed (m : mem) (l : list Z) (k : kbd) : Prop := {
  ty_buf : kbd_buf k = VIRT_BASE + np;
  ty_counter : (kk k)⟦counter⟧ = slen l + 1;
  ty_lkp : lkp k = NO;
  ty_nl : check_nl k = 0;
  ty_cursor : cursor_ok (kx k) (ky k);
  ty_glob : forall x, x <> counter -> (kk k)⟦x⟧ = g x;
  ty_line : seg (kmem (kk k)) np l;
  ty_frame : forall a, ~ (np <= a < np + 4096) -> ~ (video <= a < video + 4000) ->
    rd8 (kmem (kk k)) a = rd8 m a }.

Lemma buf_addr i : 0 <= i < 4096 -> kphys (u64 (VIRT_BASE + np + i)) = np + i.
Proof.
  intros Hi. unfold KWIN, video in *. rewrite u64_small by (unfold VIRT_BASE; lia).
  rewrite <- Z.add_assoc. apply kphys_high. lia.
Qed.

Lemma typed_key m l k sc c :
  typed m l k -> plain_key sc c -> (length l < 4000)%nat ->
  typed m (l ++ [c]) (keyboard_handler k sc).
Proof.
  intros [Hb Hct Hlk Hnl Hcu Hgl Hln Hfr] Hkey Hlen.
  rewrite (handler_plain k sc c Hlk Hkey). destruct Hkey as (_ & _ & Hc & Hc0 & Hc8 & _).
  assert (Hcb : 0 <= c < 256).
  { assert (H : Forall (fun c => 0 <= c < 256) kbdus)
      by (apply (bool_decide_unpack _); vm_compute; exact I).
    rewrite <- Hc. destruct (kbdus !! _) as [d|] eqn:E; [|simpl; lia].
    rewrite Forall_lookup in H. exact (H _ _ E). }
  assert (Hc16 : counter16 (with_lkp (outb k 0x20 0x20) NO) = slen l + 1).
  { unfold counter16. cbn [with_lkp outb kk]. rewrite Hct. apply u16_small. lia. }
  cbv zeta. rewrite Hc16. unfold buf_set. cbn [with_lkp outb kk kbd_buf with_kk].
  rewrite Hb. replace (slen l + 1 - 1) with (slen l) by lia. rewrite buf_addr by lia.
  set (m1 := wr8 (kmem (kk k)) (np + slen l) c).
  unfold echo. cbn [kk kx ky kbd_buf gets_at lkp check_nl outs with_kk with_lkp outb]. kst_simpl.
  pose proof (putch_safe (mk_con m1 (kx k) (ky k)) c Hcu Hcb Hc8) as [Hcu' Hf'].
  set (s := putch (mk_con m1 (kx k) (ky k)) c) in *. clearbody s. cbn [cmem] in Hf'.
  unfold set_counter16, counter16. cbn [kk with_kk]. kst_simpl. rewrite Hct.
  rewrite (u16_small (slen l + 1)), u16_small by lia.
  constructor; cbn [kbd_buf kk lkp check_nl kx ky with_kk]; kst_simpl; try assumption; try reflexivity.
  - rewrite length_app. simpl. lia.
  - intros x Hx. rewrite gl_gput_ne by congruence. kst_simpl. apply Hgl, Hx.
  - apply seg_app. split.
    + eapply seg_ext, Hln. intros a Ha. rewrite Hf' by lia. apply rd8_wr8_ne. lia.
    + apply seg_cons. split; [|intros i d Hi; discriminate]. rewrite Hf' by lia. unfold m1.
      rewrite rd8_wr8_eq. apply Z.mod_small, Hcb.
  - intros a Ha1 Ha2. rewrite Hf' by exact Ha2. unfold m1. rewrite rd8_wr8_ne by lia.
    apply Hfr; assumption.
Qed.

(** The wait ends at the line feed with the typed characters in the buffer. *)
Lemma gets_wait_spec m l k codes cs rest :
  typed m l k -> Forall2 plain_key codes cs -> (length l + length cs < 4000)%nat ->
  exists k', gets_wait k (codes ++ 28 :: rest) = Some (k', rest)
    /\ kbd_buf k' = VIRT_BASE + np /\ (kk k')⟦counter⟧ = slen (l ++ cs) + 1
    /\ seg (kmem (kk k')) np ((l ++ cs) ++ [0])
    /\ (forall x, x <> counter -> (kk k')⟦x⟧ = g x)
    /\ forall a, ~ (np <= a < np + 4096) -> ~ (video <= a < video + 4000) ->
         rd8 (kmem (kk k')) a = rd8 m a.
Proof.
  intros Hty Hcs. revert l k Hty. induction Hcs as [|sc c codes cs Hk Hcs IH]; intros l k Hty Hlen.
  - rewrite app_nil_r. cbn [app gets_wait]. rewrite (ty_nl _ _ _ Hty). cbn [negb Z.eqb].
    rewrite (handler_enter k (ty_lkp _ _ _ Hty)). destruct Hty as [Hb Hct _ _ _ Hgl Hln Hfr].
    assert (Hw : forall k, check_nl k = 1 -> gets_wait k rest = Some (k, rest))
      by (intros k' Hk'; destruct rest; cbn [gets_wait]; rewrite Hk'; reflexivity).
    rewrite Hw by reflexivity. eexists. split; [reflexivity|].
    assert (Hc16 : counter16 (with_lkp (outb k 0x20 0x20) NO) = slen l + 1).
    { unfold counter16. cbn [with_lkp outb kk]. rewrite Hct. apply u16_small. lia. }
    unfold buf_set. rewrite Hc16. cbn [with_nl with_lkp outb kk kbd_buf with_kk]. rewrite Hb.
    replace (slen l + 1 - 1) with (slen l) by lia. rewrite buf_addr by lia. kst_simpl.
    split; [reflexivity|]. split; [exact Hct|]. split.
    + apply seg_app. split.
      * eapply seg_ext, Hln. intros a Ha. apply rd8_wr8_ne. lia.
      * apply seg_cons. split; [apply rd8_wr8_eq|]. intros i d Hi. discriminate.
    + split; [intros x Hx; kst_simpl; apply Hgl, Hx|]. intros a Ha1 Ha2. rewrite rd8_wr8_ne by lia. apply Hfr; assumption.
  - cbn [app gets_wait]. rewrite (ty_nl _ _ _ Hty). cbn [negb Z.eqb length] in *.
    pose proof (typed_key m l k sc c Hty Hk ltac:(lia)) as Hty'.
    destruct (IH (l ++ [c]) _ Hty') as (k' & Hw & H); [rewrite length_app; simpl; lia|].
    rewrite <- app_assoc in H. exists k'. split; [exact Hw|exact H].
Qed.

(** Clearing the buffer touches nothing else. *)
Lemma gets_clear_spec n k c :
  kbd_buf k = VIRT_BASE + np -> (kk k)⟦counter⟧ = c -> 0 <= c < 4096 -> c <= Z.of_nat n ->
  exists k', gets_clear n k = k' /\ (kk k')⟦counter⟧ = 0 /\ kbd_buf k' = kbd_buf k
    /\ (forall x, x <> counter -> (kk k')⟦x⟧ = (kk k)⟦x⟧)
    /\ forall a, ~ (np <= a < np + 4096) -> rd8 (kmem (kk k')) a = rd8 (kmem (kk k)) a.
Proof.
  revert k c. induction n as [|n IH]; intros k c Hb Hc Hr Hn; cbn [gets_clear].
  - exists k. split_and!; try reflexivity. lia.
  - unfold counter16 at 1. rewrite Hc, u16_small by lia. case Z.ltb_spec; intros Hlt.
    + unfold set_counter16, counter16. rewrite Hc, (u16_small c), (u16_small (c - 1)) by lia.
      replace (c - c + (c - 1)) with (c - 1) by lia.
      cbn [with_kk kk]. kst_simpl. rewrite (u16_small (c - 1)) by lia.
      unfold buf_set. cbn [with_kk kk kbd_buf]. kst_simpl. rewrite Hb, buf_addr by lia.
      set (k1 := with_kk _ _).
      destruct (IH k1 (c - 1)) as (k' & -> & Hct & Hbf & Hg & Hf);
        unfold k1; cbn [with_kk kk kbd_buf]; kst_simpl; try assumption; try reflexivity; try lia.
      exists k'. split; [reflexivity|]. split; [exact Hct|]. split; [rewrite Hbf; exact Hb|].
      unfold k1 in Hg, Hf. cbn [with_kk kk] in Hg, Hf. split.
      * intros x Hx. rewrite Hg by exact Hx. rewrite gl_with_mem, gl_gput_ne by congruence. reflexivity.
      * intros a Ha. rewrite Hf by exact Ha. kst_simpl. apply rd8_wr8_ne. lia.
    + exists k. split_and!; try reflexivity. lia.
Qed.
End line.

Lemma gets_clear_nl n k : check_nl (gets_clear n k) = check_nl k.
Proof.
  revert k. induction n as [|n IH]; intros k; cbn [gets_clear]; [reflexivity|].
  case (0 <? counter16 k); [|reflexivity]. rewrite IH. reflexivity.
Qed.

Lemma plain_keys_bytes codes cs :
  Forall2 plain_key codes cs -> Forall (fun c => 0 <= c < 256 /\ c <> 0) cs.
Proof.
  assert (H : Forall (fun c => 0 <= c < 256) kbdus)
    by (apply (bool_decide_unpack _); vm_compute; exact I).
  induction 1 as [|sc c codes cs (_ & _ & Hc & Hc0 & _) _ IH]; constructor; [|exact IH].
  split; [|exact Hc0]. rewrite <- Hc. destruct (kbdus !! _) as [d|] eqn:E; [|simpl; lia].
  rewrite Forall_lookup in H. exact (H _ _ E).
Qed.

(** [kmalloc] of one page from the state after boot. *)
Lemma kmalloc_page pf np s :
  boot_memory pf -> boot_ready pf np s -> np + 4096 <= KWIN ->
  exists s', kmalloc s PAGE_SIZE = (VIRT_BASE + np, s') /\ boot_ready pf (np + 4096) s' /\ cr3 s' = cr3 s
    /\ same_globals alloc_globals s s' /\ 0x200000 <= np /\ np mod 4096 = 0
    /\ forall a, ~ freelist_cells pf a -> ~ (np <= a < np + 4096) ->
         rd8 (kmem s') a = rd8 (kmem s) a.
Proof.
  intros Hpf Hr Hw. pose proof (page_source_boot pf Hpf) as HPS.
  destruct (kmalloc_spec _ _ PAGE_SIZE np s Hr) as (s' & Hk & Hr' & Hc & Hg & _ & Hf);
    [unfold PAGE_SIZE; lia|exact Hw|].
  destruct (ps_next np s Hr) as [Ha Hlo]. exists s'.
  split; [exact Hk|]. split; [exact Hr'|]. split; [exact Hc|]. split; [exact Hg|]. split; [exact Hlo|].
  split; [exact Ha|exact Hf].
Qed.

Lemma boot_ready_counter pf np s s' :
  boot_memory pf -> boot_ready pf np s -> np <= KWIN ->
  0 <= s⟦counter⟧ < 2 ^ 16 /\
  (s'⟦counter⟧ = 1 -> pf + 0x18000 + 4096 <= np ->
   (forall x, x <> counter -> x <> flag -> s'⟦x⟧ = s⟦x⟧) -> boot_ready pf np s').
Proof.
  intros (Ha & Hlo & Hhi) (j & Hj & -> & [Hn Hc Hf]) Hw. unfold KWIN, Pg in *. split; [lia|].
  intros H1 Hp Hg. exists j. split; [exact Hj|]. split; [reflexivity|].
  unfold next_phys in *. constructor; unfold next_phys; rewrite ?Hg by discriminate;
    [exact Hn|lia|exact Hf].
Qed.

(** The [n] bytes of a buffer at [s] are the physical bytes from [p], through
    tables that are apart from what reading a line writes: the allocator's cells,
    the page of the line and the screen.  An address of the kernel's window needs
    no table. *)
Record buffer_at (pf np : Z) (T : gmap (Z * Z) Z) (ks : kst) (s n p : Z) : Prop := {
  bu_lin : vlin T ks s n p;
  bu_off : off_tables T p n;
  bu_range : 0 <= s /\ s + n < 2 ^ 64;
  bu_tables : forall k t, T !! k = Some t ->
    (t + 4096 <= np \/ np + 4096 <= t) /\ (t + 4096 <= video \/ video + 4000 <= t) /\
    forall a, t <= a < t + 4096 -> ~ freelist_cells pf a }.

Lemma buffer_kernel pf np ks s n : VIRT_BASE <= s -> s + n < 2 ^ 64 -> buffer_at pf np ∅ ks s n (kphys s).
Proof.
  intros Hs Hn. replace (kphys s) with (s - VIRT_BASE).
  - constructor; [apply vlin_kernel, Hs|intros k t Hk; rewrite lookup_empty in Hk; discriminate
      |unfold VIRT_BASE in Hs; lia|intros k t Hk; rewrite lookup_empty in Hk; discriminate].
  - replace s with (VIRT_BASE + (s - VIRT_BASE)) at 2 by lia. rewrite kphys_high; [lia|unfold VIRT_BASE in *; lia].
Qed.

(** C16: [gets] returns the line that was typed.  With no modifier pending, any
    sequence of fewer than 4000 plain keys followed by Enter makes it copy
    exactly the characters of the keys, NUL terminated, to the caller's buffer,
    an address of the kernel or of the user, and leaves the later interrupts to
    the next reader; the allocator goes on with the next page. *)
Theorem gets_reads_line pf np fuel k s p T codes cs rest :
  boot_memory pf -> boot_ready pf np (kk k) -> np + 4096 <= KWIN ->
  lkp k = NO -> check_nl k = 0 -> cursor_ok (kx k) (ky k) -> (kk k)⟦flag⟧ <> 0 ->
  Forall2 plain_key codes cs -> (length cs < 4000)%nat -> (length cs < fuel)%nat ->
  buffer_at pf np T (kk k) s (slen cs + 1) p -> p + slen cs < np \/ np + 4096 <= p ->
  exists k', gets fuel k s (codes ++ 28 :: rest) = Some (s, k', rest)
    /\ cstr (kmem (kk k')) p cs
    /\ boot_ready pf (np + 4096) (kk k') /\ check_nl k' = 0 /\ (kk k')⟦flag⟧ = 1.
Proof.
  intros Hpf Hr Hw Hlk Hnl Hcu Hfl Hcs Hlen Hfuel [Hbl Hbo [Hb0 Hb64] Hbt] Hd. unfold gets.
  destruct (kmalloc_page pf np (kk k) Hpf Hr Hw) as (ks & -> & Hr1 & Hcr1 & Hg1 & Hlo & Hal & Hf1).
  cbn [with_buf with_kk kk]. rewrite (Hg1 flag) by (apply (bool_decide_unpack _); vm_compute; exact I).
  rewrite (proj2 (Z.eqb_neq _ 0)) by exact Hfl.
  destruct (boot_ready_counter pf _ ks ks Hpf Hr1 Hw) as [Hc1 _].
  set (k1 := with_kk (set_counter16 _ 1) _).
  set (g := fun x => if decide (x = flag) then 0 else ks⟦x⟧).
  assert (Hcr : cr3 (kk k1) = cr3 (kk k)) by exact Hcr1.
  assert (Hty : typed g np (kmem ks) [] k1).
  { unfold k1, set_counter16. cbn [with_buf with_kk kk].
    rewrite (u16_small (ks⟦counter⟧)), (u16_small 1) by lia.
    constructor; cbn [kbd_buf kk lkp check_nl kx ky with_kk]; kst_simpl; try assumption;
      try reflexivity; [simpl; lia| |intros i c Hi; discriminate].
    intros x Hx. unfold g. case_decide as Hd'; [rewrite Hd'; apply gl_gput_eq|].
    rewrite !gl_gput_ne by congruence. reflexivity. }
  clearbody k1.
  assert (Hv : video + 4000 <= np) by (unfold video; lia).
  destruct (gets_wait_spec g np Hv Hw (kmem ks) [] k1 codes cs rest Hty Hcs) as
    (k2 & Ew & Hb2 & Hct2 & Hs2 & Hg2 & Hf2); [simpl; lia|].
  pose proof (gets_wait_cr3 _ _ _ _ Ew) as Hcr2. rewrite Ew. clear Ew.
  cbn [app] in Hct2, Hs2. rewrite Hb2.
  pose proof (plain_keys_bytes codes cs Hcs) as Hby.
  apply seg_app in Hs2 as [Hs2 Hz2]. apply seg_cons in Hz2 as [Hz2 _].
  assert (Hline : cstr (kmem (kk k2)) np cs) by (apply seg_cstr; assumption).
  assert (Hlin : vlin T (kk k2) s (slen cs + 1) p).
  { eapply vlin_state; [exact Hbl|congruence|]. intros key t a Hk Ha. destruct (Hbt key t Hk) as (B1 & B2 & B3).
    rewrite Hf2, Hf1; [reflexivity|apply B3, Ha|lia|lia|lia]. }
  rewrite (vstrcpy_lin T fuel (kk k2) s (VIRT_BASE + np) p np cs); try assumption;
    [|replace np with (VIRT_BASE + np - VIRT_BASE) at 2 by lia; apply vlin_kernel; lia
     |unfold VIRT_BASE; lia|lia|unfold KWIN, VIRT_BASE in *; lia|lia].
  destruct (kstrcpy_spec fuel (kmem (kk k2)) p np cs) as (m & -> & Hcp & Hfm);
    [exact Hline|exact Hfuel|lia|]. cbn [fmap option_fmap option_map].
  set (k3 := with_nl _ 0).
  destruct (gets_clear_spec np Hv Hw (Z.to_nat (2 ^ 16)) k3 (slen cs + 1))
    as (k4 & Ek4 & Hct4 & Hb4 & Hg4 & Hf4); [exact Hb2| |lia|lia|].
  { unfold k3. cbn [with_nl with_kk kk]. kst_simpl. exact Hct2. }
  pose proof (gets_clear_nl (Z.to_nat (2 ^ 16)) k3) as Hn4. rewrite Ek4 in Hn4 |- *. clear Ek4.
  eexists. split; [reflexivity|]. unfold set_counter16. rewrite Hct4. cbn [with_kk kk check_nl].
  change (0 - u16 0 + u16 1) with 1. kst_simpl.
  split; [|split; [|split; [exact Hn4|reflexivity]]].
  - eapply cstr_ext, Hcp. intros a Ha. rewrite Hf4 by lia. unfold k3.
    cbn [with_nl with_kk kk]. kst_simpl. reflexivity.
  - eapply (boot_ready_counter pf _ ks); [exact Hpf|exact Hr1|exact Hw|kst_simpl; reflexivity|..].
    + destruct Hr as (j & Hj & -> & _). unfold Pg. lia.
    + intros x Hx1 Hx2. rewrite !gl_gput_ne by congruence. rewrite Hg4 by exact Hx1.
      unfold k3. cbn [with_nl with_kk kk]. kst_simpl. rewrite Hg2 by exact Hx1.
      unfold g. rewrite decide_False by exact Hx2. reflexivity.
Qed.

(** A line read into a page that was mapped at 0x8eee70000. *)
Definition gets_kst : kst :=
  (memmap ((boot_state ∅ 0x200000 0x400000 0x418000)⟦pml4_shared ↦ VIRT_BASE + 0x418000⟧⟦pdesc ↦ 0x419000⟧
     ⟦freelist ↦ VIRT_BASE + 0x400000⟧⟦flag ↦ 1⟧) 0x8eee70000 PAGE_SIZE USR_PERM_BITS 0).2.

Lemma gets_buffer : exists np T, np <= 0x41c000 /\ boot_ready 0x400000 np gets_kst /\ gets_kst⟦flag⟧ = 1 /\
  buffer_at 0x400000 np T gets_kst 0x8eee70010 3 0x5000010.
Proof.
  assert (H1 : boot_memory 0x400000) by (unfold boot_memory; split; [reflexivity|lia]).
  pose proof (page_source_boot 0x400000 H1) as HPS.
  set (s0 := (boot_state ∅ 0x200000 0x400000 0x418000)⟦pml4_shared ↦ VIRT_BASE + 0x418000⟧⟦pdesc ↦ 0x419000⟧
     ⟦freelist ↦ VIRT_BASE + 0x400000⟧⟦flag ↦ 1⟧).
  assert (Hu0 : uspace (boot_ready 0x400000) 0x418000 0x419000 0x419000 s0 {[(4, 0) := 0x418000]} ∅).
  { constructor; try reflexivity.
    - exists 1. split; [lia|]. split; [reflexivity|].
      constructor; [reflexivity|vm_compute; intuition discriminate|reflexivity].
    - split; [reflexivity|]. vm_compute. intuition discriminate.
    - apply uinv_empty; [unfold KWIN; lia|]. intros a _. reflexivity. }
  destruct (memmap_fault_spec (boot_ready 0x400000) (freelist_cells 0x400000) 0x418000 0x419000
    eq_refl ltac:(lia) ltac:(lia) ltac:(unfold freelist_cells; lia) 0x419000 s0 _ _ 0x8eee70000 USR_PERM_BITS Hu0
    ltac:(lia) ltac:(right; reflexivity) ltac:(unfold KWIN; lia)) as (s & E & [(np & T & Hn & Hu & _) _ _ _ _] & Hg).
  assert (Es : gets_kst = s) by (unfold gets_kst; fold s0; rewrite E; reflexivity).
  rewrite Es. exists np, T. split; [lia|]. split; [apply (us_ready _ _ _ _ _ _ _ Hu)|].
  split; [rewrite Hg by notin_globals; reflexivity|].
  assert (Hp : forall k t, T !! k = Some t -> 0x418000 <= t /\ t + 4096 <= np).
  { intros k t Hk. destruct (uinv_page 0x418000 0x419000 eq_refl ltac:(lia) np (kmem s) T _ k t (us_inv _ _ _ _ _ _ _ Hu) Hk). lia. }
  change (s0⟦usr_phys_addr⟧) with 0x5000000 in Hu. change (0x8eee70000 / 4096) with 0x8eee70 in Hu.
  constructor.
  - apply (ulin_vlin (boot_ready 0x400000) (freelist_cells 0x400000) 0x418000 0x419000 eq_refl ltac:(lia) ltac:(lia) np s T _
      0x8eee70010 3 0x5000010 Hu); [|lia|lia].
    apply (ulin_sub _ 0x8eee70000 4096 0x5000000 16 3); [|lia|lia].
    apply (ulin_page ∅ 0x8eee70 0x5000000); [reflexivity|lia].
  - intros k t Hk. specialize (Hp k t Hk). lia.
  - lia.
  - intros k t Hk. specialize (Hp k t Hk). unfold video, freelist_cells. split; [lia|split; [lia|]]. lia.
Qed.

Lemma gets_reads_line_witness :
  exists k', gets 100 (mk_kbd gets_kst 0 0 0 0 NO 0 []) 0x8eee70010 ([38; 31] ++ 28 :: [30]) =
      Some (0x8eee70010, k', [30])
    /\ cstr (kmem (kk k')) 0x5000010 [108; 115] /\ check_nl k' = 0 /\ (kk k')⟦flag⟧ = 1.
Proof.
  destruct gets_buffer as (np & T & Hn & Hr & Hf & Hb).
  destruct (gets_reads_line 0x400000 np 100 (mk_kbd gets_kst 0 0 0 0 NO 0 []) 0x8eee70010 0x5000010 T
    [38; 31] [108; 115] [30]) as (k' & H1 & H2 & _ & H3 & H4).
  - unfold boot_memory. split; [reflexivity|lia].
  - exact Hr.
  - unfold KWIN. lia.
  - reflexivity.
  - reflexivity.
  - unfold cursor_ok. simpl. lia.
  - cbn [kk]. rewrite Hf. discriminate.
  - repeat constructor; try (apply (bool_decide_unpack _); vm_compute; exact I).
  - simpl. lia.
  - simpl. lia.
  - exact Hb.
  - right. lia.
  - exists k'. split; [exact H1|]. split; [exact H2|]. split; [exact H3|exact H4].
Defined.
