(* ===== verification/Devices.v ===== *)
(** * Interrupt controller and timer

    [sys/pic.c], and [init_timer] and [sleep_shell] of [sys/timer.c].  The drivers
    talk to hardware through ports: they are written against the class [PortDev],
    and their theorems instantiate it with the documented behaviour of the 8259A
    pair and of the 8254 timer. *)

From stdpp Require Import base gmap list numbers.
From Stdlib Require Import ZArith Lia.
From Stdlib Require Ascii String.
From S2P Require Import Prelude.
Import (notations) String.

(** A device behind byte-wide ports. *)
Class PortDev (D : Type) := {
  inb : D -> Z -> Z;
  outb : D -> Z -> Z -> D }.

(** ** [sys/pic.c] *)

Module Pic.

Definition PIC1 : Z := 0x20.
Definition PIC2 : Z := 0xA0.
Definition PIC1_COMMAND : Z := PIC1.
Definition PIC1_DATA : Z := PIC1 + 1.
Definition PIC2_COMMAND : Z := PIC2.
Definition PIC2_DATA : Z := PIC2 + 1.
Definition PIC_EOI : Z := 0x20.
Definition ICW1_ICW4 : Z := 0x01.
Definition ICW1_INIT : Z := 0x10.
Definition ICW4_8086 : Z := 0x01.

Definition init_pic {D} `{PortDev D} (d : D) : D :=
  let a1 := u8 (inb d PIC1_DATA) in
  let a2 := u8 (inb d PIC2_DATA) in
  let d := outb d PIC1_COMMAND (ICW1_INIT + ICW1_ICW4) in
  let d := outb d PIC2_COMMAND (ICW1_INIT + ICW1_ICW4) in
  let d := outb d PIC1_DATA 0x20 in
  let d := outb d PIC2_DATA 0x28 in
  let d := outb d PIC1_DATA 4 in
  let d := outb d PIC2_DATA 2 in
  let d := outb d PIC1_DATA ICW4_8086 in
  let d := outb d PIC2_DATA ICW4_8086 in
  let d := outb d PIC1_DATA a1 in
  outb d PIC2_DATA a2.

Definition PIC_sendEOI {D} `{PortDev D} (d : D) (irq : Z) : D :=
  let d := if 8 <=? irq then outb d PIC2_COMMAND PIC_EOI else d in
  outb d PIC1_COMMAND PIC_EOI.

Definition IRQ_set_mask {D} `{PortDev D} (d : D) (IRQline : Z) : D :=
  let '(port, IRQline) :=
    if IRQline <? 8 then (PIC1_DATA, IRQline) else (PIC2_DATA, u8 (IRQline - 8)) in
  let value := u8 (Z.lor (inb d port) (Z.shiftl 1 IRQline)) in
  outb d port value.

Definition IRQ_clear_mask {D} `{PortDev D} (d : D) (IRQline : Z) : D :=
  let '(port, IRQline) :=
    if IRQline <? 8 then (PIC1_DATA, IRQline) else (PIC2_DATA, u8 (IRQline - 8)) in
  let value := u8 (Z.land (inb d port) (Z.lnot (Z.shiftl 1 IRQline))) in
  outb d port value.

(** *** The 8259A *)

(** What a write to the data port means next. *)
Inductive phase := Ready | Icw2 | Icw3 | Icw4.

Record chip := mk_chip {
  ph : phase; need4 : bool;
  imr : Z; vec : Z; casc : Z; icw4 : Z; eois : nat }.

(** Command port: a word with bit 4 set starts the initialisation sequence and
    clears the mask; 0x20 is the non-specific end of interrupt. *)
Definition cmd (c : chip) (v : Z) : chip :=
  if Z.testbit v 4 then mk_chip Icw2 (Z.testbit v 0) 0 (vec c) (casc c) (icw4 c) (eois c)
  else if v =? 0x20 then mk_chip (ph c) (need4 c) (imr c) (vec c) (casc c) (icw4 c) (S (eois c))
  else c.

Definition data (c : chip) (v : Z) : chip :=
  match ph c with
  | Ready => mk_chip Ready (need4 c) v (vec c) (casc c) (icw4 c) (eois c)
  | Icw2 => mk_chip Icw3 (need4 c) (imr c) v (casc c) (icw4 c) (eois c)
  | Icw3 => mk_chip (if need4 c then Icw4 else Ready) (need4 c) (imr c) (vec c) v (icw4 c) (eois c)
  | Icw4 => mk_chip Ready (need4 c) (imr c) (vec c) (casc c) v (eois c)
  end.

Record pair := mk_pair { master : chip; slave : chip }.

#[export] Instance pair_dev : PortDev pair := {
  inb p port := if port =? 0x21 then imr (master p) else if port =? 0xA1 then imr (slave p) else 0;
  outb p port v :=
    if port =? 0x20 then mk_pair (cmd (master p) v) (slave p)
    else if port =? 0x21 then mk_pair (data (master p) v) (slave p)
    else if port =? 0xA0 then mk_pair (master p) (cmd (slave p) v)
    else if port =? 0xA1 then mk_pair (master p) (data (slave p) v)
    else p }.

Lemma pair_ports (p : pair) v :
  inb p PIC1_DATA = imr (master p) /\ inb p PIC2_DATA = imr (slave p)
  /\ outb p PIC1_DATA v = mk_pair (data (master p) v) (slave p)
  /\ outb p PIC2_DATA v = mk_pair (master p) (data (slave p) v).
Proof. split_and!; reflexivity. Qed.

(** C32: whatever state the controllers are in, [init_pic] leaves both ready
    with the vectors 0x20 and 0x28, the cascade on line 2, 8086 mode, and the
    interrupt masks they had before. *)
Theorem init_pic_programs (p : pair) :
  0 <= imr (master p) < 256 -> 0 <= imr (slave p) < 256 ->
  let p' := init_pic p in
  (ph (master p') = Ready /\ vec (master p') = 0x20 /\ casc (master p') = 4
    /\ icw4 (master p') = 1 /\ imr (master p') = imr (master p)) /\
  (ph (slave p') = Ready /\ vec (slave p') = 0x28 /\ casc (slave p') = 2
    /\ icw4 (slave p') = 1 /\ imr (slave p') = imr (slave p)).
Proof.
  intros Hm Hs.
  assert (E1 : u8 (inb p PIC1_DATA) = imr (master p)) by (apply u8_small; exact Hm).
  assert (E2 : u8 (inb p PIC2_DATA) = imr (slave p)) by (apply u8_small; exact Hs).
  unfold init_pic. rewrite E1, E2. clear. destruct p as [[? ? m1 ? ? ? ?] [? ? m2 ? ? ? ?]].
  cbn [master slave imr]. vm_compute. split_and!; reflexivity.
Qed.

Definition pair_demo : pair :=
  mk_pair (mk_chip Icw3 false 0xB8 8 0 0 0) (mk_chip Ready true 0x8E 0x70 0 0 2).

Lemma init_pic_programs_witness :
  let p' := init_pic pair_demo in
  (ph (master p') = Ready /\ vec (master p') = 0x20 /\ casc (master p') = 4
    /\ icw4 (master p') = 1 /\ imr (master p') = 0xB8) /\
  (ph (slave p') = Ready /\ vec (slave p') = 0x28 /\ casc (slave p') = 2
    /\ icw4 (slave p') = 1 /\ imr (slave p') = 0x8E).
Proof. apply (init_pic_programs pair_demo); simpl; lia. Defined.

(** The mask bit of interrupt line [i]. *)
Definition masked (p : pair) (i : Z) : bool :=
  if i <? 8 then Z.testbit (imr (master p)) i else Z.testbit (imr (slave p)) (i - 8).

Lemma testbit_u8 x i : 0 <= i < 8 -> Z.testbit (u8 x) i = Z.testbit x i.
Proof. intros Hi. unfold u8. apply Z.mod_pow2_bits_low. lia. Qed.

Lemma testbit_bit n i : 0 <= n -> 0 <= i -> Z.testbit (Z.shiftl 1 n) i = bool_decide (i = n).
Proof.
  intros Hn Hi. rewrite Z.shiftl_spec by lia. case_bool_decide as Hd.
  - subst. rewrite Z.sub_diag. done.
  - destruct (decide (i < n)); [rewrite Z.testbit_neg_r by lia; done|].
    apply Z.bits_above_log2; [lia|]. simpl. lia.
Qed.

Lemma set_bit m n i :
  0 <= n < 8 -> 0 <= i < 8 ->
  Z.testbit (u8 (Z.lor m (Z.shiftl 1 n))) i = bool_decide (i = n) || Z.testbit m i.
Proof.
  intros Hn Hi. rewrite testbit_u8, Z.lor_spec, testbit_bit by lia. apply orb_comm.
Qed.

Lemma clear_bit m n i :
  0 <= n < 8 -> 0 <= i < 8 ->
  Z.testbit (u8 (Z.land m (Z.lnot (Z.shiftl 1 n)))) i = negb (bool_decide (i = n)) && Z.testbit m i.
Proof.
  intros Hn Hi. rewrite testbit_u8, Z.land_spec, Z.lnot_spec, testbit_bit by lia. apply andb_comm.
Qed.

Lemma line_split i j :
  0 <= i < 16 -> 0 <= j < 16 ->
  bool_decide (i = j) = if i <? 8 then if j <? 8 then bool_decide (i = j) else false
                        else if j <? 8 then false else bool_decide (i - 8 = j - 8).
Proof.
  intros Hi Hj. case (Z.ltb_spec i 8), (Z.ltb_spec j 8); repeat case_bool_decide; done || lia.
Qed.

(** On ready controllers, masking an interrupt line masks that line and
    unmasking it unmasks it; every other line keeps its state. *)
Theorem irq_masks (p : pair) (line j : Z) :
  ph (master p) = Ready -> ph (slave p) = Ready -> 0 <= line < 16 -> 0 <= j < 16 ->
  masked (IRQ_set_mask p line) j = (bool_decide (j = line) || masked p j) /\
  masked (IRQ_clear_mask p line) j = (negb (bool_decide (j = line)) && masked p j).
Proof.
  intros Hm Hs Hl Hj. rewrite (line_split j line) by assumption.
  unfold IRQ_set_mask, IRQ_clear_mask, masked.
  destruct (pair_ports p 0) as (I1 & I2 & _).
  assert (O1 : forall v, outb p PIC1_DATA v = mk_pair (data (master p) v) (slave p)) by reflexivity.
  assert (O2 : forall v, outb p PIC2_DATA v = mk_pair (master p) (data (slave p) v)) by reflexivity.
  destruct (Z.ltb_spec line 8) as [H8|H8], (Z.ltb_spec j 8) as [Hj8|Hj8];
    rewrite ?I1, ?I2, !O1 || rewrite ?I1, ?I2, !O2; unfold data; rewrite ?Hm, ?Hs;
    cbn [master slave imr]; rewrite ?(u8_small (line - 8)) by lia;
    rewrite ?set_bit, ?clear_bit by lia; split; reflexivity.
Qed.

Lemma irq_masks_witness :
  let p := mk_pair (mk_chip Ready true 0xFF 0x20 4 1 0) (mk_chip Ready true 0xFF 0x28 2 1 0) in
  masked (IRQ_set_mask p 1) 1 = (bool_decide (1 = 1) || masked p 1) /\
  masked (IRQ_clear_mask p 1) 1 = (negb (bool_decide (1 = 1)) && masked p 1).
Proof.
  intros p. apply (irq_masks p 1 1); [reflexivity|reflexivity|lia|lia].
Defined.

End Pic.

(** ** [init_timer] and [sleep_shell] *)

Module Timer.

Definition MH_FREQ : Z := 1193180.
Definition I86_PIT_REG_COUNTER0 : Z := 0x40.
Definition I86_PIT_REG_COMMAND : Z := 0x43.

Definition init_timer {D} `{PortDev D} (d : D) : D :=
  let frequency := 100 in
  let mh_freq := MH_FREQ in
  let divisor := u16 (mh_freq / frequency) in
  let d := outb d I86_PIT_REG_COMMAND 0x36 in
  let l := u8 (Z.land divisor 0xFF) in
  let h := u8 (Z.shiftr divisor 8) in
  let d := outb d I86_PIT_REG_COUNTER0 l in
  outb d I86_PIT_REG_COUNTER0 h.

(** The 8254, counter 0: access mode 3 takes the low byte, then the high byte of
    the reload value. *)
Record pit := mk_pit { acc : Z; mode : Z; lo_next : bool; low : Z; reload : option Z }.

#[export] Instance pit_dev : PortDev pit := {
  inb _ _ := 0;
  outb p port v :=
    if (port =? 0x43) && (v / 64 =? 0) then mk_pit (v / 16 mod 4) (v / 2 mod 8) true 0 None
    else if port =? 0x40 then
      if lo_next p then mk_pit (acc p) (mode p) false v None
      else mk_pit (acc p) (mode p) true 0 (Some (low p + 256 * v))
    else p }.

(** [init_timer] programs counter 0 as a square wave with a reload value
    that is the input frequency over 100, rounded down, so that the timer ticks
    100 times a second (within one part in ten thousand). *)
Theorem init_timer_100hz (p : pit) :
  let p' := init_timer p in
  acc p' = 3 /\ mode p' = 3 /\
  exists n, reload p' = Some n /\ 100 * n <= MH_FREQ < 100 * (n + 1).
Proof.
  cbn. split; [reflexivity|]. split; [reflexivity|].
  eexists. split; [reflexivity|]. vm_compute. intuition discriminate.
Qed.

(** [while (tmp_tick <= secs) tmp_tick++;] on 64-bit counters. *)
Fixpoint sleep_loop (fuel : nat) (tmp_tick secs : Z) : option Z :=
  match fuel with
  | O => None
  | S f => if tmp_tick <=? secs then sleep_loop f (u64 (tmp_tick + 1)) secs else Some tmp_tick
  end.

(** The strings that it prints. *)
Definition sleep_shell (fuel : nat) (tick secs : Z) : option (list String.string) :=
  let tmp_tick := tick mod 100 in
  if tmp_tick =? 0 then
    match sleep_loop fuel tmp_tick secs with
    | Some _ => Some ["\n"%string]
    | None => None
    end
  else Some ["\n"%string].

Lemma sleep_loop_ends n fuel i secs :
  0 <= i -> secs < 2 ^ 64 - 1 -> secs + 1 - i <= Z.of_nat n -> (n < fuel)%nat ->
  sleep_loop fuel i secs = Some (Z.max i (secs + 1)).
Proof.
  revert fuel i. induction n as [|n IH]; intros [|f] i Hi Hs Hn Hf; try lia; cbn [sleep_loop];
    case (Z.leb_spec i secs) as [Hle|Hgt]; try lia; try (f_equal; lia).
  rewrite u64_small by lia. rewrite IH by lia. f_equal. lia.
Qed.

Lemma sleep_loop_max fuel i : 0 <= i < 2 ^ 64 -> sleep_loop fuel i (2 ^ 64 - 1) = None.
Proof.
  revert i. induction fuel as [|f IH]; intros i Hi; cbn [sleep_loop]; [reflexivity|].
  rewrite (proj2 (Z.leb_le _ _)) by lia. apply IH. apply u64_range.
Qed.

(** [sleep_shell] counts in a register and waits for no tick: its result does not
    depend on the time, and it returns after at most [secs + 2] tests of the counter
    unless the argument is the largest 64-bit number, when it never returns on a
    tick that is a multiple of 100. *)
Theorem sleep_shell_counts tick secs fuel :
  0 <= secs < 2 ^ 64 ->
  (secs < 2 ^ 64 - 1 -> (Z.to_nat secs + 2 <= fuel)%nat -> sleep_shell fuel tick secs = Some ["\n"%string]) /\
  (tick mod 100 = 0 -> secs = 2 ^ 64 - 1 -> sleep_shell fuel tick secs = None).
Proof.
  intros Hs. unfold sleep_shell. split.
  - intros Hm Hf. destruct (tick mod 100 =? 0) eqn:E; [|reflexivity]. apply Z.eqb_eq in E. rewrite E.
    rewrite (sleep_loop_ends (Z.to_nat secs + 1)) by lia. reflexivity.
  - intros -> ->. rewrite sleep_loop_max by lia. reflexivity.
Qed.

End Timer.
