(* ===== verification/Cpu.v ===== *)
(** * Segment table and interrupt table

    [sys/gdt.c] and the table part of [sys/idt.c].  The tables are bytes of
    memory; their specification is the decoding the processor performs on those
    bytes. *)

From stdpp Require Import base gmap list numbers.
From Stdlib Require Import ZArith Lia.
From S2P Require Import Prelude.

(** ** Bit fields *)

(** The [len] bits of [w] from bit [lo], and the store of [v] into them. *)
Definition bits (w lo len : Z) : Z := Z.land (Z.shiftr w lo) (Z.ones len).
Definition set_bits (w lo len v : Z) : Z :=
  Z.lor (Z.land w (Z.lnot (Z.shiftl (Z.ones len) lo))) (Z.shiftl (Z.land v (Z.ones len)) lo).

Lemma bits_spec w lo len i :
  0 <= lo -> 0 <= len -> 0 <= i ->
  Z.testbit (bits w lo len) i = bool_decide (i < len) && Z.testbit w (i + lo).
Proof.
  intros. unfold bits. rewrite Z.land_spec, Z.shiftr_spec by lia.
  rewrite Z.testbit_ones_nonneg by lia.
  replace (bool_decide (i < len)) with (i <? len) by (case_bool_decide; lia).
  apply andb_comm.
Qed.

Lemma set_bits_spec w lo len v i :
  0 <= lo -> 0 <= len -> 0 <= i ->
  Z.testbit (set_bits w lo len v) i =
  if decide (lo <= i < lo + len) then Z.testbit v (i - lo) else Z.testbit w i.
Proof.
  intros. unfold set_bits.
  rewrite Z.lor_spec, Z.land_spec, Z.lnot_spec, !Z.shiftl_spec by lia.
  destruct (decide (i < lo)) as [Hlt|Hge].
  - rewrite decide_False by lia.
    rewrite !(Z.testbit_neg_r _ (i - lo)) by lia. destruct (Z.testbit w i); reflexivity.
  - rewrite Z.land_spec, Z.testbit_ones_nonneg by lia.
    destruct (Z.ltb_spec (i - lo) len); case_decide; try lia;
      destruct (Z.testbit w i), (Z.testbit v (i - lo)); reflexivity.
Qed.

Lemma bits_set_eq w lo len v :
  0 <= lo -> 0 <= len -> bits (set_bits w lo len v) lo len = Z.land v (Z.ones len).
Proof.
  intros. apply Z.bits_inj'. intros i Hi.
  rewrite bits_spec, set_bits_spec, Z.land_spec, Z.testbit_ones_nonneg by lia.
  replace (i + lo - lo) with i by lia.
  destruct (Z.ltb_spec i len).
  - rewrite bool_decide_true, decide_True, andb_true_r by lia. reflexivity.
  - rewrite bool_decide_false, andb_false_r by lia. reflexivity.
Qed.

Lemma bits_set_ne w lo len v lo' len' :
  0 <= lo -> 0 <= len -> 0 <= lo' -> 0 <= len' -> lo' + len' <= lo \/ lo + len <= lo' ->
  bits (set_bits w lo len v) lo' len' = bits w lo' len'.
Proof.
  intros. apply Z.bits_inj'. intros i Hi. rewrite !bits_spec by lia.
  case_bool_decide; [|reflexivity].
  rewrite set_bits_spec by lia. case_decide; [lia|reflexivity].
Qed.

Lemma set_bits_range w lo len v n :
  0 <= lo -> 0 <= len -> lo + len <= n -> 0 <= w < 2 ^ n -> 0 <= set_bits w lo len v < 2 ^ n.
Proof.
  intros Hlo Hlen Hn Hw.
  assert (E : set_bits w lo len v = set_bits w lo len v mod 2 ^ n).
  { apply Z.bits_inj'. intros i Hi. destruct (decide (i < n)).
    - rewrite Z.mod_pow2_bits_low by lia. reflexivity.
    - rewrite Z.mod_pow2_bits_high, set_bits_spec by lia.
      rewrite decide_False by lia.
      rewrite <- (Z.mod_small w (2 ^ n)) by lia. apply Z.mod_pow2_bits_high. lia. }
  rewrite E. apply Z.mod_pos_bound. lia.
Qed.

Lemma land_ones_low v n : 0 <= n -> 0 <= v < 2 ^ n -> Z.land v (Z.ones n) = v.
Proof. intros. rewrite Z.land_ones by lia. apply Z.mod_small. lia. Qed.

(** ** [sys/gdt.c] *)

Module Gdt.

Definition GDT_CS : Z := 0x00180000000000.
Definition GDT_DS : Z := 0x00100000000000.
Definition DPL0 : Z := 0x00000000000000.
Definition DPL3 : Z := 0x00600000000000.
Definition P : Z := 0x00800000000000.
Definition L : Z := 0x20000000000000.
Definition W : Z := 0x00020000000000.
Definition MAX_GDT : Z := 32.

Definition SIZEOF_TSS : Z := 4 + 3 * 8 + 8 + 7 * 8 + 8 + 2 + 2.
Definition OFF_rsp0 : Z := 4.

(** The initialised entries of [gdt[MAX_GDT]]; the others are zero. *)
Definition gdt : list Z :=
  [ 0;
    Z.lor (Z.lor (Z.lor GDT_CS P) DPL0) L;
    Z.lor (Z.lor (Z.lor GDT_DS P) W) DPL0;
    0;
    Z.lor (Z.lor (Z.lor GDT_DS P) W) DPL3;
    Z.lor (Z.lor (Z.lor GDT_CS P) DPL3) L;
    0; 0 ].

(** Bit position and width of the fields of [sys_segment_descriptor]. *)
Inductive sd_field := sd_lolimit | sd_lobase | sd_type | sd_dpl | sd_p | sd_hilimit | sd_gran | sd_hibase.

Definition sd_pos (f : sd_field) : Z * Z :=
  match f with
  | sd_lolimit => (0, 16) | sd_lobase => (16, 24) | sd_type => (40, 5) | sd_dpl => (45, 2)
  | sd_p => (47, 1) | sd_hilimit => (48, 4) | sd_gran => (55, 1) | sd_hibase => (56, 40)
  end.

(** [sd->f = v] *)
Definition sd_set (m : mem) (sd : Z) (f : sd_field) (v : Z) : mem :=
  wrn 16 m sd (set_bits (rdn 16 m sd) (sd_pos f).1 (sd_pos f).2 v).

(** What [lgdt] and [ltr] load: the table, the code and data selectors and the
    task register. *)
Record segs := mk_segs { gmem : mem; gdtr_size : Z; gdtr_addr : Z; cs : Z; ds : Z; tr : Z }.

(** The statically initialised image of [gdt] in memory. *)
Definition gdt_image (m : mem) (g : Z) : mem :=
  fold_left (fun m '(i, v) => wr64 m (g + 8 * Z.of_nat i) v) (imap pair gdt) m.

Definition _x86_64_asm_lgdt (s : segs) (size addr cs_idx ds_idx : Z) : segs :=
  mk_segs (gmem s) size addr cs_idx ds_idx (tr s).
Definition _x86_64_asm_ltr (s : segs) (tss_idx : Z) : segs :=
  mk_segs (gmem s) (gdtr_size s) (gdtr_addr s) (cs s) (ds s) tss_idx.

(** [g] and [tss] are the addresses of the two static objects. *)
Definition init_gdt (s : segs) (g tss : Z) : segs :=
  let sd := g + 8 * 6 in
  let m := gmem s in
  let m := sd_set m sd sd_lolimit (SIZEOF_TSS - 1) in
  let m := sd_set m sd sd_lobase tss in
  let m := sd_set m sd sd_type 9 in
  let m := sd_set m sd sd_dpl 0 in
  let m := sd_set m sd sd_p 1 in
  let m := sd_set m sd sd_hilimit 0 in
  let m := sd_set m sd sd_gran 0 in
  let m := sd_set m sd sd_hibase (Z.shiftr tss 24) in
  let s := mk_segs m (gdtr_size s) (gdtr_addr s) (cs s) (ds s) (tr s) in
  let s := _x86_64_asm_lgdt s (8 * MAX_GDT) g 8 16 in
  _x86_64_asm_ltr s 0x30.

Definition set_tss_rsp (m : mem) (tss rsp : Z) : mem := wr64 m (tss + OFF_rsp0) rsp.

(** *** How the processor reads the table *)

(** A code or data descriptor. *)
Record segment := mk_segment { s_code : bool; s_long : bool; s_write : bool; s_dpl : Z }.

Definition segment_of (s : segs) (sel : Z) : option segment :=
  let d := rd64 (gmem s) (gdtr_addr s + 8 * (sel / 8)) in
  if Z.testbit d 47 && Z.testbit d 44 then
    Some (mk_segment (Z.testbit d 43) (Z.testbit d 53) (Z.testbit d 41) (bits d 45 2))
  else None.

Record tss_desc := mk_tss { t_base : Z; t_limit : Z; t_dpl : Z; t_gran : Z }.

(** A 64-bit TSS descriptor: present, system, type 9. *)
Definition tss_of (s : segs) (sel : Z) : option tss_desc :=
  let d := rdn 16 (gmem s) (gdtr_addr s + 8 * (sel / 8)) in
  if (bits d 47 1 =? 1) && (bits d 40 5 =? 9) then
    Some (mk_tss (bits d 16 24 + 2 ^ 24 * bits d 56 40)
                 (bits d 0 16 + 2 ^ 16 * bits d 48 4) (bits d 45 2) (bits d 55 1))
  else None.

(** The stack that an interrupt from ring 3 switches to. *)
Definition ring0_stack (s : segs) : option Z :=
  match tss_of s (tr s) with
  | Some d => Some (rd64 (gmem s) (t_base d + 4))
  | None => None
  end.

(** *** The descriptor that [init_gdt] writes *)

Definition tss_word (w tss : Z) : Z :=
  let w := set_bits w 0 16 (SIZEOF_TSS - 1) in
  let w := set_bits w 16 24 tss in
  let w := set_bits w 40 5 9 in
  let w := set_bits w 45 2 0 in
  let w := set_bits w 47 1 1 in
  let w := set_bits w 48 4 0 in
  let w := set_bits w 55 1 0 in
  set_bits w 56 40 (Z.shiftr tss 24).

Lemma sd_set_reads m sd f v :
  rdn 16 (sd_set m sd f v) sd = set_bits (rdn 16 m sd) (sd_pos f).1 (sd_pos f).2 v.
Proof.
  unfold sd_set. rewrite rdn_wrn_eq. apply Z.mod_small.
  assert (E : 256 ^ Z.of_nat 16 = 2 ^ 128) by reflexivity. rewrite E.
  apply set_bits_range; [destruct f; cbn; lia ..|].
  rewrite <- E. apply rdn_range.
Qed.

Lemma sd_set_ne m sd f v a : a < sd \/ sd + 16 <= a -> rd8 (sd_set m sd f v) a = rd8 m a.
Proof. intros. apply rd8_wrn_ne. lia. Qed.

Lemma init_gdt_word s g tss :
  rdn 16 (gmem (init_gdt s g tss)) (g + 48) = tss_word (rdn 16 (gmem s) (g + 48)) tss.
Proof.
  unfold init_gdt, _x86_64_asm_lgdt, _x86_64_asm_ltr. cbn [gmem].
  replace (8 * 6) with 48 by reflexivity.
  rewrite !sd_set_reads. reflexivity.
Qed.

Lemma init_gdt_ne s g tss a :
  a < g + 48 \/ g + 64 <= a -> rd8 (gmem (init_gdt s g tss)) a = rd8 (gmem s) a.
Proof.
  intros Ha. unfold init_gdt, _x86_64_asm_lgdt, _x86_64_asm_ltr. cbn [gmem].
  replace (8 * 6) with 48 by reflexivity. rewrite !sd_set_ne by lia. reflexivity.
Qed.

Ltac fields := repeat first [rewrite bits_set_eq by lia | rewrite bits_set_ne by lia].

Lemma tss_word_fields w tss :
  0 <= tss < 2 ^ 64 ->
  let d := tss_word w tss in
  bits d 47 1 = 1 /\ bits d 40 5 = 9 /\ bits d 45 2 = 0 /\ bits d 55 1 = 0 /\
  bits d 0 16 = 103 /\ bits d 48 4 = 0 /\
  bits d 16 24 + 2 ^ 24 * bits d 56 40 = tss.
Proof.
  intros Ht. unfold tss_word. split_and!; fields; try reflexivity.
  rewrite !Z.land_ones, Z.shiftr_div_pow2 by lia.
  rewrite (Z.mod_small (tss / 2 ^ 24)).
  - pose proof (Z.div_mod tss (2 ^ 24)). lia.
  - split; [apply Z.div_pos; lia|]. apply Z.div_lt_upper_bound; lia.
Qed.

Lemma init_gdt_tss s g tss :
  0 <= tss < 2 ^ 64 ->
  tss_of (init_gdt s g tss) 0x30 = Some (mk_tss tss 103 0 0).
Proof.
  intros Ht. unfold tss_of.
  replace (gdtr_addr (init_gdt s g tss) + 8 * (48 / 8)) with (g + 48) by reflexivity.
  rewrite init_gdt_word.
  destruct (tss_word_fields (rdn 16 (gmem s) (g + 48)) tss Ht) as (E1 & E2 & E3 & E4 & E5 & E6 & E7).
  rewrite E1, E2, E3, E4, E5, E6, E7. reflexivity.
Qed.

Lemma gdt_image_reads m g (i : nat) :
  (i < 8)%nat -> rd64 (gdt_image m g) (g + 8 * Z.of_nat i) = nth i gdt 0.
Proof.
  intros Hi. unfold gdt_image. cbn [imap gdt foldl fold_left compose].
  do 8 (destruct i as [|i];
    [repeat first [rewrite rd64_wr64_ne by lia | rewrite rd64_wr64_eq]; reflexivity|]). lia.
Qed.

(** The table's bytes reach the processor unchanged: the kernel's and the user's
    segments. *)
Lemma gdt_selectors m g tss s0 :
  tss + 104 <= g \/ g + 256 <= tss -> gmem s0 = gdt_image m g ->
  let s := init_gdt s0 g tss in
  segment_of s (cs s) = Some (mk_segment true true false 0) /\
  segment_of s (ds s) = Some (mk_segment false false true 0) /\
  segment_of s 0x23 = Some (mk_segment false false true 3) /\
  segment_of s 0x2b = Some (mk_segment true true false 3).
Proof.
  intros Hd Hm s. subst s.
  assert (R : forall i : nat, (i < 6)%nat ->
    rd64 (gmem (init_gdt s0 g tss)) (g + 8 * Z.of_nat i) = nth i gdt 0).
  { intros i Hi. rewrite <- (gdt_image_reads m g i) by lia. rewrite <- Hm.
    apply rd64_ext. intros. apply init_gdt_ne. lia. }
  assert (S : forall sel (i : nat), (i < 6)%nat -> sel / 8 = Z.of_nat i ->
    rd64 (gmem (init_gdt s0 g tss)) (gdtr_addr (init_gdt s0 g tss) + 8 * (sel / 8)) = nth i gdt 0).
  { intros sel i Hi ->. apply R. exact Hi. }
  unfold segment_of. cbn [cs ds init_gdt _x86_64_asm_ltr _x86_64_asm_lgdt].
  rewrite (S 8 1%nat), (S 16 2%nat), (S 0x23 4%nat), (S 0x2b 5%nat) by (reflexivity || lia).
  split_and!; reflexivity.
Qed.

(** C25: after [init_gdt] the segment registers hold selectors of present
    descriptors: ring-0 long-mode code and writable data at 0x08 and 0x10, and
    at 0x23 and 0x2b, the selectors the process code uses, ring-3 data and
    ring-3 long-mode code.  The task register names an available 64-bit TSS
    whose base is the static [tss] object and whose limit is its size minus
    one, so that the stack which [set_tss_rsp] stores is the one that an
    interrupt from ring 3 switches to. *)
Theorem init_gdt_segments m g tss rsp s0 :
  0 <= tss < 2 ^ 64 -> 0 <= rsp < 2 ^ 64 -> tss + 104 <= g \/ g + 256 <= tss ->
  gmem s0 = gdt_image m g ->
  let s := init_gdt s0 g tss in
  (segment_of s (cs s) = Some (mk_segment true true false 0) /\
   segment_of s (ds s) = Some (mk_segment false false true 0) /\
   segment_of s 0x23 = Some (mk_segment false false true 3) /\
   segment_of s 0x2b = Some (mk_segment true true false 3)) /\
  tss_of s (tr s) = Some (mk_tss tss 103 0 0) /\
  ring0_stack (mk_segs (set_tss_rsp (gmem s) tss rsp) (gdtr_size s) (gdtr_addr s) (cs s) (ds s) (tr s))
  = Some rsp.
Proof.
  intros Ht Hr Hd Hm s. subst s. split; [|split].
  - apply (gdt_selectors m); assumption.
  - apply init_gdt_tss. exact Ht.
  - unfold ring0_stack. cbn [tr gmem].
    assert (E : tss_of (mk_segs (set_tss_rsp (gmem (init_gdt s0 g tss)) tss rsp)
        (gdtr_size (init_gdt s0 g tss)) (gdtr_addr (init_gdt s0 g tss))
        (cs (init_gdt s0 g tss)) (ds (init_gdt s0 g tss)) (tr (init_gdt s0 g tss)))
        (tr (init_gdt s0 g tss)) = tss_of (init_gdt s0 g tss) 0x30).
    { unfold tss_of, set_tss_rsp. cbn [gmem].
      rewrite (rdn_ext 16 (gmem (init_gdt s0 g tss))); [reflexivity|].
      intros i Hi. apply rd8_wr64_ne. cbn -[Z.add] in Hi. unfold OFF_rsp0. 
      replace (48 / 8) with 6 in Hi by reflexivity. lia. }
    rewrite E, init_gdt_tss by exact Ht. cbn [t_base].
    unfold set_tss_rsp. rewrite rd64_wr64_eq, u64_small by lia. reflexivity.
Qed.

Lemma init_gdt_segments_witness :
  let s := init_gdt (mk_segs (gdt_image ∅ 0x300000) 0 0 0 0 0) 0x300000 0xFFFFFFFF80201000 in
  (segment_of s (cs s) = Some (mk_segment true true false 0) /\
   segment_of s (ds s) = Some (mk_segment false false true 0) /\
   segment_of s 0x23 = Some (mk_segment false false true 3) /\
   segment_of s 0x2b = Some (mk_segment true true false 3)) /\
  tss_of s (tr s) = Some (mk_tss 0xFFFFFFFF80201000 103 0 0) /\
  ring0_stack (mk_segs (set_tss_rsp (gmem s) 0xFFFFFFFF80201000 77)
    (gdtr_size s) (gdtr_addr s) (cs s) (ds s) (tr s)) = Some 77.
Proof.
  apply (init_gdt_segments ∅ 0x300000 0xFFFFFFFF80201000 77
    (mk_segs (gdt_image ∅ 0x300000) 0 0 0 0 0)); [lia|lia|lia|reflexivity].
Defined.

End Gdt.

(** ** [sys/idt.c] *)

Module Idt.

Definition NUMBER_OF_IDT_ENTRIES : Z := 256.
Definition SIZEOF_INT_VEC : Z := 16.

(** Offsets of the fields of the packed [struct int_vec_t]. *)
Definition OFF_offset_1 : Z := 0.
Definition OFF_selector : Z := 2.
Definition OFF_ist : Z := 4.
Definition OFF_type_attr : Z := 5.
Definition OFF_offset_2 : Z := 6.
Definition OFF_offset_3 : Z := 8.
Definition OFF_zero : Z := 12.

Record idt_st := mk_idt { imem : mem; idtr : Z; int_flag : bool }.

Definition ivt_set_gate (ivt : Z) (m : mem) (i offset selector flags : Z) : mem :=
  let g := ivt + SIZEOF_INT_VEC * i in
  let m := wr16 m (g + OFF_offset_1) (Z.land offset 0xFFFF) in
  let m := wr16 m (g + OFF_offset_2) (Z.land (Z.shiftr offset 16) 0xFFFF) in
  let m := wr32 m (g + OFF_offset_3) (Z.land (Z.shiftr offset 32) 0xFFFFFFFF) in
  let m := wr16 m (g + OFF_selector) selector in
  let m := wr8 m (g + OFF_type_attr) flags in
  let m := wr8 m (g + OFF_ist) 0x0 in
  wr32 m (g + OFF_zero) 0x0.

(** The entry points of [sys/idt.s]. *)
Record stubs := mk_stubs { isr0 : Z; isr10 : Z; isr14 : Z; isr128 : Z; irq0 : Z; irq1 : Z }.

(** [ivt] and [ivt_ptr] are the addresses of the two globals. *)
Definition set_up_idt (e : stubs) (ivt ivt_ptr : Z) (s : idt_st) : idt_st :=
  let m := imem s in
  let m := wr16 m ivt_ptr (SIZEOF_INT_VEC * NUMBER_OF_IDT_ENTRIES) in
  let m := wr64 m (ivt_ptr + 2) ivt in
  let m := ivt_set_gate ivt m 0 (isr0 e) 0x08 0x8E in
  let m := ivt_set_gate ivt m 10 (isr10 e) 0x08 0x8E in
  let m := ivt_set_gate ivt m 14 (isr14 e) 0x08 0x8E in
  let m := ivt_set_gate ivt m 128 (isr128 e) 0x08 0xEE in
  let m := ivt_set_gate ivt m 32 (irq0 e) 0x08 0x8E in
  let m := ivt_set_gate ivt m 33 (irq1 e) 0x08 0x8E in
  mk_idt m ivt_ptr true.

(** *** How the processor reads a gate *)

Record gate := mk_gate { g_target : Z; g_sel : Z; g_dpl : Z; g_trap : bool; g_ist : Z }.

(** The gate of vector [n] in the table at [base]: 64-bit interrupt and trap
    gates have type 14 and 15 and the present bit set. *)
Definition gate_at (m : mem) (base n : Z) : option gate :=
  let g := base + 16 * n in
  let attr := rd8 m (g + 5) in
  if Z.testbit attr 7 && (bits attr 1 4 =? 7) then
    Some (mk_gate (rd16 m g + 2 ^ 16 * rd16 m (g + 6) + 2 ^ 32 * rd32 m (g + 8))
                  (rd16 m (g + 2)) (bits attr 5 2) (Z.testbit attr 0) (bits (rd8 m (g + 4)) 0 3))
  else None.

(** The gate used when vector [n] is raised: the processor takes the table's base
    and limit from the operand of [lidt]. *)
Definition deliver (s : idt_st) (n : Z) : option gate :=
  if 16 * n + 15 <=? rd16 (imem s) (idtr s) then gate_at (imem s) (rd64 (imem s) (idtr s + 2)) n
  else None.

Lemma split_offset o :
  0 <= o < 2 ^ 64 ->
  u16 (Z.land o 0xFFFF) + 2 ^ 16 * u16 (Z.land (Z.shiftr o 16) 0xFFFF)
  + 2 ^ 32 * u32 (Z.land (Z.shiftr o 32) 0xFFFFFFFF) = o.
Proof.
  intros Ho.
  change 0xFFFF with (2 ^ 16 - 1). change 0xFFFFFFFF with (2 ^ 32 - 1).
  rewrite !shiftr_land_ones, land_ones_mod by lia. unfold u16, u32.
  rewrite !Z.mod_mod by lia. rewrite (Z.mod_small (o / 2 ^ 32) (2 ^ 32)).
  - pose proof (Z.div_mod o (2 ^ 16)). pose proof (Z.div_mod (o / 2 ^ 16) (2 ^ 16)).
    replace (o / 2 ^ 32) with (o / 2 ^ 16 / 2 ^ 16) by (rewrite Z.div_div by lia; reflexivity). lia.
  - split; [apply Z.div_pos; lia|]. apply Z.div_lt_upper_bound; lia.
Qed.

Lemma gate_other ivt m i o sel fl a :
  a < ivt + 16 * i \/ ivt + 16 * i + 16 <= a -> rd8 (ivt_set_gate ivt m i o sel fl) a = rd8 m a.
Proof.
  intros Ha. unfold ivt_set_gate, SIZEOF_INT_VEC, OFF_zero, OFF_ist, OFF_type_attr, OFF_selector,
    OFF_offset_1, OFF_offset_2, OFF_offset_3.
  rewrite rd8_wr32_ne, !rd8_wr8_ne, rd8_wr16_ne, rd8_wr32_ne, !rd8_wr16_ne by lia. reflexivity.
Qed.

Lemma gate_at_ext m m' base n :
  (forall a, base + 16 * n <= a < base + 16 * n + 16 -> rd8 m' a = rd8 m a) ->
  gate_at m' base n = gate_at m base n.
Proof.
  intros H. unfold gate_at. rewrite !H by lia.
  rewrite (rd16_ext m m' (base + 16 * n)), (rd16_ext m m' (base + 16 * n + 6)),
    (rd16_ext m m' (base + 16 * n + 2)), (rd32_ext m m' (base + 16 * n + 8))
    by (intros; apply H; lia).
  reflexivity.
Qed.

Lemma gate_set_ne ivt m i o sel fl n :
  n <> i -> gate_at (ivt_set_gate ivt m i o sel fl) ivt n = gate_at m ivt n.
Proof. intros. apply gate_at_ext. intros. apply gate_other. lia. Qed.

Lemma gate_set_eq ivt m i o sel fl :
  0 <= o < 2 ^ 64 -> 0 <= sel < 2 ^ 16 -> 0 <= fl < 256 ->
  gate_at (ivt_set_gate ivt m i o sel fl) ivt i =
  if Z.testbit fl 7 && (bits fl 1 4 =? 7)
  then Some (mk_gate o sel (bits fl 5 2) (Z.testbit fl 0) 0) else None.
Proof.
  intros Ho Hs Hf. unfold gate_at, ivt_set_gate, SIZEOF_INT_VEC, OFF_zero, OFF_ist, OFF_type_attr,
    OFF_selector, OFF_offset_1, OFF_offset_2, OFF_offset_3.
  set (g := ivt + 16 * i). rewrite Z.add_0_r.
  set (m1 := wr16 m g _). set (m2 := wr16 m1 _ _). set (m3 := wr32 m2 _ _).
  set (m4 := wr16 m3 _ _). set (m5 := wr8 m4 _ _). set (m6 := wr8 m5 _ _).
  set (m7 := wr32 m6 _ _).
  assert (Eat : rd8 m7 (g + 5) = fl).
  { unfold m7. rewrite rd8_wr32_ne by lia. unfold m6. rewrite rd8_wr8_ne by lia.
    unfold m5. rewrite rd8_wr8_eq. apply Z.mod_small. lia. }
  assert (Eist : rd8 m7 (g + 4) = 0).
  { unfold m7. rewrite rd8_wr32_ne by lia. unfold m6. rewrite rd8_wr8_eq. reflexivity. }
  assert (F7 : forall a, a + 2 <= g + 4 \/ g + 6 <= a < g + 11 -> rd16 m7 a = rd16 m4 a).
  { intros a Ha. apply rd16_ext. intros j Hj. unfold m7. rewrite rd8_wr32_ne by lia.
    unfold m6, m5. rewrite !rd8_wr8_ne by lia. reflexivity. }
  assert (Esel : rd16 m7 (g + 2) = sel).
  { rewrite F7 by lia. unfold m4. rewrite rd16_wr16_eq. apply u16_small. lia. }
  assert (E1 : rd16 m7 g = u16 (Z.land o 0xFFFF)).
  { rewrite F7 by lia. unfold m4. rewrite rd16_wr16_ne by lia.
    unfold m3. rewrite (rd16_ext m2) by (intros; apply rd8_wr32_ne; lia).
    unfold m2. rewrite rd16_wr16_ne by lia. apply rd16_wr16_eq. }
  assert (E2 : rd16 m7 (g + 6) = u16 (Z.land (Z.shiftr o 16) 0xFFFF)).
  { rewrite F7 by lia. unfold m4. rewrite rd16_wr16_ne by lia.
    unfold m3. rewrite (rd16_ext m2) by (intros; apply rd8_wr32_ne; lia). apply rd16_wr16_eq. }
  assert (E3 : rd32 m7 (g + 8) = u32 (Z.land (Z.shiftr o 32) 0xFFFFFFFF)).
  { unfold m7. rewrite rd32_wr32_ne by lia. rewrite <- (rd32_wr32_eq m2 (g + 8)).
    apply rd32_ext. intros j Hj. unfold m6, m5. rewrite !rd8_wr8_ne by lia.
    unfold m4. rewrite rd8_wr16_ne by lia. reflexivity. }
  rewrite Eat, Eist, Esel, E1, E2, E3, split_offset by exact Ho. reflexivity.
Qed.

(** Vectors with a handler. *)
Definition vector_target (e : stubs) (n : Z) : option (Z * Z) :=
  if n =? 0 then Some (isr0 e, 0) else if n =? 10 then Some (isr10 e, 0)
  else if n =? 14 then Some (isr14 e, 0) else if n =? 128 then Some (isr128 e, 3)
  else if n =? 32 then Some (irq0 e, 0) else if n =? 33 then Some (irq1 e, 0) else None.

Definition stubs_ok (e : stubs) : Prop :=
  Forall (fun a => 0 <= a < 2 ^ 64) [isr0 e; isr10 e; isr14 e; isr128 e; irq0 e; irq1 e].

Definition zeroed (m : mem) (a len : Z) : Prop := forall i, a <= i < a + len -> rd8 m i = 0.

Lemma gate_zero m base n : zeroed m (base + 16 * n) 16 -> gate_at m base n = None.
Proof. intros H. unfold gate_at. rewrite (H (base + 16 * n + 5)) by lia. reflexivity. Qed.

Lemma set_up_idt_other e ivt ip s a :
  a < ip \/ ip + 10 <= a -> a < ivt \/ ivt + 4096 <= a ->
  rd8 (imem (set_up_idt e ivt ip s)) a = rd8 (imem s) a.
Proof.
  intros H1 H2. unfold set_up_idt. cbn [imem]. rewrite !gate_other by lia.
  rewrite rd8_wr64_ne, rd8_wr16_ne by lia. reflexivity.
Qed.

Lemma set_up_idt_gates e ivt ip s n :
  stubs_ok e -> zeroed (imem s) ivt 4096 -> ip + 10 <= ivt \/ ivt + 4096 <= ip -> 0 <= n < 256 ->
  gate_at (imem (set_up_idt e ivt ip s)) ivt n =
  match vector_target e n with
  | Some (target, dpl) => Some (mk_gate target 0x08 dpl false 0)
  | None => None
  end.
Proof.
  intros He Hz Hd Hn. unfold stubs_ok in He. rewrite !list.Forall_cons in He.
  destruct He as (H0 & H10 & H14 & H128 & H32 & H33 & _).
  unfold set_up_idt, vector_target. cbn [imem].
  set (m0 := wr64 _ _ _).
  assert (Z0 : gate_at m0 ivt n = None).
  { apply gate_zero. intros i Hi. unfold m0. rewrite rd8_wr64_ne, rd8_wr16_ne by lia.
    apply Hz. lia. }
  destruct (Z.eqb_spec n 0) as [->|];
    [rewrite !(gate_set_ne ivt _ _ _ _ _ 0) by lia; rewrite gate_set_eq by lia; reflexivity|].
  destruct (Z.eqb_spec n 10) as [->|];
    [rewrite !(gate_set_ne ivt _ _ _ _ _ 10) by lia; rewrite gate_set_eq by lia; reflexivity|].
  destruct (Z.eqb_spec n 14) as [->|];
    [rewrite !(gate_set_ne ivt _ _ _ _ _ 14) by lia; rewrite gate_set_eq by lia; reflexivity|].
  destruct (Z.eqb_spec n 128) as [->|];
    [rewrite !(gate_set_ne ivt _ _ _ _ _ 128) by lia; rewrite gate_set_eq by lia; reflexivity|].
  destruct (Z.eqb_spec n 32) as [->|];
    [rewrite !(gate_set_ne ivt _ _ _ _ _ 32) by lia; rewrite gate_set_eq by lia; reflexivity|].
  destruct (Z.eqb_spec n 33) as [->|]; [rewrite gate_set_eq by lia; reflexivity|].
  rewrite !gate_set_ne by lia. exact Z0.
Qed.

Lemma set_up_idt_deliver e ivt ip s n :
  stubs_ok e -> zeroed (imem s) ivt 4096 -> ip + 10 <= ivt \/ ivt + 4096 <= ip ->
  0 <= ivt < 2 ^ 64 -> 0 <= n < 256 ->
  let s' := set_up_idt e ivt ip s in
  int_flag s' = true /\
  deliver s' n = match vector_target e n with
                 | Some (target, dpl) => Some (mk_gate target 0x08 dpl false 0)
                 | None => None
                 end.
Proof.
  intros He Hz Hd Hi Hn s'. split; [reflexivity|].
  unfold deliver. replace (idtr s') with ip by reflexivity.
  assert (F : forall a, ip <= a < ip + 10 ->
     rd8 (imem s') a = rd8 (wr64 (wr16 (imem s) ip 4096) (ip + 2) ivt) a).
  { intros a Ha. unfold s', set_up_idt. cbn [imem]. rewrite !gate_other by lia. reflexivity. }
  assert (E1 : rd16 (imem s') ip = 4096).
  { rewrite (rd16_ext (wr16 (imem s) ip 4096)); [apply rd16_wr16_eq|].
    intros a Ha. rewrite F, rd8_wr64_ne by lia. reflexivity. }
  assert (E2 : rd64 (imem s') (ip + 2) = ivt).
  { rewrite (rd64_ext (wr64 (wr16 (imem s) ip 4096) (ip + 2) ivt)).
    - rewrite rd64_wr64_eq. apply u64_small. lia.
    - intros a Ha. apply F. lia. }
  rewrite E1, E2. replace (16 * n + 15 <=? 4096) with true by lia.
  apply set_up_idt_gates; assumption.
Qed.

(** C24: after [set_up_idt] interrupts are enabled and vectors 0, 10, 14, 32, 33
    and 128 are delivered through interrupt gates of code segment 0x08 to their
    entry points; user code can raise only vector 128, and every other vector of
    the table has no gate. *)
Theorem set_up_idt_vectors e ivt ip s n :
  stubs_ok e -> zeroed (imem s) ivt 4096 -> ip + 10 <= ivt \/ ivt + 4096 <= ip ->
  0 <= ivt < 2 ^ 64 -> 0 <= n < 256 ->
  let s' := set_up_idt e ivt ip s in
  int_flag s' = true /\
  deliver s' n = match vector_target e n with
                 | Some (target, dpl) => Some (mk_gate target 0x08 dpl false 0)
                 | None => None
                 end.
Proof. apply set_up_idt_deliver. Qed.

Definition demo_stubs : stubs :=
  mk_stubs 0xFFFFFFFF80200100 0xFFFFFFFF80200110 0xFFFFFFFF80200120 0xFFFFFFFF80200130
    0xFFFFFFFF80200140 0xFFFFFFFF80200150.

Lemma set_up_idt_vectors_witness :
  let s' := set_up_idt demo_stubs 0x2000 0x1000 (mk_idt ∅ 0 false) in
  int_flag s' = true /\ deliver s' 128 = Some (mk_gate 0xFFFFFFFF80200130 0x08 3 false 0).
Proof.
  apply (set_up_idt_vectors demo_stubs 0x2000 0x1000 (mk_idt ∅ 0 false) 128).
  - unfold stubs_ok, demo_stubs. repeat constructor; cbn; lia.
  - intros i Hi. reflexivity.
  - lia.
  - lia.
  - lia.
Defined.

End Idt.
