(* ===== verification/Pci.v ===== *)
(** * PCI scan

    The bus scan and the port probe of [sys/pci.c].  Configuration space is
    reached through a pair of 32-bit ports: the code is written against the class
    [LongPort], and its theorems use the documented access mechanism. *)

From stdpp Require Import base gmap list numbers.
From Stdlib Require Import ZArith Lia.
From Stdlib Require Ascii String.
From S2P Require Import Prelude Devices Cpu.
Import (notations) String.

Class LongPort (D : Type) := {
  sysInLong : D -> Z -> Z;
  sysOutLong : D -> Z -> Z -> D }.

Definition SATA_SIG_ATAPI : Z := 0xEB140101.
Definition SATA_SIG_SEMB : Z := 0xC33C0101.
Definition SATA_SIG_PM : Z := 0x96690101.
Definition AHCI_DEV_SATA : Z := 0x00000101.
Definition AHCI_DEV_SATAPI : Z := 0xEB140101.
Definition AHCI_DEV_SEMB : Z := 0xC33C0101.
Definition AHCI_DEV_PM : Z := 0x96690101.

(** A call of [kprintf]: its format string and integer arguments. *)
Abbreviation msg := (String.string * list Z)%type.

Section Scan.
Context {D : Type} `{LongPort D}.

Definition getRegVal (d : D) (bus port function offset : Z) : Z * D :=
  let lbus := bus in
  let lport := port in
  let lfunc := function in
  let address :=
    u64 (Z.lor (Z.lor (Z.lor (Z.lor (Z.shiftl lbus 16) (Z.shiftl lport 11)) (Z.shiftl lfunc 8))
                      (Z.land offset 0xfc)) 0x80000000) in
  let d := sysOutLong d 0xCF8 (u32 address) in
  let ret := if offset =? 0x24 then u16 (sysInLong d 0xCFC)
             else u16 (Z.land (Z.shiftr (sysInLong d 0xCFC) (Z.land offset 2 * 8)) 0xffff) in
  (u16 ret, d).

Definition getVendorID (d : D) (bus port function : Z) : Z * D := getRegVal d bus port function 0.
Definition getDeviceID (d : D) (bus port function : Z) : Z * D := getRegVal d bus port function 2.
Definition getClassId (d : D) (bus device function : Z) : Z * D :=
  let '(r0, d) := getRegVal d (u8 bus) (u8 device) (u8 function) (u8 0xA) in
  (u16 (Z.shiftr (Z.land r0 (Z.lnot 0x00FF)) 8), d).
Definition getSubClassId (d : D) (bus device function : Z) : Z * D :=
  let '(r0, d) := getRegVal d (u8 bus) (u8 device) (u8 function) (u8 0xA) in
  (u16 (Z.land r0 (Z.lnot 0xFF00)), d).

Record scan := mk_scan { dev : D; got_it : Z; log : list msg }.

Definition say (s : scan) (fmt : String.string) (v : Z) : scan :=
  mk_scan (dev s) (got_it s) (log s ++ [(fmt, [v])]).

(** The loop over the functions of a device; [ids] holds the values of the last
    iteration. *)
Fixpoint checkDevice_loop (n : nat) (s : scan) (bus port function : Z) (ids : Z * Z * Z * Z)
    : Z * scan :=
  match n with
  | O =>
      let '(vendorID, deviceID, classID, subClassID) := ids in
      let s := say s "Vendor ID is %x\n" vendorID in
      let s := say s "device ID is %x\n" deviceID in
      let s := say s "Class ID is %x\n" classID in
      let s := say s "Sub-Class ID is %x\n" subClassID in
      (0, s)
  | S n =>
      let '(vendorID, d) := getVendorID (dev s) bus port function in
      let '(deviceID, d) := getDeviceID d bus port function in
      let '(classID, d) := getClassId d bus port function in
      let '(subClassID, d) := getSubClassId d bus port function in
      let s := mk_scan d (got_it s) (log s) in
      if vendorID =? 0xFFFF then (0, s)
      else if (vendorID =? 0x8086) && (deviceID =? 0x2922) then
        let s := say s "Device found %x\n" vendorID in
        let s := say s "device ID is %x\n" deviceID in
        let '(r, d) := getRegVal (dev s) bus port function 0x24 in
        (r, mk_scan d 1 (log s))
      else checkDevice_loop n s bus port (u8 (function + 1)) (vendorID, deviceID, classID, subClassID)
  end.

Definition checkDevice (s : scan) (bus port : Z) : Z * scan :=
  checkDevice_loop 8 s bus port 0 (0, 0, 0, 0).

(** The two nested loops; both counters are [uint8_t].  The fuel bounds the
    number of calls of [checkDevice]. *)
Fixpoint checkAllBuses_loop (fuel : nat) (s : scan) (bus port : Z) : option scan :=
  match fuel with
  | O => None
  | S fuel =>
      let '(abar, s) := checkDevice s bus port in
      if negb (got_it s =? 0) then Some (say s "Bar5 is %x\n" abar)
      else
        let port := u8 (port + 1) in
        if port <? 32 then checkAllBuses_loop fuel s bus port
        else
          let bus := u8 (bus + 1) in
          if bus <? 256 then checkAllBuses_loop fuel s bus 0 else Some s
  end.

Definition checkAllBuses (fuel : nat) (s : scan) : option scan := checkAllBuses_loop fuel s 0 0.

End Scan.
Arguments scan : clear implicits.

(** ** AHCI ports *)

Record hba_port_t := mk_port { sig : Z; ssts : Z }.

Definition check_type (port : hba_port_t) : Z :=
  let ipm := u8 (Z.land (Z.shiftr (ssts port) 8) 0x0F) in
  let det := u8 (Z.land (ssts port) 0x0F) in
  if det =? 0 then 0
  else if ipm =? 0 then 0
  else if sig port =? SATA_SIG_ATAPI then s32 AHCI_DEV_SATAPI
  else if sig port =? SATA_SIG_SEMB then s32 AHCI_DEV_SEMB
  else if sig port =? SATA_SIG_PM then s32 AHCI_DEV_PM
  else AHCI_DEV_SATA.

(** The message for port [i]; [dt] is compared with unsigned constants. *)
Definition probe_msg (dt i : Z) : msg :=
  if u32 dt =? AHCI_DEV_SATA then ("SATA drive found at port %d\n"%string, [i])
  else if u32 dt =? AHCI_DEV_SATAPI then ("SATAPI drive found at port %d\n"%string, [i])
  else if u32 dt =? AHCI_DEV_SEMB then ("SEMB drive found at port %d\n"%string, [i])
  else if u32 dt =? AHCI_DEV_PM then ("PM drive found at port %d\n"%string, [i])
  else ("No drive found at port %d\n"%string, [i]).

Fixpoint probe_loop (n : nat) (pi i : Z) (ports : Z -> hba_port_t) : list msg :=
  match n with
  | O => []
  | S n =>
      (if Z.land pi 1 =? 0 then [] else [probe_msg (check_type (ports i)) i])
      ++ probe_loop n (Z.shiftr pi 1) (i + 1) ports
  end.

Definition probe_port (pi : Z) (ports : Z -> hba_port_t) : list msg := probe_loop 32 (u32 pi) 0 ports.

(** ** Configuration access mechanism 1 *)

(** [cfg bus device function r]: the 32-bit register [r] of a function. *)
Record conf := mk_conf { latch : Z; cfg : Z -> Z -> Z -> Z -> Z }.

#[export] Instance conf_port : LongPort conf := {
  sysInLong c p :=
    if (p =? 0xCFC) && Z.testbit (latch c) 31 then
      u32 (cfg c (bits (latch c) 16 8) (bits (latch c) 11 5) (bits (latch c) 8 3) (bits (latch c) 2 6))
    else 2 ^ 32 - 1;
  sysOutLong c p v := if p =? 0xCF8 then mk_conf v (cfg c) else c }.

(** The 16-bit register at byte offset [o] of a function. *)
Definition reg16 (cf : Z -> Z -> Z -> Z -> Z) (b p f o : Z) : Z :=
  bits (u32 (cf b p f (o / 4))) (8 * (o mod 4)) 16.

Definition address (b p f o : Z) : Z := b * 2 ^ 16 + p * 2 ^ 11 + f * 2 ^ 8 + 4 * (o / 4) + 2 ^ 31.

Lemma land_fc o : 0 <= o < 256 -> Z.land o 0xfc = 4 * (o / 4).
Proof.
  intros Ho. apply Z.bits_inj'. intros i Hi.
  replace (4 * (o / 4)) with (Z.shiftl (Z.shiftr o 2) 2)
    by (rewrite Z.shiftl_mul_pow2, Z.shiftr_div_pow2 by lia; change (2 ^ 2) with 4; ring).
  rewrite Z.land_spec, Z.shiftl_spec by lia.
  destruct (decide (i < 2)).
  - rewrite (Z.testbit_neg_r _ (i - 2)) by lia.
    assert (i = 0 \/ i = 1) as [-> | ->] by lia; apply andb_false_r.
  - rewrite Z.shiftr_spec by lia. replace (i - 2 + 2) with i by lia.
    destruct (decide (i < 8)).
    + assert (i = 2 \/ i = 3 \/ i = 4 \/ i = 5 \/ i = 6 \/ i = 7)
        as [-> | [-> | [-> | [-> | [-> | ->]]]]] by lia; apply andb_true_r.
    + rewrite <- (Z.mod_small o (2 ^ 8)) by lia.
      rewrite Z.mod_pow2_bits_high by lia. reflexivity.
Qed.

Lemma address_eq b p f o :
  0 <= b < 256 -> 0 <= p < 32 -> 0 <= f < 8 -> 0 <= o < 256 ->
  u32 (u64 (Z.lor (Z.lor (Z.lor (Z.lor (Z.shiftl b 16) (Z.shiftl p 11)) (Z.shiftl f 8))
                      (Z.land o 0xfc)) 0x80000000)) = address b p f o.
Proof.
  intros. rewrite land_fc, !Z.shiftl_mul_pow2 by lia.
  rewrite (lor_aligned (b * 2 ^ 16) (p * 2 ^ 11) 16) by zdiv.
  rewrite (lor_aligned (b * 2 ^ 16 + p * 2 ^ 11) (f * 2 ^ 8) 11) by zdiv.
  rewrite (lor_aligned _ (4 * (o / 4)) 8) by zdiv.
  rewrite Z.lor_comm, (lor_aligned 0x80000000 _ 31) by zdiv.
  unfold address, u32, u64. rewrite !Z.mod_small by zdiv. ring.
Qed.

Lemma bits_div w lo len : 0 <= lo -> 0 <= len -> bits w lo len = (w / 2 ^ lo) mod 2 ^ len.
Proof. intros. unfold bits. rewrite Z.land_ones, Z.shiftr_div_pow2 by lia. reflexivity. Qed.

Lemma address_fields b p f o :
  0 <= b < 256 -> 0 <= p < 32 -> 0 <= f < 8 -> 0 <= o < 256 ->
  Z.testbit (address b p f o) 31 = true /\ bits (address b p f o) 16 8 = b /\
  bits (address b p f o) 11 5 = p /\ bits (address b p f o) 8 3 = f /\ bits (address b p f o) 2 6 = o / 4.
Proof.
  intros. unfold address. split_and!; [|rewrite bits_div by lia; zdiv ..].
  rewrite Z.testbit_true by lia. zdiv.
Qed.

Lemma getRegVal_reads c b p f o :
  0 <= b < 256 -> 0 <= p < 32 -> 0 <= f < 8 -> 0 <= o < 256 -> o mod 2 = 0 ->
  getRegVal c b p f o = (reg16 (cfg c) b p f o, mk_conf (address b p f o) (cfg c)).
Proof.
  intros Hb Hp Hf Ho He. unfold getRegVal. rewrite address_eq by assumption.
  cbn [sysOutLong sysInLong conf_port latch cfg Z.eqb Pos.eqb].
  destruct (address_fields b p f o Hb Hp Hf Ho) as (E0 & E1 & E2 & E3 & E4).
  rewrite E0, E1, E2, E3, E4. cbn [andb]. f_equal. unfold reg16.
  set (v := u32 (cfg c b p f (o / 4))).
  assert (Ev : forall n, 0 <= n -> bits v n 16 = (v / 2 ^ n) mod 2 ^ 16) by (intros; apply bits_div; lia).
  rewrite Ev by zdiv. unfold u16.
  destruct (Z.eqb_spec o 0x24) as [->|Hn].
  - rewrite Z.mod_mod by lia. change (2 ^ (8 * (36 mod 4))) with 1. rewrite Z.div_1_r. reflexivity.
  - assert (E : Z.land o 2 = o mod 4).
    { pose proof (land_ones_mod o 2 ltac:(lia)) as E. change (2 ^ 2 - 1) with 3 in E.
      change (2 ^ 2) with 4 in E. rewrite <- E. apply Z.bits_inj'. intros i Hi.
      rewrite !Z.land_spec. destruct (decide (i = 0)) as [->|].
      - rewrite (Z.bit0_eqb o), He. reflexivity.
      - f_equal. destruct (decide (i = 1)) as [->|]; [reflexivity|].
        rewrite !Z.bits_above_log2 by (cbn; lia). reflexivity. }
    rewrite E. change 0xffff with (2 ^ 16 - 1). rewrite shiftr_land_ones by zdiv.
    rewrite !Z.mod_mod by lia. do 3 f_equal. ring.
Qed.

(** ** The scan *)

(** What a device shows to the scan: the low half of BAR5 of the first function
    that is the AHCI controller 8086:2922, unless a function before it is absent. *)
Fixpoint bar_scan (n : nat) (cf : Z -> Z -> Z -> Z -> Z) (b p f : Z) : option Z :=
  match n with
  | O => None
  | S n =>
      if reg16 cf b p f 0 =? 0xFFFF then None
      else if (reg16 cf b p f 0 =? 0x8086) && (reg16 cf b p f 2 =? 0x2922) then Some (reg16 cf b p f 0x24)
      else bar_scan n cf b p (f + 1)
  end.

Definition bar_of (cf : Z -> Z -> Z -> Z -> Z) (k : Z) : option Z := bar_scan 8 cf (k / 32) (k mod 32) 0.

Definition scan_step (s : scan conf) (o : option Z) (r : Z * scan conf) : Prop :=
  cfg (dev r.2) = cfg (dev s) /\
  match o with
  | Some v => r.1 = v /\ got_it r.2 = 1
  | None => r.1 = 0 /\ got_it r.2 = got_it s
  end.

Lemma id_reads c b p f :
  0 <= b < 256 -> 0 <= p < 32 -> 0 <= f < 8 ->
  getVendorID c b p f = (reg16 (cfg c) b p f 0, mk_conf (address b p f 0) (cfg c)) /\
  getDeviceID c b p f = (reg16 (cfg c) b p f 2, mk_conf (address b p f 2) (cfg c)) /\
  (exists v, getClassId c b p f = (v, mk_conf (address b p f 0xA) (cfg c))) /\
  (exists v, getSubClassId c b p f = (v, mk_conf (address b p f 0xA) (cfg c))).
Proof.
  intros Hb Hp Hf. unfold getVendorID, getDeviceID, getClassId, getSubClassId.
  rewrite !u8_small by lia. rewrite !getRegVal_reads by (assumption || lia || reflexivity).
  split_and!; eauto.
Qed.

Lemma checkDevice_loop_spec n s b p f ids :
  0 <= b < 256 -> 0 <= p < 32 -> 0 <= f -> f + Z.of_nat n = 8 ->
  scan_step s (bar_scan n (cfg (dev s)) b p f) (checkDevice_loop n s b p f ids).
Proof.
  intros Hb Hp. revert s f ids. induction n as [|n IH]; intros s f ids Hf Hn.
  - destruct ids as [[[v1 v2] v3] v4]. cbn. split_and!; reflexivity.
  - assert (Hf8 : 0 <= f < 8) by lia.
    cbn [checkDevice_loop bar_scan].
    destruct (id_reads (dev s) b p f Hb Hp Hf8) as (E1 & _). rewrite E1.
    destruct (id_reads (mk_conf (address b p f 0) (cfg (dev s))) b p f Hb Hp Hf8) as (_ & E2 & _).
    rewrite E2. cbn [cfg].
    destruct (id_reads (mk_conf (address b p f 2) (cfg (dev s))) b p f Hb Hp Hf8) as (_ & _ & [v3 E3] & _).
    rewrite E3. cbn [cfg].
    destruct (id_reads (mk_conf (address b p f 0xA) (cfg (dev s))) b p f Hb Hp Hf8) as (_ & _ & _ & [v4 E4]).
    rewrite E4. cbn [cfg].
    destruct (reg16 (cfg (dev s)) b p f 0 =? 0xFFFF); [cbn; split_and!; reflexivity|].
    destruct (_ && _).
    + cbn [say dev]. rewrite getRegVal_reads by (assumption || lia || reflexivity).
      cbn. split_and!; reflexivity.
    + rewrite u8_small by lia.
      apply (IH (mk_scan (mk_conf (address b p f 10) (cfg (dev s))) (got_it s) (log s))); lia.
Qed.

Lemma checkDevice_spec s k :
  0 <= k < 8192 ->
  scan_step s (bar_of (cfg (dev s)) k) (checkDevice s (k / 32) (k mod 32)).
Proof.
  intros Hk. unfold checkDevice, bar_of.
  apply (checkDevice_loop_spec 8 s (k / 32) (k mod 32) 0 (0, 0, 0, 0)); zdiv.
Qed.

(** Device number [k] in scan order; the last bus wraps round to the first. *)
Lemma scan_next fuel s k :
  0 <= k < 8192 -> got_it s = 0 -> bar_of (cfg (dev s)) k = None ->
  exists s', got_it s' = 0 /\ cfg (dev s') = cfg (dev s) /\
  checkAllBuses_loop (S fuel) s (k / 32) (k mod 32) =
  checkAllBuses_loop fuel s' (((k + 1) mod 8192) / 32) (((k + 1) mod 8192) mod 32).
Proof.
  intros Hk Hg Hn. destruct (checkDevice_spec s k Hk) as [Hc H]. rewrite Hn in H. destruct H as [_ H].
  cbn [checkAllBuses_loop]. destruct (checkDevice s (k / 32) (k mod 32)) as [abar s1].
  cbn in Hc, H. exists s1. rewrite H, Hg. split_and!; [reflexivity|exact Hc|]. cbn [Z.eqb negb].
  rewrite (u8_small (k mod 32 + 1)) by zdiv.
  destruct (Z.ltb_spec (k mod 32 + 1) 32) as [Hl|Hl].
  - f_equal; zdiv.
  - unfold u8. replace ((k / 32 + 1) mod 2 ^ 8 <? 256) with true by zdiv.
    f_equal; zdiv.
Qed.

Lemma bar_scan_range n cf b p f v : bar_scan n cf b p f = Some v -> 0 <= v < 2 ^ 16.
Proof.
  revert f. induction n as [|n IH]; intros f; cbn [bar_scan]; [discriminate|].
  destruct (_ =? 0xFFFF); [discriminate|]. destruct (_ && _); [|apply IH].
  intros [= <-]. unfold reg16. rewrite bits_div by zdiv. apply Z.mod_pos_bound. lia.
Qed.

Lemma scan_from n s k v :
  0 <= k -> k + Z.of_nat n < 8192 -> got_it s = 0 ->
  (forall j, k <= j < k + Z.of_nat n -> bar_of (cfg (dev s)) j = None) ->
  bar_of (cfg (dev s)) (k + Z.of_nat n) = Some v ->
  exists s' l, checkAllBuses_loop (S n) s (k / 32) (k mod 32) = Some s' /\
    log s' = l ++ [("Bar5 is %x\n"%string, [v])].
Proof.
  revert s k. induction n as [|n IH]; intros s k Hk Hb Hg Hn Hv.
  - replace (k + Z.of_nat 0) with k in Hv by lia.
    destruct (checkDevice_spec s k) as [_ H]; [lia|]. rewrite Hv in H.
    cbn [checkAllBuses_loop]. destruct (checkDevice s (k / 32) (k mod 32)) as [abar s1].
    cbn in H. destruct H as [-> ->]. cbn. eauto.
  - destruct (scan_next (S n) s k) as (s1 & Hg1 & Hc1 & E); [lia|exact Hg|apply Hn; lia|].
    rewrite E, (Z.mod_small (k + 1)) by lia.
    apply IH; rewrite ?Hc1; [lia|lia|exact Hg1|intros; apply Hn; lia|].
    rewrite <- Hv. f_equal. lia.
Qed.

(** C33: when some device shows the AHCI controller, the scan ends at the first
    one in bus and device order and reports the low 16 bits of its BAR5; the
    upper half of that address register is lost. *)
Theorem scan_finds_first k s v :
  0 <= k < 8192 -> got_it s = 0 ->
  (forall j, 0 <= j < k -> bar_of (cfg (dev s)) j = None) ->
  bar_of (cfg (dev s)) k = Some v ->
  0 <= v < 2 ^ 16 /\
  exists s' l, checkAllBuses (S (Z.to_nat k)) s = Some s' /\
    log s' = l ++ [("Bar5 is %x\n"%string, [v])].
Proof.
  intros Hk Hg Hn Hv. split; [exact (bar_scan_range _ _ _ _ _ _ Hv)|].
  apply (scan_from (Z.to_nat k) s 0 v); [lia|lia|exact Hg|intros; apply Hn; lia|].
  rewrite <- Hv. f_equal. lia.
Qed.

(** A machine with the controller at bus 0, device 31, function 2. *)
Definition demo_cfg (b p f r : Z) : Z :=
  if (b =? 0) && (p =? 31) && (f =? 2) then
    if r =? 0 then 0x29228086 else if r =? 9 then 0xFEBF1000 else 0
  else if (b =? 0) && (p =? 31) && (f <? 2) then 0x12341022 else 0xFFFFFFFF.

Definition demo_scan (cf : Z -> Z -> Z -> Z -> Z) : scan conf := mk_scan (mk_conf 0 cf) 0 [].

Lemma scan_finds_first_witness :
  0 <= 0x1000 < 2 ^ 16 /\
  exists s' l, checkAllBuses 32 (demo_scan demo_cfg) = Some s' /\
    log s' = l ++ [("Bar5 is %x\n"%string, [0x1000])].
Proof.
  apply (scan_finds_first 31 (demo_scan demo_cfg) 0x1000); [lia|reflexivity| |vm_compute; reflexivity].
  intros j Hj. cbn [dev demo_scan cfg].
  assert (E : forall f, reg16 demo_cfg (j / 32) (j mod 32) f 0 = 0xFFFF).
  { intros f. unfold reg16, demo_cfg. rewrite (Z.div_small j), (Z.mod_small j) by lia.
    replace (j =? 31) with false by lia. reflexivity. }
  unfold bar_of. cbn [bar_scan]. rewrite E. reflexivity.
Defined.

(** When no device shows the AHCI controller the scan never ends: the bus
    counter is eight bits wide and wraps to zero before it reaches 256. *)
Theorem scan_diverges s fuel :
  got_it s = 0 -> (forall k, 0 <= k < 8192 -> bar_of (cfg (dev s)) k = None) ->
  checkAllBuses fuel s = None.
Proof.
  intros Hg Hn. unfold checkAllBuses.
  enough (E : forall k, 0 <= k < 8192 -> checkAllBuses_loop fuel s (k / 32) (k mod 32) = None)
    by (apply (E 0); lia).
  revert s Hg Hn. induction fuel as [|fuel IH]; intros s Hg Hn k Hk; [reflexivity|].
  destruct (scan_next fuel s k) as (s1 & Hg1 & Hc1 & E); [exact Hk|exact Hg|apply Hn; lia|].
  rewrite E. apply IH; [exact Hg1|rewrite Hc1; exact Hn|zdiv].
Qed.

Lemma scan_diverges_witness :
  checkAllBuses (Z.to_nat 1000000) (demo_scan (fun _ _ _ _ => 0xFFFFFFFF)) = None.
Proof.
  apply scan_diverges; [reflexivity|]. intros k Hk. reflexivity.
Defined.

(** ** The probe *)

Definition drive_name (p : hba_port_t) : String.string :=
  if decide (ssts p mod 16 = 0 \/ ssts p / 256 mod 16 = 0) then "No"
  else if sig p =? 0xEB140101 then "SATAPI"
  else if sig p =? 0xC33C0101 then "SEMB"
  else if sig p =? 0x96690101 then "PM" else "SATA".

Definition drive_msg (p : hba_port_t) (i : Z) : msg :=
  (String.append (drive_name p) " drive found at port %d\n", [i]).

Lemma probe_msg_spec p i : probe_msg (check_type p) i = drive_msg p i.
Proof.
  unfold probe_msg, check_type, drive_msg, drive_name.
  change 0x0F with (2 ^ 4 - 1). rewrite shiftr_land_ones, land_ones_mod by lia.
  change (2 ^ 4) with 16. change (2 ^ 8) with 256.
  rewrite !u8_small by zdiv.
  destruct (Z.eqb_spec (ssts p mod 16) 0); [rewrite decide_True by tauto; reflexivity|].
  destruct (Z.eqb_spec (ssts p / 256 mod 16) 0); [rewrite decide_True by tauto; reflexivity|].
  rewrite decide_False by tauto.
  unfold SATA_SIG_ATAPI, SATA_SIG_SEMB, SATA_SIG_PM.
  destruct (sig p =? 0xEB140101); [reflexivity|].
  destruct (sig p =? 0xC33C0101); [reflexivity|].
  destruct (sig p =? 0x96690101); reflexivity.
Qed.

(** [probe_port] reports each implemented port once, in port order, with
    the kind of drive its status and signature registers show. *)
Theorem probe_port_reports pi ports :
  0 <= pi < 2 ^ 32 ->
  probe_port pi ports =
  (fun i => drive_msg (ports i) i) <$> filter (fun i => Z.testbit pi i = true) (seqZ 0 32).
Proof.
  intros Hpi. unfold probe_port. rewrite u32_small by exact Hpi.
  assert (E : forall n i, 0 <= i ->
    probe_loop n (Z.shiftr pi i) i ports =
    (fun i => drive_msg (ports i) i) <$> filter (fun i => Z.testbit pi i = true) (seqZ i (Z.of_nat n))).
  { induction n as [|n IH]; intros i Hi; [reflexivity|].
    cbn [probe_loop]. rewrite Z.shiftr_shiftr, IH by lia.
    rewrite (seqZ_cons i) by lia. replace (Z.succ i) with (i + 1) by lia. replace (Z.pred (Z.of_nat (S n))) with (Z.of_nat n) by lia.
    rewrite filter_cons, probe_msg_spec.
    pose proof (land_ones_mod (Z.shiftr pi i) 1 ltac:(lia)) as E1. change (2 ^ 1 - 1) with 1 in E1.
    change (2 ^ 1) with 2 in E1. rewrite E1, <- Z.bit0_mod, Z.shiftr_spec by lia.
    replace (0 + i) with i by lia.
    destruct (Z.testbit pi i); reflexivity. }
  rewrite <- (Z.shiftr_0_r pi) at 1. apply (E 32%nat 0). lia.
Qed.

Lemma probe_port_reports_witness :
  let ports := fun i => mk_port (if i =? 1 then 0xEB140101 else 0x101) 0x123 in
  probe_port 7 ports =
  (fun i => drive_msg (ports i) i) <$> filter (fun i => Z.testbit 7 i = true) (seqZ 0 32).
Proof. intros ports. apply (probe_port_reports 7 ports). lia. Defined.
