(* ===== verification/Ahci.v ===== *)
(** * AHCI ports

    [start_cmd], [stop_cmd] and [port_rebase] of [sys/pci.c]: the command engine of
    a port is stopped, its command list, received-FIS area and command tables are
    placed and cleared, and the engine is started again.  The registers of the port
    are volatile and belong to the controller: the code is written against the class
    [HbaPort], and its theorems use the register behaviour of the AHCI
    specification. *)

From stdpp Require Import base gmap list numbers.
From Stdlib Require Import ZArith Lia.
From S2P Require Import Prelude KLib.

Definition HBA_PxCMD_ST : Z := 1.
Definition HBA_PxCMD_FRE : Z := Z.shiftl 1 4.
Definition HBA_PxCMD_FR : Z := Z.shiftl 1 14.
Definition HBA_PxCMD_CR : Z := Z.shiftl 1 15.
Definition AHCI_BASE : Z := 0xfebf1000.

(** Size and fields of a command header. *)
Definition CMD_HEADER : Z := 32.
Definition HDR_prdtl : Z := 2.
Definition HDR_ctba : Z := 8.

(** The volatile registers of a port; a load may change the state of the device. *)
Class HbaPort (D : Type) := {
  ld_cmd : D -> Z * D; st_cmd : D -> Z -> D;
  ld_clb : D -> Z * D; st_clb : D -> Z -> D;
  ld_fb : D -> Z * D; st_fb : D -> Z -> D }.

Section Port.
Context {D : Type} `{HbaPort D}.

(** [port->cmd |= v;] and [port->cmd &= ~v;] *)
Definition or_cmd (d : D) (v : Z) : D := let '(c, d) := ld_cmd d in st_cmd d (u32 (Z.lor c v)).
Definition nand_cmd (d : D) (v : Z) : D :=
  let '(c, d) := ld_cmd d in st_cmd d (u32 (Z.land c (Z.lnot v))).

(** [while (port->cmd & HBA_PxCMD_CR);] *)
Fixpoint wait_cr (fuel : nat) (d : D) : option D :=
  match fuel with
  | O => None
  | S f => let '(c, d) := ld_cmd d in if Z.land c HBA_PxCMD_CR =? 0 then Some d else wait_cr f d
  end.

Definition start_cmd (fuel : nat) (d : D) : option D :=
  d ← wait_cr fuel d;
  Some (or_cmd (or_cmd d HBA_PxCMD_FRE) HBA_PxCMD_ST).

(** The endless loop of [stop_cmd], which is left when both bits were seen clear. *)
Fixpoint wait_fr_cr (fuel : nat) (d : D) : option D :=
  match fuel with
  | O => None
  | S f =>
      let '(c, d) := ld_cmd d in
      if negb (Z.land c HBA_PxCMD_FR =? 0) then wait_fr_cr f d
      else
        let '(c, d) := ld_cmd d in
        if negb (Z.land c HBA_PxCMD_CR =? 0) then wait_fr_cr f d else Some d
  end.

Definition stop_cmd (fuel : nat) (d : D) : option D :=
  d ← wait_fr_cr fuel (nand_cmd d HBA_PxCMD_ST);
  Some (nand_cmd d HBA_PxCMD_FRE).

(** The loop over the command headers. *)
Fixpoint rebase_loop (n : nat) (m : mem) (cmdheader portno i : Z) : mem :=
  match n with
  | O => m
  | S n =>
      let h := cmdheader + CMD_HEADER * i in
      let m := wr16 m (h + HDR_prdtl) 8 in
      let ctba := u32 (AHCI_BASE + Z.shiftl 40 10 + Z.shiftl portno 13 + Z.shiftl i 8) in
      let m := wr64 m (h + HDR_ctba) ctba in
      let m := memset m (rd64 m (h + HDR_ctba)) 0 256 in
      rebase_loop n m cmdheader portno (i + 1)
  end.

Definition port_rebase (fuel : nat) (m : mem) (d : D) (portno : Z) : option (mem * D) :=
  d ← stop_cmd fuel d;
  let d := st_clb d (u32 (AHCI_BASE + Z.shiftl portno 10)) in
  let '(clb, d) := ld_clb d in
  let m := memset m clb 0 1024 in
  let d := st_fb d (u32 (AHCI_BASE + Z.shiftl 32 10 + Z.shiftl portno 8)) in
  let '(fb, d) := ld_fb d in
  let m := memset m fb 0 256 in
  let '(cmdheader, d) := ld_clb d in
  let m := rebase_loop 32 m cmdheader portno 0 in
  d ← start_cmd fuel d;
  Some (m, d).

End Port.

(** ** The registers of the specification *)

(** FR and CR are read-only status bits: CR follows ST and FR follows FRE, [lag]
    loads of the register after the last store.  The base registers hold what was
    stored, with the low 10 and 8 bits clear. *)
Record hba := mk_hba { h_cmd : Z; h_lag : nat; h_clb : Z; h_fb : Z }.

Definition status (st fre : bool) (c : Z) : Z :=
  let c := Z.ldiff c (Z.lor HBA_PxCMD_FR HBA_PxCMD_CR) in
  Z.lor c (Z.lor (if fre then HBA_PxCMD_FR else 0) (if st then HBA_PxCMD_CR else 0)).

Definition settle (c : Z) : Z := status (Z.testbit c 0) (Z.testbit c 4) c.

Section Hba.
Context (lag : nat).

Definition hba_port : HbaPort hba := {|
  ld_cmd d := (h_cmd d, match h_lag d with
                        | O => mk_hba (settle (h_cmd d)) O (h_clb d) (h_fb d)
                        | S l => mk_hba (h_cmd d) l (h_clb d) (h_fb d)
                        end);
  st_cmd d v := mk_hba (status (Z.testbit (h_cmd d) 15) (Z.testbit (h_cmd d) 14) v) lag (h_clb d) (h_fb d);
  ld_clb d := (h_clb d, d);
  st_clb d v := mk_hba (h_cmd d) (h_lag d) (v - v mod 2 ^ 10) (h_fb d);
  ld_fb d := (h_fb d, d);
  st_fb d v := mk_hba (h_cmd d) (h_lag d) (h_clb d) (v - v mod 2 ^ 8) |}.

(** *** Bits of the command register *)

Lemma tb_bit n i : 0 <= n -> 0 <= i -> Z.testbit (Z.shiftl 1 n) i = bool_decide (i = n).
Proof.
  intros Hn Hi. rewrite Z.shiftl_spec by lia. case_bool_decide as Hd.
  - subst. rewrite Z.sub_diag. reflexivity.
  - destruct (decide (i < n)); [apply Z.testbit_neg_r; lia|]. apply Z.bits_above_log2; [lia|]. cbn. lia.
Qed.

Lemma land_bit c n : 0 <= n -> (Z.land c (Z.shiftl 1 n) =? 0) = negb (Z.testbit c n).
Proof.
  intros Hn. destruct (Z.testbit c n) eqn:E; cbn [negb].
  - apply Z.eqb_neq. intros H. apply (f_equal (fun x => Z.testbit x n)) in H.
    rewrite Z.land_spec, E, tb_bit, bool_decide_eq_true_2, Z.bits_0 in H by lia. discriminate H.
  - apply Z.eqb_eq. apply Z.bits_inj'. intros i Hi. rewrite Z.land_spec, tb_bit, Z.bits_0 by lia.
    case_bool_decide as Hd; [subst; rewrite E; reflexivity|apply andb_false_r].
Qed.

Lemma tb_u32 x i : 0 <= i < 32 -> Z.testbit (u32 x) i = Z.testbit x i.
Proof. intros. apply Z.mod_pow2_bits_low. lia. Qed.

(** The four bits that matter: ST, FRE, FR, CR. *)
Definition cmd_bits (c : Z) : bool * bool * bool * bool :=
  (Z.testbit c 0, Z.testbit c 4, Z.testbit c 14, Z.testbit c 15).

Local Ltac bits :=
  rewrite ?tb_u32, ?Z.lor_spec, ?Z.ldiff_spec, ?Z.land_spec, ?Z.lnot_spec, ?Z.lor_spec by lia;
  repeat match goal with
  | |- context [Z.testbit HBA_PxCMD_ST ?i] =>
      let v := eval vm_compute in (Z.testbit HBA_PxCMD_ST i) in change (Z.testbit HBA_PxCMD_ST i) with v
  | |- context [Z.testbit HBA_PxCMD_FRE ?i] =>
      let v := eval vm_compute in (Z.testbit HBA_PxCMD_FRE i) in change (Z.testbit HBA_PxCMD_FRE i) with v
  | |- context [Z.testbit HBA_PxCMD_FR ?i] =>
      let v := eval vm_compute in (Z.testbit HBA_PxCMD_FR i) in change (Z.testbit HBA_PxCMD_FR i) with v
  | |- context [Z.testbit HBA_PxCMD_CR ?i] =>
      let v := eval vm_compute in (Z.testbit HBA_PxCMD_CR i) in change (Z.testbit HBA_PxCMD_CR i) with v
  end; rewrite ?Z.bits_0; cbn [andb orb negb]; rewrite ?andb_true_r, ?andb_false_r, ?orb_false_r, ?orb_true_r.

Lemma status_bits st fre c : cmd_bits (status st fre c) = (Z.testbit c 0, Z.testbit c 4, fre, st).
Proof.
  unfold cmd_bits, status. destruct st, fre; bits; reflexivity.
Qed.

Lemma settle_bits c : cmd_bits (settle c) = (Z.testbit c 0, Z.testbit c 4, Z.testbit c 4, Z.testbit c 0).
Proof. apply status_bits. Qed.

(** *** Loads and stores *)

#[local] Existing Instance hba_port.

Definition load (d : hba) : hba := (ld_cmd d).2.

Lemma ld_cmd_eq d : ld_cmd d = (h_cmd d, load d).
Proof. unfold load. cbn. reflexivity. Qed.

Lemma load_base d : h_clb (load d) = h_clb d /\ h_fb (load d) = h_fb d.
Proof. unfold load. cbn. destruct (h_lag d); split; reflexivity. Qed.

Lemma load_bits d s f r c :
  cmd_bits (h_cmd d) = (s, f, r, c) ->
  cmd_bits (h_cmd (load d)) = match h_lag d with O => (s, f, f, s) | S _ => (s, f, r, c) end.
Proof.
  intros Hb. unfold load. cbn. destruct (h_lag d); cbn [h_cmd]; [|exact Hb].
  rewrite settle_bits. unfold cmd_bits in Hb. congruence.
Qed.

(** A read-modify-write changes the bit it names; the status bits stay. *)
Definition rmw (d d' : hba) (g : bool * bool * bool * bool -> bool * bool * bool * bool) : Prop :=
  cmd_bits (h_cmd d') = g (cmd_bits (h_cmd (load d))) /\ h_clb d' = h_clb d /\ h_fb d' = h_fb d.

Lemma store_rmw d v g (b0 b4 : bool) :
  Z.testbit v 0 = b0 -> Z.testbit v 4 = b4 ->
  (forall r c, g (Z.testbit (h_cmd (load d)) 0, Z.testbit (h_cmd (load d)) 4, r, c) = (b0, b4, r, c)) ->
  rmw d (st_cmd (load d) v) g.
Proof.
  intros H0 H4 Hg. destruct (load_base d) as [E1 E2]. unfold rmw. cbn [st_cmd hba_port h_cmd h_clb h_fb].
  rewrite status_bits, H0, H4. split; [|split; assumption].
  unfold cmd_bits. rewrite Hg. reflexivity.
Qed.

Lemma load_ctl d : Z.testbit (h_cmd (load d)) 0 = Z.testbit (h_cmd d) 0 /\ Z.testbit (h_cmd (load d)) 4 = Z.testbit (h_cmd d) 4.
Proof.
  pose proof (load_bits d _ _ _ _ eq_refl) as E. destruct (h_lag d); unfold cmd_bits in E; split; congruence.
Qed.

Local Ltac rmw :=
  unfold or_cmd, nand_cmd; rewrite ld_cmd_eq;
  match goal with d : hba |- _ =>
    let E0 := fresh in let E4 := fresh in destruct (load_ctl d) as [E0 E4];
    eapply store_rmw; [bits; reflexivity|bits; reflexivity|]; intros; rewrite ?E0, ?E4; reflexivity
  end.

Lemma clear_st d : rmw d (nand_cmd d HBA_PxCMD_ST) (fun '(s, f, r, c) => (false, f, r, c)).
Proof. rmw. Qed.

Lemma clear_fre d : rmw d (nand_cmd d HBA_PxCMD_FRE) (fun '(s, f, r, c) => (s, false, r, c)).
Proof. rmw. Qed.

Lemma set_fre d : rmw d (or_cmd d HBA_PxCMD_FRE) (fun '(s, f, r, c) => (s, true, r, c)).
Proof. rmw. Qed.

Lemma set_st d : rmw d (or_cmd d HBA_PxCMD_ST) (fun '(s, f, r, c) => (true, f, r, c)).
Proof. rmw. Qed.

Lemma fr_test c : (Z.land c HBA_PxCMD_FR =? 0) = negb (Z.testbit c 14).
Proof. apply land_bit. lia. Qed.

Lemma cr_test c : (Z.land c HBA_PxCMD_CR =? 0) = negb (Z.testbit c 15).
Proof. apply land_bit. lia. Qed.

(** *** The command engine *)

Definition same_base (d d' : hba) : Prop := h_clb d' = h_clb d /\ h_fb d' = h_fb d.

#[local] Instance same_base_preorder : PreOrder same_base.
Proof. split; [intros d; split; reflexivity|]. intros a b c [] []. split; congruence. Qed.

(** With both engines told to stop, the wait ends as soon as the last lag is over. *)
Lemma wait_stops n fuel d c :
  cmd_bits (h_cmd d) = (false, false, false, c) -> (h_lag d <= n)%nat -> (n + 2 <= fuel)%nat ->
  exists d', wait_fr_cr fuel d = Some d' /\ cmd_bits (h_cmd d') = (false, false, false, false) /\ same_base d d'.
Proof.
  revert fuel d c. induction n as [|n IH]; intros [|f] d c Hb Hl Hf; try lia; cbn [wait_fr_cr];
    rewrite ld_cmd_eq, fr_test; pose proof (load_bits d _ _ _ _ Hb) as B1;
    pose proof (load_base d) as S1; set (d1 := load d) in *;
    (replace (Z.testbit (h_cmd d) 14) with false by (unfold cmd_bits in Hb; congruence)); cbn [negb];
    rewrite ld_cmd_eq, cr_test, negb_involutive.
  - destruct (h_lag d) eqn:El; [|lia]. replace (Z.testbit (h_cmd d1) 15) with false by (unfold cmd_bits in B1; congruence).
    exists (load d1). split; [reflexivity|]. pose proof (load_bits d1 _ _ _ _ B1) as B2.
    split; [destruct (h_lag d1); exact B2|]. etransitivity; [exact S1|apply load_base].
  - destruct (Z.testbit (h_cmd d1) 15) eqn:E15.
    + assert (exists c', cmd_bits (h_cmd d1) = (false, false, false, c')) as [c' B1'] by (destruct (h_lag d); eauto).
      assert (exists c', cmd_bits (h_cmd (load d1)) = (false, false, false, c')) as [c'' B2]
        by (rewrite (load_bits _ _ _ _ _ B1'); destruct (h_lag d1); eauto).
      destruct (IH f (load d1) c'' B2) as (d' & E & B & S);
        [unfold d1, load; cbn; repeat (case_match; cbn in *; try lia)|lia|].
      exists d'. split; [exact E|]. split; [exact B|]. etransitivity; [exact S1|]. etransitivity; [apply load_base|exact S].
    + exists (load d1). split; [reflexivity|]. split; [|etransitivity; [exact S1|apply load_base]].
      assert (B1' : cmd_bits (h_cmd d1) = (false, false, false, false)) by (destruct (h_lag d); unfold cmd_bits in *; congruence).
      rewrite (load_bits _ _ _ _ _ B1'). destruct (h_lag d1); reflexivity.
Qed.

Lemma stop_spec fuel d s c :
  cmd_bits (h_cmd d) = (s, false, false, c) -> (lag + 2 <= fuel)%nat ->
  exists d', stop_cmd fuel d = Some d' /\ cmd_bits (h_cmd d') = (false, false, false, false) /\ same_base d d'.
Proof.
  intros Hb Hf. unfold stop_cmd. destruct (clear_st d) as (B1 & S1). set (d1 := nand_cmd d _) in *.
  rewrite (load_bits _ _ _ _ _ Hb) in B1.
  assert (exists c', cmd_bits (h_cmd d1) = (false, false, false, c')) as [c' B1'] by (destruct (h_lag d); eauto).
  destruct (wait_stops lag fuel d1 c' B1') as (d2 & E2 & B2 & S2);
    [unfold d1, nand_cmd; rewrite ld_cmd_eq; reflexivity|exact Hf|].
  rewrite E2. cbn [mbind option_bind]. eexists. split; [reflexivity|].
  destruct (clear_fre d2) as (B3 & S3). split; [|etransitivity; [exact S1|etransitivity; [exact S2|exact S3]]].
  rewrite B3, (load_bits _ _ _ _ _ B2). destruct (h_lag d2); reflexivity.
Qed.

(** FR follows FRE, which [stop_cmd] clears only after its wait. *)
Lemma wait_hangs fuel d s c :
  cmd_bits (h_cmd d) = (s, true, true, c) -> wait_fr_cr fuel d = None.
Proof.
  revert d s c. induction fuel as [|f IH]; intros d s c Hb; cbn [wait_fr_cr]; [reflexivity|].
  rewrite ld_cmd_eq, fr_test. replace (Z.testbit (h_cmd d) 14) with true by (unfold cmd_bits in Hb; congruence).
  cbn [negb]. pose proof (load_bits _ _ _ _ _ Hb) as B. destruct (h_lag d); eapply IH; exact B.
Qed.

Lemma stop_hangs fuel d s c : cmd_bits (h_cmd d) = (s, true, true, c) -> stop_cmd fuel d = None.
Proof.
  intros Hb. unfold stop_cmd. destruct (clear_st d) as (B1 & _). rewrite (load_bits _ _ _ _ _ Hb) in B1.
  destruct (h_lag d); rewrite (wait_hangs _ _ _ _ B1); reflexivity.
Qed.

Lemma start_engine_spec fuel d :
  cmd_bits (h_cmd d) = (false, false, false, false) -> (1 <= fuel)%nat ->
  exists d', start_cmd fuel d = Some d' /\ Z.testbit (h_cmd d') 0 = true /\ Z.testbit (h_cmd d') 4 = true /\ same_base d d'.
Proof.
  intros Hb Hf. unfold start_cmd. destruct fuel as [|fuel]; [lia|]. cbn [wait_cr]. rewrite ld_cmd_eq, cr_test.
  replace (Z.testbit (h_cmd d) 15) with false by (unfold cmd_bits in Hb; congruence). cbn [negb mbind option_bind].
  pose proof (load_base d) as S0. set (d0 := load d) in *.
  destruct (set_fre d0) as (B1 & S1). set (d1 := or_cmd d0 _) in *. destruct (set_st d1) as (B2 & S2).
  eexists. split; [reflexivity|]. set (d2 := or_cmd d1 _) in *. destruct (load_ctl d1) as [_ E4].
  destruct (cmd_bits (h_cmd (load d0))) as [[[? ?] ?] ?] in B1. unfold cmd_bits in B1, B2.
  split; [congruence|]. split; [congruence|]. etransitivity; [exact S0|]. etransitivity; [exact S1|exact S2].
Qed.

End Hba.

(** ** The memory of a port *)

(** The command list, the FIS area and command table [i] of port [p]. *)
Definition list_at (p : Z) : Z := AHCI_BASE + 1024 * p.
Definition fis_at (p : Z) : Z := AHCI_BASE + 32 * 1024 + 256 * p.
Definition table_at (p i : Z) : Z := AHCI_BASE + 40 * 1024 + 8192 * p + 256 * i.

Definition in_port (p a : Z) : Prop :=
  list_at p <= a < list_at p + 1024 \/ fis_at p <= a < fis_at p + 256 \/ table_at p 0 <= a < table_at p 32.

Lemma ports_apart p q a : 0 <= p < 32 -> 0 <= q < 32 -> p <> q -> in_port p a -> ~ in_port q a.
Proof. unfold in_port, list_at, fis_at, table_at. lia. Qed.

(** The bytes that the loop stores in header [i]. *)
Definition hdr_field (h i a : Z) : Prop :=
  h + 32 * i + 2 <= a < h + 32 * i + 4 \/ h + 32 * i + 8 <= a < h + 32 * i + 16.

(** One round of the loop. *)
Definition rebase_step (m : mem) (p i : Z) : mem :=
  memset (wr64 (wr16 m (list_at p + 32 * i + 2) 8) (list_at p + 32 * i + 8) (table_at p i)) (table_at p i) 0 256.

Lemma rebase_loop_step n m p i :
  0 <= p < 32 -> 0 <= i < 32 ->
  rebase_loop (S n) m (list_at p) p i = rebase_loop n (rebase_step m p i) (list_at p) p (i + 1).
Proof.
  intros Hp Hi. cbn [rebase_loop]. unfold rebase_step, CMD_HEADER, HDR_prdtl, HDR_ctba.
  replace (u32 (AHCI_BASE + Z.shiftl 40 10 + Z.shiftl p 13 + Z.shiftl i 8)) with (table_at p i);
    [rewrite rd64_wr64_eq, u64_small; [reflexivity|unfold table_at, AHCI_BASE; lia]|].
  rewrite !Z.shiftl_mul_pow2 by lia. change (2 ^ 10) with 1024. change (2 ^ 13) with 8192. change (2 ^ 8) with 256.
  rewrite u32_small; unfold table_at, AHCI_BASE; lia.
Qed.

Lemma step_frame m p i a :
  0 <= p < 32 -> 0 <= i < 32 -> ~ hdr_field (list_at p) i a -> ~ table_at p i <= a < table_at p (i + 1) ->
  rd8 (rebase_step m p i) a = rd8 m a.
Proof.
  intros Hp Hi Hh Ht. unfold rebase_step, hdr_field in *.
  rewrite rd8_memset, decide_False by (unfold table_at in *; lia). rewrite rd8_wr64_ne, rd8_wr16_ne by lia. reflexivity.
Qed.

Lemma rebase_frame n m p i a :
  0 <= p < 32 -> 0 <= i -> i + Z.of_nat n <= 32 ->
  (forall j, i <= j < i + Z.of_nat n -> ~ hdr_field (list_at p) j a /\ ~ table_at p j <= a < table_at p (j + 1)) ->
  rd8 (rebase_loop n m (list_at p) p i) a = rd8 m a.
Proof.
  revert m i. induction n as [|n IH]; intros m i Hp Hi Hn H; [reflexivity|].
  rewrite rebase_loop_step, IH by (lia || intros; apply H; lia).
  destruct (H i) as [H1 H2]; [lia|]. apply step_frame; auto; lia.
Qed.

(** What header [j] and its table hold afterwards. *)
Lemma rebase_entry n m p i j :
  0 <= p < 32 -> 0 <= i -> i + Z.of_nat n <= 32 -> i <= j < i + Z.of_nat n ->
  let m' := rebase_loop n m (list_at p) p i in
  rd16 m' (list_at p + 32 * j + 2) = 8 /\ rd64 m' (list_at p + 32 * j + 8) = table_at p j
  /\ forall a, table_at p j <= a < table_at p (j + 1) -> rd8 m' a = 0.
Proof.
  revert m i. induction n as [|n IH]; intros m i Hp Hi Hn Hj; [lia|]. cbv zeta.
  rewrite rebase_loop_step by lia. destruct (decide (i = j)) as [->|]; [|apply IH; lia].
  assert (F : forall a, hdr_field (list_at p) j a \/ table_at p j <= a < table_at p (j + 1) ->
    rd8 (rebase_loop n (rebase_step m p j) (list_at p) p (j + 1)) a = rd8 (rebase_step m p j) a).
  { intros a Ha. apply rebase_frame; [lia|lia|lia|]. intros k Hk. unfold hdr_field, list_at, table_at in *. lia. }
  split; [|split].
  - rewrite (rd16_ext (rebase_step m p j)) by (intros a Ha; apply F; left; unfold hdr_field; lia).
    unfold rebase_step. rewrite (rd16_ext (wr64 (wr16 m (list_at p + 32 * j + 2) 8) (list_at p + 32 * j + 8) (table_at p j)))
      by (intros a Ha; rewrite rd8_memset, decide_False by (unfold list_at, table_at in *; lia); reflexivity).
    rewrite (rd16_ext (wr16 m (list_at p + 32 * j + 2) 8)) by (intros a Ha; apply rd8_wr64_ne; lia).
    apply rd16_wr16_eq.
  - rewrite (rd64_ext (rebase_step m p j)) by (intros a Ha; apply F; left; unfold hdr_field; lia).
    unfold rebase_step. rewrite (rd64_ext (wr64 (wr16 m (list_at p + 32 * j + 2) 8) (list_at p + 32 * j + 8) (table_at p j)))
      by (intros a Ha; rewrite rd8_memset, decide_False by (unfold list_at, table_at in *; lia); reflexivity).
    rewrite rd64_wr64_eq. apply u64_small. unfold table_at, AHCI_BASE. lia.
  - intros a Ha. rewrite F by (right; exact Ha). unfold rebase_step.
    rewrite rd8_memset, decide_True by (unfold table_at in *; lia). reflexivity.
Qed.

(** The command list, the FIS area and the tables of port [p] are set up in [m']. *)
Record port_ready (m' : mem) (p : Z) : Prop := {
  pr_hdr : forall i, 0 <= i < 32 -> rd16 m' (list_at p + 32 * i + 2) = 8 /\ rd64 m' (list_at p + 32 * i + 8) = table_at p i;
  pr_rest : forall a, list_at p <= a < list_at p + 1024 -> (forall i, ~ hdr_field (list_at p) i a) -> rd8 m' a = 0;
  pr_fis : forall a, fis_at p <= a < fis_at p + 256 -> rd8 m' a = 0;
  pr_table : forall a, table_at p 0 <= a < table_at p 32 -> rd8 m' a = 0 }.

#[local] Opaque rebase_loop memset.

(** The memory that [port_rebase] leaves. *)
Definition rebased (m : mem) (p : Z) : mem :=
  rebase_loop 32 (memset (memset m (list_at p) 0 1024) (fis_at p) 0 256) (list_at p) p 0.

Lemma rebased_eq m p :
  rebase_loop 32 (memset (memset m (list_at p) 0 1024) (fis_at p) 0 256) (list_at p) p 0 = rebased m p.
Proof. unfold rebased. reflexivity. Qed.

Lemma rebased_ready m p : 0 <= p < 32 -> port_ready (rebased m p) p.
Proof.
  intros Hp. unfold rebased. set (m1 := memset _ (fis_at p) 0 256).
  assert (Z1 : forall a, list_at p <= a < list_at p + 1024 \/ fis_at p <= a < fis_at p + 256 -> rd8 m1 a = 0).
  { intros a Ha. unfold m1. rewrite rd8_memset. case_decide; [reflexivity|].
    rewrite rd8_memset, decide_True by tauto. reflexivity. }
  constructor.
  - intros i Hi. destruct (rebase_entry 32 m1 p 0 i) as (H1 & H2 & _); [lia..|]. split; assumption.
  - intros a Ha Hf. rewrite rebase_frame; [auto|lia..|].
    intros j Hj. split; [apply Hf|]. unfold list_at, table_at in *. lia.
  - intros a Ha. rewrite rebase_frame; [auto|lia..|].
    intros j Hj. unfold hdr_field, list_at, fis_at, table_at in *. lia.
  - intros a Ha. destruct (rebase_entry 32 m1 p 0 ((a - table_at p 0) / 256)) as (_ & _ & H);
      [lia|lia|lia|unfold table_at in *; zdiv|]. apply H. unfold table_at in *. zdiv.
Qed.

Lemma rebased_frame m p a : 0 <= p < 32 -> ~ in_port p a -> rd8 (rebased m p) a = rd8 m a.
Proof.
  intros Hp Ha. unfold rebased. rewrite rebase_frame; [|lia..|].
  - rewrite !rd8_memset, !decide_False by (unfold in_port in Ha; lia). reflexivity.
  - intros j Hj. unfold in_port, hdr_field, list_at, fis_at, table_at in *. lia.
Qed.

Lemma port_ready_ext m m' p : (forall a, in_port p a -> rd8 m' a = rd8 m a) -> port_ready m p -> port_ready m' p.
Proof.
  intros H [P1 P2 P3 P4]. constructor.
  - intros i Hi. destruct (P1 i Hi) as [E1 E2].
    split; (etransitivity; [|eassumption]); [apply rd16_ext|apply rd64_ext]; intros a Ha; apply H; left; lia.
  - intros a Ha Hf. rewrite H by (left; exact Ha). auto.
  - intros a Ha. rewrite H by (right; left; exact Ha). auto.
  - intros a Ha. rewrite H by (right; right; exact Ha). auto.
Qed.

Lemma base_regs p : 0 <= p < 32 ->
  (let v := u32 (AHCI_BASE + Z.shiftl p 10) in v - v mod 2 ^ 10 = list_at p) /\
  (let v := u32 (AHCI_BASE + Z.shiftl 32 10 + Z.shiftl p 8) in v - v mod 2 ^ 8 = fis_at p).
Proof.
  intros Hp. cbv zeta. rewrite !Z.shiftl_mul_pow2 by lia. unfold list_at, fis_at, AHCI_BASE.
  rewrite !u32_small by lia. split; zdiv.
Qed.

(** ** Claim *)

(** C34: On a controller whose status bits follow the control bits with any delay,
    [port_rebase] of a port from 0 to 31 whose receive engine is off returns: the
    command list and FIS registers hold the port's own areas, all 32 headers have 8
    descriptors and point to their own cleared tables, the rest of the areas is
    clear, memory outside them and the areas of every other port keep their values,
    and both engines are on.  While the receive engine of a port is on, it never
    returns, since [stop_cmd] waits for the engine's status bit before it switches
    the engine off. *)
Theorem port_rebase_sets_up lag fuel m d p s f c :
  0 <= p < 32 -> (lag + 2 <= fuel)%nat -> cmd_bits (h_cmd d) = (s, f, f, c) ->
  let r := @port_rebase hba (hba_port lag) fuel m d p in
  if f then r = None
  else exists m' d', r = Some (m', d') /\ h_clb d' = list_at p /\ h_fb d' = fis_at p
    /\ Z.testbit (h_cmd d') 0 = true /\ Z.testbit (h_cmd d') 4 = true
    /\ port_ready m' p /\ (forall q, 0 <= q < 32 -> q <> p -> port_ready m q -> port_ready m' q)
    /\ forall a, ~ in_port p a -> rd8 m' a = rd8 m a.
Proof.
  intros Hp Hf Hb. cbv zeta. unfold port_rebase. destruct f; [rewrite (stop_hangs _ _ _ _ _ Hb); reflexivity|].
  destruct (stop_spec _ _ _ _ _ Hb Hf) as (d1 & E1 & B1 & _). rewrite E1. cbn [mbind option_bind].
  cbn [st_clb ld_clb st_fb ld_fb hba_port h_cmd h_lag h_clb h_fb]. destruct (base_regs p Hp) as [R1 R2].
  rewrite R1, R2, rebased_eq. set (d2 := mk_hba _ _ _ _).
  destruct (start_engine_spec lag fuel d2 B1 ltac:(lia)) as (d3 & E3 & T0 & T4 & S3 & S4). rewrite E3.
  eexists _, d3. split; [reflexivity|]. split; [exact S3|]. split; [exact S4|]. split; [exact T0|]. split; [exact T4|].
  split; [apply rebased_ready, Hp|]. split.
  - intros q Hq Hne. apply port_ready_ext. intros a Ha. apply rebased_frame; [exact Hp|].
    apply (ports_apart q p); auto.
  - intros a Ha. apply rebased_frame; assumption.
Qed.

Lemma port_rebase_sets_up_witness :
  exists m' d', @port_rebase hba (hba_port 3) 5 ∅ (mk_hba (2 ^ 15 + 1) 2 0 0) 4 = Some (m', d') /\ port_ready m' 4.
Proof.
  destruct (port_rebase_sets_up 3 5 ∅ (mk_hba (2 ^ 15 + 1) 2 0 0) 4 true false true) as (m' & d' & E & _ & _ & _ & _ & H & _);
    [lia|lia|reflexivity|]. exists m', d'. split; assumption.
Defined.
