(* ===== verification/Tarfs.v ===== *)
(** * The archive file system

    [sys/walk_tarfs.c] and [sys/tarfs_ops.c]: the archive that is linked into the
    kernel image, the table [tarfs_fs] built from it at boot, and the operations
    on files and directories.  An address stands for the byte of memory it maps
    to; the addresses of the linked objects are the fields of [tarfs_layout]. *)

From stdpp Require Import base gmap list numbers.
From Stdlib Require Import ZArith Lia.
From Stdlib Require Ascii String.
From S2P Require Import Prelude KLib Paging BootPaging Alloc Utils Keyboard.
Import (notations) String.

Definition DIRECTORY : Z := 5.
Definition FILE_TYPE : Z := 0.

(** [struct posix_header_ustar]: name at 0, size at 124, typeflag at 156. *)
Definition HDR_size : Z := 124.
Definition HDR_typeflag : Z := 156.

(** [tarfs_entry], [dentry], [inode] and [FILE]. *)
Definition SIZEOF_tarfs_entry : Z := 280.
Definition TE_size : Z := 256.
Definition TE_typeflag : Z := 260.
Definition TE_addr_hdr : Z := 264.
Definition TE_index : Z := 272.
Definition SIZEOF_dentry : Z := 272.
Definition DE_inode_entry : Z := 256.
Definition DE_d_parent : Z := 264.
Definition SIZEOF_inode : Z := 96.
Definition IN_i_size : Z := 8.
Definition IN_ref_count : Z := 16.
Definition IN_i_block_count : Z := 24.
Definition SIZEOF_FILE : Z := 336.
Definition FI_filename : Z := 8.
Definition FI_offset : Z := 316.
Definition FI_address : Z := 320.

Record tarfs_layout := mk_tarfs_layout {
  _binary_tarfs_start : Z; _binary_tarfs_end : Z;
  tarfs_fs : Z; dent : Z; ino : Z;
  slash : Z;      (** the string literal of [set_dirents] *)
  name_buf : Z;   (** the local [name] of [get_per_indx] *)
  dir_buf : Z     (** the local [dir] of [readdir] *) }.

(** Memory, the statics of [kstrtok] and the two counters. *)
Record tfs := mk_tfs { tm : mem; ttok : tok_state; num_dentries : Z; num_inodes : Z }.

Definition with_tm (s : tfs) (m : mem) : tfs := mk_tfs m (ttok s) (num_dentries s) (num_inodes s).

(** A line of output: the format and the bytes of its [%s] argument. *)
Abbreviation out := (String.string * list Z)%type.

Section Tarfs.
Context (Y : tarfs_layout).

Definition tent (i : Z) : Z := tarfs_fs Y + SIZEOF_tarfs_entry * i.
Definition dentry (i : Z) : Z := dent Y + SIZEOF_dentry * i.

(** ** [walk_tarfs.c] *)

(** [while (path) { j++; path = kstrtok(NULL, slash); }] *)
Fixpoint count_tokens (fuel : nat) (m : mem) (tok : tok_state) (path j : Z)
    : option (Z * mem * tok_state) :=
  if path =? 0 then Some (j, m, tok)
  else
    match fuel with
    | O => None
    | S f =>
        match kstrtok fuel m tok 0 (slash Y) with
        | Some (path, m, tok) => count_tokens f m tok path (u32 (j + 1))
        | None => None
        end
    end.

(** The search for the last directory before the entry; [n] is [index + 1]. *)
Fixpoint find_parent (n : nat) (m : mem) : option Z :=
  match n with
  | O => None
  | S n =>
      let index := Z.of_nat n in
      if rd32 m (tent index + TE_typeflag) =? DIRECTORY then Some (dentry index)
      else find_parent n m
  end.

Definition set_dirents (fuel : nat) (s : tfs) (i : Z) : option tfs :=
  let d := dentry (num_dentries s) in
  let ind := ino Y + SIZEOF_inode * num_inodes s in
  match kstrcpy fuel (tm s) d (tent i) with
  | None => None
  | Some m =>
      let m := wr64 m (ind + IN_i_size) (s32 (rd32 m (tent i + TE_size))) in
      let m := wr32 m (ind + IN_ref_count) (-1) in
      let m := wr64 m (ind + IN_i_block_count) 0 in
      let m := wr32 m ind (num_inodes s) in
      let m := wr64 m (d + DE_inode_entry) ind in
      match kstrtok fuel m (ttok s) (tent i) (slash Y) with
      | None => None
      | Some (path, m, tok) =>
          match count_tokens fuel m tok path 0 with
          | None => None
          | Some (j, m, tok) =>
              let m :=
                if j =? 1 then wr64 m (d + DE_d_parent) 0
                else
                  match find_parent (Z.to_nat (num_dentries s)) m with
                  | Some p => wr64 m (d + DE_d_parent) p
                  | None => m
                  end in
              Some (mk_tfs m tok (num_dentries s) (num_inodes s))
          end
      end
  end.

(** The size of an archive member with its header, in [size_t]. *)
Definition member_step (size : Z) : Z :=
  if size =? 0 then 512
  else u64 (if size mod 512 =? 0 then size + 512 else size + (512 - size mod 512) + 512).

(** [test_fs] is the header of the previous iteration. *)
Fixpoint file_exists_loop (fuel : nat) (m : mem) (file test_fs tmp : Z) : option Z :=
  match fuel with
  | O => None
  | S f =>
      match kstrlen fuel m test_fs with
      | None => None
      | Some l =>
          if l =? 0 then Some 0
          else
            let test_fs := _binary_tarfs_start Y + tmp in
            match oct2dec (stoi m (test_fs + HDR_size)), kstrlen fuel m test_fs with
            | Some size, Some l =>
                if l =? 0 then Some 999
                else
                  match kstrcmp fuel m test_fs file with
                  | None => None
                  | Some c =>
                      if c =? 0 then Some (s32 (tmp + 512))
                      else file_exists_loop f m file test_fs (s32 (tmp + member_step size))
                  end
            | _, _ => None
            end
      end
  end.

Definition file_exists (fuel : nat) (m : mem) (file : Z) : option Z :=
  file_exists_loop fuel m file (_binary_tarfs_start Y) 512.

(** [while (name[len] != '/') { len--; if (len == 0) return 999; }] *)
Fixpoint back_to_slash (fuel : nat) (m : mem) (len : Z) : option (option Z) :=
  match fuel with
  | O => None
  | S f =>
      if rd8 m (name_buf Y + len) =? 47 then Some (Some len)
      else if len - 1 =? 0 then Some None
      else back_to_slash f m (len - 1)
  end.

(** [while (kstrcmp(name, tarfs_fs[i].name) != 0) i++;] *)
Fixpoint find_name (fuel : nat) (m : mem) (i : Z) : option Z :=
  match fuel with
  | O => None
  | S f =>
      match kstrcmp fuel m (name_buf Y) (tent i) with
      | None => None
      | Some c => if c =? 0 then Some i else find_name f m (s32 (i + 1))
      end
  end.

Definition get_per_indx (fuel : nat) (m : mem) (dir : Z) : option (Z * mem) :=
  match kstrlen fuel m dir with
  | None => None
  | Some len =>
      match kstrcpy fuel m (name_buf Y) dir with
      | None => None
      | Some m =>
          match back_to_slash fuel m (len - 2) with
          | None => None
          | Some None => Some (999, m)
          | Some (Some len) =>
              let m := wr8 m (name_buf Y + (len + 1)) 0 in
              match find_name fuel m 0 with Some i => Some (i, m) | None => None end
          end
      end
  end.

Definition get_per_indx_file (fuel : nat) (m : mem) (dir : Z) : option (Z * mem) :=
  match kstrlen fuel m dir with
  | None => None
  | Some len =>
      match kstrcpy fuel m (name_buf Y) dir with
      | None => None
      | Some m =>
          match back_to_slash fuel m (len - 1) with
          | None => None
          | Some None => Some (999, m)
          | Some (Some _) =>
              match find_name fuel m 0 with Some i => Some (i, m) | None => None end
          end
      end
  end.

(** The step of [init_tarfs] is computed in [uint32_t]. *)
Definition init_step (fsz : Z) : Z :=
  if fsz =? 0 then 512
  else u32 (if fsz mod 512 =? 0 then fsz + 512 else fsz + (512 - fsz mod 512) + 512).

Definition set_index (fuel : nat) (m : mem) (i : Z) : option mem :=
  let ty := s32 (rd32 m (tent i + TE_typeflag)) in
  if ty =? FILE_TYPE then
    match get_per_indx_file fuel m (tent i) with
    | Some (x, m) => Some (wr32 m (tent i + TE_index) x)
    | None => None
    end
  else if ty =? DIRECTORY then
    match get_per_indx fuel m (tent i) with
    | Some (x, m) => Some (wr32 m (tent i + TE_index) x)
    | None => None
    end
  else Some m.

Fixpoint init_tarfs_loop (fuel : nat) (s : tfs) (tar_var tmp i : Z) : option tfs :=
  match fuel with
  | O => None
  | S f =>
      if tar_var <? _binary_tarfs_end Y then
        let tar_var := _binary_tarfs_start Y + tmp in
        let m := tm s in
        match kstrlen fuel m tar_var, oct2dec (stoi m (tar_var + HDR_size)) with
        | Some l, Some sz =>
            if l =? 0 then Some s
            else
              let fsz := u32 sz in
              match kstrcpy fuel m (tent i) tar_var with
              | None => None
              | Some m =>
                  let m := wr32 m (tent i + TE_size) fsz in
                  let m := wr64 m (tent i + TE_addr_hdr) (_binary_tarfs_start Y + tmp) in
                  let m := wr32 m (tent i + TE_typeflag) (stoi m (tar_var + HDR_typeflag)) in
                  match set_index fuel m i with
                  | None => None
                  | Some m =>
                      match set_dirents fuel (with_tm s m) i with
                      | None => None
                      | Some s =>
                          init_tarfs_loop f
                            (mk_tfs (tm s) (ttok s) (u16 (num_dentries s + 1)) (u16 (num_inodes s + 1)))
                            tar_var (s32 (tmp + init_step fsz)) (u32 (i + 1))
                      end
                  end
              end
        | _, _ => None
        end
      else Some s
  end.

Definition init_tarfs (fuel : nat) (s : tfs) : option tfs :=
  init_tarfs_loop fuel s (_binary_tarfs_start Y) 0 0.

(** ** [tarfs_ops.c] *)

(** The bytes of a string, up to [fuel] of them. *)
Fixpoint rdstr (fuel : nat) (m : mem) (p : Z) : list Z :=
  match fuel with
  | O => []
  | S f => if rd8 m p =? 0 then [] else rd8 m p :: rdstr f m (p + 1)
  end.

Fixpoint opendir_loop (fuel : nat) (m : mem) (dir i : Z) : option (Z * list out) :=
  match fuel with
  | O => None
  | S f =>
      match kstrlen fuel m dir, kstrlen fuel m (tent i) with
      | Some ld, Some ln =>
          if ld =? 0 then Some (0, [])
          else if ln =? 0 then Some (0, [("\nNo such directory \n"%string, [])])
          else
            match kstrcmp fuel m (tent i) dir with
            | None => None
            | Some c =>
                if (c =? 0) && (s32 (rd32 m (tent i + TE_typeflag)) =? DIRECTORY) then
                  Some (rd64 m (tent i + TE_addr_hdr), [])
                else opendir_loop f m dir (i + 1)
            end
      | _, _ => None
      end
  end.

Definition opendir (fuel : nat) (m : mem) (dir : Z) : option (Z * list out) :=
  opendir_loop fuel m dir 0.

(** The entries without parent; [n] is [num_dentries - i]. *)
Fixpoint root_entries (n : nat) (fuel : nat) (m : mem) (i : Z) : list out :=
  match n with
  | O => []
  | S n =>
      (if rd64 m (dentry i + DE_d_parent) =? 0 then [("%s\t"%string, rdstr fuel m (dentry i))] else [])
      ++ root_entries n fuel m (i + 1)
  end.

Fixpoint readdir_loop (fuel : nat) (m : mem) (addr i len : Z) (o : list out)
    : option (Z * mem * list out) :=
  match fuel with
  | O => None
  | S f =>
      match kstrlen fuel m (tent i) with
      | None => None
      | Some l =>
          if l =? 0 then Some (i, m, o)
          else if rd64 m (tent i + TE_addr_hdr) =? addr then
            match kstrcpy fuel m (dir_buf Y) (tent i) with
            | None => None
            | Some m =>
                match kstrlen fuel m (dir_buf Y) with
                | Some len => readdir_loop f m addr (i + 1) len o
                | None => None
                end
            end
          else
            match kstrlen fuel m (dir_buf Y) with
            | None => None
            | Some n =>
                match kstrncmp fuel m (tent i) (dir_buf Y) n with
                | None => None
                | Some c =>
                    let o := if c =? 0 then o ++ [("%s\t"%string, rdstr fuel m (tent i + len))] else o in
                    readdir_loop f m addr (i + 1) len o
                end
            end
      end
  end.

Definition readdir (fuel : nat) (s : tfs) (addr : Z) : option (Z * mem * list out) :=
  let o := [("\n"%string, [])] in
  let o := if addr =? 0 then o ++ root_entries (Z.to_nat (num_dentries s)) fuel (tm s) 0 else o in
  let i := if addr =? 0 then num_dentries s else 0 in
  match readdir_loop fuel (tm s) addr i 0 o with
  | None => None
  | Some (i, m, o) => Some (rd64 m (tent i + TE_addr_hdr), m, o ++ [("\n"%string, [])])
  end.

(** Filling the [FILE] at [fd]; [inode] is an [int]. *)
Definition set_file (fuel : nat) (m : mem) (fd file inode addr : Z) : option mem :=
  match kstrcpy fuel m (fd + FI_filename) file with
  | None => None
  | Some m =>
      let m := wr64 m fd inode in
      let m := wr32 m (fd + FI_offset) 0 in
      Some (wr64 m (fd + FI_address) addr)
  end.

Fixpoint openfile_loop (fuel : nat) (m : mem) (fd file filename i : Z) : option (option mem) :=
  match fuel with
  | O => None
  | S f =>
      match kstrlen fuel m filename, kstrlen fuel m file with
      | Some lf, Some l =>
          match (if lf =? 0 then kstrncmp fuel m (tent i) file l else Some 1) with
          | None => None
          | Some c =>
              if c =? 0 then
                match set_file fuel m fd file i (rd64 m (tent i + TE_addr_hdr)) with
                | Some m => Some (Some m) | None => None
                end
              else
                match kstrlen fuel m (tent i) with
                | None => None
                | Some ln =>
                    if ln =? 0 then Some None
                    else
                      match kstrcmp fuel m (tent i + 4) filename with
                      | None => None
                      | Some c =>
                          if c =? 0 then
                            match set_file fuel m fd file (i - 1) (rd64 m (tent i + TE_addr_hdr)) with
                            | Some m => Some (Some m) | None => None
                            end
                          else openfile_loop f m fd file filename (i + 1)
                      end
                end
          end
      | _, _ => None
      end
  end.

(** The result is the [FILE] pointer or [NULL], and the output. *)
Definition openfile (fuel : nat) (s : kst) (file : Z) : option (Z * kst * list out) :=
  let '(fd, s) := kmalloc s SIZEOF_FILE in
  let filename := if u64 (file + 4) =? 0 then file else file + 4 in
  match openfile_loop fuel (kmem s) (kphys fd) file filename 0 with
  | None => None
  | Some (Some m) => Some (fd, with_mem s m, [])
  | Some None => Some (0, s, [("\n No such file \n"%string, [])])
  end.

(** The copy loop of [readfile]; [size] is the remaining count. *)
Fixpoint read_loop (size : nat) (m : mem) (tmp src i : Z) : mem * Z :=
  match size with
  | O => (m, i)
  | S n => read_loop n (wr8 m (tmp + i) (rd8 m src)) tmp (src + 1) (i + 1)
  end.

Definition readfile (fuel : nat) (k : kbd) (file_addr size buf : Z) (codes : list Z)
    : option (Z * kbd * list Z) :=
  if size <? 0 then Some (0, k, codes)
  else if file_addr =? 0 then
    match gets fuel k buf codes with
    | Some (bytes, k, codes) => Some (s32 bytes, k, codes)
    | None => None
    end
  else
    let m := kmem (kk k) in
    let address := rd64 m (kphys file_addr + FI_address) in
    match oct2dec (stoi m (kphys address + HDR_size)) with
    | None => None
    | Some file_size =>
        let size := if file_size <? size then s32 file_size else size in
        let bytes := size in
        let tmp := kphys buf in
        let '(m, i) := read_loop (Z.to_nat size) m tmp (kphys address + 512) 0 in
        let m := wr8 m (tmp + i) 0 in
        Some (bytes, with_kk k (with_mem (kk k) m), codes)
    end.

(** [fd] is an [int]; the pointer is its sign extension. *)
Definition closefile (m : mem) (fd : Z) : Z * mem :=
  if fd <? 0 then (-1, m)
  else
    let m := wr64 m (fd + FI_address) 0 in
    let m := wr64 m fd 0 in
    let m := wr32 m (fd + FI_offset) 0 in
    (1, wr8 m (fd + FI_filename) 0).

Definition close_dir (addr : Z) : Z := 1.

End Tarfs.

(** ** Archives *)

(** A member of the archive: its name, the octal digits of the size field, its
    type flag and its contents. *)
Record member := mk_member {
  mb_name : list Z; mb_digits : list Z; mb_type : Z; mb_data : list Z }.

Record member_at (m : mem) (p : Z) (e : member) : Prop := {
  ma_name : cstr m p (mb_name e);
  ma_some : mb_name e <> [];
  ma_field : seg m (p + HDR_size) (dec_chars (mb_digits e));
  ma_octal : Forall (fun d => 0 <= d < 8) (mb_digits e);
  ma_width : (length (mb_digits e) <= 12)%nat;
  ma_end : length (mb_digits e) = 12%nat \/ ~ (48 <= rd8 m (p + HDR_size + slen (mb_digits e)) <= 57);
  ma_size : of_digits 8 (mb_digits e) = slen (mb_data e);
  ma_data : seg m (p + 512) (mb_data e) }.

(** Bytes from one header to the next: contents fill whole 512-byte blocks. *)
Definition extent (e : member) : Z := 512 + (slen (mb_data e) + 511) / 512 * 512.

(** The archive ends with a header of zeros. *)
Fixpoint archive (m : mem) (p : Z) (es : list member) : Prop :=
  match es with
  | [] => rd8 m p = 0 /\ rd8 m (p + HDR_size) = 0
  | e :: es => member_at m p e /\ archive m (p + extent e) es
  end.

Definition archive_size (es : list member) : Z := foldr (fun e n => extent e + n) 0 es.

(** Offset of the contents of the first member called [s]. *)
Fixpoint find_member (s : list Z) (es : list member) (off : Z) : option Z :=
  match es with
  | [] => None
  | e :: es => if decide (mb_name e = s) then Some (off + 512) else find_member s es (off + extent e)
  end.

Lemma extent_pos e : 512 <= extent e.
Proof. unfold extent. zdiv. Qed.

Lemma archive_size_pos es : 0 <= archive_size es.
Proof.
  induction es as [|e es IH]; cbn [archive_size foldr]; [lia|].
  pose proof (extent_pos e). fold (archive_size es). lia.
Qed.

Lemma member_step_extent e : slen (mb_data e) < 2 ^ 31 -> member_step (slen (mb_data e)) = extent e.
Proof.
  intros H. unfold member_step, extent, u64. set (n := slen (mb_data e)) in *.
  assert (0 <= n) by lia. clearbody n.
  destruct (Z.eqb_spec n 0) as [->|]; [reflexivity|].
  destruct (Z.eqb_spec (n mod 512) 0); rewrite Z.mod_small by zdiv; zdiv.
Qed.

Lemma member_size m p e : member_at m p e -> oct2dec (stoi m (p + HDR_size)) = Some (slen (mb_data e)).
Proof.
  intros H. rewrite <- (ma_size _ _ _ H).
  apply octal_field; [exact (ma_field _ _ _ H)|exact (ma_octal _ _ _ H)|exact (ma_width _ _ _ H)|
    exact (ma_end _ _ _ H)].
Qed.

Lemma member_strlen fuel m p e :
  member_at m p e -> (length (mb_name e) < fuel)%nat ->
  kstrlen fuel m p = Some (slen (mb_name e) + 1).
Proof.
  intros H Hf. rewrite (kstrlen_spec fuel m p (mb_name e) (ma_name _ _ _ H) Hf).
  rewrite decide_False by exact (ma_some _ _ _ H). reflexivity.
Qed.

Lemma end_size m p : rd8 m p = 0 -> oct2dec (stoi m p) = Some 0.
Proof. intros H. unfold stoi. cbn [stoi_loop]. rewrite H. reflexivity. Qed.

(** Names are at most 255 bytes long. *)
Definition names_fit (es : list member) : Prop := Forall (fun e => (length (mb_name e) < 256)%nat) es.

Lemma find_member_data s es off o m p :
  archive m (p + off) es -> find_member s es off = Some o ->
  exists e, e ∈ es /\ mb_name e = s /\ seg m (p + o) (mb_data e).
Proof.
  revert off. induction es as [|e es IH]; intros off [He Ha] Hf; cbn [find_member] in Hf; [discriminate|].
  destruct (decide (mb_name e = s)) as [Hn|].
  - injection Hf as <-. exists e. split; [left|]. split; [exact Hn|].
    rewrite Z.add_assoc. exact (ma_data _ _ _ He).
  - destruct (IH (off + extent e)) as (e' & Hin & H'); [|exact Hf|].
    + rewrite Z.add_assoc. exact Ha.
    + exists e'. split; [right; exact Hin|exact H'].
Qed.

Lemma file_exists_loop_spec Y m file s es prev tmp fuel :
  cstr m file s -> rd8 m prev <> 0 -> (exists n, cstr m prev n /\ (length n < 256)%nat) ->
  archive m (_binary_tarfs_start Y + tmp) es -> names_fit es ->
  0 <= tmp -> tmp + archive_size es + 512 < 2 ^ 31 -> (length es + 257 <= fuel)%nat ->
  file_exists_loop Y fuel m file prev tmp =
  Some (match find_member s es tmp with Some o => o | None => 999 end).
Proof.
  intros Hs. revert prev tmp fuel.
  induction es as [|e es IH]; intros prev tmp [|fuel] Hp (n & Hn & Hl) Ha Hfit Ht Hb Hf;
    try (cbn [length] in Hf; lia); cbn [file_exists_loop];
    (assert (Hn0 : n <> []) by (intros ->; simpl in Hn; contradiction));
    rewrite (kstrlen_spec _ m prev n) by (assumption || cbn [length] in Hf; lia);
    rewrite decide_False by exact Hn0;
    rewrite (proj2 (Z.eqb_neq (slen n + 1) 0)) by lia.
  - destruct Ha as [Ha1 Ha2]. rewrite end_size by exact Ha2.
    rewrite kstrlen_0 by exact Ha1. reflexivity.
  - destruct Ha as [He Ha]. apply Forall_cons_1 in Hfit as [Hfe Hfit].
    cbn [archive_size foldr] in Hb. fold (archive_size es) in Hb. cbn [length] in Hf.
    pose proof (archive_size_pos es). pose proof (extent_pos e).
    assert (Hd : slen (mb_data e) < 2 ^ 31) by (revert Hb; unfold extent; zdiv).
    rewrite (member_size _ _ _ He), (member_strlen _ _ _ _ He) by lia.
    rewrite (proj2 (Z.eqb_neq (slen (mb_name e) + 1) 0)) by lia.
    rewrite (kstrcmp_spec _ m _ file (mb_name e) s) by (exact (ma_name _ _ _ He) || exact Hs || lia).
    cbn [find_member].
    destruct (Z.eqb_spec (strcmp_spec (mb_name e) s) 0) as [E|E];
      rewrite strcmp_spec_0 in E by (eauto using cstr_nonzero, ma_name).
    + rewrite decide_True by exact E. rewrite s32_small by lia. reflexivity.
    + rewrite decide_False by exact E.
      rewrite member_step_extent, s32_small by lia.
      assert (Hnz : rd8 m (_binary_tarfs_start Y + tmp) <> 0).
      { pose proof (ma_name _ _ _ He) as Hc. pose proof (ma_some _ _ _ He) as Hso.
        destruct (mb_name e); [congruence|]. destruct Hc as (-> & Hc & _). exact Hc. }
      apply IH; [exact Hnz| |rewrite Z.add_assoc; exact Ha|exact Hfit|lia|lia|lia].
      exists (mb_name e). split; [exact (ma_name _ _ _ He)|exact Hfe].
Qed.

(** What [file_exists] returns. *)
Lemma file_exists_spec Y m file s e0 es fuel :
  archive m (_binary_tarfs_start Y) (e0 :: es) -> mb_data e0 = [] -> names_fit (e0 :: es) ->
  archive_size es + 1024 < 2 ^ 31 -> cstr m file s -> (length es + 257 <= fuel)%nat ->
  file_exists Y fuel m file = Some (match find_member s es 512 with Some o => o | None => 999 end) /\
  (forall o, find_member s es 512 = Some o ->
     exists e, e ∈ es /\ mb_name e = s /\ seg m (_binary_tarfs_start Y + o) (mb_data e)).
Proof.
  intros [He Ha] H0 Hfit Hb Hs Hf. apply Forall_cons_1 in Hfit as [Hf0 Hfit].
  replace (extent e0) with 512 in Ha by (unfold extent; rewrite H0; reflexivity).
  split.
  - apply file_exists_loop_spec; [exact Hs| | |exact Ha|exact Hfit|lia|lia|exact Hf].
    + pose proof (ma_name _ _ _ He) as Hc. pose proof (ma_some _ _ _ He) as Hso.
      destruct (mb_name e0); [congruence|]. destruct Hc as (-> & Hc & _). exact Hc.
    + exists (mb_name e0). split; [exact (ma_name _ _ _ He)|exact Hf0].
  - intros o Ho. exact (find_member_data s es 512 o m _ Ha Ho).
Qed.

(** Offsets of contents are whole blocks. *)
Lemma find_member_aligned s es off o :
  off mod 512 = 0 -> 0 <= off -> find_member s es off = Some o -> o mod 512 = 0 /\ off + 512 <= o.
Proof.
  revert off. induction es as [|e es IH]; intros off Ha H0 Hf; cbn [find_member] in Hf; [discriminate|].
  destruct (decide (mb_name e = s)).
  - injection Hf as <-. rewrite Z.add_mod, Ha by lia. split; [reflexivity|lia].
  - pose proof (extent_pos e). apply IH in Hf; [lia| |lia]. unfold extent.
    rewrite Z.add_mod, Ha, (Z.add_mod 512), Z.mod_mul by lia. reflexivity.
Qed.

(** C12: on an archive whose first member has no contents (the directory it
    begins with), [file_exists] terminates and refines look-up by name among the
    members after the first: the result is the offset of the contents of the
    first member with that name, 999 when there is none, and the bytes at that
    offset are the member's contents. *)
Theorem file_exists_finds Y m file s e0 es fuel :
  archive m (_binary_tarfs_start Y) (e0 :: es) -> mb_data e0 = [] -> names_fit (e0 :: es) ->
  archive_size es + 1024 < 2 ^ 31 -> cstr m file s -> (length es + 257 <= fuel)%nat ->
  file_exists Y fuel m file = Some (match find_member s es 512 with Some o => o | None => 999 end) /\
  (forall o, find_member s es 512 = Some o ->
     exists e, e ∈ es /\ mb_name e = s /\ seg m (_binary_tarfs_start Y + o) (mb_data e)).
Proof. intros. apply file_exists_spec with (e0 := e0); assumption. Qed.

(** A small archive at 4096: the directory "bin/", "bin/ls" with three bytes and
    "a" with none; and the string "bin/ls" at 64. *)
Definition demo_layout : tarfs_layout := mk_tarfs_layout 4096 8192 0x10000 0x20000 0x30000 0x40000 0x41000 0x42000.

Definition demo_header (name : String.string) (digits : list Z) : list Z :=
  chars name ++ replicate (124 - String.length name) 0 ++ dec_chars digits
  ++ replicate (388 - length digits) 0.

Definition demo_tar : mem :=
  let m := write_temp ∅ 64 (chars "bin/ls" ++ [0]) in
  write_temp m 4096 (demo_header "bin/" [0] ++ demo_header "bin/ls" [0; 3] ++ [7; 8; 9]
    ++ replicate 509 0 ++ demo_header "a" [0] ++ replicate 512 0).

Definition demo_members : list member :=
  [mk_member (chars "bin/ls") [0; 3] 0 [7; 8; 9]; mk_member (chars "a") [0] 0 []].

Definition member_at_b (m : mem) (p : Z) (e : member) : bool :=
  bool_decide (cstr m p (mb_name e)) && bool_decide (mb_name e <> [])
  && bool_decide (Forall (fun d => 0 <= d < 8) (mb_digits e))
  && (Nat.leb (length (mb_digits e)) 12)
  && bool_decide (~ (48 <= rd8 m (p + HDR_size + slen (mb_digits e)) <= 57))
  && bool_decide (of_digits 8 (mb_digits e) = slen (mb_data e))
  && bool_decide (read_temp (length (mb_digits e)) m (p + HDR_size) = dec_chars (mb_digits e))
  && bool_decide (read_temp (length (mb_data e)) m (p + 512) = mb_data e).

Lemma read_temp_seg m p l : read_temp (length l) m p = l -> seg m p l.
Proof.
  intros E i c Hi. pose proof (lookup_lt_Some _ _ _ Hi) as Hlt.
  rewrite <- E in Hi. rewrite read_temp_lookup in Hi by exact Hlt. injection Hi. auto.
Qed.

Lemma member_at_b_spec m p e : member_at_b m p e = true -> member_at m p e.
Proof.
  unfold member_at_b. rewrite !andb_true_iff, !bool_decide_eq_true, Nat.leb_le.
  intros (((((((H1 & H2) & H3) & H4) & H5) & H6) & H7) & H8).
  constructor; [exact H1|exact H2| |exact H3|exact H4|right; exact H5|exact H6|].
  - apply read_temp_seg. unfold dec_chars. rewrite length_fmap. exact H7.
  - apply read_temp_seg. exact H8.
Qed.

Lemma file_exists_finds_witness :
  file_exists demo_layout 300 demo_tar 64 = Some 1024 /\
  (forall o, find_member (chars "bin/ls") demo_members 512 = Some o ->
     exists e, e ∈ demo_members /\ mb_name e = chars "bin/ls" /\ seg demo_tar (4096 + o) (mb_data e)).
Proof.
  apply (file_exists_finds demo_layout demo_tar 64 (chars "bin/ls")
    (mk_member (chars "bin/") [0] 5 []) demo_members 300).
  - split; [apply member_at_b_spec; vm_compute; reflexivity|].
    split; [apply member_at_b_spec; vm_compute; reflexivity|].
    split; [apply member_at_b_spec; vm_compute; reflexivity|].
    vm_compute. split; reflexivity.
  - reflexivity.
  - unfold names_fit. repeat constructor; vm_compute; lia.
  - vm_compute. reflexivity.
  - apply (bool_decide_eq_true_1 (cstr demo_tar 64 (chars "bin/ls"))). vm_compute. reflexivity.
  - vm_compute. lia.
Defined.

(** ** Reading *)

Lemma read_loop_spec n m tmp src i :
  tmp + i + Z.of_nat n <= src \/ src + Z.of_nat n <= tmp + i ->
  exists m', read_loop n m tmp src i = (m', i + Z.of_nat n) /\
  forall a, rd8 m' a = if decide (tmp + i <= a < tmp + i + Z.of_nat n)
                       then rd8 m (src + (a - tmp - i)) else rd8 m a.
Proof.
  revert m src i. induction n as [|n IH]; intros m src i Hd; cbn [read_loop].
  - exists m. split; [f_equal; lia|]. intros a. rewrite decide_False by lia. reflexivity.
  - destruct (IH (wr8 m (tmp + i) (rd8 m src)) (src + 1) (i + 1)) as (m' & E & H); [lia|].
    exists m'. split; [rewrite E; f_equal; lia|]. intros a. rewrite H.
    destruct (decide (a = tmp + i)) as [->|Hne].
    + rewrite decide_False, decide_True, rd8_wr8_eq by lia.
      rewrite Z.mod_small by apply rd8_range. f_equal. lia.
    + case_decide.
      * rewrite rd8_wr8_ne, decide_True by lia. f_equal. lia.
      * rewrite rd8_wr8_ne, decide_False by lia. reflexivity.
Qed.

(** What a buffer at [p] holds after [l] and a terminator were stored in it. *)
Definition filled (m m' : mem) (p : Z) (l : list Z) : Prop :=
  seg m' p l /\ rd8 m' (p + slen l) = 0 /\
  (forall a, a < p \/ p + slen l < a -> rd8 m' a = rd8 m a).

Lemma readfile_member fuel k file_addr size buf codes hdr e :
  file_addr <> 0 -> rd64 (kmem (kk k)) (kphys file_addr + FI_address) = hdr ->
  member_at (kmem (kk k)) (kphys hdr) e -> slen (mb_data e) < 2 ^ 31 -> 0 <= size < 2 ^ 31 ->
  kphys buf + size <= kphys hdr + 512 \/ kphys hdr + 512 + slen (mb_data e) <= kphys buf ->
  let l := take (Z.to_nat size) (mb_data e) in
  exists m', readfile fuel k file_addr size buf codes
    = Some (slen l, with_kk k (with_mem (kk k) m'), codes)
  /\ filled (kmem (kk k)) m' (kphys buf) l.
Proof.
  intros Hf Hh He Hd Hs Hov l. unfold readfile.
  rewrite (proj2 (Z.ltb_ge size 0)), (proj2 (Z.eqb_neq _ 0)) by (lia || exact Hf).
  rewrite Hh, (member_size _ _ _ He).
  assert (Hl : slen l = Z.min size (slen (mb_data e))).
  { unfold l. rewrite length_take. lia. }
  assert (E : (if slen (mb_data e) <? size then s32 (slen (mb_data e)) else size) = slen l).
  { rewrite Hl. destruct (Z.ltb_spec (slen (mb_data e)) size); [rewrite s32_small by lia|]; lia. }
  rewrite E, Nat2Z.id.
  destruct (read_loop_spec (length l) (kmem (kk k)) (kphys buf) (kphys hdr + 512) 0) as (m' & Er & Hr);
    [lia|].
  rewrite Er. eexists. split; [reflexivity|]. split_and!.
  - intros i c Hi. pose proof (lookup_lt_Some _ _ _ Hi) as Hlt.
    rewrite rd8_wr8_ne by lia. rewrite Hr, decide_True by lia.
    replace (kphys hdr + 512 + (kphys buf + Z.of_nat i - kphys buf - 0))
      with (kphys hdr + 512 + Z.of_nat i) by lia.
    apply (ma_data _ _ _ He). unfold l in Hi. apply lookup_take_Some in Hi. apply Hi.
  - replace (0 + slen l) with (slen l) by lia. rewrite rd8_wr8_eq. reflexivity.
  - intros a Ha. rewrite rd8_wr8_ne by lia. rewrite Hr, decide_False by lia. reflexivity.
Qed.

(** ** The table [tarfs_fs] *)

(** What [openfile] looks at in an entry: the name behind its first four bytes
    (the length of the prefix "bin/") and the header address. *)
Record row := mk_row { r_tail : list Z; r_hdr : Z }.

Record row_at (Y : tarfs_layout) (m : mem) (i : Z) (r : row) : Prop := {
  ra_name : exists n, cstr m (tent Y i) n /\ n <> [] /\ (length n < 256)%nat;
  ra_tail : cstr m (tent Y i + 4) (r_tail r);
  ra_len : (length (r_tail r) < 252)%nat;
  ra_hdr : rd64 m (tent Y i + TE_addr_hdr) = r_hdr r }.

Fixpoint table (Y : tarfs_layout) (m : mem) (i : Z) (rs : list row) : Prop :=
  match rs with
  | [] => rd8 m (tent Y i) = 0
  | r :: rs => row_at Y m i r /\ table Y m (i + 1) rs
  end.

(** First row with that tail, and its index. *)
Fixpoint find_row (s : list Z) (rs : list row) (i : Z) : option (Z * Z) :=
  match rs with
  | [] => None
  | r :: rs => if decide (r_tail r = s) then Some (i, r_hdr r) else find_row s rs (i + 1)
  end.

Lemma row_at_ext Y m m' i r :
  (forall a, tent Y i <= a < tent Y i + 280 -> rd8 m' a = rd8 m a) -> row_at Y m i r -> row_at Y m' i r.
Proof.
  intros H [(n & Hn & Hn0 & Hl) Ht Htl Ha]. constructor.
  - exists n. split; [|split; assumption]. eapply cstr_ext; [|exact Hn]. intros. apply H. lia.
  - eapply cstr_ext; [|exact Ht]. intros. apply H. lia.
  - exact Htl.
  - rewrite <- Ha. apply rd64_ext. intros. apply H. unfold TE_addr_hdr in *. lia.
Qed.

Lemma table_ext Y m m' i rs :
  (forall a, tent Y i <= a < tent Y (i + slen rs) + 280 -> rd8 m' a = rd8 m a) ->
  table Y m i rs -> table Y m' i rs.
Proof.
  revert i. induction rs as [|r rs IH]; intros i H Ht; cbn [table length] in *.
  - rewrite H; [exact Ht|]. unfold tent, SIZEOF_tarfs_entry. lia.
  - destruct Ht as [Hr Ht]. unfold tent, SIZEOF_tarfs_entry in *. split.
    + eapply row_at_ext; [|exact Hr]. intros a Ha. unfold tent, SIZEOF_tarfs_entry in *. apply H. lia.
    + apply IH; [|exact Ht]. intros a Ha. apply H. lia.
Qed.

(** ** Opening *)

Lemma set_file_spec fuel m fd file s inode addr :
  cstr m file s -> (length s < 256)%nat -> (length s < fuel)%nat ->
  file + slen s < fd \/ fd + 336 <= file ->
  exists m', set_file fuel m fd file inode addr = Some m' /\
    cstr m' (fd + FI_filename) s /\ rd64 m' fd = u64 inode /\ rd64 m' (fd + FI_address) = u64 addr /\
    (forall a, a < fd \/ fd + 336 <= a -> rd8 m' a = rd8 m a).
Proof.
  intros Hs Hl Hf Hd. unfold set_file, FI_filename, FI_offset, FI_address.
  destruct (kstrcpy_spec fuel m (fd + 8) file s Hs Hf) as (m1 & -> & Hc & Hr); [lia|].
  eexists. split; [reflexivity|]. split_and!.
  - eapply cstr_ext; [|exact Hc]. intros a Ha.
    rewrite rd8_wr64_ne, rd8_wr32_ne, rd8_wr64_ne by lia. reflexivity.
  - rewrite rd64_wr64_ne, rd64_wr32_ne, rd64_wr64_eq by lia. reflexivity.
  - apply rd64_wr64_eq.
  - intros a Ha. rewrite rd8_wr64_ne, rd8_wr32_ne, rd8_wr64_ne by lia. apply Hr. lia.
Qed.

(** What [openfile] stores in a [FILE]. *)
Definition opened (m m' : mem) (fd : Z) (s : list Z) (r : option (Z * Z)) : Prop :=
  match r with
  | Some (i, hdr) =>
      cstr m' (fd + FI_filename) s /\ rd64 m' fd = u64 (i - 1) /\ rd64 m' (fd + FI_address) = u64 hdr /\
      (forall a, a < fd \/ fd + 336 <= a -> rd8 m' a = rd8 m a)
  | None => m' = m
  end.

Lemma openfile_loop_spec Y fuel m fd file s rs i :
  table Y m i rs -> cstr m file s -> cstr m (file + 4) (drop 4 s) ->
  (4 < length s < 256)%nat -> (length rs + 257 <= fuel)%nat ->
  file + slen s < fd \/ fd + 336 <= file ->
  exists m', openfile_loop Y fuel m fd file (file + 4) i =
    Some (match find_row (drop 4 s) rs i with Some _ => Some m' | None => None end)
  /\ opened m m' fd s (find_row (drop 4 s) rs i).
Proof.
  intros Ht Hs Hd Hl Hf Hov. revert i fuel Ht Hf.
  assert (Hdn : drop 4 s <> []) by (intros E; apply (f_equal length) in E; rewrite length_drop in E; cbn in E; lia).
  assert (Hdl : (length (drop 4 s) < 256)%nat) by (rewrite length_drop; lia).
  induction rs as [|r rs IH]; intros i [|fuel] Ht Hf; try (cbn [length] in Hf; lia);
    cbn [openfile_loop find_row]; cbn [length] in Hf;
    rewrite (kstrlen_spec _ m (file + 4) (drop 4 s) Hd), decide_False by (exact Hdn || lia);
    rewrite (kstrlen_spec _ m file s Hs) by lia;
    rewrite (proj2 (Z.eqb_neq (slen (drop 4 s) + 1) 0)) by lia; cbn [Z.eqb].
  - cbn [table] in Ht. rewrite (kstrlen_0 _ m _ Ht). exists m. split; reflexivity.
  - destruct Ht as [[(n & Hn & Hn0 & Hnl) Htl Hlen Ha] Ht].
    rewrite (kstrlen_spec _ m (tent Y i) n Hn), decide_False by (exact Hn0 || lia).
    rewrite (proj2 (Z.eqb_neq (slen n + 1) 0)) by lia.
    rewrite (kstrcmp_spec _ m _ _ _ _ Htl Hd) by lia.
    destruct (Z.eqb_spec (strcmp_spec (r_tail r) (drop 4 s)) 0) as [E|E];
      rewrite strcmp_spec_0 in E by (eauto using cstr_nonzero).
    + rewrite decide_True by exact E. rewrite Ha.
      destruct (set_file_spec (S fuel) m fd file s (i - 1) (r_hdr r) Hs) as (m' & -> & H'); [lia..|].
      exists m'. split; [reflexivity|exact H'].
    + rewrite decide_False by exact E. apply IH; [exact Ht|lia].
Qed.

Lemma cstr_drop m p s n : (n <= length s)%nat -> cstr m p s -> cstr m (p + Z.of_nat n) (drop n s).
Proof.
  intros Hn Hs. rewrite <- (take_drop n s) in Hs. apply cstr_app in Hs as [_ Hs].
  rewrite length_take_le in Hs by exact Hn. exact Hs.
Qed.

Section Open.
Context {ready : Z -> kst -> Prop} {own : Z -> Prop} `{PageSource ready own}.

(** The bytes from [a] up to [b] are neither the allocator's nor those of the
    page it hands out next. *)
Definition settled (np a b : Z) : Prop :=
  (b <= np \/ np + 4096 <= a) /\ forall x, a <= x < b -> ~ own x.

Lemma openfile_spec Y fuel np ks file s rs :
  ready np ks -> np + 4096 <= KWIN ->
  table Y (kmem ks) 0 rs -> settled np (tarfs_fs Y) (tent Y (slen rs) + 280) ->
  cstr (kmem ks) file s -> (4 < length s < 256)%nat -> settled np file (file + slen s + 1) ->
  0 <= file < 2 ^ 63 -> (length rs + 257 <= fuel)%nat ->
  exists ks' m', openfile Y fuel ks file =
      Some (match find_row (drop 4 s) rs 0 with
            | Some _ => (VIRT_BASE + np, with_mem ks' m', [])
            | None => (0, ks', [("\n No such file \n"%string, [])])
            end)
    /\ ready (np + 4096) ks'
    /\ (forall a, ~ own a -> ~ (np <= a < np + 4096) -> rd8 (kmem ks') a = rd8 (kmem ks) a)
    /\ opened (kmem ks') m' np s (find_row (drop 4 s) rs 0).
Proof.
  intros Hr Hw Ht [Htd Hto] Hs Hl [Hsd Hso] Hfile Hf.
  destruct (ps_next np ks Hr) as [_ Hnp].
  destruct (kmalloc_spec ready own SIZEOF_FILE np ks Hr) as (ks' & E & Hr' & _ & _ & _ & Hrest);
    [unfold SIZEOF_FILE; lia|exact Hw|].
  assert (Hsame : forall a, ~ own a -> ~ (np <= a < np + 4096) -> rd8 (kmem ks') a = rd8 (kmem ks) a)
    by exact Hrest.
  assert (Ht' : table Y (kmem ks') 0 rs).
  { eapply table_ext; [|exact Ht]. unfold tent, SIZEOF_tarfs_entry in *.
    intros a Ha. apply Hsame; [apply Hto|]; lia. }
  assert (Hs' : cstr (kmem ks') file s).
  { eapply cstr_ext; [|exact Hs]. intros a Ha. apply Hsame; [apply Hso|]; lia. }
  unfold openfile. rewrite E, u64_small by lia.
  rewrite (proj2 (Z.eqb_neq (file + 4) 0)) by lia.
  rewrite kphys_high by lia.
  destruct (openfile_loop_spec Y fuel (kmem ks') np file s rs 0 Ht' Hs'
    (cstr_drop (kmem ks') file s 4 ltac:(lia) Hs') Hl Hf) as (m' & -> & Ho); [lia|].
  exists ks', m'. split; [destruct (find_row _ _ _); reflexivity|].
  split; [exact Hr'|]. split; [exact Hsame|exact Ho].
Qed.

End Open.

(** ** Closing *)

Lemma member_at_ext m m' p e :
  (forall a, p <= a < p + 512 + slen (mb_data e) -> rd8 m' a = rd8 m a) ->
  (length (mb_name e) < 256)%nat -> member_at m p e -> member_at m' p e.
Proof.
  intros H Hl [H1 H2 H3 H4 H5 H6 H7 H8]. unfold HDR_size in *. constructor; try assumption.
  - eapply cstr_ext; [|exact H1]. intros. apply H. lia.
  - intros i c Hi. pose proof (lookup_lt_Some _ _ _ Hi) as Hlt. unfold dec_chars in Hlt.
    rewrite length_fmap in Hlt. unfold HDR_size. rewrite H by lia. apply H3. exact Hi.
  - unfold HDR_size. rewrite H by lia. exact H6.
  - intros i c Hi. pose proof (lookup_lt_Some _ _ _ Hi) as Hlt. rewrite H by lia. apply H8. exact Hi.
Qed.

(** The archive depends on its own bytes only. *)
Lemma archive_ext m m' p es :
  (forall a, p <= a < p + archive_size es + 512 -> rd8 m' a = rd8 m a) -> names_fit es ->
  archive m p es -> archive m' p es.
Proof.
  revert p. induction es as [|e es IH]; intros p H Hfit Ha; cbn [archive archive_size foldr] in *.
  - destruct Ha as [H1 H2]. unfold HDR_size in *. rewrite !H by lia. auto.
  - destruct Ha as [Hm Ha]. apply Forall_cons_1 in Hfit as [Hf Hfit].
    fold (archive_size es) in H. pose proof (extent_pos e). pose proof (archive_size_pos es).
    split; [|apply IH; [intros a Hra; apply H; lia|exact Hfit|exact Ha]].
    apply (member_at_ext m); [|exact Hf|exact Hm]. intros a Hra. apply H.
    assert (slen (mb_data e) + 512 <= extent e) by (unfold extent; zdiv). lia.
Qed.

Lemma close_kernel_pointer m p : 0 <= p < 2 ^ 31 -> closefile m (s32 (VIRT_BASE + p)) = (-1, m).
Proof.
  intros Hp. unfold closefile.
  replace (s32 (VIRT_BASE + p)) with (p - 2 ^ 31); [rewrite (proj2 (Z.ltb_lt _ _)) by lia; reflexivity|].
  unfold s32, VIRT_BASE.
  replace (0xFFFFFFFF80000000 + p + 2 ^ 31) with (p + 4294967296 * 2 ^ 32) by lia.
  rewrite Z.mod_add, Z.mod_small by lia. reflexivity.
Qed.

(** ** Properties of the file operations *)

Section Files.
Context {ready : Z -> kst -> Prop} {own : Z -> Prop} `{PageSource ready own}.

(** [openfile] takes one page for the [FILE] and finds the first table
    entry whose name agrees with the given one behind the first four bytes: the
    [FILE] gets the name and that entry's header address.  When there is no such
    entry it returns [NULL] and reports it.  (The [FILE]'s inode number is one
    less than the index of the entry.) *)
Theorem openfile_finds Y fuel np ks file s rs :
  ready np ks -> np + 4096 <= KWIN ->
  table Y (kmem ks) 0 rs -> settled (own := own) np (tarfs_fs Y) (tent Y (slen rs) + 280) ->
  cstr (kmem ks) file s -> (4 < length s < 256)%nat -> settled (own := own) np file (file + slen s + 1) ->
  0 <= file < 2 ^ 63 -> (length rs + 257 <= fuel)%nat ->
  match find_row (drop 4 s) rs 0 with
  | Some (i, hdr) => exists ks', openfile Y fuel ks file = Some (VIRT_BASE + np, ks', []) /\
      cstr (kmem ks') (np + FI_filename) s /\ rd64 (kmem ks') (np + FI_address) = u64 hdr /\
      rd64 (kmem ks') np = u64 (i - 1)
  | None => exists ks', openfile Y fuel ks file = Some (0, ks', [("\n No such file \n"%string, [])])
  end.
Proof.
  intros Hr Hw Ht Hst Hs Hl Hss Hfile Hf.
  destruct (openfile_spec Y fuel np ks file s rs Hr Hw Ht Hst Hs Hl Hss Hfile Hf)
    as (ks' & m' & E & _ & _ & Ho).
  destruct (find_row _ _ _) as [[i hdr]|].
  - exists (with_mem ks' m'). destruct Ho as (H1 & H2 & H3 & _).
    split; [exact E|]. split; [exact H1|]. split; [exact H3|exact H2].
  - exists ks'. exact E.
Qed.

Lemma open_read_spec Y fuel np k file s rs i hdr e size buf codes :
  ready np (kk k) -> np + 4096 <= KWIN ->
  table Y (kmem (kk k)) 0 rs -> settled (own := own) np (tarfs_fs Y) (tent Y (slen rs) + 280) ->
  cstr (kmem (kk k)) file s -> (4 < length s < 256)%nat ->
  settled (own := own) np file (file + slen s + 1) -> 0 <= file < 2 ^ 63 ->
  (length rs + 257 <= fuel)%nat ->
  find_row (drop 4 s) rs 0 = Some (i, hdr) -> 0 <= hdr < 2 ^ 64 ->
  member_at (kmem (kk k)) (kphys hdr) e -> (length (mb_name e) < 256)%nat ->
  settled (own := own) np (kphys hdr) (kphys hdr + 512 + slen (mb_data e)) ->
  slen (mb_data e) < 2 ^ 31 -> 0 <= size < 2 ^ 31 ->
  kphys buf + size <= kphys hdr + 512 \/ kphys hdr + 512 + slen (mb_data e) <= kphys buf ->
  exists ks m', openfile Y fuel (kk k) file = Some (VIRT_BASE + np, ks, []) /\
    let l := take (Z.to_nat size) (mb_data e) in
    readfile fuel (with_kk k ks) (VIRT_BASE + np) size buf codes
    = Some (slen l, with_kk k (with_mem ks m'), codes) /\
    filled (kmem ks) m' (kphys buf) l.
Proof.
  intros Hr Hw Ht Hst Hs Hl Hss Hfile Hf Hfind Hh He Hn [Hd Hdo] Hsz Hsize Hbuf.
  destruct (ps_next np (kk k) Hr) as [_ Hnp].
  destruct (openfile_spec Y fuel np (kk k) file s rs Hr Hw Ht Hst Hs Hl Hss Hfile Hf)
    as (ks' & m' & E & _ & Hsame & Ho).
  rewrite Hfind in E, Ho. destruct Ho as (_ & _ & Ha & Hrest).
  destruct (readfile_member fuel (with_kk k (with_mem ks' m')) (VIRT_BASE + np) size buf codes hdr e)
    as (m2 & Er & Hfill).
  - unfold VIRT_BASE. lia.
  - cbn [kk with_kk kmem with_mem]. rewrite kphys_high, Ha, u64_small by lia. reflexivity.
  - cbn [kk with_kk kmem with_mem]. eapply member_at_ext; [|exact Hn|exact He].
    intros a Hin. rewrite Hrest by lia. apply Hsame; [apply Hdo; exact Hin|lia].
  - exact Hsz.
  - exact Hsize.
  - exact Hbuf.
  - exists (with_mem ks' m'), m2. split; [exact E|]. split; [exact Er|exact Hfill].
Qed.

(** C10: opening a file and reading from it delivers its contents: [readfile]
    on the [FILE] that [openfile] returned stores the first [size] bytes of the
    member's contents and a terminator in the buffer, changes no other byte, and
    returns the number of bytes read (which is smaller than [size] at the end of
    the file). *)
Theorem open_then_read Y fuel np k file s rs i hdr e size buf codes :
  ready np (kk k) -> np + 4096 <= KWIN ->
  table Y (kmem (kk k)) 0 rs -> settled (own := own) np (tarfs_fs Y) (tent Y (slen rs) + 280) ->
  cstr (kmem (kk k)) file s -> (4 < length s < 256)%nat ->
  settled (own := own) np file (file + slen s + 1) -> 0 <= file < 2 ^ 63 ->
  (length rs + 257 <= fuel)%nat ->
  find_row (drop 4 s) rs 0 = Some (i, hdr) -> 0 <= hdr < 2 ^ 64 ->
  member_at (kmem (kk k)) (kphys hdr) e -> (length (mb_name e) < 256)%nat ->
  settled (own := own) np (kphys hdr) (kphys hdr + 512 + slen (mb_data e)) ->
  slen (mb_data e) < 2 ^ 31 -> 0 <= size < 2 ^ 31 ->
  kphys buf + size <= kphys hdr + 512 \/ kphys hdr + 512 + slen (mb_data e) <= kphys buf ->
  exists ks m', openfile Y fuel (kk k) file = Some (VIRT_BASE + np, ks, []) /\
    let l := take (Z.to_nat size) (mb_data e) in
    readfile fuel (with_kk k ks) (VIRT_BASE + np) size buf codes
    = Some (slen l, with_kk k (with_mem ks m'), codes) /\
    filled (kmem ks) m' (kphys buf) l.
Proof. apply open_read_spec. Qed.

(** A [FILE] that [openfile] returned cannot be closed: [closefile] takes
    the pointer as an [int], the low half of a kernel address is negative, and
    the call returns -1 without clearing anything. *)
Theorem closefile_rejects_open_files Y fuel np ks file s rs i hdr :
  ready np ks -> np + 4096 <= KWIN ->
  table Y (kmem ks) 0 rs -> settled (own := own) np (tarfs_fs Y) (tent Y (slen rs) + 280) ->
  cstr (kmem ks) file s -> (4 < length s < 256)%nat -> settled (own := own) np file (file + slen s + 1) ->
  0 <= file < 2 ^ 63 -> (length rs + 257 <= fuel)%nat ->
  find_row (drop 4 s) rs 0 = Some (i, hdr) ->
  exists fd ks', openfile Y fuel ks file = Some (fd, ks', []) /\ fd <> 0 /\
  closefile (kmem ks') (s32 fd) = (-1, kmem ks').
Proof.
  intros Hr Hw Ht Hst Hs Hl Hss Hfile Hf Hfind.
  destruct (ps_next np ks Hr) as [_ Hnp].
  destruct (openfile_spec Y fuel np ks file s rs Hr Hw Ht Hst Hs Hl Hss Hfile Hf)
    as (ks' & m' & E & _). rewrite Hfind in E.
  exists (VIRT_BASE + np), (with_mem ks' m'). split; [exact E|]. split; [unfold VIRT_BASE; lia|].
  apply close_kernel_pointer. unfold KWIN in Hw. lia.
Qed.

End Files.

(** The demonstration archive with its table: the names have been cut at the
    first slash by [set_dirents]. *)
Definition demo_fs : mem :=
  let m := write_temp demo_tar 0x10000 (chars "bin") in
  let m := wr64 m (0x10000 + 264) 4096 in
  let m := write_temp m (0x10000 + 280) (chars "bin" ++ [0] ++ chars "ls") in
  wr64 m (0x10000 + 280 + 264) 4608.

Definition demo_kbd : kbd := with_kk kbd_demo (with_mem (kk kbd_demo) demo_fs).

Definition demo_rows : list row := [mk_row [] 4096; mk_row (chars "ls") 4608].

Lemma tarfs_demo_table : table demo_layout (kmem (kk demo_kbd)) 0 demo_rows.
Proof.
  split; [|split].
  - constructor; [exists (chars "bin"); split; [|split; [discriminate|vm_compute; lia]]|..].
    + apply (bool_decide_eq_true_1 (cstr (kmem (kk demo_kbd)) (tent demo_layout 0) (chars "bin"))). vm_compute. reflexivity.
    + vm_compute. reflexivity.
    + vm_compute. lia.
    + vm_compute. reflexivity.
  - constructor; [exists (chars "bin"); split; [|split; [discriminate|vm_compute; lia]]|..].
    + apply (bool_decide_eq_true_1 (cstr (kmem (kk demo_kbd)) (tent demo_layout (0 + 1)) (chars "bin"))). vm_compute. reflexivity.
    + apply (bool_decide_eq_true_1 (cstr (kmem (kk demo_kbd)) (tent demo_layout (0 + 1) + 4) (chars "ls"))). vm_compute. reflexivity.
    + vm_compute. lia.
    + vm_compute. reflexivity.
  - vm_compute. reflexivity.
Qed.

Lemma demo_boot : boot_memory 0x400000.
Proof. unfold boot_memory. split; [reflexivity|lia]. Qed.

Lemma demo_ready : boot_ready 0x400000 0x418000 (kk demo_kbd).
Proof.
  exists 0. split; [lia|]. split; [reflexivity|].
  constructor; [reflexivity|vm_compute; intuition discriminate|reflexivity].
Qed.

Lemma demo_settled a b : b <= 0x400000 -> settled (own := freelist_cells 0x400000) 0x418000 a b.
Proof. intros Hb. split; [lia|]. intros x Hx. unfold freelist_cells. lia. Qed.

Lemma demo_name : cstr (kmem (kk demo_kbd)) 64 (chars "bin/ls").
Proof. apply (bool_decide_eq_true_1 (cstr (kmem (kk demo_kbd)) 64 (chars "bin/ls"))). vm_compute. reflexivity. Qed.

Lemma openfile_finds_witness :
  exists ks', openfile demo_layout 300 (kk demo_kbd) 64 = Some (VIRT_BASE + 0x418000, ks', []) /\
      cstr (kmem ks') (0x418000 + FI_filename) (chars "bin/ls") /\
      rd64 (kmem ks') (0x418000 + FI_address) = u64 4608 /\ rd64 (kmem ks') 0x418000 = u64 (1 - 1).
Proof.
  apply (openfile_finds (ready := boot_ready 0x400000) (H := page_source_boot 0x400000 demo_boot)
    demo_layout 300 0x418000 (kk demo_kbd) 64 (chars "bin/ls") demo_rows demo_ready).
  - unfold KWIN. lia.
  - exact tarfs_demo_table.
  - apply demo_settled. vm_compute. discriminate.
  - exact demo_name.
  - vm_compute. lia.
  - apply demo_settled. vm_compute. discriminate.
  - lia.
  - vm_compute. lia.
Defined.

Lemma open_then_read_witness :
  exists ks m', openfile demo_layout 300 (kk demo_kbd) 64 = Some (VIRT_BASE + 0x418000, ks, []) /\
    let l := take (Z.to_nat 2) [7; 8; 9] in
    readfile 300 (with_kk demo_kbd ks) (VIRT_BASE + 0x418000) 2 (VIRT_BASE + 0x300000) []
    = Some (slen l, with_kk demo_kbd (with_mem ks m'), []) /\
    filled (kmem ks) m' (kphys (VIRT_BASE + 0x300000)) l.
Proof.
  apply (open_then_read (ready := boot_ready 0x400000) (H := page_source_boot 0x400000 demo_boot)
    demo_layout 300 0x418000 demo_kbd 64 (chars "bin/ls") demo_rows 1 4608
    (mk_member (chars "bin/ls") [0; 3] 0 [7; 8; 9]) 2 (VIRT_BASE + 0x300000) [] demo_ready).
  - unfold KWIN. lia.
  - exact tarfs_demo_table.
  - apply demo_settled. vm_compute. discriminate.
  - exact demo_name.
  - vm_compute. lia.
  - apply demo_settled. vm_compute. discriminate.
  - lia.
  - vm_compute. lia.
  - reflexivity.
  - lia.
  - apply member_at_b_spec. vm_compute. reflexivity.
  - vm_compute. lia.
  - apply demo_settled. vm_compute. discriminate.
  - vm_compute. reflexivity.
  - lia.
  - right. vm_compute. discriminate.
Defined.

Lemma closefile_rejects_open_files_witness :
  exists fd ks', openfile demo_layout 300 (kk demo_kbd) 64 = Some (fd, ks', []) /\ fd <> 0 /\
  closefile (kmem ks') (s32 fd) = (-1, kmem ks').
Proof.
  apply (closefile_rejects_open_files (ready := boot_ready 0x400000)
    (H := page_source_boot 0x400000 demo_boot)
    demo_layout 300 0x418000 (kk demo_kbd) 64 (chars "bin/ls") demo_rows 1 4608 demo_ready).
  - unfold KWIN. lia.
  - exact tarfs_demo_table.
  - apply demo_settled. vm_compute. discriminate.
  - exact demo_name.
  - vm_compute. lia.
  - apply demo_settled. vm_compute. discriminate.
  - lia.
  - vm_compute. lia.
  - reflexivity.
Defined.
