(* ===== verification/Mount.v ===== *)
(** * Mounting the archive

    [init_tarfs] of [sys/walk_tarfs.c] on an archive of members called "bin/…":
    the table [tarfs_fs] that it builds, and files opened and read through it.
    [set_dirents] tokenizes each name in place, so the table is left with the
    directory part alone; [openfile] looks behind it. *)

From stdpp Require Import base gmap list numbers.
From Stdlib Require Import ZArith Lia.
From Stdlib Require Ascii String.
From S2P Require Import Prelude KLib Paging BootPaging Alloc Utils Keyboard Tarfs.
Import (notations) String.

(** ** Names *)

(** The directory part (three bytes), a slash, and the part behind it: empty for
    the directory itself, a plain name for a file. *)
Record named_member (m : mem) (p : Z) (e : member) (d tl : list Z) : Prop := {
  nm_name : mb_name e = d ++ 47 :: tl;
  nm_dir : length d = 3%nat /\ 47 ∉ d;
  nm_tail : 47 ∉ tl /\ (length tl < 90)%nat;
  nm_type : rd8 m (p + HDR_typeflag) = 48 + mb_type e /\ ~ (48 <= rd8 m (p + HDR_typeflag + 1) <= 57);
  nm_kind : mb_type e = FILE_TYPE \/ mb_type e = DIRECTORY /\ tl = [] }.

Lemma named_type m p e d tl : named_member m p e d tl -> stoi m (p + HDR_typeflag) = mb_type e.
Proof.
  intros [_ _ _ [H1 H2] Hk]. assert (0 <= mb_type e < 10) by (unfold FILE_TYPE, DIRECTORY in Hk; lia).
  rewrite (stoi_spec m _ [mb_type e]).
  - unfold of_digits. cbn [fold_left]. lia.
  - intros [|i] c Hi; [|discriminate Hi]. cbn in Hi. injection Hi as <-. rewrite Z.add_0_r, H1. lia.
  - repeat constructor; lia.
  - cbn. lia.
  - right. exact H2.
Qed.

Section mount.
Context (Y : tarfs_layout).

Abbreviation tent := (tent Y).
Abbreviation dentry := (dentry Y).

(** *** Searching *)

Lemma back_to_slash_spec k fuel m d tl :
  cstr m (name_buf Y) (d ++ 47 :: tl) -> d <> [] -> 47 ∉ tl -> (k <= length tl)%nat -> (k < fuel)%nat ->
  back_to_slash Y (S fuel) m (slen d + 1 + Z.of_nat k) = Some (Some (slen d)).
Proof.
  intros Hs Hd Htl. assert (0 < slen d) by (destruct d; [contradiction|cbn; lia]).
  pose proof Hs as Hs'. apply cstr_app in Hs' as [_ (Hsl & _ & Ht)].
  revert fuel. induction k as [|k IH]; intros [|fuel] Hk Hf; try lia; cbn [back_to_slash].
  - rewrite (proj2 (Z.eqb_neq (rd8 m (name_buf Y + (slen d + 1 + Z.of_nat 0))) 47)).
    + rewrite (proj2 (Z.eqb_neq _ 0)) by lia. replace (slen d + 1 + Z.of_nat 0 - 1) with (slen d) by lia.
      cbn [back_to_slash]. rewrite Hsl. reflexivity.
    + replace (name_buf Y + (slen d + 1 + Z.of_nat 0)) with (name_buf Y + slen d + 1) by lia.
      destruct tl as [|c tl]; [simpl in Ht; rewrite Ht; discriminate|]. destruct Ht as (-> & _ & _).
      intros ->. apply Htl. left.
  - rewrite (proj2 (Z.eqb_neq (rd8 m (name_buf Y + (slen d + 1 + Z.of_nat (S k)))) 47)).
    + rewrite (proj2 (Z.eqb_neq _ 0)) by lia. replace (slen d + 1 + Z.of_nat (S k) - 1) with (slen d + 1 + Z.of_nat k) by lia.
      apply IH; lia.
    + replace (name_buf Y + (slen d + 1 + Z.of_nat (S k))) with (name_buf Y + slen d + 1 + Z.of_nat (S k)) by lia.
      destruct (tl !! S k) as [c|] eqn:E.
      * destruct (cstr_lookup _ _ _ _ _ Ht E) as [-> _]. intros ->. apply Htl. eapply list_elem_of_lookup_2, E.
      * apply lookup_ge_None in E. replace (S k) with (length tl) by lia. rewrite (cstr_end _ _ _ Ht). discriminate.
Qed.

(** Names before entry [i] have lost their slash. *)
Definition cut_before (m : mem) (i : Z) : Prop :=
  forall j, 0 <= j < i -> exists c, cstr m (tent j) c /\ 47 ∉ c.

Lemma find_name_spec k fuel m i s :
  cstr m (name_buf Y) s -> 47 ∈ s -> cstr m (tent i) s -> cut_before m i -> 0 <= i < 1000 ->
  Z.of_nat k <= i -> (length s + k < fuel)%nat -> find_name Y fuel m (i - Z.of_nat k) = Some i.
Proof.
  intros Hn Hsl Hi Hcut Hib. revert fuel. induction k as [|k IH]; intros [|fuel] Hk Hf; try lia; cbn [find_name].
  - replace (i - Z.of_nat 0) with i by lia. rewrite (kstrcmp_spec _ _ _ _ s s Hn Hi) by lia.
    rewrite (proj2 (Z.eqb_eq _ 0)); [reflexivity|]. apply strcmp_spec_0; eauto using cstr_nonzero.
  - destruct (Hcut (i - Z.of_nat (S k)) ltac:(lia)) as (c & Hc & Hc47).
    rewrite (kstrcmp_spec _ _ _ _ s c Hn Hc) by lia. rewrite (proj2 (Z.eqb_neq _ 0)).
    + rewrite s32_small by lia. replace (i - Z.of_nat (S k) + 1) with (i - Z.of_nat k) by lia. apply IH; lia.
    + rewrite strcmp_spec_0; eauto using cstr_nonzero. intros ->. contradiction.
Qed.

(** *** The index of an entry *)

Lemma set_index_spec fuel m i ty d tl :
  cstr m (tent i) (d ++ 47 :: tl) -> length d = 3%nat -> 47 ∉ tl -> (length tl < 90)%nat ->
  s32 (rd32 m (tent i + TE_typeflag)) = ty -> ty = FILE_TYPE \/ ty = DIRECTORY /\ tl = [] ->
  cut_before m i -> 0 <= i < 100 -> (forall j, 0 <= j <= i -> apart (name_buf Y) 100 (tent j) 280) ->
  (forall j c, 0 <= j < i -> cstr m (tent j) c -> (length c < 256)%nat) -> (length tl + 300 < fuel)%nat ->
  exists m', set_index Y fuel m i = Some m' /\ rd32 m' (tent i + TE_index) = i
    /\ (forall a, ~ (name_buf Y <= a < name_buf Y + 100) -> ~ (tent i + TE_index <= a < tent i + TE_index + 4) ->
          rd8 m' a = rd8 m a).
Proof.
  intros Hs Hd Htl Hlt Hty Hk Hcut Hi Hap Hshort Hf. set (s := d ++ 47 :: tl) in *. unfold apart, TE_index in *.
  assert (Hls : length s = (4 + length tl)%nat) by (unfold s; rewrite length_app, Hd; cbn [length]; lia).
  assert (Hsl : 47 ∈ s) by (apply elem_of_app; right; left).
  assert (Hne : s <> []) by (intros E; rewrite E in Hls; discriminate).
  pose proof (Hap i ltac:(lia)) as Hapi.
  destruct (kstrcpy_spec fuel m (name_buf Y) (tent i) s Hs) as (m1 & E1 & Hn1 & Hf1); [lia|lia|].
  assert (Hti : forall j c, 0 <= j <= i -> cstr m (tent j) c -> (length c < 256)%nat -> cstr m1 (tent j) c).
  { intros j c Hj Hc Hl. pose proof (Hap j Hj). eapply cstr_ext; [|exact Hc]. intros a Ha. apply Hf1. lia. }
  assert (Hlen : kstrlen fuel m (tent i) = Some (slen s + 1))
    by (rewrite (kstrlen_spec fuel m _ s Hs) by lia; rewrite decide_False by exact Hne; reflexivity).
  assert (Hcut1 : cut_before m1 i).
  { intros j Hj. destruct (Hcut j Hj) as (c & Hc & Hc47). exists c. split; [|exact Hc47].
    apply Hti; [lia|exact Hc|]. eapply Hshort; [exact Hj|exact Hc]. }
  assert (Hfind : forall m2, (forall a, rd8 m2 a = rd8 m1 a) -> find_name Y fuel m2 0 = Some i).
  { intros m2 H2. assert (Hx : forall p c, cstr m1 p c -> cstr m2 p c) by (intros p c; apply cstr_ext; intros a _; apply H2).
    replace 0 with (i - Z.of_nat (Z.to_nat i)) by lia. apply (find_name_spec _ _ _ _ s); try lia; [apply Hx, Hn1|exact Hsl| |].
    - apply Hx, Hti; [lia|exact Hs|lia].
    - intros j Hj. destruct (Hcut1 j Hj) as (c & Hc & Hc47). exists c. auto. }
  assert (Hres : forall m2, (forall a, rd8 m2 a = rd8 m1 a) ->
    rd32 (wr32 m2 (tent i + 272) i) (tent i + 272) = i
    /\ (forall a, ~ (name_buf Y <= a < name_buf Y + 100) -> ~ (tent i + 272 <= a < tent i + 272 + 4) ->
          rd8 (wr32 m2 (tent i + 272) i) a = rd8 m a)).
  { intros m2 H2. split; [rewrite rd32_wr32_eq; apply u32_small; lia|].
    intros a Ha Hb. rewrite rd8_wr32_ne by lia. rewrite H2. apply Hf1. lia. }
  unfold set_index. rewrite Hty. destruct fuel as [|fuel]; [lia|].
  destruct Hk as [->|[-> ->]].
  - change (FILE_TYPE =? FILE_TYPE) with true. cbv iota. unfold get_per_indx_file. rewrite Hlen, E1.
    replace (slen s + 1 - 1) with (slen d + 1 + Z.of_nat (length tl)) by (rewrite Hls, Hd; lia).
    rewrite (back_to_slash_spec (length tl) fuel m1 d tl); [|exact Hn1|intros E; rewrite E in Hd; discriminate|exact Htl|lia|lia].
    rewrite Hfind by reflexivity. eexists. split; [reflexivity|]. apply Hres. reflexivity.
  - change (DIRECTORY =? FILE_TYPE) with false. change (DIRECTORY =? DIRECTORY) with true. cbv iota.
    unfold get_per_indx. rewrite Hlen, E1.
    pose proof Hn1 as Hn2. apply cstr_app in Hn2 as [_ (H47 & _ & H0)]. cbn in H0.
    replace (slen s + 1 - 2) with (slen d) by (rewrite Hls, Hd; cbn [length]; lia). cbn [back_to_slash].
    rewrite H47, Z.eqb_refl. replace (name_buf Y + (slen d + 1)) with (name_buf Y + slen d + 1) by lia.
    assert (Hz : forall a, rd8 (wr8 m1 (name_buf Y + slen d + 1) 0) a = rd8 m1 a).
    { intros a. destruct (decide (a = name_buf Y + slen d + 1)) as [->|Hna]; [rewrite rd8_wr8_eq, H0; reflexivity|].
      rewrite rd8_wr8_ne by congruence. reflexivity. }
    rewrite Hfind by exact Hz. eexists. split; [reflexivity|]. apply Hres, Hz.
Qed.

(** *** Tokenizing a name *)

(** The string that [kstrtok] compares with is a token. *)
Definition token_in (m : mem) (st : tok_state) (lo hi : Z) : Prop :=
  exists c, cstr m (check st) c /\ 47 ∉ c /\ lo <= check st /\ check st + slen c < hi.

Lemma tokens_spec fuel m st p d tl lo hi :
  p <> 0 -> 0 < p < 2 ^ 63 -> cstr m p (d ++ 47 :: tl) -> length d = 3%nat -> 47 ∉ d -> 47 ∉ tl -> (length tl < 90)%nat ->
  cstr m (slash Y) [47] -> apart p (5 + slen tl) (slash Y) 2 -> token_in m st lo hi -> hi - lo < 256 -> (300 < fuel)%nat ->
  exists m' st' st1 j, kstrtok fuel m st p (slash Y) = Some (p, m', st1)
    /\ count_tokens Y fuel m' st1 p 0 = Some (j, m', st')
    /\ cstr m' p d /\ cstr m' (p + 4) tl /\ (forall a, a <> p + 3 -> rd8 m' a = rd8 m a)
    /\ token_in m' st' p (p + 100).
Proof.
  intros Hp Hpr Hs Hd Hd47 Ht47 Hlt Hsl Hap (sc & Hsc & Hsc47 & Hc0 & Hc1) Hhi Hf. unfold apart in Hap.
  destruct d as [|c d]; [discriminate Hd|]. assert (Hd2 : length d = 2%nat) by (injection Hd as Hd; exact Hd).
  destruct (kstrtok_split_spec m st p (slash Y) 47 c d tl sc fuel) as (m' & E & H1 & H2 & H3);
    try assumption; try lia.
  { intros ->. apply Hsc47, elem_of_app. right. left. }
  assert (Hln : slen (c :: d) = 3) by (cbn [length]; lia). rewrite Hln in E, H2, H3. replace (p + 3 + 1) with (p + 4) in * by lia.
  assert (Hsl' : cstr m' (slash Y) [47]).
  { eapply cstr_ext; [|exact Hsl]. intros a Ha. apply H3. cbn [length] in Ha. lia. }
  assert (T1 : token_in m' (mk_tok (p + 4) p) p (p + 100)) by (exists (c :: d); cbn [check]; rewrite Hln; repeat split; [apply H1..|exact Hd47|lia|lia]).
  cut (exists st' j, count_tokens Y fuel m' (mk_tok (p + 4) p) p 0 = Some (j, m', st') /\ token_in m' st' p (p + 100)).
  { intros (st' & j & Ec & Ht). exists m', st', (mk_tok (p + 4) p), j. auto 10. }
  clear E. destruct fuel as [|[|[|fuel]]]; try lia. cbn [count_tokens]. rewrite (proj2 (Z.eqb_neq p 0)) by exact Hp.
  destruct tl as [|x tl].
  - assert (E2 : kstrtok (S (S (S fuel))) m' (mk_tok (p + 4) p) 0 (slash Y) = Some (0, m', mk_tok (p + 4) p)).
    { unfold kstrtok. cbn [Z.eqb _buffer]. simpl in H2. rewrite H2. reflexivity. }
    rewrite E2. exists (mk_tok (p + 4) p), 1. split; [reflexivity|exact T1].
  - set (t := x :: tl) in *.
    assert (Hb : rd8 m' (p + 4) <> 0) by (destruct H2 as (-> & ? & _); assumption).
    assert (K : forall f st1, _buffer st1 = p + 4 -> (298 < f)%nat ->
      forall c1, cstr m' (check st1) c1 -> (length c1 < 256)%nat ->
      kstrtok f m' st1 0 (slash Y) = Some (if decide (c1 = t) then (0, m', st1) else (p + 4, m', mk_tok (p + 4) (p + 4)))).
    { intros f st1 Hbuf Hff c1 Hcs Hl1. unfold kstrtok. cbn [Z.eqb]. rewrite Hbuf, (proj2 (Z.eqb_neq _ 0)) by exact Hb.
      rewrite (kstrcmp_spec _ _ _ _ c1 t Hcs H2) by lia. destruct (decide (c1 = t)) as [->|Hne].
      - rewrite (proj2 (Z.eqb_eq _ 0)); [reflexivity|]. apply strcmp_spec_0; eauto using cstr_nonzero.
      - rewrite (proj2 (Z.eqb_neq _ 0)); [|rewrite strcmp_spec_0; eauto using cstr_nonzero].
        destruct f as [|f]; [lia|]. rewrite (tok_outer_last f _ _ _ 47 _ _ t) by (assumption || lia). rewrite Hbuf. reflexivity. }
    rewrite (K (S (S (S fuel))) (mk_tok (p + 4) p) eq_refl ltac:(lia) (c :: d) H1 ltac:(cbn [length]; lia)).
    destruct (decide (c :: d = t)) as [_|_].
    + exists (mk_tok (p + 4) p), 1. split; [reflexivity|exact T1].
    + cbn [count_tokens]. rewrite (proj2 (Z.eqb_neq (p + 4) 0)) by lia.
      rewrite (K (S (S fuel)) (mk_tok (p + 4) (p + 4)) eq_refl ltac:(lia) t H2 ltac:(lia)), decide_True by reflexivity.
      exists (mk_tok (p + 4) (p + 4)), 2. split; [reflexivity|].
      exists t. cbn [check]. repeat split; [apply H2..|exact Ht47|lia|lia].
Qed.

(** *** The directory entry *)

Definition inode_at (i : Z) : Z := ino Y + SIZEOF_inode * i.

(** The bytes of directory entry and inode [i]. *)
Definition node (i a : Z) : Prop :=
  dentry i <= a < dentry i + SIZEOF_dentry \/ inode_at i <= a < inode_at i + SIZEOF_inode.

Lemma set_dirents_spec fuel s i d tl lo hi :
  num_dentries s = i -> num_inodes s = i -> 0 < tent i < 2 ^ 63 ->
  cstr (tm s) (tent i) (d ++ 47 :: tl) -> length d = 3%nat -> 47 ∉ d -> 47 ∉ tl -> (length tl < 90)%nat ->
  cstr (tm s) (slash Y) [47] -> token_in (tm s) (ttok s) lo hi -> hi - lo < 256 ->
  (forall a, node i a -> ~ (tent i <= a < tent i + 280) /\ ~ (slash Y <= a < slash Y + 2) /\ ~ (lo <= a < hi)) ->
  apart (tent i) 280 (slash Y) 2 -> (300 < fuel)%nat ->
  exists s', set_dirents Y fuel s i = Some s' /\ num_dentries s' = i /\ num_inodes s' = i
    /\ cstr (tm s') (tent i) d /\ cstr (tm s') (tent i + 4) tl
    /\ (forall a, ~ node i a -> a <> tent i + 3 -> rd8 (tm s') a = rd8 (tm s) a)
    /\ token_in (tm s') (ttok s') (tent i) (tent i + 100).
Proof.
  intros Hnd Hni Hti Hs Hd Hd47 Ht47 Hlt Hsl Htok Hhi Hnode Hap Hf. unfold set_dirents. rewrite Hnd, Hni.
  fold (inode_at i). unfold node in *. unfold SIZEOF_dentry, SIZEOF_inode, DE_inode_entry, DE_d_parent, IN_i_size, IN_ref_count, IN_i_block_count in *.
  assert (Hls : length (d ++ 47 :: tl) = (4 + length tl)%nat) by (rewrite length_app, Hd; cbn [length]; lia).
  assert (Hdt : apart (dentry i) 272 (tent i) 280).
  { unfold apart. destruct (decide (dentry i + 272 <= tent i)); [left; lia|].
    destruct (decide (tent i + 280 <= dentry i)); [right; lia|].
    destruct (decide (dentry i <= tent i)); [destruct (Hnode (tent i)) as [H _]; lia|destruct (Hnode (dentry i)) as [H _]; lia]. }
  unfold apart in *.
  destruct (kstrcpy_spec fuel (tm s) (dentry i) (tent i) _ Hs) as (m1 & -> & _ & Hf1); [lia|lia|].
  set (m2 := wr64 _ (dentry i + 256) _).
  assert (Hm2 : forall a, ~ (dentry i <= a < dentry i + 272 \/ inode_at i <= a < inode_at i + 96) -> rd8 m2 a = rd8 (tm s) a).
  { intros a Ha. unfold m2. rewrite rd8_wr64_ne, rd8_wr32_ne, rd8_wr64_ne, rd8_wr32_ne, rd8_wr64_ne by lia. apply Hf1. lia. }
  clearbody m2.
  assert (Hx : forall p c, (forall a, p <= a <= p + slen c -> ~ (dentry i <= a < dentry i + 272 \/ inode_at i <= a < inode_at i + 96)) ->
    cstr (tm s) p c -> cstr m2 p c) by (intros p c Hp; apply cstr_ext; intros a Ha; apply Hm2, Hp, Ha).
  destruct (tokens_spec fuel m2 (ttok s) (tent i) d tl lo hi) as (m3 & st' & st1 & j & E1 & E2 & H1 & H2 & H3 & H4);
    try assumption; try lia.
  - apply Hx; [|exact Hs]. intros a Ha Hn. destruct (Hnode a Hn) as [H _]. lia.
  - apply Hx; [|exact Hsl]. intros a Ha Hn. destruct (Hnode a Hn) as (_ & H & _). cbn [length] in Ha. lia.
  - unfold apart. lia.
  - destruct Htok as (c & Hc & Hc47 & Hc0 & Hc1). exists c. split; [|auto]. apply Hx; [|exact Hc].
    intros a Ha Hn. destruct (Hnode a Hn) as (_ & _ & H). lia.
  - rewrite E1, E2. eexists. split; [reflexivity|]. cbn [num_dentries num_inodes tm ttok].
    split; [reflexivity|]. split; [reflexivity|]. set (m4 := if _ =? _ then _ else _).
    assert (Hm4 : forall a, ~ (dentry i + 264 <= a < dentry i + 272) -> rd8 m4 a = rd8 m3 a).
    { intros a Ha. unfold m4. destruct (j =? 1); [apply rd8_wr64_ne; lia|].
      destruct (find_parent _ _ _); [apply rd8_wr64_ne; lia|reflexivity]. }
    clearbody m4. destruct H4 as (c & Hc & Hc47 & Hc0 & Hc1).
    split; [eapply cstr_ext; [|exact H1]; intros a Ha; apply Hm4; lia|].
    split; [eapply cstr_ext; [|exact H2]; intros a Ha; apply Hm4; lia|].
    split; [intros a Ha Hb; rewrite Hm4, H3 by lia; apply Hm2, Ha|].
    exists c. split; [|auto]. eapply cstr_ext; [|exact Hc]. intros a Ha. apply Hm4. lia.
Qed.

(** ** One member *)

Context (n lit : Z) (A : Z).

(** What mounting must not change: the archive, the delimiter string and the
    literal that the tokenizer starts from. *)
Definition fixed (a : Z) : Prop :=
  _binary_tarfs_start Y <= a < _binary_tarfs_start Y + A \/ slash Y <= a < slash Y + 2 \/ lit <= a < lit + 3.

(** The objects of an archive of [n] members do not overlap. *)
Record mount_layout : Prop := {
  ml_count : 0 <= n <= 16;
  ml_table : 0 < tarfs_fs Y /\ tent (n + 1) < 2 ^ 63;
  ml_start : 0 <= _binary_tarfs_start Y < 2 ^ 63;
  ml_fixed : forall a, fixed a -> ~ (tarfs_fs Y <= a < tent (n + 1)) /\ ~ (name_buf Y <= a < name_buf Y + 100);
  ml_name : apart (name_buf Y) 100 (tarfs_fs Y) (280 * (n + 1));
  ml_node : forall i a, 0 <= i < n -> node i a ->
    ~ fixed a /\ ~ (tarfs_fs Y <= a < tent (n + 1)) }.

(** Entry [i] of the table describes the member whose header is at [hdr]. *)
Record mounted (m : mem) (i : Z) (e : member) (d tl : list Z) (hdr : Z) : Prop := {
  mo_dir : cstr m (tent i) d;
  mo_tail : cstr m (tent i + 4) tl;
  mo_hdr : rd64 m (tent i + TE_addr_hdr) = hdr;
  mo_size : rd32 m (tent i + TE_size) = slen (mb_data e);
  mo_type : rd32 m (tent i + TE_typeflag) = mb_type e;
  mo_index : rd32 m (tent i + TE_index) = i }.

Lemma mounted_ext m m' i e d tl hdr :
  (forall a, tent i <= a < tent i + 280 -> rd8 m' a = rd8 m a) -> (length d = 3)%nat -> (length tl < 90)%nat ->
  mounted m i e d tl hdr -> mounted m' i e d tl hdr.
Proof.
  intros H Hd Ht [H1 H2 H3 H4 H5 H6]. unfold TE_addr_hdr, TE_size, TE_typeflag, TE_index in *.
  constructor; unfold TE_addr_hdr, TE_size, TE_typeflag, TE_index.
  - eapply cstr_ext; [|exact H1]. intros a Ha. apply H. lia.
  - eapply cstr_ext; [|exact H2]. intros a Ha. apply H. lia.
  - rewrite <- H3. apply rd64_ext. intros a Ha. apply H. lia.
  - rewrite <- H4. apply rd32_ext. intros a Ha. apply H. lia.
  - rewrite <- H5. apply rd32_ext. intros a Ha. apply H. lia.
  - rewrite <- H6 at 2. apply rd32_ext. intros a Ha. apply H. lia.
Qed.

(** What an iteration for entry [i] may write. *)
Definition written (i a : Z) : Prop :=
  tent i <= a < tent i + 280 \/ name_buf Y <= a < name_buf Y + 100 \/ node i a.

Lemma init_step_extent e : slen (mb_data e) < 2 ^ 31 -> init_step (slen (mb_data e)) = extent e.
Proof.
  intros H. unfold init_step, extent, u32. set (k := slen (mb_data e)) in *.
  assert (0 <= k) by lia. clearbody k.
  destruct (Z.eqb_spec k 0) as [->|]; [reflexivity|].
  destruct (Z.eqb_spec (k mod 512) 0); rewrite Z.mod_small by zdiv; zdiv.
Qed.

Lemma named_member_ext m m' p e d tl :
  (forall a, p <= a < p + 512 -> rd8 m' a = rd8 m a) -> named_member m p e d tl -> named_member m' p e d tl.
Proof.
  intros H [H1 H2 H3 H4 H5]. unfold HDR_typeflag in *. constructor; try assumption.
  unfold HDR_typeflag. rewrite !H by lia. exact H4.
Qed.

(** Room for the token that the tokenizer remembers: the literal or an earlier entry. *)
Definition remembered (i lo hi : Z) : Prop :=
  hi - lo < 256 /\ forall a, lo <= a < hi -> lit <= a < lit + 3 \/ tarfs_fs Y <= a < tent i.

(** The name, size, header address and type of an entry. *)
Lemma fill_entry_spec fuel m i e d tl p :
  member_at m p e -> named_member m p e d tl -> slen (mb_data e) < 2 ^ 31 -> 0 <= p < 2 ^ 64 ->
  (forall a, p <= a < p + 512 -> ~ (tent i <= a < tent i + 280)) -> (400 <= fuel)%nat ->
  exists m1, kstrcpy fuel m (tent i) p = Some m1 /\
    let m3 := wr64 (wr32 m1 (tent i + TE_size) (slen (mb_data e))) (tent i + TE_addr_hdr) p in
    let m4 := wr32 m3 (tent i + TE_typeflag) (stoi m3 (p + HDR_typeflag)) in
    (forall a, ~ (tent i <= a < tent i + 280) -> rd8 m4 a = rd8 m a) /\ cstr m4 (tent i) (d ++ 47 :: tl)
    /\ rd32 m4 (tent i + TE_typeflag) = mb_type e /\ rd64 m4 (tent i + TE_addr_hdr) = p
    /\ rd32 m4 (tent i + TE_size) = slen (mb_data e).
Proof.
  intros Hm Hnamed Hsz Hp Hap Hf. unfold TE_size, TE_addr_hdr, TE_typeflag.
  pose proof Hnamed as [Hname [Hd _] [_ Hlt] _ Hk].
  assert (Hls : length (mb_name e) = (4 + length tl)%nat) by (rewrite Hname, length_app, Hd; cbn [length]; lia).
  assert (Hty : 0 <= mb_type e < 10) by (unfold FILE_TYPE, DIRECTORY in Hk; lia).
  destruct (kstrcpy_spec fuel m (tent i) p (mb_name e) (ma_name _ _ _ Hm)) as (m1 & -> & Hn1 & Hf1); [lia| |].
  { destruct (decide (tent i < p)); [left; assumption|right].
    destruct (decide (p + slen (mb_name e) < tent i)); [assumption|]. specialize (Hap (tent i)). lia. }
  exists m1. split; [reflexivity|]. cbv zeta.
  set (m2 := wr32 m1 (tent i + 256) _). set (m3 := wr64 m2 (tent i + 264) _).
  assert (Hm3 : forall a, ~ (tent i <= a < tent i + 280) -> rd8 m3 a = rd8 m a).
  { intros a Ha. unfold m3, m2. rewrite rd8_wr64_ne, rd8_wr32_ne by lia. apply Hf1. lia. }
  assert (Hst : stoi m3 (p + HDR_typeflag) = mb_type e).
  { eapply named_type, named_member_ext; [|exact Hnamed]. intros a Ha. apply Hm3, Hap, Ha. }
  rewrite Hst. split; [intros a Ha; rewrite rd8_wr32_ne by lia; apply Hm3, Ha|]. split.
  { rewrite <- Hname. eapply cstr_ext; [|exact Hn1]. intros a Ha. unfold m3, m2.
    rewrite rd8_wr32_ne, rd8_wr64_ne, rd8_wr32_ne by lia. reflexivity. }
  split; [rewrite rd32_wr32_eq; apply u32_small; lia|].
  split; [unfold m3; rewrite rd64_wr32_ne, rd64_wr64_eq by lia; apply u64_small; lia|].
  unfold m3. rewrite rd32_wr32_ne by lia. rewrite (rd32_ext m2) by (intros a Ha; apply rd8_wr64_ne; lia).
  unfold m2. rewrite rd32_wr32_eq. apply u32_small. lia.
Qed.

Lemma mount_step fuel s tv tmp i e d tl lo hi :
  mount_layout -> 0 <= i < n -> num_dentries s = i -> num_inodes s = i ->
  let p := _binary_tarfs_start Y + tmp in
  member_at (tm s) p e -> named_member (tm s) p e d tl -> slen (mb_data e) < 2 ^ 31 ->
  0 <= tmp -> tmp + extent e <= A -> tmp + extent e < 2 ^ 31 -> tv < _binary_tarfs_end Y -> p < 2 ^ 63 ->
  cstr (tm s) (slash Y) [47] -> token_in (tm s) (ttok s) lo hi -> remembered i lo hi ->
  cut_before (tm s) i -> (forall j c, 0 <= j < i -> cstr (tm s) (tent j) c -> (length c < 256)%nat) ->
  (400 <= fuel)%nat ->
  exists s', init_tarfs_loop Y (S fuel) s tv tmp i = init_tarfs_loop Y fuel s' p (tmp + extent e) (i + 1)
    /\ mounted (tm s') i e d tl p /\ num_dentries s' = i + 1 /\ num_inodes s' = i + 1
    /\ (forall a, ~ written i a -> rd8 (tm s') a = rd8 (tm s) a)
    /\ token_in (tm s') (ttok s') (tent i) (tent i + 100).
Proof.
  intros [Ln [Lt0 Lt1] Ls Lf Lnm Lnd] Hi Hnd Hni p Hm Hnamed Hsz Htmp HA Htb Htv Hp63 Hsl Htok [Hhi Hrem] Hcut Hshort Hf.
  unfold apart in *. pose proof (extent_pos e) as Hext.
  assert (Hte : forall j, 0 <= j <= n -> tarfs_fs Y <= tent j /\ tent j + 280 <= tent (n + 1))
    by (intros j Hj; unfold tent, Tarfs.tent, SIZEOF_tarfs_entry; lia).
  destruct (Hte i ltac:(lia)) as [Hti0 Hti1]. assert (Hm280 : 280 * (n + 1) = tent (n + 1) - tarfs_fs Y) by (unfold tent, Tarfs.tent, SIZEOF_tarfs_entry; lia).
  pose proof Hnamed as [Hname [Hd Hd47] [Ht47 Hlt] _ Hk].
  assert (Hls : length (mb_name e) = (4 + length tl)%nat) by (rewrite Hname, length_app, Hd; cbn [length]; lia).
  assert (Harc : forall a, p <= a < p + extent e -> fixed a) by (intros a Ha; left; unfold p in Ha; lia).
  cbn [init_tarfs_loop]. rewrite (proj2 (Z.ltb_lt tv _)) by exact Htv. fold p.
  rewrite (member_strlen (S fuel) _ _ _ Hm) by lia. rewrite (member_size _ _ _ Hm).
  rewrite (proj2 (Z.eqb_neq (slen (mb_name e) + 1) 0)) by lia. rewrite u32_small by lia.
  destruct (fill_entry_spec (S fuel) (tm s) i e d tl p Hm Hnamed Hsz) as (m1 & -> & Hm4 & Hn4 & Ht4 & Hh4 & Hs4);
    [unfold p; lia|intros a Ha; destruct (Lf a (Harc a ltac:(lia))) as [H _]; lia|lia|].
  set (m4 := wr32 _ (tent i + TE_typeflag) _) in *. clearbody m4. unfold TE_size, TE_addr_hdr, TE_typeflag in *.
  assert (Hty : 0 <= mb_type e < 10) by (unfold FILE_TYPE, DIRECTORY in Hk; lia).
  destruct (set_index_spec (S fuel) m4 i (mb_type e) d tl) as (m5 & -> & Hx5 & Hf5); try assumption; try lia.
  { unfold TE_typeflag. rewrite Ht4. apply s32_small. lia. }
  { intros j Hj. destruct (Hcut j Hj) as (c & Hc & Hc47). exists c. split; [|exact Hc47].
    pose proof (Hshort j c Hj Hc). destruct (Hte j ltac:(lia)). eapply cstr_ext; [|exact Hc]. intros a Ha. apply Hm4.
    unfold tent, Tarfs.tent, SIZEOF_tarfs_entry in *. nia. }
  { intros j Hj. destruct (Hte j ltac:(lia)). unfold apart. lia. }
  { intros j c Hj Hc. destruct (Hcut j Hj) as (c' & Hc' & _). pose proof (Hshort j c' Hj Hc') as Hl. destruct (Hte j ltac:(lia)).
    assert (Hc4 : cstr m4 (tent j) c').
    { eapply cstr_ext; [|exact Hc']. intros a Ha. apply Hm4. unfold tent, Tarfs.tent, SIZEOF_tarfs_entry in *. nia. }
    rewrite (cstr_inj _ _ _ _ Hc Hc4). exact Hl. }
  unfold TE_index in *.
  assert (Hf5' : forall a, ~ (tent i <= a < tent i + 280) -> ~ (name_buf Y <= a < name_buf Y + 100) -> rd8 m5 a = rd8 (tm s) a)
    by (intros a Ha Hb; rewrite Hf5 by lia; apply Hm4, Ha).
  assert (Hin5 : forall a, tent i <= a < tent i + 272 -> rd8 m5 a = rd8 m4 a) by (intros a Ha; apply Hf5; lia).
  destruct (set_dirents_spec (S fuel) (with_tm s m5) i d tl lo hi) as (s6 & -> & Hd6 & Hi6 & Hc6 & Htl6 & Hf6 & Htok6);
    cbn [with_tm tm num_dentries num_inodes ttok]; try assumption; try lia.
  { eapply cstr_ext; [|exact Hn4]. rewrite <- Hname, Hls. intros a Ha. apply Hin5. lia. }
  { eapply cstr_ext; [|exact Hsl]. cbn [length]. intros a Ha. destruct (Lf a) as [H H']; [right; left; lia|]. apply Hf5'; lia. }
  { destruct Htok as (c & Hc & Hc47 & Hc0 & Hc1). exists c. split; [|auto]. eapply cstr_ext; [|exact Hc]. intros a Ha.
    destruct (Hrem a ltac:(lia)) as [H|H].
    - destruct (Lf a) as [H1 H2]; [right; right; exact H|]. apply Hf5'; lia.
    - apply Hf5'; lia. }
  { intros a Ha. destruct (Lnd i a ltac:(lia) Ha) as [N1 N2]. split; [lia|]. split; [intros H; apply N1; right; left; exact H|].
    intros H. destruct (Hrem a H) as [H'|H']; [apply N1; right; right; exact H'|lia]. }
  { unfold apart. destruct (decide (tent i + 280 <= slash Y)); [left; assumption|]. destruct (decide (slash Y + 2 <= tent i)); [right; assumption|].
    destruct (decide (tent i <= slash Y)).
    - destruct (Lf (slash Y)) as [H _]; [right; left; lia|lia].
    - destruct (Lf (tent i)) as [H _]; [right; left; lia|lia]. }
  exists (mk_tfs (tm s6) (ttok s6) (i + 1) (i + 1)). rewrite Hd6, Hi6, !u16_small, u32_small by lia.
  rewrite init_step_extent, s32_small by lia. split; [reflexivity|]. cbn [tm ttok num_dentries num_inodes].
  assert (Hin6 : forall a, tent i + 256 <= a < tent i + 280 -> rd8 (tm s6) a = rd8 m5 a).
  { intros a Ha. apply (Hf6 a); [|lia]. intros Hn. destruct (Lnd i a ltac:(lia) Hn) as [_ H]. lia. }
  split; [|split; [reflexivity|split; [reflexivity|split; [|exact Htok6]]]].
  - constructor; unfold TE_size, TE_addr_hdr, TE_typeflag, TE_index; try assumption.
    + rewrite <- Hh4. apply rd64_ext. intros a Ha. rewrite Hin6 by lia. apply Hin5. lia.
    + rewrite <- Hs4. apply rd32_ext. intros a Ha. rewrite Hin6 by lia. apply Hin5. lia.
    + rewrite <- Ht4. apply rd32_ext. intros a Ha. rewrite Hin6 by lia. apply Hin5. lia.
    + rewrite <- Hx5 at 2. apply rd32_ext. intros a Ha. apply Hin6. lia.
  - unfold written. intros a Ha. rewrite (Hf6 a) by (intros; lia || (intros H; apply Ha; auto)). cbn [with_tm tm]. apply Hf5'; lia.
Qed.

(** ** The whole archive *)

Fixpoint rows (es : list member) (tmp : Z) : list row :=
  match es with
  | [] => []
  | e :: es => mk_row (drop 4 (mb_name e)) (_binary_tarfs_start Y + tmp) :: rows es (tmp + extent e)
  end.

Fixpoint named_from (m : mem) (p : Z) (es : list member) : Prop :=
  match es with
  | [] => True
  | e :: es => (exists d tl, named_member m p e d tl) /\ named_from m (p + extent e) es
  end.

Lemma named_from_ext m m' p es :
  (forall a, p <= a < p + archive_size es -> rd8 m' a = rd8 m a) -> named_from m p es -> named_from m' p es.
Proof.
  revert p. induction es as [|e es IH]; intros p H; [auto|]. cbn [named_from archive_size foldr] in *.
  fold (archive_size es) in H. pose proof (extent_pos e). pose proof (archive_size_pos es).
  intros [(d & tl & Hn) Hs]. split; [|apply IH; [intros a Ha; apply H; lia|exact Hs]].
  exists d, tl. eapply named_member_ext; [|exact Hn]. intros a Ha. apply H. lia.
Qed.

Lemma named_fit m p es : named_from m p es -> names_fit es.
Proof.
  revert p. induction es as [|e es IH]; intros p Hn; constructor.
  - destruct Hn as [(d & tl & [H1 [H2 _] [_ H3] _ _]) _]. rewrite H1, length_app, H2. cbn [length]. lia.
  - destruct Hn as [_ Hn]. eapply IH, Hn.
Qed.

Lemma mounted_row m i e d tl hdr :
  mounted m i e d tl hdr -> named_member m hdr e d tl -> length d = 3%nat -> (length tl < 90)%nat ->
  row_at Y m i (mk_row (drop 4 (mb_name e)) hdr).
Proof.
  intros [H1 H2 H3 _ _ _] [Hn _ _ _ _] Hd Ht.
  assert (E : drop 4 (mb_name e) = tl) by (rewrite Hn; destruct d as [|? [|? [|? [|]]]]; try discriminate Hd; reflexivity).
  rewrite E. constructor; cbn [r_tail r_hdr]; [|exact H2|lia|exact H3].
  exists d. split; [exact H1|]. split; [intros ->; discriminate|lia].
Qed.

Lemma mount_loop_spec fuel es s tv tmp i lo hi :
  mount_layout -> 0 <= i -> i + slen es = n -> num_dentries s = i -> num_inodes s = i ->
  let p := _binary_tarfs_start Y + tmp in
  archive (tm s) p es -> named_from (tm s) p es -> Forall (fun e => slen (mb_data e) < 2 ^ 31) es ->
  0 <= tmp -> tmp + archive_size es + 512 <= A -> tmp + archive_size es < 2 ^ 31 ->
  tv <= p -> p + archive_size es < _binary_tarfs_end Y -> _binary_tarfs_start Y + A < 2 ^ 63 ->
  cstr (tm s) (slash Y) [47] -> token_in (tm s) (ttok s) lo hi -> remembered i lo hi ->
  cut_before (tm s) i -> (forall j c, 0 <= j < i -> cstr (tm s) (tent j) c -> (length c < 256)%nat) ->
  rd8 (tm s) (tent n) = 0 -> (401 + length es <= fuel)%nat ->
  exists s', init_tarfs_loop Y fuel s tv tmp i = Some s' /\ num_dentries s' = n
    /\ table Y (tm s') i (rows es tmp)
    /\ (forall a, (forall k, i <= k < n -> ~ written k a) -> rd8 (tm s') a = rd8 (tm s) a).
Proof.
  intros Hlay. pose proof Hlay as [Ln [Lt0 Lt1] Ls Lf Lnm Lnd].
  assert (Htj : forall j, tent j = tarfs_fs Y + 280 * j) by reflexivity.
  revert fuel s tv tmp i lo hi.
  induction es as [|e es IH]; intros fuel s tv tmp i lo hi Hi Hin Hnd Hni p Har Hnm Hsz Htmp HA Hb Htv Hend H63 Hsl Htok Hrem Hcut Hsh Hz Hf;
    destruct fuel as [|fuel]; try lia; cbn [length archive_size foldr] in *.
  - replace n with i in * by lia. destruct Har as [H0 H1]. cbn [init_tarfs_loop]. fold p.
    rewrite (proj2 (Z.ltb_lt tv _)) by lia. rewrite (kstrlen_spec (S fuel) (tm s) p []) by (exact H0 || (cbn; lia)).
    rewrite (end_size _ _ H1). cbn [decide]. exists s. rewrite decide_True by reflexivity.
    split; [reflexivity|]. split; [exact Hnd|]. split; [exact Hz|reflexivity].
  - fold (archive_size es) in *. pose proof (archive_size_pos es). pose proof (extent_pos e).
    destruct Har as [Hm Har], Hnm as [(d & tl & Hnamed) Hnm]. apply Forall_cons_1 in Hsz as [Hsz Hszs].
    destruct (mount_step fuel s tv tmp i e d tl lo hi Hlay) as (s1 & -> & Hmo & Hd1 & Hi1 & Hf1 & Ht1);
      try assumption; try lia.
    pose proof Hnamed as [_ [Hd3 Hd47] [Ht47 Htl90] _ _].
    assert (Hfix : forall a, fixed a -> rd8 (tm s1) a = rd8 (tm s) a).
    { intros a Ha. apply Hf1. intros Hw. destruct (Lf a Ha) as [F1 F2]. rewrite !Htj in F1. unfold written in Hw. rewrite Htj in Hw.
      destruct Hw as [Hw|[Hw|Hw]]; [lia|lia|]. destruct (Lnd i a ltac:(lia) Hw) as [H' _]. contradiction. }
    assert (Htab : forall a, tarfs_fs Y <= a < tent (n + 1) -> ~ (tent i <= a < tent i + 280) -> rd8 (tm s1) a = rd8 (tm s) a).
    { intros a Ha Hna. apply Hf1. unfold apart in Lnm. rewrite !Htj in *. intros [Hw|[Hw|Hw]]; rewrite ?Htj in *; [lia|lia|].
      destruct (Lnd i a ltac:(lia) Hw) as [_ H']. rewrite ?Htj in H'. lia. }
    assert (Hq : _binary_tarfs_start Y + (tmp + extent e) = p + extent e) by (unfold p; lia).
    destruct (IH fuel s1 p (tmp + extent e) (i + 1) (tent i) (tent i + 100)) as (s' & E & Hn' & Htb & Hfr);
      rewrite ?Hq; try assumption; try lia.
    + eapply archive_ext; [|eapply named_fit, Hnm|exact Har]. intros a Ha. apply Hfix. left. unfold p in Ha. lia.
    + eapply named_from_ext; [|exact Hnm]. intros a Ha. apply Hfix. left. unfold p in Ha. lia.
    + eapply cstr_ext; [|exact Hsl]. intros a Ha. apply Hfix. right. left. cbn [length] in Ha. lia.
    + split; [lia|]. intros a Ha. right. rewrite !Htj in *. lia.
    + intros j Hj. destruct (decide (j = i)) as [->|Hne]; [exists d; split; [apply Hmo|exact Hd47]|].
      destruct (Hcut j ltac:(lia)) as (c & Hc & Hc47). exists c. split; [|exact Hc47]. pose proof (Hsh j c ltac:(lia) Hc).
      eapply cstr_ext; [|exact Hc]. intros a Ha. apply Htab; rewrite !Htj in *; lia.
    + intros j c Hj Hc. destruct (decide (j = i)) as [->|Hne]; [rewrite (cstr_inj _ _ _ _ Hc (mo_dir _ _ _ _ _ _ Hmo)); lia|].
      destruct (Hcut j ltac:(lia)) as (c' & Hc' & _). pose proof (Hsh j c' ltac:(lia) Hc') as Hl.
      assert (Hc1 : cstr (tm s1) (tent j) c') by (eapply cstr_ext; [|exact Hc']; intros a Ha; apply Htab; rewrite !Htj in *; lia).
      rewrite (cstr_inj _ _ _ _ Hc Hc1). exact Hl.
    + rewrite <- Hz. apply Htab; rewrite !Htj; lia.
    + exists s'. split; [exact E|]. split; [exact Hn'|]. split.
      * cbn [rows table]. split; [|exact Htb]. eapply row_at_ext; [|eapply mounted_row; [exact Hmo| |exact Hd3|exact Htl90]].
        -- intros a Ha. apply Hfr. intros k Hk Hw. unfold apart in Lnm. destruct Hw as [Hw|[Hw|Hw]]; rewrite ?Htj in *; [lia|lia|].
           destruct (Lnd k a ltac:(lia) Hw) as [_ H']. rewrite ?Htj in H'. lia.
        -- eapply named_member_ext; [|exact Hnamed]. intros a Ha. apply Hfix. left. unfold p in Ha. lia.
      * intros a Ha. rewrite Hfr by (intros k Hk; apply Ha; lia). apply Hf1, Ha. lia.
Qed.

(** The archive before it is mounted, in the state [s]. *)
Record mountable (s : tfs) (es : list member) : Prop := {
  mn_layout : mount_layout;
  mn_count : slen es = n;
  mn_start : num_dentries s = 0 /\ num_inodes s = 0;
  mn_archive : archive (tm s) (_binary_tarfs_start Y) es;
  mn_named : named_from (tm s) (_binary_tarfs_start Y) es;
  mn_sizes : Forall (fun e => slen (mb_data e) < 2 ^ 31) es;
  mn_size : archive_size es + 512 <= A /\ archive_size es < 2 ^ 31 /\ _binary_tarfs_start Y + A < 2 ^ 63;
  mn_end : _binary_tarfs_start Y + archive_size es < _binary_tarfs_end Y;
  mn_slash : cstr (tm s) (slash Y) [47];
  mn_check : check (ttok s) = lit /\ cstr (tm s) lit [45; 49];
  mn_empty : rd8 (tm s) (tent n) = 0 }.

Lemma init_tarfs_spec fuel s es :
  mountable s es -> (401 + length es <= fuel)%nat ->
  exists s', init_tarfs Y fuel s = Some s' /\ num_dentries s' = n /\ table Y (tm s') 0 (rows es 0)
    /\ (forall a, (forall k, 0 <= k < n -> ~ written k a) -> rd8 (tm s') a = rd8 (tm s) a).
Proof.
  intros [H1 H2 [H3 H4] H5 H6 H7 (H8 & H9 & H10) H11 H12 [H13 H14] H15] Hf. unfold init_tarfs.
  apply (mount_loop_spec fuel es s _ 0 0 lit (lit + 3)); rewrite ?Z.add_0_r; try assumption; try lia.
  - exists [45; 49]. rewrite H13. split; [exact H14|]. split; [rewrite !not_elem_of_cons; repeat split; try lia; apply not_elem_of_nil|cbn [length]; lia].
  - split; [lia|]. auto.
  - intros j Hj. lia.
Qed.

(** The first member of that name is the one that is found. *)
Lemma find_row_rows es tmp k i e :
  es !! i = Some e -> (forall j e', (j < i)%nat -> es !! j = Some e' -> drop 4 (mb_name e') <> drop 4 (mb_name e)) ->
  find_row (drop 4 (mb_name e)) (rows es tmp) k
  = Some (k + Z.of_nat i, _binary_tarfs_start Y + (tmp + archive_size (take i es))).
Proof.
  revert tmp k i. induction es as [|e0 es IH]; intros tmp k [|i] Hi Hf; try discriminate Hi; cbn [rows find_row r_tail r_hdr].
  - injection Hi as ->. rewrite decide_True by reflexivity. cbn. repeat f_equal; lia.
  - rewrite decide_False by (apply (Hf 0%nat e0); [lia|reflexivity]).
    rewrite (IH (tmp + extent e0) (k + 1) i) by (exact Hi || (intros j e' Hj; apply (Hf (S j)); lia)).
    cbn [take archive_size foldr]. fold (archive_size (take i es)). f_equal. f_equal; lia.
Qed.

Lemma archive_lookup m p es i e :
  archive m p es -> es !! i = Some e -> member_at m (p + archive_size (take i es)) e
    /\ archive_size (take i es) + extent e <= archive_size es.
Proof.
  revert p i. induction es as [|e0 es IH]; intros p [|i] Ha Hi; try discriminate Hi; destruct Ha as [Hm Ha];
    cbn [take archive_size foldr]; fold (archive_size es).
  - injection Hi as ->. rewrite Z.add_0_r. pose proof (archive_size_pos es). split; [exact Hm|lia].
  - destruct (IH _ _ Ha Hi) as [H1 H2]. fold (archive_size (take i es)).
    replace (p + (extent e0 + archive_size (take i es))) with (p + extent e0 + archive_size (take i es)) by lia. split; [exact H1|lia].
Qed.

Lemma named_lookup m p es i e :
  named_from m p es -> es !! i = Some e -> exists d tl, mb_name e = d ++ 47 :: tl /\ length d = 3%nat /\ (length tl < 90)%nat.
Proof.
  revert p i. induction es as [|e0 es IH]; intros p [|i] Hn Hi; try discriminate Hi; destruct Hn as [(d & tl & [H1 [H2 _] [_ H3] _ _]) Hn].
  - injection Hi as ->. eauto.
  - eapply IH; eassumption.
Qed.
End mount.

(** ** Claim *)

(** C11: from the archive to the file's bytes.  [init_tarfs] on an archive of a
    directory and files below it terminates with one table entry per member;
    then opening a member by its path and reading from it stores the first [size]
    bytes of the member's contents and a terminator in the buffer, changes no other
    byte, and returns the number of bytes. *)
Theorem mount_open_read ready own Y n lit A fuel np (k : kbd) tok es i e file size buf codes :
  PageSource ready own -> let s := mk_tfs (kmem (kk k)) tok 0 0 in
  mountable Y n lit A s es -> (401 + length es <= fuel)%nat ->
  ready np (kk k) -> np + 4096 <= KWIN -> np <= VIRT_BASE ->
  es !! i = Some e -> (forall j e', (j < i)%nat -> es !! j = Some e' -> drop 4 (mb_name e') <> drop 4 (mb_name e)) ->
  (4 < length (mb_name e))%nat -> cstr (kmem (kk k)) file (mb_name e) ->
  (forall a, file <= a <= file + slen (mb_name e) -> forall j, 0 <= j < n -> ~ written Y j a) ->
  settled (own := own) np file (file + slen (mb_name e) + 1) -> 0 <= file < 2 ^ 63 ->
  settled (own := own) np (tarfs_fs Y) (tent Y n + 280) ->
  settled (own := own) np (_binary_tarfs_start Y) (_binary_tarfs_start Y + A) -> _binary_tarfs_start Y + A <= VIRT_BASE ->
  0 <= size < 2 ^ 31 -> apart (kphys buf) size (_binary_tarfs_start Y) A ->
  exists s' ks m', init_tarfs Y fuel s = Some s' /\ num_dentries s' = n
    /\ let k1 := with_kk k (with_mem (kk k) (tm s')) in
       openfile Y fuel (kk k1) file = Some (VIRT_BASE + np, ks, [])
       /\ let l := take (Z.to_nat size) (mb_data e) in
          readfile fuel (with_kk k1 ks) (VIRT_BASE + np) size buf codes = Some (slen l, with_kk k1 (with_mem ks m'), codes)
          /\ filled (kmem ks) m' (kphys buf) l.
Proof.
  intros HPS s Hmn Hf Hr Hw HnpV Hi Hfirst Hlen Hfile Hfw Hsf Hf63 Hst [Hsa Hsao] HAV Hsize Hbuf.
  destruct (init_tarfs_spec Y n lit A fuel s es Hmn Hf) as (s' & Es & Hn & Htab & Hfr).
  destruct Hmn as [Hlay Hcnt _ Har Hnm Hszs (HA1 & HA2 & HA3) _ _ _ _]. pose proof Hlay as [Ln _ Ls Lf _ Lnd].
  assert (Hfix : forall a, _binary_tarfs_start Y <= a < _binary_tarfs_start Y + A -> rd8 (tm s') a = rd8 (tm s) a).
  { intros a Ha. apply Hfr. intros j Hj Hw'. assert (Hfx : fixed Y lit A a) by (left; exact Ha). destruct (Lf a Hfx) as [F1 F2].
    destruct Hw' as [Hw'|[Hw'|Hw']]; [unfold tent, SIZEOF_tarfs_entry in *; lia|lia|].
    destruct (Lnd j a Hj Hw') as [H' _]. contradiction. }
  destruct (archive_lookup _ _ _ _ _ Har Hi) as [Hm Hext]. set (hdr := _binary_tarfs_start Y + archive_size (take i es)) in *.
  pose proof (archive_size_pos (take i es)) as Hofp. assert (Hde : slen (mb_data e) + 512 <= extent e) by (unfold extent; zdiv).
  destruct (named_lookup _ _ _ _ _ Hnm Hi) as (d & tl & En & Ed & Et).
  assert (Hnl : (length (mb_name e) < 256)%nat) by (rewrite En, length_app, Ed; cbn [length]; lia).
  assert (Hrl : length (rows Y es 0) = length es) by (clear; generalize 0; induction es; intros z; cbn; auto).
  assert (Hkh : kphys hdr = hdr) by (unfold kphys, hdr in *; case Z.leb_spec; lia).
  exists s'. set (k1 := with_kk k (with_mem (kk k) (tm s'))).
  destruct (open_read_spec Y fuel np k1 file (mb_name e) (rows Y es 0) (Z.of_nat i) hdr e size buf codes)
    as (ks & m' & E1 & E2 & E3); unfold k1; cbn [with_kk kk kmem with_mem]; rewrite ?Hkh; try assumption; try lia.
  - eapply ps_frame; [exact Hr|]. reflexivity.
  - rewrite Hrl, Hcnt. exact Hst.
  - eapply cstr_ext; [|exact Hfile]. intros a Ha. apply Hfr. intros j Hj. apply Hfw; assumption.
  - rewrite (find_row_rows Y es 0 0 i e Hi Hfirst). reflexivity.
  - eapply member_at_ext; [|exact Hnl|exact Hm]. intros a Ha. apply Hfix. unfold hdr in Ha. lia.
  - split; [unfold hdr; lia|]. intros x Hx. apply Hsao. unfold hdr in Hx. lia.
  - unfold apart in Hbuf. unfold hdr. lia.
  - exists ks, m'. split; [exact Es|]. split; [exact Hn|]. split; [exact E1|]. split; [exact E2|exact E3].
Qed.

(** The directory "bin/" and the file "bin/ls" with three bytes, at 4096. *)
Definition mount_es : list member :=
  [mk_member (chars "bin/") [0] 5 []; mk_member (chars "bin/ls") [0; 3] 0 [7; 8; 9]].

Definition mount_mem : mem :=
  let m := write_temp ∅ 64 (chars "bin/ls" ++ [0]) in
  let m := write_temp m 4096 (demo_header "bin/" [0] ++ demo_header "bin/ls" [0; 3] ++ [7; 8; 9]) in
  let m := wr8 m (4096 + HDR_typeflag) 53 in
  let m := wr8 m (4608 + HDR_typeflag) 48 in
  let m := write_temp m 0x40000 [47; 0] in
  write_temp m 0x50000 [45; 49; 0].

Definition mount_kbd : kbd := with_kk kbd_demo (with_mem (kk kbd_demo) mount_mem).

Lemma demo_mount_layout : mount_layout demo_layout 2 0x50000 2048.
Proof.
  constructor; unfold fixed, node, inode_at, dentry, tent, apart, SIZEOF_tarfs_entry, SIZEOF_dentry, SIZEOF_inode;
    cbn [demo_layout _binary_tarfs_start _binary_tarfs_end tarfs_fs dent ino slash name_buf]; lia.
Qed.

Lemma demo_mountable : mountable demo_layout 2 0x50000 2048 (mk_tfs mount_mem (mk_tok 0 0x50000) 0 0) mount_es.
Proof.
  constructor; cbn [tm ttok num_dentries num_inodes check demo_layout _binary_tarfs_start _binary_tarfs_end slash].
  - exact demo_mount_layout.
  - reflexivity.
  - split; reflexivity.
  - split; [apply member_at_b_spec; vm_compute; reflexivity|].
    split; [apply member_at_b_spec; vm_compute; reflexivity|]. vm_compute. split; reflexivity.
  - split; [exists (chars "bin"), []|split; [exists (chars "bin"), (chars "ls")|exact I]];
      constructor; try reflexivity; try (split; [reflexivity|]); try (apply (bool_decide_eq_true_1 _); vm_compute; reflexivity);
      vm_compute; intuition (discriminate || lia).
  - repeat constructor; vm_compute; reflexivity.
  - vm_compute. intuition discriminate.
  - vm_compute. reflexivity.
  - apply (bool_decide_eq_true_1 (cstr mount_mem 0x40000 [47])). vm_compute. reflexivity.
  - split; [reflexivity|]. apply (bool_decide_eq_true_1 (cstr mount_mem 0x50000 [45; 49])). vm_compute. reflexivity.
  - vm_compute. reflexivity.
Qed.

Lemma mount_open_read_witness :
  exists s' ks m', init_tarfs demo_layout 500 (mk_tfs mount_mem (mk_tok 0 0x50000) 0 0) = Some s' /\ num_dentries s' = 2
    /\ let k1 := with_kk mount_kbd (with_mem (kk mount_kbd) (tm s')) in
       openfile demo_layout 500 (kk k1) 64 = Some (VIRT_BASE + 0x418000, ks, [])
       /\ readfile 500 (with_kk k1 ks) (VIRT_BASE + 0x418000) 2 0x60000 [] = Some (2, with_kk k1 (with_mem ks m'), [])
       /\ filled (kmem ks) m' 0x60000 [7; 8].
Proof.
  apply (mount_open_read (boot_ready 0x400000) (freelist_cells 0x400000) demo_layout 2 0x50000 2048 500 0x418000
    mount_kbd (mk_tok 0 0x50000) mount_es 1 (mk_member (chars "bin/ls") [0; 3] 0 [7; 8; 9]) 64 2 0x60000 []
    (page_source_boot 0x400000 demo_boot)).
  - exact demo_mountable.
  - cbn. lia.
  - eapply (ps_frame (PageSource := page_source_boot 0x400000 demo_boot)); [exact demo_ready|]. intros x _. reflexivity.
  - unfold KWIN. lia.
  - unfold VIRT_BASE. lia.
  - reflexivity.
  - intros [|j] e' Hj He; [injection He as <-; discriminate|lia].
  - vm_compute. lia.
  - apply (bool_decide_eq_true_1 (cstr mount_mem 64 (chars "bin/ls"))). vm_compute. reflexivity.
  - change (slen (mb_name _)) with 6.
    unfold written, node, inode_at, dentry, tent, SIZEOF_tarfs_entry, SIZEOF_dentry, SIZEOF_inode.
    cbn [demo_layout tarfs_fs dent ino name_buf]. lia.
  - apply demo_settled. vm_compute. discriminate.
  - lia.
  - apply demo_settled. vm_compute. discriminate.
  - apply demo_settled. vm_compute. discriminate.
  - vm_compute. discriminate.
  - lia.
  - unfold apart. vm_compute. intuition discriminate.
Defined.
