(* ===== verification/Loader.v ===== *)
(** * Program loading, [fork] and [exec]

    The part of [sys/process.c] and [sys/pcb_init.c] that builds processes:
    the list of memory areas, [load_segment], [fork_process], [exec],
    [init_usr_pcb], and [vma_data] of [sys/tarfs_ops.c].  Task structures are
    bytes of kernel memory here, laid out as the compiler does; user addresses
    go through the page tables that [memmap] writes. *)

From stdpp Require Import base gmap list numbers.
From Stdlib Require Import ZArith Lia.
From Stdlib Require Ascii String.
From S2P Require Import Prelude KLib Mmu Paging BootPaging Alloc Utils UserPaging AddrSpace Memmap.
From S2P Require Import UserMem Keyboard Tarfs.
Import (notations) String.

(** ** Structure layouts *)

Definition ELF_PROG_LOAD : Z := 1.

(** [Elf64_Ehdr] and [Elf64_Phdr]. *)
Definition E_entry : Z := 24.
Definition E_phoff : Z := 32.
Definition E_phnum : Z := 56.
Definition P_type : Z := 0.
Definition P_flags : Z := 4.
Definition P_offset : Z := 8.
Definition P_vaddr : Z := 16.
Definition P_filesz : Z := 32.
Definition P_memsz : Z := 40.

(** [struct vm_area_struct] and [struct mm_struct]. *)
Definition VM_start : Z := 8.
Definition VM_end : Z := 16.
Definition VM_mmsz : Z := 24.
Definition VM_flags : Z := 32.
Definition VM_file : Z := 48.
Definition VM_next : Z := 56.
Definition VM_offset : Z := 64.
Definition SIZEOF_vma : Z := 72.
Definition MM_mmap : Z := 0.
Definition MM_count : Z := 16.
Definition SIZEOF_mm : Z := 168.

(** [struct task_struct]; [ctx] is packed and follows the enumeration directly. *)
Definition TS_pid : Z := 0.
Definition TS_ppid : Z := 8.
Definition TS_pname : Z := 16.
Definition TS_kstack : Z := 32.
Definition TS_state : Z := 4128.
Definition TS_ctx_rsp : Z := 4292.
Definition TS_stack : Z := 4336.
Definition TS_pml4e : Z := 4344.
Definition TS_cr3 : Z := 4352.
Definition TS_entry : Z := 4376.
Definition TS_mm : Z := 4384.
Definition TS_heap_vma : Z := 4392.
Definition SIZEOF_task : Z := 4400.

(** [proc_state_t] value of [READY]. *)
Definition READY : Z := 2.

(** ** Areas *)

(** [while (NULL != vm->vm_next) vm = vm->vm_next;] on kernel memory. *)
Fixpoint last_vma (fuel : nat) (s : kst) (vm : Z) : option Z :=
  match fuel with
  | O => None
  | S f =>
      let next := kld64 s (u64 (vm + VM_next)) in
      if next =? 0 then Some vm else last_vma f s next
  end.

Definition count_up (s : kst) (mm : Z) : kst :=
  kst32 s (u64 (mm + MM_count)) (rd32 (kmem s) (kphys (u64 (mm + MM_count))) + 1).

Definition malloc_vma (fuel : nat) (s : kst) (mm : Z) : option (Z * kst) :=
  let mmap := kld64 s (u64 (mm + MM_mmap)) in
  if mmap =? 0 then
    let '(vm, s) := kmalloc s SIZEOF_vma in
    let s := kst64 s (u64 (mm + MM_mmap)) vm in
    Some (vm, count_up s mm)
  else
    vm ← last_vma fuel s mmap;
    let next := u64 (vm + SIZEOF_vma) in
    let s := kst64 s (u64 (vm + VM_next)) next in
    let s := count_up s mm in
    Some (kld64 s (u64 (vm + VM_next)), s).

(** [for (int i = 0; i < num; i++) memmap(va + i * PAGE_SIZE, ...);] *)
Fixpoint regions_loop (n : nat) (s : kst) (va i : Z) : kst :=
  match n with
  | O => s
  | S n =>
      let '(_, s) := memmap s (u64 (va + i * PAGE_SIZE)) PAGE_SIZE USR_PERM_BITS 0 in
      regions_loop n s va (i + 1)
  end.

Definition allocate_regions (s : kst) (va len : Z) : kst :=
  let va_start := ROUNDDOWN va PAGE_SIZE in
  let va_end := ROUNDUP (u64 (va + len)) PAGE_SIZE in
  let sz := u32 (va_end - va_start) in
  let num := s32 (sz / PAGE_SIZE) in
  let num := s32 (num + sz mod PAGE_SIZE) in
  regions_loop (Z.to_nat num) s va 0.

(** ** Loading a program *)

(** What the loader prints, and the jump to user mode that ends [exec]. *)
Inductive lev := Msg (text : String.string) | EnterUser (entry stack : Z).

Section Load.
Context (Y : tarfs_layout) (fuel : nat).

(** Address of byte [off] of the archive: the image is linked at [VIRT_BASE]
    above the address it is loaded at. *)
Definition tarfs_ptr (off : Z) : Z := u64 (VIRT_BASE + _binary_tarfs_start Y + off).

Definition rdw (s : kst) (va : Z) : Z := rd32 (kmem s) (kphys va).
Definition rdh (s : kst) (va : Z) : Z := rd16 (kmem s) (kphys va).

(** The stores into the new area; [vm_next] is cleared. *)
Definition fill_vma (s : kst) (vm start end_ mmsz file flags off : Z) : kst :=
  let s := kst64 s (u64 (vm + VM_start)) start in
  let s := kst64 s (u64 (vm + VM_end)) end_ in
  let s := kst64 s (u64 (vm + VM_mmsz)) mmsz in
  let s := kst64 s (u64 (vm + VM_next)) 0 in
  let s := kst64 s (u64 (vm + VM_file)) file in
  let s := kst64 s (u64 (vm + VM_flags)) flags in
  kst64 s (u64 (vm + VM_offset)) off.

(** The program header at [ph], read afresh after every call. *)
Record phdr := mk_phdr { p_flags : Z; p_offset : Z; p_vaddr : Z; p_filesz : Z; p_memsz : Z }.

Definition rd_phdr (s : kst) (ph : Z) : phdr :=
  mk_phdr (rdw s (u64 (ph + P_flags))) (kld64 s (u64 (ph + P_offset))) (kld64 s (u64 (ph + P_vaddr)))
    (kld64 s (u64 (ph + P_filesz))) (kld64 s (u64 (ph + P_memsz))).

(** [kmemcpy] of the file part and [memset] of the rest. *)
Definition copy_segment (s : kst) (elf ph : Z) : option kst :=
  let h := rd_phdr s ph in
  s ← vmemcpy s (p_vaddr h) (u64 (elf + p_offset h)) (p_filesz h);
  let h := rd_phdr s ph in
  if p_filesz h <? p_memsz h
  then vmemset s (u64 (p_vaddr h + p_filesz h)) 0 (p_memsz h - p_filesz h)
  else Some s.

Definition size_msg (h : phdr) : list lev :=
  if p_memsz h <? p_filesz h then [Msg "Invalid file size\n"] else [].

(** The body of the loop for a header of type [ELF_PROG_LOAD]. *)
Definition load_header (s : kst) (pcb elf ph : Z) : option (kst * list lev) :=
  let h := rd_phdr s ph in
  let o := size_msg h in
  let s := allocate_regions s (p_vaddr h) (p_memsz h) in
  s ← copy_segment s elf ph;
  '(vm, s) ← malloc_vma fuel s (kld64 s (u64 (pcb + TS_mm)));
  let h := rd_phdr s ph in
  Some (fill_vma s vm (p_vaddr h) (u64 (p_vaddr h + p_memsz h)) (p_memsz h) elf (p_flags h) (p_offset h), o).

(** [for (i = 0; i < elf->e_phnum; i++)]; the header pointer advances by bytes. *)
Fixpoint load_loop (n : nat) (s : kst) (pcb elf i : Z) : option (kst * list lev) :=
  match n with
  | O => None
  | S n =>
      if i <? rdh s (u64 (elf + E_phnum)) then
        let ph := u64 (elf + kld64 s (u64 (elf + E_phoff)) + i) in
        if negb (rdw s (u64 (ph + P_type)) =? ELF_PROG_LOAD) then load_loop n s pcb elf (i + 1)
        else
          '(s, o) ← load_header s pcb elf ph;
          '(s, o') ← load_loop n s pcb elf (i + 1);
          Some (s, o ++ o')
      else Some (s, [])
  end.

(** The entry point and the heap, behind the last area. *)
Definition start_heap (s : kst) (pcb elf : Z) : option kst :=
  let s := kst64 s (u64 (pcb + TS_entry)) (kld64 s (u64 (elf + E_entry))) in
  let '(heap, s) := memmap s 0 PAGE_SIZE USR_PERM_BITS 3 in
  let s := kst64 s (u64 (pcb + TS_heap_vma)) heap in
  tmp ← last_vma fuel s (kld64 s (u64 (kld64 s (u64 (pcb + TS_mm)) + MM_mmap)));
  let base := u64 (0x6e000 + ALIGN_DOWN (u64 (kld64 s (u64 (tmp + VM_end)) + 100 * PAGE_SIZE))) in
  s ← vst64 s (u64 (heap + VM_end)) base;
  s ← vst64 s (u64 (heap + VM_start)) base;
  s ← vst64 s (u64 (heap + VM_mmsz)) PAGE_SIZE;
  start ← vld64 s (u64 (heap + VM_start));
  size ← vld64 s (u64 (heap + VM_mmsz));
  Some (allocate_regions s start size).

(** [file] is a kernel pointer. *)
Definition load_segment (s : kst) (pcb file : Z) : option (kst * list lev) :=
  offset ← file_exists Y fuel (kmem s) (kphys file);
  if (offset =? 0) || (offset =? 999) then Some (s, [])
  else
    let elf := tarfs_ptr offset in
    '(s, o) ← load_loop fuel s pcb elf 0;
    s ← start_heap s pcb elf;
    Some (s, o).

(** The loop of [vma_data]: it stops at the first loadable header, and [ph] is
    the last header looked at. *)
Fixpoint vma_data_loop (n : nat) (s : kst) (elf ph i sz : Z) : option (Z * Z * kst * list lev) :=
  match n with
  | O => None
  | S n =>
      if i <? rdh s (u64 (elf + E_phnum)) then
        let ph := u64 (elf + kld64 s (u64 (elf + E_phoff)) + i) in
        if negb (rdw s (u64 (ph + P_type)) =? ELF_PROG_LOAD) then vma_data_loop n s elf ph (i + 1) sz
        else
          let h := rd_phdr s ph in
          s ← copy_segment s elf ph;
          let h' := rd_phdr s ph in
          Some (ph, u32 (if p_filesz h' <? p_memsz h' then p_memsz h' else p_filesz h'), s, size_msg h)
      else Some (ph, sz, s, [])
  end.

(** The result, the value stored in [*sz], and the output; [file_exists] is not
    checked. *)
Definition vma_data (s : kst) (curr_file sz : Z) : option (Z * Z * kst * list lev) :=
  offset ← file_exists Y fuel (kmem s) (kphys curr_file);
  let elf := tarfs_ptr offset in
  let ph := u64 (elf + kld64 s (u64 (elf + E_phoff))) in
  '(ph, sz, s, o) ← vma_data_loop fuel s elf ph 0 sz;
  Some (kld64 s (u64 (ph + P_vaddr)), sz, s, o).

(** ** Creating processes *)

(** The globals of [process.c]; pointers are addresses. *)
Record lst := mk_lst {
  lk : kst; upid : Z; process_count : Z; child_pid : Z; global_child : Z; curr_upcb : Z;
  ready_queue : Z }.

Definition with_lk (t : lst) (s : kst) : lst :=
  mk_lst s (upid t) (process_count t) (child_pid t) (global_child t) (curr_upcb t) (ready_queue t).

(** A field of the structure at [p]. *)
Definition fld (s : kst) (p off : Z) : Z := kld64 s (u64 (p + off)).
Definition set_fld (s : kst) (p off v : Z) : kst := kst64 s (u64 (p + off)) v.
Definition kstk (i : Z) : Z := TS_kstack + 8 * i.

(** [ready_queue[process_count - 1] = *pcb;] and, for the first process, the
    current one. *)
Definition add_to_ready_list_user (t : lst) (pcb : Z) : lst :=
  let n := process_count t in
  let slot := u64 (ready_queue t + SIZEOF_task * (n - 1)) in
  let s := with_mem (lk t) (kmemcpy (kmem (lk t)) (kphys slot) (kphys pcb) SIZEOF_task) in
  let t := with_lk t s in
  if n =? 1
  then mk_lst s (upid t) n (child_pid t) (global_child t) slot (ready_queue t)
  else t.

(** [while (x >= 492) pcb->kstack[x--] = y++;] from [x = 506], [y = 1]. *)
Fixpoint stack_marks (n : nat) (s : kst) (pcb x y : Z) : kst :=
  match n with
  | O => s
  | S n => stack_marks n (set_fld s pcb (kstk x) y) pcb (x - 1) (y + 1)
  end.

(** The structures, numbers and name of a new process. *)
Definition init_ids (s : kst) (upid file_name : Z) : option (Z * kst) :=
  let '(pcb, s) := kmalloc s SIZEOF_task in
  let '(mm, s) := kmalloc s SIZEOF_mm in
  let s := set_fld s pcb TS_mm mm in
  let s := kst32 s (u64 (mm + MM_count)) 0 in
  let s := set_fld s mm MM_mmap 0 in
  let s := set_fld s pcb TS_pid upid in
  let s := set_fld s pcb TS_ppid (u64 (upid - 1)) in
  let s := kst32 s (u64 (pcb + TS_state)) READY in
  n ← kstrlen fuel (kmem s) (kphys file_name);
  Some (pcb, with_mem s (kmemcpy (kmem s) (kphys (u64 (pcb + TS_pname))) (kphys file_name) n)).

(** Its stack page, cleared, and its address space. *)
Definition init_stack (s : kst) (pcb : Z) : option kst :=
  let '(stk, s) := memmap s 0 PAGE_SIZE USR_PERM_BITS 5 in
  let s := set_fld s pcb TS_stack stk in
  s ← vmemset s (u64 (fld s pcb TS_stack - PAGE_SIZE)) 0 PAGE_SIZE;
  let s := s⟦dif_ctxt ↦ 0⟧ in
  let s := set_fld s pcb TS_pml4e (s⟦pml4_shared⟧) in
  Some (set_fld s pcb TS_cr3 (u64 (s⟦pml4_shared⟧ - VIRT_BASE))).

(** The frame on its kernel stack; [irq0] is the timer's entry point. *)
Definition init_frame (irq0 : Z) (s : kst) (pcb : Z) : kst :=
  let s := stack_marks 15 s pcb 506 1 in
  let s := set_fld s pcb (kstk 491) (u64 (irq0 + 34)) in
  let s := set_fld s pcb TS_ctx_rsp (u64 (pcb + kstk 490)) in
  let s := set_fld s pcb (kstk 511) 0x23 in
  let s := set_fld s pcb (kstk 510) (u64 (fld s pcb TS_stack + 8 * 511)) in
  let s := set_fld s pcb (kstk 509) 0x246 in
  set_fld s pcb (kstk 508) 0x2b.

Definition init_usr_pcb (irq0 : Z) (t : lst) (file_name : Z) : option (Z * lst * list lev) :=
  let upid := if upid t =? 0 then 1 else upid t in
  '(pcb, s) ← init_ids (lk t) upid file_name;
  let pc := u16 (process_count t + 1) in
  s ← init_stack s pcb;
  let s := init_frame irq0 s pcb in
  '(s, o) ← load_segment s pcb file_name;
  let s := set_fld s pcb (kstk 507) (fld s pcb TS_entry) in
  let s := tlb_flush s (u64 (s⟦pml4_shared⟧ - VIRT_BASE)) in
  let t := mk_lst s upid pc (child_pid t) (global_child t) (curr_upcb t) (ready_queue t) in
  let t := if fld s pcb TS_pid =? 1 then add_to_ready_list_user t pcb else t in
  Some (pcb, t, o).

(** [init_usr_pcb] never returns [NULL]. *)
Definition create_usr_pcb (irq0 : Z) (t : lst) (file : Z) : option (Z * lst * list lev) :=
  init_usr_pcb irq0 t file.

(** [while (x >= 492) child->kstack[x--] = parent->kstack[y--];] *)
Fixpoint copy_kstack (n : nat) (s : kst) (child parent x y : Z) : kst :=
  match n with
  | O => s
  | S n =>
      copy_kstack n (set_fld s child (kstk x) (fld s parent (kstk y))) child parent (x - 1) (y - 1)
  end.

(** [for (int j = 0; j < parent_vm->vm_mmsz; j++)] with its 8-byte stores. *)
Fixpoint restore_loop (n : nat) (s : kst) (vm j : Z) : option kst :=
  match n with
  | O => None
  | S n =>
      if j <? fld s vm VM_mmsz then
        v ← vld64 s (u64 (fld s vm VM_file + fld s vm VM_offset + j));
        s ← vst64 s (u64 (fld s vm VM_start + j)) v;
        restore_loop n s vm (j + 1)
      else Some s
  end.

(** [while (NULL != parent_vm)] *)
Fixpoint copy_vmas (n : nat) (s : kst) (mm vm : Z) : option kst :=
  if vm =? 0 then Some s
  else
    match n with
    | O => None
    | S n =>
        '(cv, s) ← malloc_vma fuel s mm;
        let s := fill_vma s cv (fld s vm VM_start) (fld s vm VM_end) (fld s vm VM_mmsz)
                   (fld s vm VM_file) (fld s vm VM_flags) (fld s vm VM_offset) in
        s ← restore_loop fuel s vm 0;
        copy_vmas n s mm (fld s vm VM_next)
    end.

(** The child's structures, numbers and name. *)
Definition fork_ids (s : kst) (parent upid : Z) : option (Z * Z * kst) :=
  let '(child, s) := kmalloc s SIZEOF_task in
  let '(mm, s) := kmalloc s SIZEOF_task in
  let s := set_fld s child TS_mm mm in
  let s := kst32 s (u64 (mm + MM_count)) 0 in
  let s := set_fld s mm MM_mmap 0 in
  let s := set_fld s child TS_pid upid in
  let s := set_fld s child TS_ppid (fld s parent TS_pid) in
  let s := kst32 s (u64 (child + TS_state)) READY in
  n ← kstrlen fuel (kmem s) (kphys (u64 (parent + TS_pname)));
  let s := with_mem s (kmemcpy (kmem s) (kphys (u64 (child + TS_pname)))
                         (kphys (u64 (parent + TS_pname))) n) in
  Some (child, mm, s).

(** The child's stack page, a copy of the parent's. *)
Definition fork_stack (s : kst) (child parent : Z) : option kst :=
  let '(stk, s) := memmap s 0 PAGE_SIZE USR_PERM_BITS 5 in
  let s := set_fld s child TS_stack stk in
  let s := set_fld s child TS_pml4e (s⟦pml4_shared⟧) in
  let s := set_fld s child TS_cr3 (u64 (s⟦pml4_shared⟧ - VIRT_BASE)) in
  vmemcpy s (u64 (fld s child TS_stack - PAGE_SIZE)) (u64 (fld s parent TS_stack - PAGE_SIZE)) PAGE_SIZE.

(** The frame on the child's kernel stack. *)
Definition fork_frame (irq0 : Z) (s : kst) (child parent : Z) : kst :=
  let s := set_fld s child (kstk 511) 0x23 in
  let s := set_fld s child (kstk 510) (u64 (fld s child TS_stack + 8 * 511)) in
  let s := set_fld s child (kstk 509) 0x200286 in
  let s := set_fld s child (kstk 508) 0x2b in
  let s := set_fld s child (kstk 507) (fld s parent (kstk 505)) in
  let s := set_fld s child (kstk 491) (u64 (irq0 + 34)) in
  let s := set_fld s child (kstk 490) 16 in
  let s := set_fld s child (kstk 506) 0 in
  let s := copy_kstack 14 s child parent 505 503 in
  set_fld s child TS_ctx_rsp (u64 (child + kstk 490)).

Definition fork_heap (s : kst) (child : Z) : option kst :=
  let '(heap, s) := memmap s 0 PAGE_SIZE USR_PERM_BITS 3 in
  let s := set_fld s child TS_heap_vma heap in
  tmp ← last_vma fuel s (fld s (fld s child TS_mm) MM_mmap);
  let base := ALIGN_DOWN (u64 (fld s tmp VM_end + PAGE_SIZE)) in
  s ← vst64 s (u64 (heap + VM_end)) base;
  s ← vst64 s (u64 (heap + VM_start)) base;
  vst64 s (u64 (heap + VM_mmsz)) PAGE_SIZE.

(** [kmalloc] never returns [NULL]. *)
Definition fork_process (irq0 : Z) (t : lst) : option (Z * lst) :=
  let parent := curr_upcb t in
  let upid := u16 (upid t + 1) in
  '(child, mm, s) ← fork_ids (lk t) parent upid;
  let child_pid := u32 upid in
  s ← fork_stack s child parent;
  let s := fork_frame irq0 s child parent in
  s ← copy_vmas fuel s (fld s child TS_mm) (fld s (fld s parent TS_mm) MM_mmap);
  s ← fork_heap s child;
  let s := tlb_flush s (fld s parent TS_cr3) in
  Some (s32 child_pid, mk_lst s upid (process_count t) child_pid child (curr_upcb t) (ready_queue t)).

(** [pathname] and [tmp_arg] are the addresses of the local buffers. *)
Definition exec (pathname tmp_arg : Z) (t : lst) (file argv envp : Z) : option (lst * list lev) :=
  s ← vstrcpy fuel (lk t) pathname file;
  '(index, s) ←
    (if argv =? 0 then Some (0, s)
     else
       a0 ← vld64 s argv;
       if a0 =? 0 then Some (0, s) else s ← vstrcpy fuel s tmp_arg a0; Some (1, s));
  let pcb := global_child t in
  '(s, o) ← load_segment s pcb pathname;
  let name := u64 (pcb + TS_pname) in
  n ← kstrlen fuel (kmem s) (kphys name);
  let s := with_mem s (memset (kmem s) (kphys name) 0 (s32 n)) in
  n ← kstrlen fuel (kmem s) (kphys pathname);
  let s := with_mem s (kstrncpy (kmem s) (kphys name) (kphys pathname) n) in
  let pc := u16 (process_count t + 1) in
  let t := mk_lst s (upid t) pc (child_pid t) (global_child t) (curr_upcb t) (ready_queue t) in
  let t := add_to_ready_list_user t pcb in
  let s := lk t in
  s ← (if argv =? 0 then Some s else a0 ← vld64 s argv; vstrcpy fuel s a0 tmp_arg);
  s ← vst64 s (u64 (fld s pcb TS_stack - 0x8)) index;
  '(i, s) ←
    (if argv =? 0 then Some (10, s)
     else
       a0 ← vld64 s argv;
       s ← vst64 s (u64 (fld s pcb TS_stack - 0x8 * 10)) a0; Some (11, s));
  s ← (if envp =? 0 then Some s
       else e ← vld64 s envp; vst64 s (u64 (fld s pcb TS_stack - 0x8 * i)) e);
  let t := mk_lst s (upid t) (process_count t) (child_pid t) (global_child t) pcb (ready_queue t) in
  Some (t, o ++ [EnterUser (fld s pcb TS_entry) (fld s pcb TS_stack)]).
End Load.

(** ** Lemmas *)

(** Number of pages that [n] bytes from [va] touch. *)
Definition pages_of (va n : Z) : Z := (va + n + 4095) / 4096 - va / 4096.

Lemma allocate_regions_eq s va len :
  0 <= va -> 0 <= len -> va + len <= 2 ^ 47 -> 4096 * pages_of va len < 2 ^ 32 ->
  allocate_regions s va len = regions_loop (Z.to_nat (pages_of va len)) s va 0.
Proof.
  intros H0 Hl Hb Hn. unfold allocate_regions, pages_of in *.
  rewrite (ROUNDDOWN_eq va), u64_small, ROUNDUP_eq by (unfold PAGE_SIZE; lia). unfold PAGE_SIZE.
  replace ((va + len + 4096 - 1) / 4096 * 4096 - (va - va mod 4096))
    with (4096 * ((va + len + 4095) / 4096 - va / 4096)) by zdiv.
  set (n := (va + len + 4095) / 4096 - va / 4096) in *.
  assert (0 <= n) by (unfold n; zdiv).
  rewrite u32_small, (Z.mul_comm 4096), Z.div_mul, Z.mod_mul, Z.add_0_r by lia.
  rewrite !s32_small by (rewrite ?s32_small; lia). reflexivity.
Qed.

(** Accesses to a structure of the kernel window. *)
Lemma kernel_ptr p o : 0 <= p + o < 2 ^ 31 -> kphys (u64 (VIRT_BASE + p + o)) = p + o.
Proof.
  intros H. rewrite u64_small, <- Z.add_assoc by (unfold VIRT_BASE; lia). apply kphys_high. lia.
Qed.

Lemma kld64_at s p o : 0 <= p + o < 2 ^ 31 -> kld64 s (u64 (VIRT_BASE + p + o)) = rd64 (kmem s) (p + o).
Proof. intros H. unfold kld64. rewrite kernel_ptr by exact H. reflexivity. Qed.

Lemma kst64_at s p o v :
  0 <= p + o < 2 ^ 31 -> kst64 s (u64 (VIRT_BASE + p + o)) v = with_mem s (wr64 (kmem s) (p + o) v).
Proof. intros H. unfold kst64. rewrite kernel_ptr by exact H. reflexivity. Qed.

Lemma rdw_at s p o : 0 <= p + o < 2 ^ 31 -> rdw s (u64 (VIRT_BASE + p + o)) = rd32 (kmem s) (p + o).
Proof. intros H. unfold rdw. rewrite kernel_ptr by exact H. reflexivity. Qed.

Lemma rdh_at s p o : 0 <= p + o < 2 ^ 31 -> rdh s (u64 (VIRT_BASE + p + o)) = rd16 (kmem s) (p + o).
Proof. intros H. unfold rdh. rewrite kernel_ptr by exact H. reflexivity. Qed.

(** *** Program headers *)

Definition phdr_at (m : mem) (p : Z) : phdr :=
  mk_phdr (rd32 m (p + P_flags)) (rd64 m (p + P_offset)) (rd64 m (p + P_vaddr))
    (rd64 m (p + P_filesz)) (rd64 m (p + P_memsz)).

Lemma rd_phdr_at s p : 0 <= p < 2 ^ 30 -> rd_phdr s (VIRT_BASE + p) = phdr_at (kmem s) p.
Proof.
  intros Hp. unfold rd_phdr, phdr_at, P_flags, P_offset, P_vaddr, P_filesz, P_memsz.
  rewrite rdw_at, !kld64_at by lia. reflexivity.
Qed.

Lemma phdr_at_ext m m' p :
  (forall a, p <= a < p + 56 -> rd8 m' a = rd8 m a) -> phdr_at m' p = phdr_at m p.
Proof.
  intros H. unfold phdr_at, P_flags, P_offset, P_vaddr, P_filesz, P_memsz.
  f_equal; (apply rd32_ext || apply rd64_ext); intros a Ha; apply H; lia.
Qed.

(** *** Lists of areas *)

Record varea := mk_varea {
  v_start : Z; v_end : Z; v_mmsz : Z; v_file : Z; v_flags : Z; v_offset : Z }.

Record area_at (m : mem) (p : Z) (v : varea) : Prop := {
  aa_start : rd64 m (p + VM_start) = v_start v;
  aa_end : rd64 m (p + VM_end) = v_end v;
  aa_mmsz : rd64 m (p + VM_mmsz) = v_mmsz v;
  aa_file : rd64 m (p + VM_file) = v_file v;
  aa_flags : rd64 m (p + VM_flags) = v_flags v;
  aa_offset : rd64 m (p + VM_offset) = v_offset v }.

(** Areas in consecutive slots from [p], each linked to the next; the last one's
    link is [last]. *)
Definition areas_at (m : mem) (p : Z) (vs : list varea) (last : Z) : Prop :=
  forall i v, vs !! i = Some v ->
    area_at m (p + SIZEOF_vma * Z.of_nat i) v /\
    rd64 m (p + SIZEOF_vma * Z.of_nat i + VM_next)
    = if decide (S i = length vs) then last else VIRT_BASE + (p + SIZEOF_vma * Z.of_nat (S i)).

Lemma area_at_ext m m' p v :
  (forall a, p + 8 <= a < p + 40 \/ p + 48 <= a < p + 56 \/ p + 64 <= a < p + 72 ->
    rd8 m' a = rd8 m a) -> area_at m p v -> area_at m' p v.
Proof.
  intros H [H1 H2 H3 H4 H5 H6].
  constructor; (etrans; [|eassumption]); apply rd64_ext; intros a Ha; apply H;
    unfold VM_start, VM_end, VM_mmsz, VM_file, VM_flags, VM_offset in Ha; lia.
Qed.

Lemma areas_at_ext m m' p vs last :
  (forall a, p <= a < p + 72 * Z.of_nat (length vs) -> rd8 m' a = rd8 m a) ->
  areas_at m p vs last -> areas_at m' p vs last.
Proof.
  intros H Hv i v Hi. destruct (Hv i v Hi) as [Ha Hn]. apply lookup_lt_Some in Hi.
  unfold SIZEOF_vma, VM_next in *. split.
  - eapply area_at_ext; [|exact Ha]. intros a Hra. apply H. lia.
  - rewrite <- Hn. apply rd64_ext. intros a Hra. apply H. lia.
Qed.

(** [while (vm->vm_next) vm = vm->vm_next;] ends at the last slot. *)
Lemma last_vma_spec s p vs i fuel :
  areas_at (kmem s) p vs 0 -> (i < length vs)%nat -> (length vs <= i + fuel)%nat ->
  0 <= p -> p + 72 * Z.of_nat (length vs) < 2 ^ 30 ->
  last_vma fuel s (VIRT_BASE + (p + SIZEOF_vma * Z.of_nat i))
  = Some (VIRT_BASE + (p + SIZEOF_vma * (Z.of_nat (length vs) - 1))).
Proof.
  intros Hv Hi Hf H0 Hb. revert i Hi Hf. induction fuel as [|f IH]; intros i Hi Hf; [lia|].
  cbn [last_vma]. destruct (lookup_lt_is_Some_2 vs i Hi) as [v Hvi].
  destruct (Hv i v Hvi) as [_ Hn]. unfold SIZEOF_vma, VM_next in *.
  rewrite kld64_at, Hn by lia. case_decide as Hd.
  - cbn [Z.eqb]. do 3 f_equal. lia.
  - rewrite (proj2 (Z.eqb_neq _ 0)) by (unfold VIRT_BASE; lia). apply IH; lia.
Qed.

Section client.
Context (ready : Z -> kst -> Prop) (own : Z -> Prop) `{HPS : !PageSource ready own}.
Context (P lo : Z) (HP : P mod 4096 = 0) (HP0 : 0 <= P) (HPlo : P + 4096 <= lo).
Context (Hown : forall a, own a -> a < P).

Abbreviation uspace := (uspace ready P lo).

(** A step of the loader: [R] is the memory it writes besides fresh pages and
    page tables. *)
Definition eff (R : Z -> Prop) (np : Z) (T : gmap (Z * Z) Z) (s : kst)
    (np' : Z) (T' : gmap (Z * Z) Z) (s' : kst) : Prop :=
  np <= np' /\ forall a, a < np \/ np' <= a -> ~ own a -> outside T a ->
    (~ R a -> rd8 (kmem s') a = rd8 (kmem s) a) /\ outside T' a.

Definition nothing (a : Z) : Prop := False.

Lemma eff_refl np T s s' : kmem s' = kmem s -> eff nothing np T s np T s'.
Proof. intros E. split; [lia|]. intros a _ _ Ha. split; [|exact Ha]. rewrite E. reflexivity. Qed.

Lemma eff_trans R R' np T s np1 T1 s1 np2 T2 s2 :
  eff R np T s np1 T1 s1 -> eff R' np1 T1 s1 np2 T2 s2 -> eff (fun a => R a \/ R' a) np T s np2 T2 s2.
Proof.
  intros [Hn1 H1] [Hn2 H2]. split; [lia|]. intros a Ha Ho HT.
  destruct (H1 a) as [E1 O1]; [lia|assumption..|].
  destruct (H2 a) as [E2 O2]; [lia|assumption..|]. split; [|exact O2].
  intros HR. rewrite E2, E1 by tauto. reflexivity.
Qed.

Lemma eff_weaken (R R' : Z -> Prop) np T s np' T' s' :
  eff R np T s np' T' s' -> (forall a, R a -> R' a) -> eff R' np T s np' T' s'.
Proof.
  intros [Hn H] HR. split; [exact Hn|]. intros a Ha Ho HT. destruct (H a Ha Ho HT) as [E O].
  split; [|exact O]. intros HR'. apply E. auto.
Qed.

Lemma eff_data np T s np' T' s' : np <= np' -> data_same own np np' T T' s s' -> eff nothing np T s np' T' s'.
Proof. intros Hn H. split; [exact Hn|]. intros a Ha Ho HT. destruct (H a Ha Ho HT). auto. Qed.

Lemma eff_mem (R : Z -> Prop) np T s m' :
  (forall a, ~ R a -> rd8 m' a = rd8 (kmem s) a) -> eff R np T s np T (with_mem s m').
Proof. intros H. split; [lia|]. intros a _ _ HT. kst_simpl. auto. Qed.

(** Kernel memory that is neither a table nor the allocator's. *)
Definition kregion (np : Z) (T : gmap (Z * Z) Z) (p n : Z) : Prop :=
  forall a, p <= a < p + n -> 0 <= a < np /\ ~ own a /\ outside T a /\ ~ (P <= a < P + 4096).

Lemma kregion_eff R np T s np' T' s' p n :
  eff R np T s np' T' s' -> kregion np T p n -> kregion np' T' p n.
Proof.
  intros [Hn H] Hk a Ha. destruct (Hk a Ha) as (H1 & H2 & H3 & H4).
  destruct (H a) as [_ Ho]; [lia|assumption..|]. split; [lia|]. auto.
Qed.

Lemma kregion_same R np T s np' T' s' p n a :
  eff R np T s np' T' s' -> kregion np T p n -> p <= a < p + n -> ~ R a ->
  rd8 (kmem s') a = rd8 (kmem s) a.
Proof.
  intros [Hn H] Hk Ha HR. destruct (Hk a Ha) as (H1 & H2 & H3 & H4).
  destruct (H a) as [E _]; [lia|assumption..|]. auto.
Qed.

Lemma kregion_sub np T p n k n' : kregion np T p n -> 0 <= k -> k + n' <= n -> kregion np T (p + k) n'.
Proof. intros H Hk Hn a Ha. apply H. lia. Qed.

Lemma kregion_off_tables np s T L p n :
  uspace np s T L -> kregion np T p n -> 0 < n -> off_tables T p n.
Proof.
  intros Hu Hk Hn k t HT. destruct (decide (p + n <= t)); [lia|]. destruct (decide (t + 4096 <= p)); [lia|].
  exfalso. destruct (Hk (Z.max p t) ltac:(lia)) as (_ & _ & Ho & HPn).
  specialize (Ho k t HT). destruct (decide (k = (4, 0))) as [->|]; [|lia].
  rewrite (ui_root _ _ _ _ _ _ (us_inv _ _ _ _ _ _ _ Hu)) in HT. injection HT as <-. lia.
Qed.

(** A store into a kernel structure. *)
Lemma uspace_store np s T L m' p n :
  uspace np s T L -> kregion np T p n -> 0 < n ->
  (forall a, ~ (p <= a < p + n) -> rd8 m' a = rd8 (kmem s) a) -> uspace np (with_mem s m') T L.
Proof.
  intros Hu Hk Hn Hm. eapply uspace_mem; try eassumption.
  intros k t a HT Ha. apply Hm. pose proof (kregion_off_tables _ _ _ _ _ _ Hu Hk Hn k t HT). lia.
Qed.

(** A store into kernel memory changes no translation of a user address. *)
Lemma walk_store np s T L m' p n va :
  uspace np s T L -> kregion np T p n -> 0 < n -> 0 <= va < 2 ^ 47 ->
  (forall a, ~ (p <= a < p + n) -> rd8 m' a = rd8 (kmem s) a) -> walk m' P va = walk (kmem s) P va.
Proof.
  intros Hu Hk Hn Hva Hm. pose proof (uspace_store np s T L m' p n Hu Hk Hn Hm) as Hu'.
  eapply (walk_same_tables P lo HP HP0 HPlo np (kmem s) m' T L);
    [exact (us_inv _ _ _ _ _ _ _ Hu)|exact (us_inv _ _ _ _ _ _ _ Hu')|exact Hva|].
  intros k t i HT Hi _. unfold entry. apply rd64_ext. intros a Ha. apply Hm.
  pose proof (kregion_off_tables _ _ _ _ _ _ Hu Hk Hn k t HT). lia.
Qed.

Lemma uspace_user_write np s T L m' :
  uspace np s T L -> (forall a, a < np -> rd8 m' a = rd8 (kmem s) a) -> uspace np (with_mem s m') T L.
Proof.
  intros Hu Hm. eapply uspace_mem; try eassumption. intros k t a HT Ha. apply Hm.
  assert (t mod 4096 = 0 /\ P <= t /\ t + 4096 <= np)
    by (eapply uinv_page; [..|exact (us_inv _ _ _ _ _ _ _ Hu)|exact HT]; assumption). lia.
Qed.

(** *** Areas of user memory *)

Lemma regions_loop_spec n np s T L va i :
  uspace np s T L -> 0 <= va -> 0 <= i -> va + 4096 * (i + Z.of_nat n) <= 2 ^ 47 ->
  np + 3 * 4096 * Z.of_nat n <= KWIN -> s⟦usr_phys_addr⟧ + 4096 * Z.of_nat n < 0x6000000 ->
  exists np' T' s', regions_loop n s va i = s' /\ np' <= np + 3 * 4096 * Z.of_nat n
    /\ uspace np' s' T' (map_range n L (va / 4096 + i) (s⟦usr_phys_addr⟧))
    /\ eff nothing np T s np' T' s'
    /\ s'⟦usr_phys_addr⟧ = s⟦usr_phys_addr⟧ + 4096 * Z.of_nat n
    /\ same_globals map_globals s s'.
Proof.
  revert np s T L i. induction n as [|n IH]; intros np s T L i Hu H0 Hi Hb Hw Hf;
    cbn [regions_loop map_range].
  - exists np, T, s. rewrite Z.mul_0_r, Z.add_0_r. split; [reflexivity|]. split; [lia|]. split; [exact Hu|].
    split; [apply eff_refl; reflexivity|]. split; [lia|]. intros x _. reflexivity.
  - unfold PAGE_SIZE at 1. rewrite u64_small by lia.
    destruct (memmap_fault_spec ready own P lo HP HP0 HPlo Hown np s T L (va + i * 4096) USR_PERM_BITS
      Hu ltac:(lia) (or_intror eq_refl) ltac:(lia)) as (s1 & -> & [(np1 & T1 & Hn1 & Hu1 & Hd1) Hnf _ _] & Hg1).
    assert (Hv : (va + i * 4096) / 4096 = va / 4096 + i) by (rewrite Z.div_add by lia; reflexivity).
    rewrite Hv in Hu1. destruct (us_frame _ _ _ _ _ _ _ Hu) as [_ Hfr].
    assert (Hnf' : s1⟦usr_phys_addr⟧ = s⟦usr_phys_addr⟧ + 4096).
    { rewrite Hnf. unfold next_frame. rewrite (proj2 (Z.ltb_lt _ _)) by lia. reflexivity. }
    destruct (IH np1 s1 T1 _ (i + 1) Hu1 H0 ltac:(lia) ltac:(lia) ltac:(lia) ltac:(lia))
      as (np2 & T2 & s2 & -> & Hn2 & Hu2 & He2 & Hf2 & Hg2).
    exists np2, T2, s2. split; [reflexivity|]. split; [lia|]. split; [|split; [|split]].
    + rewrite Hnf' in Hu2. replace (va / 4096 + (i + 1)) with (va / 4096 + i + 1) in Hu2 by lia. exact Hu2.
    + eapply eff_weaken; [eapply eff_trans; [apply (eff_data np T s np1 T1 s1); [lia|exact Hd1]|exact He2]|].
      intros a [H|H]; exact H.
    + rewrite Hf2, Hnf'. lia.
    + eapply same_globals_trans; eassumption.
Qed.

(** [n] bytes from [va] become user memory with consecutive fresh frames. *)
Lemma allocate_regions_spec np s T L va len :
  uspace np s T L -> 0 <= va -> 0 <= len -> va + len + 4096 <= 2 ^ 47 ->
  np + 3 * 4096 * pages_of va len <= KWIN ->
  s⟦usr_phys_addr⟧ + 4096 * pages_of va len < 0x6000000 ->
  exists np' T' s', allocate_regions s va len = s' /\ np' <= np + 3 * 4096 * pages_of va len
    /\ uspace np' s' T' (map_range (Z.to_nat (pages_of va len)) L (va / 4096) (s⟦usr_phys_addr⟧))
    /\ eff nothing np T s np' T' s'
    /\ s'⟦usr_phys_addr⟧ = s⟦usr_phys_addr⟧ + 4096 * pages_of va len
    /\ same_globals map_globals s s'.
Proof.
  intros Hu H0 Hl Hb Hw Hf. destruct (us_frame _ _ _ _ _ _ _ Hu) as [_ Hfr].
  assert (Hn : 0 <= pages_of va len) by (unfold pages_of; zdiv).
  assert (Hpg : va + 4096 * pages_of va len <= 2 ^ 47) by (unfold pages_of; zdiv).
  rewrite allocate_regions_eq by lia.
  destruct (regions_loop_spec (Z.to_nat (pages_of va len)) np s T L va 0) as (np' & T' & s' & H);
    rewrite ?Z2Nat.id in * by lia; try assumption; try lia.
  rewrite Z.add_0_r in H. exists np', T', s'. exact H.
Qed.
End client.
