(* ===== verification/LoadSegment.v ===== *)
(** * The loader builds the process image

    [load_segment] of [sys/process.c] from any state whose page tables represent
    an abstract address space: afterwards the hardware translates the segment's
    addresses to fresh frames that hold the bytes of the file, followed by zeros,
    and the task knows its entry point, its areas and its heap. *)

From stdpp Require Import base gmap list numbers.
From Stdlib Require Import ZArith Lia.
From S2P Require Import Prelude KLib Mmu Paging BootPaging Alloc Utils UserPaging AddrSpace Memmap.
From Stdlib Require Ascii String.
From S2P Require Import UserMem Keyboard Tarfs Loader.
Import (notations) String.

Section load.
Context (ready : Z -> kst -> Prop) (own : Z -> Prop) `{HPS : !PageSource ready own}.
Context (P lo : Z) (HP : P mod 4096 = 0) (HP0 : 0 <= P) (HPlo : P + 4096 <= lo).
Context (Hown : forall a, own a -> a < P).

Abbreviation uspace := (uspace ready P lo).
Abbreviation eff := (eff own).
Abbreviation kregion := (kregion own P).

(** ** Copying the segment *)

Lemma copy_segment_spec np s T L pe pph p :
  uspace np s T L -> np <= p ->
  let h := phdr_at (kmem s) pph in
  kregion np T pph 56 -> kregion np T (pe + p_offset h) (p_filesz h) ->
  ulin L (p_vaddr h) (p_memsz h) p -> p_vaddr h + p_memsz h <= 2 ^ 47 ->
  0 <= p_filesz h <= p_memsz h -> p_memsz h < 2 ^ 31 -> np <= 2 ^ 30 ->
  0 <= pph < 2 ^ 30 -> 0 <= p_vaddr h -> 0 <= pe -> 0 <= p_offset h -> pe + p_offset h < 2 ^ 30 ->
  exists m', copy_segment s (VIRT_BASE + pe) (VIRT_BASE + pph) = Some (with_mem s m')
    /\ (forall i, 0 <= i < p_filesz h -> rd8 m' (p + i) = rd8 (kmem s) (pe + p_offset h + i))
    /\ (forall i, p_filesz h <= i < p_memsz h -> rd8 m' (p + i) = 0)
    /\ (forall a, ~ (p <= a < p + p_memsz h) -> rd8 m' a = rd8 (kmem s) a).
Proof.
  intros Hu Hnp h Hrh Hrs Hl Hb Hfs Hms Hn30 Hp H0 He Hof Heo. unfold copy_segment.
  rewrite rd_phdr_at by exact Hp. fold h.
  replace (u64 (VIRT_BASE + pe + p_offset h)) with (VIRT_BASE + (pe + p_offset h))
    by (rewrite u64_small; unfold VIRT_BASE; lia).
  set (src := pe + p_offset h) in *.
  assert (Hlow : p_filesz h = 0 \/ src + p_filesz h <= np).
  { destruct (decide (p_filesz h = 0)); [left; assumption|right].
    destruct (Hrs (src + p_filesz h - 1) ltac:(lia)) as [? _]. lia. }
  assert (Hv : vlin T s (p_vaddr h) (p_memsz h) p) by (eapply ulin_vlin; try eassumption).
  assert (Ho : off_tables T p (p_memsz h)) by (eapply off_tables_user; try eassumption).
  assert (Hsub : forall n, n <= p_memsz h -> vlin T s (p_vaddr h) n p).
  { intros n Hn m' Ht i Hi. apply Hv; [exact Ht|lia]. }
  pose proof (vlin_kernel T s (VIRT_BASE + src) (p_filesz h) ltac:(lia)) as Hsrc.
  replace (VIRT_BASE + src - VIRT_BASE) with src in Hsrc by lia.
  rewrite (vmemcpy_lin T s _ _ p src); try assumption; try (unfold VIRT_BASE; lia);
    [|apply Hsub; lia|].
  2:{ intros k t Hk. specialize (Ho k t Hk). lia. }
  cbn [mbind option_bind]. set (m1 := kmemcpy (kmem s) p src (p_filesz h)).
  assert (Hm1 : forall a, rd8 m1 a = if decide (p <= a < p + p_filesz h)
    then rd8 (kmem s) (src + (a - p)) else rd8 (kmem s) a).
  { intros a. unfold m1, kmemcpy. rewrite cpy_loop_spec by lia.
    rewrite Z.add_0_r, Z2Nat.id by lia. reflexivity. }
  assert (Hh : rd_phdr (with_mem s m1) (VIRT_BASE + pph) = h).
  { rewrite rd_phdr_at by exact Hp. kst_simpl. apply phdr_at_ext. intros a Ha.
    destruct (Hrh a Ha) as [? _]. rewrite Hm1, decide_False by lia. reflexivity. }
  rewrite Hh. case Z.ltb_spec; intros Hlt.
  - rewrite u64_small by lia.
    assert (Ht1 : tables_same T (kmem s) m1).
    { intros k t a Hk Ha. rewrite Hm1, decide_False; [reflexivity|]. specialize (Ho k t Hk). lia. }
    rewrite (vmemset_lin T _ _ (p + p_filesz h)); try lia.
    + eexists. split; [kst_simpl; reflexivity|]. split; [|split].
      * intros i Hi. rewrite rd8_memset, decide_False, Hm1, decide_True by lia. f_equal. lia.
      * intros i Hi. rewrite rd8_memset, decide_True by lia. reflexivity.
      * intros a Ha. rewrite rd8_memset, decide_False, Hm1, decide_False by lia. reflexivity.
    + apply vlin_mem; [|exact Ht1]. apply (vlin_sub T s _ (p_memsz h)); [exact Hv|lia|lia].
    + apply (off_tables_sub T p (p_memsz h)); [exact Ho|lia|lia].
  - exists m1. split; [reflexivity|]. split; [|split].
    + intros i Hi. rewrite Hm1, decide_True by lia. f_equal. lia.
    + intros i Hi. lia.
    + intros a Ha. rewrite Hm1, decide_False by lia. reflexivity.
Qed.

(** ** Adding an area *)

Definition mm_at (m : mem) (pmm pv : Z) (vs : list varea) : Prop :=
  rd64 m pmm = (if decide (vs = []) then 0 else VIRT_BASE + pv) /\ areas_at m pv vs 0.

Lemma kregion_low np T p n a : kregion np T p n -> p <= a < p + n -> 0 <= a < np.
Proof. intros H Ha. apply (H a Ha). Qed.

Lemma uspace_alloc np d s T L s1 :
  uspace np s T L -> ready (np + d) s1 -> 0 <= d -> np + d <= KWIN -> cr3 s1 = cr3 s ->
  same_globals alloc_globals s s1 ->
  (forall a, ~ own a -> ~ (np <= a < np + d) -> rd8 (kmem s1) a = rd8 (kmem s) a) ->
  uspace (np + d) s1 T L.
Proof.
  intros [Hr H4 Hvb Hc Hf Hi] Hr1 Hd Hk Hc1 Hg Hm.
  assert (Ht : forall k t i, T !! k = Some t -> 0 <= i < 512 -> entry (kmem s1) t i = entry (kmem s) t i).
  { intros k t i HT Hii. unfold entry. apply rd64_ext. intros a Ha.
    assert (t mod 4096 = 0 /\ P <= t /\ t + 4096 <= np) by (eapply uinv_page; eassumption).
    apply Hm; [intros Ho; specialize (Hown a Ho); lia|lia]. }
  constructor; rewrite ?Hc1, ?Hg by notin_globals; try assumption.
  destruct Hi. constructor; try assumption; [lia|..].
  - intros k t HT Hk0. destruct (ui_ok k t HT Hk0). split; lia.
  - intros l p t i HT Hl Hii H44. rewrite (Ht _ _ _ HT Hii). apply (ui_dir l p); assumption.
  - intros p t i HT Hii. rewrite (Ht _ _ _ HT Hii). apply (ui_leaf p); assumption.
Qed.

(** A block from [kmalloc] is fresh kernel memory. *)
Lemma kmalloc_space np s T L sz :
  uspace np s T L -> 0 < sz < 2 ^ 32 -> np + 4096 * kmalloc_pages sz <= KWIN ->
  exists s1, kmalloc s sz = (VIRT_BASE + np, s1)
    /\ uspace (np + 4096 * kmalloc_pages sz) s1 T L
    /\ eff nothing np T s (np + 4096 * kmalloc_pages sz) T s1
    /\ kregion (np + 4096 * kmalloc_pages sz) T np (4096 * kmalloc_pages sz)
    /\ (forall a, np <= a < np + 4096 * kmalloc_pages sz -> rd8 (kmem s1) a = 0)
    /\ same_globals alloc_globals s s1.
Proof.
  intros Hu Hsz Hw. destruct (kmalloc_pages_eq sz Hsz) as [_ Hpg].
  destruct (kmalloc_spec ready own sz np s (us_ready _ _ _ _ _ _ _ Hu) Hsz Hw)
    as (s1 & E & Hr1 & Hc1 & Hg1 & Hz1 & Hm1).
  exists s1. split; [exact E|]. split; [eapply uspace_alloc; try eassumption; lia|].
  split; [|split; [|split; [exact Hz1|exact Hg1]]].
  - split; [lia|]. intros a Ha Ho HT. split; [|exact HT]. intros _. apply Hm1; [exact Ho|lia].
  - intros a Ha. pose proof (us_inv _ _ _ _ _ _ _ Hu) as Hi. pose proof (ui_lo _ _ _ _ _ _ Hi).
    split; [lia|]. split; [intros Ho; specialize (Hown a Ho); lia|]. split; [|lia].
    eapply outside_high; [..|exact Hi|]; try assumption; lia.
Qed.

Lemma malloc_vma_fresh fuel np s T L pmm :
  uspace np s T L -> kregion np T pmm 24 -> rd64 (kmem s) pmm = 0 ->
  np + 4096 <= KWIN ->
  exists s', malloc_vma fuel s (VIRT_BASE + pmm) = Some (VIRT_BASE + np, s')
    /\ uspace (np + 4096) s' T L
    /\ eff (fun a => pmm <= a < pmm + 24) np T s (np + 4096) T s' /\ kregion (np + 4096) T np 4096
    /\ rd64 (kmem s') pmm = VIRT_BASE + np /\ same_globals alloc_globals s s'.
Proof.
  intros Hu Hk H0 Hw. unfold malloc_vma, MM_mmap, SIZEOF_vma.
  assert (Hb : 0 <= pmm /\ pmm + 24 <= np).
  { pose proof (kregion_low np T pmm 24 pmm Hk ltac:(lia)).
    pose proof (kregion_low np T pmm 24 (pmm + 23) Hk ltac:(lia)). lia. }
  unfold KWIN in Hw.
  rewrite kld64_at, Z.add_0_r, H0 by lia. cbn [Z.eqb].
  destruct (kmalloc_space np s T L 72 Hu ltac:(lia)) as (s1 & -> & Hu1 & He1 & Hkr & _ & Hg1);
    [unfold KWIN; change (kmalloc_pages 72) with 1; lia|].
  change (kmalloc_pages 72) with 1 in *. rewrite !Z.mul_1_r in *.
  pose proof (kregion_eff own P _ _ _ _ _ _ _ _ _ He1 Hk) as Hk1.
  unfold count_up, kst32, MM_count. rewrite kst64_at, kernel_ptr, Z.add_0_r by lia. kst_simpl.
  set (m2 := wr32 _ _ _).
  assert (Hm2 : forall a, ~ (pmm <= a < pmm + 24) -> rd8 m2 a = rd8 (kmem s1) a).
  { intros a Ha. unfold m2. rewrite rd8_wr32_ne, rd8_wr64_ne by lia. reflexivity. }
  eexists. split; [reflexivity|]. split; [|split; [|split; [exact Hkr|split]]].
  - eapply (uspace_store ready own P lo); [exact Hu1|exact Hk1|lia|exact Hm2].
  - eapply eff_weaken; [eapply eff_trans; [exact He1|apply (eff_mem own (fun a => pmm <= a < pmm + 24)), Hm2]|].
    intros a [[]|H]. exact H.
  - kst_simpl. unfold m2. rewrite rd64_wr32_ne, rd64_wr64_eq by lia. apply u64_small.
    unfold VIRT_BASE. lia.
  - intros x Hx. kst_simpl. apply Hg1, Hx.
Qed.

Lemma malloc_vma_append fuel np s T L pmm pv vs :
  uspace np s T L -> kregion np T pmm 24 -> kregion np T pv 4096 -> apart pmm 24 pv 4096 ->
  mm_at (kmem s) pmm pv vs -> vs <> [] -> 72 * (Z.of_nat (length vs) + 1) <= 4096 ->
  (length vs < fuel)%nat -> np <= 2 ^ 30 ->
  let slot := pv + 72 * Z.of_nat (length vs) in
  exists s', malloc_vma fuel s (VIRT_BASE + pmm) = Some (VIRT_BASE + slot, s')
    /\ uspace np s' T L
    /\ eff (fun a => pmm <= a < pmm + 24 \/ pv <= a < pv + 4096) np T s np T s'
    /\ rd64 (kmem s') pmm = VIRT_BASE + pv /\ areas_at (kmem s') pv vs (VIRT_BASE + slot)
    /\ same_globals [] s s'.
Proof.
  intros Hu Hk Hkv Hap [Hm Hv] Hne Hlen Hf Hn slot. unfold malloc_vma, MM_mmap, apart in *.
  assert (Hb : 0 <= pmm /\ pmm + 24 <= np /\ 0 <= pv /\ pv + 4096 <= np).
  { pose proof (kregion_low np T pmm 24 pmm Hk ltac:(lia)).
    pose proof (kregion_low np T pmm 24 (pmm + 23) Hk ltac:(lia)).
    pose proof (kregion_low np T pv 4096 pv Hkv ltac:(lia)).
    pose proof (kregion_low np T pv 4096 (pv + 4095) Hkv ltac:(lia)). lia. }
  rewrite decide_False in Hm by exact Hne.
  assert (0 < length vs)%nat by (destruct vs; [contradiction|simpl; lia]).
  rewrite kld64_at, Z.add_0_r, Hm by lia.
  rewrite (proj2 (Z.eqb_neq _ 0)) by (unfold VIRT_BASE; lia).
  pose proof (last_vma_spec s pv vs 0 fuel Hv ltac:(lia) ltac:(lia) ltac:(lia) ltac:(lia)) as Hl.
  rewrite Z.mul_0_r, Z.add_0_r in Hl. rewrite Hl. cbn [mbind option_bind]. clear Hl.
  unfold SIZEOF_vma, VM_next, count_up, kst32, MM_count in *.
  set (lastp := pv + 72 * (Z.of_nat (length vs) - 1)).
  rewrite !kst64_at, kernel_ptr by lia.
  assert (Hslot : u64 (VIRT_BASE + lastp + 72) = VIRT_BASE + slot)
    by (unfold lastp, slot; rewrite u64_small; unfold VIRT_BASE; lia).
  rewrite Hslot. kst_simpl. set (m1 := wr64 _ _ _). set (m2 := wr32 _ _ _).
  assert (Hm2 : forall a, ~ (lastp + 56 <= a < lastp + 64) -> ~ (pmm + 16 <= a < pmm + 20) ->
    rd8 m2 a = rd8 (kmem s) a).
  { intros a Ha1 Ha2. unfold m2, m1. rewrite rd8_wr32_ne, rd8_wr64_ne by lia. reflexivity. }
  assert (Hnx : rd64 m2 (lastp + 56) = VIRT_BASE + slot).
  { unfold m2, m1. rewrite rd64_wr32_ne, rd64_wr64_eq by (unfold lastp; lia).
    apply u64_small. unfold VIRT_BASE, slot; lia. }
  rewrite kld64_at by (unfold lastp; lia). kst_simpl. rewrite Hnx.
  eexists. split; [reflexivity|].
  assert (HR : forall a, ~ (pmm <= a < pmm + 24 \/ pv <= a < pv + 4096) -> rd8 m2 a = rd8 (kmem s) a).
  { intros a Ha. apply Hm2; unfold lastp; lia. }
  split; [|split; [|split; [|split]]].
  - eapply uspace_mem; try eassumption. intros k t a HT Ha. apply HR.
    pose proof (kregion_off_tables ready own P lo _ _ _ _ _ _ Hu Hk ltac:(lia) k t HT).
    pose proof (kregion_off_tables ready own P lo _ _ _ _ _ _ Hu Hkv ltac:(lia) k t HT). lia.
  - apply eff_mem, HR.
  - kst_simpl. rewrite <- Hm. apply rd64_ext. intros a Ha. apply Hm2; unfold lastp; lia.
  - kst_simpl. intros i v Hi. destruct (Hv i v Hi) as [Ha Hnn]. apply lookup_lt_Some in Hi.
    unfold SIZEOF_vma, VM_next in *. split.
    + eapply area_at_ext; [|exact Ha]. intros a Hra. apply Hm2; unfold lastp; lia.
    + destruct (decide (S i = length vs)) as [Hd|Hd].
      * replace (pv + 72 * Z.of_nat i + 56) with (lastp + 56) by (unfold lastp; lia). exact Hnx.
      * rewrite <- Hnn. apply rd64_ext. intros a Hra. apply Hm2; unfold lastp; lia.
  - intros x _. kst_simpl. reflexivity.
Qed.

Definition small (x : Z) : Prop := 0 <= x < 2 ^ 64.

Definition varea_ok (v : varea) : Prop :=
  Forall small [v_start v; v_end v; v_mmsz v; v_file v; v_flags v; v_offset v].

Lemma fill_vma_spec s slot v :
  0 <= slot -> slot + 72 < 2 ^ 31 -> varea_ok v ->
  exists m', fill_vma s (VIRT_BASE + slot) (v_start v) (v_end v) (v_mmsz v) (v_file v) (v_flags v)
      (v_offset v) = with_mem s m'
    /\ area_at m' slot v /\ rd64 m' (slot + VM_next) = 0
    /\ (forall a, ~ (slot <= a < slot + 72) -> rd8 m' a = rd8 (kmem s) a).
Proof.
  intros H0 Hb Hv. unfold varea_ok, small in Hv. decompose_Forall_hyps.
  unfold fill_vma, VM_start, VM_end, VM_mmsz, VM_flags, VM_file, VM_next, VM_offset.
  rewrite !kst64_at by lia. kst_simpl. eexists. split; [reflexivity|]. split; [|split].
  - constructor; unfold VM_start, VM_end, VM_mmsz, VM_flags, VM_file, VM_next, VM_offset;
      rewrite ?rd64_wr64_ne by lia; rewrite rd64_wr64_eq; apply u64_small; assumption.
  - rewrite !rd64_wr64_ne by lia. rewrite rd64_wr64_eq. reflexivity.
  - intros a Ha. rewrite !rd8_wr64_ne by lia. reflexivity.
Qed.

(** A task, its memory descriptor and the areas behind it. *)
Record task_at (np : Z) (T : gmap (Z * Z) Z) (m : mem) (ppcb pmm pv : Z) (vs : list varea) : Prop := {
  ta_pcb : kregion np T ppcb SIZEOF_task;
  ta_mm : kregion np T pmm 24;
  ta_areas : vs <> [] -> kregion np T pv 4096;
  ta_ptr : rd64 m (ppcb + TS_mm) = VIRT_BASE + pmm;
  ta_list : mm_at m pmm pv vs;
  ta_len : 72 * Z.of_nat (length vs) <= 4096;
  ta_apart : apart ppcb SIZEOF_task pmm 24;
  ta_apart_areas : vs <> [] -> apart ppcb SIZEOF_task pv 4096 /\ apart pmm 24 pv 4096 }.

(** The memory that adding an area writes. *)
Definition list_mem (pmm pv : Z) (vs : list varea) (a : Z) : Prop :=
  pmm <= a < pmm + 24 \/ (vs <> [] /\ pv <= a < pv + 4096).

Lemma task_ptr_same R np T s np' T' s' ppcb pmm pv vs :
  eff R np T s np' T' s' -> task_at np T (kmem s) ppcb pmm pv vs ->
  (forall a, R a -> ~ (ppcb + TS_mm <= a < ppcb + TS_mm + 8)) ->
  rd64 (kmem s') (ppcb + TS_mm) = VIRT_BASE + pmm.
Proof.
  intros He Ht HR. rewrite <- (ta_ptr _ _ _ _ _ _ _ Ht). apply rd64_ext. intros a Ha.
  eapply (kregion_same own P); [exact He|exact (ta_pcb _ _ _ _ _ _ _ Ht)| |].
  - unfold TS_mm, SIZEOF_task in *. lia.
  - intros Hr. exact (HR a Hr Ha).
Qed.

Lemma areas_snoc m p vs v :
  areas_at m p vs (VIRT_BASE + (p + SIZEOF_vma * Z.of_nat (length vs))) ->
  area_at m (p + SIZEOF_vma * Z.of_nat (length vs)) v ->
  rd64 m (p + SIZEOF_vma * Z.of_nat (length vs) + VM_next) = 0 ->
  areas_at m p (vs ++ [v]) 0.
Proof.
  intros Hv Ha Hn i w Hi. rewrite length_app. cbn [length].
  destruct (decide (i < length vs)%nat) as [Hlt|Hge].
  - rewrite lookup_app_l in Hi by exact Hlt. destruct (Hv i w Hi) as [H1 H2].
    split; [exact H1|]. rewrite H2, (decide_False (P := S i = (length vs + 1)%nat)) by lia.
    case_decide as Hd; [rewrite Hd; reflexivity|reflexivity].
  - pose proof (lookup_lt_Some _ _ _ Hi) as Hb. rewrite length_app in Hb. cbn [length] in Hb.
    assert (i = length vs) as -> by lia. rewrite lookup_app_r, Nat.sub_diag in Hi by lia.
    injection Hi as <-. split; [exact Ha|]. rewrite decide_True by lia. exact Hn.
Qed.

(** [malloc_vma] in either case. *)
Lemma malloc_vma_spec fuel np s T L ppcb pmm pv vs :
  uspace np s T L -> task_at np T (kmem s) ppcb pmm pv vs ->
  72 * (Z.of_nat (length vs) + 1) <= 4096 -> (length vs < fuel)%nat -> np + 4096 <= KWIN ->
  exists np1 s1 pv1,
    malloc_vma fuel s (VIRT_BASE + pmm) = Some (VIRT_BASE + (pv1 + 72 * Z.of_nat (length vs)), s1)
    /\ np <= np1 <= np + 4096 /\ (vs <> [] -> pv1 = pv) /\ (vs = [] -> np <= pv1)
    /\ uspace np1 s1 T L /\ eff (list_mem pmm pv vs) np T s np1 T s1
    /\ kregion np1 T pv1 4096 /\ apart ppcb SIZEOF_task pv1 4096 /\ apart pmm 24 pv1 4096
    /\ rd64 (kmem s1) pmm = VIRT_BASE + pv1
    /\ areas_at (kmem s1) pv1 vs (VIRT_BASE + (pv1 + 72 * Z.of_nat (length vs)))
    /\ same_globals alloc_globals s s1.
Proof.
  intros Hu [Hp Hm Ha Hptr Hl _ Hap Hap2] Hlen Hf Hw. unfold list_mem. destruct (decide (vs = [])) as [->|Hne].
  - destruct Hl as [Hl _]. rewrite decide_True in Hl by reflexivity.
    destruct (malloc_vma_fresh fuel np s T L pmm Hu Hm Hl Hw) as (s1 & -> & Hu1 & He1 & Hkr & Hr1 & Hg1).
    exists (np + 4096), s1, np. cbn [length]. rewrite Z.mul_0_r, Z.add_0_r.
    split; [reflexivity|]. split; [lia|]. split; [intros H; destruct (H eq_refl)|]. split; [lia|].
    split; [exact Hu1|]. split; [eapply eff_weaken; [exact He1|intros a H; left; exact H]|].
    split; [exact Hkr|].
    pose proof (kregion_low np T ppcb SIZEOF_task (ppcb + SIZEOF_task - 1) Hp ltac:(unfold SIZEOF_task; lia)).
    pose proof (kregion_low np T pmm 24 (pmm + 23) Hm ltac:(lia)). unfold apart.
    split; [lia|]. split; [lia|]. split; [exact Hr1|]. split; [intros i v Hi; discriminate|exact Hg1].
  - destruct (Hap2 Hne) as [Hap3 Hap4].
    destruct (malloc_vma_append fuel np s T L pmm pv vs Hu Hm (Ha Hne) Hap4 Hl Hne Hlen Hf)
      as (s1 & -> & Hu1 & He1 & Hr1 & Hv1 & Hg1); [unfold KWIN in Hw; lia|].
    exists np, s1, pv. split; [reflexivity|]. split; [lia|]. split; [reflexivity|].
    split; [intros H; destruct (Hne H)|]. split; [exact Hu1|]. split; [eapply eff_weaken; [exact He1|]; intros a [H|H]; [left; exact H|right; split; [exact Hne|exact H]]|].
    split; [exact (Ha Hne)|]. split; [exact Hap3|]. split; [exact Hap4|]. split; [exact Hr1|].
    split; [exact Hv1|]. intros x _. apply Hg1. intros Hin. inversion Hin.
Qed.

(** [malloc_vma] and the stores into the new area. *)
Lemma new_area_spec fuel np s T L ppcb pmm pv vs :
  uspace np s T L -> task_at np T (kmem s) ppcb pmm pv vs ->
  72 * (Z.of_nat (length vs) + 1) <= 4096 -> (length vs < fuel)%nat -> np + 4096 <= KWIN ->
  exists np1 s1 pv1,
    malloc_vma fuel s (VIRT_BASE + pmm) = Some (VIRT_BASE + (pv1 + 72 * Z.of_nat (length vs)), s1)
    /\ np <= np1 <= np + 4096 /\ (vs <> [] -> pv1 = pv) /\ (vs = [] -> np <= pv1)
    /\ eff (list_mem pmm pv vs) np T s np1 T s1
    /\ forall v, varea_ok v -> exists s2,
         fill_vma s1 (VIRT_BASE + (pv1 + 72 * Z.of_nat (length vs))) (v_start v) (v_end v) (v_mmsz v)
           (v_file v) (v_flags v) (v_offset v) = s2
         /\ uspace np1 s2 T L /\ eff (list_mem pmm pv vs) np T s np1 T s2
         /\ task_at np1 T (kmem s2) ppcb pmm pv1 (vs ++ [v]) /\ same_globals alloc_globals s s2.
Proof.
  intros Hu Ht Hlen Hf Hw.
  destruct (malloc_vma_spec fuel np s T L ppcb pmm pv vs Hu Ht Hlen Hf Hw)
    as (np1 & s1 & pv1 & E & Hn & Hpv & Hpv0 & Hu1 & He1 & Hk1 & Hap3 & Hap4 & Hr1 & Hv1 & Hg1).
  exists np1, s1, pv1. split; [exact E|]. split; [exact Hn|]. split; [exact Hpv|].
  split; [exact Hpv0|]. split; [exact He1|]. intros v Hok. set (slot := pv1 + 72 * Z.of_nat (length vs)) in *.
  assert (Hlow : 0 <= pv1 /\ pv1 + 4096 <= np1).
  { pose proof (kregion_low np1 T pv1 4096 pv1 Hk1 ltac:(lia)).
    pose proof (kregion_low np1 T pv1 4096 (pv1 + 4095) Hk1 ltac:(lia)). lia. }
  unfold KWIN in Hw.
  destruct (fill_vma_spec s1 slot v ltac:(unfold slot; lia) ltac:(unfold slot; lia) Hok)
    as (m2 & -> & Ha2 & Hn2 & Hm2).
  assert (Hm2' : forall a, ~ (pv1 <= a < pv1 + 4096) -> rd8 m2 a = rd8 (kmem s1) a).
  { intros a Ha. apply Hm2. unfold slot. lia. }
  eexists. split; [reflexivity|].
  assert (He2 : eff (list_mem pmm pv vs) np T s np1 T (with_mem s1 m2)).
  { destruct He1 as [Hn1 He1]. split; [exact Hn1|]. intros a Ha Ho HT. destruct (He1 a Ha Ho HT) as [E1 O1].
    split; [|exact O1]. intros HR. kst_simpl. rewrite Hm2'; [apply E1, HR|]. unfold list_mem in HR.
    destruct (decide (vs = [])) as [->|Hne].
    - pose proof (Hpv0 eq_refl). intros Hin. lia.
    - rewrite (Hpv Hne). tauto. }
  split; [eapply (uspace_store ready own P lo); [exact Hu1|exact Hk1|lia|exact Hm2']|].
  split; [exact He2|]. split; [|intros x Hx; kst_simpl; apply Hg1, Hx].
  assert (Hne : vs ++ [v] <> []) by (destruct vs; discriminate).
  pose proof Ht as [Hp Hm Ha Hptr Hl _ Hap Hap2]. unfold apart in *. constructor.
  - eapply kregion_eff; [exact He1|exact Hp].
  - eapply kregion_eff; [exact He1|exact Hm].
  - intros _. exact Hk1.
  - eapply (task_ptr_same (list_mem pmm pv vs)); [exact He2|exact Ht|].
    unfold list_mem, TS_mm, SIZEOF_task in *. intros a [H|[Hne' H]]; [lia|]. destruct (Hap2 Hne'). lia.
  - kst_simpl. split.
    + rewrite decide_False by exact Hne. rewrite <- Hr1. apply rd64_ext. intros a Hra. apply Hm2'. lia.
    + apply areas_snoc; [|exact Ha2|exact Hn2]. eapply areas_at_ext; [|exact Hv1].
      intros a Hra. apply Hm2. unfold slot. lia.
  - rewrite length_app. cbn [length]. lia.
  - exact Hap.
  - intros _. split; assumption.
Qed.

(** Writes above the kernel's pages, or to other fields of the task structure,
    keep the task's areas. *)
Definition spares (np ppcb : Z) (R : Z -> Prop) : Prop :=
  forall a, R a -> np <= a \/
    (ppcb <= a < ppcb + SIZEOF_task /\ ~ (ppcb + TS_mm <= a < ppcb + TS_mm + 8)).

Lemma task_at_high R np T s np' T' s' ppcb pmm pv vs :
  eff R np T s np' T' s' -> spares np ppcb R ->
  task_at np T (kmem s) ppcb pmm pv vs -> task_at np' T' (kmem s') ppcb pmm pv vs.
Proof.
  intros He HR [Hp Hm Ha Hptr [Hl Hv] Hlen Hap Hap2]. unfold apart in *.
  assert (Hsame : forall p n a, kregion np T p n -> p <= a < p + n -> apart ppcb SIZEOF_task p n ->
    rd8 (kmem s') a = rd8 (kmem s) a).
  { unfold apart. intros p n a Hk Hra Hp'. eapply (kregion_same own P); [exact He|exact Hk|exact Hra|].
    intros Hr. pose proof (kregion_low np T p n a Hk Hra). destruct (HR a Hr) as [|[? _]]; lia. }
  constructor; try assumption.
  - eapply kregion_eff; eassumption.
  - eapply kregion_eff; eassumption.
  - intros Hne. eapply kregion_eff; [exact He|exact (Ha Hne)].
  - rewrite <- Hptr. apply rd64_ext. intros a Hra.
    eapply (kregion_same own P); [exact He|exact Hp|unfold TS_mm, SIZEOF_task in *; lia|].
    intros Hr. pose proof (kregion_low np T ppcb SIZEOF_task a Hp ltac:(unfold TS_mm, SIZEOF_task in *; lia)).
    destruct (HR a Hr) as [|[_ ?]]; lia.
  - split.
    + rewrite <- Hl. apply rd64_ext. intros a Hra. apply (Hsame pmm 24); [exact Hm|lia|exact Hap].
    + destruct (decide (vs = [])) as [->|Hne]; [intros i v Hi; discriminate|].
      eapply areas_at_ext; [|exact Hv]. intros a Hra.
      apply (Hsame pv 4096); [exact (Ha Hne)|lia|apply Hap2, Hne].
Qed.

(** ** One program header *)

Definition area_of (h : phdr) (pe : Z) : varea :=
  mk_varea (p_vaddr h) (u64 (p_vaddr h + p_memsz h)) (p_memsz h) (VIRT_BASE + pe) (p_flags h) (p_offset h).

Lemma area_of_ok m pph pe : 0 <= pe < 2 ^ 30 -> varea_ok (area_of (phdr_at m pph) pe).
Proof.
  intros Hp. unfold varea_ok, area_of, phdr_at, small. cbn [v_start v_end v_mmsz v_file v_flags v_offset
    p_vaddr p_memsz p_flags p_offset p_filesz].
  pose proof (rd32_range m (pph + P_flags)) as Hf. pose proof (u64_range (rd64 m (pph + P_vaddr) + rd64 m (pph + P_memsz))).
  repeat constructor; try apply rd64_range; try lia; unfold VIRT_BASE; lia.
Qed.

(** The file's bytes and what must stay clear of them. *)
Record image (np : Z) (T : gmap (Z * Z) Z) (pe isz ppcb pmm pv : Z) (vs : list varea) : Prop := {
  im_region : kregion np T pe isz;
  im_pos : 64 <= isz;
  im_pcb : apart pe isz ppcb SIZEOF_task;
  im_mm : apart pe isz pmm 24;
  im_areas : vs <> [] -> apart pe isz pv 4096 }.

(** A header the loader can handle: the file part lies in the image, the segment
    in user space, and frames and table pages suffice. *)
Record header_ok (np f isz : Z) (h : phdr) : Prop := {
  ho_offset : 0 <= p_offset h;
  ho_file : 0 <= p_filesz h <= p_memsz h;
  ho_image : p_offset h + p_filesz h <= isz;
  ho_vaddr : 0 <= p_vaddr h;
  ho_user : p_vaddr h + p_memsz h + 4096 <= 2 ^ 47;
  ho_size : p_memsz h < 2 ^ 31;
  ho_tables : np + 3 * 4096 * pages_of (p_vaddr h) (p_memsz h) + 4096 <= 0x5000000;
  ho_frames : f + 4096 * pages_of (p_vaddr h) (p_memsz h) < 0x6000000 }.

(** The segment's frames hold the file's bytes and then zeros. *)
Definition loaded (m0 m : mem) (pe f : Z) (h : phdr) : Prop :=
  forall i, 0 <= i < p_memsz h ->
    rd8 m (f + p_vaddr h mod 4096 + i) = if decide (i < p_filesz h) then rd8 m0 (pe + p_offset h + i) else 0.

Lemma load_header_spec fuel np s T L ppcb pmm pv vs pe isz pph :
  let h := phdr_at (kmem s) pph in
  let f := s⟦usr_phys_addr⟧ in
  let n := pages_of (p_vaddr h) (p_memsz h) in
  uspace np s T L -> task_at np T (kmem s) ppcb pmm pv vs -> image np T pe isz ppcb pmm pv vs ->
  header_ok np f isz h -> pe <= pph -> pph + 56 <= pe + isz ->
  72 * (Z.of_nat (length vs) + 1) <= 4096 -> (length vs < fuel)%nat ->
  exists np' T' s' pv',
    load_header fuel s (VIRT_BASE + ppcb) (VIRT_BASE + pe) (VIRT_BASE + pph) = Some (s', [])
    /\ np <= np' <= np + 3 * 4096 * n + 4096 /\ (vs <> [] -> pv' = pv) /\ (vs = [] -> np <= pv')
    /\ uspace np' s' T' (map_range (Z.to_nat n) L (p_vaddr h / 4096) f)
    /\ eff (fun a => list_mem pmm pv vs a \/ f <= a < f + 4096 * n) np T s np' T' s'
    /\ task_at np' T' (kmem s') ppcb pmm pv' (vs ++ [area_of h pe])
    /\ loaded (kmem s) (kmem s') pe f h
    /\ s'⟦usr_phys_addr⟧ = f + 4096 * n /\ same_globals map_globals s s'.
Proof.
  intros h f n Hu Ht Him Hok Hp1 Hp2 Hlen Hf.
  pose proof Hok as [Hof Hfi Hii Hva Hus Hms Htb Hfr]. fold n in Htb, Hfr.
  pose proof Him as [Hir Hi64 Hap1 Hap2 Hap3]. pose proof (us_frame _ _ _ _ _ _ _ Hu) as [Hfa Hfb]. fold f in Hfa, Hfb.
  assert (Hn : 0 <= n) by (unfold n, pages_of; zdiv).
  assert (Hlow : 0 <= pe /\ pe + isz <= np).
  { pose proof (kregion_low np T pe isz pe Hir ltac:(lia)).
    pose proof (kregion_low np T pe isz (pe + isz - 1) Hir ltac:(lia)). lia. }
  unfold load_header. rewrite rd_phdr_at by lia. fold h. unfold size_msg.
  rewrite (proj2 (Z.ltb_ge _ _)) by lia.
  destruct (allocate_regions_spec ready own P lo HP HP0 HPlo Hown np s T L (p_vaddr h) (p_memsz h))
    as (np1 & T1 & s1 & -> & Hn1 & Hu1 & He1 & Hf1 & Hg1); try assumption; fold n; try (unfold KWIN; lia).
  fold n in Hn1, Hu1, Hf1. fold f in Hu1, Hf1.
  pose proof (proj1 He1) as Hnn1.
  (* the copy *)
  assert (Hh1 : phdr_at (kmem s1) pph = h).
  { apply phdr_at_ext. intros a Ha. eapply (kregion_same own P); [exact He1|exact Hir|lia|intros []]. }
  assert (Hir1 : kregion np1 T1 pe isz) by (eapply kregion_eff; [exact He1|exact Hir]).
  assert (Hul : ulin (map_range (Z.to_nat n) L (p_vaddr h / 4096) f) (p_vaddr h) (p_memsz h)
    (f + p_vaddr h mod 4096)).
  { intros i Hi. apply (map_range_ulin (Z.to_nat n) L (p_vaddr h) f); rewrite ?Z2Nat.id by lia; try lia.
    unfold n, pages_of in *. zdiv. }
  destruct (copy_segment_spec np1 s1 T1 _ pe pph (f + p_vaddr h mod 4096) Hu1) as (m2 & Ec & Hc1 & Hc2 & Hc3);
    rewrite ?Hh1; try assumption; try lia; [zdiv|apply (kregion_sub own P np1 T1 pe isz (pph - pe) 56) in Hir1;
      [replace (pe + (pph - pe)) with pph in Hir1 by lia; exact Hir1|lia|lia]
    |apply (kregion_sub own P np1 T1 pe isz); [exact Hir1|lia|lia]|].
  rewrite Hh1 in Hc1, Hc2, Hc3. rewrite Ec. cbn [mbind option_bind]. set (s2 := with_mem s1 m2) in *.
  assert (Hn4 : p_vaddr h mod 4096 + p_memsz h <= 4096 * n) by (unfold n, pages_of; zdiv).
  assert (Hm2 : forall a, ~ (f <= a < f + 4096 * n) -> rd8 m2 a = rd8 (kmem s1) a).
  { intros a Ha. apply Hc3. zdiv. }
  assert (He2 : eff (fun a => f <= a < f + 4096 * n) np T s np1 T1 s2).
  { eapply eff_weaken; [eapply eff_trans; [exact He1|apply (eff_mem own _ np1 T1 s1 m2 Hm2)]|].
    intros a [[]|H]. exact H. }
  assert (Hu2 : uspace np1 s2 T1 (map_range (Z.to_nat n) L (p_vaddr h / 4096) f)).
  { eapply uspace_user_write; try eassumption. intros a Ha. apply Hm2. lia. }
  assert (Ht2 : task_at np1 T1 (kmem s2) ppcb pmm pv vs).
  { eapply task_at_high; [exact He2| |exact Ht]. intros a Ha. cbv beta in Ha. lia. }
  (* the area *)
  rewrite kld64_at, (ta_ptr _ _ _ _ _ _ _ Ht2);
    [|pose proof (kregion_low _ _ _ _ ppcb (ta_pcb _ _ _ _ _ _ _ Ht) ltac:(unfold SIZEOF_task; lia));
      unfold TS_mm; lia].
  destruct (new_area_spec fuel np1 s2 T1 _ ppcb pmm pv vs Hu2 Ht2 Hlen Hf)
    as (np3 & s3 & pv3 & E3 & Hn3 & Hpv3 & Hpv0 & He3 & Hfill); [unfold KWIN; lia|].
  rewrite E3. cbn [mbind option_bind].
  assert (Him2 : forall a, pe <= a < pe + isz -> ~ list_mem pmm pv vs a).
  { unfold list_mem, apart in *. intros a Ha [H|[Hne H]]; [lia|]. specialize (Hap3 Hne). lia. }
  assert (Hir2 : kregion np1 T1 pe isz) by exact Hir1.
  assert (Hh3 : rd_phdr s3 (VIRT_BASE + pph) = h).
  { rewrite rd_phdr_at by lia. rewrite <- Hh1. apply phdr_at_ext. intros a Ha.
    rewrite (kregion_same own P _ _ _ _ _ _ _ pe isz a He3 Hir2) by (lia || apply Him2; lia).
    apply Hm2. lia. }
  rewrite Hh3. destruct (Hfill (area_of h pe)) as (s4 & E4 & Hu4 & He4 & Ht4 & Hg4);
    [apply area_of_ok; lia|].
  unfold area_of in E4. cbn [v_start v_end v_mmsz v_file v_flags v_offset] in E4. rewrite E4.
  exists np3, T1, s4, pv3. split; [reflexivity|]. split; [lia|]. split; [exact Hpv3|].
  split; [intros Hv; specialize (Hpv0 Hv); lia|]. split; [exact Hu4|].
  assert (Hfrm : forall a, 0x5000000 <= a -> rd8 (kmem s4) a = rd8 m2 a).
  { intros a Ha. destruct He4 as [_ He4]. destruct (He4 a) as [E _]; [lia|..].
    - intros Ho. specialize (Hown a Ho). pose proof (ui_lo _ _ _ _ _ _ (us_inv _ _ _ _ _ _ _ Hu)). lia.
    - eapply outside_high; [..|exact (us_inv _ _ _ _ _ _ _ Hu2)|]; try assumption. lia.
    - apply E. unfold list_mem. pose proof (kregion_low _ _ _ _ (pmm + 23) (ta_mm _ _ _ _ _ _ _ Ht) ltac:(lia)) as Hq.
      intros [H|[Hne H]]; [lia|].
      pose proof (kregion_low _ _ _ _ a (ta_areas _ _ _ _ _ _ _ Ht Hne) H). lia. }
  split; [|split; [exact Ht4|split; [|split]]].
  - eapply eff_weaken; [eapply eff_trans; [exact He2|exact He4]|]. intros a [H|H]; [right; exact H|left; exact H].
  - intros i Hi. rewrite Hfrm by zdiv. case_decide as Hd.
    + rewrite Hc1 by lia. eapply (kregion_same own P); [exact He1|exact Hir|lia|intros []].
    + apply Hc2. lia.
  - rewrite Hg4 by notin_globals. unfold s2. kst_simpl. exact Hf1.
  - intros x Hx. rewrite Hg4; [unfold s2; kst_simpl; apply Hg1, Hx|].
    intros Hin. apply Hx. unfold map_globals, lookup_globals. rewrite !elem_of_app. tauto.
Qed.

(** ** The loop over the headers *)

Record elf_at (m : mem) (pe e_entry e_phoff e_phnum : Z) : Prop := {
  ea_entry : rd64 m (pe + E_entry) = e_entry;
  ea_phoff : rd64 m (pe + E_phoff) = e_phoff;
  ea_phnum : rd16 m (pe + E_phnum) = e_phnum }.

Lemma elf_at_ext m m' pe en po pn :
  (forall a, pe <= a < pe + 64 -> rd8 m' a = rd8 m a) -> elf_at m pe en po pn -> elf_at m' pe en po pn.
Proof.
  intros H [H1 H2 H3]. unfold E_entry, E_phoff, E_phnum in *.
  constructor; [rewrite <- H1; apply rd64_ext|rewrite <- H2; apply rd64_ext|rewrite <- H3; apply rd16_ext];
    unfold E_entry, E_phoff, E_phnum; intros a Ha; apply H; lia.
Qed.

(** The header pointer advances by single bytes: behind a loadable header the
    next three "types" are zero in their low byte. *)
Lemma rd32_low m a : rd32 m a mod 256 = rd8 m a.
Proof.
  rewrite rd32_bytes. pose proof (rd8_range m a).
  rewrite (Z.mul_comm 256), Z.mod_add by lia. apply Z.mod_small. lia.
Qed.

Lemma skipped_types m p i : rd32 m p = 1 -> 1 <= i <= 3 -> rd32 m (p + i) <> 1.
Proof.
  intros H Hi. rewrite rd32_bytes in H.
  assert (Hz : rd8 m (p + i) = 0).
  { pose proof (rd8_range m p). pose proof (rd8_range m (p + 1)). pose proof (rd8_range m (p + 2)).
    pose proof (rd8_range m (p + 3)). assert (i = 1 \/ i = 2 \/ i = 3) as [->|[->| ->]] by lia; lia. }
  intros E. pose proof (rd32_low m (p + i)) as Hl. rewrite E, Hz in Hl. discriminate.
Qed.

Lemma load_rest fuel n s pcb pe en po pn i :
  elf_at (kmem s) pe en po pn -> 0 <= pe -> 0 <= po -> pe + po + 64 < 2 ^ 30 -> 1 <= i -> pn <= 4 ->
  rd32 (kmem s) (pe + po) = 1 -> pn - i < Z.of_nat n -> (0 < n)%nat ->
  load_loop fuel n s pcb (VIRT_BASE + pe) i = Some (s, []).
Proof.
  intros He Hpe Hpo Hb. revert i. induction n as [|n IH]; intros i Hi Hpn Ht Hn Hn0; cbn [load_loop].
  - lia.
  - unfold E_phnum, E_phoff, P_type. rewrite rdh_at, kld64_at by lia.
    destruct He as [E1 E2 E3]. unfold E_phnum, E_phoff in E2, E3. rewrite E2, E3.
    case Z.ltb_spec; intros Hlt; [|reflexivity].
    replace (u64 (VIRT_BASE + pe + po + i)) with (VIRT_BASE + (pe + po + i))
      by (rewrite u64_small; unfold VIRT_BASE; lia).
    rewrite rdw_at, Z.add_0_r by lia.
    rewrite (proj2 (Z.eqb_neq _ _)) by (apply skipped_types; [exact Ht|lia]). cbn [negb].
    apply IH; [lia|exact Hpn|exact Ht|lia|lia].
Qed.

Lemma load_loop_first fuel n s pcb pe en po pn s1 o :
  elf_at (kmem s) pe en po pn -> elf_at (kmem s1) pe en po pn ->
  0 <= pe -> 0 <= po -> pe + po + 64 < 2 ^ 30 -> 1 <= pn <= 4 ->
  rd32 (kmem s) (pe + po) = 1 -> rd32 (kmem s1) (pe + po) = 1 -> pn < Z.of_nat n ->
  load_header fuel s pcb (VIRT_BASE + pe) (VIRT_BASE + (pe + po)) = Some (s1, o) ->
  load_loop fuel n s pcb (VIRT_BASE + pe) 0 = Some (s1, o).
Proof.
  intros He He1 Hpe Hpo Hb Hpn Ht Ht1 Hn Eh. destruct n as [|n]; [lia|]. cbn [load_loop].
  unfold E_phnum, E_phoff, P_type. rewrite rdh_at, kld64_at by lia.
  pose proof He as [E1 E2 E3]. unfold E_phnum, E_phoff in E2, E3. rewrite E2, E3.
  rewrite (proj2 (Z.ltb_lt _ _)) by lia.
  replace (u64 (VIRT_BASE + pe + po + 0)) with (VIRT_BASE + (pe + po))
    by (rewrite u64_small; unfold VIRT_BASE; lia).
  rewrite rdw_at, Z.add_0_r, Ht by lia. cbn [negb Z.eqb Pos.eqb ELF_PROG_LOAD].
  rewrite Eh. cbn [mbind option_bind].
  rewrite (load_rest fuel n s1 pcb pe en po pn) by (assumption || lia).
  cbn [mbind option_bind]. rewrite app_nil_r. reflexivity.
Qed.

(** ** The heap *)

(** Where the heap of a program that ends at [e] starts. *)
Definition heap_base (e : Z) : Z := 0x6e000 + (e + 0x64000) / 4096 * 4096.

Lemma ALIGN_DOWN_eq x : 0 <= x < 2 ^ 64 -> ALIGN_DOWN x = x / 4096 * 4096.
Proof.
  intros Hx. unfold ALIGN_DOWN. rewrite (u64_small x) by lia.
  rewrite <- (Z.shiftl_mul_pow2 _ 12), <- (Z.shiftr_div_pow2 _ 12), <- Z.ldiff_ones_r by lia.
  apply Z.bits_inj'. intros j Hj. rewrite Z.ldiff_spec, Z.land_spec.
  destruct (decide (j < 64)) as [Hlt|Hge].
  - f_equal. change (2 ^ 64 - 4096) with (Z.ldiff (Z.ones 64) (Z.ones 12)).
    rewrite Z.ldiff_spec, (Z.testbit_ones 64) by lia.
    rewrite (proj2 (Z.leb_le 0 j)), (proj2 (Z.ltb_lt j 64)) by lia. reflexivity.
  - replace (Z.testbit x j) with false; [reflexivity|]. symmetry.
    rewrite <- (Z.mod_small x (2 ^ 64)) by lia. apply Z.mod_pow2_bits_high. lia.
Qed.

Lemma heap_base_eq e :
  0 <= e < 2 ^ 47 -> u64 (0x6e000 + ALIGN_DOWN (u64 (e + 100 * PAGE_SIZE))) = heap_base e.
Proof.
  intros He. unfold heap_base, PAGE_SIZE. rewrite (u64_small (e + _)), ALIGN_DOWN_eq by lia.
  rewrite u64_small by zdiv. reflexivity.
Qed.

Lemma uspace_pcb np s T L ppcb o n v :
  uspace np s T L -> kregion np T ppcb SIZEOF_task -> 0 <= o -> 0 < n -> o + n <= SIZEOF_task -> n = 8 ->
  uspace np (with_mem s (wr64 (kmem s) (ppcb + o) v)) T L.
Proof.
  intros Hu Hk Ho Hn Hs ->. eapply (uspace_store ready own P lo); [exact Hu|exact Hk|unfold SIZEOF_task; lia|].
  intros a Ha. apply rd8_wr64_ne. lia.
Qed.

Lemma next_ctxt_eq s :
  next_ctxt s = let v := u64 (s⟦pml_same_ctxt⟧ + PML_INC) in if v =? PML_MAX_INC then PML_SAME_CTXT else v.
Proof.
  unfold next_ctxt, increment_pml. kst_simpl. destruct (_ =? PML_MAX_INC); kst_simpl; reflexivity.
Qed.

Lemma next_addr_same s s' fl :
  s'⟦user_addr⟧ = s⟦user_addr⟧ -> s'⟦dif_ctxt⟧ = s⟦dif_ctxt⟧ -> s'⟦pml_same_ctxt⟧ = s⟦pml_same_ctxt⟧ ->
  next_addr s' fl = next_addr s fl.
Proof. intros H1 H2 H3. unfold next_addr. rewrite !next_ctxt_eq, H1, H2, H3. reflexivity. Qed.

Lemma next_addr_mem s m fl : next_addr (with_mem s m) fl = next_addr s fl.
Proof. apply next_addr_same; kst_simpl; reflexivity. Qed.

(** The fields of the task structure that the loader sets. *)
Definition pcb_fields (ppcb a : Z) : Prop :=
  ppcb + TS_entry <= a < ppcb + TS_entry + 8 \/ ppcb + TS_heap_vma <= a < ppcb + TS_heap_vma + 8.

(** What the choice of the next unused user address needs. *)
Record user_area (s : kst) (flags : Z) : Prop := {
  ua_phys : s⟦physbase⟧ = 0x200000;
  ua_range : 0 <= s⟦user_addr⟧ < 2 ^ 47 - 4096;
  ua_aligned : s⟦user_addr⟧ mod 4096 = 0;
  ua_next : s⟦user_addr⟧ <= next_addr s flags < 2 ^ 47 - 4096;
  ua_next_aligned : next_addr s flags mod 4096 = 0 }.

Lemma user_area_mem s m fl : user_area s fl -> user_area (with_mem s m) fl.
Proof.
  intros [H1 H2 H3 H4 H5]. constructor; rewrite ?next_addr_mem; kst_simpl; assumption.
Qed.

Lemma user_area_same s s' fl : same_globals map_globals s s' -> user_area s fl -> user_area s' fl.
Proof.
  intros Hg [H1 H2 H3 H4 H5].
  constructor; rewrite ?(next_addr_same s s' fl) by (apply Hg; notin_globals);
    rewrite ?Hg by notin_globals; assumption.
Qed.

(** A fresh page of user memory at an address the kernel chooses. *)
Lemma new_page_spec np s T L addr :
  uspace np s T L -> user_area s 3 -> np + 3 * 4096 <= KWIN -> s⟦usr_phys_addr⟧ + 4096 < 0x6000000 ->
  exists np' T' s', memmap s addr PAGE_SIZE USR_PERM_BITS 3 = (next_addr s 3, s')
    /\ np' <= np + 3 * 4096
    /\ uspace np' s' T' (<[next_addr s 3 / 4096 := s⟦usr_phys_addr⟧ + USR_PERM_BITS]> L)
    /\ eff nothing np T s np' T' s'
    /\ s'⟦usr_phys_addr⟧ = s⟦usr_phys_addr⟧ + 4096 /\ s'⟦user_addr⟧ = s⟦user_addr⟧ + 4096
    /\ same_globals (map_globals ++ addr_globals) s s'.
Proof.
  intros Hu [H1 H2 H3 H4 H5] Hw Hf.
  destruct (memmap_next_addr_spec ready own P lo HP HP0 HPlo Hown np s T L addr USR_PERM_BITS 3)
    as (s' & E & [(np' & T' & Hn & Hu' & Hd) Hnf Hg _] & Hua & Hsc); try assumption; try lia;
    [right; reflexivity|].
  exists np', T', s'. split; [exact E|]. split; [lia|]. split; [exact Hu'|].
  split; [apply eff_data; [lia|exact Hd]|]. split; [|split; [exact Hua|exact Hg]].
  rewrite Hnf. unfold next_frame. rewrite (proj2 (Z.ltb_lt _ _)) by lia. reflexivity.
Qed.

(** A store at offset [o] of [n] linear bytes of user memory. *)
Lemma user_store np s T L h n f o v :
  uspace np s T L -> np <= f -> ulin L h n f -> 0 <= h -> h + n <= 2 ^ 47 -> 0 <= o -> o + 8 <= n ->
  vst64 s (u64 (h + o)) v = Some (with_mem s (wr64 (kmem s) (f + o) v))
  /\ uspace np (with_mem s (wr64 (kmem s) (f + o) v)) T L.
Proof.
  intros Hu Hf Hl H0 Hb Ho Ho8. rewrite u64_small by lia. split.
  - apply (vst64_lin T); [|eapply off_tables_user; try eassumption; lia|lia|lia].
    eapply ulin_vlin; try eassumption; [|lia|lia]. apply (ulin_sub L h n f); [exact Hl|lia|lia].
  - eapply uspace_user_write; try eassumption. intros a Ha. apply rd8_wr64_ne. lia.
Qed.

(** The three stores into a structure on a user page, and reading it back. *)
Lemma heap_stores np s T L h f b :
  uspace np s T L -> np <= f -> ulin L h 4096 f -> 0 <= h -> h + 4096 <= 2 ^ 47 ->
  exists m', (s1 ← vst64 s (u64 (h + VM_end)) b; s2 ← vst64 s1 (u64 (h + VM_start)) b;
      vst64 s2 (u64 (h + VM_mmsz)) PAGE_SIZE) = Some (with_mem s m')
    /\ uspace np (with_mem s m') T L /\ (forall a, ~ (f <= a < f + 4096) -> rd8 m' a = rd8 (kmem s) a)
    /\ rd64 m' (f + VM_start) = u64 b /\ rd64 m' (f + VM_end) = u64 b /\ rd64 m' (f + VM_mmsz) = 4096.
Proof.
  intros Hu Hf Hl H0 Hb. unfold VM_end, VM_start, VM_mmsz, PAGE_SIZE.
  pose proof (fun s' o v H => user_store np s' T L h 4096 f o v H Hf Hl H0 Hb) as Hst.
  destruct (Hst s 16 b Hu ltac:(lia) ltac:(lia)) as [-> Hu1]. cbn [mbind option_bind].
  destruct (Hst _ 8 b Hu1 ltac:(lia) ltac:(lia)) as [-> Hu2]. cbn [mbind option_bind].
  destruct (Hst _ 24 4096 Hu2 ltac:(lia) ltac:(lia)) as [-> Hu3]. kst_simpl. kst_simpl_in Hu3.
  eexists. split; [reflexivity|]. split; [exact Hu3|]. split; [|split; [|split]].
  - intros a Ha. rewrite !rd8_wr64_ne by lia. reflexivity.
  - rewrite rd64_wr64_ne, rd64_wr64_eq by lia. reflexivity.
  - rewrite !rd64_wr64_ne, rd64_wr64_eq by lia. reflexivity.
  - rewrite rd64_wr64_eq. reflexivity.
Qed.

Lemma bind_three {A B} (a : option A) (b c : A -> option A) (k : A -> option B) r :
  (x ← a; y ← b x; c y) = Some r -> (x ← a; y ← b x; z ← c y; k z) = k r.
Proof.
  destruct a as [x|]; cbn; [|discriminate]. destruct (b x) as [y|]; cbn; [|discriminate]. intros ->.
  reflexivity.
Qed.

Lemma kfield_same R np T s np' T' s' p n o :
  eff R np T s np' T' s' -> kregion np T p n -> 0 <= o -> o + 8 <= n ->
  (forall a, R a -> ~ (p + o <= a < p + o + 8)) -> rd64 (kmem s') (p + o) = rd64 (kmem s) (p + o).
Proof.
  intros He Hk Ho Hn HR. apply rd64_ext. intros a Ha.
  eapply (kregion_same own P); [exact He|exact Hk|lia|]. intros Hr. exact (HR a Hr Ha).
Qed.

Lemma start_heap_spec fuel np s T L ppcb pmm pv vs v pe isz en po pn :
  uspace np s T L -> task_at np T (kmem s) ppcb pmm pv vs ->
  vs !! (length vs - 1)%nat = Some v -> (length vs <= fuel)%nat ->
  image np T pe isz ppcb pmm pv vs -> elf_at (kmem s) pe en po pn -> user_area s 3 ->
  0 <= v_end v -> v_end v + 0x100000 <= s⟦user_addr⟧ ->
  np + 6 * 4096 <= 0x5000000 -> s⟦usr_phys_addr⟧ + 2 * 4096 < 0x6000000 ->
  let f := s⟦usr_phys_addr⟧ in
  let h := next_addr s 3 in
  let b := heap_base (v_end v) in
  exists np' T' s', start_heap fuel s (VIRT_BASE + ppcb) (VIRT_BASE + pe) = Some s'
    /\ np <= np' <= np + 6 * 4096
    /\ uspace np' s' T' (<[b / 4096 := f + 4096 + USR_PERM_BITS]> (<[h / 4096 := f + USR_PERM_BITS]> L))
    /\ eff (fun a => pcb_fields ppcb a \/ f <= a < f + 4096) np T s np' T' s'
    /\ task_at np' T' (kmem s') ppcb pmm pv vs
    /\ rd64 (kmem s') (ppcb + TS_entry) = en /\ rd64 (kmem s') (ppcb + TS_heap_vma) = h
    /\ rd64 (kmem s') (f + VM_start) = b /\ rd64 (kmem s') (f + VM_end) = b
    /\ rd64 (kmem s') (f + VM_mmsz) = 4096
    /\ s'⟦usr_phys_addr⟧ = f + 2 * 4096 /\ s'⟦user_addr⟧ = s⟦user_addr⟧ + 4096
    /\ same_globals (map_globals ++ addr_globals) s s'.
Proof.
  intros Hu Ht Hlast Hfu Him He Har Hv0 Hv1 Hw Hf f h b.
  pose proof (us_frame _ _ _ _ _ _ _ Hu) as [Hfa Hfb]. fold f in Hfa, Hfb, Hf.
  pose proof (im_region _ _ _ _ _ _ _ _ Him) as Hir. pose proof (im_pos _ _ _ _ _ _ _ _ Him) as Hi64.
  pose proof (ta_pcb _ _ _ _ _ _ _ Ht) as Hp.
  assert (Hlow : 0 <= pe /\ pe + 64 <= np /\ 0 <= ppcb /\ ppcb + SIZEOF_task <= np).
  { pose proof (kregion_low np T pe isz pe Hir ltac:(lia)).
    pose proof (kregion_low np T pe isz (pe + 63) Hir ltac:(lia)).
    pose proof (kregion_low np T ppcb SIZEOF_task ppcb Hp ltac:(unfold SIZEOF_task; lia)).
    pose proof (kregion_low np T ppcb SIZEOF_task (ppcb + SIZEOF_task - 1) Hp ltac:(unfold SIZEOF_task; lia)). lia. }
  assert (Hne : vs <> []) by (intros ->; discriminate).
  unfold SIZEOF_task in Hlow.
  pose proof (ea_entry _ _ _ _ _ He) as Hen. unfold start_heap.
  rewrite (kld64_at s pe E_entry), (kst64_at s ppcb TS_entry), Hen by (unfold TS_entry, E_entry; lia).
  set (s1 := with_mem s _).
  assert (Hu1 : uspace np s1 T L)
    by (apply (uspace_pcb np s T L ppcb TS_entry 8); [exact Hu|exact Hp|unfold SIZEOF_task, TS_entry; lia..]).
  assert (He1 : eff (pcb_fields ppcb) np T s np T s1).
  { apply eff_mem. intros a Ha. apply rd8_wr64_ne. unfold pcb_fields, TS_entry in *. lia. }
  (* the page of the heap descriptor *)
  destruct (new_page_spec np s1 T L 0 Hu1 (user_area_mem _ _ _ Har)) as (np2 & T2 & s2 & E2 & Hn2 & Hu2 & He2 & Hf2 & Hua2 & Hg2);
    [unfold KWIN; lia|unfold s1; kst_simpl; fold f; lia|].
  assert (Hs1 : next_addr s1 3 = h /\ s1⟦usr_phys_addr⟧ = f /\ s1⟦user_addr⟧ = s⟦user_addr⟧)
    by (unfold s1; rewrite next_addr_mem; kst_simpl; repeat split).
  destruct Hs1 as (Hs1h & Hs1f & Hs1u). rewrite Hs1h, Hs1f in *. rewrite Hs1u in Hua2. rewrite E2.
  pose proof (proj1 He2) as Hnn2.
  assert (Hp2 : kregion np2 T2 ppcb SIZEOF_task) by (eapply kregion_eff; [exact He2|exact Hp]).
  rewrite (kst64_at s2 ppcb TS_heap_vma) by (unfold TS_heap_vma; lia). set (s3 := with_mem s2 _).
  assert (Hu3 : uspace np2 s3 T2 (<[h / 4096 := f + USR_PERM_BITS]> L))
    by (apply (uspace_pcb np2 s2 T2 _ ppcb TS_heap_vma 8); [exact Hu2|exact Hp2|unfold SIZEOF_task, TS_heap_vma; lia..]).
  assert (He3 : eff (pcb_fields ppcb) np T s np2 T2 s3).
  { eapply eff_weaken; [eapply eff_trans; [exact He1|eapply eff_trans;
      [exact He2|apply (eff_mem own (pcb_fields ppcb))]]|].
    - intros a Ha. apply rd8_wr64_ne. unfold pcb_fields, TS_heap_vma in *. lia.
    - intros a [H|[[]|H]]; exact H. }
  assert (Hsp : forall q, spares q ppcb (pcb_fields ppcb)).
  { intros q a Ha. right. unfold pcb_fields, TS_entry, TS_heap_vma, TS_mm, SIZEOF_task in *. lia. }
  assert (Ht3 : task_at np2 T2 (kmem s3) ppcb pmm pv vs) by (eapply task_at_high; [exact He3|apply Hsp|exact Ht]).
  (* the last area *)
  destruct (ta_list _ _ _ _ _ _ _ Ht3) as [Hmm Hareas]. rewrite decide_False in Hmm by exact Hne.
  pose proof (kregion_low _ _ _ _ pmm (ta_mm _ _ _ _ _ _ _ Ht3) ltac:(lia)) as Hpm.
  pose proof (kregion_low _ _ _ _ (pv + 4095) (ta_areas _ _ _ _ _ _ _ Ht3 Hne) ltac:(lia)) as Hpv.
  pose proof (kregion_low _ _ _ _ pv (ta_areas _ _ _ _ _ _ _ Ht3 Hne) ltac:(lia)) as Hpv0.
  pose proof (ta_len _ _ _ _ _ _ _ Ht3) as Hlen. unfold MM_mmap.
  rewrite (kld64_at s3 ppcb), (ta_ptr _ _ _ _ _ _ _ Ht3) by (unfold TS_mm; lia).
  rewrite (kld64_at s3 pmm 0), Z.add_0_r, Hmm by lia.
  assert (Hl0 : (0 < length vs)%nat) by (destruct vs; [contradiction|simpl; lia]).
  pose proof (last_vma_spec s3 pv vs 0 fuel Hareas Hl0 ltac:(lia) ltac:(lia) ltac:(lia)) as El.
  rewrite Z.mul_0_r, Z.add_0_r in El. rewrite El. cbn [mbind option_bind]. clear El.
  destruct (Hareas _ _ Hlast) as [Hva _]. apply aa_end in Hva. unfold SIZEOF_vma in *.
  replace (Z.of_nat (length vs - 1)) with (Z.of_nat (length vs) - 1) in Hva by lia.
  rewrite kld64_at, Hva by (unfold VM_end; lia).
  pose proof (ua_range _ _ Har) as Hur. pose proof (ua_next _ _ Har) as Hun. fold h in Hun.
  rewrite heap_base_eq by lia. fold b.
  (* the stores *)
  assert (Hbr : v_end v <= b /\ b + 4096 <= s⟦user_addr⟧ /\ b mod 4096 = 0).
  { unfold b, heap_base. split; [zdiv|]. split; [zdiv|].
    rewrite Z.add_mod, Z.mod_mul by lia. reflexivity. }
  assert (Hul : ulin (<[h / 4096 := f + USR_PERM_BITS]> L) h 4096 f).
  { pose proof (ulin_page L (h / 4096) f Hfa ltac:(lia)) as Hul.
    pose proof (ua_next_aligned _ _ Har) as Hal. fold h in Hal.
    replace (4096 * (h / 4096)) with h in Hul by zdiv. exact Hul. }
  destruct (heap_stores np2 s3 T2 _ h f b Hu3 ltac:(lia) Hul ltac:(lia) ltac:(lia))
    as (m4 & E4 & Hu4 & Hm4 & Hst & Hed & Hsz).
  rewrite (bind_three _ _ _ _ _ E4). set (s4 := with_mem s3 m4) in *.
  assert (He4 : eff (fun a => pcb_fields ppcb a \/ f <= a < f + 4096) np T s np2 T2 s4)
    by (eapply eff_trans; [exact He3|apply eff_mem; exact Hm4]).
  assert (Hld : forall o, 0 <= o -> o + 8 <= 4096 ->
    vld64 s4 (u64 (h + o)) = Some (rd64 (kmem s4) (f + o))).
  { intros o Ho Ho8. rewrite u64_small by lia. apply (vld64_lin T2); [|lia|lia].
    eapply (ulin_vlin ready own P lo HP HP0 HPlo np2 s4 T2); [exact Hu4| |lia|lia].
    apply (ulin_sub _ h 4096 f); [exact Hul|lia|lia]. }
  assert (Hk4 : kmem s4 = m4) by (unfold s4; kst_simpl; reflexivity).
  rewrite (Hld VM_start), (Hld VM_mmsz), Hk4, Hst, Hsz by (unfold VM_start, VM_mmsz; lia).
  cbn [mbind option_bind]. rewrite (u64_small b) by lia.
  (* the heap itself *)
  assert (Hone : pages_of b 4096 = 1) by (unfold pages_of; zdiv).
  assert (Hf4 : s4⟦usr_phys_addr⟧ = f + 4096) by (unfold s4, s3; kst_simpl; exact Hf2).
  destruct (allocate_regions_spec ready own P lo HP HP0 HPlo Hown np2 s4 T2 _ b 4096 Hu4)
    as (np5 & T5 & s5 & -> & Hn5 & Hu5 & He5 & Hf5 & Hg5); rewrite ?Hone, ?Hf4; try lia; [unfold KWIN; lia|].
  rewrite Hone, Hf4 in *. change (Z.to_nat 1) with 1%nat in Hu5. cbn [map_range] in Hu5.
  exists np5, T5, s5. split; [reflexivity|]. pose proof (proj1 He5). split; [lia|]. split; [exact Hu5|].
  assert (He6 : eff (fun a => pcb_fields ppcb a \/ f <= a < f + 4096) np T s np5 T5 s5).
  { eapply eff_weaken; [eapply eff_trans; [exact He4|exact He5]|]. intros a [H'|[]]. exact H'. }
  split; [exact He6|].
  assert (Hsp5 : spares np ppcb (fun a => pcb_fields ppcb a \/ f <= a < f + 4096)).
  { intros a [H'|H']; [apply Hsp, H'|left; lia]. }
  split; [eapply task_at_high; [exact He6|exact Hsp5|exact Ht]|].
  assert (Hpf : forall o, 0 <= o -> o + 8 <= SIZEOF_task ->
    rd64 (kmem s5) (ppcb + o) = rd64 (kmem s4) (ppcb + o)).
  { intros o Ho Ho8. eapply kfield_same; [exact He5|eapply kregion_eff; [exact He3|exact Hp]|exact Ho|exact Ho8|].
    intros a []. }
  assert (Hpm4 : forall o, 0 <= o -> o + 8 <= SIZEOF_task ->
    rd64 (kmem s4) (ppcb + o) = rd64 (kmem s3) (ppcb + o)).
  { intros o Ho Ho8. unfold s4. kst_simpl. apply rd64_ext. intros a Ha. apply Hm4. unfold SIZEOF_task in *. lia. }
  assert (Hfr : forall o, 0 <= o -> o + 8 <= 4096 -> rd64 (kmem s5) (f + o) = rd64 m4 (f + o)).
  { intros o Ho Ho8. apply rd64_ext. intros a Ha. destruct He5 as [_ He5].
    destruct (He5 a) as [E _]; [lia|..].
    - intros Hoa. specialize (Hown a Hoa). pose proof (ui_lo _ _ _ _ _ _ (us_inv _ _ _ _ _ _ _ Hu)). lia.
    - eapply outside_high; [..|exact (us_inv _ _ _ _ _ _ _ Hu4)|]; try assumption. lia.
    - rewrite E by (intros []). reflexivity. }
  rewrite !Hpf, !Hpm4, !Hfr, Hst, Hed, Hsz
    by (unfold SIZEOF_task, TS_entry, TS_heap_vma, VM_start, VM_end, VM_mmsz; lia).
  assert (H3e : rd64 (kmem s3) (ppcb + TS_entry) = en).
  { unfold s3. kst_simpl. rewrite rd64_wr64_ne by (unfold TS_entry, TS_heap_vma; lia).
    etrans; [eapply kfield_same; [exact He2|exact Hp|unfold TS_entry; lia|unfold TS_entry, SIZEOF_task; lia|intros a []]|].
    unfold s1. kst_simpl. rewrite rd64_wr64_eq. apply u64_small. rewrite <- Hen. apply rd64_range. }
  assert (H3h : rd64 (kmem s3) (ppcb + TS_heap_vma) = h).
  { unfold s3. kst_simpl. rewrite rd64_wr64_eq. apply u64_small. lia. }
  split; [exact H3e|]. split; [exact H3h|]. rewrite u64_small by lia.
  split; [reflexivity|]. split; [reflexivity|]. split; [reflexivity|]. split; [lia|].
  split; [rewrite Hg5 by notin_globals; unfold s4, s3; kst_simpl; exact Hua2|].
  intros x Hx. assert (Hx' : x ∉ map_globals) by (intros Hin; apply Hx, elem_of_app; left; exact Hin).
  rewrite Hg5 by exact Hx'. unfold s4, s3. kst_simpl. rewrite Hg2 by exact Hx. unfold s1. kst_simpl. reflexivity.
Qed.

(** ** The whole loader *)

(** The abstract address space of a loaded program. *)
Definition program_space (s : kst) (h : phdr) (L : gmap Z Z) : gmap Z Z :=
  let f := s⟦usr_phys_addr⟧ in
  let n := pages_of (p_vaddr h) (p_memsz h) in
  let g := f + 4096 * n in
  <[heap_base (p_vaddr h + p_memsz h) / 4096 := g + 4096 + USR_PERM_BITS]>
    (<[next_addr s 3 / 4096 := g + USR_PERM_BITS]> (map_range (Z.to_nat n) L (p_vaddr h / 4096) f)).

(** What the loader needs of the program and of the state. *)
Record loadable (np : Z) (s : kst) (isz pe en po pn : Z) (h : phdr) : Prop := {
  lb_elf : elf_at (kmem s) pe en po pn;
  lb_count : 1 <= pn <= 4;
  lb_type : rd32 (kmem s) (pe + po) = 1;
  lb_phoff : 0 <= po /\ po + 56 <= isz;
  lb_header : h = phdr_at (kmem s) (pe + po);
  lb_ok : header_ok (np + 6 * 4096) (s⟦usr_phys_addr⟧ + 2 * 4096) isz h;
  lb_below : p_vaddr h + p_memsz h + 0x100000 <= s⟦user_addr⟧;
  lb_area : user_area s 3 }.

(** What it leaves behind: [f] is the first frame of the segment. *)
Record program_loaded (np : Z) (T : gmap (Z * Z) Z) (s : kst) (L : gmap Z Z) (ppcb pmm pe en : Z)
    (vs : list varea) (h : phdr) (np' : Z) (T' : gmap (Z * Z) Z) (s' : kst) (pv' : Z) : Prop := {
  pl_np : np <= np' <= np + 3 * 4096 * pages_of (p_vaddr h) (p_memsz h) + 7 * 4096;
  pl_space : uspace np' s' T' (program_space s h L);
  pl_task : task_at np' T' (kmem s') ppcb pmm pv' (vs ++ [area_of h pe]);
  pl_bytes : loaded (kmem s) (kmem s') pe (s⟦usr_phys_addr⟧) h;
  pl_lin : ulin (program_space s h L) (p_vaddr h) (p_memsz h) (s⟦usr_phys_addr⟧ + p_vaddr h mod 4096);
  pl_entry : rd64 (kmem s') (ppcb + TS_entry) = en;
  pl_heap : rd64 (kmem s') (ppcb + TS_heap_vma) = next_addr s 3;
  pl_heap_start : rd64 (kmem s') (s⟦usr_phys_addr⟧ + 4096 * pages_of (p_vaddr h) (p_memsz h) + VM_start)
    = heap_base (p_vaddr h + p_memsz h);
  pl_heap_end : rd64 (kmem s') (s⟦usr_phys_addr⟧ + 4096 * pages_of (p_vaddr h) (p_memsz h) + VM_end)
    = heap_base (p_vaddr h + p_memsz h);
  pl_frames : s'⟦usr_phys_addr⟧ = s⟦usr_phys_addr⟧ + 4096 * (pages_of (p_vaddr h) (p_memsz h) + 2);
  pl_user : s'⟦user_addr⟧ = s⟦user_addr⟧ + 4096;
  pl_glob : same_globals (map_globals ++ addr_globals) s s' }.

Lemma load_segment_spec Y fuel np s T L ppcb pmm pv vs file off isz en po pn h :
  let pe := _binary_tarfs_start Y + off in
  file_exists Y fuel (kmem s) (kphys file) = Some off -> off <> 0 -> off <> 999 ->
  uspace np s T L -> task_at np T (kmem s) ppcb pmm pv vs -> image np T pe isz ppcb pmm pv vs ->
  loadable np s isz pe en po pn h ->
  72 * (Z.of_nat (length vs) + 1) <= 4096 -> (length vs + 5 < fuel)%nat ->
  exists np' T' s' pv',
    load_segment Y fuel s (VIRT_BASE + ppcb) file = Some (s', [])
    /\ program_loaded np T s L ppcb pmm pe en vs h np' T' s' pv'
    /\ (vs <> [] -> pv' = pv) /\ (vs = [] -> np <= pv')
    /\ eff (fun a => list_mem pmm pv vs a \/ pcb_fields ppcb a \/ s⟦usr_phys_addr⟧ <= a) np T s np' T' s'.
Proof.
  intros pe Hfe Hoff0 Hoff9 Hu Ht Him [He Hpn Hty Hpo -> Hok Hbel Har] Hlen Hfu.
  set (h := phdr_at (kmem s) (pe + po)) in *. set (f := s⟦usr_phys_addr⟧) in *.
  set (n := pages_of (p_vaddr h) (p_memsz h)) in *.
  pose proof Hok as [Hof Hfi Hii Hva Hus Hms Htb Hfr]. fold n in Htb, Hfr.
  pose proof (us_frame _ _ _ _ _ _ _ Hu) as [Hfa Hfb]. fold f in Hfa, Hfb.
  pose proof Him as [Hir Hi64 Hap1 Hap2 Hap3].
  assert (Hn : 0 <= n) by (unfold n, pages_of; zdiv).
  assert (Hlow : 0 <= pe /\ pe + isz <= np).
  { pose proof (kregion_low np T pe isz pe Hir ltac:(lia)).
    pose proof (kregion_low np T pe isz (pe + isz - 1) Hir ltac:(lia)). lia. }
  assert (Hok' : header_ok np f isz h) by (constructor; try assumption; fold n; lia).
  (* the first header *)
  destruct (load_header_spec fuel np s T L ppcb pmm pv vs pe isz (pe + po) Hu Ht Him Hok')
    as (np1 & T1 & s1 & pv1 & E1 & Hn1 & Hpv & Hpv0 & Hu1 & He1 & Ht1 & Hl1 & Hf1 & Hg1);
    [lia|lia|exact Hlen|lia|]. fold h n f in E1, Hn1, Hu1, He1, Ht1, Hl1, Hf1.
  assert (Hnot : forall a, pe <= a < pe + isz -> ~ (list_mem pmm pv vs a \/ f <= a < f + 4096 * n)).
  { unfold list_mem, apart in *. intros a Ha [[H|[Hne H]]|H]; [lia| |lia]. specialize (Hap3 Hne). lia. }
  assert (Hsame : forall a, pe <= a < pe + isz -> rd8 (kmem s1) a = rd8 (kmem s) a).
  { intros a Ha. eapply (kregion_same own P); [exact He1|exact Hir|exact Ha|apply Hnot, Ha]. }
  assert (He' : elf_at (kmem s1) pe en po pn) by (eapply elf_at_ext; [|exact He]; intros; apply Hsame; lia).
  assert (Hty' : rd32 (kmem s1) (pe + po) = 1) by (rewrite <- Hty; apply rd32_ext; intros; apply Hsame; lia).
  assert (Him1 : image np1 T1 pe isz ppcb pmm pv1 (vs ++ [area_of h pe])).
  { constructor; try assumption; [eapply kregion_eff; [exact He1|exact Hir]|]. intros _. unfold apart in *.
    destruct (decide (vs = [])) as [Hv|Hv]; [specialize (Hpv0 Hv); lia|]. rewrite (Hpv Hv). apply Hap3, Hv. }
  unfold load_segment. rewrite Hfe. cbn [mbind option_bind].
  rewrite (proj2 (Z.eqb_neq off 0)), (proj2 (Z.eqb_neq off 999)) by assumption. cbn [orb].
  replace (tarfs_ptr Y off) with (VIRT_BASE + pe)
    by (unfold tarfs_ptr, pe in *; rewrite u64_small; unfold VIRT_BASE; lia).
  rewrite (load_loop_first fuel fuel s (VIRT_BASE + ppcb) pe en po pn s1 []) by (assumption || lia).
  cbn [mbind option_bind].
  (* the heap *)
  assert (Hlast : (vs ++ [area_of h pe]) !! (length (vs ++ [area_of h pe]) - 1)%nat = Some (area_of h pe)).
  { rewrite length_app. cbn [length]. rewrite Nat.add_sub, lookup_app_r, Nat.sub_diag by lia. reflexivity. }
  assert (Hve : v_end (area_of h pe) = p_vaddr h + p_memsz h)
    by (unfold area_of; cbn [v_end]; apply u64_small; lia).
  destruct (start_heap_spec fuel np1 s1 T1 _ ppcb pmm pv1 _ _ pe isz en po pn Hu1 Ht1 Hlast)
    as (np2 & T2 & s2 & E2 & Hn2 & Hu2 & He2 & Ht2 & Hen & Hhp & Hst & Hed & _ & Hf2 & Hua & Hg2);
    rewrite ?Hve, ?Hf1, ?(Hg1 user_addr) by notin_globals; try assumption; try lia;
    [rewrite length_app; cbn [length]; lia|eapply user_area_same; eassumption|].
  rewrite Hve, Hf1, (next_addr_same s s1 3) in * by (apply Hg1; notin_globals).
  rewrite (Hg1 user_addr) in Hua by notin_globals.
  exists np2, T2, s2, pv1. rewrite E2. cbn [mbind option_bind]. split; [reflexivity|].
  split; [|split; [exact Hpv|split; [exact Hpv0|]]].
  - constructor; fold f; fold n; try assumption; try lia.
    + intros i Hi. rewrite <- (Hl1 i Hi). destruct He2 as [_ He2].
      assert (Hn4 : p_vaddr h mod 4096 + p_memsz h <= 4096 * n) by (unfold n, pages_of; zdiv).
      destruct (He2 (f + p_vaddr h mod 4096 + i)) as [E _]; [zdiv|..].
      * intros Ho. specialize (Hown _ Ho). pose proof (ui_lo _ _ _ _ _ _ (us_inv _ _ _ _ _ _ _ Hu)). zdiv.
      * eapply outside_high; [..|exact (us_inv _ _ _ _ _ _ _ Hu1)|]; try assumption. zdiv.
      * apply E. pose proof (kregion_low _ _ _ _ ppcb (ta_pcb _ _ _ _ _ _ _ Ht) ltac:(unfold SIZEOF_task; lia)).
        unfold pcb_fields, TS_entry, TS_heap_vma. zdiv.
    + unfold program_space. fold f n. pose proof (ua_next _ _ Har). unfold heap_base.
      apply ulin_insert; [apply ulin_insert|]; [|intros i Hi; zdiv..].
      intros i Hi. apply (map_range_ulin (Z.to_nat n) L (p_vaddr h) f); rewrite ?Z2Nat.id by lia; try lia.
      unfold n, pages_of in *. zdiv.
    + intros x Hx. rewrite Hg2 by exact Hx. apply Hg1. intros Hin. apply Hx, elem_of_app. left. exact Hin.
  - fold f. eapply eff_weaken; [eapply eff_trans; [exact He1|exact He2]|].
    intros a [[H|H]|[H|H]]; [left; exact H|right; right; lia|right; left; exact H|right; right; lia].
Qed.

(** A linear range seen by the hardware. *)
Lemma ulin_walk np s T L va n p i :
  uspace np s T L -> ulin L va n p -> 0 <= va -> va + n <= 2 ^ 47 -> 0 <= i < n ->
  exists w, walk (kmem s) (cr3 s) (va + i) = Some (mk_tr (p + i) w true).
Proof.
  intros Hu Hl H0 Hb Hi. rewrite (us_cr3 _ _ _ _ _ _ _ Hu).
  pose proof (uinv_walk P lo HP HP0 HPlo _ _ _ _ (va + i) (us_inv _ _ _ _ _ _ _ Hu) ltac:(lia)) as Hw.
  destruct (Hl i Hi) as (e & He & Hp). rewrite He in Hw.
  destruct (walk _ _ _) as [[pa w u]|]; [|discriminate]. cbn in Hw. injection Hw as Hpa ->.
  exists w. rewrite Hpa, Hp. reflexivity.
Qed.
End load.

(** C3: the loader.  For a program of the archive whose first program header is
    loadable, from any state whose page tables represent an address space,
    [load_segment] succeeds without output; then the hardware translates every
    address of the segment, with user access, to a byte that equals the file's
    (zero behind the file part), the task holds the program's entry point, its
    list of areas ends with the segment, and the first heap page is mapped. *)
Theorem load_segment_loads_program ready own P lo Y fuel np s T L ppcb pmm pv vs file name e0 es off
    isz en po pn h :
  PageSource ready own -> P mod 4096 = 0 -> 0 <= P -> P + 4096 <= lo -> (forall a, own a -> a < P) ->
  archive (kmem s) (_binary_tarfs_start Y) (e0 :: es) -> mb_data e0 = [] -> names_fit (e0 :: es) ->
  archive_size es + 1024 < 2 ^ 31 -> cstr (kmem s) (kphys file) name ->
  find_member name es 512 = Some off ->
  uspace ready P lo np s T L -> task_at own P np T (kmem s) ppcb pmm pv vs ->
  image own P np T (_binary_tarfs_start Y + off) isz ppcb pmm pv vs ->
  loadable np s isz (_binary_tarfs_start Y + off) en po pn h ->
  72 * (Z.of_nat (length vs) + 1) <= 4096 -> (length vs + length es + 257 <= fuel)%nat ->
  exists np' T' s' pv', load_segment Y fuel s (VIRT_BASE + ppcb) file = Some (s', [])
    /\ (forall i, 0 <= i < p_memsz h -> exists pa w,
          walk (kmem s') (cr3 s') (p_vaddr h + i) = Some (mk_tr pa w true) /\
          rd8 (kmem s') pa = if decide (i < p_filesz h)
            then rd8 (kmem s) (_binary_tarfs_start Y + off + p_offset h + i) else 0)
    /\ rd64 (kmem s') (ppcb + TS_entry) = en
    /\ task_at own P np' T' (kmem s') ppcb pmm pv' (vs ++ [area_of h (_binary_tarfs_start Y + off)])
    /\ exists pa w, walk (kmem s') (cr3 s') (heap_base (p_vaddr h + p_memsz h)) = Some (mk_tr pa w true).
Proof.
  intros HPS HP HP0 HPlo Hown Har H0 Hfit Hb Hs Hfm Hu Ht Him Hlb Hlen Hfu.
  destruct (file_exists_spec Y (kmem s) (kphys file) name e0 es fuel Har H0 Hfit Hb Hs ltac:(lia)) as [Hfe _].
  rewrite Hfm in Hfe. destruct (find_member_aligned name es 512 off) as [Hm Hlo]; [reflexivity|lia|exact Hfm|].
  destruct (load_segment_spec ready own P lo HP HP0 HPlo Hown Y fuel np s T L ppcb pmm pv vs file off isz
    en po pn h Hfe ltac:(lia) ltac:(intros ->; discriminate) Hu Ht Him Hlb Hlen ltac:(lia))
    as (np' & T' & s' & pv' & E & [Hn Hsp Htk Hby Hl Hen _ _ _ _ _ _] & _ & _ & _).
  pose proof (lb_ok _ _ _ _ _ _ _ _ Hlb) as [_ Hf0 _ Hv0 Hv1 _ _ _].
  pose proof (lb_below _ _ _ _ _ _ _ _ Hlb) as Hbl. pose proof (ua_range _ _ (lb_area _ _ _ _ _ _ _ _ Hlb)) as Hua.
  exists np', T', s', pv'. split; [exact E|]. split; [|split; [exact Hen|split; [exact Htk|]]].
  - intros i Hi. destruct (ulin_walk ready P lo HP HP0 HPlo np' s' T' _ _ _ _ i Hsp Hl Hv0 ltac:(lia) Hi)
      as (w & Hw). eexists _, w. split; [exact Hw|]. apply Hby, Hi.
  - set (b := heap_base (p_vaddr h + p_memsz h)) in *.
    assert (Hbr : 0 <= b < 2 ^ 47) by (unfold b, heap_base; zdiv).
    pose proof (uinv_walk P lo HP HP0 HPlo _ _ _ _ b (us_inv _ _ _ _ _ _ _ Hsp) Hbr) as Hw.
    rewrite (us_cr3 _ _ _ _ _ _ _ Hsp). unfold program_space in Hw. fold b in Hw.
    rewrite lookup_insert_eq in Hw. destruct (walk _ _ _) as [[pa w u]|]; [|discriminate].
    cbn in Hw. injection Hw as _ ->. eexists _, _. reflexivity.
Qed.

(** A program of 131 bytes in an archive at 3 MiB: two program headers, the first
    one loads 11 bytes of the file to 0x400000 and clears 9 more. *)
Definition le (n : nat) (v : Z) : list Z := (fun i => v / 256 ^ Z.of_nat i mod 256) <$> seq 0 n.

Definition demo_elf : list Z :=
  replicate 24 0 ++ le 8 0x400004 ++ le 8 64 ++ replicate 16 0 ++ le 2 2 ++ replicate 6 0
  ++ le 4 1 ++ le 4 5 ++ le 8 120 ++ le 8 0x400000 ++ le 8 0 ++ le 8 11 ++ le 8 20 ++ le 8 4096
  ++ [11; 12; 13; 14; 15; 16; 17; 18; 19; 20; 21].

Definition demo_archive : list member := [mk_member (chars "bin/a") [2; 0; 3] 0 demo_elf].

Definition load_layout : tarfs_layout :=
  mk_tarfs_layout 0x300000 0x310000 0x350000 0x360000 0x370000 0x380000 0x381000 0x382000.

Definition load_image : list Z :=
  demo_header "bin/" [0] ++ demo_header "bin/a" [2; 0; 3] ++ demo_elf ++ replicate 893 0.

Definition load_mem : mem :=
  let m := write_temp ∅ 0x320000 (chars "bin/a" ++ [0]) in
  let m := wr64 m (0x330000 + TS_mm) (VIRT_BASE + 0x340000) in
  write_temp m 0x300000 load_image.

Lemma load_mem_zero a : 0x400000 <= a -> rd8 load_mem a = 0.
Proof.
  intros Ha. assert (Hl : slen load_image = 2048) by (vm_compute; reflexivity).
  unfold load_mem. cbv zeta. rewrite rd8_write_temp_ne by lia. rewrite rd8_wr64_ne by (unfold TS_mm; lia).
  rewrite rd8_write_temp_ne; [reflexivity|]. right. vm_compute (slen _). lia.
Qed.

Definition load_kst : kst :=
  with_mem ((boot_state ∅ 0x200000 0x400000 0x418000)⟦pml4_shared ↦ VIRT_BASE + 0x418000⟧
    ⟦pdesc ↦ 0x419000⟧⟦freelist ↦ VIRT_BASE + 0x400000⟧) load_mem.

Lemma load_kst_space :
  uspace (boot_ready 0x400000) 0x418000 0x419000 0x419000 load_kst {[(4, 0) := 0x418000]} ∅.
Proof.
  constructor.
  - exists 1. split; [lia|]. split; [reflexivity|]. constructor; [reflexivity| |reflexivity].
    vm_compute. intuition discriminate.
  - reflexivity.
  - reflexivity.
  - reflexivity.
  - split; [reflexivity|]. vm_compute. intuition discriminate.
  - apply uinv_empty; [unfold KWIN; lia|]. intros a Ha. unfold load_kst. kst_simpl. apply load_mem_zero. lia.
Qed.

Lemma load_kregion p n :
  0 <= p -> p + n <= 0x400000 ->
  kregion (freelist_cells 0x400000) 0x418000 0x419000 {[(4, 0) := 0x418000]} p n.
Proof.
  intros Hp Hn a Ha. split; [lia|]. split; [unfold freelist_cells; lia|]. split; [|lia].
  intros k t Hk. apply lookup_singleton_Some in Hk as [<- <-]. rewrite decide_True by reflexivity. lia.
Qed.

Lemma load_segment_loads_program_witness :
  let h := mk_phdr 5 120 0x400000 11 20 in
  exists np' T' s' pv', load_segment load_layout 300 load_kst (VIRT_BASE + 0x330000) 0x320000 = Some (s', [])
    /\ (forall i, 0 <= i < p_memsz h -> exists pa w,
          walk (kmem s') (cr3 s') (p_vaddr h + i) = Some (mk_tr pa w true) /\
          rd8 (kmem s') pa = if decide (i < p_filesz h)
            then rd8 (kmem load_kst) (0x300000 + 1024 + p_offset h + i) else 0)
    /\ rd64 (kmem s') (0x330000 + TS_entry) = 0x400004
    /\ task_at (freelist_cells 0x400000) 0x418000 np' T' (kmem s') 0x330000 0x340000 pv'
         ([] ++ [area_of h (0x300000 + 1024)])
    /\ exists pa w, walk (kmem s') (cr3 s') (heap_base (p_vaddr h + p_memsz h)) = Some (mk_tr pa w true).
Proof.
  intros h.
  apply (load_segment_loads_program (boot_ready 0x400000) (freelist_cells 0x400000) 0x418000 0x419000
    load_layout 300 0x419000 load_kst {[(4, 0) := 0x418000]} ∅ 0x330000 0x340000 0 [] 0x320000
    (chars "bin/a") (mk_member (chars "bin/") [0] 5 []) demo_archive 1024 131 0x400004 64 2 h
    (page_source_boot 0x400000 demo_boot)); try lia; try reflexivity.
  - unfold freelist_cells. lia.
  - split; [apply member_at_b_spec; vm_compute; reflexivity|].
    split; [apply member_at_b_spec; vm_compute; reflexivity|]. vm_compute. split; reflexivity.
  - unfold names_fit. repeat constructor; vm_compute; lia.
  - apply (bool_decide_eq_true_1 (cstr (kmem load_kst) 0x320000 (chars "bin/a"))). vm_compute. reflexivity.
  - exact load_kst_space.
  - constructor; try (apply load_kregion; unfold SIZEOF_task; lia); try reflexivity;
      try (intros H; destruct (H eq_refl)).
    + split; [reflexivity|]. intros i v Hi. discriminate.
    + simpl. lia.
    + unfold apart, SIZEOF_task. lia.
  - constructor; try (apply load_kregion; simpl; lia); try lia;
      [unfold apart, SIZEOF_task; simpl; lia|unfold apart; simpl; lia|intros H; destruct (H eq_refl)].
  - constructor; try reflexivity; try lia; [constructor; reflexivity|..].
    + constructor; vm_compute; intuition discriminate.
    + vm_compute. discriminate.
    + constructor; vm_compute; intuition discriminate.
  - simpl. lia.
  - cbn [length demo_archive]. lia.
Defined.
