(* ===== verification/Fork.v ===== *)
(** * Process creation: [fork_process]

    The stages of [fork_process] ([sys/process.c]) from any state whose page
    tables represent an address space: the child's structures, the copy of the
    stack page, the kernel-stack frame, the list of areas and the heap.  The
    child shares the parent's page tables, and the loop over the areas writes the
    file image over the parent's memory. *)

From stdpp Require Import base gmap list numbers.
From Stdlib Require Import ZArith Lia.
From S2P Require Import Prelude KLib Mmu Paging BootPaging Alloc Utils UserPaging AddrSpace Memmap.
From S2P Require Import UserMem Keyboard Tarfs Loader LoadSegment.

(** The offsets of [struct task_struct]. *)
Ltac offsets :=
  unfold kstk, TS_pid, TS_ppid, TS_pname, TS_kstack, TS_state, TS_ctx_rsp, TS_stack, TS_pml4e, TS_cr3,
    TS_entry, TS_mm, TS_heap_vma, SIZEOF_task, SIZEOF_mm, MM_mmap, MM_count in *.

(** Reading a field behind a chain of stores to other fields. *)
Ltac field_read :=
  repeat first
    [ rewrite rd64_wr64_ne by lia | rewrite rd64_wr32_ne by lia | rewrite rd64_wr64_eq
    | rewrite rd32_wr32_eq ].

Lemma ulin_stack_page L U f :
  f mod 4096 = 0 -> 0 <= f < 2 ^ 51 -> U mod 4096 = 0 ->
  ulin (<[(U - 4096) / 4096 := f + USR_PERM_BITS]> L) (U - 4096) 4096 f.
Proof.
  intros Hf Hb HU. pose proof (ulin_page L ((U - 4096) / 4096) f Hf Hb) as H.
  replace (4096 * ((U - 4096) / 4096)) with (U - 4096) in H by zdiv. exact H.
Qed.

Section fork.
Context (ready : Z -> kst -> Prop) (own : Z -> Prop) `{HPS : !PageSource ready own}.
Context (P lo : Z) (HP : P mod 4096 = 0) (HP0 : 0 <= P) (HPlo : P + 4096 <= lo).
Context (Hown : forall a, own a -> a < P).

Abbreviation uspace := (uspace ready P lo).
Abbreviation eff := (eff own).
Abbreviation kregion := (kregion own P).
Abbreviation task_at := (task_at own P).

(** Stores into pages allocated since [np]. *)
Lemma eff_fresh R np T s np' T' s' m :
  eff R np T s np' T' s' -> (forall a, ~ (np <= a < np') -> rd8 m a = rd8 (kmem s') a) ->
  eff R np T s np' T' (with_mem s' m).
Proof.
  intros [Hn H] Hm. split; [exact Hn|]. intros a Ha Ho HT. destruct (H a Ha Ho HT) as [E O].
  split; [|exact O]. intros HR. kst_simpl. rewrite Hm by lia. apply E, HR.
Qed.

Lemma eff_weaken_range (R R' : Z -> Prop) np T s np' T' s' :
  eff R np T s np' T' s' -> (forall a, a < np \/ np' <= a -> R a -> R' a) -> eff R' np T s np' T' s'.
Proof.
  intros [Hn H] HR. split; [exact Hn|]. intros a Ha Ho HT. destruct (H a Ha Ho HT) as [E O].
  split; [|exact O]. intros HR'. apply E. intros HRa. exact (HR' (HR a Ha HRa)).
Qed.

(** A byte above the kernel's pages. *)
Lemma eff_high R np T s np' T' s' L a :
  eff R np T s np' T' s' -> uspace np s T L -> np' <= a -> ~ R a ->
  rd8 (kmem s') a = rd8 (kmem s) a.
Proof.
  intros [Hn H] Hu Ha HR. pose proof (ui_lo _ _ _ _ _ _ (us_inv _ _ _ _ _ _ _ Hu)).
  destruct (H a) as [E _]; [lia|..].
  - intros Ho. specialize (Hown _ Ho). lia.
  - eapply (outside_high P lo HP HPlo); [exact (us_inv _ _ _ _ _ _ _ Hu)|lia].
  - apply E, HR.
Qed.

Lemma kregion_bounds np T p n : kregion np T p n -> 0 < n -> 0 <= p /\ p + n <= np.
Proof.
  intros Hk Hn. pose proof (kregion_low own P np T p n p Hk ltac:(lia)).
  pose proof (kregion_low own P np T p n (p + n - 1) Hk ltac:(lia)). lia.
Qed.

Lemma space_bound np s T L : uspace np s T L -> np <= KWIN.
Proof. intros Hu. apply (ui_lo _ _ _ _ _ _ (us_inv _ _ _ _ _ _ _ Hu)). Qed.

(** ** Structures *)

(** The stores that number and name a new task, in memory just allocated. *)
Definition named (m : mem) (c pm pid ppid : Z) : mem :=
  wr32 (wr64 (wr64 (wr64 (wr32 (wr64 m (c + TS_mm) (VIRT_BASE + pm)) (pm + MM_count) 0) (pm + MM_mmap) 0)
    (c + TS_pid) pid) (c + TS_ppid) ppid) (c + TS_state) READY.

Lemma named_frame m np pid ppid a :
  ~ (np <= a < np + 8192 + 24) -> rd8 (named m np (np + 8192) pid ppid) a = rd8 m a.
Proof.
  intros Ha. unfold named. offsets. rewrite rd8_wr32_ne, !rd8_wr64_ne, rd8_wr32_ne, rd8_wr64_ne by lia. reflexivity.
Qed.

Record new_task (m : mem) (c pid ppid : Z) (nm : list Z) : Prop := {
  nt_pid : rd64 m (c + TS_pid) = pid;
  nt_ppid : rd64 m (c + TS_ppid) = ppid;
  nt_state : rd32 m (c + TS_state) = READY;
  nt_name : cstr m (c + TS_pname) nm }.

Lemma new_task_spec fuel np k s T L pid ppid src nm :
  uspace (np + k) s T L -> kregion (np + k) T np k -> 8192 + 24 <= k -> 0 <= pid < 2 ^ 64 -> 0 <= ppid < 2 ^ 64 ->
  cstr (kmem s) src nm -> src + slen nm < np -> nm <> [] -> (length nm < 16)%nat -> (16 < fuel)%nat ->
  let m5 := named (kmem s) np (np + 8192) pid ppid in
  exists n, kstrlen fuel m5 src = Some n /\
  let m6 := kmemcpy m5 (np + TS_pname) src n in
  uspace (np + k) (with_mem s m6) T L /\ task_at (np + k) T m6 np (np + 8192) 0 []
  /\ new_task m6 np pid ppid nm /\ (forall a, ~ (np <= a < np + k) -> rd8 m6 a = rd8 (kmem s) a).
Proof.
  intros Hu Hk H8 Hpid Hppid Hnm Hsrc Hne Hl Hf m5.
  destruct (kregion_bounds _ _ _ _ Hk ltac:(lia)) as [Hn0 _].
  pose proof (space_bound _ _ _ _ Hu) as Hb. assert (HK : KWIN = 102760448) by reflexivity.
  assert (Hnm5 : cstr m5 src nm).
  { eapply cstr_ext; [|exact Hnm]. intros a Ha. apply named_frame. lia. }
  exists (slen nm + 1). split; [rewrite (kstrlen_spec fuel m5 src nm), decide_False by (assumption || lia); reflexivity|].
  intros m6. offsets.
  assert (Hm6 : forall a, rd8 m6 a = if decide (np + 16 <= a < np + 16 + (slen nm + 1))
    then rd8 m5 (src + (a - (np + 16))) else rd8 m5 a).
  { intros a. unfold m6, kmemcpy. rewrite cpy_loop_spec by lia. rewrite Z.add_0_r, Z2Nat.id by lia. reflexivity. }
  assert (H64 : forall o, 32 <= o \/ o + 8 <= 16 -> rd64 m6 (np + o) = rd64 m5 (np + o)).
  { intros o Ho. apply rd64_ext. intros a Ha. rewrite Hm6, decide_False by lia. reflexivity. }
  assert (Hout : forall a, ~ (np <= a < np + k) -> rd8 m6 a = rd8 (kmem s) a).
  { intros a Ha. rewrite Hm6, decide_False by lia. apply named_frame. lia. }
  split; [eapply (uspace_store ready own P lo); [exact Hu|exact Hk|lia|exact Hout]|].
  split; [|split; [|exact Hout]].
  - constructor; offsets; try (intros H; destruct (H eq_refl)).
    + intros a Ha. apply Hk. lia.
    + intros a Ha. apply Hk. lia.
    + rewrite H64 by lia. unfold m5, named. offsets. field_read. apply u64_small. unfold VIRT_BASE. lia.
    + split; [|intros i v Hiv; discriminate]. rewrite decide_True by reflexivity.
      rewrite H64 by lia. unfold m5, named. offsets. rewrite !Z.add_0_r. field_read. reflexivity.
    + simpl. lia.
    + unfold apart. lia.
  - constructor; offsets.
    + rewrite H64 by lia. unfold m5, named. offsets. field_read. apply u64_small. lia.
    + rewrite H64 by lia. unfold m5, named. offsets. field_read. apply u64_small. lia.
    + etrans; [apply (rd32_ext m5)|]; [intros a Ha; rewrite Hm6, decide_False by lia; reflexivity|].
      unfold m5, named. offsets. rewrite rd32_wr32_eq. reflexivity.
    + eapply cstr_copy; [|exact Hnm5]. intros x Hx. rewrite Hm6, decide_True by lia. f_equal. lia.
Qed.

Lemma kmalloc_task np s T L n :
  uspace np s T L -> np + 8192 + 4096 * kmalloc_pages n <= KWIN -> 0 < n < 2 ^ 32 ->
  exists s1 s2, kmalloc s SIZEOF_task = (VIRT_BASE + np, s1)
    /\ kmalloc s1 n = (VIRT_BASE + (np + 8192), s2)
    /\ let k := 8192 + 4096 * kmalloc_pages n in
       uspace (np + k) s2 T L /\ eff nothing np T s (np + k) T s2 /\ kregion (np + k) T np k
       /\ same_globals alloc_globals s s2.
Proof.
  intros Hu Hw Hn. assert (Hpg : kmalloc_pages SIZEOF_task = 2) by reflexivity.
  destruct (kmalloc_pages_eq n Hn) as [_ Hp0].
  destruct (kmalloc_space ready own P lo HP HP0 HPlo Hown np s T L SIZEOF_task Hu) as (s1 & E1 & Hu1 & He1 & Hk1 & _ & Hg1);
    rewrite ?Hpg; [offsets; lia|lia|]. rewrite Hpg in *.
  replace (np + 4096 * 2) with (np + 8192) in * by lia. change (4096 * 2) with 8192 in *.
  destruct (kmalloc_space ready own P lo HP HP0 HPlo Hown _ s1 T L n Hu1 Hn Hw) as (s2 & E2 & Hu2 & He2 & Hk2 & _ & Hg2).
  rewrite <- Z.add_assoc in Hu2, He2, Hk2.
  exists s1, s2. split; [exact E1|]. split; [exact E2|]. split; [exact Hu2|].
  split; [eapply eff_weaken; [eapply eff_trans; [exact He1|exact He2]|]; intros a [H|H]; exact H|].
  split; [|intros x Hx; rewrite Hg2, Hg1 by exact Hx; reflexivity].
  intros a Ha. destruct (decide (a < np + 8192)); [|apply Hk2; lia].
  apply (kregion_eff own P _ _ _ _ _ _ _ _ _ He2 Hk1). lia.
Qed.

Lemma fork_ids_spec fuel np s T L pp upid nm :
  uspace np s T L -> kregion np T pp SIZEOF_task -> np + 16384 <= KWIN -> 0 <= upid < 2 ^ 16 ->
  cstr (kmem s) (pp + TS_pname) nm -> nm <> [] -> (length nm < 16)%nat -> (16 < fuel)%nat ->
  exists s', fork_ids fuel s (VIRT_BASE + pp) upid = Some (VIRT_BASE + np, VIRT_BASE + (np + 8192), s')
    /\ uspace (np + 16384) s' T L /\ eff nothing np T s (np + 16384) T s'
    /\ task_at (np + 16384) T (kmem s') np (np + 8192) 0 [] /\ kregion (np + 16384) T np 8192
    /\ new_task (kmem s') np upid (rd64 (kmem s) (pp + TS_pid)) nm
    /\ same_globals alloc_globals s s'.
Proof.
  intros Hu Hpp Hw Hup Hnm Hne Hl Hf. destruct (kregion_bounds _ _ _ _ Hpp ltac:(offsets; lia)) as [Hp0 Hp1].
  assert (HK : KWIN = 102760448) by reflexivity. unfold fork_ids.
  destruct (kmalloc_task np s T L SIZEOF_task Hu ltac:(change (kmalloc_pages SIZEOF_task) with 2; lia) ltac:(offsets; lia))
    as (s1 & s2 & -> & -> & Hu2 & He & Hk & Hg).
  change (8192 + 4096 * kmalloc_pages SIZEOF_task) with 16384 in *.
  assert (Hsame : forall a, pp <= a < pp + SIZEOF_task -> rd8 (kmem s2) a = rd8 (kmem s) a).
  { intros a Ha. eapply (kregion_same own P); [exact He|exact Hpp|exact Ha|intros []]. }
  destruct (new_task_spec fuel np 16384 s2 T L upid (rd64 (kmem s) (pp + TS_pid)) (pp + TS_pname) nm Hu2 Hk)
    as (n & En & Hu6 & Ht6 & Hn6 & Hm6); try assumption; try lia; [apply rd64_range|..].
  { eapply cstr_ext; [|exact Hnm]. intros a Ha. apply Hsame. offsets. lia. }
  { offsets. lia. }
  unfold set_fld, fld, kst32. offsets. rewrite !kst64_at, !kld64_at, !kernel_ptr by lia. kst_simpl.
  rewrite !rd64_wr64_ne, rd64_wr32_ne, rd64_wr64_ne by lia.
  replace (rd64 (kmem s2) (pp + 0)) with (rd64 (kmem s) (pp + 0)) by (symmetry; apply rd64_ext; intros a Ha; apply Hsame; lia).
  unfold named in En, Hu6, Ht6, Hn6, Hm6. offsets. rewrite En. cbn [mbind option_bind]. kst_simpl.
  eexists. split; [reflexivity|]. kst_simpl. split; [exact Hu6|].
  split; [apply eff_fresh; assumption|]. split; [exact Ht6|]. split; [intros a Ha; apply Hk; lia|].
  split; [exact Hn6|]. intros x Hx. kst_simpl. apply Hg, Hx.
Qed.

(** ** The stack page *)

(** A fresh page below the address that the kernel chooses. *)
Lemma new_stack_spec np s T L addr :
  uspace np s T L -> user_area s 5 -> s⟦user_addr⟧ mod 2 ^ 21 <> 0 -> np + 3 * 4096 <= KWIN ->
  s⟦usr_phys_addr⟧ + 4096 < 0x6000000 ->
  exists np' T' s', memmap s addr PAGE_SIZE USR_PERM_BITS 5 = (s⟦user_addr⟧, s')
    /\ np <= np' <= np + 3 * 4096
    /\ uspace np' s' T' (<[(s⟦user_addr⟧ - 4096) / 4096 := s⟦usr_phys_addr⟧ + USR_PERM_BITS]> L)
    /\ eff nothing np T s np' T' s'
    /\ s'⟦usr_phys_addr⟧ = s⟦usr_phys_addr⟧ + 4096 /\ s'⟦user_addr⟧ = s⟦user_addr⟧ + 4096
    /\ s'⟦pml_same_ctxt⟧ = s⟦pml_same_ctxt⟧
    /\ same_globals (map_globals ++ addr_globals) s s'.
Proof.
  intros Hu [H1 H2 H3 H4 H5] Hr Hw Hf.
  destruct (memmap_next_addr_spec ready own P lo HP HP0 HPlo Hown np s T L addr USR_PERM_BITS 5)
    as (s' & E & [(np' & T' & Hn & Hu' & Hd) Hnf Hg _] & Hua & Hsc); try assumption; try lia;
    [right; reflexivity|].
  exists np', T', s'. split; [exact E|]. split; [lia|]. split; [exact Hu'|].
  split; [apply eff_data; [lia|exact Hd]|]. split; [|split; [exact Hua|split; [apply Hsc; discriminate|exact Hg]]].
  rewrite Hnf. unfold next_frame. rewrite (proj2 (Z.ltb_lt _ _)) by lia. reflexivity.
Qed.

(** The fields that the stage sets. *)
Definition stack_fields (c a : Z) : Prop := c + TS_stack <= a < c + TS_stack + 24.

Lemma spares_stack q c : spares q c (stack_fields c).
Proof. intros a Ha. right. unfold stack_fields in Ha. offsets. lia. Qed.

Lemma fork_stack_spec np s T L c pm pp ps q :
  uspace np s T L -> task_at np T (kmem s) c pm 0 [] -> kregion np T pp SIZEOF_task ->
  apart c SIZEOF_task pp SIZEOF_task -> rd64 (kmem s) (pp + TS_stack) = ps -> ps mod 4096 = 0 ->
  ulin L (ps - 4096) 4096 q -> 4096 <= ps <= 2 ^ 47 -> 0x5000000 <= q ->
  q + 4096 <= s⟦usr_phys_addr⟧ -> ps <> s⟦user_addr⟧ ->
  user_area s 5 -> 4096 <= s⟦user_addr⟧ -> s⟦user_addr⟧ mod 2 ^ 21 <> 0 -> np + 3 * 4096 <= 0x5000000 ->
  s⟦usr_phys_addr⟧ + 4096 < 0x6000000 ->
  let f := s⟦usr_phys_addr⟧ in let U := s⟦user_addr⟧ in
  exists np' T' s', fork_stack s (VIRT_BASE + c) (VIRT_BASE + pp) = Some s'
    /\ np <= np' <= np + 3 * 4096
    /\ uspace np' s' T' (<[(U - 4096) / 4096 := f + USR_PERM_BITS]> L)
    /\ eff (fun a => stack_fields c a \/ f <= a < f + 4096) np T s np' T' s'
    /\ rd64 (kmem s') (c + TS_stack) = U /\ rd64 (kmem s') (c + TS_cr3) = P
    /\ rd64 (kmem s') (c + TS_pml4e) = VIRT_BASE + P
    /\ (forall i, 0 <= i < 4096 -> rd8 (kmem s') (f + i) = rd8 (kmem s) (q + i))
    /\ s'⟦usr_phys_addr⟧ = f + 4096 /\ s'⟦user_addr⟧ = U + 4096
    /\ s'⟦pml_same_ctxt⟧ = s⟦pml_same_ctxt⟧
    /\ same_globals (map_globals ++ addr_globals) s s'.
Proof.
  intros Hu Ht Hpp Hap Hps Hpsa Hlq Hpsb Hq Hqf Hpsn Har HU0 HU21 Hw Hf f U.
  pose proof (us_frame _ _ _ _ _ _ _ Hu) as [Hfa Hfb]. fold f in Hfa, Hfb, Hqf, Hf. fold U in Hpsn, HU0, HU21.
  pose proof (ua_range _ _ Har) as HUr. pose proof (ua_aligned _ _ Har) as HUa. fold U in HUr, HUa.
  pose proof (ta_pcb _ _ _ _ _ _ _ _ _ Ht) as Hc.
  destruct (kregion_bounds _ _ _ _ Hpp ltac:(offsets; lia)) as [Hp0 Hp1].
  destruct (kregion_bounds _ _ _ _ Hc ltac:(offsets; lia)) as [Hc0 Hc1]. unfold apart in Hap.
  unfold fork_stack.
  destruct (new_stack_spec np s T L 0 Hu Har HU21) as (np1 & T1 & s1 & -> & Hn1 & Hu1 & He1 & Hf1 & Hua1 & Hsc1 & Hg1);
    [unfold KWIN; lia|fold f; lia|]. fold f U in Hu1, Hf1, Hua1.
  assert (Hpml : s1⟦pml4_shared⟧ = VIRT_BASE + P) by apply (us_pml4 _ _ _ _ _ _ _ Hu1).
  assert (HPk : P < np) by (pose proof (ui_lo _ _ _ _ _ _ (us_inv _ _ _ _ _ _ _ Hu)); lia).
  unfold set_fld, fld. offsets.
  rewrite !kst64_at, !kld64_at by lia. kst_simpl. rewrite Hpml.
  replace (VIRT_BASE + P - VIRT_BASE) with P by lia. rewrite (u64_small P) by lia.
  set (m2 := wr64 (wr64 (wr64 (kmem s1) _ _) _ _) _ _). set (s2 := with_mem s1 m2).
  assert (Hm2 : forall a, ~ (c + 4336 <= a < c + 4360) -> rd8 m2 a = rd8 (kmem s1) a).
  { intros a Ha. unfold m2. rewrite !rd8_wr64_ne by lia. reflexivity. }
  assert (Hst2 : rd64 m2 (c + 4336) = U) by (unfold m2; field_read; apply u64_small; lia).
  assert (Hps2 : rd64 m2 (pp + 4336) = ps).
  { rewrite <- Hps. etrans; [apply (rd64_ext (kmem s1)); intros a Ha; apply Hm2; lia|].
    eapply (kfield_same own P nothing); [exact He1|exact Hpp|lia|offsets; lia|intros a []]. }
  rewrite Hst2, Hps2. unfold PAGE_SIZE. rewrite !u64_small by lia.
  assert (Hk1 : kregion np1 T1 c 4400) by (eapply kregion_eff; [exact He1|exact Hc]).
  assert (Hu2 : uspace np1 s2 T1 (<[(U - 4096) / 4096 := f + USR_PERM_BITS]> L)).
  { eapply (uspace_store ready own P lo); [exact Hu1|exact Hk1|lia|]. intros a Ha. apply Hm2. lia. }
  assert (He2 : eff (stack_fields c) np T s np1 T1 s2).
  { eapply eff_weaken; [eapply eff_trans; [exact He1|apply (eff_mem own (stack_fields c) np1 T1 s1 m2)]|].
    - intros a Ha. apply Hm2. unfold stack_fields in Ha. offsets. lia.
    - intros a [[]|H]. exact H. }
  assert (Hld : ulin (<[(U - 4096) / 4096 := f + USR_PERM_BITS]> L) (U - 4096) 4096 f)
    by (apply ulin_stack_page; [exact Hfa|lia|exact HUa]).
  assert (Hls : ulin (<[(U - 4096) / 4096 := f + USR_PERM_BITS]> L) (ps - 4096) 4096 q).
  { apply ulin_insert; [exact Hlq|]. intros i Hi. zdiv. }
  rewrite (vmemcpy_lin T1 s2 (U - 4096) (ps - 4096) f q 4096); try lia;
    [|eapply (ulin_vlin ready own P lo HP HP0 HPlo np1); [exact Hu2|exact Hld|lia|lia]
     |eapply (ulin_vlin ready own P lo HP HP0 HPlo np1); [exact Hu2|exact Hls|lia|lia]
     |eapply off_tables_user; [exact HP|exact HPlo|exact Hu2|lia]].
  set (m3 := kmemcpy (kmem s2) f q 4096).
  assert (Hm3 : forall a, rd8 m3 a = if decide (f <= a < f + 4096) then rd8 (kmem s2) (q + (a - f))
    else rd8 (kmem s2) a).
  { intros a. unfold m3, kmemcpy. rewrite cpy_loop_spec by lia. rewrite Z.add_0_r. reflexivity. }
  assert (Hlow : forall o, 0 <= o -> o + 8 <= 4400 -> rd64 m3 (c + o) = rd64 m2 (c + o)).
  { intros o Ho Ho8. apply rd64_ext. intros a Ha. rewrite Hm3, decide_False by lia. reflexivity. }
  exists np1, T1, (with_mem s2 m3). split; [reflexivity|]. split; [lia|].
  split; [eapply (uspace_user_write ready own P lo HP HPlo); [exact Hu2|]; intros a Ha;
    rewrite Hm3, decide_False by lia; reflexivity|].
  split; [eapply eff_trans; [exact He2|apply eff_mem]; intros a Ha; rewrite Hm3, decide_False by exact Ha; reflexivity|].
  kst_simpl. rewrite !Hlow, Hst2 by lia. split; [reflexivity|].
  split; [unfold m2; field_read; apply u64_small; lia|].
  split; [unfold m2; field_read; apply u64_small; unfold VIRT_BASE; lia|].
  split; [|split; [exact Hf1|split; [exact Hua1|split; [exact Hsc1|]]]].
  - intros i Hi. rewrite Hm3, decide_True by lia. replace (q + (f + i - f)) with (q + i) by lia.
    unfold s2. kst_simpl. rewrite Hm2 by lia.
    apply (eff_high _ _ _ _ _ _ _ _ _ He1 Hu); [lia|intros []].
  - intros x Hx. unfold s2. kst_simpl. apply Hg1, Hx.
Qed.

(** ** The kernel-stack frame *)

Lemma copy_kstack_spec n s c p x y :
  0 <= c -> 0 <= p -> c + SIZEOF_task < 2 ^ 30 -> p + SIZEOF_task < 2 ^ 30 ->
  apart c SIZEOF_task p SIZEOF_task -> Z.of_nat n <= x + 1 -> Z.of_nat n <= y + 1 -> x < 512 -> y < 512 ->
  exists m', copy_kstack n s (VIRT_BASE + c) (VIRT_BASE + p) x y = with_mem s m'
    /\ (forall k, 0 <= k < Z.of_nat n -> rd64 m' (c + kstk (x - k)) = rd64 (kmem s) (p + kstk (y - k)))
    /\ (forall a, ~ (c + kstk (x - Z.of_nat n + 1) <= a < c + kstk (x + 1)) -> rd8 m' a = rd8 (kmem s) a).
Proof.
  intros Hc Hp Hcb Hpb Hap. revert s x y.
  induction n as [|n IH]; intros s x y Hx Hy Hx5 Hy5; cbn [copy_kstack].
  - exists (kmem s). rewrite with_mem_kmem. split; [reflexivity|]. split; [lia|]. reflexivity.
  - unfold set_fld at 1, fld at 1. unfold apart in *. offsets. rewrite kld64_at, kst64_at by lia.
    set (m1 := wr64 _ _ _).
    destruct (IH (with_mem s m1) (x - 1) (y - 1)) as (m' & E & Hv & Hfr); [lia|lia|lia|lia|].
    exists m'. split; [rewrite E; kst_simpl; reflexivity|]. kst_simpl_in Hv. kst_simpl_in Hfr. split.
    + intros k Hk. destruct (decide (k = 0)) as [->|Hk0].
      * rewrite !Z.sub_0_r. etrans; [apply (rd64_ext m1); intros a Ha; apply Hfr; lia|].
        unfold m1. rewrite rd64_wr64_eq. apply u64_small, rd64_range.
      * replace (x - k) with (x - 1 - (k - 1)) by lia. rewrite Hv by lia.
        replace (y - 1 - (k - 1)) with (y - k) by lia. unfold m1. apply rd64_wr64_ne. lia.
    + intros a Ha. rewrite Hfr by lia. unfold m1. apply rd8_wr64_ne. lia.
Qed.

(** What the frame holds: an interrupt frame into user mode, the registers that
    the parent saved (two slots down), zero as the child's result. *)
Record fork_frame_at (irq0 : Z) (m0 m : mem) (c pp U : Z) : Prop := {
  ff_ss : rd64 m (c + kstk 511) = 0x23;
  ff_rsp : rd64 m (c + kstk 510) = u64 (U + 4088);
  ff_rflags : rd64 m (c + kstk 509) = 0x200286;
  ff_cs : rd64 m (c + kstk 508) = 0x2b;
  ff_rip : rd64 m (c + kstk 507) = rd64 m0 (pp + kstk 505);
  ff_rax : rd64 m (c + kstk 506) = 0;
  ff_regs : forall x, 492 <= x <= 505 -> rd64 m (c + kstk x) = rd64 m0 (pp + kstk (x - 2));
  ff_ret : rd64 m (c + kstk 491) = u64 (irq0 + 34);
  ff_ctx : rd64 m (c + TS_ctx_rsp) = VIRT_BASE + (c + kstk 490) }.

Definition frame_fields (c a : Z) : Prop := c + kstk 490 <= a < c + kstk 512 \/ c + TS_ctx_rsp <= a < c + TS_ctx_rsp + 8.

Lemma spares_frame q c : spares q c (frame_fields c).
Proof. intros a Ha. right. unfold frame_fields in Ha. offsets. lia. Qed.

Lemma fork_frame_spec irq0 s c pp U :
  0 <= c -> 0 <= pp -> c + SIZEOF_task < 2 ^ 30 -> pp + SIZEOF_task < 2 ^ 30 ->
  apart c SIZEOF_task pp SIZEOF_task -> rd64 (kmem s) (c + TS_stack) = U ->
  exists m', fork_frame irq0 s (VIRT_BASE + c) (VIRT_BASE + pp) = with_mem s m'
    /\ fork_frame_at irq0 (kmem s) m' c pp U
    /\ (forall a, ~ frame_fields c a -> rd8 m' a = rd8 (kmem s) a).
Proof.
  intros Hc Hp Hcb Hpb Hap HU. unfold fork_frame. unfold set_fld, fld. unfold apart in *. offsets.
  rewrite !kst64_at, !kld64_at by lia. kst_simpl. rewrite rd64_wr64_ne, HU by lia.
  rewrite (rd64_wr64_ne _ _ _ (pp + _)), (rd64_wr64_ne _ _ _ (pp + _)), (rd64_wr64_ne _ _ _ (pp + _)),
    (rd64_wr64_ne _ _ _ (pp + _)) by lia.
  set (m1 := wr64 _ _ 0).
  assert (Hm1 : forall a, ~ (c + 3952 <= a < c + 4128) -> rd8 m1 a = rd8 (kmem s) a).
  { intros a Ha. unfold m1. rewrite !rd8_wr64_ne by lia. reflexivity. }
  destruct (copy_kstack_spec 14 (with_mem s m1) c pp 505 503) as (m2 & -> & Hv & Hfr);
    try (offsets; lia); [unfold apart; offsets; lia|]. kst_simpl_in Hv. kst_simpl_in Hfr. offsets.
  kst_simpl. eexists. split; [reflexivity|].
  assert (Hk : forall o, 3952 <= o -> o + 8 <= 4128 -> ~ (3968 <= o < 4080) -> o mod 8 = 0 ->
    rd64 m2 (c + o) = rd64 m1 (c + o)).
  { intros o Ho Ho8 Hn Hm. apply rd64_ext. intros a Ha. apply Hfr. zdiv. }
  assert (Hpar : forall o, 0 <= o -> o + 8 <= 4400 -> rd64 m1 (pp + o) = rd64 (kmem s) (pp + o)).
  { intros o Ho Ho8. apply rd64_ext. intros a Ha. apply Hm1. lia. }
  split.
  - constructor; offsets; try (rewrite rd64_wr64_ne, Hk by (lia || reflexivity); unfold m1; field_read).
    + reflexivity.
    + apply u64_idem.
    + reflexivity.
    + reflexivity.
    + apply u64_small, rd64_range.
    + reflexivity.
    + intros x Hx. rewrite rd64_wr64_ne by lia.
      replace (c + (32 + 8 * x)) with (c + (32 + 8 * (505 - (505 - x)))) by lia.
      rewrite Hv by lia. replace (503 - (505 - x)) with (x - 2) by lia. apply Hpar; lia.
    + apply u64_idem.
    + rewrite rd64_wr64_eq, u64_idem. rewrite u64_small; unfold VIRT_BASE; lia.
  - intros a Ha. unfold frame_fields in Ha. offsets. rewrite rd8_wr64_ne, Hfr, Hm1 by lia. reflexivity.
Qed.

(** ** The areas *)

(** An area whose addresses are the frames from [q], and whose file bytes are
    kernel memory from [src].  The stores are eight bytes wide, so that they run
    seven bytes past the end of the area. *)
Record backed (np : Z) (T : gmap (Z * Z) Z) (L : gmap Z Z) (v : varea) (src q : Z) : Prop := {
  bk_src : v_file v + v_offset v = VIRT_BASE + src;
  bk_region : kregion np T src (v_mmsz v + 7);
  bk_small : src + v_mmsz v + 7 < 2 ^ 30;
  bk_size : 0 < v_mmsz v < 2 ^ 31;
  bk_lin : ulin L (v_start v) (v_mmsz v + 7) q;
  bk_range : 0 <= v_start v /\ v_start v + v_mmsz v + 7 <= 2 ^ 47;
  bk_high : 0x5000000 <= q }.

Definition target (v : varea) (q a : Z) : Prop := q <= a < q + v_mmsz v + 7.

Lemma fld_at s p o : 0 <= p + o < 2 ^ 31 -> fld s (VIRT_BASE + p) o = rd64 (kmem s) (p + o).
Proof. apply kld64_at. Qed.

Lemma restore_loop_spec n np s T L slot v src q j :
  uspace np s T L -> np <= 0x5000000 -> area_at (kmem s) slot v -> backed np T L v src q ->
  0 <= slot -> slot + 72 <= 0x5000000 -> 0 <= j <= v_mmsz v -> (Z.to_nat (v_mmsz v - j) < n)%nat ->
  exists m', restore_loop n s (VIRT_BASE + slot) j = Some (with_mem s m')
    /\ (j < v_mmsz v -> forall i, j <= i < v_mmsz v + 7 -> rd8 m' (q + i) = rd8 (kmem s) (src + i))
    /\ (forall a, ~ (j < v_mmsz v /\ q + j <= a < q + v_mmsz v + 7) -> rd8 m' a = rd8 (kmem s) a).
Proof.
  intros Hu Hnp Ha Hb H0 Hsl. destruct Hb as [Hsrc Hkr Hsm Hsz Hlin [Hr0 Hr1] Hhi].
  destruct (kregion_bounds _ _ _ _ Hkr ltac:(lia)) as [Hs0 Hs1].
  revert s j Hu Ha. induction n as [|n IH]; intros s j Hu Ha Hj Hn; [lia|].
  cbn [restore_loop]. rewrite !fld_at by (unfold VM_mmsz, VM_file, VM_offset, VM_start; lia).
  rewrite (aa_mmsz _ _ _ Ha), (aa_file _ _ _ Ha), (aa_offset _ _ _ Ha), (aa_start _ _ _ Ha), Hsrc.
  destruct (Z.ltb_spec j (v_mmsz v)) as [Hlt|Hge].
  2:{ exists (kmem s). rewrite with_mem_kmem. split; [reflexivity|]. split; [lia|]. reflexivity. }
  rewrite !u64_small by (unfold VIRT_BASE; lia).
  pose proof (vlin_kernel T s (VIRT_BASE + src + j) 8 ltac:(lia)) as Hlk.
  replace (VIRT_BASE + src + j - VIRT_BASE) with (src + j) in Hlk by lia.
  rewrite (vld64_lin T _ _ _ Hlk) by (unfold VIRT_BASE; lia). cbn [mbind option_bind].
  assert (Hv : vlin T s (v_start v + j) 8 (q + j)).
  { eapply (ulin_vlin ready own P lo HP HP0 HPlo np); [exact Hu| |lia|lia].
    apply (ulin_sub L _ (v_mmsz v + 7)); [exact Hlin|lia|lia]. }
  rewrite (vst64_lin T _ _ _ _ Hv) by
    first [lia|eapply off_tables_user; [exact HP|exact HPlo|exact Hu|lia]].
  cbn [mbind option_bind]. set (m1 := wr64 (kmem s) (q + j) (rd64 (kmem s) (src + j))).
  assert (Hm1 : forall a, ~ (q + j <= a < q + j + 8) -> rd8 m1 a = rd8 (kmem s) a)
    by (intros a Hna; apply rd8_wr64_ne; lia).
  destruct (IH (with_mem s m1) (j + 1)) as (m' & -> & Hc & Hfr); [| |lia|lia|].
  { eapply (uspace_user_write ready own P lo HP HPlo); [exact Hu|]. intros a Hx. apply Hm1. lia. }
  { eapply area_at_ext; [|exact Ha]. intros a Hx. apply Hm1. lia. }
  exists m'. kst_simpl_in Hc. kst_simpl_in Hfr. kst_simpl. split; [reflexivity|]. split.
  - intros _ i Hi. destruct (decide (j + 1 < v_mmsz v /\ j < i)) as [[Hl Hji]|Hd].
    + rewrite Hc by lia. apply Hm1. lia.
    + rewrite Hfr by lia. unfold m1. rewrite rd8_wr64_rd64 by lia. f_equal. lia.
  - intros a Hna. rewrite Hfr, Hm1 by lia. reflexivity.
Qed.

Lemma backed_eff R np T s np' s' L v src q :
  eff R np T s np' T s' -> backed np T L v src q -> backed np' T L v src q.
Proof. intros He []. constructor; try assumption. eapply kregion_eff; eassumption. Qed.

(** The list of the parent's areas, from the [k]-th one on. *)
Definition link (pv : Z) (vs : list varea) (k : nat) : Z :=
  if decide (k = length vs) then 0 else VIRT_BASE + (pv + 72 * Z.of_nat k).

(** The parent's areas: they do not move, and their frames do not overlap. *)
Record parent_areas (np : Z) (T : gmap (Z * Z) Z) (L : gmap Z Z) (pv : Z) (vs : list varea)
    (src q : nat -> Z) : Prop := {
  pa_page : kregion np T pv 4096;
  pa_len : 72 * Z.of_nat (length vs) <= 4096;
  pa_ok : Forall varea_ok vs;
  pa_backed : forall i v, vs !! i = Some v -> backed np T L v (src i) (q i);
  pa_apart : forall i j v w, vs !! i = Some v -> vs !! j = Some w -> i <> j ->
    apart (q i) (v_mmsz v + 7) (q j) (v_mmsz w + 7) }.

Lemma parent_areas_eff R np T s np' s' L pv vs src q :
  eff R np T s np' T s' -> parent_areas np T L pv vs src q -> parent_areas np' T L pv vs src q.
Proof.
  intros He [H1 H2 H3 H4 H5]. constructor; try assumption; [eapply kregion_eff; eassumption|].
  intros i v Hi. eapply backed_eff; [exact He|apply H4, Hi].
Qed.

(** They and the file bytes lie below [B], where the child's structures start. *)
Definition below (B pv : Z) (vs : list varea) (src : nat -> Z) : Prop :=
  pv + 4096 <= B /\ forall i v, vs !! i = Some v -> src i + v_mmsz v + 7 <= B.

(** What copying the areas from the [k]-th on writes. *)
Definition copied (pm pvc : Z) (vs : list varea) (q : nat -> Z) (k : nat) (a : Z) : Prop :=
  pm <= a < pm + 24 \/ (k <> 0%nat /\ pvc <= a < pvc + 4096) \/
  exists i v, (k <= i)%nat /\ vs !! i = Some v /\ target v (q i) a.

(** One round of the loop. *)
Lemma copy_area_spec fuel np s T L c pm pvc pv vs v src q k B :
  uspace np s T L -> task_at np T (kmem s) c pm pvc (take k vs) ->
  parent_areas np T L pv vs src q -> areas_at (kmem s) pv vs 0 -> vs !! k = Some v ->
  below B pv vs src -> B <= pm -> (k <> 0%nat -> B <= pvc) ->
  (length vs < fuel)%nat -> (Z.to_nat (v_mmsz v) < fuel)%nat -> np + 4096 <= 0x5000000 ->
  exists np1 s1 s2 s3 pv1, let slot := VIRT_BASE + (pv + 72 * Z.of_nat k) in
    malloc_vma fuel s (VIRT_BASE + pm) = Some (VIRT_BASE + (pv1 + 72 * Z.of_nat k), s1)
    /\ fill_vma s1 (VIRT_BASE + (pv1 + 72 * Z.of_nat k)) (fld s1 slot VM_start) (fld s1 slot VM_end)
         (fld s1 slot VM_mmsz) (fld s1 slot VM_file) (fld s1 slot VM_flags) (fld s1 slot VM_offset) = s2
    /\ restore_loop fuel s2 slot 0 = Some s3
    /\ np <= np1 <= np + 4096 /\ (k <> 0%nat -> pv1 = pvc) /\ (k = 0%nat -> np <= pv1)
    /\ uspace np1 s3 T L /\ task_at np1 T (kmem s3) c pm pv1 (take (S k) vs)
    /\ eff (fun a => list_mem pm pvc (take k vs) a \/ target v (q k) a) np T s np1 T s3
    /\ areas_at (kmem s3) pv vs 0
    /\ (forall i, 0 <= i < v_mmsz v + 7 -> rd8 (kmem s3) (q k + i) = rd8 (kmem s) (src k + i))
    /\ same_globals alloc_globals s s3.
Proof.
  intros Hu Ht Hpa Hvs Hk [HB1 HB2] HBm HBv Hfu Hfm Hw. specialize (HB2 k v Hk).
  pose proof (lookup_lt_Some _ _ _ Hk) as Hkl. pose proof (pa_len _ _ _ _ _ _ _ Hpa) as Hlen.
  assert (Htk : length (take k vs) = k) by (rewrite length_take; lia).
  pose proof (kregion_bounds _ _ _ _ (pa_page _ _ _ _ _ _ _ Hpa) ltac:(lia)) as [Hv0 Hv1].
  destruct (new_area_spec ready own P lo HP HP0 HPlo Hown fuel np s T L c pm pvc (take k vs) Hu Ht)
    as (np1 & s1 & pv1 & E1 & Hn1 & Hpv & Hpv0 & He1 & Hfill); rewrite ?Htk; [lia|lia|unfold KWIN; lia|].
  rewrite Htk in *.
  assert (Hnil : take k vs <> [] <-> k <> 0%nat).
  { rewrite <- length_zero_iff_nil, Htk. reflexivity. }
  assert (Hlm : forall a, a < B -> ~ list_mem pm pvc (take k vs) a).
  { intros a Ha [H|[H1 H2]]; [lia|]. specialize (HBv (proj1 Hnil H1)). lia. }
  assert (Hsame1 : forall s', eff (list_mem pm pvc (take k vs)) np T s np1 T s' ->
    areas_at (kmem s') pv vs 0).
  { intros s' He. eapply areas_at_ext; [|exact Hvs]. intros a Ha.
    eapply (kregion_same own P); [exact He|exact (pa_page _ _ _ _ _ _ _ Hpa)|lia|apply Hlm; lia]. }
  destruct (Hsame1 s1 He1 k v Hk) as [[Ha1 Ha2 Ha3 Ha4 Ha5 Ha6] _]. unfold SIZEOF_vma in *.
  destruct (Hfill v) as (s2 & E2 & Hu2 & He2 & Ht2 & Hg2).
  { exact (Forall_lookup_1 _ _ _ _ (pa_ok _ _ _ _ _ _ _ Hpa) Hk). }
  pose proof (Hsame1 s2 He2) as Hvs2. destruct (Hvs2 k v Hk) as [Hav2 _].
  pose proof (pa_backed _ _ _ _ _ _ _ Hpa k v Hk) as Hbk.
  pose proof (backed_eff _ _ _ _ _ _ _ _ _ _ He2 Hbk) as Hbk2.
  destruct Hbk2 as [Hsrc Hkr Hsm Hsz Hlin Hrg Hhi].
  destruct (restore_loop_spec fuel np1 s2 T L (pv + 72 * Z.of_nat k) v (src k) (q k) 0)
    as (m3 & E3 & Hc3 & Hf3); try assumption; try lia; [constructor; assumption|].
  assert (Hf3' : forall a, ~ target v (q k) a -> rd8 m3 a = rd8 (kmem s2) a).
  { intros a Ha. apply Hf3. unfold target in Ha. lia. }
  assert (He3 : eff (target v (q k)) np1 T s2 np1 T (with_mem s2 m3)) by (apply eff_mem, Hf3').
  exists np1, s1, s2, (with_mem s2 m3), pv1. cbv zeta.
  rewrite !fld_at by (unfold VM_start, VM_end, VM_mmsz, VM_file, VM_flags, VM_offset; lia).
  rewrite Ha1, Ha2, Ha3, Ha4, Ha5, Ha6.
  split; [exact E1|]. split; [exact E2|]. split; [exact E3|]. split; [exact Hn1|].
  split; [intros H; apply Hpv, Hnil, H|].
  split; [intros H; apply Hpv0; destruct (decide (take k vs = [])) as [|Hne]; [assumption|destruct (proj1 Hnil Hne H)]|].
  split; [eapply (uspace_user_write ready own P lo HP HPlo); [exact Hu2|]; intros a Ha; apply Hf3'; unfold target; lia|].
  split; [|split; [eapply eff_trans; [exact He2|exact He3]|split; [|split]]].
  - rewrite (take_S_r _ _ _ Hk). eapply (task_at_high own P); [exact He3| |exact Ht2].
    intros a Ha. left. unfold target in Ha. lia.
  - eapply areas_at_ext; [|exact Hvs2]. intros a Ha. kst_simpl. apply Hf3'. unfold target. lia.
  - intros i Hi. kst_simpl. rewrite Hc3 by lia.
    eapply (kregion_same own P); [exact He2|exact (bk_region _ _ _ _ _ _ Hbk)|lia|apply Hlm; lia].
  - intros x Hx. kst_simpl. apply Hg2, Hx.
Qed.

Lemma link_next s pv vs k v :
  areas_at (kmem s) pv vs 0 -> vs !! k = Some v -> 0 <= pv -> pv + 72 * Z.of_nat (length vs) < 2 ^ 30 ->
  fld s (VIRT_BASE + (pv + 72 * Z.of_nat k)) VM_next = link pv vs (S k).
Proof.
  intros Hvs Hk H0 Hb. pose proof (lookup_lt_Some _ _ _ Hk). destruct (Hvs k v Hk) as [_ Hn].
  rewrite fld_at by (unfold VM_next; lia). unfold SIZEOF_vma in Hn. rewrite Hn. reflexivity.
Qed.

Lemma link_some pv vs k : (k < length vs)%nat -> 0 <= pv ->
  link pv vs k = VIRT_BASE + (pv + 72 * Z.of_nat k) /\ (link pv vs k =? 0) = false.
Proof.
  intros Hk H0. unfold link. rewrite decide_False by lia. split; [reflexivity|].
  apply Z.eqb_neq. unfold VIRT_BASE. lia.
Qed.

Lemma copy_vmas_spec fuel n np s T L c pm pvc pv vs src q k B :
  uspace np s T L -> task_at np T (kmem s) c pm pvc (take k vs) ->
  parent_areas np T L pv vs src q -> areas_at (kmem s) pv vs 0 ->
  below B pv vs src -> B <= pm -> (k <> 0%nat -> B <= pvc) -> B <= np -> (k <= length vs)%nat ->
  (length vs - k <= n)%nat ->
  (length vs < fuel)%nat -> Forall (fun v => Z.to_nat (v_mmsz v) < fuel)%nat vs ->
  np + 4096 * Z.of_nat (length vs - k) <= 0x5000000 ->
  exists np' s' pvc', copy_vmas fuel n s (VIRT_BASE + pm) (link pv vs k) = Some s'
    /\ np <= np' <= np + 4096 * Z.of_nat (length vs - k)
    /\ uspace np' s' T L /\ task_at np' T (kmem s') c pm pvc' vs
    /\ eff (copied pm pvc vs q k) np T s np' T s'
    /\ (forall i v, (k <= i)%nat -> vs !! i = Some v -> forall x, 0 <= x < v_mmsz v + 7 ->
         rd8 (kmem s') (q i + x) = rd8 (kmem s) (src i + x))
    /\ same_globals alloc_globals s s'.
Proof.
  revert np s pvc k. induction n as [|n IH];
    intros np s pvc k Hu Ht Hpa Hvs HB HBm HBv HBn Hk Hn Hfu Hfm Hw;
    (destruct (decide (k = length vs)) as [->|Hne];
     [exists np, s, pvc; unfold link; rewrite decide_True by reflexivity;
      rewrite take_ge in Ht by lia; split; [reflexivity|]; split; [lia|]; split; [exact Hu|];
      split; [exact Ht|]; split; [eapply eff_weaken; [apply eff_refl; reflexivity|intros a []]|];
      split; [intros i v Hi Hv; apply lookup_lt_Some in Hv; lia|intros x _; reflexivity] |]); [lia|].
  destruct (lookup_lt_is_Some_2 vs k ltac:(lia)) as [v Hv].
  pose proof (kregion_bounds _ _ _ _ (pa_page _ _ _ _ _ _ _ Hpa) ltac:(lia)) as [Hv0 Hv1].
  pose proof (pa_len _ _ _ _ _ _ _ Hpa) as Hlen.
  destruct (link_some pv vs k ltac:(lia) Hv0) as [El El0].
  destruct (copy_area_spec fuel np s T L c pm pvc pv vs v src q k B Hu Ht Hpa Hvs Hv HB HBm HBv Hfu)
    as (np1 & s1 & s2 & s3 & pv1 & E1 & E2 & E3 & Hn1 & Hpv & Hpv0 & Hu3 & Ht3 & He3 & Hvs3 & Hc3 & Hg3);
    [exact (Forall_lookup_1 _ _ _ _ Hfm Hv)|lia|].
  pose proof (parent_areas_eff _ _ _ _ _ _ _ _ _ _ _ He3 Hpa) as Hpa3.
  destruct (IH np1 s3 pv1 (S k)) as (np' & s' & pvc' & E & Hn' & Hu' & Ht' & He' & Hc' & Hg'); try assumption; try lia.
  exists np', s', pvc'. split.
  { cbn [copy_vmas]. rewrite El0, El, E1. cbn [mbind option_bind]. rewrite E2, E3. cbn [mbind option_bind].
    rewrite (link_next s3 pv vs k v Hvs3 Hv Hv0) by lia. exact E. }
  split; [lia|]. split; [exact Hu'|]. split; [exact Ht'|].
  assert (Hnil : take k vs <> [] -> k <> 0%nat) by (intros H ->; apply H; reflexivity).
  assert (Hpg : 0 <= pv1 /\ pv1 + 4096 <= np1).
  { apply (kregion_bounds np1 T); [|lia]. apply (ta_areas _ _ _ _ _ _ _ _ _ Ht3).
    rewrite (take_S_r _ _ _ Hv). intros H. apply app_eq_nil in H as [_ H]. discriminate. }
  pose proof (kregion_bounds _ _ _ _ (ta_mm _ _ _ _ _ _ _ _ _ Ht3) ltac:(lia)) as Hpm.
  pose proof (bk_high _ _ _ _ _ _ (pa_backed _ _ _ _ _ _ _ Hpa k v Hv)) as Hqk.
  split; [|split].
  - eapply eff_weaken_range; [eapply eff_trans; [exact He3|exact He']|]. intros a Ha [[[H|[H1 H2]]|H]|[H|[[_ H]|(i & w & Hi & Hw' & H)]]].
    + left. exact H.
    + right. left. split; [apply Hnil, H1|exact H2].
    + right. right. exists k, v. auto.
    + left. exact H.
    + destruct (decide (k = 0%nat)) as [H0|H0]; [specialize (Hpv0 H0); lia|].
      right. left. rewrite <- (Hpv H0). split; [exact H0|exact H].
    + right. right. exists i, w. split; [lia|]. split; assumption.
  - intros i w Hi Hw' x Hx. destruct (decide (i = k)) as [->|Hik].
    + assert (w = v) as -> by congruence. rewrite <- Hc3 by lia.
      apply (eff_high _ _ _ _ _ _ _ _ _ He' Hu3); [lia|].
      intros [H|[[_ H]|(j & w & Hj & Hjw & H)]]; [lia|lia|]. unfold target in H.
      pose proof (pa_apart _ _ _ _ _ _ _ Hpa k j v w Hv Hjw ltac:(lia)) as Hap. unfold apart in Hap. lia.
    + rewrite (Hc' i w ltac:(lia) Hw' x Hx). 
      eapply (kregion_same own P); [exact He3|exact (bk_region _ _ _ _ _ _ (pa_backed _ _ _ _ _ _ _ Hpa i w Hw'))|lia|].
      pose proof (proj2 HB i w Hw').
      intros [[Hin|[H1 H2]]|Hin]; [lia|specialize (HBv (Hnil H1)); lia|unfold target in Hin; lia].
  - intros x Hx. rewrite Hg', Hg3 by exact Hx. reflexivity.
Qed.

(** ** The heap *)

Definition heap_field (c a : Z) : Prop := c + TS_heap_vma <= a < c + TS_heap_vma + 8.

Lemma fork_heap_spec fuel np s T L c pm pv vs v :
  uspace np s T L -> task_at np T (kmem s) c pm pv vs ->
  vs !! (length vs - 1)%nat = Some v -> (length vs <= fuel)%nat -> user_area s 3 ->
  0 <= v_end v < 2 ^ 47 -> np + 3 * 4096 <= 0x5000000 -> s⟦usr_phys_addr⟧ + 4096 < 0x6000000 ->
  let f := s⟦usr_phys_addr⟧ in let h := next_addr s 3 in let b := (v_end v + 4096) / 4096 * 4096 in
  exists np' T' s', fork_heap fuel s (VIRT_BASE + c) = Some s'
    /\ np <= np' <= np + 3 * 4096
    /\ uspace np' s' T' (<[h / 4096 := f + USR_PERM_BITS]> L)
    /\ eff (fun a => heap_field c a \/ f <= a < f + 4096) np T s np' T' s'
    /\ task_at np' T' (kmem s') c pm pv vs
    /\ rd64 (kmem s') (c + TS_heap_vma) = h
    /\ rd64 (kmem s') (f + VM_start) = b /\ rd64 (kmem s') (f + VM_end) = b
    /\ rd64 (kmem s') (f + VM_mmsz) = 4096
    /\ s'⟦usr_phys_addr⟧ = f + 4096 /\ s'⟦user_addr⟧ = s⟦user_addr⟧ + 4096
    /\ same_globals (map_globals ++ addr_globals) s s'.
Proof.
  intros Hu Ht Hlast Hfu Har Hv0 Hw Hf f h b.
  pose proof (us_frame _ _ _ _ _ _ _ Hu) as [Hfa Hfb]. fold f in Hfa, Hfb, Hf.
  pose proof (ua_range _ _ Har) as Hur. pose proof (ua_next _ _ Har) as Hun. fold h in Hun.
  assert (Hne : vs <> []) by (intros ->; discriminate). unfold fork_heap, set_fld.
  destruct (new_page_spec ready own P lo HP HP0 HPlo Hown np s T L 0 Hu Har)
    as (np1 & T1 & s1 & -> & Hn1 & Hu1 & He1 & Hf1 & Hua1 & Hg1); [unfold KWIN; lia|fold f; lia|].
  fold f h in Hu1, Hf1 |- *. pose proof (proj1 He1) as Hnn1.
  assert (Ht1 : task_at np1 T1 (kmem s1) c pm pv vs)
    by (eapply (task_at_high own P); [exact He1|intros a []|exact Ht]).
  pose proof (ta_pcb _ _ _ _ _ _ _ _ _ Ht1) as Hp1.
  destruct (kregion_bounds _ _ _ _ Hp1 ltac:(offsets; lia)) as [Hc0 Hc1]. unfold SIZEOF_task in Hc1.
  rewrite (kst64_at s1 c TS_heap_vma) by (offsets; lia). set (s2 := with_mem s1 _).
  assert (Hu2 : uspace np1 s2 T1 (<[h / 4096 := f + USR_PERM_BITS]> L))
    by (apply (uspace_pcb ready own P lo np1 s1 T1 _ c TS_heap_vma 8); [exact Hu1|exact Hp1|offsets; lia..]).
  assert (He2 : eff (heap_field c) np T s np1 T1 s2).
  { eapply eff_weaken; [eapply eff_trans; [exact He1|apply (eff_mem own (heap_field c))]|].
    - intros a Ha. apply rd8_wr64_ne. unfold heap_field in Ha. lia.
    - intros a [[]|H]. exact H. }
  assert (Hsp : forall z, spares z c (heap_field c)).
  { intros z a Ha. right. unfold heap_field in Ha. offsets. lia. }
  assert (Ht2 : task_at np1 T1 (kmem s2) c pm pv vs) by (eapply (task_at_high own P); [exact He2|apply Hsp|exact Ht]).
  destruct (ta_list _ _ _ _ _ _ _ _ _ Ht2) as [Hmm Hareas]. rewrite decide_False in Hmm by exact Hne.
  destruct (kregion_bounds _ _ _ _ (ta_mm _ _ _ _ _ _ _ _ _ Ht2) ltac:(lia)) as [Hpm0 Hpm1].
  destruct (kregion_bounds _ _ _ _ (ta_areas _ _ _ _ _ _ _ _ _ Ht2 Hne) ltac:(lia)) as [Hpv0 Hpv1].
  pose proof (ta_len _ _ _ _ _ _ _ _ _ Ht2) as Hlen.
  rewrite (fld_at s2 c), (ta_ptr _ _ _ _ _ _ _ _ _ Ht2) by (offsets; lia).
  rewrite (fld_at s2 pm MM_mmap) by (unfold MM_mmap; lia). unfold MM_mmap. rewrite Z.add_0_r, Hmm.
  assert (Hl0 : (0 < length vs)%nat) by (destruct vs; [contradiction|simpl; lia]).
  pose proof (last_vma_spec s2 pv vs 0 fuel Hareas Hl0 ltac:(lia) ltac:(lia) ltac:(lia)) as El.
  rewrite Z.mul_0_r, Z.add_0_r in El. rewrite El. cbn [mbind option_bind]. clear El.
  destruct (Hareas _ _ Hlast) as [Hva _]. apply aa_end in Hva. unfold SIZEOF_vma in *.
  replace (Z.of_nat (length vs - 1)) with (Z.of_nat (length vs) - 1) in Hva by lia.
  rewrite fld_at, Hva, (u64_small (v_end v + _)), ALIGN_DOWN_eq by (unfold VM_end, PAGE_SIZE; lia).
  change PAGE_SIZE with 4096 at 1. fold b.
  assert (Hul : ulin (<[h / 4096 := f + USR_PERM_BITS]> L) h 4096 f).
  { pose proof (ulin_page L (h / 4096) f Hfa ltac:(lia)) as Hul.
    pose proof (ua_next_aligned _ _ Har) as Hal. fold h in Hal.
    replace (4096 * (h / 4096)) with h in Hul by zdiv. exact Hul. }
  destruct (heap_stores ready own P lo HP HP0 HPlo np1 s2 T1 _ h f b Hu2 ltac:(lia) Hul ltac:(lia) ltac:(lia))
    as (m3 & E3 & Hu3 & Hm3 & Hst & Hed & Hsz).
  assert (Hb : 0 <= b < 2 ^ 64) by (unfold b; zdiv). rewrite (u64_small b Hb) in Hst, Hed.
  exists np1, T1, (with_mem s2 m3). split; [exact E3|]. split; [lia|]. split; [exact Hu3|].
  assert (He3 : eff (fun a => heap_field c a \/ f <= a < f + 4096) np T s np1 T1 (with_mem s2 m3))
    by (eapply eff_trans; [exact He2|apply eff_mem; exact Hm3]).
  split; [exact He3|].
  split; [eapply (task_at_high own P); [exact He3| |exact Ht]; intros a [H|H]; [apply Hsp, H|left; lia]|].
  split; [|kst_simpl; split; [exact Hst|split; [exact Hed|split; [exact Hsz|]]]].
  - kst_simpl. etrans; [apply (rd64_ext (kmem s2)); intros a Ha; apply Hm3; offsets; lia|].
    unfold s2. kst_simpl. rewrite rd64_wr64_eq. apply u64_small. lia.
  - unfold s2. kst_simpl. split; [exact Hf1|]. split; [exact Hua1|]. intros x Hx. kst_simpl. apply Hg1, Hx.
Qed.

(** ** The whole operation *)

(** What [fork_process] needs of the calling process: [q0] is the frame of its
    stack page, [src] and [q] locate the file bytes and the frames of its areas. *)
Record forkable (np : Z) (T : gmap (Z * Z) Z) (L : gmap Z Z) (t : lst) (pp ppm pv : Z) (nm : list Z)
    (vs : list varea) (v : varea) (ps q0 : Z) (src q : nat -> Z) : Prop := {
  fk_curr : curr_upcb t = VIRT_BASE + pp;
  fk_task : task_at np T (kmem (lk t)) pp ppm pv vs;
  fk_upid : 0 <= upid t < 2 ^ 16 - 1;
  fk_name : cstr (kmem (lk t)) (pp + TS_pname) nm;
  fk_name_len : nm <> [] /\ (length nm < 16)%nat;
  fk_cr3 : rd64 (kmem (lk t)) (pp + TS_cr3) = P;
  fk_stack : rd64 (kmem (lk t)) (pp + TS_stack) = ps;
  fk_stack_page : ps mod 4096 = 0 /\ 4096 <= ps <= 2 ^ 47 /\ ps <> (lk t)⟦user_addr⟧;
  fk_stack_lin : ulin L (ps - 4096) 4096 q0;
  fk_stack_frame : 0x5000000 <= q0 /\ q0 + 4096 <= (lk t)⟦usr_phys_addr⟧;
  fk_areas : parent_areas np T L pv vs src q;
  fk_frames : forall i w, vs !! i = Some w -> q i + v_mmsz w + 7 <= (lk t)⟦usr_phys_addr⟧ /\
    apart (q i) (v_mmsz w + 7) q0 4096 /\ v_start w + v_mmsz w + 7 <= (lk t)⟦user_addr⟧ - 4096;
  fk_last : vs !! (length vs - 1)%nat = Some v;
  fk_end : 0 <= v_end v < 2 ^ 47;
  fk_area : user_area (lk t) 5;
  fk_area_page : 4096 <= (lk t)⟦user_addr⟧ /\ (lk t)⟦user_addr⟧ mod 2 ^ 21 <> 0;
  fk_area_heap : user_area ((lk t)⟦user_addr ↦ (lk t)⟦user_addr⟧ + 4096⟧) 3;
  fk_pages : np + 11 * 4096 + 4096 * Z.of_nat (length vs) <= 0x5000000;
  fk_pool : (lk t)⟦usr_phys_addr⟧ + 2 * 4096 < 0x6000000 }.

Lemma parent_areas_step R np T s np' T' s' L w e pv vs src q :
  eff R np T s np' T' s' -> parent_areas np T L pv vs src q ->
  (forall i v, vs !! i = Some v -> v_start v + v_mmsz v + 7 <= 4096 * w) ->
  parent_areas np' T' (<[w := e]> L) pv vs src q.
Proof.
  intros He [H1 H2 H3 H4 H5] Hw. constructor; try assumption; [eapply kregion_eff; eassumption|].
  intros i v Hi. specialize (Hw i v Hi). destruct (H4 i v Hi) as [B1 B2 B3 B4 B5 B6 B7].
  constructor; try assumption; [eapply kregion_eff; eassumption|].
  apply ulin_insert; [exact B5|]. intros j Hj. zdiv.
Qed.

Lemma below_areas np T L pv vs src q : parent_areas np T L pv vs src q -> below np pv vs src.
Proof.
  intros [H1 _ _ H4 _]. split; [apply (kregion_bounds _ _ _ _ H1); lia|].
  intros i v Hi. destruct (H4 i v Hi) as [_ B2 _ B4 _ _ _].
  pose proof (kregion_bounds _ _ _ _ B2 ltac:(lia)). lia.
Qed.

(** The child's structure: [m0] is the memory before the call, [U] the top of
    the child's stack page. *)
Record child_at (irq0 : Z) (m0 m : mem) (c pp pid : Z) (nm : list Z) (U : Z) : Prop := {
  ca_pid : rd64 m (c + TS_pid) = pid;
  ca_ppid : rd64 m (c + TS_ppid) = rd64 m0 (pp + TS_pid);
  ca_state : rd32 m (c + TS_state) = READY;
  ca_name : cstr m (c + TS_pname) nm;
  ca_stack : rd64 m (c + TS_stack) = U;
  ca_cr3 : rd64 m (c + TS_cr3) = P;
  ca_frame : fork_frame_at irq0 m0 m c pp U }.

Lemma child_at_ext irq0 m0 m m' c pp pid nm U :
  (forall a, c <= a < c + SIZEOF_task -> ~ heap_field c a -> rd8 m' a = rd8 m a) -> (length nm < 16)%nat ->
  child_at irq0 m0 m c pp pid nm U -> child_at irq0 m0 m' c pp pid nm U.
Proof.
  unfold heap_field. offsets. intros H Hl [H1 H2 H3 H4 H5 H6 [F1 F2 F3 F4 F5 F6 F7 F8 F9]]. offsets.
  assert (E : forall o, 0 <= o -> o + 8 <= 4392 -> rd64 m' (c + o) = rd64 m (c + o)).
  { intros o Ho Ho8. apply rd64_ext. intros a Ha. apply H; lia. }
  constructor; offsets; try (rewrite E by lia; assumption).
  - rewrite <- H3. apply rd32_ext. intros a Ha. apply H; lia.
  - eapply cstr_ext; [|exact H4]. intros a Ha. apply H; lia.
  - constructor; offsets; try (rewrite E by lia; assumption).
    intros x Hx. rewrite E by lia. apply F7, Hx.
Qed.

Lemma fork_frame_src irq0 m0 m0' m c pp U :
  (forall o, 0 <= o -> o + 8 <= SIZEOF_task -> rd64 m0' (pp + o) = rd64 m0 (pp + o)) ->
  fork_frame_at irq0 m0' m c pp U -> fork_frame_at irq0 m0 m c pp U.
Proof.
  intros E [F1 F2 F3 F4 F5 F6 F7 F8 F9]. constructor; try assumption.
  - rewrite F5. apply E; offsets; lia.
  - intros x Hx. rewrite F7 by exact Hx. apply E; offsets; lia.
Qed.

Lemma alloc_in_map x : x ∉ map_globals -> x ∉ alloc_globals.
Proof. intros Hx Hin. apply Hx. unfold map_globals, lookup_globals. rewrite !elem_of_app. auto. Qed.

(** The first half: numbers, stack and frame. *)
Lemma fork_front_spec irq0 fuel np T L t pp ppm pv nm vs v ps q0 src q :
  uspace np (lk t) T L -> forkable np T L t pp ppm pv nm vs v ps q0 src q -> (16 < fuel)%nat ->
  let s := lk t in let f := s⟦usr_phys_addr⟧ in let U := s⟦user_addr⟧ in
  let L' := <[(U - 4096) / 4096 := f + USR_PERM_BITS]> L in
  exists np' T' s1 s2 s3,
    fork_ids fuel s (VIRT_BASE + pp) (upid t + 1) = Some (VIRT_BASE + np, VIRT_BASE + (np + 8192), s1)
    /\ fork_stack s1 (VIRT_BASE + np) (VIRT_BASE + pp) = Some s2
    /\ fork_frame irq0 s2 (VIRT_BASE + np) (VIRT_BASE + pp) = s3
    /\ np + 16384 <= np' <= np + 7 * 4096 /\ uspace np' s3 T' L'
    /\ eff (fun a => f <= a < f + 4096) np T s np' T' s3
    /\ task_at np' T' (kmem s3) np (np + 8192) 0 []
    /\ child_at irq0 (kmem s) (kmem s3) np pp (upid t + 1) nm U
    /\ (forall i, 0 <= i < 4096 -> rd8 (kmem s3) (f + i) = rd8 (kmem s) (q0 + i))
    /\ s3⟦usr_phys_addr⟧ = f + 4096 /\ s3⟦user_addr⟧ = U + 4096 /\ s3⟦pml_same_ctxt⟧ = s⟦pml_same_ctxt⟧
    /\ same_globals (map_globals ++ addr_globals) s s3.
Proof.
  intros Hu [Kc Kt Ku Kn [Kne Knl] K3 Ks [Ksa [Ksb Ksn]] Ksl [Kq Kqf] Ka Kf Kl Ke Kar [KU KU21] Kah Kp Kpool]
    Hfu s f U L'.
  fold s f U in Kqf, Kf, KU, KU21, Kah, Kpool, Ksn.
  pose proof (ta_pcb _ _ _ _ _ _ _ _ _ Kt) as Hpp.
  destruct (kregion_bounds _ _ _ _ Hpp ltac:(offsets; lia)) as [Hp0 Hp1].
  destruct (fork_ids_spec fuel np s T L pp (upid t + 1) nm Hu Hpp)
    as (s1 & E1 & Hu1 & He1 & Ht1 & Hk1 & [Hpid Hppid Hst Hnm] & Hg1);
    [unfold KWIN; lia|lia|exact Kn|exact Kne|exact Knl|exact Hfu|].
  assert (Hal : forall x, x ∉ alloc_globals -> s1⟦x⟧ = s⟦x⟧) by (intros x Hx; apply Hg1, Hx).
  assert (Ha1 : s1⟦user_addr⟧ = U) by (apply Hal; notin_globals).
  assert (Ha2 : s1⟦usr_phys_addr⟧ = f) by (apply Hal; notin_globals).
  assert (Ha3 : s1⟦pml_same_ctxt⟧ = s⟦pml_same_ctxt⟧) by (apply Hal; notin_globals).
  assert (Hpp1 : kregion (np + 16384) T pp SIZEOF_task) by (eapply kregion_eff; [exact He1|exact Hpp]).
  assert (Hpf1 : forall o, 0 <= o -> o + 8 <= SIZEOF_task -> rd64 (kmem s1) (pp + o) = rd64 (kmem s) (pp + o)).
  { intros o Ho Ho8. eapply (kfield_same own P nothing); [exact He1|exact Hpp|lia|lia|intros a []]. }
  assert (Hua : user_area s1 5) by (eapply user_area_same; [|exact Kar]; intros x Hx; apply Hg1, alloc_in_map, Hx).
  destruct (fork_stack_spec (np + 16384) s1 T L np (np + 8192) pp ps q0 Hu1 Ht1 Hpp1)
    as (np2 & T2 & s2 & E2 & Hn2 & Hu2 & He2 & Hstk & Hcr & _ & Hcp & Hf2 & Hua2 & Hsc2 & Hg2);
    rewrite ?Ha1, ?Ha2; try assumption; try lia.
  { unfold apart. offsets. lia. }
  { rewrite Hpf1 by (offsets; lia). exact Ks. }
  cbv zeta in Hu2, He2, Hstk, Hcp, Hf2, Hua2. rewrite Ha1 in Hu2, Hstk, Hua2. rewrite Ha2 in Hu2, He2, Hf2.
  rewrite Ha3 in Hsc2. setoid_rewrite Ha2 in Hcp.
  assert (He02 : eff (fun a => nothing a \/ stack_fields np a \/ f <= a < f + 4096) np T s np2 T2 s2)
    by (eapply eff_trans; [exact He1|exact He2]).
  assert (Hpf2 : forall o, 0 <= o -> o + 8 <= SIZEOF_task -> rd64 (kmem s2) (pp + o) = rd64 (kmem s) (pp + o)).
  { intros o Ho Ho8. eapply (kfield_same own P); [exact He02|exact Hpp|lia|lia|].
    unfold stack_fields. offsets. intros a [[]|[H|H]]; lia. }
  destruct (fork_frame_spec irq0 s2 np pp U) as (m3 & E3 & Hfr & Hm3); try (offsets; lia); [unfold apart; offsets; lia|].
  assert (Hk2 : kregion np2 T2 np SIZEOF_task)
    by (eapply kregion_eff; [exact He2|exact (ta_pcb _ _ _ _ _ _ _ _ _ Ht1)]).
  assert (He3 : eff (frame_fields np) np2 T2 s2 np2 T2 (with_mem s2 m3)) by (apply eff_mem, Hm3).
  exists np2, T2, s1, s2, (with_mem s2 m3). split; [exact E1|]. split; [exact E2|]. split; [exact E3|].
  split; [lia|].
  split; [eapply (uspace_store ready own P lo); [exact Hu2|exact Hk2|offsets; lia|]; intros a Ha; apply Hm3;
    unfold frame_fields; offsets; lia|].
  split; [|split; [|split]].
  - eapply eff_weaken_range; [eapply eff_trans; [exact He02|exact He3]|].
    unfold stack_fields, frame_fields. offsets. intros a Ha [[[]|[H|H]]|[H|H]]; lia.
  - eapply (task_at_high own P); [exact He3|apply spares_frame|].
    eapply (task_at_high own P); [exact He2| |exact Ht1]. intros a [H|H]; [apply spares_stack, H|left; lia].
  - assert (Hk : forall a, np <= a < np + 8192 -> ~ frame_fields np a -> ~ stack_fields np a -> rd8 m3 a = rd8 (kmem s1) a).
    { intros a Ha H1 H2. rewrite Hm3 by exact H1. eapply (kregion_same own P); [exact He2|exact Hk1|exact Ha|].
      intros [H|H]; [exact (H2 H)|lia]. }
    unfold frame_fields, stack_fields in Hk, Hm3. kst_simpl. offsets.
    constructor; offsets.
    + rewrite <- Hpid. apply rd64_ext. intros a Ha. apply Hk; lia.
    + rewrite <- Hppid. apply rd64_ext. intros a Ha. apply Hk; lia.
    + rewrite <- Hst. apply rd32_ext. intros a Ha. apply Hk; lia.
    + eapply cstr_ext; [|exact Hnm]. intros a Ha. apply Hk; lia.
    + rewrite <- Hstk. apply rd64_ext. intros a Ha. apply Hm3; lia.
    + rewrite <- Hcr. apply rd64_ext. intros a Ha. apply Hm3; lia.
    + eapply fork_frame_src; [|exact Hfr]. offsets. exact Hpf2.
  - kst_simpl. split; [|split; [exact Hf2|split; [exact Hua2|split; [exact Hsc2|]]]].
    + intros i Hi. rewrite Hm3 by (unfold frame_fields; offsets; lia). rewrite Hcp by exact Hi.
      apply (eff_high _ _ _ _ _ _ _ _ _ He1 Hu); [lia|intros []].
    + intros x Hx. kst_simpl. rewrite Hg2 by exact Hx. apply Hal, alloc_in_map. intros Hin. apply Hx, elem_of_app. left. exact Hin.
Qed.

(** The state behind [fork_process]: the child [c] has the parent's name, number
    and areas, a copy of its stack page, an interrupt frame that returns zero at
    the parent's return address, a heap of its own, and the parent's page tables;
    the frames of the parent's areas hold the file's bytes again. *)
Record forked (irq0 np : Z) (T : gmap (Z * Z) Z) (L : gmap Z Z) (t : lst) (pp : Z) (nm : list Z)
    (vs : list varea) (v : varea) (q0 : Z) (src q : nat -> Z) (np' : Z) (T' : gmap (Z * Z) Z)
    (s' : kst) (c pm' pv' : Z) : Prop := {
  fd_space : let s := lk t in let f := s⟦usr_phys_addr⟧ in let U := s⟦user_addr⟧ in
    uspace np' s' T'
      (<[next_addr (s⟦user_addr ↦ U + 4096⟧) 3 / 4096 := f + 4096 + USR_PERM_BITS]>
        (<[(U - 4096) / 4096 := f + USR_PERM_BITS]> L));
  fd_task : task_at np' T' (kmem s') c pm' pv' vs;
  fd_child : child_at irq0 (kmem (lk t)) (kmem s') c pp (upid t + 1) nm ((lk t)⟦user_addr⟧);
  fd_copy : forall i, 0 <= i < 4096 ->
    rd8 (kmem s') ((lk t)⟦usr_phys_addr⟧ + i) = rd8 (kmem (lk t)) (q0 + i);
  fd_restored : forall i w, vs !! i = Some w -> forall x, 0 <= x < v_mmsz w + 7 ->
    rd8 (kmem s') (q i + x) = rd8 (kmem (lk t)) (src i + x);
  fd_heap : rd64 (kmem s') (c + TS_heap_vma)
    = next_addr ((lk t)⟦user_addr ↦ (lk t)⟦user_addr⟧ + 4096⟧) 3;
  fd_heap_start : rd64 (kmem s') ((lk t)⟦usr_phys_addr⟧ + 4096 + VM_start) = (v_end v + 4096) / 4096 * 4096 }.

(** What the second half writes below the frames of the heap. *)
Lemma copied_high np T L pv vs src q pm pvc a :
  parent_areas np T L pv vs src q -> copied pm pvc vs q 0 a -> pm <= a < pm + 24 \/ 0x5000000 <= a.
Proof.
  intros Hpa [H|[[H _]|(i & v & _ & Hv & H)]]; [left; exact H|destruct (H eq_refl)|right].
  pose proof (bk_high _ _ _ _ _ _ (pa_backed _ _ _ _ _ _ _ Hpa i v Hv)). unfold target in H. lia.
Qed.

Lemma user_area_eq s s' fl :
  s'⟦physbase⟧ = s⟦physbase⟧ -> s'⟦user_addr⟧ = s⟦user_addr⟧ -> s'⟦dif_ctxt⟧ = s⟦dif_ctxt⟧ ->
  s'⟦pml_same_ctxt⟧ = s⟦pml_same_ctxt⟧ -> user_area s fl -> user_area s' fl.
Proof.
  intros H1 H2 H3 H4 [A1 A2 A3 A4 A5].
  constructor; rewrite ?(next_addr_same s s' fl H2 H3 H4), ?H1, ?H2; assumption.
Qed.

Lemma tlb_flush_same s : tlb_flush s (cr3 s) = s.
Proof. destruct s. reflexivity. Qed.

Lemma fork_process_spec irq0 fuel np T L t pp ppm pv nm vs v ps q0 src q :
  uspace np (lk t) T L -> forkable np T L t pp ppm pv nm vs v ps q0 src q ->
  (16 < fuel)%nat -> (length vs < fuel)%nat -> Forall (fun w => Z.to_nat (v_mmsz w) < fuel)%nat vs ->
  exists np' T' s' pv', fork_process fuel irq0 t = Some (upid t + 1,
      mk_lst s' (upid t + 1) (process_count t) (upid t + 1) (VIRT_BASE + np) (curr_upcb t) (ready_queue t))
    /\ forked irq0 np T L t pp nm vs v q0 src q np' T' s' np (np + 8192) pv'.
Proof.
  intros Hu Hk Hf16 Hfu Hfm.
  destruct (fork_front_spec irq0 fuel np T L t pp ppm pv nm vs v ps q0 src q Hu Hk Hf16)
    as (np3 & T3 & s1 & s2 & s3 & E1 & E2 & E3 & Hn3 & Hu3 & He3 & Ht3 & Hc3 & Hcp3 & Hf3 & Hua3 & Hsc3 & Hg3).
  destruct Hk as [Kc Kt Ku Kn [Kne Knl] K3 Ks Ksp Ksl [Kq Kqf] Ka Kf Kl Ke Kar [KU KU21] Kah Kp Kpool].
  unfold fork_process. cbv zeta. rewrite Kc. rewrite (u16_small (upid t + 1)) by lia.
  rewrite E1. cbn [mbind option_bind]. rewrite E2. cbn [mbind option_bind]. rewrite E3. cbv zeta in *.
  set (s := lk t) in *. set (f := s⟦usr_phys_addr⟧) in *. set (U := s⟦user_addr⟧) in *.
  pose proof (ua_aligned _ _ Kar) as HUa. fold s U in HUa.
  assert (Hpt3 : task_at np3 T3 (kmem s3) pp ppm pv vs)
    by (eapply (task_at_high own P); [exact He3| |exact Kt]; intros a Ha; left; lia).
  assert (Hpa3 : parent_areas np3 T3 (<[(U - 4096) / 4096 := f + USR_PERM_BITS]> L) pv vs src q).
  { eapply parent_areas_step; [exact He3|exact Ka|]. intros i w Hi. destruct (Kf i w Hi) as (_ & _ & H).
    zdiv. }
  destruct (kregion_bounds _ _ _ _ (ta_pcb _ _ _ _ _ _ _ _ _ Kt) ltac:(offsets; lia)) as [Hp0 Hp1].
  destruct (kregion_bounds _ _ _ _ (ta_mm _ _ _ _ _ _ _ _ _ Kt) ltac:(lia)) as [Hm0 Hm1].
  assert (Hne : vs <> []) by (clear - Kl; intros ->; discriminate Kl).
  destruct (ta_list _ _ _ _ _ _ _ _ _ Hpt3) as [Hmm Hvs]. rewrite decide_False in Hmm by exact Hne.
  offsets. rewrite (fld_at s3 np), (fld_at s3 pp) by lia.
  pose proof (ta_ptr _ _ _ _ _ _ _ _ _ Ht3) as Hptr. pose proof (ta_ptr _ _ _ _ _ _ _ _ _ Hpt3) as Hpptr.
  offsets. rewrite Hptr, Hpptr, (fld_at s3 ppm 0), Z.add_0_r, Hmm by lia.
  destruct (copy_vmas_spec fuel fuel np3 s3 T3 _ np (np + 8192) 0 pv vs src q 0 np Hu3 Ht3 Hpa3 Hvs)
    as (np4 & s4 & pv4 & E4 & Hn4 & Hu4 & Ht4 & He4 & Hc4 & Hg4); try assumption; try lia;
    [exact (below_areas _ _ _ _ _ _ _ Ka)|].
  unfold link in E4. rewrite decide_False in E4 by (destruct vs; [contradiction|simpl; lia]).
  rewrite Z.mul_0_r, Z.add_0_r in E4. rewrite E4. cbn [mbind option_bind].
  set (s0 := s⟦user_addr ↦ U + 4096⟧) in *.
  assert (Hs04 : forall x, x ∉ map_globals ++ addr_globals -> s4⟦x⟧ = s⟦x⟧).
  { intros x Hx. rewrite Hg4, Hg3; [reflexivity|exact Hx|]. apply alloc_in_map. intros Hin. apply Hx, elem_of_app. left. exact Hin. }
  assert (G1 : s4⟦user_addr⟧ = s0⟦user_addr⟧) by (rewrite Hg4, Hua3 by notin_globals; symmetry; apply gl_gput_eq).
  assert (G2 : s4⟦dif_ctxt⟧ = s0⟦dif_ctxt⟧) by (rewrite Hs04 by notin_globals; symmetry; apply gl_gput_ne; discriminate).
  assert (G3 : s4⟦pml_same_ctxt⟧ = s0⟦pml_same_ctxt⟧)
    by (rewrite Hg4, Hsc3 by notin_globals; symmetry; apply gl_gput_ne; discriminate).
  assert (G4 : s4⟦physbase⟧ = s0⟦physbase⟧) by (rewrite Hs04 by notin_globals; symmetry; apply gl_gput_ne; discriminate).
  assert (G5 : s4⟦usr_phys_addr⟧ = f + 4096) by (rewrite Hg4, Hf3 by notin_globals; reflexivity).
  pose proof (user_area_eq s0 s4 3 G4 G1 G2 G3 Kah) as Har4.
  destruct (fork_heap_spec fuel np4 s4 T3 _ np (np + 8192) pv4 vs v Hu4 Ht4 Kl)
    as (np5 & T5 & s5 & E5 & Hn5 & Hu5 & He5 & Ht5 & Hh5 & Hhs5 & _); rewrite ?G5; try assumption; try lia.
  cbv zeta in *. rewrite (next_addr_same s0 s4 3 G1 G2 G3) in Hu5, Hh5. rewrite G5 in Hu5, He5, Hhs5.
  rewrite E5. cbn [mbind option_bind].
  assert (He45 : eff (fun a => copied (np + 8192) 0 vs q 0 a \/ heap_field np a \/ f + 4096 <= a < f + 8192) np3 T3 s3 np5 T5 s5).
  { eapply eff_weaken; [eapply eff_trans; [exact He4|exact He5]|]. intros a [H|[H|H]]; [left; exact H|right; left; exact H|right; right; lia]. }
  assert (Hcr : fld s5 (VIRT_BASE + pp) 4352 = cr3 s5).
  { rewrite (us_cr3 _ _ _ _ _ _ _ Hu5), fld_at, <- K3 by lia.
    etrans; [eapply (kfield_same own P); [exact He45|exact (ta_pcb _ _ _ _ _ _ _ _ _ Hpt3)|lia|offsets; lia|]|].
    - unfold heap_field. offsets. intros a [H|[H|H]]; [apply (copied_high _ _ _ _ _ _ _ _ _ _ Ka) in H; lia|lia|lia].
    - eapply (kfield_same own P); [exact He3|exact (ta_pcb _ _ _ _ _ _ _ _ _ Kt)|lia|offsets; lia|cbv beta; lia]. }
  rewrite Hcr, tlb_flush_same, (u32_small (upid t + 1)), (s32_small (upid t + 1)) by lia.
  exists np5, T5, s5, pv4. split; [reflexivity|].
  assert (Hfr : f mod 4096 = 0 /\ 0x5000000 <= f) by (split; [apply (us_frame _ _ _ _ _ _ _ Hu)|lia]).
  constructor; cbv zeta; fold s; fold f U; fold s0.
  - exact Hu5.
  - exact Ht5.
  - eapply child_at_ext; [|exact Knl|exact Hc3]. intros a Ha Hh.
    eapply (kregion_same own P); [exact He45|exact (ta_pcb _ _ _ _ _ _ _ _ _ Ht3)|exact Ha|].
    offsets. intros [H|[H|H]]; [apply (copied_high _ _ _ _ _ _ _ _ _ _ Ka) in H; lia|exact (Hh H)|lia].
  - intros i Hi. rewrite <- Hcp3 by exact Hi. apply (eff_high _ _ _ _ _ _ _ _ _ He45 Hu3); [lia|].
    intros [[H|[[H _]|(j & w & _ & Hj & H)]]|[H|H]]; [lia|exact (H eq_refl)| |unfold heap_field in H; offsets; lia|lia].
    destruct (Kf j w Hj) as [Hb _]. unfold target in H. lia.
  - intros i w Hi x Hx. pose proof (pa_backed _ _ _ _ _ _ _ Ka i w Hi) as Hbk.
    pose proof (bk_high _ _ _ _ _ _ Hbk) as Hqi. destruct (Kf i w Hi) as [Hb _].
    rewrite (eff_high _ _ _ _ _ _ _ _ (q i + x) He5 Hu4), (Hc4 i w) by
      first [lia|exact Hi|exact Hx|unfold heap_field; offsets; lia].
    eapply (kregion_same own P); [exact He3|exact (bk_region _ _ _ _ _ _ Hbk)|lia|].
    pose proof (proj2 (below_areas _ _ _ _ _ _ _ Ka) i w Hi). cbv beta. lia.
  - exact Hh5.
  - exact Hhs5.
Qed.
End fork.

(** ** Claim *)

(** C5: [fork_process] from any process whose page tables represent an address
    space returns the next process number and leaves a child with that number,
    the parent's number, name and areas, state [READY], an interrupt frame that
    resumes at the parent's return address with result zero and its other
    registers, and a stack page of its own that the hardware translates to a fresh
    frame holding a copy of the parent's.  The child gets the parent's page-table
    root, so that every other page is shared, and the addresses of the areas show
    both processes the bytes of the program file again. *)
Theorem fork_process_creates_child ready own P lo irq0 fuel np T L t pp ppm pv nm vs v ps q0 src q :
  PageSource ready own -> P mod 4096 = 0 -> 0 <= P -> P + 4096 <= lo -> (forall a, own a -> a < P) ->
  uspace ready P lo np (lk t) T L -> forkable own P np T L t pp ppm pv nm vs v ps q0 src q ->
  (16 < fuel)%nat -> (length vs < fuel)%nat -> Forall (fun w => Z.to_nat (v_mmsz w) < fuel)%nat vs ->
  let f := (lk t)⟦usr_phys_addr⟧ in let U := (lk t)⟦user_addr⟧ in
  exists np' T' s' pv', fork_process fuel irq0 t = Some (upid t + 1,
      mk_lst s' (upid t + 1) (process_count t) (upid t + 1) (VIRT_BASE + np) (curr_upcb t) (ready_queue t))
    /\ child_at P irq0 (kmem (lk t)) (kmem s') np pp (upid t + 1) nm U
    /\ task_at own P np' T' (kmem s') np (np + 8192) pv' vs /\ cr3 s' = P
    /\ (forall i, 0 <= i < 4096 -> exists w, walk (kmem s') (cr3 s') (U - 4096 + i) = Some (mk_tr (f + i) w true)
          /\ rd8 (kmem s') (f + i) = rd8 (kmem (lk t)) (q0 + i))
    /\ (forall i a x, vs !! i = Some a -> 0 <= x < v_mmsz a + 7 ->
          exists w, walk (kmem s') (cr3 s') (v_start a + x) = Some (mk_tr (q i + x) w true)
          /\ rd8 (kmem s') (q i + x) = rd8 (kmem (lk t)) (src i + x)).
Proof.
  intros HPS HP HP0 HPlo Hown Hu Hk Hf16 Hfu Hfm f U.
  destruct (fork_process_spec ready own P lo HP HP0 HPlo Hown irq0 fuel np T L t pp ppm pv nm vs v ps q0 src q
    Hu Hk Hf16 Hfu Hfm) as (np' & T' & s' & pv' & E & [Hsp Ht Hc Hcp Hre _ _]). cbv zeta in Hsp.
  fold f U in Hsp, Hc, Hcp. set (h := next_addr _ 3) in Hsp.
  destruct (us_frame _ _ _ _ _ _ _ Hu) as [Hfa Hfb]. fold f in Hfa, Hfb.
  destruct (fk_area_page _ _ _ _ _ _ _ _ _ _ _ _ _ _ _ _ Hk) as [HU0 _]. fold U in HU0.
  destruct (fk_area _ _ _ _ _ _ _ _ _ _ _ _ _ _ _ _ Hk) as [_ HUr HUa _ _]. fold U in HUr, HUa.
  pose proof (ua_next _ _ (fk_area_heap _ _ _ _ _ _ _ _ _ _ _ _ _ _ _ _ Hk)) as Hn. fold U in Hn.
  fold h in Hn. rewrite gl_gput_eq in Hn.
  exists np', T', s', pv'. split; [exact E|]. split; [exact Hc|]. split; [exact Ht|].
  split; [exact (us_cr3 _ _ _ _ _ _ _ Hsp)|]. split.
  - intros i Hi.
    destruct (ulin_walk ready P lo HP HP0 HPlo np' s' T' _ (U - 4096) 4096 f i Hsp) as [w Hw]; try lia.
    + apply ulin_insert; [apply ulin_stack_page; [exact Hfa|lia|exact HUa]|]. intros j Hj. zdiv.
    + exists w. split; [exact Hw|]. apply Hcp, Hi.
  - intros i a x Ha Hx. destruct (fk_frames _ _ _ _ _ _ _ _ _ _ _ _ _ _ _ _ Hk i a Ha) as (_ & _ & Hb). fold U in Hb.
    destruct (pa_backed _ _ _ _ _ _ _ _ _ (fk_areas _ _ _ _ _ _ _ _ _ _ _ _ _ _ _ _ Hk) i a Ha)
      as [_ _ _ Bz Bl [Bs Be] _].
    destruct (ulin_walk ready P lo HP HP0 HPlo np' s' T' _ (v_start a) (v_mmsz a + 7) (q i) x Hsp) as [w Hw]; try lia.
    + apply ulin_insert; [apply ulin_insert; [exact Bl|]|]; intros j Hj; zdiv.
    + exists w. split; [exact Hw|]. exact (Hre i a Ha x Hx).
Qed.

(** A process with one area of 20 bytes at 0x400000, the file bytes at
    physical 0x320010, and a stack page. *)
Definition fork_area : varea := mk_varea 0x400000 0x400014 20 (VIRT_BASE + 0x320000) 5 0x10.

Definition fork_mem : mem :=
  let m := write_temp ∅ 0x320010 [11; 12; 13; 14; 15; 16; 17; 18; 19; 20; 21] in
  let m := wr64 m (0x330000 + TS_pid) 1 in
  let m := write_temp m (0x330000 + TS_pname) [115; 104; 0] in
  let m := wr64 m (0x330000 + kstk 505) 0x400004 in
  let m := wr64 m (0x330000 + TS_stack) 38367854592 in
  let m := wr64 m (0x330000 + TS_cr3) 0x418000 in
  let m := wr64 m (0x330000 + TS_mm) (VIRT_BASE + 0x340000) in
  let m := wr64 m 0x340000 (VIRT_BASE + 0x350000) in
  let m := wr64 m (0x350000 + VM_start) 0x400000 in
  let m := wr64 m (0x350000 + VM_end) 0x400014 in
  let m := wr64 m (0x350000 + VM_mmsz) 20 in
  let m := wr64 m (0x350000 + VM_file) (VIRT_BASE + 0x320000) in
  let m := wr64 m (0x350000 + VM_flags) 5 in
  wr64 m (0x350000 + VM_offset) 0x10.

Lemma fork_mem_zero a : 0x400000 <= a -> rd8 fork_mem a = 0.
Proof.
  intros Ha. unfold fork_mem. cbv zeta. offsets. unfold VM_start, VM_end, VM_mmsz, VM_file, VM_flags, VM_offset.
  rewrite !rd8_wr64_ne by lia. rewrite rd8_write_temp_ne by (right; cbn [length]; lia).
  rewrite rd8_wr64_ne by lia. rewrite rd8_write_temp_ne by (right; cbn [length]; lia). reflexivity.
Qed.

Definition fork_kst : kst := with_mem load_kst fork_mem.

(** The stack page, then the page of the area. *)
Definition fork_kst' : kst :=
  allocate_regions (memmap fork_kst 0 PAGE_SIZE USR_PERM_BITS 5).2 0x400000 20.

Lemma fork_kst_space : uspace (boot_ready 0x400000) 0x418000 0x419000 0x419000 fork_kst {[(4, 0) := 0x418000]} ∅.
Proof.
  pose proof load_kst_space as [Hr H1 H2 H3 H4 _].
  constructor; unfold fork_kst; kst_simpl; try assumption.
  - eapply (ps_frame (PageSource := page_source_boot 0x400000 demo_boot)); [exact Hr|].
    intros x _. kst_simpl. reflexivity.
  - apply uinv_empty; [unfold KWIN; lia|]. intros a Ha. apply fork_mem_zero. lia.
Qed.

Definition fork_lst : lst := mk_lst fork_kst' 1 1 0 0 (VIRT_BASE + 0x330000) 0.

Lemma fork_lst_forkable :
  exists np T L, uspace (boot_ready 0x400000) 0x418000 0x419000 np (lk fork_lst) T L
    /\ forkable (freelist_cells 0x400000) 0x418000 np T L fork_lst 0x330000 0x340000 0x350000 [115; 104]
         [fork_area] fork_area 38367854592 0x5000000 (fun _ => 0x320010) (fun _ => 0x5001000)
    /\ (lk fork_lst)⟦usr_phys_addr⟧ = 0x5002000 /\ (lk fork_lst)⟦user_addr⟧ = 38367858688.
Proof.
  assert (Hown : forall a, freelist_cells 0x400000 a -> a < 0x418000) by (unfold freelist_cells; lia).
  destruct (new_stack_spec (boot_ready 0x400000) (freelist_cells 0x400000) (HPS := page_source_boot 0x400000 demo_boot)
    0x418000 0x419000 eq_refl ltac:(lia) ltac:(lia) Hown 0x419000 fork_kst _ _ 0 fork_kst_space)
    as (np1 & T1 & s1 & E1 & Hn1 & Hu1 & He1 & Hf1 & Hua1 & Hsc1 & Hg1).
  { constructor; vm_compute; intuition discriminate. }
  { vm_compute. discriminate. }
  { unfold KWIN. lia. }
  { vm_compute. reflexivity. }
  change (fork_kst⟦usr_phys_addr⟧) with 0x5000000 in *. change (fork_kst⟦user_addr⟧) with 38367854592 in *.
  assert (Hpg : pages_of 0x400000 20 = 1) by reflexivity.
  destruct (allocate_regions_spec (boot_ready 0x400000) (freelist_cells 0x400000)
    (HPS := page_source_boot 0x400000 demo_boot) 0x418000 0x419000 eq_refl ltac:(lia) ltac:(lia) Hown np1 s1 T1 _
    0x400000 20 Hu1) as (np2 & T2 & s2 & E2 & Hn2 & Hu2 & He2 & Hf2 & Hg2); rewrite ?Hpg; try lia.
  { unfold KWIN. lia. }
  rewrite Hpg, Hf1 in *. pose proof (proj1 He2) as Hn12.
  assert (Es : fork_kst' = s2) by (unfold fork_kst'; rewrite E1; exact E2).
  assert (He : eff (freelist_cells 0x400000) nothing 0x419000 {[(4, 0) := 0x418000]} fork_kst np2 T2 s2)
    by (eapply eff_weaken; [eapply eff_trans; [exact He1|exact He2]|]; intros a [[]|[]]).
  assert (Hk : forall p n, 0 <= p -> p + n <= 0x400000 -> kregion (freelist_cells 0x400000) 0x418000 np2 T2 p n)
    by (intros p n H0 Hb; eapply kregion_eff; [exact He|apply load_kregion; assumption]).
  assert (Hm : forall a, 0 <= a < 0x400000 -> rd8 (kmem s2) a = rd8 fork_mem a).
  { intros a Ha. change fork_mem with (kmem fork_kst).
    eapply (kregion_same (freelist_cells 0x400000) 0x418000 nothing);
      [exact He|apply (load_kregion 0 0x400000); lia|lia|intros []]. }
  assert (H64 : forall a, 0 <= a -> a + 8 <= 0x400000 -> rd64 (kmem s2) a = rd64 fork_mem a)
    by (intros a H0 Hb; apply rd64_ext; intros i Hi; apply Hm; lia).
  assert (Hgl : forall x, x ∉ map_globals ++ addr_globals -> s2⟦x⟧ = fork_kst⟦x⟧).
  { intros x Hx. rewrite Hg2, Hg1; [reflexivity|exact Hx|]. intros Hin. apply Hx, elem_of_app. left. exact Hin. }
  assert (HU : s2⟦user_addr⟧ = 38367858688) by (rewrite Hg2, Hua1 by notin_globals; reflexivity).
  assert (Hsc : s2⟦pml_same_ctxt⟧ = fork_kst⟦pml_same_ctxt⟧) by (rewrite Hg2, Hsc1 by notin_globals; reflexivity).
  exists np2, T2, (map_range 1 (<[(38367854592 - 4096) / 4096 := 0x5000000 + USR_PERM_BITS]> ∅) (0x400000 / 4096) 0x5001000).
  unfold fork_lst. cbn [lk]. rewrite Es. split; [exact Hu2|]. split; [|split; [exact Hf2|exact HU]].
  assert (Hone : forall i w, [fork_area] !! i = Some w -> i = 0%nat /\ w = fork_area)
    by (intros [|i] w Hi; [injection Hi as <-; split; reflexivity|discriminate Hi]).
  assert (Har : area_at (kmem s2) 0x350000 fork_area)
    by (constructor; rewrite H64 by (vm_compute; discriminate); vm_compute; reflexivity).
  constructor; cbn [lk curr_upcb upid]; rewrite ?Hf2, ?HU; try (rewrite H64 by (vm_compute; discriminate); reflexivity);
    try lia; try reflexivity.
  - constructor; try (apply Hk; offsets; lia); try (intros _; apply Hk; lia);
      try (unfold apart; offsets; lia); try (rewrite H64 by (vm_compute; discriminate); reflexivity).
    + split; [rewrite H64 by lia; reflexivity|]. intros i w Hi. apply Hone in Hi as [-> ->].
      split; [exact Har|]. rewrite H64 by (vm_compute; discriminate). reflexivity.
    + cbn [length]. lia.
  - eapply cstr_ext; [|apply (bool_decide_eq_true_1 (cstr fork_mem (0x330000 + TS_pname) [115; 104])); vm_compute; reflexivity].
    intros a Ha. cbn [length] in Ha. apply Hm. offsets. lia.
  - split; [discriminate|cbn [length]; lia].
  - split; [reflexivity|lia].
  - apply ulin_map_range; [apply ulin_stack_page; [reflexivity|lia|reflexivity]|].
    intros i Hi. right. apply Z.div_le_lower_bound; [lia|]. change (0x400000 / 4096) with 1024. lia.
  - constructor; try (apply Hk; lia); [cbn [length]; lia| | |].
    + repeat constructor; vm_compute; intuition discriminate.
    + intros i w Hi. apply Hone in Hi as [-> ->]. cbn [fork_area v_mmsz v_start].
      constructor; cbn [fork_area v_mmsz v_start v_file v_offset]; try lia; [apply Hk; lia|].
      pose proof (map_range_ulin 1 (<[(38367854592 - 4096) / 4096 := 0x5000000 + USR_PERM_BITS]> ∅) 0x400000
        0x5001000 eq_refl ltac:(lia) ltac:(lia)) as Hl.
      change (0x400000 mod 4096) with 0 in Hl. apply (ulin_sub _ 0x400000 4096 0x5001000 0 27); [exact Hl|lia|lia].
    + intros i j w w' Hi Hj. apply Hone in Hi as [-> ->]. apply Hone in Hj as [-> ->]. contradiction.
  - intros i w Hi. apply Hone in Hi as [-> ->]. unfold apart. cbn [fork_area v_mmsz v_start]. lia.
  - cbn. lia.
  - apply (user_area_eq (fork_kst⟦user_addr ↦ 38367858688⟧)); rewrite ?gl_gput_eq, ?gl_gput_ne by discriminate;
      [apply Hgl; notin_globals|exact HU|apply Hgl; notin_globals|exact Hsc|constructor; vm_compute; intuition discriminate].
  - split; [lia|discriminate].
  - apply (user_area_eq (fork_kst⟦user_addr ↦ 38367862784⟧)); rewrite ?gl_gput_eq, ?gl_gput_ne by discriminate;
      [apply Hgl; notin_globals|reflexivity|apply Hgl; notin_globals|exact Hsc|constructor; vm_compute; intuition discriminate].
  - cbn [length]. lia.
Qed.

Lemma fork_process_creates_child_witness :
  exists np np' T' s' pv', fork_process 300 0x201000 fork_lst
    = Some (2, mk_lst s' 2 1 2 (VIRT_BASE + np) (VIRT_BASE + 0x330000) 0)
    /\ child_at 0x418000 0x201000 (kmem fork_kst') (kmem s') np 0x330000 2 [115; 104] 38367858688
    /\ task_at (freelist_cells 0x400000) 0x418000 np' T' (kmem s') np (np + 8192) pv' [fork_area]
    /\ (forall x, 0 <= x < 27 -> exists w, walk (kmem s') (cr3 s') (0x400000 + x) = Some (mk_tr (0x5001000 + x) w true)
          /\ rd8 (kmem s') (0x5001000 + x) = rd8 (kmem fork_kst') (0x320010 + x)).
Proof.
  destruct fork_lst_forkable as (np & T & L & Hu & Hk & Hf & HU).
  destruct (fork_process_creates_child (boot_ready 0x400000) (freelist_cells 0x400000) 0x418000 0x419000 0x201000
    300 np T L fork_lst 0x330000 0x340000 0x350000 [115; 104] [fork_area] fork_area 38367854592 0x5000000
    (fun _ => 0x320010) (fun _ => 0x5001000) (page_source_boot 0x400000 demo_boot))
    as (np' & T' & s' & pv' & E & Hc & Ht & _ & _ & Hr);
    [reflexivity|lia|lia|unfold freelist_cells; lia|exact Hu|exact Hk|lia|cbn [length]; lia| |].
  - repeat constructor.
  - rewrite HU in Hc. exists np, np', T', s', pv'. split; [exact E|]. split; [exact Hc|]. split; [exact Ht|].
    intros x Hx. exact (Hr 0%nat fork_area x eq_refl Hx).
Defined.
