(* ===== verification/InitProc.v ===== *)
(** * The first process

    [init_usr_pcb] of [sys/pcb_init.c] from any state whose page tables represent
    an address space: the structures and the name, the cleared stack page, the
    frame on the kernel stack, the program from the archive, and the slot of the
    ready queue. *)

From stdpp Require Import base gmap list numbers.
From Stdlib Require Import ZArith Lia.
From Stdlib Require Ascii String.
From S2P Require Import Prelude KLib Mmu Paging BootPaging Alloc Utils UserPaging AddrSpace Memmap.
From S2P Require Import UserMem Keyboard Tarfs Loader LoadSegment Fork.
Import (notations) String.

(** The program's pages leave the stack page below [U] as it is. *)
Lemma program_space_stack s h L U f :
  ulin L (U - 4096) 4096 f -> U mod 4096 = 0 -> 0 <= p_vaddr h -> 0 <= p_memsz h ->
  p_vaddr h + p_memsz h + 0x100000 <= U - 4096 -> U <= next_addr s 3 ->
  ulin (program_space s h L) (U - 4096) 4096 f.
Proof.
  intros Hl HU Hv Hm Hb Hn i Hi. destruct (Hl i Hi) as (e & He & Hp). exists e. split; [|exact Hp].
  unfold program_space, heap_base. rewrite !lookup_insert_ne, map_range_lookup, decide_False; [exact He|..];
    unfold pages_of; zdiv.
Qed.

Section init.
Context (ready : Z -> kst -> Prop) (own : Z -> Prop) `{HPS : !PageSource ready own}.
Context (P lo : Z) (HP : P mod 4096 = 0) (HP0 : 0 <= P) (HPlo : P + 4096 <= lo).
Context (Hown : forall a, own a -> a < P).

Abbreviation uspace := (uspace ready P lo).
Abbreviation eff := (eff own).
Abbreviation kregion := (kregion own P).
Abbreviation task_at := (task_at own P).

Lemma init_ids_spec fuel np s T L upid file nm :
  uspace np s T L -> np + 12288 <= KWIN -> 1 <= upid < 2 ^ 16 ->
  cstr (kmem s) (kphys file) nm -> kregion np T (kphys file) (slen nm + 1) ->
  nm <> [] -> (length nm < 16)%nat -> (16 < fuel)%nat ->
  exists s', init_ids fuel s upid file = Some (VIRT_BASE + np, s')
    /\ uspace (np + 12288) s' T L /\ eff nothing np T s (np + 12288) T s'
    /\ task_at (np + 12288) T (kmem s') np (np + 8192) 0 [] /\ kregion (np + 12288) T np 12288
    /\ new_task (kmem s') np upid (upid - 1) nm /\ same_globals alloc_globals s s'.
Proof.
  intros Hu Hw Hup Hnm Hkf Hne Hl Hf. assert (HK : KWIN = 102760448) by reflexivity. unfold init_ids.
  destruct (kregion_bounds _ _ _ _ _ _ Hkf ltac:(lia)) as [Hf0 Hf1].
  destruct (kmalloc_task ready own P lo HP HP0 HPlo Hown np s T L SIZEOF_mm Hu ltac:(change (kmalloc_pages SIZEOF_mm) with 1; lia)
    ltac:(offsets; lia)) as (s1 & s2 & -> & -> & Hu2 & He & Hk & Hg).
  change (8192 + 4096 * kmalloc_pages SIZEOF_mm) with 12288 in *.
  pose proof (ui_lo _ _ _ _ _ _ (us_inv _ _ _ _ _ _ _ Hu)) as Hlo.
  destruct (new_task_spec ready own P lo fuel np 12288 s2 T L upid (upid - 1) (kphys file) nm Hu2 Hk)
    as (n & En & Hu6 & Ht6 & Hn6 & Hm6); try assumption; try lia.
  { eapply cstr_ext; [|exact Hnm]. intros a Ha.
    eapply (kregion_same own P); [exact He|exact Hkf|lia|intros []]. }
  unfold set_fld, fld, kst32. offsets. rewrite !kst64_at, !kernel_ptr by lia. kst_simpl.
  rewrite (u64_small (upid - 1)) by lia.
  unfold named in En, Hu6, Ht6, Hn6, Hm6. offsets. rewrite En. cbn [mbind option_bind]. kst_simpl.
  eexists. split; [reflexivity|]. kst_simpl. split; [exact Hu6|].
  split; [apply eff_fresh; assumption|]. split; [exact Ht6|]. split; [exact Hk|].
  split; [exact Hn6|]. intros x Hx. kst_simpl. apply Hg, Hx.
Qed.

Lemma uspace_dif np s T L v : uspace np s T L -> uspace np (s⟦dif_ctxt ↦ v⟧) T L.
Proof.
  intros [Hr H4 Hvb H3 Hf Hi].
  constructor; rewrite ?gl_gput_ne by discriminate; try assumption.
  eapply ps_frame; [exact Hr|]. intros x Hx. apply gl_gput_ne. intros <-.
  revert Hx. unfold alloc_globals. rewrite !elem_of_cons, elem_of_nil. intuition discriminate.
Qed.

Lemma eff_glob R np T s np' T' s' x v : eff R np T s np' T' s' -> eff R np T s np' T' (s'⟦x ↦ v⟧).
Proof. intros H. exact H. Qed.

Lemma init_stack_spec np s T L c pm :
  uspace np s T L -> task_at np T (kmem s) c pm 0 [] ->
  user_area s 5 -> 4096 <= s⟦user_addr⟧ -> s⟦user_addr⟧ mod 2 ^ 21 <> 0 -> np + 3 * 4096 <= 0x5000000 ->
  s⟦usr_phys_addr⟧ + 4096 < 0x6000000 ->
  let f := s⟦usr_phys_addr⟧ in let U := s⟦user_addr⟧ in
  exists np' T' s', init_stack s (VIRT_BASE + c) = Some s'
    /\ np <= np' <= np + 3 * 4096
    /\ uspace np' s' T' (<[(U - 4096) / 4096 := f + USR_PERM_BITS]> L)
    /\ eff (fun a => stack_fields c a \/ f <= a < f + 4096) np T s np' T' s'
    /\ rd64 (kmem s') (c + TS_stack) = U /\ rd64 (kmem s') (c + TS_cr3) = P
    /\ (forall i, 0 <= i < 4096 -> rd8 (kmem s') (f + i) = 0)
    /\ s'⟦usr_phys_addr⟧ = f + 4096 /\ s'⟦user_addr⟧ = U + 4096 /\ s'⟦dif_ctxt⟧ = 0
    /\ s'⟦pml_same_ctxt⟧ = s⟦pml_same_ctxt⟧
    /\ same_globals (map_globals ++ addr_globals ++ [dif_ctxt]) s s'.
Proof.
  intros Hu Ht Har HU0 HU21 Hw Hf f U.
  pose proof (us_frame _ _ _ _ _ _ _ Hu) as [Hfa Hfb]. fold f in Hfa, Hfb, Hf. fold U in HU0, HU21.
  pose proof (ua_range _ _ Har) as HUr. pose proof (ua_aligned _ _ Har) as HUa. fold U in HUr, HUa.
  pose proof (ta_pcb _ _ _ _ _ _ _ _ _ Ht) as Hc.
  destruct (kregion_bounds _ _ _ _ _ _ Hc ltac:(offsets; lia)) as [Hc0 Hc1].
  pose proof (ui_lo _ _ _ _ _ _ (us_inv _ _ _ _ _ _ _ Hu)) as Hlo. unfold init_stack.
  destruct (new_stack_spec ready own P lo HP HP0 HPlo Hown np s T L 0 Hu Har HU21)
    as (np1 & T1 & s1 & -> & Hn1 & Hu1 & He1 & Hf1 & Hua1 & Hsc1 & Hg1); [unfold KWIN; lia|fold f; lia|].
  fold f U in Hu1, Hf1, Hua1. assert (Hk1 : kregion np1 T1 c 4400) by (eapply kregion_eff; [exact He1|exact Hc]).
  assert (Hpml : s1⟦pml4_shared⟧ = VIRT_BASE + P) by apply (us_pml4 _ _ _ _ _ _ _ Hu1).
  unfold set_fld, fld. offsets. rewrite (kst64_at s1 c), (kld64_at _ c) by lia. fold U. kst_simpl.
  rewrite rd64_wr64_eq, (u64_small U) by lia. unfold PAGE_SIZE. rewrite (u64_small (U - 4096)) by lia.
  set (s2 := with_mem s1 _).
  assert (Hu2 : uspace np1 s2 T1 (<[(U - 4096) / 4096 := f + USR_PERM_BITS]> L)).
  { eapply (uspace_store ready own P lo); [exact Hu1|exact Hk1|lia|]. intros a Ha. apply rd8_wr64_ne. lia. }
  assert (Hld : ulin (<[(U - 4096) / 4096 := f + USR_PERM_BITS]> L) (U - 4096) 4096 f)
    by (apply ulin_stack_page; [exact Hfa|lia|exact HUa]).
  rewrite (vmemset_lin T1 s2 (U - 4096) f 0 4096); try lia;
    [|eapply (ulin_vlin ready own P lo HP HP0 HPlo np1); [exact Hu2|exact Hld|lia|lia]
     |eapply off_tables_user; [exact HP|exact HPlo|exact Hu2|lia]].
  cbn [mbind option_bind]. set (m3 := memset (kmem s2) f 0 4096).
  assert (Hm3 : forall a, rd8 m3 a = if decide (f <= a < f + 4096) then 0 else rd8 (kmem s2) a).
  { intros a. unfold m3. rewrite rd8_memset by lia. reflexivity. }
  assert (Hu3 : uspace np1 ((with_mem s2 m3)⟦dif_ctxt ↦ 0⟧) T1 (<[(U - 4096) / 4096 := f + USR_PERM_BITS]> L)).
  { apply uspace_dif. eapply (uspace_user_write ready own P lo HP HPlo); [exact Hu2|].
    intros a Ha. rewrite Hm3, decide_False by lia. reflexivity. }
  set (s3 := (with_mem s2 m3)⟦dif_ctxt ↦ 0⟧) in *.
  assert (Hs3 : forall x, x <> dif_ctxt -> s3⟦x⟧ = s1⟦x⟧).
  { intros x Hx. unfold s3. rewrite gl_gput_ne by congruence. unfold s2. rewrite !gl_with_mem. reflexivity. }
  assert (Hd3 : s3⟦dif_ctxt⟧ = 0) by apply gl_gput_eq.
  assert (Hk3 : kmem s3 = m3) by (unfold s3; rewrite kmem_gput, kmem_with_mem; reflexivity). clearbody s3.
  assert (Hp3 : s3⟦pml4_shared⟧ = VIRT_BASE + P) by apply (us_pml4 _ _ _ _ _ _ _ Hu3).
  rewrite !kst64_at by lia. kst_simpl. rewrite Hp3. replace (VIRT_BASE + P - VIRT_BASE) with P by lia.
  rewrite (u64_small P) by lia. set (m4 := wr64 _ _ P).
  assert (Hm4 : forall a, ~ stack_fields c a -> rd8 m4 a = rd8 m3 a).
  { intros a Ha. unfold m4, stack_fields in *. offsets. rewrite !rd8_wr64_ne, Hk3 by lia. reflexivity. }
  exists np1, T1, (with_mem s3 m4). split; [reflexivity|]. split; [lia|].
  split; [eapply (uspace_store ready own P lo); [exact Hu3|exact Hk1|lia|]; intros a Ha; rewrite Hk3; apply Hm4;
    unfold stack_fields; offsets; lia|].
  split; [|kst_simpl; split; [|split; [|split]]].
  - eapply eff_weaken; [eapply eff_trans; [exact He1|]|].
    + split; [lia|]. intros a _ _ HT. split; [|exact HT].
      instantiate (1 := fun a => stack_fields c a \/ f <= a < f + 4096). intros Hn. kst_simpl.
      rewrite Hm4, Hm3, decide_False by tauto. unfold s2, stack_fields in *. offsets. kst_simpl. apply rd8_wr64_ne. lia.
    + intros a [[]|H]. exact H.
  - unfold m4. rewrite !rd64_wr64_ne, Hk3 by lia.
    etrans; [apply (rd64_ext (kmem s2)); intros a Ha; rewrite Hm3, decide_False by lia; reflexivity|].
    unfold s2. kst_simpl. rewrite rd64_wr64_eq. apply u64_small. lia.
  - unfold m4. rewrite rd64_wr64_eq. apply u64_small. lia.
  - intros i Hi. rewrite Hm4 by (unfold stack_fields; offsets; lia). rewrite Hm3, decide_True by lia. reflexivity.
  - split; [etrans; [apply (Hs3 usr_phys_addr); discriminate|exact Hf1]|].
    split; [etrans; [apply (Hs3 user_addr); discriminate|exact Hua1]|]. split; [exact Hd3|].
    split; [etrans; [apply (Hs3 pml_same_ctxt); discriminate|exact Hsc1]|].
    intros x Hx. rewrite gl_with_mem, Hs3.
    + apply Hg1. intros Hin. apply Hx. rewrite !elem_of_app in *. tauto.
    + intros ->. apply Hx. rewrite !elem_of_app, list_elem_of_singleton. auto.
Qed.

Lemma stack_marks_spec n s c x y :
  0 <= c -> c + SIZEOF_task < 2 ^ 30 -> Z.of_nat n <= x + 1 -> x < 512 -> 0 <= y -> y + Z.of_nat n < 2 ^ 64 ->
  exists m', stack_marks n s (VIRT_BASE + c) x y = with_mem s m'
    /\ (forall k, 0 <= k < Z.of_nat n -> rd64 m' (c + kstk (x - k)) = y + k)
    /\ (forall a, ~ (c + kstk (x - Z.of_nat n + 1) <= a < c + kstk (x + 1)) -> rd8 m' a = rd8 (kmem s) a).
Proof.
  intros Hc Hcb. revert s x y. induction n as [|n IH]; intros s x y Hx Hx5 Hy0 Hy; cbn [stack_marks].
  - exists (kmem s). rewrite with_mem_kmem. split; [reflexivity|]. split; [lia|]. reflexivity.
  - unfold set_fld. offsets. rewrite kst64_at by lia. set (m1 := wr64 _ _ _).
    destruct (IH (with_mem s m1) (x - 1) (y + 1)) as (m' & E & Hv & Hfr); [lia|lia|lia|lia|].
    exists m'. split; [rewrite E; kst_simpl; reflexivity|]. kst_simpl_in Hfr. split.
    + intros k Hk. destruct (decide (k = 0)) as [->|Hk0].
      * rewrite Z.sub_0_r, Z.add_0_r. etrans; [apply (rd64_ext m1); intros a Ha; apply Hfr; lia|].
        unfold m1. rewrite rd64_wr64_eq. apply u64_small. lia.
      * replace (x - k) with (x - 1 - (k - 1)) by lia. rewrite Hv by lia. lia.
    + intros a Ha. rewrite Hfr by lia. unfold m1. apply rd8_wr64_ne. lia.
Qed.

(** The frame of a process that has not run yet, before its entry point is
    known. *)
Record init_frame_at (irq0 : Z) (m : mem) (c U : Z) : Prop := {
  if_ss : rd64 m (c + kstk 511) = 0x23;
  if_rsp : rd64 m (c + kstk 510) = U + 4088;
  if_rflags : rd64 m (c + kstk 509) = 0x246;
  if_cs : rd64 m (c + kstk 508) = 0x2b;
  if_marks : forall k, 0 <= k < 15 -> rd64 m (c + kstk (506 - k)) = 1 + k;
  if_ret : rd64 m (c + kstk 491) = u64 (irq0 + 34);
  if_ctx : rd64 m (c + TS_ctx_rsp) = VIRT_BASE + (c + kstk 490) }.

Lemma init_frame_spec irq0 s c U :
  0 <= c -> c + SIZEOF_task < 2 ^ 30 -> rd64 (kmem s) (c + TS_stack) = U -> 0 <= U < 2 ^ 47 ->
  exists m', init_frame irq0 s (VIRT_BASE + c) = with_mem s m' /\ init_frame_at irq0 m' c U
    /\ (forall a, ~ frame_fields c a -> rd8 m' a = rd8 (kmem s) a).
Proof.
  intros Hc Hcb HU Hr. unfold init_frame.
  destruct (stack_marks_spec 15 s c 506 1 Hc Hcb ltac:(lia) ltac:(lia) ltac:(lia) ltac:(lia)) as (m1 & -> & Hv & Hfr).
  unfold set_fld, fld. offsets. rewrite !kst64_at, !kld64_at by lia. kst_simpl.
  rewrite !rd64_wr64_ne by lia.
  rewrite (rd64_ext (kmem s)), HU by (intros a Ha; apply Hfr; lia). rewrite (u64_small (U + 8 * 511)) by lia.
  eexists. split; [reflexivity|]. split.
  - constructor; offsets; field_read.
    + reflexivity.
    + apply u64_small. lia.
    + reflexivity.
    + reflexivity.
    + intros k Hk. rewrite !rd64_wr64_ne by lia. apply Hv. lia.
    + apply u64_idem.
    + rewrite u64_idem, u64_small; unfold VIRT_BASE; lia.
  - intros a Ha. unfold frame_fields in Ha. offsets. rewrite !rd8_wr64_ne by lia. apply Hfr. lia.
Qed.

(** ** Numbers, stack and frame *)

(** The task structure before the program is loaded. *)
Record fresh_task (irq0 : Z) (m : mem) (c pid : Z) (nm : list Z) (U : Z) : Prop := {
  fr_new : new_task m c pid (pid - 1) nm;
  fr_stack : rd64 m (c + TS_stack) = U;
  fr_cr3 : rd64 m (c + TS_cr3) = P;
  fr_frame : init_frame_at irq0 m c U }.

Lemma fresh_task_ext irq0 m m' c pid nm U :
  (forall a, c <= a < c + SIZEOF_task -> ~ pcb_fields c a -> ~ (c + kstk 507 <= a < c + kstk 508) ->
     rd8 m' a = rd8 m a) -> (length nm < 16)%nat ->
  fresh_task irq0 m c pid nm U -> fresh_task irq0 m' c pid nm U.
Proof.
  unfold pcb_fields. offsets. intros H Hl [[H1 H2 H3 H4] H5 H6 [F1 F2 F3 F4 F5 F6 F7]]. offsets.
  assert (E : forall o, 0 <= o -> o + 8 <= 4376 -> o + 8 <= 4088 \/ 4096 <= o -> rd64 m' (c + o) = rd64 m (c + o)).
  { intros o Ho Ho8 Hne. apply rd64_ext. intros a Ha. apply H; lia. }
  constructor; [constructor|..]; offsets; try (rewrite E by lia; assumption).
  - rewrite <- H3. apply rd32_ext. intros a Ha. apply H; lia.
  - eapply cstr_ext; [|exact H4]. intros a Ha. apply H; lia.
  - constructor; offsets; try (rewrite E by lia; assumption).
    intros k Hk. rewrite E by lia. apply F5, Hk.
Qed.

Lemma init_front_spec irq0 fuel np s T L upid file nm :
  uspace np s T L -> 1 <= upid < 2 ^ 16 -> cstr (kmem s) (kphys file) nm ->
  kregion np T (kphys file) (slen nm + 1) -> nm <> [] -> (length nm < 16)%nat -> (16 < fuel)%nat ->
  user_area s 5 -> 4096 <= s⟦user_addr⟧ -> s⟦user_addr⟧ mod 2 ^ 21 <> 0 -> np + 6 * 4096 <= 0x5000000 ->
  s⟦usr_phys_addr⟧ + 4096 < 0x6000000 ->
  let f := s⟦usr_phys_addr⟧ in let U := s⟦user_addr⟧ in
  exists np' T' s1 s2 s3, init_ids fuel s upid file = Some (VIRT_BASE + np, s1)
    /\ init_stack s1 (VIRT_BASE + np) = Some s2 /\ init_frame irq0 s2 (VIRT_BASE + np) = s3
    /\ np + 12288 <= np' <= np + 6 * 4096
    /\ uspace np' s3 T' (<[(U - 4096) / 4096 := f + USR_PERM_BITS]> L)
    /\ eff (fun a => f <= a < f + 4096) np T s np' T' s3
    /\ task_at np' T' (kmem s3) np (np + 8192) 0 [] /\ fresh_task irq0 (kmem s3) np upid nm U
    /\ (forall i, 0 <= i < 4096 -> rd8 (kmem s3) (f + i) = 0)
    /\ s3⟦usr_phys_addr⟧ = f + 4096 /\ s3⟦user_addr⟧ = U + 4096 /\ s3⟦dif_ctxt⟧ = 0
    /\ s3⟦pml_same_ctxt⟧ = s⟦pml_same_ctxt⟧ /\ s3⟦physbase⟧ = s⟦physbase⟧.
Proof.
  intros Hu Hup Hnm Hkf Hne Hl Hfu Har HU HU21 Hw Hf f U. fold f in Hf. fold U in HU, HU21.
  pose proof (us_frame _ _ _ _ _ _ _ Hu) as [Hfa Hfb]. fold f in Hfa, Hfb.
  pose proof (ua_range _ _ Har) as HUr. fold U in HUr.
  destruct (init_ids_spec fuel np s T L upid file nm Hu) as (s1 & E1 & Hu1 & He1 & Ht1 & Hk1 & Hn1 & Hg1);
    try assumption; [unfold KWIN; lia|].
  assert (Hua : user_area s1 5) by (eapply user_area_same; [|exact Har]; intros x Hx; apply Hg1, alloc_in_map, Hx).
  assert (Ha1 : s1⟦user_addr⟧ = U) by (apply Hg1; notin_globals).
  assert (Ha2 : s1⟦usr_phys_addr⟧ = f) by (apply Hg1; notin_globals).
  assert (Ha3 : s1⟦pml_same_ctxt⟧ = s⟦pml_same_ctxt⟧) by (apply Hg1; notin_globals).
  assert (Ha4 : s1⟦physbase⟧ = s⟦physbase⟧) by (apply Hg1; notin_globals).
  destruct (init_stack_spec (np + 12288) s1 T L np (np + 8192) Hu1 Ht1 Hua)
    as (np2 & T2 & s2 & E2 & Hn2 & Hu2 & He2 & Hstk & Hcr & Hz & Hf2 & Hua2 & Hd2 & Hsc2 & Hg2);
    rewrite ?Ha1, ?Ha2; try assumption; try lia.
  cbv zeta in Hu2, He2, Hstk, Hz, Hf2, Hua2. rewrite Ha1 in Hu2, Hstk, Hua2. rewrite Ha2 in Hu2, He2, Hf2.
  setoid_rewrite Ha2 in Hz. rewrite Ha3 in Hsc2.
  destruct (kregion_bounds _ _ _ _ _ _ Hk1 ltac:(lia)) as [Hn0 _].
  destruct (init_frame_spec irq0 s2 np U Hn0 ltac:(offsets; lia) Hstk ltac:(lia)) as (m3 & E3 & Hfr & Hm3).
  assert (Hk2 : kregion np2 T2 np SIZEOF_task)
    by (eapply kregion_eff; [exact He2|exact (ta_pcb _ _ _ _ _ _ _ _ _ Ht1)]).
  assert (He3 : eff (frame_fields np) np2 T2 s2 np2 T2 (with_mem s2 m3)) by (apply eff_mem, Hm3).
  exists np2, T2, s1, s2, (with_mem s2 m3). split; [exact E1|]. split; [exact E2|]. split; [exact E3|].
  split; [lia|].
  split; [eapply (uspace_store ready own P lo); [exact Hu2|exact Hk2|offsets; lia|]; intros a Ha; apply Hm3;
    unfold frame_fields; offsets; lia|].
  split; [|split; [|split; [|split]]].
  - eapply eff_weaken_range; [eapply eff_trans; [exact He1|eapply eff_trans; [exact He2|exact He3]]|].
    unfold stack_fields, frame_fields. offsets. intros a Ha [[]|[[H|H]|[H|H]]]; lia.
  - eapply (task_at_high own P); [exact He3|apply spares_frame|].
    eapply (task_at_high own P); [exact He2| |exact Ht1]. intros a [H|H]; [apply spares_stack, H|left; lia].
  - assert (Hk : forall a, np <= a < np + 8192 -> ~ frame_fields np a -> ~ stack_fields np a -> rd8 m3 a = rd8 (kmem s1) a).
    { intros a Ha H1 H2. rewrite Hm3 by exact H1. eapply (kregion_same own P); [exact He2|exact Hk1|lia|].
      intros [H|H]; [exact (H2 H)|lia]. }
    unfold frame_fields, stack_fields in Hk, Hm3. kst_simpl. destruct Hn1 as [N1 N2 N3 N4]. offsets.
    constructor; [constructor|..]; offsets.
    + rewrite <- N1. apply rd64_ext. intros a Ha. apply Hk; lia.
    + rewrite <- N2. apply rd64_ext. intros a Ha. apply Hk; lia.
    + rewrite <- N3. apply rd32_ext. intros a Ha. apply Hk; lia.
    + eapply cstr_ext; [|exact N4]. intros a Ha. apply Hk; lia.
    + rewrite <- Hstk. apply rd64_ext. intros a Ha. apply Hm3; lia.
    + rewrite <- Hcr. apply rd64_ext. intros a Ha. apply Hm3; lia.
    + exact Hfr.
  - intros i Hi. kst_simpl. rewrite Hm3 by (unfold frame_fields; offsets; lia). apply Hz, Hi.
  - kst_simpl. split; [exact Hf2|]. split; [exact Hua2|]. split; [exact Hd2|]. split; [exact Hsc2|].
    rewrite Hg2 by notin_globals. exact Ha4.
Qed.

(** ** The whole operation *)

(** What starting the program [nm] of the archive at [b] needs: [e0] is the first
    member, a directory, [rq] the ready queue. *)
Record creatable (np : Z) (T : gmap (Z * Z) Z) (t : lst) (b file rq : Z) (nm : list Z) (e0 : member)
    (es : list member) (off isz en po pn : Z) (h : phdr) : Prop := {
  cr_first : upid t = 0 /\ process_count t = 0;
  cr_queue : Loader.ready_queue t = VIRT_BASE + rq /\ kregion np T rq SIZEOF_task;
  cr_name : cstr (kmem (lk t)) (kphys file) nm;
  cr_name_at : kregion np T (kphys file) (slen nm + 1);
  cr_name_len : nm <> [] /\ (length nm < 16)%nat;
  cr_archive : archive (kmem (lk t)) b (e0 :: es);
  cr_dir : mb_data e0 = [];
  cr_names : names_fit (e0 :: es);
  cr_size : archive_size es + 1024 < 2 ^ 31;
  cr_region : kregion np T b (archive_size (e0 :: es) + 512);
  cr_member : find_member nm es 512 = Some off;
  cr_image : kregion np T (b + off) isz;
  cr_image_size : 64 <= isz;
  cr_elf : elf_at (kmem (lk t)) (b + off) en po pn;
  cr_count : 1 <= pn <= 4;
  cr_type : rd32 (kmem (lk t)) (b + off + po) = 1;
  cr_phoff : 0 <= po /\ po + 56 <= isz;
  cr_header : h = phdr_at (kmem (lk t)) (b + off + po);
  cr_ok : header_ok (np + 12 * 4096) ((lk t)⟦usr_phys_addr⟧ + 3 * 4096) isz h;
  cr_below : p_vaddr h + p_memsz h + 0x100000 <= (lk t)⟦user_addr⟧ - 4096;
  cr_area : user_area (lk t) 5;
  cr_area_page : 4096 <= (lk t)⟦user_addr⟧ /\ (lk t)⟦user_addr⟧ mod 2 ^ 21 <> 0;
  cr_area_heap : user_area ((lk t)⟦user_addr ↦ (lk t)⟦user_addr⟧ + 4096⟧⟦dif_ctxt ↦ 0⟧) 3 }.

Lemma header_ok_le np np' f f' isz h : np' <= np -> f' <= f -> header_ok np f isz h -> header_ok np' f' isz h.
Proof. intros Hn Hf []. constructor; try assumption; lia. Qed.

(** The program's name leads the loader to its contents. *)
Lemma creatable_found Y fuel np T t b file rq nm e0 es off isz en po pn h m' :
  creatable np T t b file rq nm e0 es off isz en po pn h -> _binary_tarfs_start Y = b ->
  (forall p n a, kregion np T p n -> p <= a < p + n -> rd8 m' a = rd8 (kmem (lk t)) a) ->
  (length es + 257 <= fuel)%nat ->
  file_exists Y fuel m' (kphys file) = Some off /\ off <> 0 /\ off <> 999.
Proof.
  intros Hc <- Hsame Hf. destruct Hc.
  assert (Har : archive m' (_binary_tarfs_start Y) (e0 :: es)).
  { eapply archive_ext; [|exact cr_names0|exact cr_archive0]. intros a Ha. eapply Hsame; [exact cr_region0|lia]. }
  assert (Hnm : cstr m' (kphys file) nm).
  { eapply cstr_ext; [|exact cr_name0]. intros a Ha. eapply Hsame; [exact cr_name_at0|lia]. }
  destruct (file_exists_spec Y m' (kphys file) nm e0 es fuel Har cr_dir0 cr_names0 cr_size0 Hnm Hf) as [Hfe _].
  rewrite cr_member0 in Hfe. destruct (find_member_aligned nm es 512 off) as [Hm Hlo]; [reflexivity|lia|exact cr_member0|].
  split; [exact Hfe|]. split; [lia|]. intros ->. discriminate.
Qed.

(** The state it leaves behind: the task at [c], its copy in the ready queue, its
    stack page and its program. *)
Record created (irq0 : Z) (t : lst) (b rq : Z) (nm : list Z) (off en : Z) (h : phdr)
    (L : gmap Z Z) (np' : Z) (T' : gmap (Z * Z) Z) (s' : kst) (c : Z) : Prop := {
  cd_space : exists s3, s3⟦usr_phys_addr⟧ = (lk t)⟦usr_phys_addr⟧ + 4096
    /\ next_addr s3 3 = next_addr ((lk t)⟦user_addr ↦ (lk t)⟦user_addr⟧ + 4096⟧⟦dif_ctxt ↦ 0⟧) 3
    /\ let L' := program_space s3 h
         (<[((lk t)⟦user_addr⟧ - 4096) / 4096 := (lk t)⟦usr_phys_addr⟧ + USR_PERM_BITS]> L) in
       uspace np' s' T' L'
       /\ ulin L' (p_vaddr h) (p_memsz h) ((lk t)⟦usr_phys_addr⟧ + 4096 + p_vaddr h mod 4096);
  cd_task : fresh_task irq0 (kmem s') c 1 nm ((lk t)⟦user_addr⟧);
  cd_entry : rd64 (kmem s') (c + TS_entry) = en;
  cd_rip : rd64 (kmem s') (c + kstk 507) = en;
  cd_slot : forall i, 0 <= i < SIZEOF_task -> rd8 (kmem s') (rq + i) = rd8 (kmem s') (c + i);
  cd_stack : forall i, 0 <= i < 4096 -> rd8 (kmem s') ((lk t)⟦usr_phys_addr⟧ + i) = 0;
  cd_bytes : loaded (kmem (lk t)) (kmem s') (b + off) ((lk t)⟦usr_phys_addr⟧ + 4096) h }.

(** It writes no kernel memory but its own, the slot of the queue apart. *)
Record creates (np : Z) (T : gmap (Z * Z) Z) (t : lst) (rq np' : Z) (T' : gmap (Z * Z) Z) (s' : kst) (c : Z) : Prop := {
  cd_region : forall p n, kregion np T p n -> kregion np' T' p n;
  cd_kernel : forall a, 0 <= a < np -> ~ own a -> outside T a -> ~ (rq <= a < rq + SIZEOF_task) ->
    rd8 (kmem s') a = rd8 (kmem (lk t)) a;
  cd_room : np' <= (lk t)⟦usr_phys_addr⟧;
  cd_task_at : kregion np' T' c SIZEOF_task }.

(** The state in which the program is loaded satisfies the loader's needs. *)
Lemma creatable_loadable np T t b file rq nm e0 es off isz en po pn h np3 s3 :
  creatable np T t b file rq nm e0 es off isz en po pn h -> np3 <= np + 6 * 4096 ->
  s3⟦usr_phys_addr⟧ = (lk t)⟦usr_phys_addr⟧ + 4096 -> s3⟦user_addr⟧ = (lk t)⟦user_addr⟧ + 4096 ->
  s3⟦dif_ctxt⟧ = 0 -> s3⟦pml_same_ctxt⟧ = (lk t)⟦pml_same_ctxt⟧ -> s3⟦physbase⟧ = (lk t)⟦physbase⟧ ->
  (forall p n a, kregion np T p n -> p <= a < p + n -> rd8 (kmem s3) a = rd8 (kmem (lk t)) a) ->
  loadable np3 s3 isz (b + off) en po pn h
  /\ next_addr s3 3 = next_addr ((lk t)⟦user_addr ↦ (lk t)⟦user_addr⟧ + 4096⟧⟦dif_ctxt ↦ 0⟧) 3.
Proof.
  intros Hc Hn Hf HU Hd Hsc Hpb Hsame. destruct Hc. set (s0 := (lk t)⟦user_addr ↦ _⟧⟦dif_ctxt ↦ 0⟧) in *.
  assert (G : s3⟦user_addr⟧ = s0⟦user_addr⟧ /\ s3⟦dif_ctxt⟧ = s0⟦dif_ctxt⟧
    /\ s3⟦pml_same_ctxt⟧ = s0⟦pml_same_ctxt⟧ /\ s3⟦physbase⟧ = s0⟦physbase⟧).
  { unfold s0. rewrite HU, Hd, Hsc, Hpb. rewrite gl_gput_eq, !gl_gput_ne, gl_gput_eq by discriminate. auto. }
  destruct G as (G1 & G2 & G3 & G4). destruct cr_phoff0 as [Hpo0 Hpo1].
  assert (Hi : forall a, b + off <= a < b + off + isz -> rd8 (kmem s3) a = rd8 (kmem (lk t)) a)
    by (intros a Ha; eapply Hsame; [exact cr_image0|exact Ha]).
  split; [|apply next_addr_same; assumption].
  constructor; try assumption; [| |split; assumption| | | |].
  - eapply elf_at_ext; [|exact cr_elf0]. intros a Ha. apply Hi. lia.
  - rewrite <- cr_type0. apply rd32_ext. intros a Ha. apply Hi. lia.
  - rewrite cr_header0. symmetry. apply phdr_at_ext. intros a Ha. apply Hi. lia.
  - eapply header_ok_le; [| |exact cr_ok0]; lia.
  - lia.
  - eapply user_area_eq; [..|exact cr_area_heap0]; assumption.
Qed.

(** The last steps: the entry point enters the frame, the address space is loaded
    again, and the task is copied into the first slot of the ready queue. *)
Lemma init_finish_spec np s T L c rq en u cp gc cu :
  uspace np s T L -> kregion np T c SIZEOF_task -> kregion np T rq SIZEOF_task -> rq + SIZEOF_task <= c ->
  rd64 (kmem s) (c + TS_entry) = en -> rd64 (kmem s) (c + TS_pid) = 1 ->
  exists m',
    (let s := set_fld s (VIRT_BASE + c) (kstk 507) (fld s (VIRT_BASE + c) TS_entry) in
     let s := tlb_flush s (u64 (s⟦pml4_shared⟧ - VIRT_BASE)) in
     let t := mk_lst s u 1 cp gc cu (VIRT_BASE + rq) in
     if fld s (VIRT_BASE + c) TS_pid =? 1 then add_to_ready_list_user t (VIRT_BASE + c) else t)
      = mk_lst (with_mem s m') u 1 cp gc (VIRT_BASE + rq) (VIRT_BASE + rq)
    /\ uspace np (with_mem s m') T L /\ rd64 m' (c + kstk 507) = en
    /\ (forall a, ~ (rq <= a < rq + SIZEOF_task) -> ~ (c + kstk 507 <= a < c + kstk 508) -> rd8 m' a = rd8 (kmem s) a)
    /\ (forall i, 0 <= i < SIZEOF_task -> rd8 m' (rq + i) = rd8 m' (c + i)).
Proof.
  offsets. intros Hu Hkc Hkq Hrc Hen Hpid. cbv zeta.
  destruct (kregion_bounds _ _ _ _ _ _ Hkc ltac:(lia)) as [Hc0 Hc1].
  destruct (kregion_bounds _ _ _ _ _ _ Hkq ltac:(lia)) as [Hr0 Hr1].
  pose proof (ui_lo _ _ _ _ _ _ (us_inv _ _ _ _ _ _ _ Hu)) as Hlo.
  assert (HK : KWIN = 102760448) by reflexivity.
  assert (He : 0 <= en < 2 ^ 64) by (rewrite <- Hen; apply rd64_range).
  unfold set_fld. offsets. rewrite (fld_at s c), Hen, (kst64_at s c) by lia.
  set (m5 := wr64 _ _ en). set (s5 := with_mem s m5).
  assert (Hm5 : forall a, ~ (c + 4088 <= a < c + 4096) -> rd8 m5 a = rd8 (kmem s) a)
    by (intros a Ha; apply rd8_wr64_ne; lia).
  assert (Hu5 : uspace np s5 T L).
  { eapply (uspace_store ready own P lo); [exact Hu|exact Hkc|lia|]. intros a Ha. apply Hm5. lia. }
  rewrite (us_pml4 _ _ _ _ _ _ _ Hu5). replace (VIRT_BASE + P - VIRT_BASE) with P by lia.
  rewrite (u64_small P) by lia.
  assert (Hfl : tlb_flush s5 P = s5) by (rewrite <- (us_cr3 _ _ _ _ _ _ _ Hu5); apply tlb_flush_same).
  rewrite Hfl.
  rewrite (fld_at s5 c) by lia. unfold s5 at 1. rewrite kmem_with_mem.
  replace (rd64 m5 (c + 0)) with 1 by (rewrite <- Hpid; symmetry; apply rd64_ext; intros a Ha; apply Hm5; lia).
  unfold add_to_ready_list_user, with_lk.
  cbn [process_count Loader.ready_queue lk upid child_pid global_child Loader.curr_upcb Z.eqb Pos.eqb].
  unfold SIZEOF_task. replace (VIRT_BASE + rq + 4400 * (1 - 1)) with (VIRT_BASE + rq + 0) by lia.
  rewrite !kernel_ptr, !Z.add_0_r, (u64_small (VIRT_BASE + rq)), !kphys_high by (unfold VIRT_BASE; lia).
  set (m6 := kmemcpy (kmem s5) rq c 4400).
  assert (Hm6 : forall a, rd8 m6 a = if decide (rq <= a < rq + 4400) then rd8 m5 (c + (a - rq)) else rd8 m5 a).
  { intros a. unfold m6, kmemcpy. rewrite cpy_loop_spec by lia. rewrite Z.add_0_r. reflexivity. }
  assert (Hm6c : forall a, ~ (rq <= a < rq + 4400) -> rd8 m6 a = rd8 m5 a)
    by (intros a Ha; rewrite Hm6, decide_False by lia; reflexivity).
  exists m6. split; [reflexivity|]. clearbody m6. split; [|split; [|split]].
  - apply (uspace_store ready own P lo _ s5 _ _ m6 rq 4400 Hu5 Hkq); [lia|].
    intros a Ha. rewrite Hm6, decide_False by exact Ha. reflexivity.
  - transitivity (rd64 m5 (c + 4088)); [apply rd64_ext; intros a Ha; apply Hm6c; lia|].
    unfold m5. rewrite rd64_wr64_eq. apply u64_small. exact He.
  - intros a Ha Hne. rewrite Hm6c by exact Ha. apply Hm5, Hne.
  - intros i Hi. rewrite Hm6, decide_True, Hm6c by lia. f_equal. lia.
Qed.

Lemma init_usr_pcb_spec Y irq0 fuel np T L t b file rq nm e0 es off isz en po pn h :
  uspace np (lk t) T L -> creatable np T t b file rq nm e0 es off isz en po pn h ->
  _binary_tarfs_start Y = b -> (length es + 257 <= fuel)%nat ->
  exists np' T' s', init_usr_pcb Y fuel irq0 t file = Some (VIRT_BASE + np,
      mk_lst s' 1 1 (child_pid t) (global_child t) (VIRT_BASE + rq) (VIRT_BASE + rq), [])
    /\ created irq0 t b rq nm off en h L np' T' s' np /\ creates np T t rq np' T' s' np.
Proof.
  intros Hu Hc HY Hfu. pose proof Hc as [[C1 C2] [C3 C4] C5 C6 [C7 C8] _ _ _ _ _ _ C9 C10 _ _ _ _ _ Cok Cb Car [CU CU21] _].
  set (s := lk t) in *. set (f := s⟦usr_phys_addr⟧) in *. set (U := s⟦user_addr⟧) in *.
  pose proof (us_frame _ _ _ _ _ _ _ Hu) as [Hfa Hfb]. fold f in Hfa, Hfb.
  pose proof (ho_tables _ _ _ _ Cok) as Htb. pose proof (ho_frames _ _ _ _ Cok) as Hfr.
  assert (Hpn : 0 <= pages_of (p_vaddr h) (p_memsz h))
    by (pose proof (ho_file _ _ _ _ Cok); unfold pages_of; zdiv).
  unfold init_usr_pcb. rewrite C1, C2, C3. cbn [Z.eqb].
  destruct (init_front_spec irq0 fuel np s T L 1 file nm Hu) as (np3 & T3 & s1 & s2 & s3 & E1 & E2 & E3 & Hn3 & Hu3 & He3 & Ht3 & Hfr3 & Hz3 & Hf3 & HU3 & Hd3 & Hsc3 & Hpb3);
    try assumption; try (fold f; lia); try lia. fold f U in Hu3, He3, Hfr3, Hz3, Hf3, HU3.
  fold s. rewrite E1. cbn [mbind option_bind]. rewrite E2. cbn [mbind option_bind]. rewrite E3.
  change (u16 (0 + 1)) with 1.
  assert (Hsame : forall p n a, kregion np T p n -> p <= a < p + n -> rd8 (kmem s3) a = rd8 (kmem s) a).
  { intros p n a Hk Ha. eapply (kregion_same own P); [exact He3|exact Hk|exact Ha|].
    pose proof (kregion_low own P np T p n a Hk Ha). cbv beta. lia. }
  destruct (creatable_found Y fuel np T t b file rq nm e0 es off isz en po pn h (kmem s3) Hc HY Hsame Hfu) as (Hfe & Hoff & Hoff9).
  destruct (creatable_loadable np T t b file rq nm e0 es off isz en po pn h np3 s3 Hc ltac:(lia) Hf3 HU3 Hd3 Hsc3 Hpb3 Hsame)
    as [Hld Hna].
  destruct (kregion_bounds _ _ _ _ _ _ C9 ltac:(lia)) as [Hi0 Hi1].
  destruct (kregion_bounds _ _ _ _ _ _ C4 ltac:(offsets; lia)) as [Hr0 Hr1].
  assert (Him : image own P np3 T3 (b + off) isz np (np + 8192) 0 []).
  { constructor; [eapply kregion_eff; [exact He3|exact C9]|exact C10|unfold apart; lia|unfold apart; lia|].
    intros H. destruct (H eq_refl). }
  rewrite <- HY in Him, Hld.
  destruct (load_segment_spec ready own P lo HP HP0 HPlo Hown Y fuel np3 s3 T3 _ np (np + 8192) 0 [] file off isz en po pn h
    Hfe Hoff Hoff9 Hu3 Ht3 Him Hld) as (np4 & T4 & s4 & pv4 & E4 & Hpl & _ & _ & He4); [simpl; lia|simpl; lia|].
  rewrite E4. cbn [mbind option_bind]. destruct Hpl as [Pn Psp Ptk Pby Pl Pen _ _ _ _ _ _].
  rewrite Hf3 in He4, Pby, Pl. rewrite HY in Pby.
  assert (Hk4 : forall a, np <= a < np + SIZEOF_task -> ~ pcb_fields np a -> rd8 (kmem s4) a = rd8 (kmem s3) a).
  { intros a Ha Hp. eapply (kregion_same own P); [exact He4|exact (ta_pcb _ _ _ _ _ _ _ _ _ Ht3)|exact Ha|].
    offsets. unfold list_mem. intros [[H|[H _]]|[H|H]]; [lia|exact (H eq_refl)|exact (Hp H)|lia]. }
  assert (Ht4 : fresh_task irq0 (kmem s4) np 1 nm U)
    by (eapply fresh_task_ext; [|exact C8|exact Hfr3]; intros a Ha Hp _; apply Hk4; assumption).
  destruct (init_finish_spec np4 s4 T4 _ np rq en 1 (child_pid t) (global_child t) (Loader.curr_upcb t) Psp
    (ta_pcb _ _ _ _ _ _ _ _ _ Ptk)
    ltac:(eapply kregion_eff; [exact He4|eapply kregion_eff; [exact He3|exact C4]]) Hr1 Pen
    (nt_pid _ _ _ _ _ (fr_new _ _ _ _ _ _ Ht4))) as (m6 & E6 & Hu6 & Hrip & Hm6 & Hcp).
  cbv zeta in E6 |- *. rewrite E6. clear E6. offsets.
  assert (Hhi : forall a, f <= a -> rd8 m6 a = rd8 (kmem s4) a) by (intros a Ha; apply Hm6; lia).
  exists np4, T4, (with_mem s4 m6). split; [reflexivity|].
  split; constructor; kst_simpl; offsets; try assumption.
  - exists s3. split; [exact Hf3|]. split; [exact Hna|]. cbv zeta. split; [exact Hu6|exact Pl].
  - eapply fresh_task_ext; [|exact C8|exact Ht4]. offsets. intros a Ha _ Hne. apply Hm6; [lia|exact Hne].
  - rewrite <- Pen. apply rd64_ext. intros a Ha. apply Hm6; lia.
  - fold s f. intros i Hi. rewrite Hhi by lia. rewrite <- (Hz3 i Hi).
    eapply eff_high; [..|exact He4|exact Hu3|lia|]; try assumption. unfold list_mem, pcb_fields. offsets.
    intros [[H|[H _]]|[H|H]]; [lia|exact (H eq_refl)|lia|lia].
  - fold s f. intros i Hi. pose proof (Z.mod_pos_bound (p_vaddr h) 4096 ltac:(lia)).
    rewrite Hhi by lia. rewrite (Pby i Hi). destruct (decide _); [|reflexivity].
    pose proof (ho_offset _ _ _ _ Cok). pose proof (ho_image _ _ _ _ Cok). apply (Hsame _ _ _ C9). lia.
  - intros p n Hk. eapply kregion_eff; [exact He4|]. eapply kregion_eff; [exact He3|exact Hk].
  - intros a Ha Ho HT Hq. rewrite Hm6 by lia. destruct He3 as [Hn3' He3], He4 as [_ He4].
    destruct (He3 a) as [E3' HT3]; [lia|exact Ho|exact HT|]. destruct (He4 a) as [E4' _]; [lia|exact Ho|exact HT3|].
    etrans; [apply E4'|apply E3'; cbv beta; lia]. unfold list_mem, pcb_fields. offsets.
    intros [[H|[H _]]|[H|H]]; [lia|exact (H eq_refl)|lia|lia].
  - fold s f. lia.
  - exact (ta_pcb _ _ _ _ _ _ _ _ _ Ptk).
Qed.

(** The stack page and the segment in the new address space. *)
Lemma created_linear irq0 np T L t b file rq nm e0 es off isz en po pn h np' T' s' :
  uspace np (lk t) T L -> creatable np T t b file rq nm e0 es off isz en po pn h ->
  created irq0 t b rq nm off en h L np' T' s' np ->
  let f := (lk t)⟦usr_phys_addr⟧ in let U := (lk t)⟦user_addr⟧ in
  exists L', uspace np' s' T' L' /\ ulin L' (U - 4096) 4096 f
    /\ ulin L' (p_vaddr h) (p_memsz h) (f + 4096 + p_vaddr h mod 4096)
    /\ 4096 <= U < 2 ^ 47 - 4096 /\ 0 <= p_vaddr h /\ p_vaddr h + p_memsz h <= 2 ^ 47.
Proof.
  intros Hu Hc [(s3 & Hf3 & Hna & Hsp & Hl) _ _ _ _ _ _] f U.
  fold f U in Hsp, Hl, Hf3. destruct (us_frame _ _ _ _ _ _ _ Hu) as [Hfa Hfb]. fold f in Hfa, Hfb.
  destruct (cr_ok _ _ _ _ _ _ _ _ _ _ _ _ _ _ _ Hc) as [_ Hf0 _ Hv0 Hv1 _ _ _].
  pose proof (cr_below _ _ _ _ _ _ _ _ _ _ _ _ _ _ _ Hc) as Hbl. fold U in Hbl.
  destruct (cr_area _ _ _ _ _ _ _ _ _ _ _ _ _ _ _ Hc) as [_ HUr HUa _ _]. fold U in HUr, HUa.
  destruct (cr_area_page _ _ _ _ _ _ _ _ _ _ _ _ _ _ _ Hc) as [HU0 _]. fold U in HU0.
  destruct (cr_area_heap _ _ _ _ _ _ _ _ _ _ _ _ _ _ _ Hc) as [_ _ _ Hn _].
  rewrite <- Hna in Hn. rewrite gl_gput_ne, gl_gput_eq in Hn by discriminate. fold U in Hn.
  eexists. split; [exact Hsp|]. split; [|split; [exact Hl|lia]].
  apply program_space_stack; [apply ulin_stack_page; [exact Hfa|lia|exact HUa]|lia..].
Qed.

(** As the hardware sees them. *)
Lemma created_translates irq0 np T L t b file rq nm e0 es off isz en po pn h np' T' s' :
  uspace np (lk t) T L -> creatable np T t b file rq nm e0 es off isz en po pn h ->
  created irq0 t b rq nm off en h L np' T' s' np ->
  let f := (lk t)⟦usr_phys_addr⟧ in let U := (lk t)⟦user_addr⟧ in
  (forall i, 0 <= i < 4096 -> exists w, walk (kmem s') (cr3 s') (U - 4096 + i) = Some (mk_tr (f + i) w true)
     /\ rd8 (kmem s') (f + i) = 0)
  /\ (forall i, 0 <= i < p_memsz h -> exists pa w,
        walk (kmem s') (cr3 s') (p_vaddr h + i) = Some (mk_tr pa w true) /\
        rd8 (kmem s') pa = if decide (i < p_filesz h) then rd8 (kmem (lk t)) (b + off + p_offset h + i) else 0).
Proof.
  intros Hu Hc Hcd f U.
  destruct (created_linear _ _ _ _ _ _ _ _ _ _ _ _ _ _ _ _ _ _ _ _ Hu Hc Hcd) as (L' & Hsp & Hls & Hl & HU & Hv0 & Hv1).
  fold f U in Hls, Hl, HU. destruct Hcd as [_ _ _ _ _ Hz Hb].
  split; intros i Hi.
  - destruct (ulin_walk ready P lo HP HP0 HPlo np' s' T' _ (U - 4096) 4096 f i Hsp Hls) as [w Hw]; try lia.
    exists w. split; [exact Hw|apply Hz, Hi].
  - destruct (ulin_walk ready P lo HP HP0 HPlo np' s' T' _ _ _ _ i Hsp Hl Hv0 Hv1 Hi) as (w & Hw).
    eexists _, w. split; [exact Hw|]. apply Hb, Hi.
Qed.

Lemma created_ext irq0 t b rq nm off en h L np' T' s' c m' :
  (forall a, c <= a < c + SIZEOF_task \/ rq <= a < rq + SIZEOF_task \/ (lk t)⟦usr_phys_addr⟧ <= a -> rd8 m' a = rd8 (kmem s') a) ->
  tables_same T' (kmem s') m' -> (length nm < 16)%nat ->
  created irq0 t b rq nm off en h L np' T' s' c -> created irq0 t b rq nm off en h L np' T' (with_mem s' m') c.
Proof.
  intros Hm Ht Hl [(s3 & Hf3 & Hna & Hsp & Hlin) Hfr Hen Hrip Hsl Hst Hby].
  constructor; kst_simpl.
  - exists s3. split; [exact Hf3|]. split; [exact Hna|]. split; [|exact Hlin]. eapply (uspace_mem ready own P lo); eassumption.
  - eapply fresh_task_ext; [|exact Hl|exact Hfr]. intros a Ha _ _. apply Hm. left. exact Ha.
  - rewrite <- Hen. apply rd64_ext. offsets. intros a Ha. apply Hm. left. lia.
  - rewrite <- Hrip. apply rd64_ext. offsets. intros a Ha. apply Hm. left. lia.
  - intros i Hi. rewrite !Hm by lia. apply Hsl, Hi.
  - intros i Hi. rewrite Hm by lia. apply Hst, Hi.
  - intros i Hi. pose proof (Z.mod_pos_bound (p_vaddr h) 4096 ltac:(lia)). rewrite Hm by lia. apply Hby, Hi.
Qed.
End init.

(** ** Claim *)

(** C4: the first process.  For a program of the archive whose first program
    header is loadable, from any state whose page tables represent an address
    space, [init_usr_pcb] returns a new task with number 1, the program's name and
    state [READY], whose kernel-stack frame enters the program's entry point in
    user mode; the first slot of the ready queue holds a copy of the task and is
    the current process.  The hardware translates the page below the task's stack
    pointer, with user access, to a cleared frame, and every address of the
    program's segment to the file's byte (zero behind the file part). *)
Theorem init_usr_pcb_starts_program ready own P lo Y irq0 fuel np T L t b file rq nm e0 es off isz en po pn h :
  PageSource ready own -> P mod 4096 = 0 -> 0 <= P -> P + 4096 <= lo -> (forall a, own a -> a < P) ->
  uspace ready P lo np (lk t) T L -> creatable own P np T t b file rq nm e0 es off isz en po pn h ->
  _binary_tarfs_start Y = b -> (length es + 257 <= fuel)%nat ->
  let f := (lk t)⟦usr_phys_addr⟧ in let U := (lk t)⟦user_addr⟧ in
  exists s', init_usr_pcb Y fuel irq0 t file = Some (VIRT_BASE + np,
      mk_lst s' 1 1 (child_pid t) (global_child t) (VIRT_BASE + rq) (VIRT_BASE + rq), [])
    /\ fresh_task P irq0 (kmem s') np 1 nm U
    /\ rd64 (kmem s') (np + TS_entry) = en /\ rd64 (kmem s') (np + kstk 507) = en
    /\ (forall i, 0 <= i < SIZEOF_task -> rd8 (kmem s') (rq + i) = rd8 (kmem s') (np + i))
    /\ (forall i, 0 <= i < 4096 -> exists w, walk (kmem s') (cr3 s') (U - 4096 + i) = Some (mk_tr (f + i) w true)
          /\ rd8 (kmem s') (f + i) = 0)
    /\ (forall i, 0 <= i < p_memsz h -> exists pa w,
          walk (kmem s') (cr3 s') (p_vaddr h + i) = Some (mk_tr pa w true) /\
          rd8 (kmem s') pa = if decide (i < p_filesz h) then rd8 (kmem (lk t)) (b + off + p_offset h + i) else 0).
Proof.
  intros HPS HP HP0 HPlo Hown Hu Hc HY Hfu f U.
  destruct (init_usr_pcb_spec ready own P lo HP HP0 HPlo Hown Y irq0 fuel np T L t b file rq nm e0 es off isz en po pn h
    Hu Hc HY Hfu) as (np' & T' & s' & E & Hcd & _).
  destruct (created_translates ready own P lo HP HP0 HPlo irq0 np T L t b file rq nm e0 es off isz en po pn h np' T' s' Hu Hc Hcd)
    as [Hst Hpr].
  destruct Hcd as [_ Ht He Hrip Hs _ _]. exists s'. do 5 (split; [assumption|]). split; assumption.
Qed.

(** The machine of the loader's example before the first process. *)
Definition init_lst : lst := mk_lst load_kst 0 0 0 0 0 (VIRT_BASE + 0x330000).

Lemma init_lst_creatable :
  creatable (freelist_cells 0x400000) 0x418000 0x419000 {[(4, 0) := 0x418000]} init_lst 0x300000 0x320000 0x330000
    (chars "bin/a") (mk_member (chars "bin/") [0] 5 []) demo_archive 1024 131 0x400004 64 2 (mk_phdr 5 120 0x400000 11 20).
Proof.
  constructor; try reflexivity; try (apply load_kregion; vm_compute; discriminate); cbn [init_lst lk].
  - split; reflexivity.
  - split; [reflexivity|apply load_kregion; vm_compute; discriminate].
  - apply (bool_decide_eq_true_1 (cstr (kmem load_kst) 0x320000 (chars "bin/a"))). vm_compute. reflexivity.
  - split; [discriminate|cbn; lia].
  - split; [apply member_at_b_spec; vm_compute; reflexivity|].
    split; [apply member_at_b_spec; vm_compute; reflexivity|]. vm_compute. split; reflexivity.
  - unfold names_fit. repeat constructor; vm_compute; lia.
  - lia.
  - constructor; reflexivity.
  - lia.
  - lia.
  - constructor; vm_compute; intuition discriminate.
  - vm_compute. discriminate.
  - constructor; vm_compute; intuition discriminate.
  - vm_compute. intuition discriminate.
  - constructor; vm_compute; intuition discriminate.
Qed.

Lemma init_usr_pcb_starts_program_witness :
  let h := mk_phdr 5 120 0x400000 11 20 in let U := load_kst⟦user_addr⟧ in
  exists s', init_usr_pcb load_layout 300 0x201000 init_lst 0x320000 = Some (VIRT_BASE + 0x419000,
      mk_lst s' 1 1 0 0 (VIRT_BASE + 0x330000) (VIRT_BASE + 0x330000), [])
    /\ fresh_task 0x418000 0x201000 (kmem s') 0x419000 1 (chars "bin/a") U
    /\ rd64 (kmem s') (0x419000 + TS_entry) = 0x400004
    /\ (forall i, 0 <= i < 20 -> exists pa w,
          walk (kmem s') (cr3 s') (0x400000 + i) = Some (mk_tr pa w true) /\
          rd8 (kmem s') pa = if decide (i < 11) then rd8 (kmem load_kst) (0x300000 + 1024 + 120 + i) else 0).
Proof.
  intros h U.
  destruct (init_usr_pcb_starts_program (boot_ready 0x400000) (freelist_cells 0x400000) 0x418000 0x419000
    load_layout 0x201000 300 0x419000 {[(4, 0) := 0x418000]} ∅ init_lst 0x300000 0x320000 0x330000
    (chars "bin/a") (mk_member (chars "bin/") [0] 5 []) demo_archive 1024 131 0x400004 64 2 h
    (page_source_boot 0x400000 demo_boot)) as (s' & E & Ht & He & _ & _ & _ & Hb).
  - reflexivity.
  - lia.
  - lia.
  - unfold freelist_cells. lia.
  - exact load_kst_space.
  - exact init_lst_creatable.
  - reflexivity.
  - cbn [length demo_archive]. lia.
  - exists s'. split; [exact E|]. split; [exact Ht|]. split; [exact He|exact Hb].
Defined.
