(* ===== verification/Threads.v ===== *)
(** * Kernel threads and the first process

    [sys/pcb_init.c], [sys/process_helpers.c], [sys/scheduler.c] and
    [sys/sysinit.c]: the thread structures, the list behind [processes],
    [schedule] and [yield], the assembly routine [dispatch], and the thread that
    starts the shell.  The structures are bytes of kernel memory. *)

From stdpp Require Import base gmap list numbers.
From Stdlib Require Import ZArith Lia.
From Stdlib Require Ascii String.
From S2P Require Import Prelude KLib Mmu Paging BootPaging Alloc Utils UserPaging AddrSpace Memmap.
From S2P Require Import UserMem Console Cpu Keyboard Tarfs Loader.
Import (notations) String.

(** ** Structures *)

(** [struct PCB]: a stack of [STACK_SIZE] words, the context, and the rest. *)
Definition STACK_SIZE : Z := 256.
Definition PCB_kstack (i : Z) : Z := 8 * i.
Definition PCB_rip : Z := 2048.
Definition PCB_rsp : Z := 2056.
Definition PCB_pid : Z := 2064.
Definition PCB_proc_state : Z := 2072.
Definition PCB_exit_status : Z := 2076.
Definition PCB_next : Z := 2080.

(** [RUNNING] of [proc_state_t]. *)
Definition RUNNING : Z := 3.

(** The globals of the thread scheduler and of [sysinit.c]. *)
Record tst := mk_tst {
  tl : lst; processes : Z; ready_procs : Z; p_id : Z; proc_count_in_list : Z;
  shell_pcb : Z; first_boot : Z }.

Definition tk (t : tst) : kst := lk (tl t).
Definition with_tl (t : tst) (l : lst) : tst :=
  mk_tst l (processes t) (ready_procs t) (p_id t) (proc_count_in_list t) (shell_pcb t) (first_boot t).
Definition with_tk (t : tst) (s : kst) : tst := with_tl t (with_lk (tl t) s).
Definition with_processes (t : tst) (p : Z) : tst :=
  mk_tst (tl t) p (ready_procs t) (p_id t) (proc_count_in_list t) (shell_pcb t) (first_boot t).

Definition pcb_state (s : kst) (pcb : Z) : Z := rd32 (kmem s) (kphys (u64 (pcb + PCB_proc_state))).
Definition set_pcb_state (s : kst) (pcb v : Z) : kst := kst32 s (u64 (pcb + PCB_proc_state)) v.

(** ** Creating threads *)

Definition init_pcb (t : tst) (fn : Z) : Z * tst :=
  let '(pcb, s) := page_alloc (tk t) in
  let s := set_fld s pcb (PCB_kstack (STACK_SIZE - 1)) fn in
  let s := set_fld s pcb PCB_rip (fld s pcb (PCB_kstack (STACK_SIZE - 1))) in
  let s := set_fld s pcb PCB_pid (p_id t) in
  let s := set_fld s pcb PCB_rsp (u64 (pcb + PCB_kstack (STACK_SIZE - 2))) in
  let s := set_pcb_state s pcb READY in
  let s := kst32 s (u64 (pcb + PCB_exit_status)) 0 in
  (pcb, mk_tst (with_lk (tl t) s) (processes t) (ready_procs t) (u16 (p_id t + 1))
          (proc_count_in_list t) (shell_pcb t) (first_boot t)).

Definition add_to_ready_list (t : tst) (pcb : Z) : tst :=
  let n := u16 (proc_count_in_list t + 1) in
  let p := if n =? 1 then pcb else processes t in
  let s := set_fld (tk t) p PCB_next pcb in
  mk_tst (with_lk (tl t) s) p (ready_procs t) (p_id t) n (shell_pcb t) (first_boot t).

(** [page_alloc] never returns [NULL]. *)
Definition create_pcb (t : tst) (fn : Z) : Z * tst :=
  let '(pcb, t) := init_pcb t fn in
  let t := mk_tst (tl t) (processes t) (u16 (ready_procs t + 1)) (p_id t) (proc_count_in_list t)
             (shell_pcb t) (first_boot t) in
  (1, add_to_ready_list t pcb).

(** [while (processes->next != head) processes = processes->next;] *)
Fixpoint ring_end (fuel : nat) (s : kst) (p head : Z) : option Z :=
  match fuel with
  | O => None
  | S f => let n := fld s p PCB_next in if n =? head then Some p else ring_end f s n head
  end.

Definition move_to_end (fuel : nat) (t : tst) (pcb : Z) : option tst :=
  let head := processes t in
  let s := if pcb_state (tk t) pcb =? READY then tk t else set_pcb_state (tk t) pcb READY in
  let t := with_tk t s in
  if head =? fld s head PCB_next then Some t
  else
    p ← ring_end fuel s head head;
    Some (with_processes (with_tk t (set_fld s p PCB_next pcb)) head).

Definition move_to_next (t : tst) : tst * list lev :=
  let n := fld (tk t) (processes t) PCB_next in
  if negb (n =? 0) && negb (n =? processes t)
  then (with_processes t n, [])
  else (t, [Msg "Error: No processes to move to\n"]).

(** ** Switching *)

Fixpoint push (s : kst) (rsp : Z) (vs : list Z) : kst * Z :=
  match vs with
  | [] => (s, rsp)
  | v :: vs => push (kst64 s (u64 (rsp - 8)) v) (u64 (rsp - 8)) vs
  end.

(** The registers that the routine leaves set. *)
Record cpu := mk_cpu { rip : Z; rsp : Z; rdi : Z; rsi : Z }.

(** [dispatch(&old->c_t, &curr->c_t)] of [dispatch.s], entered with the stack
    pointer at [sp] and the 13 registers of [pushal] holding [saved]. *)
Definition dispatch (s : kst) (saved : list Z) (sp me other : Z) : kst * cpu :=
  let '(s, sp) := push s sp (saved ++ [other; me]) in
  let s := kst64 s (u64 (me + 0x10)) sp in
  let sp := kld64 s (u64 (other + 0x8)) in
  (s, mk_cpu (kld64 s (u64 (sp + 16))) (u64 (sp + 24)) (kld64 s sp) (kld64 s (u64 (sp + 8)))).

(** [schedule] up to its call of [dispatch]; [None]: it returns 0. *)
Definition schedule (s : kst) (curr next : Z) : option kst :=
  if negb (pcb_state s next =? READY) then None
  else if next =? curr then None
  else
    let s := set_pcb_state s next RUNNING in
    Some (set_pcb_state s curr READY).

(** How [yield] leaves its caller: it comes back, it has switched to another
    thread, or it has left for user mode. *)
Inductive yout := Back | Switch (old next : Z) | Left.

(** [load_krsp]: the stack pointer of the first thread's context and the kernel's
    page tables; the number is the new stack pointer. *)
Definition load_krsp (t : tst) : tst * Z :=
  let rsp := fld (tk t) (processes t) PCB_rsp in
  let rbx := u64 ((tk t)⟦pml4_shared⟧ - VIRT_BASE) in
  (with_tk t (tlb_flush (tk t) rbx), rsp).

Section Threads.
Context (Y : tarfs_layout) (fuel : nat).

(** The branch of [yield] for threads that cannot be scheduled; [sbush] is the
    address of the literal. *)
Definition restart_shell (sbush : Z) (t : tst) : option (tst * list lev) :=
  let sh := shell_pcb t in
  let s := tlb_flush (tk t) (fld (tk t) sh TS_cr3) in
  let s := s⟦pml4_shared ↦ fld s sh TS_pml4e⟧ in
  '(s, o) ← load_segment Y fuel s sh sbush;
  let s := (memmap s (fld s sh TS_stack) PAGE_SIZE USR_PERM_BITS 5).2 in
  s ← vst64 s (u64 (fld s sh TS_stack - 0x8)) 0;
  s ← vst64 s (u64 (fld s sh TS_stack - 0x10)) 0;
  s ← vst64 s (u64 (fld s sh TS_stack - 0x18)) 0;
  Some (with_tk t s, o ++ [Msg "sbush> "; EnterUser (fld s sh TS_entry) (fld s sh TS_stack)]).

Definition yield (sbush : Z) (t : tst) : option (tst * list lev * yout) :=
  if 1 <? ready_procs t then
    let curr := processes t in
    let next := fld (tk t) curr PCB_next in
    match schedule (tk t) curr next with
    | Some s => Some (with_tk t s, [], Switch curr next)
    | None => '(t, o) ← restart_shell sbush t; Some (t, o, Left)
    end
  else Some (t, [], Back).

(** What [yield] does when [dispatch] has come back. *)
Definition yield_resume (t : tst) : tst * list lev := move_to_next t.

(** [while (1) yield();] for [n] rounds: [None] while it goes on. *)
Fixpoint idle (n : nat) (sbush : Z) (t : tst) : option (option (tst * list lev * yout)) :=
  match n with
  | O => None
  | S n =>
      match yield sbush t with
      | Some (t, [], Back) => idle n sbush t
      | r => Some r
      end
  end.

(** The prompt is a message; [Console] has the bytes that [kprintf] writes. *)
Definition enter_usermode (t : tst) (user_entry stack : Z) : tst * list lev :=
  if negb (first_boot t =? 0)
  then
    let s := with_mem (tk t) (clear_screen (kmem (tk t))) in
    (mk_tst (with_lk (tl t) s) (processes t) (ready_procs t) (p_id t) (proc_count_in_list t) (shell_pcb t) 0,
     [Msg "sbush> "; EnterUser user_entry stack])
  else (t, [EnterUser user_entry stack]).

(** The thread that starts the shell; [curr_file], [tss] and [sbush] are the
    addresses of the buffer, the task-state segment and the literal. *)
Definition init_entry (irq0 curr_file tss sbush : Z) (t : tst) : option (tst * list lev) :=
  n ← kstrlen fuel (kmem (tk t)) (kphys sbush);
  let s := with_mem (tk t) (kmemcpy (kmem (tk t)) (kphys curr_file) (kphys sbush) n) in
  '(pcb, l, o) ← create_usr_pcb Y fuel irq0 (with_lk (tl t) s) curr_file;
  let s := lk l in
  s ← vst64 s (u64 (fld s pcb TS_stack - 0x8)) 0;
  s ← vst64 s (u64 (fld s pcb TS_stack - 0x10)) 0;
  s ← vst64 s (u64 (fld s pcb TS_stack - 0x18)) 0;
  let user_entry := fld s pcb TS_entry in
  let s := with_mem s (Gdt.set_tss_rsp (kmem s) (kphys tss) (fld s (processes t) PCB_rsp)) in
  let t := mk_tst (with_lk l s) (processes t) (ready_procs t) (p_id t) (proc_count_in_list t) pcb (first_boot t) in
  let '(t, o') := enter_usermode t user_entry (fld s pcb TS_stack) in
  Some (t, o ++ o').

Definition initiate_jmp (irq0 curr_file sbush : Z) (t : tst) : option (tst * list lev * yout) :=
  '(_, l, o) ← create_usr_pcb Y fuel irq0 (tl t) curr_file;
  '(t, o', r) ← yield sbush (with_tl t l);
  Some (t, o ++ o', r).
End Threads.

(** ** Starting the threads *)

Ltac pcb_offsets :=
  unfold PCB_kstack, STACK_SIZE, PCB_rip, PCB_rsp, PCB_pid, PCB_proc_state, PCB_exit_status, PCB_next in *.

(** The stack of a thread that has not run yet, at physical address [p]. *)
Record startable (m : mem) (p fn : Z) : Prop := {
  st_zero : rd64 m (p + 8 * 254) = 0;
  st_entry : rd64 m (p + 8 * 255) = fn;
  st_rip : rd64 m (p + PCB_rip) = fn;
  st_rsp : rd64 m (p + PCB_rsp) = VIRT_BASE + (p + 8 * 254) }.

Record thread_at (m : mem) (p fn pid : Z) : Prop := {
  th_start : startable m p fn;
  th_pid : rd64 m (p + PCB_pid) = pid;
  th_state : rd32 m (p + PCB_proc_state) = READY;
  th_exit : rd32 m (p + PCB_exit_status) = 0 }.

Lemma startable_ext m m' p fn :
  (forall a, p <= a < p + 2064 -> rd8 m' a = rd8 m a) -> startable m p fn -> startable m' p fn.
Proof.
  intros H [H1 H2 H3 H4]. pcb_offsets.
  assert (E64 : forall o, 0 <= o -> o + 8 <= 2064 -> rd64 m' (p + o) = rd64 m (p + o))
    by (intros o Ho Ho8; apply rd64_ext; intros a Ha; apply H; lia).
  constructor; pcb_offsets; rewrite E64 by lia; assumption.
Qed.

Lemma thread_at_ext m m' p fn pid :
  (forall a, p <= a < p + 2080 -> rd8 m' a = rd8 m a) -> thread_at m p fn pid -> thread_at m' p fn pid.
Proof.
  intros H [H1 H2 H3 H4]. constructor; pcb_offsets.
  - eapply startable_ext; [|exact H1]. intros a Ha. apply H. lia.
  - rewrite <- H2. apply rd64_ext. intros a Ha. apply H. lia.
  - rewrite <- H3. apply rd32_ext. intros a Ha. apply H. lia.
  - rewrite <- H4. apply rd32_ext. intros a Ha. apply H. lia.
Qed.

Section start.
Context (ready : Z -> kst -> Prop) (own : Z -> Prop) `{HPS : !PageSource ready own}.

Lemma init_pcb_spec np t fn :
  ready np (tk t) -> np + 4096 <= KWIN -> 0 <= fn < 2 ^ 64 -> 0 <= p_id t < 2 ^ 16 ->
  exists t', init_pcb t fn = (VIRT_BASE + np, t') /\ ready (np + 4096) (tk t')
    /\ thread_at (kmem (tk t')) np fn (p_id t) /\ rd64 (kmem (tk t')) (np + PCB_next) = 0
    /\ (forall a, ~ own a -> ~ (np <= a < np + 4096) -> rd8 (kmem (tk t')) a = rd8 (kmem (tk t)) a)
    /\ p_id t' = u16 (p_id t + 1) /\ processes t' = processes t /\ ready_procs t' = ready_procs t
    /\ proc_count_in_list t' = proc_count_in_list t /\ shell_pcb t' = shell_pcb t
    /\ first_boot t' = first_boot t.
Proof.
  intros Hr Hw Hfn Hid. unfold init_pcb.
  destruct (ps_next _ _ Hr) as [Hal Hnp].
  destruct (ps_alloc _ _ Hr Hw) as (s1 & -> & Hr1 & _ & Hg1 & Hz1 & Hm1). unfold KWIN in Hw.
  unfold set_fld, fld, set_pcb_state, kst32. pcb_offsets.
  rewrite !kst64_at, !kld64_at, !kernel_ptr by lia. kst_simpl. rewrite rd64_wr64_eq.
  set (m := wr32 _ _ 0). eexists. split; [reflexivity|]. cbn [tk tl lk with_lk]. kst_simpl.
  assert (Hm : forall a, ~ (np <= a < np + 4096) -> rd8 m a = rd8 (kmem s1) a).
  { intros a Ha. unfold m. rewrite !rd8_wr32_ne, !rd8_wr64_ne by lia. reflexivity. }
  assert (Hz : forall o, 0 <= o -> o + 8 <= 4096 -> rd64 (kmem s1) (np + o) = 0).
  { intros o Ho Ho8. apply rd64_zero. intros a Ha. apply Hz1. lia. }
  split; [eapply ps_frame; [exact Hr1|]; intros x _; kst_simpl; reflexivity|].
  split; [|split; [|split; [|repeat split]]].
  - constructor; [constructor|..]; pcb_offsets; unfold m; rewrite ?rd64_wr32_ne, ?rd32_wr32_ne by lia.
    + rewrite !rd64_wr64_ne by lia. apply Hz; lia.
    + rewrite !rd64_wr64_ne, rd64_wr64_eq by lia. apply u64_small. lia.
    + rewrite !rd64_wr64_ne, rd64_wr64_eq, u64_idem by lia. apply u64_small. lia.
    + rewrite rd64_wr64_eq, u64_idem, u64_small; unfold VIRT_BASE; lia.
    + rewrite rd64_wr64_ne, rd64_wr64_eq by lia. apply u64_small. lia.
    + rewrite rd32_wr32_eq. reflexivity.
    + rewrite rd32_wr32_eq. reflexivity.
  - unfold m. rewrite !rd64_wr32_ne, !rd64_wr64_ne by lia. apply Hz; lia.
  - intros a Ho Ha. rewrite Hm by exact Ha. apply Hm1; assumption.
Qed.

(** A new thread becomes the successor of the first one; the first thread is its
    own successor. *)
Lemma create_pcb_spec np t fn pp :
  ready np (tk t) -> np + 4096 <= KWIN -> 0 <= fn < 2 ^ 64 -> 0 <= p_id t < 2 ^ 16 - 1 ->
  0 <= proc_count_in_list t < 2 ^ 16 - 1 -> 0 <= ready_procs t < 2 ^ 16 - 1 ->
  let p := if proc_count_in_list t =? 0 then np else pp in
  (proc_count_in_list t <> 0 -> processes t = VIRT_BASE + pp /\ 0 <= pp /\ pp + 4096 <= np) ->
  exists t', create_pcb t fn = (1, t') /\ ready (np + 4096) (tk t') /\ thread_at (kmem (tk t')) np fn (p_id t)
    /\ processes t' = VIRT_BASE + p /\ rd64 (kmem (tk t')) (p + PCB_next) = VIRT_BASE + np
    /\ (forall a, ~ own a -> ~ (np <= a < np + 4096) -> ~ (p + PCB_next <= a < p + PCB_next + 8) ->
          rd8 (kmem (tk t')) a = rd8 (kmem (tk t)) a)
    /\ p_id t' = p_id t + 1 /\ ready_procs t' = ready_procs t + 1
    /\ proc_count_in_list t' = proc_count_in_list t + 1.
Proof.
  intros Hr Hw Hfn Hid Hpc Hrp p Hpp. unfold create_pcb.
  destruct (ps_next _ _ Hr) as [_ Hnp].
  destruct (init_pcb_spec np t fn Hr Hw Hfn ltac:(lia))
    as (t1 & -> & Hr1 & Hth & Hnx & Hm & H1 & H2 & H3 & H4 & H5 & H6).
  unfold KWIN in Hw. unfold add_to_ready_list, set_fld. cbn [tk tl with_lk lk processes ready_procs p_id proc_count_in_list shell_pcb first_boot].
  fold (tk t1). rewrite H1, H2, H3, H4, !u16_small by lia.
  assert (Ep : (if proc_count_in_list t + 1 =? 1 then VIRT_BASE + np else processes t) = VIRT_BASE + p).
  { unfold p in *. destruct (Z.eqb_spec (proc_count_in_list t) 0) as [->|Hne]; [reflexivity|].
    rewrite (proj2 (Z.eqb_neq _ 1)) by lia. apply Hpp, Hne. }
  assert (Hp : 0 <= p <= np /\ (p = np \/ p + 4096 <= np)).
  { unfold p in *. destruct (Z.eqb_spec (proc_count_in_list t) 0) as [_|Hne]; [lia|].
    destruct (Hpp Hne) as (_ & ? & ?). lia. }
  rewrite Ep. pcb_offsets. rewrite kst64_at by lia. eexists. split; [reflexivity|].
  cbn [tk tl with_lk lk processes ready_procs p_id proc_count_in_list]. kst_simpl.
  split; [eapply ps_frame; [exact Hr1|]; intros x _; kst_simpl; reflexivity|].
  split; [|split; [reflexivity|split; [|split; [|split; [reflexivity|split; reflexivity]]]]].
  - eapply thread_at_ext; [|exact Hth]. intros a Ha. apply rd8_wr64_ne. lia.
  - rewrite rd64_wr64_eq. apply u64_small. unfold VIRT_BASE. lia.
  - intros a Ho Ha Hb. rewrite rd8_wr64_ne by lia. apply Hm; assumption.
Qed.

(** Of the rest of the machine, creating a thread touches the allocator alone. *)
Lemma create_pcb_same np t fn :
  ready np (tk t) -> np + 4096 <= KWIN ->
  let t' := (create_pcb t fn).2 in cr3 (tk t') = cr3 (tk t) /\ same_globals alloc_globals (tk t) (tk t').
Proof.
  intros Hr Hw. destruct (ps_alloc np (tk t) Hr Hw) as (s' & E & _ & Hc & Hg & _).
  unfold create_pcb, init_pcb. rewrite E. split; [exact Hc|exact Hg].
Qed.
End start.

Lemma create_pcb_rest t fn :
  let t' := (create_pcb t fn).2 in
  tl t' = with_lk (tl t) (tk t') /\ shell_pcb t' = shell_pcb t /\ first_boot t' = first_boot t.
Proof. unfold create_pcb, init_pcb. destruct (page_alloc (tk t)). split; [|split]; reflexivity. Qed.

Lemma push_spec vs s p :
  8 * Z.of_nat (length vs) <= p < 2 ^ 31 ->
  exists m', push s (VIRT_BASE + p) vs = (with_mem s m', VIRT_BASE + (p - 8 * Z.of_nat (length vs)))
    /\ forall a, ~ (p - 8 * Z.of_nat (length vs) <= a < p) -> rd8 m' a = rd8 (kmem s) a.
Proof.
  revert s p. induction vs as [|v vs IH]; intros s p Hp; cbn [push length].
  - exists (kmem s). rewrite with_mem_kmem. split; [do 2 f_equal; cbn; lia|]. reflexivity.
  - cbn [length] in Hp. replace (VIRT_BASE + p - 8) with (VIRT_BASE + (p - 8) + 0) by lia.
    rewrite kst64_at by lia. rewrite u64_small by (unfold VIRT_BASE; lia). rewrite !Z.add_0_r.
    destruct (IH (with_mem s (wr64 (kmem s) (p - 8) v)) (p - 8)) as (m' & -> & Hm); [lia|].
    exists m'. kst_simpl. kst_simpl_in Hm. split; [do 2 f_equal; lia|].
    intros a Ha. rewrite Hm by lia. apply rd8_wr64_ne. lia.
Qed.

(** Switching to a fresh thread: it starts at its function, on its own stack, and
    the stack pointer of the old thread lands in the field behind its context,
    which is its number. *)
Lemma dispatch_fresh s saved sp old new fn :
  length saved = 13%nat -> 120 <= sp < 2 ^ 31 -> 0 <= old -> old + 4096 < 2 ^ 31 -> 0 <= new -> new + 4096 < 2 ^ 31 ->
  startable (kmem s) new fn ->
  old + 4096 <= new \/ new + 4096 <= old -> sp <= new \/ new + 4096 <= sp - 120 -> sp <= old \/ old + 4096 <= sp - 120 ->
  exists m', dispatch s saved (VIRT_BASE + sp) (VIRT_BASE + (old + PCB_rip)) (VIRT_BASE + (new + PCB_rip))
      = (with_mem s m', mk_cpu fn (VIRT_BASE + (new + PCB_rsp)) 0 fn)
    /\ rd64 m' (old + PCB_pid) = VIRT_BASE + (sp - 120)
    /\ (forall a, ~ (sp - 120 <= a < sp) -> ~ (old + PCB_pid <= a < old + PCB_pid + 8) -> rd8 m' a = rd8 (kmem s) a).
Proof.
  intros Hl Hsp Ho0 Ho1 Hn0 Hn1 [F1 F2 F3 F4] Hd1 Hd2 Hd3. unfold dispatch. pcb_offsets.
  destruct (push_spec (saved ++ [VIRT_BASE + (new + 2048); VIRT_BASE + (old + 2048)]) s sp) as (m1 & -> & Hm1);
    rewrite ?length_app, ?Hl in *; [cbn [length]; lia|]. change (8 * Z.of_nat (13 + length [_; _])) with 120 in *.
  rewrite kst64_at by lia. kst_simpl. set (m2 := wr64 m1 _ _). rewrite kld64_at by lia. kst_simpl.
  assert (Hm2 : forall a, ~ (sp - 120 <= a < sp) -> ~ (old + 2064 <= a < old + 2072) -> rd8 m2 a = rd8 (kmem s) a).
  { intros a Ha Hb. unfold m2. rewrite rd8_wr64_ne by lia. apply Hm1. exact Ha. }
  assert (H64 : forall o, 0 <= o -> o + 8 <= 4096 -> rd64 m2 (new + o) = rd64 (kmem s) (new + o)).
  { intros o Ho Ho8. apply rd64_ext. intros a Ha. apply Hm2; lia. }
  replace (new + 2048 + 8) with (new + 2056) by lia. rewrite H64, F4 by lia.
  rewrite !kld64_at by lia. unfold kld64. kst_simpl. rewrite kphys_high by lia.
  replace (new + 8 * 254 + 8) with (new + 8 * 255) by lia. replace (new + 8 * 254 + 16) with (new + 2048) by lia.
  rewrite !H64, F1, F2, F3 by lia. eexists. split; [|split; [|intros a Ha Hb; apply Hm2; lia]].
  - do 3 f_equal. rewrite u64_small; unfold VIRT_BASE; lia.
  - unfold m2. replace (old + 2048 + 16) with (old + 2064) by lia. rewrite rd64_wr64_eq. apply u64_small. unfold VIRT_BASE. lia.
Qed.

(** A successor in state [READY] is marked and the caller with it. *)
Lemma yield_switch Y fuel sbush t p n :
  1 < ready_procs t -> processes t = VIRT_BASE + p -> 0 <= p -> p + 4096 < 2 ^ 31 -> 0 <= n -> n + 4096 < 2 ^ 31 ->
  p + 4096 <= n \/ n + 4096 <= p ->
  rd64 (kmem (tk t)) (p + PCB_next) = VIRT_BASE + n -> rd32 (kmem (tk t)) (n + PCB_proc_state) = READY ->
  exists m', yield Y fuel sbush t = Some (with_tk t (with_mem (tk t) m'), [], Switch (VIRT_BASE + p) (VIRT_BASE + n))
    /\ rd32 m' (n + PCB_proc_state) = RUNNING /\ rd32 m' (p + PCB_proc_state) = READY
    /\ (forall a, ~ (n + PCB_proc_state <= a < n + PCB_proc_state + 4) ->
          ~ (p + PCB_proc_state <= a < p + PCB_proc_state + 4) -> rd8 m' a = rd8 (kmem (tk t)) a).
Proof.
  intros Hr Hp Hp0 Hp1 Hn0 Hn1 Hd Hnx Hst. unfold yield, schedule, pcb_state, set_pcb_state, kst32. pcb_offsets.
  rewrite (proj2 (Z.ltb_lt _ _)), Hp by exact Hr. unfold fld. rewrite !kld64_at, Hnx, !kernel_ptr, Hst by lia.
  cbn [Z.eqb Pos.eqb READY negb]. rewrite (proj2 (Z.eqb_neq _ _)) by (unfold VIRT_BASE; lia).
  kst_simpl. eexists. split; [reflexivity|]. split; [|split].
  - rewrite rd32_wr32_ne, rd32_wr32_eq by lia. reflexivity.
  - rewrite rd32_wr32_eq. reflexivity.
  - intros a Ha Hb. rewrite !rd8_wr32_ne by lia. reflexivity.
Qed.

(** A successor that is not [READY] makes [yield] start the shell over. *)
Lemma yield_restart Y fuel sbush t p n :
  1 < ready_procs t -> processes t = VIRT_BASE + p -> 0 <= p -> p + 4096 < 2 ^ 31 -> 0 <= n -> n + 4096 < 2 ^ 31 ->
  rd64 (kmem (tk t)) (p + PCB_next) = VIRT_BASE + n -> rd32 (kmem (tk t)) (n + PCB_proc_state) <> READY ->
  yield Y fuel sbush t = ('(t, o) ← restart_shell Y fuel sbush t; Some (t, o, Left)).
Proof.
  intros Hr Hp Hp0 Hp1 Hn0 Hn1 Hnx Hst. unfold yield, schedule, pcb_state. pcb_offsets.
  rewrite (proj2 (Z.ltb_lt _ _)), Hp by exact Hr. unfold fld. rewrite !kld64_at, Hnx, !kernel_ptr by lia.
  rewrite (proj2 (Z.eqb_neq _ _) Hst). reflexivity.
Qed.

(** What the first switch has done to the machine: the new threads lie on the pages
    [np] and [np + 4096], 15 words are on the old stack below [sp]. *)
Record switched (ready : Z -> kst -> Prop) (own : Z -> Prop) (np sp idle_fn : Z) (t t3 : tst) (s4 : kst) : Prop := {
  sw_state : t3 = mk_tst (with_lk (tl t) (tk t3)) (VIRT_BASE + np) 2 2 2 (shell_pcb t) (first_boot t);
  sw_ready : ready (np + 8192) s4;
  sw_cr3 : cr3 s4 = cr3 (tk t);
  sw_globals : same_globals alloc_globals (tk t) s4;
  sw_start : startable (kmem s4) np idle_fn;
  sw_saved : rd64 (kmem s4) (np + PCB_pid) = VIRT_BASE + (sp - 120);
  sw_next : rd64 (kmem s4) (np + PCB_next) = VIRT_BASE + (np + 4096);
  sw_state1 : rd32 (kmem s4) (np + 4096 + PCB_proc_state) = RUNNING;
  sw_mem : forall a, a < np -> ~ own a -> ~ (sp - 120 <= a < sp) -> rd8 (kmem s4) a = rd8 (kmem (tk t)) a }.

Lemma threads_start_spec ready own Y fuel sbush np t idle_fn init_fn saved sp :
  PageSource ready own -> (forall a, own a -> a < np) -> ready np (tk t) -> np + 8192 <= KWIN ->
  p_id t = 0 -> ready_procs t = 0 -> proc_count_in_list t = 0 ->
  0 <= idle_fn < 2 ^ 64 -> 0 <= init_fn < 2 ^ 64 ->
  length saved = 13%nat -> 120 <= sp < 2 ^ 31 -> sp <= np \/ np + 8192 <= sp - 120 ->
  let t2 := (create_pcb (create_pcb t idle_fn).2 init_fn).2 in
  let p0 := np in let p1 := np + 4096 in
  exists t3 s4, yield Y fuel sbush t2 = Some (t3, [], Switch (VIRT_BASE + p0) (VIRT_BASE + p1))
    /\ dispatch (tk t3) saved (VIRT_BASE + sp) (VIRT_BASE + (p0 + PCB_rip)) (VIRT_BASE + (p1 + PCB_rip))
       = (s4, mk_cpu init_fn (VIRT_BASE + (p1 + PCB_rsp)) 0 init_fn)
    /\ switched ready own np sp idle_fn t t3 s4.
Proof.
  intros HPS Hown Hr Hw Hid Hrp Hpc Hf0 Hf1 Hl Hsp Hd t2 p0 p1. subst t2 p0 p1.
  destruct (ps_next _ _ Hr) as [_ Hnp]. pose proof Hw as Hw'. unfold KWIN in Hw'.
  destruct (create_pcb_spec ready own np t idle_fn 0 Hr ltac:(lia) Hf0)
    as (t1 & E1 & Hr1 & Ht1 & Hp1 & Hn1 & Hm1 & Hid1 & Hrp1 & Hpc1); try lia.
  pose proof (create_pcb_same ready own np t idle_fn Hr ltac:(lia)) as S1.
  pose proof (create_pcb_rest t idle_fn) as R1. rewrite E1 in S1, R1 |- *. cbn [snd] in S1, R1 |- *.
  rewrite Hpc, Z.eqb_refl in Hp1, Hn1, Hm1.
  destruct (create_pcb_spec ready own (np + 4096) t1 init_fn np Hr1 ltac:(lia) Hf1)
    as (t2 & E2 & Hr2 & Ht2 & Hp2 & Hn2 & Hm2 & Hid2 & Hrp2 & Hpc2); try lia.
  pose proof (create_pcb_same ready own (np + 4096) t1 init_fn Hr1 ltac:(lia)) as S2.
  pose proof (create_pcb_rest t1 init_fn) as R2. rewrite E2 in S2, R2 |- *. cbn [snd] in S2, R2 |- *.
  rewrite Hpc1, Hpc in Hp2, Hn2, Hm2. change (0 + 1 =? 0) with false in Hp2, Hn2, Hm2. cbv iota in Hp2, Hn2, Hm2.
  assert (Ht0 : thread_at (kmem (tk t2)) np idle_fn (p_id t)).
  { eapply thread_at_ext; [|exact Ht1]. intros a Ha. pcb_offsets. apply Hm2; [intros Ho|lia|lia].
    specialize (Hown a Ho). lia. }
  destruct (yield_switch Y fuel sbush t2 np (np + 4096)) as (m3 & Ey & Hs1 & Hs0 & Hm3); try assumption; try lia.
  { apply (th_state _ _ _ _ Ht2). }
  eexists _. rewrite Ey. set (t3 := with_tk _ _).
  assert (Hk3 : kmem (tk t3) = m3) by (unfold t3; cbn; kst_simpl; reflexivity).
  destruct (dispatch_fresh (tk t3) saved sp np (np + 4096) init_fn) as (m4 & Ed & Hpid & Hm4); try lia.
  { rewrite Hk3. eapply startable_ext; [|exact (th_start _ _ _ _ Ht2)]. intros a Ha. pcb_offsets. apply Hm3; lia. }
  rewrite Hk3 in *. exists (with_mem (tk t3) m4). split; [reflexivity|]. split; [exact Ed|].
  destruct R1 as (RL1 & RS1 & RF1), R2 as (RL2 & RS2 & RF2), S1 as [C1 G1], S2 as [C2 G2].
  assert (Hg3 : forall x, (tk t3)⟦x⟧ = (tk t2)⟦x⟧) by (intros x; unfold t3; cbn; kst_simpl; reflexivity).
  pcb_offsets. constructor; kst_simpl; pcb_offsets.
  - unfold t3, with_tk, with_tl. cbn [tk tl lk with_lk]. rewrite RL2, RL1, Hp2, RS2, RS1, RF2, RF1. cbn [with_lk].
    f_equal; lia.
  - replace (np + 8192) with (np + 4096 + 4096) by lia. eapply ps_frame; [exact Hr2|]. intros x _. kst_simpl. apply Hg3.
  - etrans; [|exact C1]. etrans; [|exact C2]. reflexivity.
  - intros x Hx. kst_simpl. rewrite Hg3, G2, G1 by exact Hx. reflexivity.
  - eapply startable_ext; [|exact (th_start _ _ _ _ Ht0)]. intros a Ha. rewrite Hm4, Hm3 by lia. reflexivity.
  - exact Hpid.
  - etrans; [|exact Hn2]. apply rd64_ext. intros a Ha. rewrite Hm4, Hm3 by lia. reflexivity.
  - rewrite <- Hs1. apply rd32_ext. intros a Ha. apply Hm4; lia.
  - intros a Ha Ho Hs. rewrite Hm4, Hm3, Hm2, Hm1 by (assumption || lia). reflexivity.
Qed.

(** C13: The boot sequence creates two threads, [idle] and [init_entry], and the
    first [yield] switches to the second one: [dispatch] continues at its function
    on its own stack.  The stack pointer of the first thread is saved in the
    field behind its context, over its number, and not in its context, so that a
    switch back would start it afresh.  Nothing ever makes the second thread
    [READY] again: whatever the threads do short of that, every later [yield]
    starts the shell over.  [load_krsp], which is how the kernel leaves a process
    that ends, selects the stack of the first thread under the kernel's page
    tables; a zero word and the thread's function are on it. *)
Theorem threads_start ready own Y fuel sbush np t idle_fn init_fn saved sp :
  PageSource ready own -> (forall a, own a -> a < np) -> ready np (tk t) -> np + 8192 <= KWIN ->
  p_id t = 0 -> ready_procs t = 0 -> proc_count_in_list t = 0 ->
  0 <= idle_fn < 2 ^ 64 -> 0 <= init_fn < 2 ^ 64 ->
  length saved = 13%nat -> 120 <= sp < 2 ^ 31 -> sp <= np \/ np + 8192 <= sp - 120 ->
  let t2 := (create_pcb (create_pcb t idle_fn).2 init_fn).2 in
  let p0 := np in let p1 := np + 4096 in
  exists t3 s4, yield Y fuel sbush t2 = Some (t3, [], Switch (VIRT_BASE + p0) (VIRT_BASE + p1))
    /\ dispatch (tk t3) saved (VIRT_BASE + sp) (VIRT_BASE + (p0 + PCB_rip)) (VIRT_BASE + (p1 + PCB_rip))
       = (s4, mk_cpu init_fn (VIRT_BASE + (p1 + PCB_rsp)) 0 init_fn)
    /\ rd64 (kmem s4) (p0 + PCB_pid) = VIRT_BASE + (sp - 120)
    /\ rd64 (kmem s4) (p0 + PCB_rsp) = VIRT_BASE + (p0 + 8 * 254)
    /\ (forall s5, rd64 (kmem s5) (p0 + PCB_next) = rd64 (kmem s4) (p0 + PCB_next) ->
         rd32 (kmem s5) (p1 + PCB_proc_state) = rd32 (kmem s4) (p1 + PCB_proc_state) ->
         yield Y fuel sbush (with_tk t3 s5)
         = ('(t, o) ← restart_shell Y fuel sbush (with_tk t3 s5); Some (t, o, Left)))
    /\ forall s5, (forall a, p0 <= a < p0 + PCB_pid -> rd8 (kmem s5) a = rd8 (kmem s4) a) ->
         0 <= s5⟦pml4_shared⟧ - VIRT_BASE < 2 ^ 64 ->
         exists t6, load_krsp (with_tk t3 s5) = (t6, VIRT_BASE + (p0 + 8 * 254))
           /\ cr3 (tk t6) = s5⟦pml4_shared⟧ - VIRT_BASE
           /\ rd64 (kmem (tk t6)) (p0 + 8 * 254) = 0 /\ rd64 (kmem (tk t6)) (p0 + 8 * 255) = idle_fn.
Proof.
  intros HPS Hown Hr Hw Hid Hrp Hpc Hf0 Hf1 Hl Hsp Hd t2 p0 p1. destruct (ps_next _ _ Hr) as [_ Hnp].
  destruct (threads_start_spec ready own Y fuel sbush np t idle_fn init_fn saved sp HPS Hown Hr Hw Hid Hrp Hpc Hf0 Hf1 Hl Hsp Hd)
    as (t3 & s4 & Ey & Ed & [W1 _ _ _ Wst Wsv Wn Wp _]). unfold KWIN in Hw.
  assert (Hps : processes t3 = VIRT_BASE + np) by (rewrite W1; reflexivity).
  assert (Hrd : 1 < ready_procs t3) by (rewrite W1; cbn [ready_procs]; lia).
  exists t3, s4. split; [exact Ey|]. split; [exact Ed|]. split; [exact Wsv|]. split; [apply (st_rsp _ _ _ Wst)|].
  unfold p0, p1. split.
  - intros s5 H1 H2. apply (yield_restart Y fuel sbush (with_tk t3 s5) np (np + 4096)); try assumption; try lia.
    + etrans; [exact H1|exact Wn].
    + cbn [tk with_tk with_tl tl with_lk lk]. rewrite H2, Wp. discriminate.
  - intros s5 Hs Hp4. apply (startable_ext _ (kmem s5)) in Wst; [|pcb_offsets; exact Hs].
    eexists. unfold load_krsp. cbn [tk with_tk with_tl tl with_lk lk processes]. rewrite Hps, u64_small by exact Hp4.
    unfold fld. pcb_offsets. rewrite kld64_at by lia. destruct Wst as [S1 S2 S3 S4]. pcb_offsets. rewrite S4.
    split; [reflexivity|]. split; [reflexivity|]. split; assumption.
Qed.

Definition threads_demo : tst :=
  mk_tst (mk_lst ((boot_state ∅ 0x200000 0x400000 0x418000)⟦pml4_shared ↦ VIRT_BASE + 0x418000⟧
    ⟦pdesc ↦ 0x419000⟧⟦freelist ↦ VIRT_BASE + 0x400000⟧) 0 0 0 0 0 0) 0 0 0 0 0 1.

Definition threads_layout : tarfs_layout :=
  mk_tarfs_layout 0x300000 0x310000 0x350000 0x360000 0x370000 0x380000 0x381000 0x382000.

Lemma threads_start_witness :
  exists t3 s4, yield threads_layout 300 0x320000
      (create_pcb (create_pcb threads_demo (VIRT_BASE + 0x201000)).2 (VIRT_BASE + 0x202000)).2
    = Some (t3, [], Switch (VIRT_BASE + 0x419000) (VIRT_BASE + 0x41a000))
    /\ dispatch (tk t3) (replicate 13 7) (VIRT_BASE + 0x210000) (VIRT_BASE + (0x419000 + PCB_rip))
         (VIRT_BASE + (0x41a000 + PCB_rip))
       = (s4, mk_cpu (VIRT_BASE + 0x202000) (VIRT_BASE + (0x41a000 + PCB_rsp)) 0 (VIRT_BASE + 0x202000))
    /\ rd64 (kmem s4) (0x419000 + PCB_pid) = VIRT_BASE + (0x210000 - 120).
Proof.
  destruct (threads_start (boot_ready 0x400000) (freelist_cells 0x400000) threads_layout 300 0x320000 0x419000
    threads_demo (VIRT_BASE + 0x201000) (VIRT_BASE + 0x202000) (replicate 13 7) 0x210000
    (page_source_boot 0x400000 demo_boot)) as (t3 & s4 & H1 & H2 & H3 & _);
    [unfold freelist_cells; lia| |unfold KWIN; lia|reflexivity|reflexivity|reflexivity
    |unfold VIRT_BASE; lia|unfold VIRT_BASE; lia|reflexivity|lia|lia|].
  - exists 1. split; [lia|]. split; [reflexivity|]. constructor; [reflexivity| |reflexivity].
    vm_compute. intuition discriminate.
  - exists t3, s4. split; [exact H1|]. split; [exact H2|exact H3].
Defined.
