(* ===== verification/Boot.v ===== *)
(** * Boot

    [start] and [boot] of [sys/main.c]: the memory map that the loader passes, the
    order of the initialisers on one state of the whole kernel, and what holds when
    [boot] calls [idle].  The static tables of [sys/gdt.c] and [sys/idt.c] keep
    their own memories; everything else shares the kernel's. *)

From stdpp Require Import base gmap list numbers.
From Stdlib Require Import ZArith Lia.
From Stdlib Require Ascii String.
From S2P Require Import Prelude KLib Mmu Paging BootPaging Alloc Utils Keyboard Devices Cpu.
From S2P Require Import Tarfs Mount Loader Threads.
Import (notations) String.

Definition VIDEO_MEM : Z := 0xB8000.

(** A call of [kprintf]: its format string and integer arguments. *)
Abbreviation kmsg := (String.string * list Z)%type.

(** ** The loader's memory map *)

(** [while (modulep[0] != 0x9001) modulep += modulep[1] + 2;] on 32-bit words. *)
Fixpoint find_module (fuel : nat) (m : mem) (modulep : Z) : option Z :=
  match fuel with
  | O => None
  | S f =>
      if rd32 m (kphys modulep) =? 0x9001 then Some modulep
      else find_module f m (u64 (modulep + 4 * u32 (rd32 m (kphys (u64 (modulep + 4))) + 2)))
  end.

(** [struct smap_t], packed. *)
Definition SIZEOF_smap : Z := 20.
Definition SM_base : Z := 0.
Definition SM_length : Z := 8.
Definition SM_type : Z := 16.

(** The loop over the entries up to [stop]: the lines that it prints. *)
Fixpoint smap_loop (fuel : nat) (m : mem) (smap stop : Z) : option (list kmsg) :=
  match fuel with
  | O => None
  | S f =>
      if smap <? stop then
        let base := rd64 m (kphys (smap + SM_base)) in
        let length := rd64 m (kphys (smap + SM_length)) in
        let type := rd32 m (kphys (smap + SM_type)) in
        l ← smap_loop f m (smap + SIZEOF_smap) stop;
        Some (if (type =? 1) && negb (length =? 0)
              then ("Available Physical Memory [%p-%p]\n"%string, [base; u64 (base + length)]) :: l else l)
      else Some []
  end.

(** The kernel's globals with [mem_data] and the lines printed. *)
Definition start (Y : tarfs_layout) (fuel : nat) (s : kst) (modulep pbase pfree : Z) : option (kst * list kmsg) :=
  modulep ← find_module fuel (kmem s) modulep;
  l ← smap_loop fuel (kmem s) (modulep + 8) (modulep + rd32 (kmem s) (kphys (u64 (modulep + 4))) + 2 * 4);
  let s := s⟦physfree ↦ pfree⟧ in
  let s := s⟦physbase ↦ pbase⟧ in
  Some (s, l ++ [("physbase %p\n"%string, [s⟦physbase⟧]); ("physfree %p\n"%string, [s⟦physfree⟧]);
                 ("tarfs in [%p:%p]\n"%string, [_binary_tarfs_start Y; _binary_tarfs_end Y])]).

(** ** The screen *)

(** [for (temp2 = VIDEO_MEM + 1; temp2 < VIDEO_MEM + 160*25; temp2 += 2) *temp2 = 7;] *)
Fixpoint white (n : nat) (m : mem) (temp2 : Z) : mem :=
  match n with
  | O => m
  | S n => white n (wr8 m temp2 7) (temp2 + 2)
  end.

(** The screen's attributes are set through the loader's mapping. *)
Definition white_screen (s : kst) : kst := with_mem s (white (Z.to_nat 2000) (kmem s) (VIDEO_MEM + 1)).

(** [for (...; *temp1; temp1 += 1, temp2 += 2) *temp2 = *temp1;] *)
Fixpoint banner (cs : list Z) (m : mem) (temp2 : Z) : mem :=
  match cs with
  | [] => m
  | c :: cs => banner cs (wr8 m (kphys temp2) c) (temp2 + 2)
  end.

Definition show_banner (s : kst) : kst :=
  with_mem s (banner (chars "!!!!! start() returned !!!!!") (kmem s) (VIRT_BASE + VIDEO_MEM)).

(** ** The kernel *)

(** Two blocks of [NUM_PROCS] tasks: [zombie_queue], then [ready_queue]. *)
Definition alloc_queues (s : kst) : Z * Z * kst :=
  let '(z, s) := kmalloc s (64 * SIZEOF_task) in
  let '(r, s) := kmalloc s (64 * SIZEOF_task) in
  (z, r, s).

(** The state of the kernel: the segment and interrupt tables, the devices behind
    ports, memory with the allocator's globals, the console and the keyboard, the
    file system's counters, the threads and processes (whose memory is the one of
    [n_kbd]), the zombie queue, [boot_done] and the lines printed. *)
Record kernel (D : Type) := mk_kernel {
  n_seg : Gdt.segs; n_idt : Idt.idt_st; n_dev : D; n_kbd : kbd; n_fs : tfs; n_thr : tst;
  n_zombies : Z; n_done : Z; n_log : list kmsg }.
Arguments mk_kernel {D} _ _ _ _ _ _ _ _ _.
Arguments n_seg {D} _.
Arguments n_idt {D} _.
Arguments n_dev {D} _.
Arguments n_kbd {D} _.
Arguments n_fs {D} _.
Arguments n_thr {D} _.
Arguments n_zombies {D} _.
Arguments n_done {D} _.
Arguments n_log {D} _.

(** The addresses that the linker and the loader choose. *)
Record image := mk_image {
  i_gdt : Z; i_tss : Z; i_ivt : Z; i_ivt_ptr : Z; i_stubs : Idt.stubs;
  i_modulep : Z; i_physbase : Z; i_physfree : Z; i_idle : Z; i_init_entry : Z }.

(** The last part of [boot]: the keyboard and the two threads, with the queues [z] and
    [r] allocated. *)
Definition boot_threads (I : image) (k : kbd) (t : tst) (r : Z) : kbd * tst :=
  let k := init_kbd k in
  let t := with_tl t (mk_lst (kk k) (upid (tl t)) (process_count (tl t)) (child_pid (tl t)) (global_child (tl t))
                        (curr_upcb (tl t)) r) in
  let t := (create_pcb t (i_idle I)).2 in
  let t := (create_pcb t (i_init_entry I)).2 in
  (with_kk k (tk t), t).

(** Up to the call of [idle]. *)
Definition boot {D} `{PortDev D} (Y : tarfs_layout) (fuel : nat) (I : image) (n : kernel D) : option (kernel D) :=
  let k := n_kbd n in
  let ks := white_screen (kk k) in
  let seg := Gdt.init_gdt (n_seg n) (i_gdt I) (i_tss I) in
  '(ks, l) ← start Y fuel ks (i_modulep I) (i_physbase I) (i_physfree I);
  ks ← set_free_list ks;
  let ks := show_banner ks in
  let idt := Idt.set_up_idt (i_stubs I) (i_ivt I) (i_ivt_ptr I) (n_idt n) in
  let boot_done := 1 in
  let dev := Timer.init_timer (Pic.init_pic (n_dev n)) in
  fs ← init_tarfs Y fuel (with_tm (n_fs n) (kmem ks));
  let '(z, r, ks) := alloc_queues (with_mem ks (tm fs)) in
  let '(k, t) := boot_threads I (with_kk k ks) (n_thr n) r in
  Some (mk_kernel seg idt dev k (with_tm fs (kmem (kk k))) t z boot_done (n_log n ++ l)).

Lemma bind_some {A B} (f : A -> option B) o x : o = Some x -> o ≫= f = f x.
Proof. intros ->. reflexivity. Qed.

(** [boot] when its calls return. *)
Lemma boot_eq {D} `{PortDev D} Y fuel I (n : kernel D) s l s1 fs z r ks :
  start Y fuel (white_screen (kk (n_kbd n))) (i_modulep I) (i_physbase I) (i_physfree I) = Some (s, l) ->
  set_free_list s = Some s1 -> init_tarfs Y fuel (with_tm (n_fs n) (kmem (show_banner s1))) = Some fs ->
  alloc_queues (with_mem (show_banner s1) (tm fs)) = (z, r, ks) ->
  let '(k, t) := boot_threads I (with_kk (n_kbd n) ks) (n_thr n) r in
  boot Y fuel I n = Some (mk_kernel (Gdt.init_gdt (n_seg n) (i_gdt I) (i_tss I))
    (Idt.set_up_idt (i_stubs I) (i_ivt I) (i_ivt_ptr I) (n_idt n)) (Timer.init_timer (Pic.init_pic (n_dev n)))
    k (with_tm fs (kmem (kk k))) t z 1 (n_log n ++ l)).
Proof.
  intros E1 E2 E3 E4. unfold boot. rewrite (bind_some _ _ _ E1). cbv beta iota. rewrite (bind_some _ (set_free_list s) s1 E2). cbv beta iota zeta.
  rewrite (bind_some _ _ _ E3). cbv beta iota. rewrite E4. destruct (boot_threads _ _ _ _). reflexivity.
Qed.

(** ** The screen *)

Definition screen (a : Z) : Prop := VIDEO_MEM <= a < VIDEO_MEM + 4000.

Lemma white_frame n m p a : VIDEO_MEM <= p -> p + 2 * Z.of_nat n <= VIDEO_MEM + 4001 -> ~ screen a -> rd8 (white n m p) a = rd8 m a.
Proof.
  revert m p. induction n as [|n IH]; intros m p Hp Hn Ha; cbn [white]; [reflexivity|].
  rewrite IH by (assumption || lia). apply rd8_wr8_ne. unfold screen in Ha. lia.
Qed.

Lemma banner_frame cs m p a :
  0 <= p -> VIDEO_MEM <= p -> p + 2 * slen cs <= VIDEO_MEM + 4000 -> ~ screen a -> rd8 (banner cs m (VIRT_BASE + p)) a = rd8 m a.
Proof.
  revert m p. induction cs as [|c cs IH]; intros m p Hp0 Hp Hn Ha; cbn [banner]; [reflexivity|]. cbn [length] in Hn.
  rewrite <- Z.add_assoc, IH by (assumption || lia). rewrite kphys_high by lia. apply rd8_wr8_ne. unfold screen in Ha. lia.
Qed.

(** ** The memory map *)

(** The list of modules from [p]: the one with the memory map is reached after [k]
    others, each followed by as many words as its size field says. *)
Inductive mod_path (m : mem) : Z -> nat -> Z -> Prop :=
| mp_here p : (forall a, kphys p <= a < kphys p + 4 -> ~ screen a) -> rd32 m (kphys p) = 0x9001 -> mod_path m p 0 p
| mp_next p k q w :
    (forall a, kphys p <= a < kphys p + 8 -> ~ screen a) -> rd32 m (kphys p) <> 0x9001 ->
    kphys (u64 (p + 4)) = kphys p + 4 -> rd32 m (kphys p + 4) = w -> w + 2 < 2 ^ 32 -> 0 <= p + 4 * (w + 2) < 2 ^ 64 ->
    mod_path m (p + 4 * (w + 2)) k q -> mod_path m p (S k) q.

Lemma mod_path_ext m m' p k q :
  (forall a, ~ screen a -> rd8 m' a = rd8 m a) -> mod_path m p k q -> mod_path m' p k q.
Proof.
  intros H. induction 1 as [p Hs Ht|p k q w Hs Ht Hp Hw Hw2 Hr _ IH].
  - apply mp_here; [exact Hs|]. rewrite <- Ht. apply rd32_ext. auto.
  - apply (mp_next _ _ _ _ w); try assumption.
    + rewrite (rd32_ext m) by (intros a Ha; apply H, Hs; lia). exact Ht.
    + rewrite (rd32_ext m) by (intros a Ha; apply H, Hs; lia). exact Hw.
Qed.

Lemma find_module_spec fuel m p k q : mod_path m p k q -> (k < fuel)%nat -> find_module fuel m p = Some q.
Proof.
  intros H. revert fuel. induction H as [p Hs Ht|p k q w Hs Ht Hp Hw Hw2 Hr _ IH]; intros [|f] Hf; try lia; cbn [find_module].
  - rewrite Ht. reflexivity.
  - rewrite (proj2 (Z.eqb_neq _ _) Ht), Hp, Hw. pose proof (rd32_range m (kphys p + 4)).
    rewrite u32_small, u64_small by lia. apply IH. lia.
Qed.

Record smap := mk_smap { s_base : Z; s_length : Z; s_type : Z }.

Fixpoint smap_at (m : mem) (p : Z) (es : list smap) : Prop :=
  match es with
  | [] => True
  | e :: es =>
      (forall i, 0 <= i < 20 -> kphys (p + i) = kphys p + i /\ ~ screen (kphys p + i)) /\
      rd64 m (kphys p) = s_base e /\ rd64 m (kphys p + 8) = s_length e /\ rd32 m (kphys p + 16) = s_type e
      /\ smap_at m (p + 20) es
  end.

(** The line for an entry: usable memory that is not empty. *)
Definition smap_lines (es : list smap) : list kmsg :=
  (fun e => ("Available Physical Memory [%p-%p]\n"%string, [s_base e; u64 (s_base e + s_length e)]))
    <$> filter (fun e => s_type e = 1 /\ s_length e <> 0) es.

Lemma smap_at_ext m m' p es :
  (forall a, ~ screen a -> rd8 m' a = rd8 m a) -> smap_at m p es -> smap_at m' p es.
Proof.
  intros H. revert p. induction es as [|e es IH]; intros p; cbn [smap_at]; [auto|].
  intros (Hs & H1 & H2 & H3 & H4). split; [exact Hs|].
  assert (F : forall a, kphys p <= a < kphys p + 20 -> rd8 m' a = rd8 m a).
  { intros a Ha. apply H. destruct (Hs (a - kphys p)) as [_ Hn]; [lia|]. replace (kphys p + (a - kphys p)) with a in Hn by lia. exact Hn. }
  rewrite (rd64_ext m), (rd64_ext m _ (_ + 8)), (rd32_ext m) by (intros; apply F; lia). auto.
Qed.

Lemma smap_loop_spec fuel m p es :
  smap_at m p es -> (length es < fuel)%nat -> smap_loop fuel m p (p + 20 * slen es) = Some (smap_lines es).
Proof.
  revert fuel p. induction es as [|e es IH]; intros [|f] p Hs Hf; cbn [length] in Hf; try lia; cbn [smap_loop].
  - rewrite (proj2 (Z.ltb_ge _ _)) by (cbn [length]; lia). reflexivity.
  - destruct Hs as (Ha & H1 & H2 & H3 & H4). rewrite (proj2 (Z.ltb_lt _ _)) by (cbn [length]; lia).
    unfold SM_base, SM_length, SM_type, SIZEOF_smap.
    destruct (Ha 0) as [-> _]; [lia|]. destruct (Ha 8) as [-> _]; [lia|]. destruct (Ha 16) as [-> _]; [lia|].
    rewrite Z.add_0_r, H1, H2, H3. replace (p + 20 * slen (e :: es)) with (p + 20 + 20 * slen es) by (cbn [length]; lia).
    rewrite (IH f (p + 20) H4 ltac:(lia)). cbn [mbind option_bind]. f_equal. unfold smap_lines. rewrite filter_cons.
    case_decide as Hd; case (Z.eqb_spec (s_type e) 1); case (Z.eqb_spec (s_length e) 0); cbn [andb negb fmap list_fmap]; tauto || reflexivity.
Qed.

(** ** Mounting a frame of memory *)

Lemma mountable_ext Y n lit A s s' es :
  (forall a, fixed Y lit A a \/ a = tent Y n -> rd8 (tm s') a = rd8 (tm s) a) ->
  num_dentries s' = num_dentries s -> num_inodes s' = num_inodes s -> ttok s' = ttok s ->
  mountable Y n lit A s es -> mountable Y n lit A s' es.
Proof.
  intros H E1 E2 E3 [H1 H2 [H3 H3'] H4 H5 H6 (H7 & H8 & H9) H10 H11 [H12 H13] H14].
  constructor; rewrite ?E1, ?E2, ?E3; auto.
  - eapply archive_ext; [|eapply named_fit, H5|exact H4]. intros a Ha. apply H. left. left. lia.
  - eapply named_from_ext; [|exact H5]. intros a Ha. apply H. left. left. lia.
  - eapply cstr_ext; [|exact H11]. intros a Ha. apply H. left. right. left. cbn [length] in Ha. lia.
  - split; [exact H12|]. eapply cstr_ext; [|exact H13]. intros a Ha. apply H. left. right. right. cbn [length] in Ha. lia.
  - rewrite H by (right; reflexivity). exact H14.
Qed.

(** ** What each step leaves alone *)

Section frame.
Context (pf : Z) (Hpf : boot_memory pf).

(** The first page that is free after [set_free_list]. *)
Definition first_free : Z := pf + 0x18000 + 4096 * 99.

(** The globals that the steps behind [set_free_list] write. *)
Definition kernel_globals : list gvar := flag :: alloc_globals.

(** Memory below the free pages keeps its bytes, the cells of the free list and the
    bytes [W] apart, and the globals their values, those of the allocator and the
    keyboard's flag apart. *)
Record kept (W : Z -> Prop) (s s' : kst) : Prop := {
  kp_cr3 : cr3 s' = cr3 s;
  kp_globals : same_globals kernel_globals s s';
  kp_mem : forall a, ~ W a -> ~ freelist_cells pf a -> a < first_free -> rd8 (kmem s') a = rd8 (kmem s) a }.

#[export] Instance kept_preorder W : PreOrder (kept W).
Proof.
  split; [intros s; constructor; [reflexivity|intros x _; reflexivity|reflexivity]|].
  intros s1 s2 s3 [A1 A2 A3] [B1 B2 B3]. constructor; [congruence| |].
  - intros x Hx. rewrite B2 by exact Hx. apply A2, Hx.
  - intros a H1 H2 H3. rewrite B3 by assumption. auto.
Qed.

Lemma kept_weaken (W W' : Z -> Prop) s s' : (forall a, W a -> W' a) -> kept W s s' -> kept W' s s'.
Proof. intros H [H1 H2 H3]. constructor; [exact H1|exact H2|]. intros a Ha. apply H3. auto. Qed.

Lemma alloc_kernel_globals s s' : same_globals alloc_globals s s' -> same_globals kernel_globals s s'.
Proof. intros H x Hx. apply H. intros Hi. apply Hx. right. exact Hi. Qed.

Lemma kmalloc_kept sz np s :
  boot_ready pf np s -> 0 < sz < 2 ^ 32 -> np + 4096 * kmalloc_pages sz <= KWIN -> first_free <= np ->
  exists s', kmalloc s sz = (VIRT_BASE + np, s') /\ boot_ready pf (np + 4096 * kmalloc_pages sz) s' /\ kept (fun _ => False) s s'
    /\ (forall a, np <= a < np + 4096 * kmalloc_pages sz -> rd8 (kmem s') a = 0)
    /\ (forall a, ~ freelist_cells pf a -> a < np -> rd8 (kmem s') a = rd8 (kmem s) a).
Proof.
  intros Hr Hsz Hw Hnp. pose proof (page_source_boot pf Hpf) as HPS.
  destruct (kmalloc_spec _ _ sz np s Hr Hsz Hw) as (s' & E & Hr' & Hc & Hg & Hz & Hm).
  exists s'. split; [exact E|]. split; [exact Hr'|]. split; [|split; [exact Hz|intros a H1 H2; apply Hm; [exact H1|lia]]].
  constructor; [exact Hc|apply alloc_kernel_globals, Hg|]. intros a _ Ha Hlt. apply Hm; [exact Ha|lia].
Qed.

(** [init_kbd] resets the low half of the allocator's counter; the allocator goes on
    with the same page. *)
Lemma init_kbd_ready np k : boot_ready pf np (kk k) -> boot_ready pf np (kk (init_kbd k)) /\ kept (fun _ => False) (kk k) (kk (init_kbd k))
  /\ kmem (kk (init_kbd k)) = kmem (kk k).
Proof.
  intros (j & Hj & E & [Hn Hc Hf]). unfold init_kbd, set_counter16. cbn [kk with_kk].
  split; [|split; [constructor; kst_simpl; [reflexivity| |reflexivity]|kst_simpl; reflexivity]].
  2: { intros x Hx. unfold kernel_globals, alloc_globals in Hx. rewrite !not_elem_of_cons in Hx. destruct_and!.
       rewrite !gl_gput_ne by congruence. reflexivity. }
  exists j. split; [exact Hj|]. split; [exact E|]. unfold next_phys in *.
  constructor; unfold next_phys; kst_simpl; [exact Hn| |exact Hf].
  pose proof (Z.mod_pos_bound ((kk k)⟦counter⟧) (2 ^ 16) ltac:(lia)).
  pose proof (Z.mod_le ((kk k)⟦counter⟧) (2 ^ 16) ltac:(lia) ltac:(lia)). unfold u16. rewrite Z.mod_0_l by lia. lia.
Qed.

Lemma create_pcb_queue t fn : ready_queue (tl (create_pcb t fn).2) = ready_queue (tl t).
Proof. unfold create_pcb, init_pcb. destruct (page_alloc (tk t)). reflexivity. Qed.

(** The kernel's window stays mapped as long as the bytes below the free pages are kept. *)
Lemma kept_walk m s1 s W pa :
  after_boot m pf s1 -> kept W s1 s -> (forall a, W a -> a < pf) -> 0 <= pa < KWIN ->
  walk (kmem s) (cr3 s) (VIRT_BASE + pa) = Some (mk_tr pa true false).
Proof.
  intros Hab [Hc _ Hm] HW Hpa. apply (after_boot_walk_upper m pf s1 s); try assumption.
  intros a Ha. apply Hm; [intros Hwa; apply HW in Hwa; lia|unfold freelist_cells; lia|unfold first_free; lia].
Qed.

End frame.

(** ** The stages of [boot] *)

(** What the loader leaves: [pf] is the first free address, the module list holds the
    map [ss] after [j] other modules, the archive [es] can be mounted, and nothing
    that boot reads lies on the screen or behind [pf]. *)
Record bootable {D} (Y : tarfs_layout) (n lit A : Z) (I : image) (N : kernel D)
    (pf : Z) (j : nat) (q : Z) (ss : list smap) (es : list member) : Prop := {
  bo_pf : boot_memory pf;
  bo_free : i_physfree I = pf /\ i_physbase I = 0x200000;
  bo_globals : forall x, (kk (n_kbd N))⟦x⟧ = boot_globals 0 0 x;
  bo_path : mod_path (kmem (kk (n_kbd N))) (i_modulep I) j q;
  bo_size : kphys (u64 (q + 4)) = kphys q + 4 /\ (forall a, kphys q + 4 <= a < kphys q + 8 -> ~ screen a)
    /\ rd32 (kmem (kk (n_kbd N))) (kphys q + 4) = 20 * slen ss;
  bo_smap : smap_at (kmem (kk (n_kbd N))) (q + 8) ss;
  bo_fs : mountable Y n lit A (with_tm (n_fs N) (kmem (kk (n_kbd N)))) es;
  bo_place : forall a, fixed Y lit A a \/ tarfs_fs Y <= a < tent Y (n + 1) \/ (exists i, 0 <= i < n /\ written Y i a) -> a < pf /\ ~ screen a;
  bo_threads : p_id (n_thr N) = 0 /\ ready_procs (n_thr N) = 0 /\ proc_count_in_list (n_thr N) = 0;
  bo_entries : 0 <= i_idle I < 2 ^ 64 /\ 0 <= i_init_entry I < 2 ^ 64;
  bo_room : first_free pf + 4096 * (2 * 69 + 2) <= KWIN }.

Lemma start_prints Y fuel s p j q ss pb pfree :
  mod_path (kmem s) p j q -> (j < fuel)%nat -> (length ss < fuel)%nat ->
  kphys (u64 (q + 4)) = kphys q + 4 -> rd32 (kmem s) (kphys q + 4) = 20 * slen ss -> smap_at (kmem s) (q + 8) ss ->
  start Y fuel s p pb pfree = Some (s⟦physfree ↦ pfree⟧⟦physbase ↦ pb⟧,
    smap_lines ss ++ [("physbase %p\n"%string, [pb]); ("physfree %p\n"%string, [pfree]);
      ("tarfs in [%p:%p]\n"%string, [_binary_tarfs_start Y; _binary_tarfs_end Y])]).
Proof.
  intros Hp Hj Hs Hq Hsz Hm. unfold start. rewrite (find_module_spec _ _ _ _ _ Hp Hj). cbn [mbind option_bind].
  rewrite Hq, Hsz. replace (q + 20 * slen ss + 2 * 4) with (q + 8 + 20 * slen ss) by lia.
  rewrite (smap_loop_spec _ _ _ _ Hm Hs). cbn [mbind option_bind]. kst_simpl. reflexivity.
Qed.

Section stages.
Context {D : Type} (Y : tarfs_layout) (n lit A : Z) (I : image) (N : kernel D)
  (pf : Z) (j : nat) (q : Z) (ss : list smap) (es : list member).
Context (HB : bootable Y n lit A I N pf j q ss es).

Abbreviation m0 := (kmem (kk (n_kbd N))).

Abbreviation whitened := (white_screen (kk (n_kbd N))).

Lemma whitened_frame a : ~ screen a -> rd8 (kmem whitened) a = rd8 m0 a.
Proof. intros Ha. unfold white_screen. kst_simpl. apply white_frame; [lia|lia|exact Ha]. Qed.

(** The map is read and printed, the pages are set up, and the message is on the
    screen. *)
Lemma front_spec fuel :
  (j < fuel)%nat -> (length ss < fuel)%nat ->
  exists s l s1 ks, start Y fuel whitened (i_modulep I) (i_physbase I) (i_physfree I) = Some (s, l)
    /\ l = smap_lines ss ++ [("physbase %p\n"%string, [0x200000]); ("physfree %p\n"%string, [pf]);
         ("tarfs in [%p:%p]\n"%string, [_binary_tarfs_start Y; _binary_tarfs_end Y])]
    /\ set_free_list s = Some s1 /\ after_boot (kmem s) pf s1
    /\ ks = show_banner s1
    /\ boot_ready pf (first_free pf) ks /\ kept pf screen s1 ks
    /\ (forall a, a < pf -> ~ screen a -> rd8 (kmem ks) a = rd8 m0 a)
    /\ (forall a, ~ screen a -> rd8 (kmem s) a = rd8 m0 a).
Proof.
  intros Hj Hs. destruct HB as [B1 [B2 B3] B4 B5 (B6 & B7 & B8) B9 _ _ _ _ _]. pose proof B1 as (Ha & Hlo & Hhi).
  assert (W : forall a, ~ screen a -> rd8 (kmem whitened) a = rd8 m0 a) by apply whitened_frame.
  assert (E1 := start_prints Y fuel whitened (i_modulep I) j q ss (i_physbase I) (i_physfree I)
    (mod_path_ext _ _ _ _ _ W B5) Hj Hs B6).
  rewrite (rd32_ext m0) in E1 by (intros a Hra; apply W, B7; lia). specialize (E1 B8 (smap_at_ext _ _ _ _ W B9)).
  rewrite B2, B3 in *. set (s := whitened⟦physfree ↦ pf⟧⟦physbase ↦ 0x200000⟧) in *.
  destruct (set_free_list_from (kmem s) pf s B1 eq_refl) as (s1 & E2 & Hab).
  { intros x. unfold s, white_screen. destruct x; kst_simpl; rewrite ?B4; reflexivity. }
  set (ks := show_banner s1).
  eexists s, _, s1, ks.
  assert (HS : forall a, ~ screen a -> rd8 (kmem ks) a = rd8 (kmem s1) a).
  { intros a Hna. unfold ks, show_banner. kst_simpl. apply banner_frame; [unfold VIDEO_MEM; lia|lia| |exact Hna].
    change (slen (chars "!!!!! start() returned !!!!!")) with 28. lia. }
  split; [exact E1|]. split; [reflexivity|]. split; [exact E2|]. split; [exact Hab|]. split; [reflexivity|].
  split; [|split; [|split]].
  - exists 99. split; [lia|]. split; [reflexivity|]. destruct (after_boot_alloc _ _ _ Hab) as [H1 H2 H3].
    unfold next_phys in H1. constructor; unfold next_phys, ks, show_banner; kst_simpl; assumption.
  - constructor; [unfold ks, show_banner; kst_simpl; reflexivity|intros x _; unfold ks, show_banner; kst_simpl; reflexivity|].
    intros a Hna _ _. apply HS, Hna.
  - intros a Hpa Hna. rewrite HS by exact Hna. destruct (ab_pml4_bytes _ _ _ Hab) as [Hl _].
    rewrite Hl by (unfold Pg; lia). unfold s. kst_simpl. apply W, Hna.
  - intros a Hna. unfold s. kst_simpl. apply W, Hna.
Qed.

(** The bytes that mounting writes. *)
Definition mount_bytes (a : Z) : Prop := exists i, 0 <= i < n /\ written Y i a.

(** The archive is mounted and the two queues are allocated and clear. *)
Lemma middle_spec fuel ks :
  (401 + length es <= fuel)%nat -> boot_ready pf (first_free pf) ks ->
  (forall a, a < pf -> ~ screen a -> rd8 (kmem ks) a = rd8 m0 a) ->
  let np := first_free pf in
  exists fs ks2, init_tarfs Y fuel (with_tm (n_fs N) (kmem ks)) = Some fs /\ num_dentries fs = n
    /\ alloc_queues (with_mem ks (tm fs)) = (VIRT_BASE + np, VIRT_BASE + (np + 4096 * 69), ks2)
    /\ boot_ready pf (np + 4096 * 138) ks2 /\ kept pf mount_bytes ks ks2 /\ table Y (kmem ks2) 0 (rows Y es 0)
    /\ (forall a, np <= a < np + 4096 * 138 -> rd8 (kmem ks2) a = 0).
Proof.
  intros Hf Hr Hm np. destruct HB as [B1 _ _ _ _ _ B7 B8 _ _ B11]. pose proof B1 as (Ha & Hlo & Hhi). fold np in B11.
  pose proof (ml_count _ _ _ _ (mn_layout _ _ _ _ _ _ B7)) as Ln.
  destruct (init_tarfs_spec Y n lit A fuel (with_tm (n_fs N) (kmem ks)) es) as (fs & E1 & Hn & Ht & Hw).
  { eapply mountable_ext; [| | | |exact B7]; try reflexivity. cbn [tm with_tm].
    intros a Hra. destruct (B8 a) as [H1 H2]; [|apply Hm; assumption].
    destruct Hra as [Hra| ->]; [left; exact Hra|]. right. left. unfold tent, SIZEOF_tarfs_entry. lia. }
  { exact Hf. }
  cbn [tm with_tm] in Hw. exists fs.
  assert (Hr1 : boot_ready pf np (with_mem ks (tm fs))).
  { destruct Hr as (k & Hk & E & [H1 H2 H3]). exists k. split; [exact Hk|]. split; [exact E|]. unfold next_phys in H1.
    constructor; unfold next_phys; kst_simpl; assumption. }
  assert (Hpg : kmalloc_pages (64 * SIZEOF_task) = 69) by reflexivity.
  destruct (kmalloc_kept pf B1 (64 * SIZEOF_task) np _ Hr1) as (s1 & K1 & R1 & [C1 G1 M1] & Z1 & F1);
    [unfold SIZEOF_task; lia|rewrite Hpg; lia|unfold np; lia|].
  rewrite Hpg in *. destruct (kmalloc_kept pf B1 (64 * SIZEOF_task) _ _ R1) as (s2 & K2 & R2 & [C2 G2 M2] & Z2 & F2);
    [unfold SIZEOF_task; lia|rewrite Hpg; lia|unfold np; lia|].
  rewrite Hpg in *. replace (np + 4096 * 69 + 4096 * 69) with (np + 4096 * 138) in * by lia.
  exists s2. split; [exact E1|]. split; [exact Hn|].
  assert (HW : forall a, a < np -> ~ freelist_cells pf a -> rd8 (kmem s2) a = rd8 (tm fs) a).
  { intros a Hlt Hfc. rewrite M2, M1 by (auto || unfold np in *; lia). kst_simpl. reflexivity. }
  split; [unfold alloc_queues; rewrite K1, K2; reflexivity|]. split; [exact R2|]. split; [|split].
  - constructor; [rewrite C2, C1; kst_simpl; reflexivity| |].
    { intros x Hx. rewrite G2, G1 by exact Hx. kst_simpl. reflexivity. }
    intros a Hna Hfc Hlt. rewrite HW by assumption.
    apply Hw. intros i Hi Hwr. apply Hna. exists i. auto.
  - eapply table_ext; [|exact Ht]. intros a Hra.
    assert (Hrl : length (rows Y es 0) = length es) by (clear; generalize 0; induction es; intros z; cbn; auto).
    assert (Hpl : a < pf).
    { rewrite Hrl, (mn_count _ _ _ _ _ _ B7) in Hra. apply B8. right. left. unfold tent, SIZEOF_tarfs_entry in *. lia. }
    apply HW; [unfold np, first_free; lia|unfold freelist_cells; lia].
  - intros a Hra. destruct (decide (a < np + 4096 * 69)); [|apply Z2; lia].
    rewrite F2 by (unfold freelist_cells, np, first_free in *; lia). apply Z1. lia.
Qed.

(** Two threads are created on the pages behind the queues. *)
Lemma threads_spec t np :
  boot_ready pf np (tk t) -> first_free pf <= np -> np + 8192 <= KWIN ->
  p_id t = 0 -> ready_procs t = 0 -> proc_count_in_list t = 0 ->
  let t2 := (create_pcb (create_pcb t (i_idle I)).2 (i_init_entry I)).2 in
  kept pf (fun _ => False) (tk t) (tk t2) /\ forall a, a < np -> ~ freelist_cells pf a -> rd8 (kmem (tk t2)) a = rd8 (kmem (tk t)) a.
Proof.
  intros Hr Hnp Hw H1 H2 H3 t2. destruct HB as [B1 _ _ _ _ _ _ _ _ [B9 B10] _]. pose proof (page_source_boot pf B1) as HPS.
  pose proof B1 as (Ha & Hlo & Hhi). assert (Hff : 0x200000 <= np) by (unfold first_free in *; lia).
  destruct (create_pcb_spec _ _ np t (i_idle I) 0 Hr ltac:(lia) B9) as (t1 & E1 & Hr1 & _ & Hp1 & _ & Hm1 & Hi1 & Hq1 & Hc1); try lia.
  rewrite H3, Z.eqb_refl in Hp1, Hm1. pose proof (create_pcb_same _ _ np t (i_idle I) Hr ltac:(lia)) as C1.
  unfold t2. rewrite E1 in C1 |- *. cbn [snd] in C1 |- *.
  destruct (create_pcb_spec _ _ (np + 4096) t1 (i_init_entry I) np Hr1 ltac:(lia) B10) as (t2' & E2 & _ & _ & _ & _ & Hm2 & _); try lia.
  rewrite Hc1, H3 in Hm2. change (0 + 1 =? 0) with false in Hm2. cbv iota in Hm2.
  pose proof (create_pcb_same _ _ (np + 4096) t1 (i_init_entry I) Hr1 ltac:(lia)) as C2. rewrite E2 in C2 |- *. cbn [snd] in C2 |- *.
  destruct C1 as [C1 G1], C2 as [C2 G2].
  assert (F : forall a, a < np -> ~ freelist_cells pf a -> rd8 (kmem (tk t2')) a = rd8 (kmem (tk t)) a).
  { intros a Hlt Hfc. unfold PCB_next in *. rewrite Hm2, Hm1 by (assumption || lia). reflexivity. }
  split; [|exact F]. constructor; [congruence| |intros a _ Hfc Hlt; apply F; [lia|exact Hfc]].
  apply alloc_kernel_globals. intros x Hx. rewrite G2, G1 by exact Hx. reflexivity.
Qed.

(** What [boot] has done when it creates the threads: [s1] is the state behind
    [set_free_list] on memory [m], [t0] the one from which the threads are created. *)
Record booted (N' : kernel D) (m : mem) (s1 : kst) (t0 : tst) : Prop := {
  bd_done : n_done N' = 1;
  bd_log : n_log N' = n_log N ++ smap_lines ss ++ [("physbase %p\n"%string, [0x200000]); ("physfree %p\n"%string, [pf]);
         ("tarfs in [%p:%p]\n"%string, [_binary_tarfs_start Y; _binary_tarfs_end Y])];
  bd_files : num_dentries (n_fs N') = n;
  bd_zombies : n_zombies N' = VIRT_BASE + first_free pf;
  bd_threads : n_thr N' = (create_pcb (create_pcb t0 (i_idle I)).2 (i_init_entry I)).2;
  bd_kernel : tk (n_thr N') = kk (n_kbd N');
  bd_state : t0 = with_tl (n_thr N) (mk_lst (tk t0) (upid (tl (n_thr N))) (process_count (tl (n_thr N)))
    (child_pid (tl (n_thr N))) (global_child (tl (n_thr N))) (curr_upcb (tl (n_thr N)))
    (VIRT_BASE + (first_free pf + 4096 * 69)));
  bd_after : after_boot m pf s1;
  bd_ram : forall a, ~ screen a -> rd8 m a = rd8 m0 a;
  bd_kept : kept pf (fun a => screen a \/ mount_bytes a) s1 (tk t0);
  bd_low : forall a, a < pf -> ~ screen a -> ~ mount_bytes a -> rd8 (kmem (tk t0)) a = rd8 m0 a;
  bd_ready : boot_ready pf (first_free pf + 4096 * 138) (tk t0);
  bd_table : table Y (kmem (tk t0)) 0 (rows Y es 0);
  bd_queues : forall a, first_free pf <= a < first_free pf + 4096 * 138 -> rd8 (kmem (tk t0)) a = 0 }.

Lemma boot_spec `{PortDev D} fuel :
  (401 + length es <= fuel)%nat -> (j < fuel)%nat -> (length ss < fuel)%nat ->
  exists N' m s1 t0, boot Y fuel I N = Some N' /\ booted N' m s1 t0.
Proof.
  intros Hf Hj Hs. pose proof HB as [B1 _ _ _ _ _ _ _ _ _ B11]. pose proof B1 as (Ha & Hlo & Hhi).
  destruct (front_spec fuel Hj Hs) as (s & l & s1 & ks & E1 & El & E2 & Hab & Ek & Hr & [Kc Kg Km] & Hlow & Hram).
  destruct (middle_spec fuel ks Hf Hr Hlow) as (fs & ks2 & E3 & Hn & E4 & Hr2 & [Mc Mg Mm] & Ht & Hz).
  destruct (init_kbd_ready pf _ (with_kk (n_kbd N) ks2) Hr2) as (Hr3 & [Ic Ig Im] & Ie).
  set (k3 := init_kbd (with_kk (n_kbd N) ks2)) in *. change (kk (with_kk (n_kbd N) ks2)) with ks2 in Ic, Ig, Im, Ie.
  set (t0 := with_tl (n_thr N) (mk_lst (kk k3) (upid (tl (n_thr N))) (process_count (tl (n_thr N))) (child_pid (tl (n_thr N)))
    (global_child (tl (n_thr N))) (curr_upcb (tl (n_thr N))) (VIRT_BASE + (first_free pf + 4096 * 69)))).
  set (t2 := (create_pcb (create_pcb t0 (i_idle I)).2 (i_init_entry I)).2) in *.
  rewrite Ek in E3, E4. pose proof (boot_eq Y fuel I N _ _ _ _ _ _ _ E1 E2 E3 E4) as EB.
  change (boot_threads I (with_kk (n_kbd N) ks2) (n_thr N) (VIRT_BASE + (first_free pf + 4096 * 69)))
    with (with_kk k3 (tk t2), t2) in EB. cbv beta iota in EB.
  eexists _, (kmem s), s1, t0. split; [exact EB|]. constructor; cbn [n_log n_done n_fs n_zombies n_thr n_kbd kk with_kk with_tm num_dentries];
    change (tk t0) with (kk k3); rewrite ?Ie; try assumption; try reflexivity.
  - rewrite El. reflexivity.
  - transitivity ks; [constructor; [exact Kc|exact Kg|intros a Hw; apply Km; tauto]|].
    transitivity ks2; [constructor; [exact Mc|exact Mg|intros a Hw; apply Mm; tauto]|].
    constructor; [exact Ic|exact Ig|intros a _; apply Im; tauto].
  - intros a Hlt Hns Hnm. rewrite Mm by (assumption || unfold freelist_cells, first_free; lia). apply Hlow; assumption.
Qed.

End stages.

(** ** Claim *)

(** C2: the kernel comes up.  From what the loader leaves (a module list with the
    memory map, an archive that can be mounted, free memory behind [pf]), [boot]
    reaches its call of [idle]: it has printed the usable memory regions in the order
    of the map; the page tables map the kernel's 98 MiB window to physical memory;
    the table of the file system lists the members of the archive in order; the two
    process queues are different, cleared blocks of 64 tasks; and the first [yield] of
    the idle thread, on any stack below the threads' pages, switches to the thread
    that starts the shell. *)
Theorem boot_starts_kernel {D} `{PortDev D} Y n lit A I (N : kernel D) pf j q ss es fuel sbush saved sp :
  bootable Y n lit A I N pf j q ss es -> (401 + length es <= fuel)%nat -> (j < fuel)%nat -> (length ss < fuel)%nat ->
  length saved = 13%nat -> 120 <= sp <= first_free pf ->
  exists N', boot Y fuel I N = Some N' /\ n_done N' = 1
    /\ n_log N' = n_log N ++ smap_lines ss ++ [("physbase %p\n"%string, [0x200000]); ("physfree %p\n"%string, [pf]);
         ("tarfs in [%p:%p]\n"%string, [_binary_tarfs_start Y; _binary_tarfs_end Y])]
    /\ (let s := kk (n_kbd N') in
        (forall pa, 0 <= pa < KWIN -> walk (kmem s) (cr3 s) (VIRT_BASE + pa) = Some (mk_tr pa true false))
        /\ num_dentries (n_fs N') = n /\ table Y (kmem s) 0 (rows Y es 0)
        /\ n_zombies N' = VIRT_BASE + first_free pf /\ ready_queue (tl (n_thr N')) = VIRT_BASE + (first_free pf + 4096 * 69)
        /\ (forall a, first_free pf <= a < first_free pf + 4096 * 138 -> rd8 (kmem s) a = 0)
        /\ tk (n_thr N') = s)
    /\ let p0 := first_free pf + 4096 * 138 in let p1 := p0 + 4096 in
       exists t3 s4, yield Y fuel sbush (n_thr N') = Some (t3, [], Switch (VIRT_BASE + p0) (VIRT_BASE + p1))
         /\ dispatch (tk t3) saved (VIRT_BASE + sp) (VIRT_BASE + (p0 + PCB_rip)) (VIRT_BASE + (p1 + PCB_rip))
            = (s4, mk_cpu (i_init_entry I) (VIRT_BASE + (p1 + PCB_rsp)) 0 (i_init_entry I)).
Proof.
  intros HB Hf Hj Hs Hl Hsp. pose proof HB as [B1 _ _ _ _ _ _ B8 (T1 & T2 & T3) [B9 B10] B11]. pose proof B1 as (Ha & Hlo & Hhi).
  destruct (boot_spec Y n lit A I N pf j q ss es HB fuel Hf Hj Hs) as (N' & m & s1 & t0 & EB & Hd).
  destruct Hd as [D1 D2 D3 D4 D5 D6 D7 Hab _ Hk _ Hr Ht Hz].
  assert (Q : ready_queue (tl t0) = VIRT_BASE + (first_free pf + 4096 * 69)) by (rewrite D7; reflexivity).
  assert (P1 : p_id t0 = 0) by (rewrite D7; exact T1). assert (P2 : ready_procs t0 = 0) by (rewrite D7; exact T2).
  assert (P3 : proc_count_in_list t0 = 0) by (rewrite D7; exact T3).
  destruct (threads_spec Y n lit A I N pf j q ss es HB t0 (first_free pf + 4096 * 138) Hr) as (Tk & Tf); try assumption; try lia.
  exists N'. split; [exact EB|]. split; [exact D1|]. split; [exact D2|]. split.
  - cbv zeta. rewrite <- D6, D5. split; [|split; [exact D3|split; [|split; [exact D4|split; [|split; [|reflexivity]]]]]].
    + intros pa Hpa. apply (kept_walk pf B1 m s1 _ (fun a => screen a \/ mount_bytes Y n a)); try assumption.
      * transitivity (tk t0); [exact Hk|]. eapply kept_weaken; [|exact Tk]. intros a [].
      * intros a [Hw|Hw]; [unfold screen, VIDEO_MEM in Hw; lia|]. apply B8. right. right. exact Hw.
    + eapply table_ext; [|exact Ht]. intros a Hra.
      assert (Hrl : length (rows Y es 0) = length es) by (clear; generalize 0; induction es; intros z; cbn; auto).
      destruct (B8 a) as [Hp _]; [|apply Tf; [unfold first_free|unfold freelist_cells]; lia].
      rewrite Hrl, (mn_count _ _ _ _ _ _ (bo_fs _ _ _ _ _ _ _ _ _ _ _ HB)) in Hra. right. left.
      unfold tent, SIZEOF_tarfs_entry in *. lia.
    + rewrite !create_pcb_queue. exact Q.
    + intros a Hra. rewrite Tf; [apply Hz, Hra|lia|unfold freelist_cells, first_free in *; lia].
  - rewrite D5. pose proof (page_source_boot pf B1) as HPS.
    destruct (threads_start_spec _ _ Y fuel sbush (first_free pf + 4096 * 138) t0 (i_idle I) (i_init_entry I) saved sp HPS)
      as (t3 & s4 & Y1 & Y2 & _); try assumption; try lia.
    + unfold freelist_cells, first_free. lia.
    + unfold KWIN in *. unfold first_free in *. lia.
    + exists t3, s4. split; [exact Y1|exact Y2].
Qed.

(** A loader that leaves a module of three words, then the map with a usable and a
    reserved region. *)
Definition boot_map : list smap := [mk_smap 0x100000 0x7f00000 1; mk_smap 0xfffc0000 0x40000 2].

Definition with_map (m : mem) : mem :=
  let m := wr32 (wr32 m 0x70000 7) 0x70004 3 in
  let m := wr32 (wr32 m 0x70014 0x9001) 0x70018 40 in
  let m := wr32 (wr64 (wr64 m 0x7001c 0x100000) 0x70024 0x7f00000) 0x7002c 1 in
  wr32 (wr64 (wr64 m 0x70030 0xfffc0000) 0x70038 0x40000) 0x70040 2.

#[export] Instance no_port : PortDev unit := {| inb := fun _ _ => 0; outb := fun d _ _ => d |}.

Definition boot_image : image :=
  mk_image 0x1000 0x2000 0x3000 0x4000 (Idt.mk_stubs 1 2 3 4 5 6) (VIRT_BASE + 0x70000) 0x200000 0x400000
    (VIRT_BASE + 0x201000) (VIRT_BASE + 0x202000).

Definition loaded_kernel (m : mem) : kernel unit :=
  mk_kernel (Gdt.mk_segs ∅ 0 0 0 0 0) (Idt.mk_idt ∅ 0 false) tt
    (mk_kbd (boot_state (with_map m) 0 0 0) 0 0 0 0 NO 0 []) (mk_tfs ∅ (mk_tok 0 0x50000) 0 0)
    (mk_tst (mk_lst (boot_state ∅ 0 0 0) 0 0 0 0 0 0) 0 0 0 0 0 1) 0 0 [].

Lemma with_map_other m a : a < 0x70000 \/ 0x80000 <= a -> rd8 (with_map m) a = rd8 m a.
Proof. intros Ha. unfold with_map. repeat first [rewrite rd8_wr32_ne by lia | rewrite rd8_wr64_ne by lia]. reflexivity. Qed.

Lemma smap_high p i : 0 <= p < 0x80000 -> 0 <= i < 20 -> kphys (VIRT_BASE + p + i) = kphys (VIRT_BASE + p) + i /\ ~ screen (kphys (VIRT_BASE + p) + i).
Proof. intros Hp Hi. rewrite <- Z.add_assoc, !kphys_high by lia. unfold screen, VIDEO_MEM. lia. Qed.

Ltac map_word :=
  unfold with_map;
  match goal with |- _ _ ?a = _ => let a' := eval vm_compute in a in change a with a' end;
  repeat first [rewrite rd64_wr64_eq | rewrite rd32_wr32_eq | rewrite rd64_wr64_ne by lia | rewrite rd64_wr32_ne by lia
               | rewrite rd32_wr32_ne by lia | rewrite rd32_wr64_ne by lia]; reflexivity.

Lemma boot_map_at m : smap_at (with_map m) (VIRT_BASE + 0x70014 + 8) boot_map.
Proof.
  replace (VIRT_BASE + 0x70014 + 8) with (VIRT_BASE + 0x7001c) by reflexivity. cbn [smap_at boot_map s_base s_length s_type].
  replace (VIRT_BASE + 0x7001c + 20) with (VIRT_BASE + 0x70030) by reflexivity. rewrite !kphys_high by lia.
  split; [intros i Hi; apply smap_high; lia|]. do 3 (split; [map_word|]).
  split; [intros i Hi; apply smap_high; lia|]. do 3 (split; [map_word|]). exact I.
Qed.

Lemma loaded_kernel_ok m es :
  mountable demo_layout 2 0x50000 2048 (mk_tfs m (mk_tok 0 0x50000) 0 0) es ->
  bootable demo_layout 2 0x50000 2048 boot_image (loaded_kernel m) 0x400000 1 (VIRT_BASE + 0x70014) boot_map es.
Proof.
  intros Hm. constructor; cbn [loaded_kernel boot_image n_kbd n_fs n_thr kk i_physfree i_physbase i_modulep i_idle i_init_entry kmem boot_state
    p_id ready_procs proc_count_in_list].
  - exact demo_boot.
  - split; reflexivity.
  - reflexivity.
  - apply (mp_next _ _ _ _ 3).
    + intros a Ha. unfold screen, VIDEO_MEM. change (kphys (VIRT_BASE + 0x70000)) with 0x70000 in Ha. lia.
    + replace (rd32 _ _) with 7 by (symmetry; map_word). discriminate.
    + reflexivity.
    + map_word.
    + lia.
    + unfold VIRT_BASE. lia.
    + replace (VIRT_BASE + 0x70000 + 4 * (3 + 2)) with (VIRT_BASE + 0x70014) by reflexivity.
      apply mp_here; [|map_word].
      intros a Ha. unfold screen, VIDEO_MEM. change (kphys (VIRT_BASE + 0x70014)) with 0x70014 in Ha. lia.
  - split; [reflexivity|]. split; [|map_word].
    intros a Ha. unfold screen, VIDEO_MEM. change (kphys (VIRT_BASE + 0x70014)) with 0x70014 in Ha. lia.
  - apply boot_map_at.
  - apply (mountable_ext _ _ _ _ (mk_tfs m (mk_tok 0 0x50000) 0 0)); [|reflexivity..|exact Hm]. cbn [tm with_tm]. intros a Ha. apply with_map_other.
    revert Ha. unfold fixed, tent, SIZEOF_tarfs_entry.
    cbn [demo_layout _binary_tarfs_start _binary_tarfs_end tarfs_fs dent ino slash name_buf]. lia.
  - unfold fixed, written, node, inode_at, dentry, tent, SIZEOF_tarfs_entry, SIZEOF_dentry, SIZEOF_inode, screen, VIDEO_MEM.
    cbn [demo_layout _binary_tarfs_start _binary_tarfs_end tarfs_fs dent ino slash name_buf]. intros a [Ha|[Ha|(i & Hi & Ha)]]; lia.
  - split; [reflexivity|split; reflexivity].
  - split; unfold VIRT_BASE; lia.
  - vm_compute. discriminate.
Qed.

Lemma boot_starts_kernel_witness :
  exists N', boot demo_layout 500 boot_image (loaded_kernel mount_mem) = Some N'
    /\ n_log N' = [("Available Physical Memory [%p-%p]\n"%string, [0x100000; 0x8000000]); ("physbase %p\n"%string, [0x200000]);
         ("physfree %p\n"%string, [0x400000]); ("tarfs in [%p:%p]\n"%string, [4096; 8192])]
    /\ table demo_layout (kmem (kk (n_kbd N'))) 0 (rows demo_layout mount_es 0)
    /\ exists t3, yield demo_layout 500 0x320000 (n_thr N') = Some (t3, [], Switch (VIRT_BASE + 0x505000) (VIRT_BASE + 0x506000)).
Proof.
  destruct (boot_starts_kernel demo_layout 2 0x50000 2048 boot_image (loaded_kernel mount_mem) 0x400000 1 (VIRT_BASE + 0x70014) boot_map mount_es
    500 0x320000 (replicate 13 7) 0x210000 (loaded_kernel_ok mount_mem mount_es demo_mountable)) as (N' & E & _ & El & (_ & _ & Ht & _) & t3 & s4 & Ey & _).
  - cbn [length mount_es]. lia.
  - lia.
  - cbn [length boot_map]. lia.
  - reflexivity.
  - unfold first_free. lia.
  - exists N'. split; [exact E|]. split; [exact El|]. split; [exact Ht|]. exists t3. exact Ey.
Defined.
