(* ===== verification/Start.v ===== *)
(** * From power-on to the shell

    [init_entry] of [sys/sysinit.c] on the machine that [boot] leaves: the thread
    that the first [yield] of [idle] switches to creates the first process from the
    archive, gives the processor a kernel stack for interrupts, and enters the
    program in user mode.  The last theorem composes the boot sequence, the thread
    switch, the creation of the process and the entry into one run. *)

From stdpp Require Import base gmap list numbers.
From Stdlib Require Import ZArith Lia.
From Stdlib Require Ascii String.
From S2P Require Import Prelude KLib Mmu Paging BootPaging Alloc Utils UserPaging AddrSpace Memmap.
From S2P Require Import UserMem Fault Console Cpu Keyboard Devices Tarfs Mount Loader LoadSegment Fork InitProc.
From S2P Require Import Threads Boot.
Import (notations) String.

(** ** The thread that starts the shell *)

Section enter.
Context (ready : Z -> kst -> Prop) (own : Z -> Prop) `{HPS : !PageSource ready own}.
Context (P lo : Z) (HP : P mod 4096 = 0) (HP0 : 0 <= P) (HPlo : P + 4096 <= lo).
Context (Hown : forall a, own a -> a < P).

Abbreviation uspace := (uspace ready P lo).
Abbreviation kregion := (kregion own P).
Abbreviation creatable := (creatable own P).
Abbreviation created := (created ready P lo).

(** What the thread needs besides the program: [cf] is the buffer of the file name,
    [v] the stack pointer in the context of the first thread, at [pp]. *)
Record enterable (np : Z) (T : gmap (Z * Z) Z) (t : tst) (b cf sbush tss rq pp v : Z) (nm : list Z)
    (e0 : member) (es : list member) (off isz : Z) : Prop := {
  en_file : kregion np T (kphys cf) (slen nm + 1);
  en_file_name : apart (kphys cf) (slen nm + 1) (kphys sbush) (slen nm + 1);
  en_file_archive : apart (kphys cf) (slen nm + 1) b (archive_size (e0 :: es) + 512);
  en_file_image : apart (kphys cf) (slen nm + 1) (b + off) isz;
  en_file_thread : apart (kphys cf) (slen nm + 1) (pp + PCB_rsp) 8;
  en_tss : kregion np T (kphys tss) 104;
  en_tss_queue : apart (kphys tss) 104 rq SIZEOF_task;
  en_screen : kregion np T video 4000;
  en_screen_queue : apart video 4000 rq SIZEOF_task;
  en_screen_tss : apart video 4000 (kphys tss) 104;
  en_thread : processes t = VIRT_BASE + pp /\ 0 <= pp;
  en_thread_at : kregion np T (pp + PCB_rsp) 8;
  en_thread_queue : apart (pp + PCB_rsp) 8 rq SIZEOF_task;
  en_stack : rd64 (kmem (tk t)) (pp + PCB_rsp) = v;
  en_boot : first_boot t <> 0 }.

(** Copying the name into the buffer. *)
Lemma creatable_copied np T t b sb cf rq nm e0 es off isz en po pn h m' :
  creatable np T t b sb rq nm e0 es off isz en po pn h -> kregion np T (kphys cf) (slen nm + 1) ->
  apart (kphys cf) (slen nm + 1) b (archive_size (e0 :: es) + 512) -> apart (kphys cf) (slen nm + 1) (b + off) isz ->
  (forall a, ~ (kphys cf <= a < kphys cf + (slen nm + 1)) -> rd8 m' a = rd8 (kmem (lk t)) a) -> cstr m' (kphys cf) nm ->
  creatable np T (with_lk t (with_mem (lk t) m')) b cf rq nm e0 es off isz en po pn h.
Proof.
  intros [] Hcf Hd1 Hd2 Hm Hnm. unfold apart in *. destruct cr_phoff as [Hpo0 Hpo1].
  assert (Hi : forall a, b + off <= a < b + off + isz -> rd8 m' a = rd8 (kmem (lk t)) a) by (intros a Ha; apply Hm; lia).
  constructor; cbn [with_lk lk upid process_count Loader.ready_queue]; kst_simpl; try assumption.
  - eapply archive_ext; [|exact cr_names|exact cr_archive]. intros a Ha. apply Hm. lia.
  - eapply elf_at_ext; [|exact cr_elf]. intros a Ha. apply Hi. lia.
  - rewrite <- cr_type. apply rd32_ext. intros a Ha. apply Hi. lia.
  - split; assumption.
  - rewrite cr_header. symmetry. apply phdr_at_ext. intros a Ha. apply Hi. lia.
  - apply user_area_mem. exact cr_area.
  - eapply user_area_eq; [..|exact cr_area_heap]; kst_simpl; reflexivity.
Qed.

(** Clearing a word of a stack page that is clear already. *)
Lemma clear_word np s T L U f k :
  uspace np s T L -> np <= f -> ulin L (U - 4096) 4096 f -> 4096 <= U <= 2 ^ 47 -> 8 <= k <= 4096 ->
  (forall i, 0 <= i < 4096 -> rd8 (kmem s) (f + i) = 0) ->
  exists m', vst64 s (u64 (U - k)) 0 = Some (with_mem s m') /\ uspace np (with_mem s m') T L
    /\ forall a, rd8 m' a = rd8 (kmem s) a.
Proof.
  intros Hu Hf Hl HU Hk Hz. replace (U - k) with (U - 4096 + (4096 - k)) by lia.
  destruct (user_store ready own P lo HP HP0 HPlo np s T L (U - 4096) 4096 f (4096 - k) 0 Hu Hf Hl) as [E Hu']; try lia.
  eexists. split; [exact E|]. split; [exact Hu'|]. intros a.
  destruct (decide (f + (4096 - k) <= a < f + (4096 - k) + 8)) as [Ha|Ha]; [|apply rd8_wr64_ne; lia].
  replace 0 with (rd64 (kmem s) (f + (4096 - k)))
    by (apply rd64_zero; intros i Hi; replace i with (f + (i - f)) by lia; apply Hz; lia).
  etrans; [apply (rd8_wrn_rdn 8 _ _ (kmem s) _ a); lia|]. f_equal. lia.
Qed.

(** The three words that [init_entry] clears. *)
Lemma clear_stack np s T L U f c :
  uspace np s T L -> np <= f -> ulin L (U - 4096) 4096 f -> 4096 <= U <= 2 ^ 47 ->
  (forall i, 0 <= i < 4096 -> rd8 (kmem s) (f + i) = 0) -> 0 <= c -> c + SIZEOF_task < 2 ^ 31 ->
  rd64 (kmem s) (c + TS_stack) = U ->
  exists m', (s1 ← vst64 s (u64 (fld s (VIRT_BASE + c) TS_stack - 0x8)) 0;
              s2 ← vst64 s1 (u64 (fld s1 (VIRT_BASE + c) TS_stack - 0x10)) 0;
              vst64 s2 (u64 (fld s2 (VIRT_BASE + c) TS_stack - 0x18)) 0) = Some (with_mem s m')
    /\ uspace np (with_mem s m') T L /\ forall a, rd8 m' a = rd8 (kmem s) a.
Proof.
  intros Hu Hf Hl HU Hz Hc0 Hc1 Hs.
  assert (HU' : forall s', (forall a, rd8 (kmem s') a = rd8 (kmem s) a) -> fld s' (VIRT_BASE + c) TS_stack = U).
  { intros s' H. offsets. rewrite fld_at by lia. rewrite <- Hs. apply rd64_ext. auto. }
  rewrite HU' by auto. destruct (clear_word np s T L U f 8 Hu Hf Hl HU ltac:(lia) Hz) as (m1 & E1 & Hu1 & H1).
  rewrite (bind_some _ _ _ E1), HU' by exact H1.
  destruct (clear_word np _ T L U f 16 Hu1 Hf Hl HU ltac:(lia)) as (m2 & E2 & Hu2 & H2);
    [intros i Hi; kst_simpl; rewrite H1; apply Hz, Hi|]. kst_simpl_in H2. kst_simpl_in Hu2. rewrite with_mem_with_mem in E2.
  rewrite (bind_some _ _ _ E2), HU' by (intros a; kst_simpl; rewrite H2; apply H1).
  destruct (clear_word np _ T L U f 24 Hu2 Hf Hl HU ltac:(lia)) as (m3 & E3 & Hu3 & H3);
    [intros i Hi; kst_simpl; rewrite H2, H1; apply Hz, Hi|]. kst_simpl_in H3. kst_simpl_in Hu3. rewrite with_mem_with_mem in E3.
  exists m3. split; [exact E3|]. split; [exact Hu3|]. intros a. rewrite H3, H2. apply H1.
Qed.

(** The stores behind the creation: the stack of the TSS and the screen. *)
Lemma enter_stores np T L t b cf sbush tss rq pp v nm e0 es off isz irq0 t1 en h np' T' s2 :
  enterable np T t b cf sbush tss rq pp v nm e0 es off isz -> (length nm < 16)%nat -> 0 <= v < 2 ^ 64 ->
  np <= (lk t1)⟦usr_phys_addr⟧ -> created irq0 t1 b rq nm off en h L np' T' s2 np -> (forall p n, kregion np T p n -> kregion np' T' p n) ->
  let m' := clear_screen (Gdt.set_tss_rsp (kmem s2) (kphys tss) v) in
  created irq0 t1 b rq nm off en h L np' T' (with_mem s2 m') np
  /\ rd64 m' (kphys tss + Gdt.OFF_rsp0) = v
  /\ forall a, ~ (video <= a < video + 4000) -> ~ (kphys tss <= a < kphys tss + 104) -> rd8 m' a = rd8 (kmem s2) a.
Proof.
  intros He Hl Hv Hf Hcd Rg m'. destruct He. unfold apart in *.
  assert (Hm : forall a, ~ (video <= a < video + 4000) -> ~ (kphys tss <= a < kphys tss + 104) -> rd8 m' a = rd8 (kmem s2) a).
  { intros a H1 H2. unfold m'. rewrite (proj2 (clear_screen_blanks _)) by exact H1. unfold Gdt.set_tss_rsp, Gdt.OFF_rsp0.
    apply rd8_wr64_ne. lia. }
  assert (Hlo : forall a, video <= a < video + 4000 \/ kphys tss <= a < kphys tss + 104 -> a < np)
    by (intros a [Ha|Ha]; [apply (en_screen0 a Ha)|apply (en_tss0 a Ha)]).
  assert (Hu : exists L', uspace np' s2 T' L') by (destruct Hcd as [(s3 & _ & _ & Hsp & _) _ _ _ _ _ _]; eauto).
  destruct Hu as [L' Hu]. split; [|split; [|exact Hm]].
  - apply (created_ext ready own P lo); [| |exact Hl|exact Hcd].
    + intros a Ha. apply Hm; intros Hb; [pose proof (Hlo a (or_introl Hb)) as Han|pose proof (Hlo a (or_intror Hb)) as Han];
        clear -Ha Hb Han Hf en_tss_queue0 en_screen_queue0; lia.
    + intros k x a HT Ha. pose proof (kregion_off_tables ready own P lo np' s2 T' L' video 4000 Hu (Rg _ _ en_screen0) ltac:(lia) k x HT).
      pose proof (kregion_off_tables ready own P lo np' s2 T' L' (kphys tss) 104 Hu (Rg _ _ en_tss0) ltac:(lia) k x HT).
      apply Hm; lia.
  - unfold m', Gdt.set_tss_rsp, Gdt.OFF_rsp0. rewrite (rd64_ext (wr64 (kmem s2) (kphys tss + 4) v)).
    + rewrite rd64_wr64_eq. apply u64_small. exact Hv.
    + intros a Ha. apply (proj2 (clear_screen_blanks _)). lia.
Qed.

Lemma init_entry_spec Y irq0 fuel np T L t b cf sbush tss rq pp v nm e0 es off isz en po pn h :
  uspace np (tk t) T L -> creatable np T (tl t) b sbush rq nm e0 es off isz en po pn h ->
  enterable np T t b cf sbush tss rq pp v nm e0 es off isz ->
  _binary_tarfs_start Y = b -> (length es + 257 <= fuel)%nat ->
  let m1 := kmemcpy (kmem (tk t)) (kphys cf) (kphys sbush) (slen nm + 1) in
  let t1 := with_lk (tl t) (with_mem (tk t) m1) in
  exists np' T' s', init_entry Y fuel irq0 cf tss sbush t
      = Some (mk_tst (mk_lst s' 1 1 (child_pid (tl t)) (global_child (tl t)) (VIRT_BASE + rq) (VIRT_BASE + rq))
                (processes t) (ready_procs t) (p_id t) (proc_count_in_list t) (VIRT_BASE + np) 0,
              [Msg "sbush> "; EnterUser en ((tk t)⟦user_addr⟧)])
    /\ uspace np (lk t1) T L /\ creatable np T t1 b cf rq nm e0 es off isz en po pn h
    /\ created irq0 t1 b rq nm off en h L np' T' s' np
    /\ rd64 (kmem s') (kphys tss + Gdt.OFF_rsp0) = v
    /\ (forall a, ~ (kphys cf <= a < kphys cf + (slen nm + 1)) -> rd8 m1 a = rd8 (kmem (tk t)) a)
    /\ (forall a, 0 <= a < np -> ~ own a -> outside T a -> ~ (rq <= a < rq + SIZEOF_task) ->
          ~ (kphys cf <= a < kphys cf + (slen nm + 1)) -> ~ (kphys tss <= a < kphys tss + 104) ->
          ~ (video <= a < video + 4000) -> rd8 (kmem s') a = rd8 (kmem (tk t)) a).
Proof.
  intros Hu Hc He HY Hfu m1 t1. pose proof He as [F1 F2 F3 F4 F5 F6 F7 F8 F9 F10 [F11 F11'] F12 F13 F14 F15].
  destruct (cr_name_len _ _ _ _ _ _ _ _ _ _ _ _ _ _ _ _ _ Hc) as [Hne Hlen].
  pose proof (cr_name _ _ _ _ _ _ _ _ _ _ _ _ _ _ _ _ _ Hc) as Hnm.
  assert (Hm1 : forall a, rd8 m1 a = if decide (kphys cf <= a < kphys cf + (slen nm + 1))
    then rd8 (kmem (tk t)) (kphys sbush + (a - kphys cf)) else rd8 (kmem (tk t)) a).
  { intros a. unfold m1, kmemcpy. rewrite cpy_loop_spec by (unfold apart in F2; lia). rewrite Z.add_0_r, Z2Nat.id by lia. reflexivity. }
  assert (Hm1' : forall a, ~ (kphys cf <= a < kphys cf + (slen nm + 1)) -> rd8 m1 a = rd8 (kmem (tk t)) a)
    by (intros a Ha; rewrite Hm1, decide_False by exact Ha; reflexivity).
  assert (Hnm1 : cstr m1 (kphys cf) nm).
  { eapply cstr_copy; [|exact Hnm]. intros k Hk. rewrite Hm1, decide_True by lia. f_equal. lia. }
  pose proof (creatable_copied np T (tl t) b sbush cf rq nm e0 es off isz en po pn h m1 Hc F1 F3 F4 Hm1' Hnm1) as Hc1.
  assert (Hu1 : uspace np (lk t1) T L) by (eapply (uspace_store ready own P lo); [exact Hu|exact F1|lia|exact Hm1']).
  destruct (init_usr_pcb_spec ready own P lo HP HP0 HPlo Hown Y irq0 fuel np T L t1 b cf rq nm e0 es off isz en po pn h
    Hu1 Hc1 HY Hfu) as (np' & T' & s2 & E2 & Hcd & Hcs).
  unfold init_entry. rewrite (bind_some _ _ _ (kstrlen_spec fuel _ _ nm Hnm ltac:(lia))), decide_False by exact Hne.
  cbv zeta. fold m1. fold t1. unfold create_usr_pcb. rewrite (bind_some _ _ _ E2). cbv beta iota. cbn [lk].
  destruct (created_linear ready own P lo irq0 np T L t1 b cf rq nm e0 es off isz en po pn h np' T' s2 Hu1 Hc1 Hcd)
    as (L' & Hu2 & Hls & _ & HU & _). pose proof Hcd as [_ Htk Hen _ _ Hz _]. change (lk t1)⟦user_addr⟧ with (tk t)⟦user_addr⟧ in Hls, HU.
  pose proof (cd_room _ _ _ _ _ _ _ _ _ _ Hcs) as Hrm. pose proof (ui_lo _ _ _ _ _ _ (us_inv _ _ _ _ _ _ _ Hu)) as Hlo.
  destruct (kregion_bounds own P _ _ _ _ (cd_task_at _ _ _ _ _ _ _ _ _ _ Hcs)) as [Hc0 Hcx]; [offsets; lia|].
  pose proof (ui_lo _ _ _ _ _ _ (us_inv _ _ _ _ _ _ _ Hu2)) as Hlo'. unfold KWIN in Hlo, Hlo'.
  destruct (clear_stack np' s2 T' L' _ _ np Hu2 Hrm Hls ltac:(lia) Hz Hc0 ltac:(lia)
    (fr_stack _ _ _ _ _ _ _ Htk)) as (m3 & E3 & Hu3 & Hm3).
  rewrite (bind_three _ _ _ _ _ E3).
  assert (Hcd3 : created irq0 t1 b rq nm off en h L np' T' (with_mem s2 m3) np)
    by (apply (created_ext ready own P lo); [intros a _; apply Hm3|intros k x a _ _; apply Hm3|exact Hlen|exact Hcd]).
  assert (Hv : rd64 m3 (pp + PCB_rsp) = v).
  { rewrite <- F14. apply rd64_ext. intros a Ha. rewrite Hm3. unfold apart in F5, F13.
    destruct (F12 a ltac:(lia)) as (G1 & G2 & G3 & _).
    rewrite (cd_kernel _ _ _ _ _ _ _ _ _ _ Hcs a G1 G2 G3 ltac:(lia)). apply Hm1'. lia. }
  assert (Hv64 : 0 <= v < 2 ^ 64) by (rewrite <- Hv; apply rd64_range).
  destruct (enter_stores np T L t b cf sbush tss rq pp v nm e0 es off isz irq0 t1 en h np' T' _ He Hlen Hv64
    ltac:(unfold SIZEOF_task in Hcx; lia) Hcd3 (cd_region _ _ _ _ _ _ _ _ _ _ Hcs)) as (Hcd4 & Htss & Hm4).
  set (m5 := clear_screen _) in *. assert (Hsc : m5 = clear_screen (Gdt.set_tss_rsp m3 (kphys tss) v)) by reflexivity.
  clearbody m5. exists np', T', (with_mem s2 m5). rewrite with_mem_with_mem in Hcd4.
  split; [|split; [exact Hu1|split; [exact Hc1|split; [exact Hcd4|split; [exact Htss|split; [exact Hm1'|]]]]]].
  2: { intros a A1 A2 A3 A4 A5 A6 A7. kst_simpl. rewrite Hm4 by assumption. kst_simpl. rewrite Hm3.
       rewrite (cd_kernel _ _ _ _ _ _ _ _ _ _ Hcs a A1 A2 A3 A4). apply Hm1', A5. }
  destruct (kregion_bounds own P _ _ _ _ F12 ltac:(lia)) as [_ Hpp].
  assert (Ev : fld (with_mem s2 m3) (processes t) PCB_rsp = v)
    by (rewrite F11, fld_at by (pcb_offsets; lia); kst_simpl; exact Hv).
  assert (Ee : fld (with_mem s2 m3) (VIRT_BASE + np) TS_entry = en).
  { rewrite fld_at by (offsets; lia). kst_simpl. rewrite <- Hen. apply rd64_ext. intros a _. apply Hm3. }
  assert (Es : fld (with_mem s2 (Gdt.set_tss_rsp m3 (kphys tss) v)) (VIRT_BASE + np) TS_stack = (tk t)⟦user_addr⟧).
  { rewrite fld_at by (offsets; lia). kst_simpl. etrans; [|exact (fr_stack _ _ _ _ _ _ _ Htk)]. apply rd64_ext. intros a Ha.
    rewrite <- Hm3. unfold Gdt.set_tss_rsp, Gdt.OFF_rsp0. apply rd8_wr64_ne.
    destruct (kregion_bounds own P _ _ _ _ F6 ltac:(lia)). offsets. lia. }
  rewrite Ee, Ev. kst_simpl. rewrite Es. unfold enter_usermode. cbn [first_boot].
  rewrite (proj2 (Z.eqb_neq _ _) F15). cbn [negb tk tl lk with_lk processes ready_procs p_id proc_count_in_list shell_pcb].
  kst_simpl. rewrite Hsc. reflexivity.
Qed.
End enter.

(** ** The machine that [boot] leaves *)

Section shell.
Context {D : Type} (Y : tarfs_layout) (n lit A : Z) (I : image) (N : kernel D)
  (pf : Z) (j : nat) (q : Z) (ss : list smap) (e0 : member) (es : list member).
Context (HB : bootable Y n lit A I N pf j q ss (e0 :: es)).

Abbreviation m0 := (kmem (kk (n_kbd N))).
Abbreviation root := (pf + 0x18000).
Abbreviation tables := ({[(4, 0) := root]} : gmap (Z * Z) Z).
Abbreviation own := (freelist_cells pf).
Abbreviation booted := (booted Y n I N pf ss (e0 :: es)).
Abbreviation switched := (switched (boot_ready pf) own).

(** The page of the idle thread and the first page behind both threads. *)
Definition idle_page : Z := first_free pf + 4096 * 138.
Definition task_page : Z := idle_page + 8192.

(** Memory that neither the boot sequence nor the switch to the second thread, on a
    stack below [sp], writes. *)
Definition quiet (sp a : Z) : Prop :=
  0 <= a < pf /\ ~ screen a /\ ~ mount_bytes Y n a /\ ~ (sp - 120 <= a < sp).

Lemma start_region p k :
  0 <= p /\ p + k <= pf \/ first_free pf <= p /\ p + k <= task_page -> kregion own root task_page tables p k.
Proof.
  intros H a Ha. pose proof (bo_pf _ _ _ _ _ _ _ _ _ _ _ HB) as (_ & Hlo & _).
  unfold task_page, idle_page, first_free, freelist_cells in *. split; [lia|]. split; [lia|]. split; [|lia].
  intros k' x Hk. apply lookup_singleton_Some in Hk as [<- <-]. rewrite decide_True by reflexivity. lia.
Qed.

(** The switch leaves the kernel with the page tables and the globals of
    [set_free_list] and with the loader's bytes. *)
Lemma start_space N' m s1 t0 t3 s4 sp fn :
  booted N' m s1 t0 -> pml4_zero m0 pf -> switched idle_page sp fn t0 t3 s4 -> sp <= pf ->
  uspace (boot_ready pf) root (first_free pf) task_page s4 tables ∅
  /\ (forall x, x ∉ boot_written -> x ∉ alloc_globals -> s4⟦x⟧ = boot_globals 0x200000 pf x)
  /\ (forall a, root <= a < first_free pf -> rd8 (kmem s4) a = rd8 (kmem s1) a) /\ cr3 s4 = cr3 s1
  /\ (forall a, quiet sp a -> rd8 (kmem s4) a = rd8 m0 a).
Proof.
  intros Hbd Hz Hsw Hsp. pose proof HB as [B1 _ _ _ _ _ _ B8 _ _ B11]. pose proof B1 as (_ & Hlo & _).
  destruct Hbd as [_ _ _ _ _ _ _ Hab Hram [Kc Kg Km] Hlow _ _ _]. destruct Hsw as [_ Wr Wc Wg _ _ _ _ Wm].
  assert (Hff : first_free pf = root + 4096 * 99) by reflexivity.
  assert (HW : forall a, screen a \/ mount_bytes Y n a -> a < pf).
  { intros a [Hw|Hw]; [unfold screen, VIDEO_MEM in Hw; lia|]. apply B8. right. right. exact Hw. }
  assert (Htab : forall a, root <= a < first_free pf -> rd8 (kmem s4) a = rd8 (kmem s1) a).
  { intros a Ha. rewrite Wm by (unfold idle_page, freelist_cells; lia).
    apply Km; [intros Hw; apply HW in Hw; lia|unfold freelist_cells; lia|lia]. }
  assert (Hgl : forall x, x ∉ kernel_globals -> s4⟦x⟧ = s1⟦x⟧).
  { intros x Hx. rewrite Wg by (intros Hi; apply Hx; right; exact Hi). apply Kg, Hx. }
  split; [|split; [|split; [exact Htab|split; [congruence|]]]].
  - assert (Hz1 : pml4_zero m pf).
    { intros a Ha. rewrite Hram by (unfold screen, VIDEO_MEM; lia). apply Hz, Ha. }
    pose proof (page_source_boot pf B1) as HPS.
    eapply (uspace_moved (boot_ready pf)); [exact (boot_uspace m pf s1 B1 Hz1 Hab ltac:(lia))|exact Wr| |congruence| |].
    + unfold task_page, idle_page. lia.
    + intros x Hx. apply Hgl. unfold kernel_globals, alloc_globals. rewrite !elem_of_cons in Hx.
      destruct Hx as [-> |[-> |[-> |Hx]]]; [notin_globals..|]. inversion Hx.
    + intros k x a Hk Ha. apply lookup_singleton_Some in Hk as [_ <-]. apply Htab. lia.
  - intros x Hx Hy. rewrite Hgl; [apply (ab_rest _ _ _ Hab), Hx|]. unfold kernel_globals. apply not_elem_of_cons.
    split; [|exact Hy]. intros ->. apply Hx. unfold boot_written. set_solver.
  - intros a (Ha & Hs & Hm & Hst). rewrite Wm by (unfold idle_page, first_free, freelist_cells; lia). apply Hlow; [lia|assumption..].
Qed.

(** The globals that user mappings start from. *)
Lemma start_areas s :
  (forall x, x ∉ boot_written -> x ∉ alloc_globals -> s⟦x⟧ = boot_globals 0x200000 pf x) ->
  user_area s 5 /\ user_area (s⟦user_addr ↦ s⟦user_addr⟧ + 4096⟧⟦dif_ctxt ↦ 0⟧) 3.
Proof.
  intros Hg. assert (G1 : s⟦user_addr⟧ = START_VADDR_FOR_USRS) by (rewrite Hg by notin_globals; reflexivity).
  assert (G2 : s⟦physbase⟧ = 0x200000) by (rewrite Hg by notin_globals; reflexivity).
  assert (G3 : s⟦pml_same_ctxt⟧ = 0) by (rewrite Hg by notin_globals; reflexivity).
  assert (G4 : s⟦dif_ctxt⟧ = 1) by (rewrite Hg by notin_globals; reflexivity).
  set (r := boot_state ∅ 0x200000 pf 0). split.
  - apply (user_area_eq r); try assumption. constructor; vm_compute; intuition discriminate.
  - apply (user_area_eq (r⟦user_addr ↦ START_VADDR_FOR_USRS + 4096⟧⟦dif_ctxt ↦ 0⟧)); kst_simpl; rewrite ?G1; try assumption; try reflexivity.
    constructor; vm_compute; intuition discriminate.
Qed.

(** The shell in the loader's memory: the literal with its name at [sbush], the
    buffer [cf], the task-state segment and the boot stack below [pf] and apart, and
    the member of the archive, an executable with a loadable first header [h]. *)
Record shell_in (sp cf sbush tss off isz en po pn : Z) (h : phdr) : Prop := {
  si_stack : 120 <= sp <= pf;
  si_first : upid (tl (n_thr N)) = 0 /\ process_count (tl (n_thr N)) = 0 /\ first_boot (n_thr N) <> 0;
  si_literal : cstr m0 (kphys sbush) (chars "bin/sbush");
  si_literal_at : forall a, kphys sbush <= a < kphys sbush + 10 -> quiet sp a;
  si_buffer : 0 <= kphys cf /\ kphys cf + 10 <= pf;
  si_buffer_name : apart (kphys cf) 10 (kphys sbush) 10;
  si_buffer_archive : apart (kphys cf) 10 (_binary_tarfs_start Y) (archive_size (e0 :: es) + 512);
  si_tss : 0 <= kphys tss /\ kphys tss + 104 <= pf /\ apart video 4000 (kphys tss) 104;
  si_dir : mb_data e0 = [];
  si_size : archive_size es + 1024 < 2 ^ 31;
  si_archive : apart (_binary_tarfs_start Y) (archive_size (e0 :: es) + 512) (sp - 120) 120;
  si_member : find_member (chars "bin/sbush") es 512 = Some off;
  si_image : 64 <= isz /\ off + isz <= archive_size (e0 :: es) + 512;
  si_elf : elf_at m0 (_binary_tarfs_start Y + off) en po pn;
  si_count : 1 <= pn <= 4;
  si_type : rd32 m0 (_binary_tarfs_start Y + off + po) = 1;
  si_phoff : 0 <= po /\ po + 56 <= isz;
  si_header : h = phdr_at m0 (_binary_tarfs_start Y + off + po);
  si_ok : header_ok (task_page + 12 * 4096) (START_PADDR_FOR_USRS + 3 * 4096) isz h;
  si_below : p_vaddr h + p_memsz h + 0x100000 <= START_VADDR_FOR_USRS - 4096 }.

Lemma fixed_unmounted a : fixed Y lit A a -> ~ mount_bytes Y n a.
Proof.
  intros Hf (i & Hi & Hw). destruct (mn_layout _ _ _ _ _ _ (bo_fs _ _ _ _ _ _ _ _ _ _ _ HB)) as [_ _ _ L4 _ L6].
  destruct (L4 a Hf) as [H1 H2]. unfold written, tent, SIZEOF_tarfs_entry in *. destruct Hw as [Hw|[Hw|Hw]]; [lia|exact (H2 Hw)|].
  apply (proj1 (L6 i a Hi Hw)), Hf.
Qed.

(** The archive keeps its bytes. *)
Lemma archive_quiet sp a :
  apart (_binary_tarfs_start Y) (archive_size (e0 :: es) + 512) (sp - 120) 120 ->
  _binary_tarfs_start Y <= a < _binary_tarfs_start Y + (archive_size (e0 :: es) + 512) -> quiet sp a.
Proof.
  intros Hst Ha. pose proof (bo_fs _ _ _ _ _ _ _ _ _ _ _ HB) as Hm.
  destruct (mn_size _ _ _ _ _ _ Hm) as [HA _]. pose proof (ml_start _ _ _ _ (mn_layout _ _ _ _ _ _ Hm)) as Hb.
  assert (Hf : fixed Y lit A a) by (left; lia). destruct (bo_place _ _ _ _ _ _ _ _ _ _ _ HB a (or_introl Hf)) as [H1 H2].
  unfold quiet, apart in *. split; [lia|]. split; [exact H2|]. split; [apply fixed_unmounted, Hf|lia].
Qed.

(** The state of the second thread when it starts. *)
Lemma start_state N' m s1 t0 t3 s4 sp fn cf sbush tss off isz en po pn h :
  booted N' m s1 t0 -> switched idle_page sp fn t0 t3 s4 -> shell_in sp cf sbush tss off isz en po pn h ->
  let t := with_tk t3 s4 in let rq := first_free pf + 4096 * 69 in
  tk t = s4 /\ upid (tl t) = 0 /\ process_count (tl t) = 0 /\ Loader.ready_queue (tl t) = VIRT_BASE + rq
  /\ processes t = VIRT_BASE + idle_page /\ first_boot t <> 0 /\ rd64 (kmem s4) (idle_page + PCB_rsp) = VIRT_BASE + (idle_page + 8 * 254).
Proof.
  intros [_ _ _ _ _ _ D7 _ _ _ _ _ _ _] [W1 _ _ _ Wst _ _ _ _] [_ (F1 & F2 & F3) _ _ _ _ _ _ _ _ _ _ _ _ _ _ _ _ _ _] t rq.
  unfold t. rewrite W1, D7. cbn [with_tk with_tl tk tl lk with_lk upid process_count Loader.ready_queue processes first_boot].
  split; [reflexivity|]. split; [exact F1|]. split; [exact F2|]. split; [reflexivity|]. split; [reflexivity|]. split; [exact F3|].
  apply (st_rsp _ _ _ Wst).
Qed.

Lemma start_creatable N' m s1 t0 t3 s4 sp fn cf sbush tss off isz en po pn h :
  booted N' m s1 t0 -> pml4_zero m0 pf -> switched idle_page sp fn t0 t3 s4 -> shell_in sp cf sbush tss off isz en po pn h ->
  creatable own root task_page tables (tl (with_tk t3 s4)) (_binary_tarfs_start Y) sbush (first_free pf + 4096 * 69)
    (chars "bin/sbush") e0 es off isz en po pn h.
Proof.
  intros Hbd Hz Hsw Hsi. destruct (start_state _ _ _ _ _ _ _ _ _ _ _ _ _ _ _ _ _ Hbd Hsw Hsi) as (E1 & E2 & E3 & E4 & _).
  pose proof Hsi as [[_ Hsp] _ S3 S4 _ _ _ _ S9 S10 S11 S12 [S13 S14] S15 S16 S17 [S18 S19] S20 S21 S22].
  destruct (start_space _ _ _ _ _ _ _ _ Hbd Hz Hsw Hsp) as (_ & Hg & _ & _ & Hq).
  destruct (start_areas s4 Hg) as [Ha1 Ha2].
  pose proof (bo_fs _ _ _ _ _ _ _ _ _ _ _ HB) as Hm. pose proof (named_fit _ _ _ (mn_named _ _ _ _ _ _ Hm)) as Hfit.
  destruct (find_member_aligned _ es 512 off eq_refl ltac:(lia) S12) as [_ Hoff].
  assert (Har : forall a, _binary_tarfs_start Y <= a < _binary_tarfs_start Y + (archive_size (e0 :: es) + 512) -> 0 <= a < pf /\ rd8 (kmem s4) a = rd8 m0 a)
    by (intros a Ha; pose proof (archive_quiet sp a S11 Ha) as Hqa; split; [apply Hqa|apply Hq, Hqa]).
  set (b := _binary_tarfs_start Y) in *.
  assert (Hi : forall a, b + off <= a < b + off + isz -> rd8 (kmem s4) a = rd8 m0 a) by (intros a Ha; apply Har; lia).
  assert (HU : s4⟦user_addr⟧ = START_VADDR_FOR_USRS) by (rewrite Hg by notin_globals; reflexivity).
  assert (HF : s4⟦usr_phys_addr⟧ = START_PADDR_FOR_USRS) by (rewrite Hg by notin_globals; reflexivity).
  unfold tk in E1.
  constructor; rewrite ?E1; try assumption.
  - split; assumption.
  - split; [exact E4|]. apply start_region. right. unfold task_page, idle_page, SIZEOF_task. lia.
  - eapply cstr_ext; [|exact S3]. intros a Ha. apply Hq, S4. change (slen (chars "bin/sbush")) with 9 in Ha. lia.
  - intros a Ha. change (slen (chars "bin/sbush") + 1) with 10 in Ha. apply (start_region a 1); [|lia].
    left. destruct (S4 a Ha) as [H1 _]. lia.
  - split; [discriminate|cbn; lia].
  - eapply archive_ext; [|exact Hfit|exact (mn_archive _ _ _ _ _ _ Hm)]. intros a Ha. apply Har. lia.
  - intros a Ha. apply (start_region a 1); [|lia]. left. destruct (Har a Ha) as [H1 _]. lia.
  - intros a Ha. apply (start_region a 1); [|lia]. left. destruct (Har a ltac:(lia)) as [H1 _]. lia.
  - eapply elf_at_ext; [|exact S15]. intros a Ha. apply Hi. lia.
  - rewrite <- S17. apply rd32_ext. intros a Ha. apply Hi. lia.
  - split; assumption.
  - rewrite S20. symmetry. apply phdr_at_ext. intros a Ha. apply Hi. lia.
  - rewrite HF. exact S21.
  - rewrite HU. exact S22.
  - rewrite HU. split; [unfold START_VADDR_FOR_USRS; lia|discriminate].
Qed.

Lemma start_enterable N' m s1 t0 t3 s4 sp fn cf sbush tss off isz en po pn h :
  booted N' m s1 t0 -> switched idle_page sp fn t0 t3 s4 -> shell_in sp cf sbush tss off isz en po pn h ->
  enterable own root task_page tables (with_tk t3 s4) (_binary_tarfs_start Y) cf sbush tss (first_free pf + 4096 * 69)
    idle_page (VIRT_BASE + (idle_page + 8 * 254)) (chars "bin/sbush") e0 es off isz.
Proof.
  intros Hbd Hsw Hsi. destruct (start_state _ _ _ _ _ _ _ _ _ _ _ _ _ _ _ _ _ Hbd Hsw Hsi) as (E1 & _ & _ & _ & E5 & E6 & E7).
  destruct Hsi as [_ _ _ _ [Hb0 Hb1] Hbn Hba (Ht0 & Ht1 & Htv) _ _ _ S12 [S13 S14] _ _ _ _ _ _ _].
  destruct (find_member_aligned _ es 512 off eq_refl ltac:(lia) S12) as [_ Hoff].
  pose proof (bo_pf _ _ _ _ _ _ _ _ _ _ _ HB) as (_ & Hlo & _).
  assert (Hv : video + 4000 <= pf) by (unfold video; lia). assert (Hv0 : 0 <= video) by (unfold video; lia).
  unfold apart in *. change (slen (chars "bin/sbush") + 1) with 10.
  assert (Hff : pf + 0x18000 + 4096 * 99 = first_free pf) by reflexivity.
  constructor; unfold apart; rewrite ?E1; change (slen (chars "bin/sbush") + 1) with 10; try assumption;
    try (apply start_region; unfold PCB_rsp, task_page, idle_page; lia); unfold SIZEOF_task, idle_page, PCB_rsp; try lia.
  split; [exact E5|lia].
Qed.
End shell.

(** ** Claim *)

(** C1: from power-on to the shell.  The loader leaves an archive whose member
    [bin/sbush] is an executable with a loadable first header, a memory map, and a
    cleared PML4 page.  Then [boot] reaches [idle]; its first [yield] switches to the
    thread of [init_entry]; and this thread, started on the machine that the switch
    leaves, clears the screen, calls [kprintf] with the prompt and enters the program at its
    entry point in user mode.  By then process 1 is the current one and the only one,
    with its frame on its kernel stack; the page below the user stack pointer is
    mapped for the user and clear; every address of the program's segment shows the
    archive's bytes (zeros behind the file part) to user mode; the kernel's window
    is still mapped; and interrupts from user mode get the stack of the first thread. *)
Theorem boot_enters_shell {D} `{PortDev D} Y n lit A I (N : kernel D) pf j q ss e0 es fuel irq0 saved sp cf sbush tss off isz en po pn h :
  bootable Y n lit A I N pf j q ss (e0 :: es) -> pml4_zero (kmem (kk (n_kbd N))) pf ->
  shell_in Y n N pf e0 es sp cf sbush tss off isz en po pn h ->
  (402 + length es <= fuel)%nat -> (j < fuel)%nat -> (length ss < fuel)%nat -> length saved = 13%nat ->
  let p0 := idle_page pf in let p1 := p0 + 4096 in let c := task_page pf in
  let U := START_VADDR_FOR_USRS in let f := START_PADDR_FOR_USRS in
  exists N' t3 s4 t', boot Y fuel I N = Some N'
    /\ yield Y fuel sbush (n_thr N') = Some (t3, [], Switch (VIRT_BASE + p0) (VIRT_BASE + p1))
    /\ dispatch (tk t3) saved (VIRT_BASE + sp) (VIRT_BASE + (p0 + PCB_rip)) (VIRT_BASE + (p1 + PCB_rip))
       = (s4, mk_cpu (i_init_entry I) (VIRT_BASE + (p1 + PCB_rsp)) 0 (i_init_entry I))
    /\ init_entry Y fuel irq0 cf tss sbush (with_tk t3 s4) = Some (t', [Msg "sbush> "; EnterUser en U])
    /\ (shell_pcb t' = VIRT_BASE + c /\ first_boot t' = 0 /\ process_count (tl t') = 1 /\ upid (tl t') = 1
        /\ curr_upcb (tl t') = ready_queue (tl t') /\ ready_queue (tl t') = VIRT_BASE + (first_free pf + 4096 * 69))
    /\ let m := kmem (tk t') in let r := cr3 (tk t') in
       fresh_task (pf + 0x18000) irq0 m c 1 (chars "bin/sbush") U
       /\ (forall i, 0 <= i < SIZEOF_task -> rd8 m (first_free pf + 4096 * 69 + i) = rd8 m (c + i))
       /\ rd64 m (kphys tss + Gdt.OFF_rsp0) = VIRT_BASE + (p0 + 8 * 254)
       /\ (forall i, 0 <= i < 4096 -> exists w, walk m r (U - 4096 + i) = Some (mk_tr (f + i) w true) /\ rd8 m (f + i) = 0)
       /\ (forall i, 0 <= i < p_memsz h -> exists pa w, walk m r (p_vaddr h + i) = Some (mk_tr pa w true)
             /\ rd8 m pa = if decide (i < p_filesz h)
                           then rd8 (kmem (kk (n_kbd N))) (_binary_tarfs_start Y + off + p_offset h + i) else 0)
       /\ (forall pa, 0 <= pa < KWIN -> walk m r (VIRT_BASE + pa) = Some (mk_tr pa true false)).
Proof.
  intros HB Hz Hsi Hf Hj Hss Hsv p0 p1 c U f. pose proof HB as [B1 _ _ _ _ _ _ _ (T1 & T2 & T3) [B9 B10] B11].
  pose proof B1 as (Ha & Hlo & Hhi). pose proof (page_source_boot pf B1) as HPS. pose proof (si_stack _ _ _ _ _ _ _ _ _ _ _ _ _ _ _ _ Hsi) as Hsp.
  destruct (boot_spec Y n lit A I N pf j q ss (e0 :: es) HB fuel ltac:(cbn [length]; lia) Hj Hss) as (N' & m & s1 & t0 & EB & Hbd).
  pose proof Hbd as [_ _ _ _ D5 _ D7 Hab _ _ _ Hr _ _].
  destruct (threads_start_spec (boot_ready pf) (freelist_cells pf) Y fuel sbush p0 t0 (i_idle I) (i_init_entry I) saved sp HPS)
    as (t3 & s4 & Ey & Ed & Hsw); try assumption; try (rewrite D7; assumption).
  { unfold freelist_cells, p0, idle_page, first_free. lia. }
  { unfold p0, idle_page. lia. }
  { lia. }
  { left. unfold p0, idle_page, first_free. lia. }
  destruct (start_space Y n lit A I N pf j q ss e0 es HB N' m s1 t0 t3 s4 sp _ Hbd Hz Hsw (proj2 Hsp)) as (Hu & Hg & Htb & Hc3 & Hq).
  pose proof (start_creatable Y n lit A I N pf j q ss e0 es HB _ _ _ _ _ _ _ _ _ _ _ _ _ _ _ _ _ Hbd Hz Hsw Hsi) as Hcr.
  pose proof (start_enterable Y n lit A I N pf j q ss e0 es HB _ _ _ _ _ _ _ _ _ _ _ _ _ _ _ _ _ Hbd Hsw Hsi) as Hen.
  assert (HP : (pf + 0x18000) mod 4096 = 0) by (rewrite Z.add_mod, Ha by lia; reflexivity).
  destruct (init_entry_spec (boot_ready pf) (freelist_cells pf) (pf + 0x18000) (first_free pf) HP ltac:(lia) ltac:(unfold first_free; lia)
    ltac:(unfold freelist_cells; lia) Y irq0 fuel c _ ∅ (with_tk t3 s4) _ cf sbush tss _ _ _ _ _ _ _ _ _ _ _ h Hu Hcr Hen eq_refl ltac:(lia))
    as (np' & T' & s' & Ei & Hu1 & Hc1 & Hcd & Htss & Hm1 & Hfr).
  assert (HU : s4⟦user_addr⟧ = U) by (rewrite Hg by notin_globals; reflexivity).
  assert (HF : s4⟦usr_phys_addr⟧ = f) by (rewrite Hg by notin_globals; reflexivity).
  change (tk (with_tk t3 s4)) with s4 in *. rewrite HU in Ei.
  destruct (created_translates (boot_ready pf) (freelist_cells pf) (pf + 0x18000) (first_free pf) HP ltac:(lia) ltac:(unfold first_free; lia)
    _ _ _ _ _ _ _ _ _ _ _ _ _ _ _ _ _ _ _ _ Hu1 Hc1 Hcd) as [Hst Hpr].
  cbn [lk with_lk] in Hst, Hpr. rewrite !gl_with_mem in Hst. rewrite !kmem_with_mem in Hpr. rewrite HU, HF in Hst.
  pose proof Hcd as [(s3 & _ & _ & Hsp' & _) Htk _ _ Hsl _ _]. cbn [lk with_lk] in Htk. rewrite gl_with_mem, HU in Htk.
  eexists N', t3, s4, _. rewrite D5. split; [exact EB|]. split; [exact Ey|]. split; [exact Ed|]. split; [exact Ei|].
  cbn [shell_pcb first_boot tl process_count upid curr_upcb ready_queue tk lk].
  split; [repeat split|]. cbv zeta. split; [exact Htk|]. split; [exact Hsl|]. split; [exact Htss|]. split; [exact Hst|]. split.
  - intros i Hi. destruct (Hpr i Hi) as (pa & w & Hw & Hb). exists pa, w. split; [exact Hw|]. rewrite Hb.
    destruct (decide _) as [Hlt|]; [|reflexivity].
    destruct Hsi as [_ _ _ _ _ _ Hba _ _ _ Hst' Hmem [_ Him] _ _ _ _ _ [O1 O2 O3 _ _ _ _ _] _].
    destruct (find_member_aligned _ es 512 off eq_refl ltac:(lia) Hmem) as [_ Hoff].
    change (slen (chars "bin/sbush") + 1) with 10 in Hm1. unfold apart in Hba. rewrite Hm1 by lia.
    apply Hq. eapply archive_quiet; [exact HB|exact Hst'|lia].
  - intros pa Hpa. apply (after_boot_walk_upper m pf s1); [exact B1|exact Hab| | |exact Hpa].
    + rewrite (us_cr3 _ _ _ _ _ _ _ Hsp'), (ab_cr3 _ _ _ Hab). reflexivity.
    + destruct Hsi as [_ _ _ _ [Hb0 Hb1] _ _ (Ht0 & Ht1 & _) _ _ _ _ _ _ _ _ _ _ _ _]. clear - Hfr Htb Hlo Hb0 Hb1 Ht0 Ht1.
      intros a Hra. unfold first_free in *. rewrite <- Htb by lia. change (slen (chars "bin/sbush") + 1) with 10 in Hfr.
      apply Hfr; unfold c, task_page, idle_page, first_free, freelist_cells, video; try lia.
      intros k x Hk. apply lookup_singleton_Some in Hk as [<- <-]. rewrite decide_True by reflexivity. lia.
Qed.

(** The directory "bin/" and the example program of the loader as "bin/sbush". *)
Definition shell_es : list member := [mk_member (chars "bin/sbush") [2; 0; 3] 0 demo_elf].

Definition shell_mem : mem :=
  let m := write_temp ∅ 0x320000 (chars "bin/sbush" ++ [0]) in
  let m := write_temp m 4096 (demo_header "bin/" [0] ++ demo_header "bin/sbush" [2; 0; 3] ++ demo_elf) in
  let m := wr8 m (4096 + HDR_typeflag) 53 in
  let m := wr8 m (4608 + HDR_typeflag) 48 in
  let m := write_temp m 0x40000 [47; 0] in
  write_temp m 0x50000 [45; 49; 0].

Lemma shell_mountable :
  mountable demo_layout 2 0x50000 2048 (mk_tfs shell_mem (mk_tok 0 0x50000) 0 0) (mk_member (chars "bin/") [0] 5 [] :: shell_es).
Proof.
  constructor; cbn [tm ttok num_dentries num_inodes check demo_layout _binary_tarfs_start _binary_tarfs_end slash].
  - exact demo_mount_layout.
  - reflexivity.
  - split; reflexivity.
  - split; [apply member_at_b_spec; vm_compute; reflexivity|].
    split; [apply member_at_b_spec; vm_compute; reflexivity|]. vm_compute. split; reflexivity.
  - split; [exists (chars "bin"), []|split; [exists (chars "bin"), (chars "sbush")|exact Logic.I]];
      constructor; try reflexivity; try (split; [reflexivity|]); try (apply (bool_decide_eq_true_1 _); vm_compute; reflexivity);
      vm_compute; intuition (discriminate || lia).
  - repeat constructor; vm_compute; reflexivity.
  - vm_compute. intuition discriminate.
  - vm_compute. reflexivity.
  - apply (bool_decide_eq_true_1 (cstr shell_mem 0x40000 [47])). vm_compute. reflexivity.
  - split; [reflexivity|]. apply (bool_decide_eq_true_1 (cstr shell_mem 0x50000 [45; 49])). vm_compute. reflexivity.
  - vm_compute. reflexivity.
Qed.

Lemma shell_mem_high a : 0x400000 <= a -> rd8 shell_mem a = 0.
Proof.
  intros Ha. unfold shell_mem. cbv zeta. rewrite !rd8_write_temp_ne by (cbn [length]; lia). unfold HDR_typeflag. rewrite !rd8_wr8_ne by lia.
  rewrite !rd8_write_temp_ne; [reflexivity|right; vm_compute (slen _); lia..].
Qed.

Lemma demo_quiet a : 0x300000 <= a < 0x3e0000 -> quiet demo_layout 2 0x400000 0x3f0000 a.
Proof.
  intros Ha. unfold quiet. split; [lia|]. split; [unfold screen, VIDEO_MEM; lia|]. split; [|lia].
  intros (i & Hi & Hw). revert Hw. unfold written, node, inode_at, dentry, tent, SIZEOF_tarfs_entry, SIZEOF_dentry, SIZEOF_inode.
  cbn [demo_layout tarfs_fs dent ino name_buf]. lia.
Qed.

Lemma shell_kernel_ok :
  shell_in demo_layout 2 (loaded_kernel shell_mem) 0x400000 (mk_member (chars "bin/") [0] 5 []) shell_es
    0x3f0000 (VIRT_BASE + 0x330000) (VIRT_BASE + 0x320000) (VIRT_BASE + 0x340000) 1024 131 0x400004 64 2 (mk_phdr 5 120 0x400000 11 20).
Proof.
  constructor; rewrite ?kphys_high by lia;
    cbn [loaded_kernel n_kbd n_thr kk kmem boot_state upid process_count first_boot tl demo_layout _binary_tarfs_start].
  - lia.
  - repeat split. discriminate.
  - apply (bool_decide_eq_true_1 (cstr (with_map shell_mem) 0x320000 (chars "bin/sbush"))). vm_compute. reflexivity.
  - intros a Ha. apply demo_quiet. lia.
  - lia.
  - unfold apart. lia.
  - right. vm_compute. discriminate.
  - unfold apart, video. lia.
  - reflexivity.
  - vm_compute. reflexivity.
  - left. vm_compute. discriminate.
  - reflexivity.
  - split; [lia|]. vm_compute. discriminate.
  - constructor; vm_compute; reflexivity.
  - lia.
  - vm_compute. reflexivity.
  - lia.
  - vm_compute. reflexivity.
  - constructor; vm_compute; intuition discriminate.
  - vm_compute. discriminate.
Qed.

Lemma boot_enters_shell_witness :
  exists N' t3 s4 t', boot demo_layout 500 boot_image (loaded_kernel shell_mem) = Some N'
    /\ yield demo_layout 500 (VIRT_BASE + 0x320000) (n_thr N') = Some (t3, [], Switch (VIRT_BASE + 0x505000) (VIRT_BASE + 0x506000))
    /\ dispatch (tk t3) (replicate 13 7) (VIRT_BASE + 0x3f0000) (VIRT_BASE + (0x505000 + PCB_rip)) (VIRT_BASE + (0x506000 + PCB_rip))
       = (s4, mk_cpu (VIRT_BASE + 0x202000) (VIRT_BASE + (0x506000 + PCB_rsp)) 0 (VIRT_BASE + 0x202000))
    /\ init_entry demo_layout 500 0x201000 (VIRT_BASE + 0x330000) (VIRT_BASE + 0x340000) (VIRT_BASE + 0x320000) (with_tk t3 s4)
       = Some (t', [Msg "sbush> "; EnterUser 0x400004 0x8eee70000])
    /\ shell_pcb t' = VIRT_BASE + 0x507000
    /\ exists pa w, walk (kmem (tk t')) (cr3 (tk t')) 0x400004 = Some (mk_tr pa w true) /\ rd8 (kmem (tk t')) pa = 15.
Proof.
  destruct (boot_enters_shell demo_layout 2 0x50000 2048 boot_image (loaded_kernel shell_mem) 0x400000 1 (VIRT_BASE + 0x70014)
    boot_map (mk_member (chars "bin/") [0] 5 []) shell_es 500 0x201000 (replicate 13 7) 0x3f0000 (VIRT_BASE + 0x330000)
    (VIRT_BASE + 0x320000) (VIRT_BASE + 0x340000) 1024 131 0x400004 64 2 (mk_phdr 5 120 0x400000 11 20)
    (loaded_kernel_ok _ _ shell_mountable)) as (N' & t3 & s4 & t' & E1 & E2 & E3 & E4 & (E5 & _) & _ & _ & _ & _ & Hp & _).
  - intros a Ha. cbn [loaded_kernel n_kbd kk kmem boot_state]. rewrite with_map_other by lia. apply shell_mem_high. lia.
  - exact shell_kernel_ok.
  - cbn [length shell_es]. lia.
  - lia.
  - cbn [length boot_map]. lia.
  - reflexivity.
  - exists N', t3, s4, t'. split; [exact E1|]. split; [exact E2|]. split; [exact E3|]. split; [exact E4|]. split; [exact E5|].
    destruct (Hp 4) as (pa & w & Hw & Hb); [cbn; lia|]. exists pa, w. split; [exact Hw|]. rewrite Hb. vm_compute. reflexivity.
Defined.
