(* ===== verification/Process.v ===== *)
(** * User processes: table, scheduling, exit and wait

    [sys/process.c], the user-process part of [sys/process_helpers.c] and
    [sys/scheduler.c], and [timer_callback] of [sys/timer.c].  The two queues
    are arrays of structures that are copied by value, while [curr_upcb] is a
    pointer that may point into either queue or to a block of its own: a pointer
    is a [pref], so that a store through it is seen by every alias.  The arrays
    have [NUM_PROCS] elements and every access by index is checked: an operation
    that leaves an array gives [None].  Calls that leave the process table (address-space switches, the loader, output, jumps)
    are recorded in order in a trace. *)

From stdpp Require Import base gmap list numbers.
From Stdlib Require Import ZArith Lia.
From Stdlib Require Ascii String.
From S2P Require Import Prelude Cpu.
Import (notations) String.

Inductive proc_state_t := WAIT | SLEEPING | READY | RUNNING | DEAD | ZOMBIE.

#[export] Instance proc_state_eq_dec : EqDecision proc_state_t.
Proof. solve_decision. Defined.

Definition NUM_PROCS : Z := 64.

(** [struct task_struct], without the saved registers and the kernel stack. *)
Record task_struct := mk_task {
  pid : Z; ppid : Z; pname : list Z; state : proc_state_t; wait_pid : Z;
  stack : Z; pml4e : Z; tcr3 : Z; exit_status : Z; sleep_time : Z; entry : Z; heap_vma : Z }.

Definition zero_task : task_struct := mk_task 0 0 [] WAIT 0 0 0 0 0 0 0 0.

Definition set_state (t : task_struct) (v : proc_state_t) : task_struct :=
  mk_task (pid t) (ppid t) (pname t) v (wait_pid t) (stack t) (pml4e t) (tcr3 t)
    (exit_status t) (sleep_time t) (entry t) (heap_vma t).
Definition set_wait (t : task_struct) (v : Z) : task_struct :=
  mk_task (pid t) (ppid t) (pname t) (state t) v (stack t) (pml4e t) (tcr3 t)
    (exit_status t) (sleep_time t) (entry t) (heap_vma t).
Definition set_exit (t : task_struct) (v : Z) : task_struct :=
  mk_task (pid t) (ppid t) (pname t) (state t) (wait_pid t) (stack t) (pml4e t) (tcr3 t)
    v (sleep_time t) (entry t) (heap_vma t).
Definition set_sleep (t : task_struct) (v : Z) : task_struct :=
  mk_task (pid t) (ppid t) (pname t) (state t) (wait_pid t) (stack t) (pml4e t) (tcr3 t)
    (exit_status t) v (entry t) (heap_vma t).

(** A pointer to a task: an element of [ready_queue], one of [zombie_queue], or
    a block from [kmalloc]. *)
Inductive pref := RQ (i : Z) | ZQ (i : Z) | OBJ (a : Z).

#[export] Instance pref_eq_dec : EqDecision pref.
Proof. solve_decision. Defined.

(** Calls that leave the process table. *)
Inductive call :=
| TlbFlush (v : Z) | SetPml4 (v : Z) | LoadSegment (p : pref) | MapStack (p : pref)
| JmpUsrmode (p : pref) | Idle | LoadKrsp | JmpIsr | Int (n : Z) | SendEOI (irq : Z)
| Kprintf (fmt : String.string) (args : list Z) (name : list Z) | Store64 (a v : Z).

(** The heap region of a process. *)
Record vma := mk_vma { vm_start : Z; vm_end : Z }.

(** The globals of [sys/process.c] and of the timer.  The two queues and
    [zombies] are arrays of [NUM_PROCS] elements: they are functions of the
    index here, and every access of the code goes through the checked accessors
    below, which have no result outside the array. *)
Record pst := mk_pst {
  ready_queue : Z -> task_struct; zombie_queue : Z -> task_struct; objs : Z -> task_struct;
  curr_upcb : pref; process_count : Z; zom_count : Z; zombies : Z -> Z; idx_pcb : Z;
  vmas : Z -> vma; tick : Z; boot_done : Z; upid : Z; global_child : Z; trace : list call }.

Definition upd {A} (f : Z -> A) (i : Z) (v : A) : Z -> A := fun j => if decide (j = i) then v else f j.

Definition with_rq (s : pst) (f : Z -> task_struct) : pst :=
  mk_pst f (zombie_queue s) (objs s) (curr_upcb s) (process_count s) (zom_count s) (zombies s)
    (idx_pcb s) (vmas s) (tick s) (boot_done s) (upid s) (global_child s) (trace s).
Definition with_zq (s : pst) (f : Z -> task_struct) : pst :=
  mk_pst (ready_queue s) f (objs s) (curr_upcb s) (process_count s) (zom_count s) (zombies s)
    (idx_pcb s) (vmas s) (tick s) (boot_done s) (upid s) (global_child s) (trace s).
Definition with_objs (s : pst) (f : Z -> task_struct) : pst :=
  mk_pst (ready_queue s) (zombie_queue s) f (curr_upcb s) (process_count s) (zom_count s)
    (zombies s) (idx_pcb s) (vmas s) (tick s) (boot_done s) (upid s) (global_child s) (trace s).
Definition with_curr (s : pst) (p : pref) : pst :=
  mk_pst (ready_queue s) (zombie_queue s) (objs s) p (process_count s) (zom_count s) (zombies s)
    (idx_pcb s) (vmas s) (tick s) (boot_done s) (upid s) (global_child s) (trace s).
Definition with_count (s : pst) (n : Z) : pst :=
  mk_pst (ready_queue s) (zombie_queue s) (objs s) (curr_upcb s) n (zom_count s) (zombies s)
    (idx_pcb s) (vmas s) (tick s) (boot_done s) (upid s) (global_child s) (trace s).
Definition with_zombies (s : pst) (n : Z) (z : Z -> Z) : pst :=
  mk_pst (ready_queue s) (zombie_queue s) (objs s) (curr_upcb s) (process_count s) n z (idx_pcb s)
    (vmas s) (tick s) (boot_done s) (upid s) (global_child s) (trace s).
Definition with_idx (s : pst) (n : Z) : pst :=
  mk_pst (ready_queue s) (zombie_queue s) (objs s) (curr_upcb s) (process_count s) (zom_count s)
    (zombies s) n (vmas s) (tick s) (boot_done s) (upid s) (global_child s) (trace s).
Definition with_vmas (s : pst) (f : Z -> vma) : pst :=
  mk_pst (ready_queue s) (zombie_queue s) (objs s) (curr_upcb s) (process_count s) (zom_count s)
    (zombies s) (idx_pcb s) f (tick s) (boot_done s) (upid s) (global_child s) (trace s).
Definition with_tick (s : pst) (t : Z) : pst :=
  mk_pst (ready_queue s) (zombie_queue s) (objs s) (curr_upcb s) (process_count s) (zom_count s)
    (zombies s) (idx_pcb s) (vmas s) t (boot_done s) (upid s) (global_child s) (trace s).
Definition with_child (s : pst) (n a : Z) : pst :=
  mk_pst (ready_queue s) (zombie_queue s) (objs s) (curr_upcb s) (process_count s) (zom_count s)
    (zombies s) (idx_pcb s) (vmas s) (tick s) (boot_done s) n a (trace s).
Definition emit (s : pst) (l : list call) : pst :=
  mk_pst (ready_queue s) (zombie_queue s) (objs s) (curr_upcb s) (process_count s) (zom_count s)
    (zombies s) (idx_pcb s) (vmas s) (tick s) (boot_done s) (upid s) (global_child s) (trace s ++ l).

Definition deref (s : pst) (p : pref) : task_struct :=
  match p with
  | RQ i => ready_queue s i | ZQ i => zombie_queue s i | OBJ a => objs s a
  end.

Definition store (s : pst) (p : pref) (t : task_struct) : pst :=
  match p with
  | RQ i => with_rq s (upd (ready_queue s) i t)
  | ZQ i => with_zq s (upd (zombie_queue s) i t)
  | OBJ a => with_objs s (upd (objs s) a t)
  end.

Definition curr (s : pst) : task_struct := deref s (curr_upcb s).

(** ** The arrays *)

(** The indices of the arrays. *)
Definition slot (i : Z) : bool := (0 <=? i) && (i <? NUM_PROCS).

(** Reading and writing an element; [None] outside the array, where the code
    reaches the neighbouring objects and nothing is said about what follows. *)
Definition elt {A} (f : Z -> A) (i : Z) : option A := if slot i then Some (f i) else None.
Definition rq_at (s : pst) (i : Z) : option task_struct := elt (ready_queue s) i.
Definition zq_at (s : pst) (i : Z) : option task_struct := elt (zombie_queue s) i.
Definition zom_at (s : pst) (i : Z) : option Z := elt (zombies s) i.

Definition put_rq (s : pst) (i : Z) (t : task_struct) : option pst :=
  if slot i then Some (store s (RQ i) t) else None.
Definition put_zq (s : pst) (i : Z) (t : task_struct) : option pst :=
  if slot i then Some (store s (ZQ i) t) else None.
Definition put_zombie (s : pst) (i p : Z) : option pst :=
  if slot i then Some (with_zombies s (zom_count s) (upd (zombies s) i p)) else None.

(** ** Queues *)

(** The queues come from [kmalloc], which clears them. *)
Definition init_queues (s : pst) : pst := with_zq (with_rq s (fun _ => zero_task)) (fun _ => zero_task).

Definition add_to_ready_list_user (s : pst) (pcb : pref) : option pst :=
  let uproc_count_list := process_count s in
  s' ← put_rq s (uproc_count_list - 1) (deref s pcb);
  Some (if uproc_count_list =? 1 then with_curr s' (RQ (uproc_count_list - 1)) else s').

(** [while (ready_queue[idx_pcb].state != READY) idx_pcb++;] *)
Fixpoint skip_not_ready (fuel : nat) (s : pst) : option pst :=
  match fuel with
  | O => None
  | S f =>
      t ← rq_at s (idx_pcb s);
      if decide (state t = READY) then Some s
      else skip_not_ready f (with_idx s (u16 (idx_pcb s + 1)))
  end.

(** [SCHEDULE_POLICY] is defined, so the count is not decremented. *)
Definition move_to_next_pcb (fuel : nat) (s : pst) : option pst :=
  let none := Some (emit s [Kprintf "Error: No processes to move to\n" [] []]) in
  let i := idx_pcb s in
  if negb (process_count s =? 0) then
    this ← rq_at s i;
    next ← rq_at s (i + 1);
    if negb (pid this =? pid next) then
      s ← put_rq s i next;
      s ← skip_not_ready fuel (with_idx s (u16 (i + 1)));
      t ← rq_at s (idx_pcb s);
      Some (if pid t =? 0 then s else with_curr s (RQ (idx_pcb s)))
    else none
  else none.

Definition get_pid (s : pst) : Z := pid (curr s).
Definition get_ppid (s : pst) : Z := ppid (curr s).

(** ** The scheduler *)

(** The loop over [i]; [None] is an index outside the queue, a division by zero
    or a loop that has not ended. *)
Fixpoint parent_scan (fuel : nat) (s : pst) (i : Z) : option Z :=
  match fuel with
  | O => None
  | S f =>
      p ← rq_at s (u32 (i - 1));
      if negb (ppid (curr s) =? pid p) && negb (pid p =? 0) then
        if i =? u32 (process_count s - 1) then Some i
        else if process_count s =? 0 then None
        else if i mod process_count s =? 0 then parent_scan f s 1
        else parent_scan f s (u32 (i + 1))
      else Some i
  end.

Fixpoint child_scan (fuel : nat) (s : pst) (j : Z) : option Z :=
  match fuel with
  | O => None
  | S f =>
      p ← rq_at s j;
      if negb (pid (curr s) =? ppid p) && negb (pid p =? 0) then child_scan f s (u32 (j + 1))
      else Some j
  end.

(** The common tail: make [p] current and enter it. *)
Definition switch_to (s : pst) (p : pref) : pst :=
  let s := with_curr s p in
  emit s [TlbFlush (tcr3 (curr s)); SetPml4 (pml4e (curr s)); LoadSegment p; MapStack p; JmpUsrmode p].

Definition usr_schedule (fuel : nat) (s : pst) : option pst :=
  i ← parent_scan fuel s (process_count s);
  j ← (if i =? u32 (process_count s - 1) then child_scan fuel s 0 else Some 0);
  let i := u32 (i - 1) in
  p ← rq_at s i;
  if ppid (curr s) =? pid p then Some (switch_to s (RQ i))
  else
    c ← rq_at s j;
    if pid (curr s) =? ppid c then Some (switch_to s (RQ j)) else Some (emit s [Idle]).

Definition timer_callback (fuel : nat) (s : pst) : option pst :=
  let s := emit s [SendEOI 0] in
  let s := with_tick s (u32 (tick s + 1)) in
  if (tick s mod 160 =? 0) && negb (boot_done s =? 0) && (1 <? process_count s)
  then usr_schedule fuel s else Some s.

(** ** Exit *)

(** [while (i <= process_count)]: the index at which the search stops. *)
Fixpoint find_pid (n : nat) (s : pst) (i : Z) : option Z :=
  match n with
  | O => Some i
  | S n => t ← rq_at s i; if pid t =? pid (curr s) then Some i else find_pid n s (i + 1)
  end.

(** [while ((i + 1) <= process_count) { ready_queue[i] = ready_queue[i+1]; i++; }] *)
Fixpoint shift_down (n : nat) (s : pst) (i : Z) : option pst :=
  match n with
  | O => Some s
  | S n => t ← rq_at s (i + 1); s ← put_rq s i t; shift_down n s (i + 1)
  end.

(** The loop over [zombies] when the status is one. *)
Fixpoint reap_zombies (n : nat) (s : pst) (z : Z) : option pst :=
  match n with
  | O => Some s
  | S n =>
      if z <=? zom_count s then
        k ← zom_at s z;
        t ← zq_at s k;
        if pid t =? pid (curr s)
        then t' ← zq_at s (u64 (k + 1)); s ← put_zq s k t'; reap_zombies n s (z + 2)
        else reap_zombies n s (z + 1)
      else Some s
  end.

(** [while (j < process_count)]: make the parent current. *)
Fixpoint to_parent (n : nat) (s : pst) (j : Z) : option pst :=
  match n with
  | O => Some s
  | S n => t ← rq_at s j; if pid t =? ppid (curr s) then Some (with_curr s (RQ j)) else to_parent n s (j + 1)
  end.

(** The stores before the search: the process is marked and copied to the
    zombie queue, and its number is noted. *)
Definition mark_zombie (s : pst) (st : Z) : option pst :=
  let s := store s (curr_upcb s) (set_state (curr s) ZOMBIE) in
  t ← zq_at s (pid (curr s));
  s ← put_zq s (pid (curr s)) (set_exit t st);
  s ← put_zq s (pid (curr s)) (curr s);
  if st =? 0 then
    let s := with_zombies s (u16 (zom_count s + 1)) (zombies s) in
    put_zombie s (zom_count s) (pid (curr s))
  else put_zombie s (zom_count s) (pid (curr s)).

(** The search for the process in the ready queue and the closing of the gap. *)
Definition leave_queue (s : pst) : option pst :=
  i ← find_pid (Z.to_nat (process_count s)) s 1;
  if i <? process_count s then shift_down (Z.to_nat (process_count s - i)) s i else Some s.

(** [state] is an [int]. *)
Definition exit_process (s : pst) (st : Z) : option pst :=
  s ← mark_zombie s st;
  s ← leave_queue s;
  if st =? 1 then
    s ← reap_zombies (S (Z.to_nat (zom_count s))) s 0;
    Some (with_zombies s (u16 (zom_count s - 1)) (zombies s))
  else
    let s := with_count s (u16 (process_count s - 1)) in
    s ← to_parent (Z.to_nat (process_count s)) s 0;
    Some (emit s [LoadKrsp; JmpIsr]).

(** [while (i != pid && i < pid) i++;] with [int i]: [None] is the overflow of
    [i] past [INT_MAX], which has no meaning in C. *)
Fixpoint kill_search (n : nat) (p i : Z) : option Z :=
  match n with
  | O => None
  | S n =>
      if negb (i =? p) && (i <? p)
      then if i =? 2 ^ 31 - 1 then None else kill_search n p (i + 1)
      else Some i
  end.

(** [pid] is unsigned. *)
Definition kill_process (s : pst) (p : Z) : option pst :=
  let kill_proc := curr_upcb s in
  s ← (if p <=? 0 then Some (emit s [Kprintf "\nFailed to kill the process\n" [] []])
       else
         i ← kill_search (S (Z.to_nat p)) p 0;
         if i =? p then
           t ← zq_at s i;
           if pid t =? p then exit_process (with_curr s (ZQ i)) 1
           else Some (emit s [Kprintf "\nWrong pid\n" [] []])
         else Some (emit s [Kprintf "Cannot find the process\n" [] []]));
  Some (with_curr s kill_proc).

(** [_sleep] saves the stack pointer and enters the kernel thread. *)
Definition sleep_proc (s : pst) (time : Z) : pst :=
  let s := store s (curr_upcb s) (set_sleep (curr s) (s32 time)) in
  emit s [LoadKrsp; JmpIsr].

(** ** Wait *)

(** The search of [syswaitpid]: the first [i] from 1 to [process_count] that
    satisfies the test, or [process_count + 1]. *)
Fixpoint wait_search (n : nat) (s : pst) (test : task_struct -> bool) (i : Z) : option Z :=
  match n with
  | O => Some i
  | S n => t ← rq_at s i; if test t then Some i else wait_search n s test (i + 1)
  end.

(** [p] is [int pid]; the comparison with the unsigned field converts it. *)
Definition syswaitpid (s : pst) (p status : Z) : option (Z * pst) :=
  let pcb := curr_upcb s in
  let me := pid (curr s) in
  let n := Z.to_nat (process_count s) in
  if p <? 0 then
    i ← wait_search n s (fun t => ppid t =? me) 1;
    let child := RQ i in
    if process_count s <? i then Some (0, s)
    else
      let s := store s pcb (set_wait (deref s pcb) (pid (deref s child))) in
      if decide (state (deref s child) = ZOMBIE) then
        z ← zq_at s (pid (deref s child)); Some (exit_status z, s)
      else
        let s := store s pcb (set_state (deref s pcb) WAIT) in
        let s := store s pcb (set_wait (deref s pcb) (pid (deref s child))) in
        Some (0, emit s [Int 0x81])
  else
    i ← wait_search n s (fun t => pid t =? p) 1;
    let child := RQ i in
    if process_count s <? i then
      let s := store s pcb (set_wait (deref s pcb) 0) in
      Some (0, store s pcb (set_state (deref s pcb) READY))
    else
      let s := store s pcb (set_state (deref s pcb) WAIT) in
      let s := store s pcb (set_wait (deref s pcb) (pid (deref s child))) in
      if decide (state (deref s child) = ZOMBIE) then
        z ← zq_at s (pid (deref s child));
        let s := store s pcb (set_wait (deref s pcb) 0) in
        Some (exit_status z, store s pcb (set_state (deref s pcb) READY))
      else
        let s := store s pcb (set_state (deref s pcb) WAIT) in
        let s := store s pcb (set_wait (deref s pcb) (pid (deref s child))) in
        Some (0, emit s [Int 0x81]).

(** ** Heap, listing, shutdown *)

Definition malloc (s : pst) (size : Z) : Z * pst :=
  let h := heap_vma (curr s) in
  let v := vmas s h in
  let old := vm_end v in
  let s := with_vmas s (upd (vmas s) h (mk_vma (vm_start v) (u64 (vm_end v + size)))) in
  let s := emit s [Store64 old 0] in
  let v := vmas s h in
  if 4096 <? u64 (vm_end v - vm_start v) then (0, s) else (old, s).

Definition dp_line (fmt : String.string) (t : task_struct) : call :=
  Kprintf fmt [pid t; ppid t] (pname t).

Definition dp (s : pst) : option pst :=
  ready ← mapM (fun i => dp_line "\npid %d ppid %d name %s\n" <$> rq_at s i) (seqZ 0 (process_count s));
  dead ← mapM (fun i => k ← zom_at s i; dp_line "pid %d ppid %d name %s\n" <$> zq_at s k)
           (seqZ 0 (zom_count s));
  Some (emit s (ready ++ dead)).

(** The body of [while (num--)], with [process_count] cleared by the first
    iteration. *)
Fixpoint shutdown_loop (num : nat) (s : pst) (i : Z) : option pst :=
  match num with
  | O => Some s
  | S num =>
      s' ← (if i <? process_count s then shift_down (Z.to_nat (process_count s - i)) s i else Some s);
      let i' := if i <? process_count s then process_count s else i in
      shutdown_loop num (with_count s' 0) i'
  end.

Definition kshutdown (s : pst) : option pst :=
  shutdown_loop (Z.to_nat (process_count s)) (emit s [LoadKrsp]) 1.

(** ** Lemmas on the queues *)

Lemma upd_eq {A} (f : Z -> A) i v : upd f i v i = v.
Proof. unfold upd. rewrite decide_True by reflexivity. reflexivity. Qed.

Lemma upd_ne {A} (f : Z -> A) i j v : j <> i -> upd f i v j = f j.
Proof. intros. unfold upd. rewrite decide_False by assumption. reflexivity. Qed.

(** The live processes, in queue order. *)
Definition procs (s : pst) : list task_struct := ready_queue s <$> seqZ 0 (process_count s).

Lemma slot_true i : slot i = true <-> 0 <= i < NUM_PROCS.
Proof. unfold slot. rewrite andb_true_iff, Z.leb_le, Z.ltb_lt. reflexivity. Qed.

Lemma elt_in {A} (f : Z -> A) i : 0 <= i < NUM_PROCS -> elt f i = Some (f i).
Proof. intros H. unfold elt. rewrite (proj2 (slot_true i) H). reflexivity. Qed.

Lemma elt_some {A} (f : Z -> A) i v : elt f i = Some v -> 0 <= i < NUM_PROCS /\ v = f i.
Proof.
  unfold elt. destruct (slot i) eqn:E; [|discriminate]. apply slot_true in E. intros [= <-].
  split; [exact E|reflexivity].
Qed.

Lemma rq_in s i : 0 <= i < NUM_PROCS -> rq_at s i = Some (ready_queue s i).
Proof. apply elt_in. Qed.

Lemma zq_in s i : 0 <= i < NUM_PROCS -> zq_at s i = Some (zombie_queue s i).
Proof. apply elt_in. Qed.

(** A store into a queue stays inside it. *)
Lemma put_rq_in s i t : 0 <= i < NUM_PROCS -> put_rq s i t = Some (store s (RQ i) t).
Proof. intros H. unfold put_rq. rewrite (proj2 (slot_true i) H). reflexivity. Qed.

Lemma put_rq_some s i t s' : put_rq s i t = Some s' -> 0 <= i < NUM_PROCS /\ s' = store s (RQ i) t.
Proof.
  unfold put_rq. destruct (slot i) eqn:E; [|discriminate]. apply slot_true in E. intros [= <-].
  split; [exact E|reflexivity].
Qed.

Lemma put_zq_some s i t s' : put_zq s i t = Some s' -> 0 <= i < NUM_PROCS /\ s' = store s (ZQ i) t.
Proof.
  unfold put_zq. destruct (slot i) eqn:E; [|discriminate]. apply slot_true in E. intros [= <-].
  split; [exact E|reflexivity].
Qed.

(** Steps of the option monad, read backwards. *)
Lemma bind_inv {A B} (x : option A) (f : A -> option B) (r : B) :
  (v ← x; f v) = Some r -> exists v, x = Some v /\ f v = Some r.
Proof. destruct x as [v|]; cbn; [|discriminate]. intros H. exists v. split; [reflexivity|exact H]. Qed.

Ltac unbind H v E := apply bind_inv in H as (v & E & H).

(** ** Searches and copies in the queue *)

(** The queue after the elements behind [i] have moved down by one. *)
Lemma shift_down_some n s i s' :
  shift_down n s i = Some s' ->
  s' = with_rq s (ready_queue s') /\ ((0 < n)%nat -> i + Z.of_nat n < NUM_PROCS) /\
  forall j, ready_queue s' j =
    if decide (i <= j < i + Z.of_nat n) then ready_queue s (j + 1) else ready_queue s j.
Proof.
  revert s i. induction n as [|n IH]; intros s i; cbn [shift_down].
  - intros [= <-]. split; [destruct s; reflexivity|]. split; [lia|]. intros j. rewrite decide_False by lia. reflexivity.
  - intros H. unbind H t Et. unbind H s1 E1.
    apply elt_some in Et as [Hb ->]. apply put_rq_some in E1 as [_ ->].
    apply IH in H as (E & Hn & Hq). split; [rewrite E; destruct s; reflexivity|]. split; [destruct n; lia|].
    intros j. rewrite Hq. cbn [store ready_queue with_rq].
    destruct (decide (j = i)) as [->|Hne].
    + rewrite decide_False, decide_True by lia. apply upd_eq.
    + destruct (decide (i + 1 <= j < i + 1 + Z.of_nat n)).
      * rewrite decide_True, upd_ne by lia. reflexivity.
      * rewrite decide_False, upd_ne by lia. reflexivity.
Qed.

Lemma shift_down_in n s i :
  0 <= i -> i + Z.of_nat n < NUM_PROCS -> is_Some (shift_down n s i).
Proof.
  revert s i. induction n as [|n IH]; intros s i Hi Hn; cbn [shift_down]; [eexists; reflexivity|].
  rewrite rq_in by lia. cbn [mbind option_bind]. rewrite put_rq_in by lia. cbn [mbind option_bind].
  apply IH; lia.
Qed.

(** A search that returns has stopped at the first element that passes the test,
    or behind the last one it looks at. *)
Lemma wait_search_some n s test i j :
  wait_search n s test i = Some j ->
  i <= j <= i + Z.of_nat n /\ (forall k, i <= k < j -> test (ready_queue s k) = false) /\
  (j < i + Z.of_nat n -> test (ready_queue s j) = true).
Proof.
  revert i. induction n as [|n IH]; intros i; cbn [wait_search].
  - intros [= <-]. split; [lia|split; intros; lia].
  - intros H. unbind H t Et. apply elt_some in Et as [_ ->].
    destruct (test (ready_queue s i)) eqn:E.
    + injection H as <-. split; [lia|split; [intros; lia|intros _; exact E]].
    + apply IH in H as (H1 & H2 & H3). split; [lia|split; [|intros; apply H3; lia]].
      intros k Hk. destruct (decide (k = i)) as [->|]; [exact E|apply H2; lia].
Qed.

Lemma wait_search_in n s test i :
  0 <= i -> i + Z.of_nat n <= NUM_PROCS -> is_Some (wait_search n s test i).
Proof.
  revert i. induction n as [|n IH]; intros i Hi Hn; cbn [wait_search]; [eexists; reflexivity|].
  rewrite rq_in by lia. cbn [mbind option_bind]. case_match; [eexists; reflexivity|apply IH; lia].
Qed.

Lemma wait_search_stops n s test i k :
  0 <= i -> test (ready_queue s (i + Z.of_nat k)) = true -> (k < n)%nat ->
  i + Z.of_nat k < NUM_PROCS ->
  (forall j, i <= j < i + Z.of_nat k -> test (ready_queue s j) = false) ->
  wait_search n s test i = Some (i + Z.of_nat k).
Proof.
  revert i k. induction n as [|n IH]; intros i k Hi Hk Hn Hs Hb; [lia|]. cbn [wait_search].
  rewrite rq_in by lia. cbn [mbind option_bind]. destruct k as [|k].
  - replace (i + Z.of_nat 0) with i in * by lia. rewrite Hk. reflexivity.
  - rewrite Hb by lia.
    rewrite (IH (i + 1) k); [f_equal; lia|lia|rewrite <- Hk; do 2 f_equal; lia|lia|lia|intros; apply Hb; lia].
Qed.

(** The searches of [exit_process] are the one of [syswaitpid] with other tests. *)
Lemma find_pid_search n s i :
  find_pid n s i = wait_search n s (fun t => pid t =? pid (curr s)) i.
Proof.
  revert i. induction n as [|n IH]; intros i; cbn [find_pid wait_search]; [reflexivity|].
  destruct (rq_at s i); cbn [mbind option_bind]; [|reflexivity]. rewrite IH. reflexivity.
Qed.

Lemma to_parent_search n s i :
  to_parent n s i =
  (k ← wait_search n s (fun t => pid t =? ppid (curr s)) i;
   Some (if k <? i + Z.of_nat n then with_curr s (RQ k) else s)).
Proof.
  revert i. induction n as [|n IH]; intros i; cbn [to_parent wait_search].
  - cbn. rewrite Z.ltb_irrefl || rewrite (proj2 (Z.ltb_ge _ _)) by lia. reflexivity.
  - destruct (rq_at s i) as [t|]; cbn [mbind option_bind]; [|reflexivity].
    destruct (pid t =? ppid (curr s)).
    + cbn. rewrite (proj2 (Z.ltb_lt _ _)) by lia. reflexivity.
    + rewrite IH. replace (i + 1 + Z.of_nat n) with (i + Z.of_nat (S n)) by lia. reflexivity.
Qed.

(** ** The scheduler *)

(** Queue positions in the order in which the scheduler looks for the parent. *)
Definition scan_order (n : Z) : list Z := (n - 1) :: seqZ 0 (n - 1).

Definition first (P : Z -> bool) (l : list Z) : option Z := head (filter P l).

Lemma first_cons P i l : first P (i :: l) = if P i then Some i else first P l.
Proof. unfold first. rewrite filter_cons. destruct (P i); reflexivity. Qed.

Definition is_parent (s : pst) (k : Z) : bool := ppid (curr s) =? pid (ready_queue s k).
Definition is_child (s : pst) (k : Z) : bool := pid (curr s) =? ppid (ready_queue s k).

(** What the scheduler should do: run the parent, else a child, else idle. *)
Definition sched_spec (s : pst) : pst :=
  match first (is_parent s) (scan_order (process_count s)) with
  | Some k => switch_to s (RQ k)
  | None =>
      match first (is_child s) (seqZ 0 (process_count s)) with
      | Some k => switch_to s (RQ k)
      | None => emit s [Idle]
      end
  end.

(** A queue of at least two processes, none with pid 0, followed by an unused
    slot. *)
Record live_queue (s : pst) : Prop := {
  lq_count : 2 <= process_count s < NUM_PROCS;
  lq_live : forall k, 0 <= k < process_count s -> pid (ready_queue s k) <> 0;
  lq_end : ready_queue s (process_count s) = zero_task;
  lq_curr : pid (curr s) <> 0 }.

(** What the searches need to end: the numbers only. *)
Record scan_queue (s : pst) : Prop := {
  sq_count : 2 <= process_count s < NUM_PROCS;
  sq_live : forall k, 0 <= k < process_count s -> pid (ready_queue s k) <> 0;
  sq_end : pid (ready_queue s (process_count s)) = 0 }.

Lemma live_scan s : live_queue s -> scan_queue s.
Proof. intros [Hc Hl He _]. constructor; [exact Hc|exact Hl|rewrite He; reflexivity]. Qed.

(** The queue positions of a live queue. *)
Ltac in_queue := rewrite rq_in by (unfold NUM_PROCS; lia); cbn [mbind option_bind].

Lemma parent_scan_up s n fuel i :
  scan_queue s -> 1 <= i -> i + Z.of_nat n = process_count s - 1 -> (n < fuel)%nat ->
  parent_scan fuel s i =
  Some (match first (is_parent s) (seqZ (i - 1) (Z.of_nat (S n))) with
        | Some k => k + 1 | None => process_count s - 1 end).
Proof.
  intros [Hc Hl _]. unfold NUM_PROCS in Hc. revert fuel i.
  induction n as [|n IH]; intros [|fuel] i Hi Hn Hf; try lia; cbn [parent_scan];
    rewrite (seqZ_cons (i - 1)), first_cons by lia; unfold is_parent at 1;
    rewrite !u32_small by lia; in_queue; rewrite (proj2 (Z.eqb_neq (pid (ready_queue s (i - 1))) 0)) by (apply Hl; lia);
    destruct (ppid (curr s) =? pid (ready_queue s (i - 1))); cbn [negb andb]; try (f_equal; lia).
  - rewrite (proj2 (Z.eqb_eq i _)) by lia.
    rewrite seqZ_nil by lia. cbn. f_equal. lia.
  - rewrite (proj2 (Z.eqb_neq i _)), (proj2 (Z.eqb_neq (process_count s) 0)) by lia.
    rewrite Z.mod_small by lia. rewrite (proj2 (Z.eqb_neq i 0)) by lia.
    rewrite IH by lia. replace (Z.succ (i - 1)) with (i + 1 - 1) by lia.
    replace (Z.pred (Z.of_nat (S (S n)))) with (Z.of_nat (S n)) by lia. reflexivity.
Qed.

Lemma parent_scan_spec s fuel :
  scan_queue s -> (Z.to_nat (process_count s) < fuel)%nat ->
  parent_scan fuel s (process_count s) =
  Some (match first (is_parent s) (scan_order (process_count s)) with
        | Some k => k + 1 | None => process_count s - 1 end).
Proof.
  intros Hq Hf. pose proof Hq as [Hc Hl _]. unfold NUM_PROCS in Hc.
  destruct fuel as [|fuel]; [lia|]. cbn [parent_scan].
  unfold scan_order. rewrite first_cons. unfold is_parent at 1. rewrite !u32_small by lia. in_queue.
  rewrite (proj2 (Z.eqb_neq (pid (ready_queue s (process_count s - 1))) 0)) by (apply Hl; lia).
  destruct (_ =? _); cbn [negb andb]; [f_equal; lia|].
  rewrite (proj2 (Z.eqb_neq (process_count s) _)), (proj2 (Z.eqb_neq (process_count s) 0)) by lia.
  rewrite Z.mod_same by lia. cbn [Z.eqb].
  rewrite (parent_scan_up s (Z.to_nat (process_count s - 2))) by (assumption || lia).
  replace (1 - 1) with 0 by lia.
  replace (Z.of_nat (S (Z.to_nat (process_count s - 2)))) with (process_count s - 1) by lia. reflexivity.
Qed.

Lemma child_scan_up s n fuel j :
  scan_queue s -> 0 <= j -> j + Z.of_nat n = process_count s -> (n < fuel)%nat ->
  child_scan fuel s j =
  Some (match first (is_child s) (seqZ j (Z.of_nat n)) with
        | Some k => k | None => process_count s end).
Proof.
  intros [Hc Hl He]. unfold NUM_PROCS in Hc. revert fuel j.
  induction n as [|n IH]; intros [|fuel] j Hj Hn Hf; try lia; cbn [child_scan].
  - replace j with (process_count s) by lia. in_queue. rewrite He. cbn [Z.eqb negb].
    rewrite andb_false_r. reflexivity.
  - rewrite (seqZ_cons j), first_cons by lia. unfold is_child at 1. in_queue.
    rewrite (proj2 (Z.eqb_neq (pid (ready_queue s j)) 0)) by (apply Hl; lia).
    destruct (_ =? _); cbn [negb andb]; [reflexivity|].
    rewrite u32_small by lia. rewrite IH by lia.
    replace (Z.succ j) with (j + 1) by lia.
    replace (Z.pred (Z.of_nat (S n))) with (Z.of_nat n) by lia. reflexivity.
Qed.

Lemma first_spec P l k : first P l = Some k -> P k = true /\ k ∈ l.
Proof.
  unfold first. intros H. apply head_Some_elem_of in H. apply list_elem_of_filter in H as [H1 H2].
  split; [|exact H2]. destruct (P k); [reflexivity|contradiction].
Qed.

Lemma first_none P l k : first P l = None -> k ∈ l -> P k = false.
Proof.
  unfold first. intros H Hk. apply head_None in H.
  destruct (P k) eqn:E; [|reflexivity]. exfalso.
  assert (Hin : k ∈ filter P l) by (apply list_elem_of_filter; rewrite E; split; [exact I|exact Hk]).
  rewrite H in Hin. inversion Hin.
Qed.

Lemma usr_schedule_spec s fuel :
  live_queue s -> (Z.to_nat (process_count s) < fuel)%nat ->
  usr_schedule fuel s = Some (sched_spec s).
Proof.
  intros Hq Hf. pose proof Hq as [Hc Hl He Hp]. unfold NUM_PROCS in Hc.
  pose proof (live_scan s Hq) as Hsq.
  unfold usr_schedule, sched_spec. rewrite parent_scan_spec by assumption.
  cbn [mbind option_bind]. cbv zeta.
  rewrite (u32_small (process_count s - 1)) by lia.
  assert (Hcs : child_scan fuel s 0 =
     Some (match first (is_child s) (seqZ 0 (process_count s)) with
           | Some k => k | None => process_count s end)).
  { rewrite (child_scan_up s (Z.to_nat (process_count s))) by (assumption || lia).
    rewrite Z2Nat.id by lia. reflexivity. }
  destruct (first (is_parent s) (scan_order (process_count s))) as [k|] eqn:Ek.
  - apply first_spec in Ek as [Hk Hin]. unfold is_parent in Hk.
    assert (0 <= k < process_count s).
    { unfold scan_order in Hin. apply elem_of_cons in Hin as [->|Hin]; [lia|].
      apply elem_of_seqZ in Hin. lia. }
    rewrite Hcs. replace (u32 (k + 1 - 1)) with k by (rewrite u32_small by lia; lia).
    destruct (k + 1 =? process_count s - 1); cbn [mbind option_bind];
      rewrite (rq_in s k) by (unfold NUM_PROCS; lia); cbn [mbind option_bind]; rewrite Hk; reflexivity.
  - rewrite Z.eqb_refl, Hcs. cbn [mbind option_bind]. rewrite u32_small by lia.
    rewrite (rq_in s (process_count s - 1 - 1)) by (unfold NUM_PROCS; lia). cbn [mbind option_bind].
    assert (Hnp : is_parent s (process_count s - 1 - 1) = false).
    { apply (first_none _ _ _ Ek). unfold scan_order. apply elem_of_cons. right.
      apply elem_of_seqZ. lia. }
    unfold is_parent in Hnp. rewrite Hnp.
    destruct (first (is_child s) _) as [j|] eqn:Ej.
    + apply first_spec in Ej as [Hj Hin]. apply elem_of_seqZ in Hin. unfold is_child in Hj.
      in_queue. rewrite Hj. reflexivity.
    + in_queue. rewrite He. cbn [zero_task ppid]. rewrite (proj2 (Z.eqb_neq _ 0)) by exact Hp. reflexivity.
Qed.

(** The decision is taken whatever the current process is. *)
Lemma usr_schedule_returns s fuel :
  scan_queue s -> (Z.to_nat (process_count s) < fuel)%nat -> is_Some (usr_schedule fuel s).
Proof.
  intros Hq Hf. pose proof Hq as [Hc Hl He]. unfold NUM_PROCS in Hc.
  unfold usr_schedule. rewrite parent_scan_spec by assumption. cbn [mbind option_bind]. cbv zeta.
  set (i := match first (is_parent s) _ with Some k => k + 1 | None => process_count s - 1 end).
  assert (Hi : 1 <= i <= process_count s).
  { subst i. destruct (first _ _) as [k|] eqn:E; [|lia]. apply first_spec in E as [_ Hin].
    unfold scan_order in Hin. apply elem_of_cons in Hin as [->|Hin]; [lia|]. apply elem_of_seqZ in Hin. lia. }
  clearbody i. rewrite (child_scan_up s (Z.to_nat (process_count s))) by (assumption || lia).
  set (j := match first (is_child s) _ with Some k => k | None => process_count s end).
  assert (Hj : 0 <= j <= process_count s).
  { subst j. destruct (first _ _) as [k|] eqn:E; [|lia]. apply first_spec in E as [_ Hin].
    apply elem_of_seqZ in Hin. lia. }
  clearbody j. rewrite !(u32_small (i - 1)), (rq_in s (i - 1)) by (unfold NUM_PROCS; lia).
  destruct (i =? _); cbn [mbind option_bind]; (destruct (_ =? _); [eexists; reflexivity|]);
    in_queue; destruct (_ =? _); eexists; reflexivity.
Qed.

(** C15: with a live queue the scheduler terminates within one pass over the
    queue and implements its policy: it runs the parent of the current process
    if the queue holds it (the last entry is tried first, then the others from
    the start), otherwise the first child, otherwise it idles. *)
Theorem usr_schedule_policy s fuel :
  live_queue s -> (Z.to_nat (process_count s) < fuel)%nat ->
  usr_schedule fuel s = Some (sched_spec s).
Proof. intros Hq Hf. apply usr_schedule_spec; assumption. Qed.

(** A shell (pid 1) with two children, the second of them running. *)
Definition demo_task (p pp : Z) : task_struct := mk_task p pp [] READY 0 0 0 0 7 0 0 0.

Definition demo_pst (c : pref) : pst :=
  mk_pst (fun i => if i =? 0 then demo_task 1 0 else if i =? 1 then demo_task 2 1
                   else if i =? 2 then demo_task 3 1 else zero_task)
    (fun _ => zero_task) (fun _ => demo_task 3 1) c 3 0 (fun _ => 0) 0 (fun _ => mk_vma 0 0) 0 1 3 9 [].

Lemma demo_live : live_queue (demo_pst (RQ 2)).
Proof.
  constructor; [vm_compute; intuition discriminate| |reflexivity|vm_compute; discriminate].
  intros k Hk. cbn in Hk. cbn. assert (k = 0 \/ k = 1 \/ k = 2) as [-> | [-> | ->]] by lia;
    vm_compute; discriminate.
Qed.

Lemma usr_schedule_policy_witness :
  usr_schedule 10 (demo_pst (RQ 2)) = Some (switch_to (demo_pst (RQ 2)) (RQ 0)).
Proof.
  replace (switch_to (demo_pst (RQ 2)) (RQ 0)) with (sched_spec (demo_pst (RQ 2)))
    by (vm_compute; reflexivity).
  apply (usr_schedule_policy (demo_pst (RQ 2)) 10 demo_live). vm_compute. lia.
Defined.

(** ** Exit and wait *)

(** The state in which [exit_process] searches the queue: the process is marked
    and copied to the zombie queue. *)
Definition marked (s : pst) (st : Z) : pst :=
  let s := store s (curr_upcb s) (set_state (curr s) ZOMBIE) in
  let s := store s (ZQ (pid (curr s))) (set_exit (zombie_queue s (pid (curr s))) st) in
  let s := store s (ZQ (pid (curr s))) (curr s) in
  let z := if st =? 0 then u16 (zom_count s + 1) else zom_count s in
  with_zombies s z (upd (zombies s) z (pid (curr s))).

(** The entry of [zombies] that is written. *)
Definition zom_index (s : pst) (st : Z) : Z := if st =? 0 then u16 (zom_count s + 1) else zom_count s.

Lemma deref_store s p t : deref (store s p t) p = t.
Proof. destruct p; cbn; apply upd_eq. Qed.

Lemma store_curr s p t : curr_upcb (store s p t) = curr_upcb s.
Proof. destruct p; reflexivity. Qed.

Lemma store_zom s p t : zom_count (store s p t) = zom_count s.
Proof. destruct p; reflexivity. Qed.

(** Storing the entry of a zombie may change the current structure itself, but
    not its number. *)
Lemma store_pid s p t q : pid t = pid (deref s p) -> pid (deref (store s p t) q) = pid (deref s q).
Proof.
  intros H. destruct (decide (q = p)) as [->|Hn]; [rewrite deref_store; exact H|].
  destruct p, q; cbn; try reflexivity; rewrite upd_ne by congruence; reflexivity.
Qed.

Lemma curr_set_state s v : curr (store s (curr_upcb s) (set_state (curr s) v)) = set_state (curr s) v.
Proof. unfold curr at 1. rewrite store_curr. apply deref_store. Qed.

Lemma curr_set_exit s k st :
  pid (curr (store s (ZQ k) (set_exit (zombie_queue s k) st))) = pid (curr s).
Proof. unfold curr. rewrite store_curr. apply store_pid. reflexivity. Qed.

(** [mark_zombie] succeeds exactly when its two indices are inside the arrays. *)
Lemma mark_zombie_iff s st s' :
  mark_zombie s st = Some s' <->
  0 <= pid (curr s) < NUM_PROCS /\ 0 <= zom_index s st < NUM_PROCS /\ s' = marked s st.
Proof.
  unfold mark_zombie, marked, zom_index.
  set (s1 := store s (curr_upcb s) _).
  assert (E1 : curr s1 = set_state (curr s) ZOMBIE) by apply curr_set_state.
  assert (Z1 : zom_count s1 = zom_count s) by apply store_zom.
  rewrite E1. cbn [set_state pid]. clearbody s1. cbv zeta.
  set (k := pid (curr s)) in *. set (s2 := store s1 (ZQ k) _).
  assert (E2 : pid (curr s2) = k) by (unfold s2; rewrite curr_set_exit, E1; reflexivity).
  assert (Z2 : zom_count s2 = zom_count s) by (unfold s2; rewrite store_zom; exact Z1).
  unfold zq_at, elt, put_zq, put_zombie. destruct (slot k) eqn:Ek; cbn [mbind option_bind].
  2: { split; [discriminate|]. intros (H & _). apply slot_true in H. congruence. }
  apply slot_true in Ek. fold s2. clearbody s2. rewrite E2, (proj2 (slot_true k) Ek). cbn [mbind option_bind].
  set (s3 := store s2 (ZQ k) (curr s2)).
  assert (Z3 : zom_count s3 = zom_count s) by (unfold s3; rewrite store_zom; exact Z2).
  clearbody s3. cbn [with_zombies zom_count]. rewrite Z3.
  destruct (st =? 0); (destruct (slot _) eqn:E; [apply slot_true in E|]).
  1, 3: split; [intros [= <-]; split; [exact Ek|split; [exact E|destruct s3; reflexivity]]
               |intros (_ & _ & ->); destruct s3; reflexivity].
  all: split; [discriminate|]; intros (_ & H & _); apply slot_true in H; congruence.
Qed.

Lemma marked_curr s st : curr_upcb (marked s st) = curr_upcb s /\ pid (curr (marked s st)) = pid (curr s).
Proof.
  unfold marked. set (s1 := store s (curr_upcb s) (set_state (curr s) ZOMBIE)).
  assert (U1 : curr_upcb s1 = curr_upcb s) by apply store_curr.
  assert (P1 : pid (curr s1) = pid (curr s)) by (unfold s1; rewrite curr_set_state; reflexivity).
  clearbody s1. rewrite P1. set (k := pid (curr s)) in *. set (s2 := store s1 (ZQ k) _).
  assert (U2 : curr_upcb s2 = curr_upcb s) by exact U1.
  assert (P2 : pid (curr s2) = k) by (unfold s2; rewrite curr_set_exit; exact P1).
  clearbody s2. rewrite P2. split; [exact U2|].
  unfold curr. cbn [curr_upcb with_zombies with_zq store]. rewrite U2.
  unfold curr in P2. rewrite U2 in P2.
  destruct (curr_upcb s) as [i|i|a]; cbn in *; [exact P2| |exact P2].
  unfold upd. case_decide; exact P2.
Qed.

(** The current process runs from a block of its own (as after [exec]), the
    queue holds a copy of it at position [i] and its parent at position [j], and
    its number and the count of zombies leave room in the two arrays. *)
Record running_child (s : pst) (a i j : Z) : Prop := {
  rc_curr : curr_upcb s = OBJ a;
  rc_count : 2 <= process_count s < NUM_PROCS;
  rc_pid : 0 <= pid (objs s a) < NUM_PROCS;
  rc_zom : 0 <= zom_count s < NUM_PROCS - 1;
  rc_pos : 1 <= i < process_count s;
  rc_self : pid (ready_queue s i) = pid (objs s a);
  rc_uniq : forall k, 0 <= k <= process_count s -> pid (ready_queue s k) = pid (objs s a) -> k = i;
  rc_par : 0 <= j < i;
  rc_ppid : pid (ready_queue s j) = ppid (objs s a);
  rc_first : forall k, 0 <= k < j -> pid (ready_queue s k) <> ppid (objs s a) }.

Lemma marked_fields s st a :
  curr_upcb s = OBJ a ->
  let s' := marked s st in
  ready_queue s' = ready_queue s /\ curr_upcb s' = OBJ a /\ process_count s' = process_count s /\
  curr s' = set_state (objs s a) ZOMBIE /\ trace s' = trace s /\
  zombie_queue s' (pid (objs s a)) = set_state (objs s a) ZOMBIE.
Proof.
  intros Ha. destruct s. cbn in Ha. subst. unfold marked, curr.
  cbn; rewrite ?upd_eq; cbn; rewrite ?upd_eq; split_and!; reflexivity.
Qed.

(** Leaving the queue: the process is found behind the first slot and the
    others move up, or it is not there and nothing changes. *)
Lemma leave_queue_some s s' :
  1 <= process_count s -> leave_queue s = Some s' ->
  (exists i, 1 <= i < process_count s /\ process_count s < NUM_PROCS /\ pid (ready_queue s i) = pid (curr s) /\
     (forall k, 1 <= k < i -> pid (ready_queue s k) <> pid (curr s)) /\
     s' = with_rq s (ready_queue s') /\
     forall k, ready_queue s' k =
       if decide (i <= k < process_count s) then ready_queue s (k + 1) else ready_queue s k) \/
  (s' = s /\ forall k, 1 <= k < process_count s -> pid (ready_queue s k) <> pid (curr s)).
Proof.
  intros Hn H. unfold leave_queue in H. unbind H i Ei. rewrite find_pid_search in Ei.
  apply wait_search_some in Ei as (Hi & Hb & Ht).
  assert (Hb' : forall k, 1 <= k < i -> pid (ready_queue s k) <> pid (curr s))
    by (intros k Hk; apply Z.eqb_neq, (Hb k Hk)).
  destruct (Z.ltb_spec i (process_count s)) as [Hl|Hg].
  - left. exists i. apply shift_down_some in H as (E & Hs & Hq).
    split; [lia|]. split; [lia|]. split; [apply Z.eqb_eq, Ht; lia|]. split; [exact Hb'|]. split; [exact E|].
    intros k. rewrite Hq. replace (i + Z.of_nat (Z.to_nat (process_count s - i))) with (process_count s) by lia.
    reflexivity.
  - right. injection H as <-. split; [reflexivity|]. intros k Hk. apply Hb'. lia.
Qed.

Lemma leave_queue_in s : 1 <= process_count s < NUM_PROCS -> is_Some (leave_queue s).
Proof.
  intros Hn. unfold leave_queue. rewrite find_pid_search.
  destruct (wait_search_in (Z.to_nat (process_count s)) s (fun t => pid t =? pid (curr s)) 1) as [i Ei]; [lia|lia|].
  rewrite Ei. cbn [mbind option_bind]. apply wait_search_some in Ei as (Hi & _).
  destruct (Z.ltb_spec i (process_count s)); [|eexists; reflexivity]. apply shift_down_in; lia.
Qed.

(** What follows an exit with a status other than one. *)
Definition resume_kernel (s : pst) : option pst :=
  let s := with_count s (u16 (process_count s - 1)) in
  s ← to_parent (Z.to_nat (process_count s)) s 0;
  Some (emit s [LoadKrsp; JmpIsr]).

Lemma exit_process_split s st :
  st <> 1 -> exit_process s st = (s ← mark_zombie s st; s ← leave_queue s; resume_kernel s).
Proof. intros H. unfold exit_process. rewrite (proj2 (Z.eqb_neq st 1) H). reflexivity. Qed.

Lemma resume_kernel_in s : 1 <= process_count s < NUM_PROCS -> is_Some (resume_kernel s).
Proof.
  intros Hn. unfold NUM_PROCS in Hn. unfold resume_kernel. cbv zeta. rewrite to_parent_search.
  cbn [process_count with_count]. rewrite u16_small by lia.
  set (s1 := with_count s _).
  destruct (wait_search_in (Z.to_nat (process_count s - 1)) s1 (fun t => pid t =? ppid (curr s1)) 0) as [k Ek];
    [lia|unfold NUM_PROCS; lia|].
  rewrite Ek. eexists; reflexivity.
Qed.

(** Exactly when the code stays inside its arrays. *)
Lemma exit_process_in s st :
  st <> 1 -> 1 <= process_count s < NUM_PROCS -> 0 <= pid (curr s) < NUM_PROCS ->
  0 <= zom_index s st < NUM_PROCS -> is_Some (exit_process s st).
Proof.
  intros Hst Hn Hp Hz. rewrite exit_process_split by exact Hst.
  rewrite (proj2 (mark_zombie_iff s st (marked s st))) by (split; [exact Hp|split; [exact Hz|reflexivity]]).
  cbn [mbind option_bind].
  assert (Em : process_count (marked s st) = process_count s) by (unfold marked; destruct (curr_upcb s); reflexivity).
  destruct (leave_queue_in (marked s st)) as [s1 E1]; [rewrite Em; exact Hn|].
  rewrite E1. cbn [mbind option_bind]. apply resume_kernel_in.
  apply leave_queue_some in E1 as [(i & _ & _ & _ & _ & E & _)|[-> _]]; [rewrite E; cbn [process_count with_rq]| |]; rewrite Em; lia.
Qed.

Lemma exit_process_runs s st a i j :
  running_child s a i j -> st <> 1 ->
  exists s', exit_process s st = Some s' /\
  (forall k, ready_queue s' k =
     if decide (i <= k < process_count s) then ready_queue s (k + 1) else ready_queue s k) /\
  process_count s' = process_count s - 1 /\ curr_upcb s' = RQ j /\
  zombie_queue s' (pid (objs s a)) = set_state (objs s a) ZOMBIE /\
  trace s' = trace s ++ [LoadKrsp; JmpIsr].
Proof.
  intros [Hc Hn Hpd Hzm Hi Hs Hu Hj Hp Hf] Hst. unfold NUM_PROCS in Hn, Hzm.
  assert (Hcu : curr s = objs s a) by (unfold curr; rewrite Hc; reflexivity).
  destruct (exit_process_in s st Hst) as [s' Es]; [unfold NUM_PROCS; lia|rewrite Hcu; exact Hpd| |].
  { unfold zom_index, NUM_PROCS. case_match; rewrite ?u16_small by lia; lia. }
  exists s'. split; [exact Es|]. rewrite exit_process_split in Es by exact Hst.
  unbind Es m Em. apply mark_zombie_iff in Em as (_ & _ & Em).
  destruct (marked_fields s st a Hc) as (E1 & E2 & E3 & E4 & E5 & E6). rewrite <- Em in E1, E2, E3, E4, E5, E6.
  clear Em. unbind Es l El.
  apply leave_queue_some in El as [(i' & Hi' & _ & Hp' & Hb' & El & Hq)|[_ Hno]]; [|exfalso|lia].
  2: { apply (Hno i); [lia|]. rewrite E1, E4. exact Hs. }
  rewrite E1, E4 in Hp'. apply Hu in Hp'; [|lia]. subst i'. rewrite E1, E3 in Hq.
  unfold resume_kernel in Es. cbv zeta in Es. rewrite to_parent_search in Es. unbind Es r Er. unbind Er k Ek.
  injection Er as <-. injection Es as <-.
  assert (Hcl : ppid (curr (with_count l (u16 (process_count l - 1)))) = ppid (objs s a)).
  { rewrite El. unfold curr. cbn [curr_upcb with_rq with_count]. unfold curr in E4.
    rewrite E2 in *. cbn [deref objs with_rq with_count] in *. rewrite E4. reflexivity. }
  rewrite Hcl in Ek. apply wait_search_some in Ek as (Hk & Hkb & Hkt).
  assert (Ec : process_count l = process_count s) by (rewrite El; exact E3).
  cbn [process_count with_count ready_queue] in Hk, Hkb, Hkt. rewrite Ec, u16_small in * by lia.
  assert (k = j) as ->.
  { destruct (Z.lt_trichotomy k j) as [Hlt|[He|Hgt]]; [exfalso|exact He|exfalso].
    - apply (Hf k); [lia|]. specialize (Hkt ltac:(lia)). apply Z.eqb_eq in Hkt. cbn in Hkt.
      rewrite Hq, decide_False in Hkt by lia. exact Hkt.
    - specialize (Hkb j ltac:(lia)). apply Z.eqb_neq in Hkb. cbn in Hkb.
      rewrite Hq, decide_False in Hkb by lia. exact (Hkb Hp). }
  rewrite (proj2 (Z.ltb_lt _ _)) by (cbn; lia).
  cbn [emit with_curr with_count ready_queue process_count curr_upcb zombie_queue trace].
  split_and!; [exact Hq|lia|reflexivity|rewrite El; exact E6|rewrite El; cbn; rewrite E5; reflexivity].
Qed.

Lemma seqZ_fmap_ext {A} (f g : Z -> A) m n :
  (forall k, m <= k < m + n -> f k = g k) -> f <$> seqZ m n = g <$> seqZ m n.
Proof. intros H. apply list_fmap_ext. intros i k Hk. apply lookup_seqZ in Hk. apply H. lia. Qed.

Lemma procs_removed {A} (f : Z -> A) n i :
  0 <= i < n ->
  (fun k => if decide (i <= k < n) then f (k + 1) else f k) <$> seqZ 0 (n - 1) =
  (f <$> seqZ 0 i) ++ (f <$> seqZ (i + 1) (n - 1 - i)).
Proof.
  intros Hi. replace (n - 1) with (i + (n - 1 - i)) at 1 by lia.
  rewrite seqZ_app, fmap_app by lia. f_equal.
  - apply seqZ_fmap_ext. intros k Hk. rewrite decide_False by lia. reflexivity.
  - rewrite Z.add_0_l. transitivity ((fun k => f (k + 1)) <$> seqZ i (n - 1 - i)).
    + apply seqZ_fmap_ext. intros k Hk. rewrite decide_True by lia. reflexivity.
    + rewrite (Z.add_comm i 1), <- fmap_add_seqZ, <- list_fmap_compose. apply list_fmap_ext.
      intros ? k _. cbn. f_equal. lia.
Qed.

(** C18: when a child that runs from its own block exits with a status other
    than 1, and its number and the count of zombies are inside the two arrays,
    the exit returns to the kernel: the process has left the ready queue (the
    order of the others is kept), its structure is kept as a zombie under its
    number, its parent is the current process and control passes to the kernel
    thread. *)
Theorem exit_removes_process s st a i j :
  running_child s a i j -> st <> 1 ->
  exists s', exit_process s st = Some s' /\
  procs s' = take (Z.to_nat i) (procs s) ++ drop (S (Z.to_nat i)) (procs s) /\
  zombie_queue s' (pid (objs s a)) = set_state (objs s a) ZOMBIE /\ curr_upcb s' = RQ j /\
  pid (curr s') = ppid (objs s a) /\ trace s' = trace s ++ [LoadKrsp; JmpIsr].
Proof.
  intros Hr Hst. destruct (exit_process_runs s st a i j Hr Hst) as (s' & Es & Eq & Ec & Eu & Ez & Et).
  pose proof Hr as [_ Hn _ _ Hi _ _ Hj Hp _]. unfold NUM_PROCS in Hn.
  exists s'. split; [exact Es|]. split_and!.
  - unfold procs. rewrite Ec.
    rewrite (seqZ_fmap_ext _ _ 0 (process_count s - 1) (fun k _ => Eq k)).
    rewrite procs_removed by lia. rewrite <- fmap_take, <- fmap_drop. f_equal; f_equal.
    + replace (process_count s) with (i + (process_count s - i)) by lia.
      rewrite seqZ_app, take_app_length' by (lia || rewrite length_seqZ; lia). reflexivity.
    + replace (process_count s) with ((i + 1) + (process_count s - 1 - i)) at 2 by lia.
      rewrite seqZ_app, drop_app_length' by (lia || rewrite length_seqZ; lia).
      rewrite Z.add_0_l. reflexivity.
  - exact Ez.
  - exact Eu.
  - unfold curr. rewrite Eu. cbn [deref]. rewrite Eq, decide_False by lia. exact Hp.
  - exact Et.
Qed.

Lemma demo_running : running_child (demo_pst (OBJ 9)) 9 2 0.
Proof.
  constructor; try reflexivity; try (vm_compute; intuition discriminate); try lia.
  intros k Hk E. assert (k = 0 \/ k = 1 \/ k = 2 \/ k = 3) as [-> | [-> | [-> | ->]]] by (cbn in Hk; lia);
    vm_compute in E; (lia || discriminate).
Qed.

Lemma exit_removes_process_witness :
  exists s', exit_process (demo_pst (OBJ 9)) 0 = Some s' /\
  procs s' = take (Z.to_nat 2) (procs (demo_pst (OBJ 9))) ++ drop (S (Z.to_nat 2)) (procs (demo_pst (OBJ 9))) /\
  zombie_queue s' 3 = set_state (demo_task 3 1) ZOMBIE /\ curr_upcb s' = RQ 0 /\
  pid (curr s') = 1 /\ trace s' = [] ++ [LoadKrsp; JmpIsr].
Proof.
  apply (exit_removes_process (demo_pst (OBJ 9)) 0 9 2 0 demo_running). discriminate.
Defined.

(** A process number of 64 or more has no entry in the zombie queue: its exit
    stores outside the array. *)
Theorem exit_outside_array s st : NUM_PROCS <= pid (curr s) -> exit_process s st = None.
Proof.
  intros H. unfold exit_process. destruct (mark_zombie s st) as [m|] eqn:E; [|reflexivity].
  apply mark_zombie_iff in E as (Hp & _). lia.
Qed.

Lemma exit_outside_array_witness :
  exit_process (with_objs (demo_pst (OBJ 9)) (fun _ => demo_task 64 1)) 0 = None.
Proof. apply exit_outside_array. vm_compute. discriminate. Defined.



(** C37: a process that waits for a live child is marked as waiting and raises
    interrupt 0x81 to give up the processor; but the interrupt table that
    [set_up_idt] builds has no gate for that vector. *)
Theorem wait_raises_missing_gate s k p status e ivt ip ist :
  curr_upcb s = RQ 0 -> 1 <= k <= process_count s -> k < NUM_PROCS -> 0 <= p ->
  pid (ready_queue s k) = p -> state (ready_queue s k) <> ZOMBIE ->
  (forall j, 1 <= j < k -> pid (ready_queue s j) <> p) ->
  Idt.stubs_ok e -> Idt.zeroed (Idt.imem ist) ivt 4096 ->
  ip + 10 <= ivt \/ ivt + 4096 <= ip -> 0 <= ivt < 2 ^ 64 ->
  exists s', syswaitpid s p status = Some (0, s') /\
  state (curr s') = WAIT /\ wait_pid (curr s') = p /\ trace s' = trace s ++ [Int 0x81] /\
  Idt.deliver (Idt.set_up_idt e ivt ip ist) 0x81 = None.
Proof.
  intros Hc Hk Hkn Hp Hpid Hz Hj He Hzero Hd Hi.
  assert (Hg : Idt.deliver (Idt.set_up_idt e ivt ip ist) 0x81 = None).
  { apply (Idt.set_up_idt_deliver e ivt ip ist 0x81 He Hzero Hd Hi). lia. }
  unfold syswaitpid. rewrite (proj2 (Z.ltb_ge p 0)) by lia. cbv zeta.
  rewrite (wait_search_stops _ s _ 1 (Z.to_nat (k - 1))).
  - replace (1 + Z.of_nat (Z.to_nat (k - 1))) with k by lia. cbn [mbind option_bind].
    rewrite (proj2 (Z.ltb_ge _ _)) by lia. destruct s as [rq zq ob cu pc zc zs ix vm tk bd up gc tr].
    cbn in Hc, Hpid, Hz. subst cu. cbn.
    repeat rewrite (upd_ne _ 0 k) by lia.
    rewrite decide_False by exact Hz. eexists. split; [reflexivity|]. cbn. rewrite !upd_eq. cbn.
    split_and!; [reflexivity|exact Hpid|reflexivity|exact Hg].
  - lia.
  - apply Z.eqb_eq. rewrite <- Hpid. do 2 f_equal. lia.
  - lia.
  - lia.
  - intros j Hjk. apply Z.eqb_neq. apply Hj. lia.
Qed.

Lemma wait_raises_missing_gate_witness :
  exists s', syswaitpid (demo_pst (RQ 0)) 3 0 = Some (0, s') /\
  state (curr s') = WAIT /\ wait_pid (curr s') = 3 /\ trace s' = [] ++ [Int 0x81] /\
  Idt.deliver (Idt.set_up_idt Idt.demo_stubs 0x2000 0x1000 (Idt.mk_idt ∅ 0 false)) 0x81 = None.
Proof.
  apply (wait_raises_missing_gate (demo_pst (RQ 0)) 2 3 0 Idt.demo_stubs 0x2000 0x1000
    (Idt.mk_idt ∅ 0 false)); try reflexivity; try lia.
  - vm_compute. intuition discriminate.
  - discriminate.
  - intros j Hj. assert (j = 1) as -> by lia. vm_compute. discriminate.
  - unfold Idt.stubs_ok, Idt.demo_stubs. repeat constructor; cbn; lia.
  - intros i Hi. reflexivity.
Defined.

(** ** Kill *)

(** The index of [kill_process] reaches the number, if [int] can hold it. *)
Lemma kill_search_reaches n p i :
  0 <= i <= p -> p < 2 ^ 31 -> (Z.to_nat (p - i) < n)%nat -> kill_search n p i = Some p.
Proof.
  revert i. induction n as [|n IH]; intros i Hi Hp Hn; [lia|]. cbn [kill_search].
  destruct (Z.eqb_spec i p) as [->|Hne]; cbn [negb andb]; [reflexivity|].
  rewrite (proj2 (Z.ltb_lt i p)), (proj2 (Z.eqb_neq i (2 ^ 31 - 1))) by lia. apply IH; lia.
Qed.

Lemma kill_search_overflows n p i : 2 ^ 31 <= p -> i < 2 ^ 31 -> kill_search n p i = None.
Proof.
  intros Hp. revert i. induction n as [|n IH]; intros i Hi; cbn [kill_search]; [reflexivity|].
  rewrite (proj2 (Z.eqb_neq i p)), (proj2 (Z.ltb_lt i p)) by lia. cbn [negb andb].
  destruct (Z.eqb_spec i (2 ^ 31 - 1)); [reflexivity|]. apply IH. lia.
Qed.

(** [kill_process] does not stop a running process: a number whose zombie
    entry is empty only produces the message "Wrong pid", whatever the ready
    queue holds. *)
Theorem kill_ignores_live s p :
  0 < p < NUM_PROCS -> pid (zombie_queue s p) <> p ->
  kill_process s p = Some (emit s [Kprintf "\nWrong pid\n" [] []]).
Proof.
  intros Hp Hz. unfold NUM_PROCS in Hp. unfold kill_process.
  rewrite (proj2 (Z.leb_gt p 0)) by lia. rewrite kill_search_reaches by lia. cbn [mbind option_bind].
  rewrite Z.eqb_refl, zq_in by (unfold NUM_PROCS; lia). cbn [mbind option_bind].
  rewrite (proj2 (Z.eqb_neq _ p) Hz). destruct s. reflexivity.
Qed.

Lemma kill_ignores_live_witness :
  kill_process (demo_pst (RQ 0)) 2 = Some (emit (demo_pst (RQ 0)) [Kprintf "\nWrong pid\n" [] []]).
Proof. apply (kill_ignores_live (demo_pst (RQ 0)) 2); vm_compute; intuition discriminate. Defined.

(** ** The user heap *)

Fixpoint mallocs (s : pst) (szs : list Z) : list Z * pst :=
  match szs with
  | [] => ([], s)
  | sz :: szs => let '(r, s) := malloc s sz in let '(rs, s) := mallocs s szs in (r :: rs, s)
  end.

Definition sumZ (l : list Z) : Z := foldr Z.add 0 l.

(** The addresses that a bump allocator over a page at [start] hands out. *)
Fixpoint bump (start pos : Z) (szs : list Z) : list Z :=
  match szs with
  | [] => []
  | sz :: szs => (if pos + sz <=? start + 4096 then pos else 0) :: bump start (pos + sz) szs
  end.

(** C31: the user heap is a bump allocator over one page: successive calls of
    [malloc] return consecutive blocks as long as the end stays within 4096
    bytes of the start, and [NULL] after that; a call that fails has still moved
    the end, so every later call fails too. *)
Theorem malloc_bumps s h v szs :
  heap_vma (curr s) = h -> vmas s h = v -> 0 <= vm_start v <= vm_end v ->
  Forall (fun sz => 0 <= sz) szs -> vm_end v + sumZ szs < 2 ^ 64 ->
  let '(rs, s') := mallocs s szs in
  rs = bump (vm_start v) (vm_end v) szs /\
  vmas s' h = mk_vma (vm_start v) (vm_end v + sumZ szs).
Proof.
  revert s v. induction szs as [|sz szs IH]; intros s v Hh Hv Hb Hs Hsum; cbn [mallocs bump].
  - cbn. split; [reflexivity|]. rewrite Hv. destruct v. cbn. f_equal. lia.
  - apply Forall_cons_1 in Hs as [Hsz Hs]. cbn [sumZ foldr] in Hsum. fold (sumZ szs) in Hsum.
    assert (Hpos : 0 <= sumZ szs).
    { clear - Hs. induction Hs; cbn [sumZ foldr]; [lia|]. fold (sumZ l). lia. }
    unfold malloc. rewrite Hh, Hv.
    cbn [with_vmas emit vmas]. rewrite upd_eq. cbn [vm_end vm_start].
    rewrite (u64_small (vm_end v + sz)), u64_small by lia.
    set (s1 := emit (with_vmas s (upd (vmas s) h (mk_vma (vm_start v) (vm_end v + sz)))) [Store64 (vm_end v) 0]).
    assert (E1 : heap_vma (curr s1) = h) by (rewrite <- Hh; unfold curr; destruct s as [? ? ? []]; reflexivity).
    assert (E2 : vmas s1 h = mk_vma (vm_start v) (vm_end v + sz)) by (apply upd_eq).
    specialize (IH s1 _ E1 E2). cbn [vm_start vm_end] in IH.
    destruct (Z.ltb_spec 4096 (vm_end v + sz - vm_start v)),
      (Z.leb_spec (vm_end v + sz) (vm_start v + 4096)); try lia;
      destruct (mallocs s1 szs) as [rs s2]; (destruct IH as [-> E]; [lia|exact Hs|lia|]);
      (split; [reflexivity|]); rewrite E; cbn [sumZ foldr]; fold (sumZ szs); f_equal; lia.
Qed.

Lemma malloc_bumps_witness :
  let s := with_vmas (demo_pst (RQ 0)) (fun _ => mk_vma 0x600000 0x600000) in
  let '(rs, s') := mallocs s [100; 4000; 8] in
  rs = [0x600000; 0; 0] /\ vmas s' 0 = mk_vma 0x600000 (0x600000 + sumZ [100; 4000; 8]).
Proof.
  intros s. apply (malloc_bumps s 0 (mk_vma 0x600000 0x600000) [100; 4000; 8]); try reflexivity.
  - cbn. lia.
  - repeat constructor; lia.
Defined.
