(* ===== verification/ProcInv.v ===== *)
(** * The process table over time

    The operations of [sys/process.c], [sys/scheduler.c] and [sys/timer.c] as
    steps of a transition system on the process table, an invariant of all the
    tables that it reaches, and what the invariant guarantees of the timer
    interrupt and of exits. *)

From stdpp Require Import base gmap list numbers relations.
From Stdlib Require Import ZArith Lia.
From S2P Require Import Prelude Process.

(** ** Creating processes, as the table sees it *)

(** The structure of a new process: numbers, name and state; the addresses that
    [memmap] and [load_segment] provide are those of [c]. *)
Definition new_struct (c : task_struct) (n pp : Z) (name : list Z) : task_struct :=
  mk_task n pp name READY 0 (stack c) (pml4e c) (tcr3 c) 0 0 (entry c) (heap_vma c).

(** [init_usr_pcb]: the block at [a] is filled and, for process 1, copied to the
    ready queue. *)
Definition first_table (s : pst) (a : Z) (c : task_struct) : option pst :=
  let n := if upid s =? 0 then 1 else upid s in
  let s := with_objs s (upd (objs s) a (new_struct c n (u64 (n - 1)) (pname c))) in
  let s := with_child s n (global_child s) in
  let s := with_count s (u16 (process_count s + 1)) in
  if n =? 1 then add_to_ready_list_user s (OBJ a) else Some s.

(** [fork_process]: the child in the block at [a] gets the next number and waits
    in [global_child]. *)
Definition fork_table (s : pst) (a : Z) (c : task_struct) : pst :=
  let n := u16 (upid s + 1) in
  let s := with_objs s (upd (objs s) a (new_struct c n (pid (curr s)) (pname (curr s)))) in
  with_child s n a.

(** [exec]: the forked child gets its program ([l] has the entry and the heap
    that [load_segment] sets) and its name, is copied behind the last process and
    becomes the current one. *)
Definition exec_table (s : pst) (path : list Z) (l : task_struct) : option pst :=
  let a := global_child s in
  let t := objs s a in
  let t := mk_task (pid t) (ppid t) path (state t) (wait_pid t) (stack t) (pml4e t) (tcr3 t)
             (exit_status t) (sleep_time t) (entry l) (heap_vma l) in
  let s := with_objs s (upd (objs s) a t) in
  let s := with_count s (u16 (process_count s + 1)) in
  s ← add_to_ready_list_user s (OBJ a);
  Some (with_curr s (OBJ a)).

(** ** The steps *)

(** A table, and whether a forked child waits to be started.  Every operation is
    the code's own, and takes a step when it stays inside the arrays.  The guards
    are: the 16-bit counter of process numbers does not wrap; an [exec] follows a
    [fork] of its own; a process that exits is in the queue behind the first
    slot, and its status is not one. *)
Inductive pstep : pst * bool -> pst * bool -> Prop :=
| step_fork s b a c : upid s + 1 < 2 ^ 16 -> pstep (s, b) (fork_table s a c, true)
| step_exec s path l s' : exec_table s path l = Some s' -> pstep (s, true) (s', false)
| step_exit s b i st s' : 1 <= i < process_count s -> pid (ready_queue s i) = pid (curr s) -> st <> 1 ->
    exit_process s st = Some s' -> pstep (s, b) (s', b)
| step_kill s b p s' : kill_process s p = Some s' -> pstep (s, b) (s', b)
| step_wait s b p status r s' : syswaitpid s p status = Some (r, s') -> pstep (s, b) (s', b)
| step_timer s b fuel s' : timer_callback fuel s = Some s' -> pstep (s, b) (s', b)
| step_sleep s b time : pstep (s, b) (sleep_proc s time, b)
| step_malloc s b size : pstep (s, b) ((malloc s size).2, b)
| step_dp s b s' : dp s = Some s' -> pstep (s, b) (s', b).

(** ** The invariant *)

Record table_ok (s : pst) (b : bool) : Prop := {
  to_count : 1 <= process_count s <= NUM_PROCS;
  to_upid : upid s < 2 ^ 16;
  to_live : forall k, 0 <= k < process_count s -> 0 < pid (ready_queue s k) <= upid s;
  to_uniq : forall j k, 0 <= j < process_count s -> 0 <= k < process_count s ->
    pid (ready_queue s j) = pid (ready_queue s k) -> j = k;
  to_rest : forall k, process_count s <= k < NUM_PROCS -> pid (ready_queue s k) = 0;
  to_dead : forall k, pid (zombie_queue s k) <> 0 ->
    0 < pid (zombie_queue s k) <= upid s /\
    forall j, 0 <= j < process_count s -> pid (ready_queue s j) <> pid (zombie_queue s k);
  to_child : b = true -> pid (objs s (global_child s)) = upid s /\ 0 < upid s /\
    (forall j, 0 <= j < process_count s -> pid (ready_queue s j) < upid s) /\
    forall k, pid (zombie_queue s k) < upid s }.

(** The same processes with the same numbers, and no new zombie. *)
Record calm (s s' : pst) : Prop := {
  ca_count : process_count s' = process_count s;
  ca_upid : upid s' = upid s;
  ca_child : global_child s' = global_child s;
  ca_pids : forall k, pid (ready_queue s' k) = pid (ready_queue s k);
  ca_objs : forall a, pid (objs s' a) = pid (objs s a);
  ca_dead : forall k, exists k', pid (zombie_queue s' k) = pid (zombie_queue s k') }.

#[export] Instance calm_preorder : PreOrder calm.
Proof.
  split; [intros s; constructor; try reflexivity; intros k; exists k; reflexivity|].
  intros s1 s2 s3 [A1 A2 A3 A4 A5 A6] [B1 B2 B3 B4 B5 B6]. constructor; try congruence.
  intros k. destruct (B6 k) as [k1 E1], (A6 k1) as [k2 E2]. exists k2. congruence.
Qed.

Lemma calm_ok s s' b : calm s s' -> table_ok s b -> table_ok s' b.
Proof.
  intros [A1 A2 A3 A4 A5 A6] [H1 H2 H3 H4 H5 H6 H7]. constructor; rewrite ?A1, ?A2, ?A3; try assumption.
  - intros k Hk. rewrite A4. apply H3, Hk.
  - intros j k Hj Hk. rewrite !A4. apply H4; assumption.
  - intros k Hk. rewrite A4. apply H5, Hk.
  - intros k. destruct (A6 k) as [k' ->]. intros Hk. destruct (H6 k' Hk) as [Hu Hn].
    split; [exact Hu|]. intros j Hj. rewrite A4. apply Hn, Hj.
  - intros Hb. destruct (H7 Hb) as (C1 & C2 & C3 & C4). split; [rewrite A5; exact C1|]. split; [exact C2|].
    split; [intros j Hj; rewrite A4; apply C3, Hj|]. intros k. destruct (A6 k) as [k' ->]. apply C4.
Qed.

(** ** Steps that keep the numbers *)

Lemma calm_frame s s' :
  ready_queue s' = ready_queue s -> zombie_queue s' = zombie_queue s -> objs s' = objs s ->
  process_count s' = process_count s -> upid s' = upid s -> global_child s' = global_child s -> calm s s'.
Proof.
  intros H1 H2 H3 H4 H5 H6. constructor; rewrite ?H1, ?H2, ?H3; try assumption; try reflexivity.
  intros k. exists k. reflexivity.
Qed.

Lemma calm_emit s s1 l : calm s s1 -> calm s (emit s1 l).
Proof. intros H. etrans; [exact H|]. apply calm_frame; reflexivity. Qed.

Lemma calm_curr s s1 q : calm s s1 -> calm s (with_curr s1 q).
Proof. intros H. etrans; [exact H|]. apply calm_frame; reflexivity. Qed.

Lemma calm_zombies s s1 n z : calm s s1 -> calm s (with_zombies s1 n z).
Proof. intros H. etrans; [exact H|]. apply calm_frame; reflexivity. Qed.

(** A store through any pointer that keeps the number. *)
Lemma calm_store s s1 q t : calm s s1 -> pid t = pid (deref s1 q) -> calm s (store s1 q t).
Proof.
  intros H Ht. etrans; [exact H|].
  assert (Hp := fun r => store_pid s1 q t r Ht).
  constructor; try (destruct q; reflexivity).
  - intros k. exact (Hp (RQ k)).
  - intros a. exact (Hp (OBJ a)).
  - intros k. exists k. exact (Hp (ZQ k)).
Qed.

(** A copy of one zombie entry over another. *)
Lemma calm_zq s s1 k t : calm s s1 -> (exists k', pid t = pid (zombie_queue s1 k')) -> calm s (store s1 (ZQ k) t).
Proof.
  intros H [k' Ht]. etrans; [exact H|]. constructor; try reflexivity.
  intros j. cbn. unfold upd. case_decide; [exists k'; exact Ht|exists j; reflexivity].
Qed.

Ltac calm_stores :=
  repeat first [reflexivity | apply calm_emit | apply calm_curr | apply calm_zombies
               | apply calm_store; [|reflexivity]].

Lemma wait_calm s p status r s' : syswaitpid s p status = Some (r, s') -> calm s s'.
Proof.
  unfold syswaitpid. cbv zeta. intros H. destruct (p <? 0); unbind H i Ei; destruct (_ <? i).
  - injection H as _ <-. reflexivity.
  - case_decide; [unbind H z Ez|]; injection H as _ <-; calm_stores.
  - injection H as _ <-. calm_stores.
  - case_decide; [unbind H z Ez|]; injection H as _ <-; calm_stores.
Qed.

Lemma sched_calm fuel s s' : usr_schedule fuel s = Some s' -> calm s s'.
Proof.
  unfold usr_schedule. intros H. unbind H i Ei. unbind H j Ej. unbind H t Et.
  destruct (ppid (curr s) =? pid t); [injection H as <-; apply calm_frame; reflexivity|].
  unbind H c Ec. destruct (pid (curr s) =? ppid c); injection H as <-; apply calm_frame; reflexivity.
Qed.

Lemma timer_calm fuel s s' : timer_callback fuel s = Some s' -> calm s s'.
Proof.
  unfold timer_callback. cbv zeta. set (s1 := with_tick (emit s [SendEOI 0]) _).
  assert (H1 : calm s s1) by (apply calm_frame; reflexivity).
  destruct (_ && _); [intros H; etrans; [exact H1|apply (sched_calm fuel), H]|intros [= <-]; exact H1].
Qed.

Lemma dp_calm s s' : dp s = Some s' -> calm s s'.
Proof. unfold dp. intros H. unbind H r Er. unbind H d Ed. injection H as <-. calm_stores. Qed.

Lemma malloc_calm s size : calm s (malloc s size).2.
Proof. unfold malloc. cbv zeta. case_match; apply calm_frame; reflexivity. Qed.

Lemma sleep_calm s time : calm s (sleep_proc s time).
Proof. unfold sleep_proc. calm_stores. Qed.

(** ** Kill *)

Lemma reap_calm n s z s' : reap_zombies n s z = Some s' -> calm s s'.
Proof.
  revert s z. induction n as [|n IH]; intros s z; cbn [reap_zombies].
  - intros [= <-]. reflexivity.
  - destruct (z <=? zom_count s); [|intros [= <-]; reflexivity]. intros H. unbind H k Ek. unbind H t Et.
    destruct (_ =? _); [|apply (IH s (z + 1)), H]. unbind H t' Et'. unbind H s1 E1.
    apply elt_some in Et' as [_ ->]. apply put_zq_some in E1 as [_ ->].
    etrans; [|apply (IH _ (z + 2)), H]. apply calm_zq; [reflexivity|]. eexists. reflexivity.
Qed.

(** The numbers after marking: the queue is as before, and the only new zombie is
    the process itself. *)
Lemma marked_numbers s st :
  let m := marked s st in
  process_count m = process_count s /\ upid m = upid s /\ global_child m = global_child s /\
  (forall k, pid (ready_queue m k) = pid (ready_queue s k)) /\
  (forall a, pid (objs m a) = pid (objs s a)) /\
  forall k, pid (zombie_queue m k) = pid (zombie_queue s k) \/ pid (zombie_queue m k) = pid (curr s).
Proof.
  unfold marked. set (s1 := store s (curr_upcb s) (set_state (curr s) ZOMBIE)).
  assert (C1 : calm s s1) by (apply calm_store; reflexivity).
  assert (Z1 : forall k, pid (zombie_queue s1 k) = pid (zombie_queue s k))
    by (intros k; exact (store_pid s (curr_upcb s) (set_state (curr s) ZOMBIE) (ZQ k) eq_refl)).
  assert (P1 : pid (curr s1) = pid (curr s)) by (unfold s1; rewrite curr_set_state; reflexivity).
  clearbody s1. set (s2 := store s1 (ZQ (pid (curr s1))) _).
  assert (C2 : calm s s2) by (apply calm_store; [exact C1|reflexivity]).
  assert (Z2 : forall k, pid (zombie_queue s2 k) = pid (zombie_queue s k)).
  { intros k. rewrite <- Z1.
    exact (store_pid s1 (ZQ (pid (curr s1))) (set_exit (zombie_queue s1 (pid (curr s1))) st) (ZQ k) eq_refl). }
  assert (P2 : pid (curr s2) = pid (curr s)) by (unfold s2; rewrite curr_set_exit; exact P1).
  clearbody s2. destruct C2 as [A1 A2 A3 A4 A5 _]. cbv zeta.
  cbn [process_count upid global_child ready_queue objs zombie_queue with_zombies store with_zq].
  split_and!; try assumption. intros k. unfold upd. case_decide; [right; exact P2|left; apply Z2].
Qed.

(** A zombie that is marked again stays where it is. *)
Lemma mark_calm s st : (exists k, pid (zombie_queue s k) = pid (curr s)) -> calm s (marked s st).
Proof.
  intros [k Hk]. destruct (marked_numbers s st) as (M1 & M2 & M3 & M4 & M5 & M6). constructor; try assumption.
  intros j. destruct (M6 j) as [E|E]; [exists j; exact E|exists k; congruence].
Qed.

(** A process whose number is that of a zombie is not in the queue. *)
Lemma leave_calm s b k s' :
  table_ok s b -> pid (zombie_queue s k) = pid (curr s) -> pid (curr s) <> 0 -> leave_queue s = Some s' -> s' = s.
Proof.
  intros [H1 H2 H3 H4 H5 H6 H7] Hk Hn H.
  destruct (H6 k) as [_ Hd]; [rewrite Hk; exact Hn|].
  apply leave_queue_some in H as [(i & Hi & _ & Hp & _)|[-> _]]; [|reflexivity|lia].
  destruct (Hd i); [lia|congruence].
Qed.

Lemma kill_calm s b p s' : table_ok s b -> kill_process s p = Some s' -> calm s s'.
Proof.
  intros Hok H. unfold kill_process in H. unbind H s1 E1. injection H as <-. apply calm_curr.
  destruct (Z.leb_spec p 0); [injection E1 as <-; calm_stores|]. unbind E1 i Ei.
  destruct (Z.eqb_spec i p) as [->|]; [|injection E1 as <-; calm_stores].
  unbind E1 t Et. apply elt_some in Et as [_ ->].
  destruct (Z.eqb_spec (pid (zombie_queue s p)) p) as [Hp|]; [|injection E1 as <-; calm_stores].
  unfold exit_process in E1. cbn [Z.eqb Pos.eqb] in E1. unbind E1 m Em. unbind E1 l El. unbind E1 r Er.
  injection E1 as <-. apply calm_zombies.
  apply mark_zombie_iff in Em as (_ & _ & Em).
  assert (Cm : calm s m).
  { etrans; [apply (calm_curr s s (ZQ p)); reflexivity|]. rewrite Em. apply mark_calm. exists p. reflexivity. }
  destruct (marked_curr (with_curr s (ZQ p)) 1) as [Um Pm]. rewrite <- Em in Um, Pm.
  unfold curr in Pm at 2. cbn in Pm. rewrite Hp in Pm.
  rewrite (leave_calm m b p l (calm_ok s m b Cm Hok)) in Er; [|unfold curr; rewrite Um; reflexivity|lia|exact El].
  etrans; [exact Cm|]. apply (reap_calm _ _ _ _ Er).
Qed.

(** ** Exit *)

Lemma resume_calm s s' :
  resume_kernel s = Some s' -> calm (with_count s (u16 (process_count s - 1))) s'.
Proof.
  unfold resume_kernel. cbv zeta. intros H. unbind H r Er. injection H as <-. apply calm_emit.
  rewrite to_parent_search in Er. unbind Er k Ek. injection Er as <-. case_match; calm_stores.
Qed.

Lemma exit_ok s b i st s' :
  table_ok s b -> 1 <= i < process_count s -> pid (ready_queue s i) = pid (curr s) -> st <> 1 ->
  exit_process s st = Some s' -> table_ok s' b.
Proof.
  intros [H1 H2 H3 H4 H5 H6 H7] Hi Hp Hst H. unfold NUM_PROCS in *. rewrite exit_process_split in H by exact Hst.
  unbind H m Em. apply mark_zombie_iff in Em as (_ & _ & ->).
  destruct (marked_curr s st) as [_ Pm]. destruct (marked_numbers s st) as (M1 & M2 & M3 & M4 & M5 & M6).
  set (m := marked s st) in *. clearbody m. unbind H l El.
  apply leave_queue_some in El as [(i' & Hi' & Hn64 & Hp' & _ & El & Hq)|[_ Hno]]; [|exfalso|lia].
  2: { apply (Hno i); [lia|]. rewrite M4, Pm. exact Hp. }
  rewrite M1 in Hi', Hq, Hn64. unfold NUM_PROCS in Hn64. rewrite M4, Pm, <- Hp in Hp'. apply H4 in Hp'; [|lia|lia]. subst i'.
  apply resume_calm in H. apply (calm_ok _ _ b H).
  assert (Eq : forall k, pid (ready_queue l k) =
    if decide (i <= k < process_count s) then pid (ready_queue s (k + 1)) else pid (ready_queue s k)).
  { intros k. rewrite Hq. case_decide; apply M4. }
  assert (Hc : process_count l = process_count s) by (rewrite El; exact M1).
  assert (Hu : upid l = upid s) by (rewrite El; exact M2).
  assert (Hg : global_child l = global_child s) by (rewrite El; exact M3).
  assert (Ho : objs l = objs m) by (rewrite El; reflexivity).
  assert (Hz : zombie_queue l = zombie_queue m) by (rewrite El; reflexivity).
  clear El Hq H. rewrite Hc, u16_small by lia. set (n := process_count s) in *.
  constructor; cbn [process_count upid ready_queue zombie_queue objs global_child with_count]; rewrite ?Hu, ?Hg, ?Ho, ?Hz.
  - unfold NUM_PROCS. lia.
  - exact H2.
  - intros k Hk. rewrite Eq. case_decide; apply H3; lia.
  - intros j k Hj Hk. rewrite !Eq. do 2 case_decide; intros E; apply H4 in E; lia.
  - intros k Hk. rewrite Eq. unfold NUM_PROCS in Hk. case_decide; apply H5; lia.
  - intros k Hk. destruct (M6 k) as [E|E]; rewrite E in *.
    + destruct (H6 k Hk) as [Hr Hd]. split; [exact Hr|]. intros j Hj. rewrite Eq. case_decide; apply Hd; lia.
    + split; [rewrite <- Hp; apply H3; lia|]. intros j Hj. rewrite Eq, <- Hp.
      case_decide; intros E'; apply H4 in E'; lia.
  - intros Hb. destruct (H7 Hb) as (C1 & C2 & C3 & C4). split; [rewrite M5; exact C1|]. split; [exact C2|]. split.
    + intros j Hj. rewrite Eq. case_decide; apply C3; lia.
    + intros k. destruct (M6 k) as [->| ->]; [apply C4|]. rewrite <- Hp. apply C3. lia.
Qed.

(** ** Start of processes *)

Lemma fork_ok s b a c : table_ok s b -> upid s + 1 < 2 ^ 16 -> table_ok (fork_table s a c) true.
Proof.
  intros [H1 H2 H3 H4 H5 H6 H7] Hu. pose proof (H3 0 ltac:(lia)) as H0.
  unfold fork_table. cbv zeta. rewrite u16_small by lia.
  constructor; cbn [process_count upid ready_queue zombie_queue objs global_child with_child with_objs]; try assumption.
  - intros k Hk. specialize (H3 k Hk). lia.
  - intros k Hk. destruct (H6 k Hk) as [Hr Hd]. split; [lia|exact Hd].
  - intros _. split; [rewrite upd_eq; reflexivity|]. split; [lia|]. split; [intros j Hj; specialize (H3 j Hj); lia|].
    intros k. destruct (decide (pid (zombie_queue s k) = 0)) as [->|Hk]; [lia|]. destruct (H6 k Hk) as [Hr _]. lia.
Qed.

(** The new process is the last one of the queue. *)
Lemma add_last s p s' :
  1 < process_count s -> add_to_ready_list_user s p = Some s' ->
  process_count s <= NUM_PROCS /\ s' = with_rq s (upd (ready_queue s) (process_count s - 1) (deref s p)).
Proof.
  intros Hn H. unfold add_to_ready_list_user in H. unbind H s1 E1. apply put_rq_some in E1 as [Hb ->].
  rewrite (proj2 (Z.eqb_neq _ 1)) in H by lia. injection H as <-. split; [lia|reflexivity].
Qed.

Lemma exec_ok s path l s' : table_ok s true -> exec_table s path l = Some s' -> table_ok s' false.
Proof.
  intros [H1 H2 H3 H4 H5 H6 H7] H. destruct (H7 eq_refl) as (C1 & C2 & C3 & C4). unfold NUM_PROCS in *.
  unfold exec_table in H. cbv zeta in H. unbind H s1 E1. injection H as <-.
  cbn [process_count with_objs] in E1. rewrite (u16_small (process_count s + 1)) in E1 by lia.
  apply add_last in E1 as [Hb ->]; [|cbn; lia].
  cbn [process_count with_count with_objs ready_queue deref objs] in *. rewrite upd_eq.
  replace (process_count s + 1 - 1) with (process_count s) by lia. unfold NUM_PROCS in Hb.
  set (n := process_count s) in *. set (t := mk_task _ _ _ _ _ _ _ _ _ _ _ _).
  assert (Ht : pid t = upid s) by exact C1. clearbody t.
  assert (Hq : forall k, pid (upd (ready_queue s) n t k) = if decide (k = n) then upid s else pid (ready_queue s k)).
  { intros k. unfold upd. case_decide; [exact Ht|reflexivity]. }
  constructor; cbn [process_count upid ready_queue zombie_queue objs global_child with_curr with_rq with_count with_objs];
    try exact H2; try discriminate.
  - unfold NUM_PROCS. lia.
  - intros k Hk. rewrite Hq. case_decide; [lia|apply H3; lia].
  - intros j k Hj Hk. rewrite !Hq. do 2 case_decide; intros E; try lia.
    + specialize (C3 k ltac:(lia)). lia.
    + specialize (C3 j ltac:(lia)). lia.
    + apply H4; lia.
  - intros k Hk. unfold NUM_PROCS in Hk. rewrite Hq, decide_False by lia. apply H5. lia.
  - intros k Hk. destruct (H6 k Hk) as [Hr Hd]. split; [exact Hr|]. intros j Hj. rewrite Hq.
    case_decide; [specialize (C4 k); lia|apply Hd; lia].
Qed.

Lemma add_first s p s' :
  process_count s = 1 -> add_to_ready_list_user s p = Some s' ->
  s' = with_curr (with_rq s (upd (ready_queue s) 0 (deref s p))) (RQ 0).
Proof.
  intros Hn H. unfold add_to_ready_list_user in H. rewrite Hn in H. unbind H s1 E1.
  apply put_rq_some in E1 as [_ ->]. injection H as <-. reflexivity.
Qed.

Lemma first_ok s a c s' :
  process_count s = 0 -> upid s = 0 -> first_table (init_queues s) a c = Some s' -> table_ok s' false.
Proof.
  intros Hn Hu H. unfold first_table in H. cbn [upid init_queues with_zq with_rq] in H. rewrite Hu in H.
  cbv zeta in H. cbn [Z.eqb Pos.eqb] in H.
  apply add_first in H as ->; [|cbn; rewrite Hn; reflexivity].
  cbn [deref objs with_count with_child with_objs init_queues with_zq with_rq ready_queue]. rewrite upd_eq.
  set (t := new_struct _ _ _ _). assert (Ht : pid t = 1) by reflexivity. clearbody t.
  assert (Hq : forall k, pid (upd (fun _ => zero_task) 0 t k) = if decide (k = 0) then 1 else 0).
  { intros k. unfold upd. case_decide; [exact Ht|reflexivity]. }
  constructor; cbn [process_count upid ready_queue zombie_queue objs global_child with_curr with_rq with_count with_child
    with_objs init_queues with_zq]; rewrite ?Hn; try discriminate; change (u16 (0 + 1)) with 1.
  - unfold NUM_PROCS. lia.
  - reflexivity.
  - intros k Hk. rewrite Hq, decide_True by lia. lia.
  - intros j k Hj Hk _. lia.
  - intros k Hk. rewrite Hq, decide_False by lia. reflexivity.
  - intros k Hk. destruct Hk. reflexivity.
Qed.

Lemma step_ok x y : table_ok x.1 x.2 -> pstep x y -> table_ok y.1 y.2.
Proof.
  intros Hq Hs. destruct Hs; cbn [fst snd] in *.
  - apply (fork_ok s b); assumption.
  - eapply exec_ok; eassumption.
  - eapply exit_ok; eassumption.
  - eapply calm_ok; [eapply kill_calm; eassumption|exact Hq].
  - eapply calm_ok; [eapply wait_calm; eassumption|exact Hq].
  - eapply calm_ok; [eapply timer_calm; eassumption|exact Hq].
  - eapply calm_ok; [apply sleep_calm|exact Hq].
  - eapply calm_ok; [apply malloc_calm|exact Hq].
  - eapply calm_ok; [apply dp_calm; eassumption|exact Hq].
Qed.

(** ** What the invariant guarantees *)

Lemma table_numbers s b :
  table_ok s b -> NoDup (pid <$> procs s) /\ (forall t, t ∈ procs s -> 0 < pid t <= upid s) /\
  process_count s <= upid s.
Proof.
  intros [H1 _ H3 H4 _ _ _].
  assert (Hnd : NoDup (pid <$> procs s)).
  { unfold procs. rewrite <- list_fmap_compose. apply NoDup_alt. intros j k x Hj Hk.
    apply list_lookup_fmap_Some in Hj as (j' & -> & Hj). apply list_lookup_fmap_Some in Hk as (k' & E' & Hk).
    apply lookup_seqZ in Hj. apply lookup_seqZ in Hk. cbn in E'. apply H4 in E'; lia. }
  assert (Hin : forall t, t ∈ procs s -> 0 < pid t <= upid s).
  { intros t Ht. unfold procs in Ht. apply list_elem_of_fmap in Ht as (k & -> & Hk).
    apply elem_of_seqZ in Hk. apply H3. lia. }
  split; [exact Hnd|]. split; [exact Hin|].
  assert (Hl : (length (pid <$> procs s) <= length (seqZ 1 (upid s)))%nat).
  { apply submseteq_length, NoDup_submseteq; [exact Hnd|]. intros x Hx.
    apply list_elem_of_fmap in Hx as (t & -> & Ht). apply elem_of_seqZ. specialize (Hin t Ht). lia. }
  unfold procs in Hl. rewrite !length_fmap, !length_seqZ in Hl. lia.
Qed.

Lemma timer_returns s b fuel :
  table_ok s b -> process_count s < NUM_PROCS -> (Z.to_nat NUM_PROCS <= fuel)%nat ->
  is_Some (timer_callback fuel s).
Proof.
  intros [H1 _ H3 _ H5 _ _] Hn Hf. unfold timer_callback. cbv zeta. set (s1 := with_tick _ _).
  case_match eqn:E; [|eexists; reflexivity]. apply andb_true_iff in E as [_ E]. apply Z.ltb_lt in E.
  apply usr_schedule_returns.
  - constructor; cbn in *; [lia| |apply H5; lia]. intros k Hk. specialize (H3 k Hk). lia.
  - cbn. unfold NUM_PROCS in *. lia.
Qed.

Lemma exit_returns s b i st :
  table_ok s b -> upid s < NUM_PROCS -> 0 <= zom_count s < NUM_PROCS - 1 ->
  1 <= i < process_count s -> pid (ready_queue s i) = pid (curr s) -> st <> 1 -> is_Some (exit_process s st).
Proof.
  intros Hok Hu Hz Hi Hp Hst. destruct (table_numbers s b Hok) as (_ & _ & Hn).
  destruct Hok as [H1 _ H3 _ _ _ _]. unfold NUM_PROCS in *. apply exit_process_in; unfold NUM_PROCS; [exact Hst|lia| |].
  - rewrite <- Hp. specialize (H3 i ltac:(lia)). lia.
  - unfold zom_index. case_match; rewrite ?u16_small by lia; lia.
Qed.

(** ** Claim *)

(** C14: whatever sequence of forks, program starts, exits, kills, waits,
    sleeps, heap requests, listings and timer interrupts follows the start of the
    first process, the table holds between one and 64 processes with distinct
    non-zero numbers that the counter [upid] has given out; a timer interrupt
    returns as long as there are fewer than 64 processes, and so does the exit of
    a process of the queue as long as fewer than 64 numbers have been given out
    and the list of zombies has room.  The sequences are those in which no
    operation leaves the arrays, the 16-bit counter of process numbers does not
    wrap, every program start follows a fork of its own, and the processes that
    exit are in the queue behind the first slot and have a status other than
    one. *)
Theorem process_table_invariant s0 a c s1 s b fuel :
  process_count s0 = 0 -> upid s0 = 0 -> first_table (init_queues s0) a c = Some s1 ->
  rtc pstep (s1, false) (s, b) -> (Z.to_nat NUM_PROCS <= fuel)%nat ->
  1 <= process_count s <= NUM_PROCS /\ NoDup (pid <$> procs s) /\
  (forall t, t ∈ procs s -> 0 < pid t <= upid s) /\
  (process_count s < NUM_PROCS -> is_Some (timer_callback fuel s)) /\
  (forall i st, upid s < NUM_PROCS -> 0 <= zom_count s < NUM_PROCS - 1 -> 1 <= i < process_count s ->
     pid (ready_queue s i) = pid (curr s) -> st <> 1 -> is_Some (exit_process s st)).
Proof.
  intros Hn Hu H1 Hr Hf.
  assert (Hq : table_ok s b).
  { change (table_ok (s, b).1 (s, b).2). revert Hr. apply (rtc_ind_r (fun x => table_ok x.1 x.2)).
    - apply (first_ok s0 a c s1); assumption.
    - intros x y _ Hs Hx. eapply step_ok; eassumption. }
  destruct (table_numbers s b Hq) as (N1 & N2 & _). split; [apply (to_count s b Hq)|].
  split; [exact N1|]. split; [exact N2|]. split.
  - intros Hc. apply (timer_returns s b); assumption.
  - intros i st G1 G2 G3 G4 G5. apply (exit_returns s b i); assumption.
Qed.

(** The shell forks and starts a program, which exits; its zombie is killed; then
    the shell starts another program. *)
Definition inv_demo : pst :=
  mk_pst (fun _ => zero_task) (fun _ => zero_task) (fun _ => zero_task) (OBJ 0) 0 0 (fun _ => 0) 0
    (fun _ => mk_vma 0 0) 0 1 0 0 [].

Definition inv_demo1 : pst := default inv_demo (first_table (init_queues inv_demo) 1 zero_task).
Definition inv_demo2 : pst := default inv_demo (exec_table (fork_table inv_demo1 2 zero_task) [99] zero_task).
Definition inv_demo3 : pst := default inv_demo (exit_process inv_demo2 0).
Definition inv_demo4 : pst := default inv_demo (kill_process inv_demo3 2).
Definition inv_demo_end : pst := default inv_demo (exec_table (fork_table inv_demo4 3 zero_task) [108] zero_task).

Lemma some_default {A} (x : option A) (d : A) :
  (if x then true else false) = true -> x = Some (default d x).
Proof. destruct x; [reflexivity|discriminate]. Qed.

Lemma process_table_invariant_witness :
  (1 <= process_count inv_demo_end <= NUM_PROCS /\ NoDup (pid <$> procs inv_demo_end) /\
   (forall t, t ∈ procs inv_demo_end -> 0 < pid t <= upid inv_demo_end) /\
   (process_count inv_demo_end < NUM_PROCS -> is_Some (timer_callback 64 inv_demo_end)) /\
   (forall i st, upid inv_demo_end < NUM_PROCS -> 0 <= zom_count inv_demo_end < NUM_PROCS - 1 ->
      1 <= i < process_count inv_demo_end ->
      pid (ready_queue inv_demo_end i) = pid (curr inv_demo_end) -> st <> 1 ->
      is_Some (exit_process inv_demo_end st))) /\
  (pid <$> procs inv_demo_end = [1; 3] /\ pid (zombie_queue inv_demo_end 2) = 0 /\
   upid inv_demo_end = 3 /\ zom_count inv_demo_end = 0).
Proof.
  split; [|vm_compute; split_and!; reflexivity].
  apply (process_table_invariant inv_demo 1 zero_task inv_demo1 inv_demo_end false 64); [reflexivity|reflexivity| | |].
  - apply some_default. vm_compute. reflexivity.
  - apply (rtc_l _ _ (fork_table inv_demo1 2 zero_task, true)); [apply step_fork; vm_compute; reflexivity|].
    apply (rtc_l _ _ (inv_demo2, false)); [apply (step_exec _ [99] zero_task), some_default; vm_compute; reflexivity|].
    apply (rtc_l _ _ (inv_demo3, false)).
    { apply (step_exit _ _ 1 0); [vm_compute; intuition discriminate|vm_compute; reflexivity|discriminate|].
      apply some_default. vm_compute. reflexivity. }
    apply (rtc_l _ _ (inv_demo4, false)); [apply (step_kill _ _ 2), some_default; vm_compute; reflexivity|].
    apply (rtc_l _ _ (fork_table inv_demo4 3 zero_task, true)); [apply step_fork; vm_compute; reflexivity|].
    apply rtc_once, (step_exec _ [108] zero_task), some_default. vm_compute. reflexivity.
  - vm_compute. lia.
Defined.
