(* ===== verification/Syscall.v ===== *)
(** * System calls

    The register convention of [include/sys/syscall.h], the user-side wrappers of
    [libc/syscalls.c] and the dispatch of [isr_handler128] in [sys/syscall.c].  An
    operation is what the dispatcher calls, with the argument conversions the
    prototypes imply. *)

From stdpp Require Import base gmap list numbers.
From Stdlib Require Import ZArith Lia.
From S2P Require Import Prelude Process.

(** The four registers the handler saves. *)
Record regs4 := mk_regs { rax : Z; rbx : Z; rcx : Z; rdx : Z }.

Inductive sysop :=
| SKprintf (buf : Z) | SPage_alloc | SFork | SExit (status : Z) | SSleep (time : Z)
| SMalloc (size : Z) | SGetpid | SGetppid | SExec (file argv envp : Z) | SScanf
| SOpendir (dir : Z) | SReaddir (addr : Z) | SOpenfile (file : Z) | SReadfile (fd size buf : Z)
| SWaitpid (pid status : Z) | SPs | SSleep_shell (secs : Z) | SShutdown | SPutc (c : Z)
| SKill (pid : Z) | SClear.

#[export] Instance sysop_eq_dec : EqDecision sysop.
Proof. solve_decision. Defined.

(** The chain of tests on [syscall_no]; the [char] that [putc] takes is the byte
    of its argument. *)
Definition isr_handler128 (r : regs4) : option sysop :=
  let syscall_no := rax r in
  let buf := rbx r in
  let arg1 := rcx r in
  let arg2 := rdx r in
  if syscall_no =? 2 then Some (SKprintf buf)
  else if syscall_no =? 3 then Some SPage_alloc
  else if syscall_no =? 4 then Some SFork
  else if syscall_no =? 5 then Some (SExit (s32 buf))
  else if syscall_no =? 6 then Some (SSleep buf)
  else if syscall_no =? 7 then Some (SMalloc buf)
  else if syscall_no =? 8 then Some SGetpid
  else if syscall_no =? 9 then Some SGetppid
  else if syscall_no =? 10 then Some (SExec buf arg1 arg2)
  else if syscall_no =? 11 then Some SScanf
  else if syscall_no =? 12 then Some (SOpendir buf)
  else if syscall_no =? 13 then Some (SReaddir buf)
  else if syscall_no =? 14 then Some (SOpenfile buf)
  else if syscall_no =? 15 then Some (SReadfile buf (s32 arg1) arg2)
  else if syscall_no =? 16 then Some (SWaitpid (s32 buf) (s32 arg1))
  else if syscall_no =? 17 then Some SPs
  else if syscall_no =? 18 then Some (SSleep_shell buf)
  else if syscall_no =? 19 then Some SShutdown
  else if syscall_no =? 20 then Some (SPutc (u8 buf))
  else if syscall_no =? 21 then Some (SKill buf)
  else if syscall_no =? 22 then Some SClear
  else None.

(** What the branch of [fork] leaves in [rax], [val] being the [int] that
    [fork_process] returns: the child's number only when the tick is a multiple of
    120, otherwise zero, so that the caller takes the way of the child. *)
Definition fork_rax (tick val : Z) : Z := if negb (tick mod 120 =? 0) then 0 else u64 val.

(** The operations that act on the process table alone: the value left in [rax],
    if any, and the new state. *)
Definition sys_process (s : pst) (op : sysop) : option (option Z * pst) :=
  match op with
  | SExit status => s ← exit_process s status; Some (None, s)
  | SSleep time => Some (None, sleep_proc s time)
  | SMalloc size => let '(p, s) := malloc s size in Some (Some p, s)
  | SGetpid => Some (Some (get_pid s), s)
  | SGetppid => Some (Some (get_ppid s), s)
  | SWaitpid p status => '(r, s) ← syswaitpid s p status; Some (Some (u64 r), s)
  | SPs => s ← dp s; Some (None, s)
  | SShutdown => s ← kshutdown s; Some (None, s)
  | SKill p => s ← kill_process s p; Some (None, s)
  | _ => None
  end.

(** ** The user side *)

(** Registers at the [int] instruction; [g] holds what the wrapper leaves as it
    was. *)
Definition __syscall0 (g : regs4) (n : Z) : regs4 := mk_regs (u64 n) (rbx g) (rcx g) (rdx g).
Definition __syscall1 (g : regs4) (n1 n2 : Z) : regs4 := mk_regs (u64 n1) (u64 n2) (rcx g) (rdx g).
Definition __syscall2 (g : regs4) (n1 n2 n3 : Z) : regs4 := mk_regs (u64 n1) (u64 n2) (u64 n3) (rdx g).
Definition __syscall3 (g : regs4) (n1 n2 n3 n4 : Z) : regs4 := mk_regs (u64 n1) (u64 n2) (u64 n3) (u64 n4).

Module Wrap.
Section Wrap.
Context (g : regs4).

Definition fork : regs4 := __syscall0 g 4.
Definition exit (status : Z) : regs4 := __syscall1 g 5 status.
Definition sleep (seconds : Z) : regs4 := __syscall1 g 6 seconds.
Definition malloc (size : Z) : regs4 := __syscall1 g 7 size.
Definition getpid : regs4 := __syscall0 g 8.
Definition getppid : regs4 := __syscall0 g 9.
Definition kill (pid : Z) : regs4 := __syscall1 g 21 pid.
Definition execvpe (file argv envp : Z) : regs4 := __syscall3 g 10 file argv envp.
Definition opendir (dir : Z) : regs4 := __syscall1 g 12 dir.
Definition read_dir (dir : Z) : regs4 := __syscall1 g 13 dir.
Definition open (file_name : Z) : regs4 := __syscall1 g 14 file_name.
Definition read (fd buf count : Z) : regs4 := __syscall3 g 15 fd count buf.
Definition waitpid (pid status : Z) : regs4 := __syscall2 g 16 pid status.
Definition ps : regs4 := __syscall0 g 17.
Definition shutdown : regs4 := __syscall0 g 19.
Definition sleepshell (ticks : Z) : regs4 := __syscall1 g 18 ticks.
Definition clear : regs4 := __syscall0 g 22.
Definition putchar (c : Z) : regs4 := __syscall1 g 20 c.
Definition printf (buf : Z) : regs4 := __syscall1 g 2 buf.

End Wrap.
End Wrap.

(** A call of the C library and the kernel operation it stands for. *)
Inductive request := Request (r : regs4 -> regs4) (op : sysop).

Definition word (x : Z) : Prop := 0 <= x < 2 ^ 64.
Definition int (x : Z) : Prop := - 2 ^ 31 <= x < 2 ^ 31.

(** The wrappers on 64-bit arguments [a], [b], [c] and [int] arguments [i], [j]. *)
Definition requests (a b c i j : Z) : list request :=
  [ Request (fun g => Wrap.fork g) SFork; Request (fun g => Wrap.exit g i) (SExit i);
    Request (fun g => Wrap.sleep g a) (SSleep a); Request (fun g => Wrap.malloc g a) (SMalloc a);
    Request Wrap.getpid SGetpid; Request Wrap.getppid SGetppid; Request (fun g => Wrap.kill g a) (SKill a);
    Request (fun g => Wrap.execvpe g a b c) (SExec a b c); Request (fun g => Wrap.opendir g a) (SOpendir a);
    Request (fun g => Wrap.read_dir g a) (SReaddir a); Request (fun g => Wrap.open g a) (SOpenfile a);
    Request (fun g => Wrap.read g a b i) (SReadfile a i b);
    Request (fun g => Wrap.waitpid g i j) (SWaitpid i j); Request Wrap.ps SPs;
    Request Wrap.shutdown SShutdown; Request (fun g => Wrap.sleepshell g a) (SSleep_shell a);
    Request Wrap.clear SClear; Request (fun g => Wrap.putchar g a) (SPutc (u8 a));
    Request (fun g => Wrap.printf g a) (SKprintf a) ].

Lemma s32_u64 x : int x -> s32 (u64 x) = x.
Proof.
  intros Hx. unfold int in Hx. unfold s32, u64.
  destruct (decide (0 <= x)).
  - rewrite (Z.mod_small x), Z.mod_small by lia. lia.
  - replace (x mod 2 ^ 64) with (x + 2 ^ 64) by (clear -Hx n; zdiv).
    replace (x + 2 ^ 64 + 2 ^ 31) with (x + 2 ^ 31 + 4294967296 * 2 ^ 32) by lia.
    rewrite Z.mod_add, Z.mod_small by lia. lia.
Qed.

(** C22: the C library and the kernel agree on the system-call interface: the
    registers that each wrapper sets up, whatever the others hold, make the
    dispatcher perform the operation the wrapper stands for, with the caller's
    arguments, negative [int] arguments included; [putchar] passes the byte of its
    argument. *)
Theorem wrappers_reach_kernel a b c i j g :
  word a -> word b -> word c -> int i -> int j ->
  Forall (fun '(Request r op) => isr_handler128 (r g) = Some op) (requests a b c i j).
Proof.
  intros Ha Hb Hc Hi Hj. unfold requests. unfold word in *.
  repeat apply Forall_cons_2; try apply Forall_nil_2;
    cbv beta iota zeta delta [isr_handler128 Wrap.fork Wrap.exit Wrap.sleep Wrap.malloc Wrap.getpid Wrap.getppid
      Wrap.kill Wrap.execvpe Wrap.opendir Wrap.read_dir Wrap.open Wrap.read Wrap.waitpid Wrap.ps
      Wrap.shutdown Wrap.sleepshell Wrap.clear Wrap.putchar Wrap.printf
      __syscall0 __syscall1 __syscall2 __syscall3 rax rbx rcx rdx];
    rewrite ?(s32_u64 i), ?(s32_u64 j) by assumption; rewrite ?(u64_small a), ?(u64_small b), ?(u64_small c) by assumption;
    reflexivity.
Qed.

Lemma wrappers_reach_kernel_witness :
  Forall (fun '(Request r op) => isr_handler128 (r (mk_regs 9 9 9 9)) = Some op)
    (requests 0x600000 0x8eee70000 0 (-1) 512).
Proof. apply wrappers_reach_kernel; unfold word, int; lia. Defined.

(** A process that forks is told the child's number at most once in 120 ticks;
    at any other tick it takes itself for the child. *)
Theorem fork_rax_parent tick val :
  0 < val < 2 ^ 31 -> fork_rax tick val = val <-> tick mod 120 = 0.
Proof.
  intros Hv. unfold fork_rax. destruct (Z.eqb_spec (tick mod 120) 0) as [E|E]; cbn [negb].
  - rewrite u64_small by lia. tauto.
  - split; [lia|tauto].
Qed.
