(* ===== verification/Interrupts.v ===== *)
(** * Interrupt entry and dispatch

    The entry points of [sys/idt.s] as lists of instructions run on a small
    machine (registers, stack, flags), and the dispatch of [isr_handler] and
    [irq_handler] in [sys/idt.c].  What the called C code does is given by a
    function on a state with memory; the machine is generic in that state. *)

From stdpp Require Import base gmap list numbers.
From Stdlib Require Import ZArith Lia.
From Stdlib Require Ascii String.
From S2P Require Import Prelude KLib Mmu Paging BootPaging Alloc Utils UserPaging Memmap Fault.
From S2P Require Import AddrSpace UserMem Format Console Keyboard Tarfs Loader LoadSegment Syscall.
Import (notations) String.

(** ** States with memory *)

Class HasMem (X : Type) := {
  xmem : X -> mem;
  xput : X -> mem -> X;
  xmem_xput : forall x m, xmem (xput x m) = m;
  xput_xput : forall x m m', xput (xput x m) m' = xput x m' }.

#[export] Instance mem_has_mem : HasMem mem := {
  xmem m := m; xput _ m := m; xmem_xput _ _ := eq_refl; xput_xput _ _ _ := eq_refl }.

#[export] Instance kbd_has_mem : HasMem kbd := {
  xmem k := kmem (kk k); xput k m := with_kk k (with_mem (kk k) m);
  xmem_xput _ _ := eq_refl; xput_xput _ _ _ := eq_refl }.

#[export] Instance pair_has_mem {X Y} `{HasMem X} : HasMem (X * Y).
Proof.
  refine {| xmem x := xmem x.1; xput x m := (xput x.1 m, x.2) |}.
  - intros [x y] m. apply xmem_xput.
  - intros [x y] m m'. cbn. f_equal. apply xput_xput.
Defined.

(** ** Registers and instructions *)

Inductive reg := RAX | RBX | RCX | RDX | RBP | RSI | RDI | R8 | R9 | R10 | R11 | R12 | R13 | R14 | R15.

#[export] Instance reg_eq_dec : EqDecision reg.
Proof. solve_decision. Defined.

Definition set_reg (g : reg -> Z) (r : reg) (v : Z) : reg -> Z := fun x => if decide (x = r) then v else g x.

(** [struct regs]: the registers in the order of the stack, the two words of the
    entry point and the frame of the processor. *)
Record regs_t := mk_regs_t {
  r15 : Z; r14 : Z; r13 : Z; r12 : Z; r11 : Z; r10 : Z; r9 : Z; r8 : Z; rsi : Z; rbp : Z;
  rdx : Z; rcx : Z; rbx : Z; rax : Z; rdi : Z; int_no : Z; err_no : Z;
  rip : Z; cs : Z; rflags : Z; rsp : Z; ss : Z }.

Definition regs_at (m : mem) (p : Z) : regs_t :=
  let w i := rd64 m (p + 8 * i) in
  mk_regs_t (w 0) (w 1) (w 2) (w 3) (w 4) (w 5) (w 6) (w 7) (w 8) (w 9) (w 10) (w 11) (w 12) (w 13)
    (w 14) (w 15) (w 16) (w 17) (w 18) (w 19) (w 20) (w 21).

(** The C functions that the entry points call. *)
Inductive cfun := isr_handler_f | timer_callback_f | isr_handler128_f.

(** Data segment registers; 64-bit code ignores their contents. *)
Inductive sreg := DS | ES | GS.

Inductive instr :=
| Cli | Sti | Push (r : reg) | PushI (v : Z) | Pop (r : reg) | MovRsp (r : reg)
| Call (f : cfun) | AddRsp (n : Z) | Iretq
| Mov (r r' : reg) | MovI (r : reg) (v : Z) | OrI (r : reg) (v : Z) | Pushf | MovSeg (s : sreg) (r : reg).

Definition PUSHA : list instr :=
  Push <$> [RDI; RAX; RBX; RCX; RDX; RBP; RSI; R8; R9; R10; R11; R12; R13; R14; R15].

Definition POPA : list instr :=
  Pop <$> [R15; R14; R13; R12; R11; R10; R9; R8; RSI; RBP; RDX; RCX; RBX; RAX; RDI].

Definition isr_coord : list instr :=
  PUSHA ++ [MovRsp RDI; Call isr_handler_f] ++ POPA ++ [AddRsp 0x10; Sti; Iretq].

Definition isr0 : list instr := [Cli; PushI 0; PushI 0] ++ isr_coord.
Definition isr10 : list instr := [Cli; PushI 0; PushI 10] ++ isr_coord.
Definition isr14 : list instr := [Cli; PushI 14] ++ isr_coord.
Definition irq1 : list instr := [Cli; PushI 0x0; PushI 0x21] ++ isr_coord.

Definition irq0 : list instr :=
  [Cli] ++ PUSHA ++ [MovRsp RDI; Call timer_callback_f] ++ POPA ++ [Sti; Iretq].

Definition isr128 : list instr :=
  PUSHA ++ [Call isr_handler128_f]
  ++ (Pop <$> [R15; R15; R14; R13; R12; R11; R10; R9; R8; RSI; RBP; RDX; RCX; RBX; RDI]) ++ [Iretq].

(** ** The machine *)

Record mach (X : Type) := mk_mach {
  gpr : reg -> Z; m_rip : Z; m_cs : Z; m_rflags : Z; m_rsp : Z; m_ss : Z; m_x : X }.
Arguments mk_mach {X} _ _ _ _ _ _ _.
Arguments gpr {X} _ _.
Arguments m_rip {X} _.
Arguments m_cs {X} _.
Arguments m_rflags {X} _.
Arguments m_rsp {X} _.
Arguments m_ss {X} _.
Arguments m_x {X} _.

Definition IF : Z := 0x200.

Section machine.
Context {X : Type} `{HX : HasMem X}.

(** What a call does, given the registers and the stack pointer at its entry; the
    address it returns to. *)
Context (C : cfun -> (reg -> Z) -> Z -> X -> option ((reg -> Z) * X)) (ret : Z).

Definition with_gpr (m : mach X) (g : reg -> Z) : mach X :=
  mk_mach g (m_rip m) (m_cs m) (m_rflags m) (m_rsp m) (m_ss m) (m_x m).
Definition with_flags (m : mach X) (fl : Z) : mach X :=
  mk_mach (gpr m) (m_rip m) (m_cs m) fl (m_rsp m) (m_ss m) (m_x m).
Definition with_stack (m : mach X) (sp : Z) (x : X) : mach X :=
  mk_mach (gpr m) (m_rip m) (m_cs m) (m_rflags m) sp (m_ss m) x.

Definition push (m : mach X) (v : Z) : mach X :=
  let sp := u64 (m_rsp m - 8) in with_stack m sp (xput (m_x m) (wr64 (xmem (m_x m)) (kphys sp) v)).

(** The [i]-th word on the stack. *)
Definition top (m : mach X) (i : Z) : Z := rd64 (xmem (m_x m)) (kphys (u64 (m_rsp m + 8 * i))).

Definition drop (m : mach X) (n : Z) : mach X := with_stack m (u64 (m_rsp m + n)) (m_x m).

Definition step (i : instr) (m : mach X) : option (mach X) :=
  match i with
  | Cli => Some (with_flags m (Z.ldiff (m_rflags m) IF))
  | Sti => Some (with_flags m (Z.lor (m_rflags m) IF))
  | Push r => Some (push m (gpr m r))
  | PushI v => Some (push m v)
  | Pop r => Some (drop (with_gpr m (set_reg (gpr m) r (top m 0))) 8)
  | MovRsp r => Some (with_gpr m (set_reg (gpr m) r (m_rsp m)))
  | Call f =>
      let m := push m ret in
      '(g, x) ← C f (gpr m) (m_rsp m) (m_x m);
      Some (drop (with_gpr (with_stack m (m_rsp m) x) g) 8)
  | AddRsp n => Some (drop m n)
  | Iretq => Some (mk_mach (gpr m) (top m 0) (top m 1) (top m 2) (top m 3) (top m 4) (m_x m))
  | Mov r r' => Some (with_gpr m (set_reg (gpr m) r (gpr m r')))
  | MovI r v => Some (with_gpr m (set_reg (gpr m) r v))
  | OrI r v => Some (with_gpr m (set_reg (gpr m) r (Z.lor (gpr m r) v)))
  | Pushf => Some (push m (m_rflags m))
  | MovSeg _ _ => Some m
  end.

Fixpoint run (l : list instr) (m : mach X) : option (mach X) :=
  match l with
  | [] => Some m
  | i :: l => m ← step i m; run l m
  end.

(** The processor enters an interrupt gate: on the stack at [sp] it saves the stack
    segment and pointer, the flags and the return address, and the error code of
    the exceptions that have one; it masks interrupts. *)
Definition enter (sp : Z) (err : option Z) (m : mach X) : mach X :=
  let m0 := with_stack m sp (m_x m) in
  let m1 := push (push (push (push (push m0 (m_ss m)) (m_rsp m)) (m_rflags m)) (m_cs m)) (m_rip m) in
  let m2 := match err with Some e => push m1 e | None => m1 end in
  with_flags m2 (Z.ldiff (m_rflags m) IF).

(** ** The stack as a list of words *)

Definition words (m : mem) (q : Z) (ws : list Z) : Prop :=
  forall i w, ws !! i = Some w -> rd64 m (q + 8 * Z.of_nat i) = w.

(** The stack pointer is the kernel address of [q], where [ws] lies. *)
Record stack (m : mach X) (q : Z) (ws : list Z) : Prop := {
  st_rsp : m_rsp m = VIRT_BASE + q;
  st_q : 0 <= q /\ q + 8 * Z.of_nat (length ws) < 2 ^ 30;
  st_words : words (xmem (m_x m)) q ws }.

Lemma words_push m q v ws : word v -> words m q ws -> words (wr64 m (q - 8) v) (q - 8) (v :: ws).
Proof.
  intros Hv H [|i] w Hi; cbn in Hi.
  - injection Hi as <-. replace (q - 8 + 8 * Z.of_nat 0) with (q - 8) by lia. rewrite rd64_wr64_eq. apply u64_small, Hv.
  - replace (q - 8 + 8 * Z.of_nat (S i)) with (q + 8 * Z.of_nat i) by lia. rewrite rd64_wr64_ne by lia. apply H, Hi.
Qed.

Lemma words_ext m m' q ws :
  (forall a, q <= a < q + 8 * Z.of_nat (length ws) -> rd8 m' a = rd8 m a) -> words m q ws -> words m' q ws.
Proof.
  intros He H i w Hi. rewrite <- (H i w Hi). apply lookup_lt_Some in Hi. apply rd64_ext. intros a Ha. apply He. lia.
Qed.

Lemma words_app m q vs ws : words m q (vs ++ ws) -> words m (q + 8 * Z.of_nat (length vs)) ws.
Proof.
  intros H i w Hi. specialize (H (length vs + i)%nat w). rewrite lookup_app_r in H by lia.
  replace (length vs + i - length vs)%nat with i in H by lia. rewrite <- (H Hi). f_equal. lia.
Qed.

Lemma stack_push m q v ws : stack m q ws -> word v -> 8 <= q -> stack (push m v) (q - 8) (v :: ws).
Proof.
  intros [Hr [Hq Hb] Hw] Hv H8. unfold push.
  assert (E : u64 (m_rsp m - 8) = VIRT_BASE + (q - 8)) by (rewrite Hr, u64_small by (unfold VIRT_BASE; lia); lia).
  constructor; cbn [with_stack m_rsp m_x length]; [exact E|lia|].
  rewrite xmem_xput, E, kphys_high by lia. apply words_push; assumption.
Qed.

Lemma stack_top m q ws i w : stack m q ws -> ws !! i = Some w -> top m (Z.of_nat i) = w.
Proof.
  intros [Hr [Hq Hb] Hw] Hi. unfold top. rewrite <- (Hw i w Hi). apply lookup_lt_Some in Hi.
  rewrite Hr, u64_small, <- Z.add_assoc, kphys_high by (unfold VIRT_BASE; lia). reflexivity.
Qed.

Lemma stack_drop m q vs ws n :
  stack m q (vs ++ ws) -> n = 8 * Z.of_nat (length vs) -> stack (drop m n) (q + n) ws.
Proof.
  intros [Hr [Hq Hb] Hw] ->. rewrite length_app in Hb.
  constructor; cbn [drop with_stack m_rsp m_x]; [|lia|apply words_app, Hw].
  rewrite Hr, u64_small by (unfold VIRT_BASE; lia). lia.
Qed.

Lemma stack_with_gpr m q ws g : stack m q ws -> stack (with_gpr m g) q ws.
Proof. intros []. constructor; assumption. Qed.

Lemma stack_with_flags m q ws fl : stack m q ws -> stack (with_flags m fl) q ws.
Proof. intros []. constructor; assumption. Qed.

Lemma m_x_flags (m : mach X) fl : m_x (with_flags m fl) = m_x m.
Proof. reflexivity. Qed.

Lemma gpr_flags (m : mach X) fl : gpr (with_flags m fl) = gpr m.
Proof. reflexivity. Qed.

(** ** Sequences of instructions *)

Lemma run_app l1 l2 m : run (l1 ++ l2) m = run l1 m ≫= run l2.
Proof. revert m. induction l1 as [|i l1 IH]; intros m; cbn; [reflexivity|]. destruct (step i m); [apply IH|reflexivity]. Qed.

(** The lowest address of the stack. *)
Context (lo : Z) (Hlo : 0 <= lo).

(** Only the stack below [q] differs. *)
Record grown (q : Z) (x x' : X) : Prop := {
  gr_state : x' = xput x (xmem x');
  gr_mem : forall a, a < lo \/ q <= a -> rd8 (xmem x') a = rd8 (xmem x) a }.

Lemma grown_refl q x : xput x (xmem x) = x -> grown q x x.
Proof. intros H. constructor; [symmetry; exact H|reflexivity]. Qed.

Lemma grown_push m q v q0 ws x :
  grown q x (m_x m) -> stack m q0 ws -> q0 <= q -> lo + 8 <= q0 -> grown q x (m_x (push m v)).
Proof.
  intros [Hs Hm] [Hr [Hq Hb] _] Hle H8. unfold push.
  assert (E : u64 (m_rsp m - 8) = VIRT_BASE + (q0 - 8)) by (rewrite Hr, u64_small by (unfold VIRT_BASE; lia); lia).
  constructor; cbn [with_stack m_x]; rewrite xmem_xput.
  - rewrite Hs at 1. apply xput_xput.
  - intros a Ha. rewrite E, kphys_high by lia. rewrite rd8_wr64_ne by lia. apply Hm, Ha.
Qed.

(** The machine differs in its stack only. *)
Definition same_cpu (m m' : mach X) : Prop :=
  gpr m' = gpr m /\ m_rip m' = m_rip m /\ m_cs m' = m_cs m /\ m_rflags m' = m_rflags m /\ m_ss m' = m_ss m.

Lemma run_pushes rs m q ws x qx :
  stack m q ws -> (forall r, word (gpr m r)) -> grown qx x (m_x m) -> q <= qx -> lo + 8 * Z.of_nat (length rs) <= q ->
  exists m', run (Push <$> rs) m = Some m'
    /\ stack m' (q - 8 * Z.of_nat (length rs)) (reverse (gpr m <$> rs) ++ ws)
    /\ same_cpu m m' /\ grown qx x (m_x m').
Proof.
  revert m q ws. induction rs as [|r rs IH]; intros m q ws Hs Hg Hx Hq Hr; cbn [fmap list_fmap run length] in *.
  - exists m. split; [reflexivity|]. rewrite Z.mul_0_r, Z.sub_0_r.
    split; [exact Hs|]. split; [unfold same_cpu; auto|exact Hx].
  - cbn [step mbind option_bind].
    destruct (IH (push m (gpr m r)) (q - 8) (gpr m r :: ws)) as (m' & E & Hs' & Hc & Hx');
      [apply stack_push; [exact Hs|apply Hg|lia]|exact Hg|eapply grown_push; [exact Hx|exact Hs|exact Hq|lia]|lia|lia|].
    exists m'. split; [exact E|]. cbn [push with_stack gpr] in Hs'. split; [|split; [exact Hc|exact Hx']].
    rewrite reverse_cons, <- app_assoc. cbn [app].
    replace (q - 8 * Z.of_nat (S (length rs))) with (q - 8 - 8 * Z.of_nat (length rs)) by lia. exact Hs'.
Qed.

Fixpoint assign (g : reg -> Z) (rs : list reg) (vs : list Z) : reg -> Z :=
  match rs, vs with
  | r :: rs, v :: vs => assign (set_reg g r v) rs vs
  | _, _ => g
  end.

Lemma run_pops rs vs ws m q :
  stack m q (vs ++ ws) -> length vs = length rs ->
  exists m', run (Pop <$> rs) m = Some m' /\ stack m' (q + 8 * Z.of_nat (length rs)) ws
    /\ gpr m' = assign (gpr m) rs vs /\ m_x m' = m_x m.
Proof.
  revert vs m q. induction rs as [|r rs IH]; intros [|v vs] m q Hs Hl; try discriminate Hl; cbn [fmap list_fmap run] in *.
  - exists m. split; [reflexivity|]. cbn [length]. rewrite Z.mul_0_r, Z.add_0_r. auto.
  - cbn [step mbind option_bind]. rewrite (stack_top m q ((v :: vs) ++ ws) 0 v Hs eq_refl : top m 0 = v).
    destruct (IH vs (drop (with_gpr m (set_reg (gpr m) r v)) 8) (q + 8)) as (m' & E & Hs' & Hg & Hx).
    + apply (stack_drop _ q [v] (vs ++ ws)); [apply stack_with_gpr, Hs|reflexivity].
    + injection Hl as Hl. exact Hl.
    + exists m'. split; [exact E|]. split; [|split; [exact Hg|exact Hx]].
      cbn [length]. replace (q + 8 * Z.of_nat (S (length rs))) with (q + 8 + 8 * Z.of_nat (length rs)) by lia. exact Hs'.
Qed.

Lemma run_iretq m q f0 f1 f2 f3 f4 ws :
  stack m q (f0 :: f1 :: f2 :: f3 :: f4 :: ws) ->
  run [Iretq] m = Some (mk_mach (gpr m) f0 f1 f2 f3 f4 (m_x m)).
Proof.
  intros Hs. cbn [run step mbind option_bind].
  rewrite (stack_top m q _ 0 f0 Hs eq_refl : top m 0 = f0), (stack_top m q _ 1 f1 Hs eq_refl : top m 1 = f1),
    (stack_top m q _ 2 f2 Hs eq_refl : top m 2 = f2), (stack_top m q _ 3 f3 Hs eq_refl : top m 3 = f3),
    (stack_top m q _ 4 f4 Hs eq_refl : top m 4 = f4). reflexivity.
Qed.

(** A call that returns and leaves the words of the stack as they were. *)
Lemma run_call f m q ws g' x' :
  stack m q ws -> 8 <= q -> word ret ->
  C f (gpr m) (VIRT_BASE + (q - 8)) (m_x (push m ret)) = Some (g', x') ->
  (forall a, q <= a < q + 8 * Z.of_nat (length ws) -> rd8 (xmem x') a = rd8 (xmem (m_x (push m ret))) a) ->
  exists m', run [Call f] m = Some m' /\ stack m' q ws /\ gpr m' = g' /\ m_x m' = x'.
Proof.
  intros Hs Hq Hret HC Hm. pose proof (stack_push m q ret ws Hs Hret Hq) as [Pr Pq Pw].
  cbn [run step mbind option_bind]. change (gpr (push m ret)) with (gpr m). rewrite Pr, HC. cbn [mbind option_bind].
  eexists. split; [reflexivity|]. cbn [drop with_gpr with_stack gpr m_x]. split; [|split; reflexivity].
  destruct Hs as [Sr [Sq Sb] Sw]. constructor; cbn [drop with_gpr with_stack m_rsp m_x].
  - rewrite u64_small by (unfold VIRT_BASE; lia). lia.
  - lia.
  - eapply words_ext; [exact Hm|]. apply (words_app _ (q - 8) [ret] ws) in Pw.
    replace (q - 8 + 8 * Z.of_nat (length [ret])) with q in Pw by (cbn [length]; lia). exact Pw.
Qed.

(** ** The entry points *)

(** The argument of [isr_handler]: the interrupted registers [g], the words of the
    entry point and the frame of the processor. *)
Definition saved (g : reg -> Z) (v e f0 f1 f2 f3 f4 : Z) : regs_t :=
  mk_regs_t (g R15) (g R14) (g R13) (g R12) (g R11) (g R10) (g R9) (g R8) (g RSI) (g RBP) (g RDX) (g RCX)
    (g RBX) (g RAX) (g RDI) v e f0 f1 f2 f3 f4.

Definition pushed : list reg := [RDI; RAX; RBX; RCX; RDX; RBP; RSI; R8; R9; R10; R11; R12; R13; R14; R15].

Lemma regs_at_saved m p g v e f0 f1 f2 f3 f4 ws :
  words m p (reverse (g <$> pushed) ++ v :: e :: f0 :: f1 :: f2 :: f3 :: f4 :: ws) ->
  regs_at m p = saved g v e f0 f1 f2 f3 f4.
Proof.
  intros H. unfold regs_at, saved.
  f_equal; match goal with |- rd64 _ (_ + 8 * ?z) = _ => apply (H (Z.to_nat z)) end; reflexivity.
Qed.

(** A C function called with registers [g] and the words [ws] at [p] on its stack: it
    returns, these words keep their values, and [Q] holds.  [x] is the state below
    whose address [qx] the stack has grown. *)
Definition handles (f : cfun) (g : reg -> Z) (p : Z) (ws : list Z) (qx : Z) (x : X) (Q : (reg -> Z) -> X -> Prop) : Prop :=
  forall y, grown qx x y -> words (xmem y) p ws ->
    exists g' x', C f g (VIRT_BASE + (p - 8)) y = Some (g', x')
      /\ (forall a, p <= a < p + 8 * Z.of_nat (length ws) -> rd8 (xmem x') a = rd8 (xmem y) a) /\ Q g' x'.

(** The registers are saved, [mid] runs, and the function is called. *)
Lemma save_call_spec f mid mv m q ws qx x Q :
  (forall m, run mid m = Some (with_gpr m (mv (gpr m) (m_rsp m)))) ->
  stack m q ws -> (forall r, word (gpr m r)) -> word ret -> grown qx x (m_x m) -> q <= qx -> lo + 128 <= q ->
  handles f (mv (gpr m) (VIRT_BASE + (q - 120))) (q - 120) (reverse (gpr m <$> pushed) ++ ws) qx x Q ->
  exists m', run (PUSHA ++ mid ++ [Call f]) m = Some m'
    /\ stack m' (q - 120) (reverse (gpr m <$> pushed) ++ ws) /\ Q (gpr m') (m_x m').
Proof.
  intros Hmid Hs Hg Hret Hx Hq Hq128 HC. rewrite !run_app.
  destruct (run_pushes pushed m q _ x qx Hs Hg Hx Hq ltac:(cbn; lia)) as (m1 & E1 & S1 & (G1 & _) & X1).
  change (8 * Z.of_nat (length pushed)) with 120 in S1. change PUSHA with (Push <$> pushed). rewrite E1.
  cbn [mbind option_bind]. rewrite run_app, Hmid. cbn [mbind option_bind].
  rewrite G1, (st_rsp _ _ _ S1). set (m2 := with_gpr m1 _).
  assert (S2 : stack m2 (q - 120) (reverse (gpr m <$> pushed) ++ ws)) by (apply stack_with_gpr, S1).
  pose proof (stack_push m2 _ ret _ S2 Hret ltac:(lia)) as [_ _ Pw]. apply (words_app _ _ [ret]) in Pw.
  replace (q - 120 - 8 + 8 * Z.of_nat (length [ret])) with (q - 120) in Pw by (cbn [length]; lia).
  destruct (HC (m_x (push m2 ret))) as (g' & x' & E & Hm & HQ);
    [eapply grown_push; [exact X1|exact S2|lia|lia]|exact Pw|].
  destruct (run_call f m2 _ _ g' x' S2 ltac:(lia) Hret E Hm) as (m3 & E3 & S3 & G3 & X3).
  exists m3. rewrite G3, X3. auto.
Qed.

(** Instructions that remove the words [ds] from the stack and nothing else. *)
Definition drops (tl : list instr) (ds : list Z) : Prop :=
  forall m q ws, stack m q (ds ++ ws) ->
    exists m' q', run tl m = Some m' /\ stack m' q' ws /\ gpr m' = gpr m /\ m_x m' = m_x m.

Lemma drops_nil : drops [] [].
Proof. intros m q ws Hs. exists m, q. auto. Qed.

Lemma drops_sti : drops [Sti] [].
Proof. intros m q ws Hs. eexists _, q. split; [reflexivity|]. split; [apply stack_with_flags, Hs|split; reflexivity]. Qed.

Lemma drops_two v e : drops [AddRsp 0x10; Sti] [v; e].
Proof.
  intros m q ws Hs. eexists _, (q + 16). split; [reflexivity|].
  split; [apply stack_with_flags; eapply (stack_drop _ _ [v; e]); [exact Hs|reflexivity]|split; reflexivity].
Qed.

(** Popping [rs] and dropping [ds], the processor returns. *)
Lemma restore_spec rs vs ds m q f0 f1 f2 f3 f4 ws tl :
  stack m q (vs ++ ds ++ f0 :: f1 :: f2 :: f3 :: f4 :: ws) -> length vs = length rs -> drops tl ds ->
  run ((Pop <$> rs) ++ tl ++ [Iretq]) m = Some (mk_mach (assign (gpr m) rs vs) f0 f1 f2 f3 f4 (m_x m)).
Proof.
  intros Hs Hl Htl. rewrite !run_app. destruct (run_pops rs vs _ m q Hs Hl) as (m1 & E1 & S1 & G1 & X1).
  rewrite E1. cbn [mbind option_bind]. rewrite run_app. destruct (Htl _ _ _ S1) as (m2 & q2 & E2 & S2 & G2 & X2).
  rewrite E2. cbn [mbind option_bind]. rewrite (run_iretq _ _ _ _ _ _ _ _ S2), G2, G1, X2, X1. reflexivity.
Qed.

Lemma assign_saved g g' r : assign g' (reverse pushed) (reverse (g <$> pushed)) r = g r.
Proof. destruct r; reflexivity. Qed.

(** The machine resumes where the frame [f0 … f4] says with the registers [g]. *)
Definition resumed (m : mach X) (g : reg -> Z) (f0 f1 f2 f3 f4 : Z) : Prop :=
  (forall r, gpr m r = g r) /\ m_rip m = f0 /\ m_cs m = f1 /\ m_rflags m = f2 /\ m_rsp m = f3 /\ m_ss m = f4.

Lemma coord_spec m q v e f0 f1 f2 f3 f4 ws qx x (Q : X -> Prop) :
  stack m q (v :: e :: f0 :: f1 :: f2 :: f3 :: f4 :: ws) -> (forall r, word (gpr m r)) -> word ret ->
  grown qx x (m_x m) -> q <= qx -> lo + 128 <= q ->
  handles isr_handler_f (set_reg (gpr m) RDI (VIRT_BASE + (q - 120))) (q - 120)
    (reverse (gpr m <$> pushed) ++ v :: e :: f0 :: f1 :: f2 :: f3 :: f4 :: ws) qx x (fun _ => Q) ->
  exists m', run isr_coord m = Some m' /\ resumed m' (gpr m) f0 f1 f2 f3 f4 /\ Q (m_x m').
Proof.
  intros Hs Hg Hret Hx Hq Hq128 HC.
  destruct (save_call_spec isr_handler_f [MovRsp RDI] (fun g sp => set_reg g RDI sp) m q _ qx x (fun _ => Q)
    (fun _ => eq_refl) Hs Hg Hret Hx Hq Hq128 HC) as (m1 & E1 & S1 & HQ).
  eexists. split.
  - change isr_coord with ((PUSHA ++ [MovRsp RDI] ++ [Call isr_handler_f]) ++ (Pop <$> reverse pushed) ++ [AddRsp 0x10; Sti] ++ [Iretq]).
    rewrite run_app, E1. cbn [mbind option_bind]. eapply (restore_spec _ _ [v; e]); [exact S1|reflexivity|apply drops_two].
  - split; [|exact HQ]. split; [|auto]. intros r. apply assign_saved.
Qed.

(** *** The processor's part *)

Record wf (m : mach X) : Prop := {
  wf_gpr : forall r, word (gpr m r);
  wf_frame : word (m_rip m) /\ word (m_cs m) /\ word (m_rflags m) /\ word (m_rsp m) /\ word (m_ss m);
  wf_x : xput (m_x m) (xmem (m_x m)) = m_x m }.

Lemma enter_spec m q err :
  wf m -> lo + 64 <= q < 2 ^ 30 -> (forall e, err = Some e -> word e) ->
  let ws := option_list err ++ [m_rip m; m_cs m; m_rflags m; m_rsp m; m_ss m] in
  stack (enter (VIRT_BASE + q) err m) (q - 8 * Z.of_nat (length ws)) ws
  /\ grown q (m_x m) (m_x (enter (VIRT_BASE + q) err m)) /\ gpr (enter (VIRT_BASE + q) err m) = gpr m.
Proof.
  intros [Hg (H1 & H2 & H3 & H4 & H5) Hx] Hq He ws.
  assert (S0 : stack (with_stack m (VIRT_BASE + q) (m_x m)) q [])
    by (constructor; [reflexivity|cbn; lia|intros i w Hi; discriminate Hi]).
  assert (G0 : grown q (m_x m) (m_x (with_stack m (VIRT_BASE + q) (m_x m)))) by (apply grown_refl, Hx).
  assert (E0 : gpr (with_stack m (VIRT_BASE + q) (m_x m)) = gpr m) by reflexivity.
  set (m0 := with_stack m (VIRT_BASE + q) (m_x m)) in *.
  assert (P : forall m' q' v ws', stack m' q' ws' -> grown q (m_x m) (m_x m') -> gpr m' = gpr m -> word v -> lo + 8 <= q' <= q ->
    stack (push m' v) (q' - 8) (v :: ws') /\ grown q (m_x m) (m_x (push m' v)) /\ gpr (push m' v) = gpr m).
  { intros m' q' v ws' Hs Hgr Hgp Hv Hb. split; [apply stack_push; [exact Hs|exact Hv|lia]|].
    split; [eapply grown_push; [exact Hgr|exact Hs|lia|lia]|exact Hgp]. }
  unfold enter. cbv zeta. fold m0. clearbody m0.
  destruct (P m0 q (m_ss m) [] S0 G0 E0 H5 ltac:(lia)) as (S1 & G1 & E1). set (m1 := push m0 _) in *. clearbody m1.
  destruct (P m1 _ (m_rsp m) _ S1 G1 E1 H4 ltac:(lia)) as (S2 & G2 & E2). set (m2 := push m1 _) in *. clearbody m2.
  destruct (P m2 _ (m_rflags m) _ S2 G2 E2 H3 ltac:(lia)) as (S3 & G3 & E3). set (m3 := push m2 _) in *. clearbody m3.
  destruct (P m3 _ (m_cs m) _ S3 G3 E3 H2 ltac:(lia)) as (S4 & G4 & E4). set (m4 := push m3 _) in *. clearbody m4.
  destruct (P m4 _ (m_rip m) _ S4 G4 E4 H1 ltac:(lia)) as (S5 & G5 & E5). set (m5 := push m4 _) in *. clearbody m5.
  replace (q - 8 - 8 - 8 - 8 - 8) with (q - 40) in * by lia.
  destruct err as [e|].
  - destruct (P m5 _ e _ S5 G5 E5 (He e eq_refl) ltac:(lia)) as (S6 & G6 & E6). set (m6 := push m5 _) in *. clearbody m6.
    rewrite m_x_flags, gpr_flags. split; [|split; [exact G6|exact E6]]. apply stack_with_flags.
    replace (q - 8 * Z.of_nat (length ws)) with (q - 40 - 8) by (unfold ws; cbn; lia). exact S6.
  - rewrite m_x_flags, gpr_flags. split; [|split; [exact G5|exact E5]]. apply stack_with_flags.
    replace (q - 8 * Z.of_nat (length ws)) with (q - 40) by (unfold ws; cbn; lia). exact S5.
Qed.

Lemma enter_plain m q :
  wf m -> lo + 64 <= q < 2 ^ 30 ->
  stack (enter (VIRT_BASE + q) None m) (q - 40) [m_rip m; m_cs m; m_rflags m; m_rsp m; m_ss m]
  /\ grown q (m_x m) (m_x (enter (VIRT_BASE + q) None m)) /\ gpr (enter (VIRT_BASE + q) None m) = gpr m.
Proof.
  intros Hwf Hq. destruct (enter_spec m q None Hwf Hq) as (Hs & G & E); [discriminate|].
  split; [|split; [exact G|exact E]].
  change (stack (enter (VIRT_BASE + q) None m) (q - 8 * Z.of_nat 5) [m_rip m; m_cs m; m_rflags m; m_rsp m; m_ss m]) in Hs.
  replace (q - 8 * Z.of_nat 5) with (q - 40) in Hs by lia. exact Hs.
Qed.

(** The words that the entry points push before [isr_coord]. *)
Lemma run_prefix vs m q ws x qx :
  stack m q ws -> grown qx x (m_x m) -> q <= qx -> Forall word vs -> lo + 8 * Z.of_nat (length vs) <= q ->
  exists m', run (Cli :: (PushI <$> vs)) m = Some m' /\ stack m' (q - 8 * Z.of_nat (length vs)) (reverse vs ++ ws)
    /\ grown qx x (m_x m') /\ gpr m' = gpr m.
Proof.
  intros Hs Hx Hq Hv. cbn [run step mbind option_bind].
  apply (stack_with_flags _ _ _ (Z.ldiff (m_rflags m) IF)) in Hs. change (m_x m) with (m_x (with_flags m (Z.ldiff (m_rflags m) IF))) in Hx.
  change (gpr m) with (gpr (with_flags m (Z.ldiff (m_rflags m) IF))). set (m0 := with_flags m _) in *. clearbody m0.
  revert m0 q ws Hs Hx Hq. induction Hv as [|v vs Hv Hvs IH]; intros m0 q ws Hs Hx Hq Hl; cbn [fmap list_fmap run length] in *.
  - exists m0. rewrite Z.mul_0_r, Z.sub_0_r. auto.
  - cbn [step mbind option_bind].
    destruct (IH (push m0 v) (q - 8) (v :: ws)) as (m' & E & Hs' & G & Hg);
      [apply stack_push; [exact Hs|exact Hv|lia]|eapply grown_push; [exact Hx|exact Hs|exact Hq|lia]|lia|lia|].
    exists m'. split; [exact E|]. rewrite reverse_cons, <- app_assoc. cbn [app].
    replace (q - 8 * Z.of_nat (S (length vs))) with (q - 8 - 8 * Z.of_nat (length vs)) by lia. auto.
Qed.

(** A stub that pushes [vs] and goes to [isr_coord] on the frame of the processor. *)
Lemma stub_spec m q err vs v e f0 f1 f2 f3 f4 ws (Q : X -> Prop) :
  wf m -> word ret -> lo + 256 <= q < 2 ^ 30 -> (forall e, err = Some e -> word e) -> Forall word vs ->
  reverse vs ++ option_list err ++ [m_rip m; m_cs m; m_rflags m; m_rsp m; m_ss m]
    = v :: e :: f0 :: f1 :: f2 :: f3 :: f4 :: ws -> (length ws <= 4)%nat ->
  let p := q - 176 - 8 * Z.of_nat (length ws) in
  (forall g y, grown q (m_x m) y -> regs_at (xmem y) p = saved (gpr m) v e f0 f1 f2 f3 f4 ->
     exists g' x', C isr_handler_f g (VIRT_BASE + (p - 8)) y = Some (g', x')
       /\ (forall a, p <= a < q -> rd8 (xmem x') a = rd8 (xmem y) a) /\ Q x') ->
  exists m', run ((Cli :: (PushI <$> vs)) ++ isr_coord) (enter (VIRT_BASE + q) err m) = Some m'
    /\ resumed m' (gpr m) f0 f1 f2 f3 f4 /\ Q (m_x m').
Proof.
  intros Hwf Hret Hq He Hvs Hws Hlen p HC.
  destruct (enter_spec m q err Hwf ltac:(lia) He) as (S0 & G0 & E0). cbv zeta in S0.
  set (fr := option_list err ++ _) in *.
  assert (Hl : (length vs + length fr = 7 + length ws)%nat).
  { apply (f_equal length) in Hws. rewrite length_app, length_reverse in Hws. cbn [length] in Hws. lia. }
  destruct (run_prefix vs _ _ _ _ _ S0 G0 ltac:(lia) Hvs ltac:(lia)) as (m1 & E1 & S1 & G1 & Eg).
  rewrite Hws in S1. replace (q - 8 * Z.of_nat (length fr) - 8 * Z.of_nat (length vs)) with (p + 120) in S1 by (unfold p; lia).
  rewrite run_app, E1. cbn [mbind option_bind].
  assert (Hg1 : gpr m1 = gpr m) by (rewrite Eg; exact E0). rewrite <- Hg1 in HC |- *.
  apply (coord_spec m1 (p + 120) v e f0 f1 f2 f3 f4 ws q (m_x m) Q S1); try assumption; try (unfold p; lia).
  - rewrite Hg1. apply Hwf.
  - replace (p + 120 - 120) with p by lia. intros y Hy Hw.
    destruct (HC (set_reg (gpr m1) RDI (VIRT_BASE + p)) y Hy (regs_at_saved _ _ _ _ _ _ _ _ _ _ _ Hw)) as (g' & x' & E & Hm & HQ).
    exists g', x'. split; [exact E|]. split; [|exact HQ]. intros a Ha. apply Hm.
    rewrite length_app in Ha. cbn [length] in Ha. change (length (reverse (gpr m1 <$> pushed))) with 15%nat in Ha. unfold p. lia.
Qed.

(** The timer's entry point calls its handler on the processor's frame alone. *)
Lemma irq0_spec m q (Q : X -> Prop) :
  wf m -> word ret -> lo + 256 <= q < 2 ^ 30 ->
  (forall g y, grown q (m_x m) y -> exists g' x', C timer_callback_f g (VIRT_BASE + (q - 168)) y = Some (g', x')
       /\ (forall a, q - 160 <= a < q -> rd8 (xmem x') a = rd8 (xmem y) a) /\ Q x') ->
  exists m', run irq0 (enter (VIRT_BASE + q) None m) = Some m'
    /\ resumed m' (gpr m) (m_rip m) (m_cs m) (m_rflags m) (m_rsp m) (m_ss m) /\ Q (m_x m').
Proof.
  intros Hwf Hret Hq HC.
  destruct (enter_plain m q Hwf ltac:(lia)) as (S0 & G0 & E0).
  set (m0 := enter (VIRT_BASE + q) None m) in *. clearbody m0.
  apply (stack_with_flags _ _ _ (Z.ldiff (m_rflags m0) IF)) in S0.
  rewrite <- (m_x_flags m0 (Z.ldiff (m_rflags m0) IF)) in G0. rewrite <- (gpr_flags m0 (Z.ldiff (m_rflags m0) IF)) in E0.
  change irq0 with ([Cli] ++ (PUSHA ++ [MovRsp RDI] ++ [Call timer_callback_f]) ++ (Pop <$> reverse pushed) ++ [Sti] ++ [Iretq]).
  rewrite run_app. change (run [Cli] m0) with (Some (with_flags m0 (Z.ldiff (m_rflags m0) IF))).
  cbn [mbind option_bind]. rewrite run_app. set (m1 := with_flags m0 _) in *. clearbody m1. rename E0 into Eg.
  destruct (save_call_spec timer_callback_f [MovRsp RDI] (fun g sp => set_reg g RDI sp) m1 (q - 40) _ q (m_x m) (fun _ => Q)
    (fun _ => eq_refl) S0) as (m2 & E2 & S2 & HQ); try assumption; try lia; [rewrite Eg; apply Hwf| |].
  - replace (q - 40 - 120) with (q - 160) by lia. intros y Hy _.
    destruct (HC (set_reg (gpr m1) RDI (VIRT_BASE + (q - 160))) y Hy) as (g' & x' & E & Hm & HQ).
    replace (q - 160 - 8) with (q - 168) by lia. exists g', x'. split; [exact E|]. split; [|exact HQ].
    intros a Ha. apply Hm. rewrite length_app in Ha. cbn [length] in Ha.
    change (length (reverse (gpr m1 <$> pushed))) with 15%nat in Ha. lia.
  - rewrite E2. cbn [mbind option_bind]. eexists. split.
    + eapply (restore_spec (reverse pushed) _ []); [exact S2|reflexivity|apply drops_sti].
    + split; [|exact HQ]. split; [|auto]. intros r. rewrite <- Eg. apply assign_saved.
Qed.

(** What the registers hold after a system call that left [a] in [rax]: the entry
    point pops one register too early, so that all but [rdi] move by one. *)
Definition shifted (g : reg -> Z) (a : Z) (r : reg) : Z :=
  match r with
  | RAX => a | RBX => g RAX | RCX => g RBX | RDX => g RCX | RBP => g RDX | RSI => g RBP | RDI => g RDI
  | R8 => g RSI | R9 => g R8 | R10 => g R9 | R11 => g R10 | R12 => g R11 | R13 => g R12 | R14 => g R13 | R15 => g R14
  end.

Lemma isr128_spec m q (Q : Z -> X -> Prop) :
  wf m -> word ret -> lo + 256 <= q < 2 ^ 30 ->
  (forall y, grown q (m_x m) y -> exists g' x', C isr_handler128_f (gpr m) (VIRT_BASE + (q - 168)) y = Some (g', x')
       /\ (forall a, q - 160 <= a < q -> rd8 (xmem x') a = rd8 (xmem y) a) /\ Q (g' RAX) x') ->
  exists m' a, run isr128 (enter (VIRT_BASE + q) None m) = Some m'
    /\ resumed m' (shifted (gpr m) a) (m_rip m) (m_cs m) (m_rflags m) (m_rsp m) (m_ss m) /\ Q a (m_x m').
Proof.
  intros Hwf Hret Hq HC. destruct (enter_plain m q Hwf ltac:(lia)) as (S0 & G0 & E0).
  set (m0 := enter (VIRT_BASE + q) None m) in *. clearbody m0.
  change isr128 with ((PUSHA ++ [] ++ [Call isr_handler128_f])
    ++ (Pop <$> [R15; R15; R14; R13; R12; R11; R10; R9; R8; RSI; RBP; RDX; RCX; RBX; RDI]) ++ [] ++ [Iretq]).
  rewrite run_app.
  destruct (save_call_spec isr_handler128_f [] (fun g _ => g) m0 (q - 40) _ q (m_x m) (fun g => Q (g RAX))
    ltac:(intros []; reflexivity) S0) as (m2 & E2 & S2 & HQ); try assumption; try lia; [rewrite E0; apply Hwf| |].
  - replace (q - 40 - 120) with (q - 160) by lia. intros y Hy _. rewrite E0. destruct (HC y Hy) as (g' & x' & E & Hm & HQ).
    replace (q - 160 - 8) with (q - 168) by lia. exists g', x'. split; [exact E|]. split; [|exact HQ].
    intros a Ha. apply Hm. rewrite length_app in Ha. cbn [length] in Ha.
    change (length (reverse (gpr m <$> pushed))) with 15%nat in Ha. lia.
  - rewrite E2. cbn [mbind option_bind]. eexists _, (gpr m2 RAX).
    split; [eapply (restore_spec _ _ []); [exact S2|reflexivity|apply drops_nil]|]. split; [|exact HQ].
    split; [|auto]. intros r. rewrite <- E0. destruct r; reflexivity.
Qed.
End machine.

(** ** The C dispatch *)

(** Calls that leave the interrupt path: a message of [kprintf], and the calls of
    [kshutdown] and [exit_process]. *)
Inductive iev := IMsg (s : String.string) | IFault (e : fault_event).

(** [irq_handler]; [scancode] is what port 0x60 holds. *)
Definition irq_handler (scancode : Z) (reg : regs_t) (k : kbd) : kbd :=
  let k := if int_no reg =? 32 then k
           else if int_no reg =? 33 then keyboard_handler k scancode
           else k in
  outb k 0x20 0x20.

(** [isr_handler]; [cr2] is the faulting address. *)
Definition isr_handler (scancode cr2 : Z) (reg : regs_t) (x : kbd * list iev) : kbd * list iev :=
  let '(k, ev) := x in
  if (int_no reg =? 32) || (int_no reg =? 33) then (irq_handler scancode reg k, ev)
  else if int_no reg =? 10 then (k, ev ++ [IMsg "TSS Exception \n"%string])
  else if int_no reg =? 0 then (k, ev ++ [IMsg "Divide by Zero\n"%string; IFault EvShutdown])
  else if int_no reg =? 14 then
    let '(s, fe) := page_fault_handler (kk k) cr2 (err_no reg) in (with_kk k s, ev ++ (IFault <$> fe))
  else x.

(** The compiled [isr_handler]: its argument lies above the return address; [clob]
    is what it leaves in the registers.  The other calls are as in [D]. *)
Definition kernel_code (scancode cr2 : Z) (clob : (reg -> Z) -> reg -> Z)
    (D : cfun -> (reg -> Z) -> Z -> kbd * list iev -> option ((reg -> Z) * (kbd * list iev)))
    (f : cfun) (g : reg -> Z) (sp : Z) (x : kbd * list iev) : option ((reg -> Z) * (kbd * list iev)) :=
  match f with
  | isr_handler_f => Some (clob g, isr_handler scancode cr2 (regs_at (xmem x) (kphys (u64 (sp + 8)))) x)
  | _ => D f g sp x
  end.

(** ** Claims *)

Lemma xput_same (k : kbd) (ev : list iev) : xput (k, ev) (xmem (k, ev)) = (k, ev).
Proof. destruct k as [[] ? ? ? ? ? ? ?]. reflexivity. Qed.

(** A state below whose stack something was pushed. *)
Lemma grown_kbd lo q (k : kbd) (ev : list iev) y :
  grown lo q (k, ev) y -> exists m, y = (with_kk k (with_mem (kk k) m), ev)
    /\ forall a, ~ (lo <= a < q) -> rd8 m a = rd8 (kmem (kk k)) a.
Proof.
  intros [Hs Hm]. exists (xmem y). split; [exact Hs|]. intros a Ha. apply Hm. lia.
Qed.

(** C6: demand paging.  When user code reads or writes an address whose page is not
    present, and the ring-0 stack lies in kernel memory, the entry point, the
    dispatch and the fault handler return to the same instruction with every
    register and flag as it was; now the hardware translates the address, with
    user access, to the next frame of the pool, writable after a write only.  Every
    other page of the user half is translated to the same frame as before; outside
    the 512 GiB of the address it is writable as before; inside them, a write fault
    takes no page's right to write away and a read fault takes all of them.  The
    stack is still kernel memory. *)
Theorem page_fault_resumes ready own P lo np T L (m : mach (kbd * list iev)) k ev q scancode va err clob D ret :
  PageSource ready own -> P mod 4096 = 0 -> 0 <= P -> P + 4096 <= lo -> (forall a, own a -> a < P) ->
  wf m -> word ret -> m_x m = (k, ev) -> uspace ready P lo np (kk k) T L -> np + 3 * 4096 <= KWIN ->
  (kk k)⟦physbase⟧ = 0x200000 -> 0 <= (kk k)⟦physfree⟧ < 2 ^ 31 -> np_fault (va, err) ->
  kregion own P np T (q - 256) 256 ->
  exists m' np' T' k', run (kernel_code scancode va clob D) ret isr14 (enter (VIRT_BASE + q) (Some err) m) = Some m'
    /\ resumed m' (gpr m) (m_rip m) (m_cs m) (m_rflags m) (m_rsp m) (m_ss m) /\ m_x m' = (k', ev)
    /\ walk (kmem (kk k')) (cr3 (kk k')) va
       = Some (mk_tr ((kk k)⟦usr_phys_addr⟧ + va mod 4096) (Z.testbit (fault_perm err) 1) true)
    /\ (forall va', 0 <= va' < 2 ^ 47 -> va' / 4096 <> va / 4096 ->
         kept_page P (fault_perm err) va (kmem (kk k)) (kmem (kk k')) va')
    /\ uspace ready P lo np' (kk k') T' (<[va / 4096 := (kk k)⟦usr_phys_addr⟧ + fault_perm err]> L)
    /\ kregion own P np' T' (q - 256) 256.
Proof.
  intros HPS HP HP0 HPlo Hown Hwf Hret Hx Hu Hw Hb Hpf Hnp Hk.
  pose proof (kregion_low own P np T (q - 256) 256 (q - 256) Hk ltac:(lia)) as Hq0.
  pose proof (kregion_low own P np T (q - 256) 256 (q - 1) Hk ltac:(lia)) as Hq1.
  pose proof (ui_lo _ _ _ _ _ _ (us_inv _ _ _ _ _ _ _ Hu)) as Hnpb.
  assert (HK : KWIN = 102760448) by reflexivity. assert (He : word err) by (unfold word; destruct Hnp as [_ [H|H]]; cbn in H; lia).
  destruct (stub_spec (kernel_code scancode va clob D) ret (q - 256) ltac:(lia) m q (Some err) [14] 14 err
    (m_rip m) (m_cs m) (m_rflags m) (m_rsp m) (m_ss m) []
    (fun x => exists np' T' k', x = (k', ev)
      /\ walk (kmem (kk k')) (cr3 (kk k')) va = Some (mk_tr ((kk k)⟦usr_phys_addr⟧ + va mod 4096) (Z.testbit (fault_perm err) 1) true)
      /\ (forall va', 0 <= va' < 2 ^ 47 -> va' / 4096 <> va / 4096 ->
           kept_page P (fault_perm err) va (kmem (kk k)) (kmem (kk k')) va')
      /\ uspace ready P lo np' (kk k') T' (<[va / 4096 := (kk k)⟦usr_phys_addr⟧ + fault_perm err]> L)
      /\ kregion own P np' T' (q - 256) 256)) as (m' & E & Hr & np' & T' & k' & H1 & H2 & H3 & H4 & H5);
    try assumption; try lia; try reflexivity; [intros e [= <-]; exact He|repeat constructor; unfold word; lia|cbn; lia| |].
  2:{ exists m', np', T', k'. auto 10. }
  cbn [length]. replace (q - 176 - 8 * Z.of_nat 0) with (q - 176) by lia.
  intros g y Hy Hregs. rewrite Hx in Hy. destruct (grown_kbd _ _ _ _ _ Hy) as (m1 & -> & Hm1).
  unfold kernel_code. replace (VIRT_BASE + (q - 176 - 8) + 8) with (VIRT_BASE + (q - 176)) by lia.
  rewrite u64_small, kphys_high, Hregs by (unfold VIRT_BASE; lia). unfold isr_handler. cbn [int_no err_no saved Z.eqb Pos.eqb orb].
  set (s1 := with_mem (kk k) m1). change (kk (with_kk k s1)) with s1.
  assert (Hm1' : forall a, ~ (q - 256 <= a < q - 256 + 256) -> rd8 m1 a = rd8 (kmem (kk k)) a) by (intros a Ha; apply Hm1; lia).
  assert (Hu1 : uspace ready P lo np s1 T L) by (eapply (uspace_store ready own P lo); [exact Hu|exact Hk|lia|exact Hm1']).
  pose proof (handler_np s1 (va, err) Hnp Hb Hpf) as Eh. cbn [fst snd] in Eh. rewrite Eh.
  destruct (memmap_fault_spec ready own P lo HP HP0 HPlo Hown np s1 T L va (fault_perm err) Hu1)
    as (s2 & E2 & [(np' & T' & Hn & Hu2 & Hd) _ _ Hwk Hot] & _); [apply Hnp|apply fault_perm_uflag|exact Hw|].
  rewrite E2. cbn [snd fmap list_fmap app]. rewrite app_nil_r.
  pose proof (eff_data own np T s1 np' T' s2 ltac:(lia) Hd) as Hef.
  eexists _, _. split; [reflexivity|]. split.
  - intros a Ha. cbn [xmem pair_has_mem kbd_has_mem fst with_kk kk].
    eapply (kregion_same own P); [exact Hef|exact Hk|lia|intros []].
  - exists np', T', (with_kk (with_kk k s1) s2). cbn [with_kk kk]. split; [reflexivity|]. split; [exact Hwk|].
    split; [|split; [exact Hu2|eapply kregion_eff; [exact Hef|exact Hk]]].
    intros va' Hva' Hne. specialize (Hot va' Hva' Hne). unfold kept_page in *. cbn [s1 with_mem kmem] in Hot.
    rewrite (walk_store ready own P lo HP HP0 HPlo np (kk k) T L m1 (q - 256) 256 va' Hu Hk ltac:(lia) Hva' Hm1') in Hot.
    exact Hot.
Qed.

(** A user program at 0x400010 on the machine of the loader's example. *)
Definition fault_mach : mach (kbd * list iev) :=
  mk_mach (fun r => match r with RAX => 17 | RBP => 0x8eee6fff0 | _ => 5 end) 0x400010 0x2b 0x246 0x8eee6ff80 0x23
    (mk_kbd load_kst 0 0 0 0 NO 0 [], []).

Lemma fault_mach_wf : wf fault_mach.
Proof.
  constructor; [intros []; unfold word; cbn; lia|unfold word; cbn; lia|].
  apply (xput_same (mk_kbd load_kst 0 0 0 0 NO 0 [])).
Qed.

Lemma page_fault_resumes_witness :
  exists m' np' T' k', run (kernel_code 0 0x601008 (fun g _ => 0) (fun _ _ _ _ => None)) 0x202000 isr14
      (enter (VIRT_BASE + 0x3F0000) (Some 6) fault_mach) = Some m'
    /\ resumed m' (gpr fault_mach) 0x400010 0x2b 0x246 0x8eee6ff80 0x23 /\ m_x m' = (k', [])
    /\ walk (kmem (kk k')) (cr3 (kk k')) 0x601008 = Some (mk_tr (load_kst⟦usr_phys_addr⟧ + 0x601008 mod 4096) true true)
    /\ (forall va', 0 <= va' < 2 ^ 47 -> va' / 4096 <> 0x601008 / 4096 ->
         kept_page 0x418000 (fault_perm 6) 0x601008 (kmem load_kst) (kmem (kk k')) va')
    /\ uspace (boot_ready 0x400000) 0x418000 0x419000 np' (kk k') T'
         (<[0x601008 / 4096 := load_kst⟦usr_phys_addr⟧ + fault_perm 6]> ∅)
    /\ kregion (freelist_cells 0x400000) 0x418000 np' T' (0x3F0000 - 256) 256.
Proof.
  apply (page_fault_resumes (boot_ready 0x400000) (freelist_cells 0x400000) 0x418000 0x419000 0x419000
    {[(4, 0) := 0x418000]} ∅ fault_mach (mk_kbd load_kst 0 0 0 0 NO 0 []) [] 0x3F0000 0 0x601008 6 _ _ 0x202000
    (page_source_boot 0x400000 demo_boot)).
  - reflexivity.
  - lia.
  - lia.
  - unfold freelist_cells. lia.
  - exact fault_mach_wf.
  - unfold word. lia.
  - reflexivity.
  - exact load_kst_space.
  - unfold KWIN. lia.
  - reflexivity.
  - vm_compute. intuition discriminate.
  - split; [cbn; lia|right; reflexivity].
  - apply load_kregion; lia.
Defined.

(** C17: a key press is transparent to the interrupted program.  While a line is
    being typed, an interrupt of the keyboard with the code of a printable key, on
    a stack apart from the line and the screen, appends the key to the line and
    resumes the program with every register and flag as it was; the controller
    receives two end-of-interrupt commands. *)
Theorem key_interrupt_resumes gv np (m : mach (kbd * list iev)) k ev m0 l q sc c cr2 clob D ret :
  video + 4000 <= np -> np + 4096 <= KWIN -> wf m -> word ret -> m_x m = (k, ev) -> typed gv np m0 l k ->
  plain_key sc c -> (length l < 4000)%nat -> 256 <= q < 2 ^ 30 ->
  apart (q - 256) 256 np 4096 -> apart (q - 256) 256 video 4000 ->
  exists m' k' m1, run (kernel_code sc cr2 clob D) ret irq1 (enter (VIRT_BASE + q) None m) = Some m'
    /\ resumed m' (gpr m) (m_rip m) (m_cs m) (m_rflags m) (m_rsp m) (m_ss m) /\ m_x m' = (k', ev)
    /\ typed gv np m1 (l ++ [c]) k' /\ (forall a, ~ (q - 256 <= a < q) -> rd8 m1 a = rd8 (kmem (kk k)) a)
    /\ outs k' = outs k ++ [(0x20, 0x20); (0x20, 0x20)].
Proof.
  intros Hnp HnpK Hwf Hret Hx Ht Hkey Hlen Hq Hap1 Hap2. unfold apart in Hap1, Hap2.
  destruct (stub_spec (kernel_code sc cr2 clob D) ret (q - 256) ltac:(lia) m q None [0; 33] 33 0
    (m_rip m) (m_cs m) (m_rflags m) (m_rsp m) (m_ss m) []
    (fun x => exists k' m1, x = (k', ev) /\ typed gv np m1 (l ++ [c]) k'
      /\ (forall a, ~ (q - 256 <= a < q) -> rd8 m1 a = rd8 (kmem (kk k)) a) /\ outs k' = outs k ++ [(0x20, 0x20); (0x20, 0x20)]))
    as (m' & E & Hr & k' & m1 & H1 & H2 & H3 & H4);
    try assumption; try lia; try reflexivity; [discriminate|repeat constructor; unfold word; lia|cbn; lia| |].
  2:{ exists m', k', m1. auto 10. }
  cbn [length]. replace (q - 176 - 8 * Z.of_nat 0) with (q - 176) by lia.
  intros g y Hy Hregs. rewrite Hx in Hy. destruct (grown_kbd _ _ _ _ _ Hy) as (m1 & -> & Hm1).
  unfold kernel_code. replace (VIRT_BASE + (q - 176 - 8) + 8) with (VIRT_BASE + (q - 176)) by lia.
  rewrite u64_small, kphys_high, Hregs by (unfold VIRT_BASE; lia). unfold isr_handler, irq_handler.
  cbn [int_no err_no saved Z.eqb Pos.eqb orb]. set (k1 := with_kk k (with_mem (kk k) m1)).
  assert (Ht1 : typed gv np m1 l k1).
  { destruct Ht as [H1 H2 H3 H4 H5 H6 H7 H8]. constructor; try assumption; [|reflexivity].
    unfold k1. cbn [with_kk kk]. eapply seg_ext; [|exact H7]. intros a Ha. apply Hm1. lia. }
  pose proof (typed_key gv np Hnp HnpK m1 l k1 sc c Ht1 Hkey Hlen) as Ht2.
  assert (Ho : outs (keyboard_handler k1 sc) = outs k ++ [(0x20, 0x20)])
    by (rewrite (handler_plain k1 sc c (ty_lkp _ _ _ _ _ Ht1) Hkey); reflexivity).
  set (k2 := keyboard_handler k1 sc) in *. clearbody k2.
  eexists _, _. split; [reflexivity|]. split.
  - intros a Ha. cbn [xmem pair_has_mem kbd_has_mem fst outb kk].
    rewrite (ty_frame _ _ _ _ _ Ht2) by lia. reflexivity.
  - eexists _, m1. split; [reflexivity|]. split; [|split; [exact Hm1|cbn [outb outs]; rewrite Ho, <- app_assoc; reflexivity]].
    destruct Ht2. constructor; assumption.
Qed.

(** The same machine while [gets] waits with one key typed. *)
Definition key_kbd : kbd :=
  mk_kbd (with_mem load_kst (wr8 load_mem 0x500000 108))⟦counter ↦ 2⟧ 1 0 (VIRT_BASE + 0x500000) 0 NO 0 [].

Definition key_mach : mach (kbd * list iev) :=
  mk_mach (fun r => match r with RAX => 17 | RBP => 0x8eee6fff0 | _ => 5 end) 0x400010 0x2b 0x246 0x8eee6ff80 0x23
    (key_kbd, []).

Lemma key_interrupt_resumes_witness :
  exists m' k' m1, run (kernel_code 31 0 (fun g _ => 0) (fun _ _ _ _ => None)) 0x202000 irq1
      (enter (VIRT_BASE + 0x3F0000) None key_mach) = Some m'
    /\ resumed m' (gpr key_mach) 0x400010 0x2b 0x246 0x8eee6ff80 0x23 /\ m_x m' = (k', [])
    /\ typed (fun x => (kk key_kbd)⟦x⟧) 0x500000 m1 [108; 115] k'
    /\ (forall a, ~ (0x3F0000 - 256 <= a < 0x3F0000) -> rd8 m1 a = rd8 (kmem (kk key_kbd)) a)
    /\ outs k' = [(0x20, 0x20); (0x20, 0x20)].
Proof.
  apply (key_interrupt_resumes (fun x => (kk key_kbd)⟦x⟧) 0x500000 key_mach key_kbd [] (kmem (kk key_kbd)) [108]
    0x3F0000 31 115 0 _ _ 0x202000); try reflexivity; try (unfold video, KWIN, word, apart; lia).
  - constructor; [intros []; unfold word; cbn; lia|unfold word; cbn; lia|apply (xput_same key_kbd)].
  - constructor; try reflexivity.
    + unfold cursor_ok. cbn. lia.
    + intros [|i] c Hi; [injection Hi as <-; reflexivity|discriminate Hi].
  - apply (bool_decide_eq_true_1 (plain_key 31 115)). vm_compute. reflexivity.
  - cbn. lia.
Defined.

(** The compiled [isr_handler128]: it takes the call from the live registers, [K]
    performs it, and its result, if it has one, is left in [rax]. *)
Definition syscall_code {X} (K : sysop -> X -> option (option Z * X)) (clob : (reg -> Z) -> reg -> Z)
    (f : cfun) (g : reg -> Z) (sp : Z) (x : X) : option ((reg -> Z) * X) :=
  match f with
  | isr_handler128_f =>
      match isr_handler128 (mk_regs (g RAX) (g RBX) (g RCX) (g RDX)) with
      | Some op => '(v, x) ← K op x; Some (match v with Some a => set_reg (clob g) RAX a | None => clob g end, x)
      | None => Some (clob g, x)
      end
  | _ => None
  end.

(** C35: a system call returns its result to the instruction behind the [int], but
    not the registers: every register except [rdi] comes back with the value of its
    neighbour in the saved frame, among them [rbp] with the caller's [rdx] and
    [rbx] with the number of the call. *)
Theorem system_call_moves_registers {X} `{HX : HasMem X} (K : sysop -> X -> option (option Z * X)) clob ret
    (m : mach X) q op a (Q : X -> Prop) :
  wf m -> word ret -> 256 <= q < 2 ^ 30 ->
  isr_handler128 (mk_regs (gpr m RAX) (gpr m RBX) (gpr m RCX) (gpr m RDX)) = Some op ->
  (forall y, grown (q - 256) q (m_x m) y -> exists x', K op y = Some (Some a, x')
     /\ (forall b, q - 160 <= b < q -> rd8 (xmem x') b = rd8 (xmem y) b) /\ Q x') ->
  exists m', run (syscall_code K clob) ret isr128 (enter (VIRT_BASE + q) None m) = Some m'
    /\ resumed m' (shifted (gpr m) a) (m_rip m) (m_cs m) (m_rflags m) (m_rsp m) (m_ss m) /\ Q (m_x m').
Proof.
  intros Hwf Hret Hq Hop HK.
  destruct (isr128_spec (syscall_code K clob) ret (q - 256) ltac:(lia) m q (fun v x => v = a /\ Q x) Hwf Hret ltac:(lia))
    as (m' & v & E & Hr & -> & HQ); [|exists m'; auto].
  intros y Hy. destruct (HK y Hy) as (x' & EK & Hm & HQ). unfold syscall_code. rewrite Hop, EK. cbn [mbind option_bind].
  eexists _, x'. split; [reflexivity|]. split; [exact Hm|]. split; [reflexivity|exact HQ].
Qed.

(** [getpid()] of process 7 from a program whose registers are all different. *)
Definition call_mach : mach mem :=
  mk_mach (fun r => match r with RAX => 8 | RBX => 1 | RCX => 2 | RDX => 3 | RBP => 4 | RSI => 5 | RDI => 6 | R8 => 80 | _ => 90 end)
    0x400010 0x2b 0x246 0x8eee6ff80 0x23 ∅.

Lemma system_call_moves_registers_witness :
  exists m', run (syscall_code (fun op x => match op with SGetpid => Some (Some 7, x) | _ => None end) (fun g _ => 0))
      0x202000 isr128 (enter (VIRT_BASE + 0x3F0000) None call_mach) = Some m'
    /\ resumed m' (shifted (gpr call_mach) 7) 0x400010 0x2b 0x246 0x8eee6ff80 0x23 /\ True.
Proof.
  apply (system_call_moves_registers (fun op x => match op with SGetpid => Some (Some 7, x) | _ => None end) _ 0x202000
    call_mach 0x3F0000 SGetpid 7 (fun _ => True)); try lia; try reflexivity.
  - constructor; [intros []; unfold word; cbn; lia|unfold word; cbn; lia|reflexivity].
  - unfold word. lia.
  - intros y _. exists y. auto.
Defined.

(** *** The invalid-TSS exception *)

(** Vector 10 carries an error code, but its entry point pushes a second one: the
    return address is taken from the error code. *)
Lemma tss_exception_resumes_at_error {X} `{HX : HasMem X} C ret (m : mach X) q e (Q : X -> Prop) :
  wf m -> word ret -> 512 <= q < 2 ^ 30 -> word e ->
  (forall g y, grown (q - 264) q (m_x m) y ->
     regs_at (xmem y) (q - 184) = saved (gpr m) 10 0 e (m_rip m) (m_cs m) (m_rflags m) (m_rsp m) ->
     exists g' x', C isr_handler_f g (VIRT_BASE + (q - 192)) y = Some (g', x')
       /\ (forall a, q - 184 <= a < q -> rd8 (xmem x') a = rd8 (xmem y) a) /\ Q x') ->
  exists m', run C ret isr10 (enter (VIRT_BASE + q) (Some e) m) = Some m'
    /\ resumed m' (gpr m) e (m_rip m) (m_cs m) (m_rflags m) (m_rsp m) /\ Q (m_x m').
Proof.
  intros Hwf Hret Hq He HC.
  apply (stub_spec C ret (q - 264) ltac:(lia) m q (Some e) [0; 10] 10 0 e (m_rip m) (m_cs m) (m_rflags m) (m_rsp m)
    [m_ss m]); try assumption; try lia; try reflexivity;
    [intros e' [= <-]; exact He|repeat constructor; unfold word; lia|cbn; lia|].
  cbn [length]. replace (q - 176 - 8 * Z.of_nat 1) with (q - 184) by lia. replace (q - 184 - 8) with (q - 192) by lia.
  exact HC.
Qed.
