(* ===== verification/UserMode.v ===== *)
(** * The jump to user mode

    [jmp_usrmode] of [sys/swtch_to_ring3.c] as instructions of the machine of the
    interrupt entry points: it builds a frame for [iretq] that enters the program's
    code with the user's selectors.  The compiler chooses the registers that carry
    the two arguments. *)

From stdpp Require Import base gmap list numbers.
From Stdlib Require Import ZArith Lia.
From S2P Require Import Prelude KLib Mmu Paging Cpu Syscall Interrupts.

Definition jmp_usrmode (function stack : reg) : list instr :=
  [Cli; Mov RBX stack; MovI RAX 0x23; MovSeg DS RAX; MovSeg ES RAX; MovSeg DS RAX; MovSeg GS RAX;
   PushI 0x23; Push RBX; Pushf; Pop RAX; OrI RAX 0x200; Push RAX; PushI 0x2B; Push function; Sti; Iretq].

(** ** Flags *)

Lemma word_bits x : (forall i, 64 <= i -> Z.testbit x i = false) -> word x.
Proof.
  intros H. assert (E : u64 x = x).
  { apply Z.bits_inj'. intros i Hi. unfold u64. destruct (decide (i < 64)).
    - apply Z.mod_pow2_bits_low. lia.
    - rewrite Z.mod_pow2_bits_high, H by lia. reflexivity. }
  rewrite <- E. apply u64_range.
Qed.

Lemma bits_word x i : word x -> 64 <= i -> Z.testbit x i = false.
Proof. intros Hx Hi. rewrite <- (u64_small x Hx). apply Z.mod_pow2_bits_high. lia. Qed.

Lemma word_ldiff x y : word x -> word (Z.ldiff x y).
Proof. intros Hx. apply word_bits. intros i Hi. rewrite Z.ldiff_spec, (bits_word x) by assumption || lia. reflexivity. Qed.

Lemma word_lor x y : word x -> word y -> word (Z.lor x y).
Proof.
  intros Hx Hy. apply word_bits. intros i Hi. rewrite Z.lor_spec, (bits_word x), (bits_word y) by assumption || lia. reflexivity.
Qed.

(** Interrupts are enabled in the flags that [iretq] restores. *)
Lemma flags_enabled x : Z.lor (Z.ldiff x IF) 0x200 = Z.lor x IF.
Proof. change 0x200 with IF. apply Z.bits_inj'. intros i Hi. rewrite !Z.lor_spec, Z.ldiff_spec. destruct (Z.testbit x i), (Z.testbit IF i); reflexivity. Qed.

Section jump.
Context {X : Type} `{HX : HasMem X} (C : cfun -> (reg -> Z) -> Z -> X -> option ((reg -> Z) * X)) (ret : Z).

Abbreviation run := (run C ret).

Lemma run_push v m q ws i :
  (step C ret i m = Some (push m v)) -> stack m q ws -> 8 <= q -> word v ->
  exists m', run [i] m = Some m' /\ stack m' (q - 8) (v :: ws) /\ gpr m' = gpr m /\ m_rflags m' = m_rflags m.
Proof.
  intros E Hs Hq Hv. exists (push m v). cbn [Interrupts.run]. rewrite E. cbn [mbind option_bind].
  split; [reflexivity|]. split; [apply stack_push; assumption|split; reflexivity].
Qed.

(** The registers when the last words of the frame are pushed. *)
Definition jump_regs (g : reg -> Z) (stk : reg) (fl : Z) : reg -> Z :=
  set_reg (set_reg (set_reg (set_reg g RBX (g stk)) RAX 0x23) RAX (Z.ldiff fl IF)) RAX (Z.lor (Z.ldiff fl IF) 0x200).

(** Up to the flags: the user's stack pointer and data selector are on the stack. *)
Lemma jump_head m q ws stk :
  stack m q ws -> 24 <= q -> (forall r, word (gpr m r)) -> word (m_rflags m) ->
  exists m', run [Cli; Mov RBX stk; MovI RAX 0x23; MovSeg DS RAX; MovSeg ES RAX; MovSeg DS RAX; MovSeg GS RAX;
      PushI 0x23; Push RBX; Pushf; Pop RAX; OrI RAX 0x200] m = Some m'
    /\ stack m' (q - 16) (gpr m stk :: 0x23 :: ws) /\ gpr m' = jump_regs (gpr m) stk (m_rflags m).
Proof.
  intros Hs Hq Hg Hf.
  match goal with |- context [run ?l m] => change l with
    ([Cli; Mov RBX stk; MovI RAX 0x23; MovSeg DS RAX; MovSeg ES RAX; MovSeg DS RAX; MovSeg GS RAX]
      ++ [PushI 0x23] ++ [Push RBX] ++ [Pushf] ++ [Pop RAX; OrI RAX 0x200]) end.
  rewrite run_app. cbn [Interrupts.run step mbind option_bind].
  set (m0 := with_gpr _ _).
  assert (S0 : stack m0 q ws) by (apply stack_with_gpr, stack_with_gpr, stack_with_flags, Hs).
  assert (G0 : gpr m0 = set_reg (set_reg (gpr m) RBX (gpr m stk)) RAX 0x23) by reflexivity.
  assert (F0 : m_rflags m0 = Z.ldiff (m_rflags m) IF) by reflexivity. clearbody m0.
  rewrite run_app. destruct (run_push 0x23 m0 q ws (PushI 0x23) eq_refl S0 ltac:(lia)) as (m1 & E1 & S1 & G1 & F1);
    [unfold word; lia|].
  rewrite E1. cbn [mbind option_bind]. rewrite run_app.
  destruct (run_push (gpr m1 RBX) m1 _ _ (Push RBX) eq_refl S1 ltac:(lia)) as (m2 & E2 & S2 & G2 & F2);
    [rewrite G1, G0; apply Hg|].
  rewrite E2. cbn [mbind option_bind]. rewrite run_app.
  assert (F : m_rflags m2 = Z.ldiff (m_rflags m) IF) by congruence.
  destruct (run_push (m_rflags m2) m2 _ _ Pushf eq_refl S2 ltac:(lia)) as (m3 & E3 & S3 & G3 & F3);
    [rewrite F; apply word_ldiff, Hf|].
  rewrite E3. cbn [mbind option_bind Interrupts.run step].
  rewrite (stack_top m3 _ _ 0 _ S3 eq_refl : top m3 0 = m_rflags m2).
  eexists. split; [reflexivity|]. split.
  - apply stack_with_gpr. replace (gpr m stk) with (gpr m1 RBX) by (rewrite G1, G0; reflexivity).
    replace (q - 16) with (q - 8 - 8 - 8 + 8) by lia. apply (stack_drop _ _ [m_rflags m2]); [apply stack_with_gpr, S3|reflexivity].
  - cbn [with_gpr drop with_stack gpr]. rewrite G3, G2, G1, G0, F. reflexivity.
Qed.

(** The frame is complete and [iretq] takes it. *)
Lemma jump_spec m q ws fn stk :
  stack m q ws -> 40 <= q -> (forall r, word (gpr m r)) -> word (m_rflags m) ->
  let g := jump_regs (gpr m) stk (m_rflags m) in
  exists m', run (jmp_usrmode fn stk) m = Some m'
    /\ resumed m' g (g fn) 0x2B (Z.lor (m_rflags m) IF) (gpr m stk) 0x23.
Proof.
  intros Hs Hq Hg Hf g.
  assert (Wl : word (Z.lor (Z.ldiff (m_rflags m) IF) 0x200)) by (apply word_lor; [apply word_ldiff, Hf|unfold word; lia]).
  assert (Wg : forall r, word (g r)).
  { intros r. unfold g, jump_regs, set_reg. repeat case_decide; first [exact Wl|apply Hg]. }
  change (jmp_usrmode fn stk) with ([Cli; Mov RBX stk; MovI RAX 0x23; MovSeg DS RAX; MovSeg ES RAX; MovSeg DS RAX; MovSeg GS RAX;
      PushI 0x23; Push RBX; Pushf; Pop RAX; OrI RAX 0x200] ++ [Push RAX] ++ [PushI 0x2B] ++ [Push fn] ++ [Sti; Iretq]).
  rewrite run_app. destruct (jump_head m q ws stk Hs ltac:(lia) Hg Hf) as (m4 & E4 & S4 & G4). fold g in G4.
  rewrite E4. cbn [mbind option_bind]. rewrite run_app.
  destruct (run_push (gpr m4 RAX) m4 _ _ (Push RAX) eq_refl S4 ltac:(lia)) as (m5 & E5 & S5 & G5 & F5);
    [rewrite G4; apply Wg|].
  rewrite E5. cbn [mbind option_bind]. rewrite run_app.
  destruct (run_push 0x2B m5 _ _ (PushI 0x2B) eq_refl S5 ltac:(lia)) as (m6 & E6 & S6 & G6 & F6); [unfold word; lia|].
  rewrite E6. cbn [mbind option_bind]. rewrite run_app.
  destruct (run_push (gpr m6 fn) m6 _ _ (Push fn) eq_refl S6 ltac:(lia)) as (m7 & E7 & S7 & G7 & F7);
    [rewrite G6, G5, G4; apply Wg|].
  rewrite E7. cbn [mbind option_bind Interrupts.run step].
  apply (stack_with_flags _ _ _ (Z.lor (m_rflags m7) IF)) in S7. pose proof (run_iretq C ret _ _ _ _ _ _ _ _ S7) as E8.
  cbn [Interrupts.run step mbind option_bind] in E8. eexists. split; [exact E8|].
  unfold resumed. cbn [gpr m_rip m_cs m_rflags m_rsp m_ss].
  split; [intros r; change (gpr m7 r = g r); congruence|].
  split; [congruence|]. split; [reflexivity|]. split; [rewrite G4; apply flags_enabled|]. split; reflexivity.
Qed.

(** ** Claim *)

(** C26: With the segment table of [init_gdt] in place, [jmp_usrmode] enters user mode:
    the processor runs 64-bit ring-3 code with a writable ring-3 stack segment, the
    stack pointer is the second argument and interrupts are enabled.  Execution starts
    at the first argument, provided the compiler kept it in a register other than
    [rax] and [rbx]: the assembly overwrites these two without declaring it, and then
    execution starts at the flags or at the stack address instead. *)
Theorem jmp_usrmode_enters_ring3 (m : mach X) q ws fn stk mg g tss s0 :
  stack m q ws -> 40 <= q -> (forall r, word (gpr m r)) -> word (m_rflags m) ->
  tss + 104 <= g \/ g + 256 <= tss -> Gdt.gmem s0 = Gdt.gdt_image mg g ->
  let s := Gdt.init_gdt s0 g tss in
  exists m', run (jmp_usrmode fn stk) m = Some m'
    /\ Gdt.segment_of s (m_cs m') = Some (Gdt.mk_segment true true false 3)
    /\ Gdt.segment_of s (m_ss m') = Some (Gdt.mk_segment false false true 3)
    /\ m_rsp m' = gpr m stk /\ m_rflags m' = Z.lor (m_rflags m) IF
    /\ m_rip m' = (if decide (fn = RAX) then Z.lor (m_rflags m) IF
                   else if decide (fn = RBX) then gpr m stk else gpr m fn).
Proof.
  intros Hs Hq Hg Hf Hd Hm s. destruct (jump_spec m q ws fn stk Hs Hq Hg Hf) as (m' & E & _ & H1 & H2 & H3 & H4 & H5).
  destruct (Gdt.gdt_selectors mg g tss s0 Hd Hm) as (_ & _ & D1 & D2).
  exists m'. split; [exact E|]. rewrite H2, H5. split; [exact D2|]. split; [exact D1|]. split; [exact H4|]. split; [exact H3|].
  rewrite H1. unfold jump_regs, set_reg. rewrite flags_enabled. destruct fn; reflexivity.
Qed.

End jump.

(** The shell's entry point in [rdi] and its stack in [rsi]. *)
Definition jump_mach : mach mem :=
  mk_mach (fun r => match r with RDI => 0x400000 | RSI => 0x10000000 | _ => 7 end) 0 8 2 (VIRT_BASE + 0x9000) 0x10 ∅.

Definition jump_segs : Gdt.segs := Gdt.mk_segs (Gdt.gdt_image ∅ 0x1000) 0 0 0 0 0.

Lemma jmp_usrmode_enters_ring3_witness :
  exists m', run (fun _ _ _ _ => None) 0 (jmp_usrmode RDI RSI) jump_mach = Some m'
    /\ m_rip m' = 0x400000 /\ m_rsp m' = 0x10000000
    /\ Gdt.segment_of (Gdt.init_gdt jump_segs 0x1000 0x2000) (m_cs m') = Some (Gdt.mk_segment true true false 3).
Proof.
  destruct (jmp_usrmode_enters_ring3 (fun _ _ _ _ => None) 0 jump_mach 0x9000 [] RDI RSI ∅ 0x1000 0x2000 jump_segs)
    as (m' & E & Hc & _ & Hsp & _ & Hip).
  - constructor; [reflexivity|cbn; lia|intros i w Hi; discriminate Hi].
  - lia.
  - intros []; unfold word; cbn; lia.
  - unfold word. cbn. lia.
  - lia.
  - reflexivity.
  - exists m'. split; [exact E|]. split; [exact Hip|]. split; [exact Hsp|exact Hc].
Defined.
