(* ===== verification/Shell.v ===== *)
(** * The C library and the shell

    [libc/] (string, number and formatting functions, [printf], [puts], [scanf])
    and [bin/sbush/sbush.c].  A user program is a tree of system calls: at each
    call it hands its memory to the kernel and goes on with the result and the
    memory it gets back. *)

From stdpp Require Import base gmap list numbers.
From Stdlib Require Import ZArith Lia.
From Stdlib Require Ascii String.
From S2P Require Import Prelude KLib Utils Format Keyboard Syscall.
Import (notations) String.

Inductive prog (A : Type) :=
| Ret (a : A) (m : mem)
| Sys (op : sysop) (m : mem) (k : Z -> mem -> prog A)
| Stuck.
Arguments Ret {A}. Arguments Sys {A}. Arguments Stuck {A}.

Fixpoint bind {A B} (p : prog A) (k : A -> mem -> prog B) : prog B :=
  match p with
  | Ret a m => k a m
  | Sys op m f => Sys op m (fun r m => bind (f r m) k)
  | Stuck => Stuck
  end.

(** Continue with the value of a terminating computation. *)
Definition lift {A B} (o : option A) (k : A -> prog B) : prog B :=
  match o with Some a => k a | None => Stuck end.

(** ** [libc]: the string and number functions have the text of the kernel's *)

Module Libc.

Definition strcmp := kstrcmp.
Definition strncmp := kstrncmp.
Definition strlen := kstrlen.
Definition strcpy := kstrcpy.
Definition strncpy := kstrncpy.
Definition strcat := kstrcat.
Definition memcpy := kmemcpy.
Definition memmove := kmemmove.
Definition strtok := kstrtok.

(** [libc/user_memory.c] and [libc/vm.c] define some functions a second time. *)
Module UserMemory.
Definition memcpy := kmemcpy.
Definition memmove := kmemmove.
End UserMemory.

Module Vm.
Definition malloc (size : Z) : Z := if 0 =? size then 0 else 0.
Definition free (m : mem) (ptr : Z) : mem := m.
End Vm.

Definition itoa := Utils.itoa.
Definition stoi := Utils.stoi.
Definition power := Utils.power.
Definition oct2dec := Utils.oct2dec.
Definition vsprintf := vasprintf.

Definition EOF : Z := -1.

Definition printf (fuel : nat) (m : mem) (fmt : Z) (args : list Z) : prog Z :=
  Sys (SMalloc 64) m (fun buf m =>
    lift (vsprintf fuel m buf fmt args) (fun m =>
      Sys (SKprintf buf) m (fun _ m => Ret 0 m))).

Definition putchar (m : mem) (c : Z) : prog Z := Sys (SPutc (u8 c)) m (fun r m => Ret (s32 r) m).

Fixpoint puts (fuel : nat) (m : mem) (s : Z) : prog Z :=
  match fuel with
  | O => Stuck
  | S f =>
      if rd8 m s =? 0 then
        bind (putchar m 10) (fun r m => Ret (if r =? 10 then 0 else EOF) m)
      else
        let c := rd8 m s in
        bind (putchar m c) (fun r m => if r =? c then puts f m (s + 1) else Ret EOF m)
  end.

Definition scanf (m : mem) (str : Z) : prog Z :=
  Sys (SMalloc 32) m (fun read_buf m =>
    Sys (SReadfile 0 0 read_buf) m (fun bytes m =>
      Ret 0 (strncpy m str read_buf (u64 (s32 bytes))))).

End Libc.

(** ** [bin/sbush/sbush.c] *)

Section Shell.
(** Addresses of the string literals, of a local variable whose address is taken
    and of the local array [path]. *)
Context (lit : String.string -> Z) (local path : Z) (fuel : nat).
Import Libc.

(** Skips the leading spaces. *)
Fixpoint skip_spaces (n : nat) (m : mem) (str : Z) : option Z :=
  match n with
  | O => None
  | S n => if rd8 m str =? 32 then skip_spaces n m (str + 1) else Some str
  end.

(** The loop that moves [str_end] back over spaces. *)
Fixpoint back_spaces (n : nat) (m : mem) (str str_end : Z) : Z :=
  match n with
  | O => str_end
  | S n => if (str <? str_end) && (rd8 m str_end =? 32) then back_spaces n m str (str_end - 1) else str_end
  end.

Definition trim (m : mem) (str : Z) : option (Z * mem) :=
  if rd8 m str =? 0 then Some (str, m)
  else
    match skip_spaces fuel m str with
    | None => None
    | Some str =>
        match strlen fuel m str with
        | None => None
        | Some len =>
            let str_end := back_spaces (Z.to_nat len) m str (str + len - 1) in
            Some (str, wr8 m (str_end + 1) 0)
        end
    end.

(** The loop that appends [name] at [path_len], and the terminator. *)
Fixpoint append_name (n : nat) (m : mem) (name path_len : Z) : option mem :=
  match n with
  | O => None
  | S n =>
      if rd8 m name =? 0 then Some (wr8 m (path + path_len) 0)
      else append_name n (wr8 m (path + path_len) (rd8 m name)) (name + 1) (path_len + 1)
  end.

Definition get_file (m : mem) (name buf : Z) : prog Z :=
  lift (strcpy fuel m path (lit "bin/")) (fun m =>
    lift (strlen fuel m path) (fun path_len =>
      if rd8 m name =? 0 then Ret 0 m
      else
        lift (append_name fuel m name path_len) (fun m =>
          Sys (SOpenfile path) m (fun fd m => Ret (if fd =? 0 then 0 else 1) m)))).

(** The code that follows the preparation of the arguments in every branch:
    [fork]; the parent waits (or reports a background process), the child
    executes [file]. *)
Definition spawn (m : mem) (file : String.string) (argv : Z) (bg_flag : Z) : prog Z :=
  Sys SFork m (fun pid m =>
    let pid := s32 pid in
    if negb (pid =? 0) then
      if negb (bg_flag =? 38) then Sys (SWaitpid pid 0) m (fun _ m => Ret 0 m)
      else printf fuel m (lit "Background Process\n") []
    else
      Sys (SExec (lit file) argv 0) m (fun _ m => Sys (SExit 1) m (fun _ m => Ret 0 m))).

(** The same with a copy of the argument: [p = malloc(size); strcpy(p, arg);]
    and [&p] as the argument vector.  [skip] is the test for a leading slash. *)
Definition spawn_arg (m : mem) (size : Z) (skip : bool) (arg : Z) (file : String.string) (bg_flag : Z)
    : prog Z :=
  Sys (SMalloc size) m (fun p m =>
    lift (strcpy fuel m p arg) (fun m =>
      let p := if skip && (rd8 m p =? 47) then p + 1 else p in
      spawn (wr64 m local p) file local bg_flag)).

(** [if ((strncmp(cmd, w, n)) == 0)] *)
Definition cmd_is (m : mem) (cmd : Z) (w : String.string) (n : Z) (k : bool -> prog Z) : prog Z :=
  lift (strncmp fuel m cmd (lit w) n) (fun r => k (r =? 0)).

(** The last tests of the chain, from [clear] on. *)
Definition execute_rest (m : mem) (cmd bg_flag : Z) : prog Z :=
  cmd_is m cmd "clear" 4 (fun b => if b then spawn m "bin/clear" 0 bg_flag else
  cmd_is m cmd "help" 4 (fun b => if b then printf fuel m (lit "ls, cat, echo, sleep, ps, kill, clear\n") [] else
  cmd_is m cmd "test" 4 (fun b => if b then spawn m "bin/test" 0 bg_flag else
  printf fuel m (lit "\nCommand not found.") []))).

Definition execute_command (m : mem) (cmd arg bg_flag : Z) : prog Z :=
  cmd_is m cmd "ls" 2 (fun b => if b then spawn_arg m 16 false arg "bin/ls" bg_flag else
  cmd_is m cmd "cat" 3 (fun b => if b then spawn_arg m 16 true arg "bin/cat" bg_flag else
  cmd_is m cmd "ps" 2 (fun b => if b then spawn m "bin/ps" 0 bg_flag else
  cmd_is m cmd "sleep" 5 (fun b => if b then spawn_arg m 8 false arg "bin/sleep" bg_flag else
  cmd_is m cmd "echo" 4 (fun b => if b then spawn_arg m 16 false arg "bin/echo" bg_flag else
  cmd_is m cmd "kill" 4 (fun b => if b then spawn_arg m 16 false arg "bin/kill" bg_flag else
  execute_rest m cmd bg_flag)))))).

(** [while (input[i] != ' ') { if (input[i] == '\0') break; i++; }] *)
Fixpoint word_end (n : nat) (m : mem) (input i : Z) : option Z :=
  match n with
  | O => None
  | S n =>
      let c := rd8 m (input + i) in
      if negb (c =? 32) then if c =? 0 then Some i else word_end n m input (i + 1) else Some i
  end.

(** The body of the loop of [main] once a line has been read. *)
Definition shell_line (m : mem) (input buf : Z) : prog Z :=
  lift (strlen fuel m input) (fun len =>
    let bg_flag := rd8 m (input + (len - 1)) in
    lift (word_end fuel m input 0) (fun i =>
      Sys (SMalloc 6) m (fun str m =>
        let m := strncpy m str input i in
        Sys (SMalloc 16) m (fun arg m =>
          let m := strncpy m arg (input + i + 1) (u64 (s32 (len - i + 1))) in
          bind (get_file m str buf) (fun file_exists m =>
            if file_exists =? 0 then Ret 0 m else execute_command m str arg bg_flag))))).

(** [main]; [n] bounds the number of lines. *)
Fixpoint shell_loop (n : nat) (m : mem) (input buf : Z) : prog Z :=
  match n with
  | O => Stuck
  | S n =>
      lift (strncmp fuel m input (lit "exit") 4) (fun r =>
        if r =? 0 then
          bind (printf fuel m (lit "\nExiting...") []) (fun _ m =>
            Sys (SExit (-1)) m (fun _ m => Ret 0 m))
        else
          Sys (SReadfile 0 0 input) m (fun bytes m =>
            let c := rd8 m input in
            if (c =? 10) || (c =? 32) || (c =? 0) || (s32 bytes =? 0) then shell_loop n m input buf
            else bind (shell_line m input buf) (fun _ m => shell_loop n m input buf)))
  end.

Definition main (n : nat) (m : mem) (buf : Z) : prog Z :=
  Sys (SMalloc 32) m (fun input m => shell_loop n m input buf).

End Shell.

(** ** The calls of a program *)

(** The system calls a program makes when the kernel answers [reply] and leaves
    the program's memory alone. *)
Fixpoint calls {A} (reply : sysop -> Z) (p : prog A) : list sysop :=
  match p with
  | Ret _ _ => []
  | Sys op m k => op :: calls reply (k (reply op) m)
  | Stuck => []
  end.

(** ** Command dispatch *)

(** The commands, the size of the block for their argument (if they take one) and
    the program they run. *)
Definition commands : list (String.string * (option Z * String.string)) :=
  [ ("ls", (Some 16, "bin/ls")); ("cat", (Some 16, "bin/cat")); ("ps", (None, "bin/ps"));
    ("sleep", (Some 8, "bin/sleep")); ("echo", (Some 16, "bin/echo")); ("kill", (Some 16, "bin/kill"));
    ("clear", (None, "bin/clear")); ("test", (None, "bin/test")) ]%string.

(** The words that the command is compared with, in that order. *)
Definition words_tried : list String.string :=
  ["ls"; "cat"; "ps"; "sleep"; "echo"; "kill"; "clear"; "help"; "test"]%string.

Definition spawn_calls (lit : String.string -> Z) (file : String.string) (argv pid : Z) : list sysop :=
  SFork :: if pid =? 0 then [SExec (lit file) argv 0; SExit 1] else [SWaitpid pid 0].

Lemma words_tried_short x : x ∈ words_tried -> (length (chars x) < 10)%nat.
Proof.
  assert (HF : Forall (fun x => (length (chars x) < 10)%nat) words_tried)
    by (apply (bool_decide_eq_true_1 _); vm_compute; reflexivity).
  rewrite list.Forall_forall in HF. apply HF.
Qed.

Lemma cmd_compare lit fuel m cmd w n s :
  Forall (fun w => cstr m (lit w) (chars w)) words_tried -> (10 <= fuel)%nat ->
  w ∈ words_tried -> cstr m cmd s -> (length s < 10)%nat -> 0 < n ->
  Libc.strncmp fuel m cmd (lit w) n = Some (strcmp_spec s (chars w)).
Proof.
  intros Hlit Hf Hw Hs Hl Hn. unfold Libc.strncmp. rewrite kstrncmp_pos by exact Hn.
  apply kstrcmp_spec; [exact Hs| |lia]. rewrite list.Forall_forall in Hlit. apply Hlit, Hw.
Qed.

(** The branch that a command word selects; only [cat] drops a leading slash. *)
Lemma dispatch_prog lit local fuel m cmd arg bg w size file :
  Forall (fun w => cstr m (lit w) (chars w)) words_tried -> (10 <= fuel)%nat ->
  (w, (size, file)) ∈ commands -> cstr m cmd (chars w) ->
  execute_command lit local fuel m cmd arg bg =
  match size with
  | Some n => spawn_arg lit local fuel m n (bool_decide (w = "cat"%string)) arg file bg
  | None => spawn lit fuel m file 0 bg
  end.
Proof.
  intros Hlit Hf Hin Hc. unfold execute_command, execute_rest.
  assert (Hl : (length (chars w) < 10)%nat).
  { revert Hin. apply (list.Forall_forall (fun '(w, _) => (length (chars w) < 10)%nat)).
    repeat constructor; vm_compute; lia. }
  assert (E : forall w' n k, w' ∈ words_tried -> 0 < n ->
     cmd_is lit fuel m cmd w' n k = k (strcmp_spec (chars w) (chars w') =? 0)).
  { intros w' n k Hw Hn. unfold cmd_is. rewrite (cmd_compare lit fuel m cmd w' n (chars w)) by assumption.
    reflexivity. }
  assert (M : forall w', bool_decide (w' ∈ words_tried) = true -> w' ∈ words_tried)
    by (intros w'; apply bool_decide_eq_true_1).
  unfold commands in Hin.
  repeat (apply elem_of_cons in Hin as [Hin|Hin];
    [injection Hin as -> -> ->;
     repeat (rewrite E by (lia || apply M; vm_compute; reflexivity);
       match goal with |- context [strcmp_spec ?x ?y =? 0] =>
         let b := eval vm_compute in (strcmp_spec x y =? 0) in
         change (strcmp_spec x y =? 0) with b; cbn iota beta end);
     reflexivity|]).
  inversion Hin.
Qed.

Section Dispatch.
Context (lit : String.string -> Z) (local path : Z) (fuel : nat) (m : mem) (reply : sysop -> Z).
Context (cmd arg bg : Z) (a : list Z).
Context (Hlit : Forall (fun w => cstr m (lit w) (chars w)) words_tried).
Context (Hbg : bg <> 38) (Hfuel : (length a + 10 <= fuel)%nat).
Context (Harg : cstr m arg a).
Context (Hp : forall n, reply (SMalloc n) + slen a < arg \/ arg + slen a < reply (SMalloc n)).

Lemma spawn_runs m' file argv :
  calls reply (spawn lit fuel m' file argv bg) = spawn_calls lit file argv (s32 (reply SFork)).
Proof.
  unfold spawn, spawn_calls. cbn [calls]. rewrite (proj2 (Z.eqb_neq bg 38)) by exact Hbg. cbn [negb].
  destruct (s32 (reply SFork) =? 0); reflexivity.
Qed.

Lemma spawn_arg_runs size skip file :
  calls reply (spawn_arg lit local fuel m size skip arg file bg) =
  SMalloc size :: spawn_calls lit file local (s32 (reply SFork)).
Proof.
  unfold spawn_arg. cbn [calls].
  destruct (kstrcpy_spec fuel m (reply (SMalloc size)) arg a Harg) as (m' & E & _); [lia|pose proof (Hp size); lia|].
  unfold Libc.strcpy. rewrite E. cbn [lift]. rewrite spawn_runs. reflexivity.
Qed.

(** C20: a command word selects its program: for each of the eight commands the
    shell copies the argument if the command takes one, forks, and then the
    child executes [bin/] followed by the command (and exits with 1 if that
    returns), while the parent waits for the child.  The background flag is not
    ['&'] (with it the parent does not wait), and the block that [malloc] returns
    does not overlap the argument. *)
Theorem commands_dispatch w size file :
  (w, (size, file)) ∈ commands -> cstr m cmd (chars w) ->
  calls reply (execute_command lit local fuel m cmd arg bg) =
  match size with
  | Some n => SMalloc n :: spawn_calls lit file local (s32 (reply SFork))
  | None => spawn_calls lit file 0 (s32 (reply SFork))
  end.
Proof.
  intros Hin Hc. rewrite (dispatch_prog lit local fuel m cmd arg bg w size file Hlit) by (assumption || lia).
  destruct size; [apply spawn_arg_runs|apply spawn_runs].
Qed.

End Dispatch.

(** Literals at 1000, 1010, ..., the word "ps" at 200, the argument "x" at 300. *)
Definition demo_lit (w : String.string) : Z :=
  match list_find (fun x => x = w) words_tried with
  | Some (i, _) => 1000 + 10 * Z.of_nat i
  | None => 2000
  end.

Definition demo_shell (w : String.string) : mem :=
  foldr (fun w m => write_temp m (demo_lit w) (chars w ++ [0]))
    (write_temp (write_temp ∅ 200 (chars w ++ [0])) 300 [120; 0]) words_tried.

Definition demo_reply (op : sysop) : Z := match op with SMalloc _ => 500 | SFork => 7 | _ => 0 end.

Lemma commands_dispatch_witness :
  calls demo_reply (execute_command demo_lit 400 20 (demo_shell "cat") 200 300 0) =
  SMalloc 16 :: spawn_calls demo_lit "bin/cat" 400 (s32 7).
Proof.
  apply (commands_dispatch demo_lit 400 20 (demo_shell "cat") demo_reply 200 300 0 [120])
    with (w := "cat"%string) (size := Some 16).
  - apply (bool_decide_eq_true_1 (Forall (fun w => cstr (demo_shell "cat") (demo_lit w) (chars w)) words_tried)).
    vm_compute. reflexivity.
  - lia.
  - cbn. lia.
  - apply (bool_decide_eq_true_1 (cstr (demo_shell "cat") 300 [120])). vm_compute. reflexivity.
  - intros n. cbn. lia.
  - right. left.
  - apply (bool_decide_eq_true_1 (cstr (demo_shell "cat") 200 (chars "cat"))). vm_compute. reflexivity.
Defined.

(** ** Finding the program *)

Lemma append_name_spec path n m name len s :
  cstr m name s -> (length s < n)%nat -> 0 <= len ->
  path + len + slen s < name \/ name + slen s < path + len ->
  exists m', append_name path n m name len = Some m' /\
    forall a, a < path + len \/ path + len + slen s < a -> rd8 m' a = rd8 m a.
Proof.
  revert m name len s. induction n as [|n IH]; intros m name len s Hs Hn Hl Hd; [lia|].
  cbn [append_name]. destruct s as [|c s]; cbn [cstr] in Hs.
  - rewrite Hs. eexists. split; [reflexivity|]. intros a Ha. apply rd8_wr8_ne. cbn in Ha. lia.
  - destruct Hs as (Hb & Hc & Hs). cbn [length] in *. rewrite Hb, (proj2 (Z.eqb_neq c 0)) by exact Hc.
    destruct (IH (wr8 m (path + len) c) (name + 1) (len + 1) s) as (m' & E & H); [|lia|lia|lia|].
    + apply cstr_wr8; [lia|exact Hs].
    + exists m'. split; [exact E|]. intros a Ha. rewrite H by lia. apply rd8_wr8_ne. lia.
Qed.

Lemma get_file_spec lit path fuel m name buf s :
  cstr m (lit "bin/"%string) (chars "bin/") -> cstr m name s -> s <> [] ->
  (length s + 5 < fuel)%nat ->
  path + 5 + slen s < name \/ name + slen s < path ->
  path < lit "bin/"%string \/ lit "bin/"%string + 4 < path ->
  exists m', get_file lit path fuel m name buf =
      Sys (SOpenfile path) m' (fun fd m => Ret (if fd =? 0 then 0 else 1) m) /\
    cstr m' path (chars "bin/") /\
    (forall a, a < path \/ path + 5 + slen s < a -> rd8 m' a = rd8 m a).
Proof.
  intros Hb Hn Hne Hf Hd Hl. unfold get_file, Libc.strcpy, Libc.strlen.
  destruct (kstrcpy_spec fuel m path _ _ Hb) as (m1 & -> & Hc & Hr); [cbn; lia|cbn; lia|].
  cbn [lift]. rewrite (kstrlen_spec fuel m1 path _ Hc) by (cbn; lia).
  rewrite decide_False by discriminate. cbn [lift].
  replace (slen (chars "bin/") + 1) with 5 by reflexivity.
  replace (slen (chars "bin/")) with 4 in Hr by reflexivity.
  assert (Hn1 : cstr m1 name s).
  { eapply cstr_ext; [|exact Hn]. intros a Ha. apply Hr. lia. }
  destruct (append_name_spec path fuel m1 name 5 s Hn1) as (m2 & E & H2); [lia|lia|lia|].
  rewrite E. destruct s as [|c s]; [congruence|]. destruct Hn1 as (Hc1 & Hc0 & _).
  rewrite Hc1, (proj2 (Z.eqb_neq c 0)) by exact Hc0. cbn [lift].
  exists m2. split; [reflexivity|]. split.
  - eapply cstr_ext; [|exact Hc].
    intros a Ha. replace (slen (chars "bin/")) with 4 in Ha by reflexivity. apply H2. lia.
  - intros a Ha. rewrite H2 by lia. apply Hr. lia.
Qed.

(** Whatever command was typed, the shell asks the kernel for the file
    "bin/": [strlen] counts the terminator, so the name is appended behind the
    terminator of the prefix.  The command is taken to exist whenever the kernel
    finds that directory. *)
Theorem get_file_opens_directory lit path fuel m name buf s :
  cstr m (lit "bin/"%string) (chars "bin/") -> cstr m name s -> s <> [] ->
  (length s + 5 < fuel)%nat ->
  path + 5 + slen s < name \/ name + slen s < path ->
  path < lit "bin/"%string \/ lit "bin/"%string + 4 < path ->
  exists m', get_file lit path fuel m name buf =
      Sys (SOpenfile path) m' (fun fd m => Ret (if fd =? 0 then 0 else 1) m) /\
    cstr m' path (chars "bin/").
Proof.
  intros Hb Hn Hne Hf Hd Hl.
  destruct (get_file_spec lit path fuel m name buf s Hb Hn Hne Hf Hd Hl) as (m' & E & Hc & _).
  exists m'. split; [exact E|exact Hc].
Qed.

Lemma get_file_opens_directory_witness :
  let m := write_temp (write_temp ∅ 2000 (chars "bin/" ++ [0])) 200 (chars "frob" ++ [0]) in
  exists m', get_file (fun _ => 2000) 600 20 m 200 0 =
      Sys (SOpenfile 600) m' (fun fd m => Ret (if fd =? 0 then 0 else 1) m) /\
    cstr m' 600 (chars "bin/").
Proof.
  intros m. apply (get_file_opens_directory (fun _ => 2000) 600 20 m 200 0 (chars "frob")).
  - apply (bool_decide_eq_true_1 (cstr m 2000 (chars "bin/"))). vm_compute. reflexivity.
  - apply (bool_decide_eq_true_1 (cstr m 200 (chars "frob"))). vm_compute. reflexivity.
  - discriminate.
  - cbn. lia.
  - cbn. lia.
  - lia.
Defined.

(** ** A line of input *)

Lemma word_end_spec n m input i w rest :
  cstr m (input + i) (w ++ rest) -> 32 ∉ w -> (rest = [] \/ head rest = Some 32) -> (length w < n)%nat ->
  word_end n m input i = Some (i + slen w).
Proof.
  revert n i. induction w as [|c w IH]; intros [|n] i Hs Hin Hr Hn; cbn [length] in *; try lia;
    cbn [word_end app cstr] in *.
  - destruct Hr as [-> | Hr]; [cbn in Hs; rewrite Hs; cbn; f_equal; lia|].
    destruct rest as [|c rest]; [discriminate|]. injection Hr as ->. destruct Hs as (-> & _).
    cbn. f_equal. lia.
  - destruct Hs as (-> & Hc & Hs). apply not_elem_of_cons in Hin as [Hc32 Hin].
    rewrite (proj2 (Z.eqb_neq c 32)), (proj2 (Z.eqb_neq c 0)) by congruence. cbn [negb].
    rewrite <- Z.add_assoc in Hs. rewrite (IH n (i + 1)) by (assumption || lia). f_equal. lia.
Qed.

Lemma calls_bind {A B} reply (p : prog A) (k : A -> mem -> prog B) a op m :
  p = Sys op m (fun r m => Ret (a r) m) ->
  calls reply (bind p k) = op :: calls reply (k (a (reply op)) m).
Proof. intros ->. reflexivity. Qed.

(** A command is never run in the background: the flag is read at the
    position of the string's terminator (again because [strlen] counts it), so
    for a line made of a command without argument, a space and any rest, "&"
    included, the shell forks and waits for the child. *)
Theorem background_ignored lit local path fuel m reply input buf w file r :
  let s := chars w ++ 32 :: r in
  let str := reply (SMalloc 6) in
  let arg := reply (SMalloc 16) in
  (w, (None, file)) ∈ commands -> r <> [] ->
  cstr m input s -> (length s + 20 < fuel)%nat -> slen s < 2 ^ 30 ->
  Forall (fun w => cstr m (lit w) (chars w) /\ lit w + 10 < input) ("bin/"%string :: words_tried) ->
  input + slen s < str -> str + 10 < arg -> arg + slen s + 2 < path ->
  calls reply (shell_line lit local path fuel m input buf) =
  [SMalloc 6; SMalloc 16; SOpenfile path] ++
  if reply (SOpenfile path) =? 0 then [] else spawn_calls lit file 0 (s32 (reply SFork)).
Proof.
  intros s str arg Hin Hr Hs Hf Hlen Hlit H1 H2 H3.
  assert (Hw : (1 <= length (chars w) < 6)%nat /\ 32 ∉ chars w).
  { assert (HF : Forall (fun x : String.string * (option Z * String.string) =>
      (1 <= length (chars x.1) < 6)%nat /\ 32 ∉ chars x.1) commands).
    { apply (bool_decide_eq_true_1 _). vm_compute. reflexivity. }
    rewrite list.Forall_forall in HF. exact (HF _ Hin). }
  destruct Hw as [Hwl Hw32]. set (wl := chars w) in *.
  assert (Hsl : slen s = slen wl + 1 + slen r) by (unfold s; rewrite length_app; cbn [length]; lia).
  apply Forall_cons_1 in Hlit as [[Hb Hbl] Hlit].
  unfold shell_line, Libc.strlen, Libc.strncpy.
  rewrite (kstrlen_spec fuel m input s Hs), decide_False by (lia || (unfold s; destruct wl; discriminate)).
  cbn [lift]. replace (input + (slen s + 1 - 1)) with (input + slen s) by lia.
  rewrite (cstr_end m input s Hs).
  rewrite (word_end_spec fuel m input 0 wl (32 :: r));
    [|rewrite Z.add_0_r; exact Hs|exact Hw32|right; reflexivity|unfold s in Hf; rewrite length_app in Hf; lia].
  cbn [lift calls app]. fold str. do 2 f_equal.
  set (m1 := kstrncpy m str input (0 + slen wl)). fold arg.
  destruct wl as [|c wl'] eqn:Ewl; [cbn in Hwl; lia|].
  destruct (kstrncpy_spec m str input c (wl' ++ 32 :: r) (0 + slen (c :: wl')) Hs) as [Hc1 Hf1];
    [cbn [length]; lia|right; exact H1|].
  fold m1 in Hc1, Hf1. rewrite Z.add_0_l, Nat2Z.id in Hc1.
  change (c :: wl' ++ 32 :: r) with ((c :: wl') ++ 32 :: r) in Hc1. rewrite take_app_length in Hc1.
  destruct r as [|d r]; [congruence|].
  assert (Hin1 : cstr m1 (input + slen (c :: wl') + 1) (d :: r)).
  { eapply cstr_ext with (m := m).
    - intros a Ha. apply Hf1. cbn [length] in *. lia.
    - unfold s in Hs. apply cstr_app in Hs as [_ (_ & _ & Hs)]. exact Hs. }
  replace (u64 (s32 (slen s + 1 - (0 + slen (c :: wl')) + 1))) with (slen (d :: r) + 3)
    by (rewrite s32_small, u64_small by lia; lia).
  replace (input + (0 + slen (c :: wl')) + 1) with (input + slen (c :: wl') + 1) by lia.
  set (m2 := kstrncpy m1 arg (input + slen (c :: wl') + 1) (slen (d :: r) + 3)).
  destruct (kstrncpy_spec m1 arg (input + slen (c :: wl') + 1) d r (slen (d :: r) + 3) Hin1) as [_ Hf2];
    [lia|right; lia|].
  fold m2 in Hf2.
  assert (Hlow : forall a, a < str -> rd8 m2 a = rd8 m a).
  { intros a Ha. rewrite Hf2 by lia. apply Hf1. lia. }
  assert (Hstr2 : cstr m2 str (c :: wl')).
  { eapply cstr_ext; [|exact Hc1]. intros a Ha. apply Hf2. left. cbn [length] in *. lia. }
  assert (Hlit2 : forall x, x ∈ words_tried -> cstr m2 (lit x) (chars x)).
  { intros x Hx. rewrite list.Forall_forall in Hlit. destruct (Hlit x Hx) as [Hx1 Hx2].
    pose proof (words_tried_short x Hx).
    eapply cstr_ext; [|exact Hx1]. intros a Ha. apply Hlow. lia. }
  destruct (get_file_spec lit path fuel m2 str buf (c :: wl')) as (m3 & E & Hp3 & Hf3).
  { eapply cstr_ext; [|exact Hb]. intros a Ha. replace (slen (chars "bin/")) with 4 in Ha by reflexivity.
    apply Hlow. lia. }
  { exact Hstr2. } { discriminate. } { cbn [length] in *. lia. } { right. cbn [length] in *. lia. } { right. lia. }
  rewrite (calls_bind reply _ _ _ _ _ E). f_equal.
  destruct (reply (SOpenfile path) =? 0); [reflexivity|].
  assert (Hb3 : forall a, a < path -> rd8 m3 a = rd8 m2 a) by (intros a Ha; apply Hf3; lia).
  rewrite (dispatch_prog lit local fuel m3 str arg 0 w None file); [apply spawn_runs; lia| |lia|exact Hin|].
  - apply list.Forall_forall. intros x Hx. eapply cstr_ext; [|exact (Hlit2 x Hx)].
    intros a Ha. apply Hb3. rewrite list.Forall_forall in Hlit. destruct (Hlit x Hx) as [_ Hx2].
    pose proof (words_tried_short x Hx).
    lia.
  - unfold wl in Ewl. rewrite Ewl. eapply cstr_ext; [|exact Hstr2]. intros a Ha. apply Hb3.
    cbn [length] in *. lia.
Qed.

Lemma background_ignored_witness :
  let m := write_temp (foldr (fun w m => write_temp m (demo_lit w) (chars w ++ [0]))
             (write_temp ∅ 2000 (chars "bin/" ++ [0])) words_tried) 3000 (chars "ps &" ++ [0]) in
  let reply := fun op => match op with SMalloc 6 => 3100 | SMalloc _ => 3200 | SFork => 7 | _ => 1 end in
  calls reply (shell_line demo_lit 3400 3300 40 m 3000 0) =
  [SMalloc 6; SMalloc 16; SOpenfile 3300; SFork; SWaitpid 7 0].
Proof.
  intros m reply.
  apply (background_ignored demo_lit 3400 3300 40 m reply 3000 0 "ps"%string "bin/ps"%string [38]).
  - right. right. left.
  - discriminate.
  - apply (bool_decide_eq_true_1 (cstr m 3000 (chars "ps" ++ [32; 38]))). vm_compute. reflexivity.
  - vm_compute. lia.
  - vm_compute. reflexivity.
  - apply (bool_decide_eq_true_1 (Forall (fun w => cstr m (demo_lit w) (chars w) /\ demo_lit w + 10 < 3000)
      ("bin/"%string :: words_tried))). vm_compute. reflexivity.
  - vm_compute. reflexivity.
  - vm_compute. reflexivity.
  - vm_compute. reflexivity.
Defined.
