(* ===== verification/Programs.v ===== *)
(** * User programs

    The start-up code [crt/crt1.c] and the programs of [bin/] besides the shell,
    as trees of system calls like the shell.  Addresses of string literals and of
    local variables are parameters. *)

From stdpp Require Import base gmap list numbers.
From Stdlib Require Import ZArith Lia.
From Stdlib Require Ascii String.
From S2P Require Import Prelude KLib Utils Format Keyboard Syscall Shell.
Import (notations) String.
Import Libc.

(** ** [crt/crt1.c] *)



(** ** [bin/] *)

Section Programs.
Context (lit : String.string -> Z) (fuel : nat).


(** [while (bytes_read-- != 0) printf("%c", buf[j++]);] *)
Fixpoint cat_loop (n : nat) (m : mem) (buf bytes_read j : Z) : prog Z :=
  match n with
  | O => Stuck
  | S n =>
      if bytes_read =? 0 then Ret 0 m
      else
        bind (printf fuel m (lit "%c") [rd8 m (buf + j)]) (fun _ m =>
          cat_loop n m buf (s32 (bytes_read - 1)) (j + 1))
  end.

Definition cat (str buf : Z) (m : mem) (argc argv envp : Z) : prog Z :=
  lift (strcpy fuel m str (rd64 m argv)) (fun m =>
    lift (strlen fuel m str) (fun len =>
      let m := wr8 m (str + s32 len) 0 in
      Sys (SOpenfile str) m (fun fd m =>
        if fd =? 0 then Ret 0 m
        else
          Sys (SReadfile fd 256 buf) m (fun bytes_read m =>
            bind (printf fuel m (lit "\n") []) (fun _ m => cat_loop fuel m buf (s32 bytes_read) 0))))).

(** Without an argument the second test reads at address zero. *)
Definition ls (m : mem) (argc argv envp : Z) : prog Z :=
  let pwd := rd64 m argv in
  let rest m :=
    bind (if rd8 m pwd =? 47
          then Sys (SOpendir (u64 (pwd + 1))) m (fun r m => Ret r m)
          else Sys (SOpendir pwd) m (fun r m => Ret r m)) (fun dir_add m =>
      Sys (SReaddir dir_add) m (fun _ m =>
        bind (printf fuel m (lit "\n") []) (fun _ m => Ret 0 m))) in
  if pwd =? 0 then Sys (SOpendir (lit "")) m (fun _ m => rest m) else rest m.

(** The index at which the loop of [kill] stops. *)
Fixpoint kill_index (n : nat) (m : mem) (arg j : Z) : option Z :=
  match n with
  | O => None
  | S n =>
      if rd8 m (arg + j) =? 32 then Some j
      else if rd8 m (arg + j + 1) =? 0 then Some j
      else kill_index n m arg (j + 1)
  end.

Definition kill_main (m : mem) (argc argv envp : Z) : prog Z :=
  let arg := rd64 m argv in
  lift (kill_index fuel m arg 0) (fun j =>
    let id := s32 (stoi m (arg + j + 1)) in
    Sys (SKill (u64 id)) m (fun _ m =>
      bind (printf fuel m (lit "\n") []) (fun _ m => Ret 0 m))).

Definition ps_main (m : mem) (argc argv envp : Z) : prog Z := Sys SPs m (fun _ m => Ret 0 m).

Definition sleep_main (m : mem) (argc argv envp : Z) : prog Z :=
  Sys (SSleep_shell (stoi m (rd64 m argv))) m (fun _ m => Ret 0 m).

Definition clear_main (m : mem) (argc argv envp : Z) : prog Z := Sys SClear m (fun _ m => Ret 0 m).

(** [n] rounds of an endless loop of [bin/test]. *)
Fixpoint test_loop (n : nat) (text : String.string) (m : mem) (a i : Z) : prog Z :=
  match n with
  | O => Stuck
  | S n =>
      let a := s32 (a + 1) in
      if a =? 100000000 then
        bind (printf fuel m (lit text) [a + i]) (fun _ m => test_loop n text m 0 (Z.rem (i + 1) 10))
      else test_loop n text m a i
  end.

(** The child prints [Parent] and the parent prints [Child]. *)
Definition test_main (n : nat) (m : mem) (argc argv envp : Z) : prog Z :=
  Sys SFork m (fun pid m =>
    if s32 pid =? 0 then test_loop n "Parent %d\n\n" m 100 0 else test_loop n "Child %d\n\n" m 100 0).
End Programs.

(** ** What a program prints *)







(** ** Claim *)




